(* ===== verification/_CoqProject ===== *)
-Q . S2P
Prelude.v
Ledger.v
Mapping.v
Config.v
Domain.v
Device.v
Reset.v
Job.v
Batch.v
Commit.v
JobInv.v
JobStep.v
JobAbort.v
JobSubmit.v
Load.v
JobSched.v
JobRun.v
Power.v
JobProps.v
JobFaults.v
Fence.v
JobRegs.v
Mm.v
MmDump.v
Action.v
Mem.v
DkmsBuf.v
Dma32.v
Sg.v
Gem.v
GemLife.v
GemSync.v
GemMap.v
Nbuf.v
GemPages.v
GemRefs.v
GemFile.v
Drm.v
Probe.v
Irq.v
Devfreq.v
DevfreqNodes.v
Opp.v
VendorDevfreq.v
VendorOpp.v
Debugger.v
Ioctl.v
Misc.v
