(* ===== verification/Prelude.v ===== *)
(** * Verification of the RKNPU driver

    This library models the out-of-tree Rockchip NPU driver (src/drivers/rknpu)
    and its DMA32 heap (src/dma32-heap), and proves what makes their parts
    correct.  The definitions keep the names of the C functions, structures and
    fields.

    ** The program

    rknpu_probe picks the configuration of the SoC (rknpu_drv.c).  User space
    submits jobs, ranges of tasks in a buffer object, to one core or to a gang
    of cores (rknpu_job.c): a job waits in the queue of each of its cores, is
    programmed into the hardware, batch by batch, when it has reached the head
    of all of them, and is finished by interrupts; a submission blocks until
    then or is cleaned up by a work.  A job runs in an IOMMU domain, which is
    switched when the device has no other user (rknpu_iommu.c); a job that
    times out is aborted and the cores are reset (rknpu_reset.c).  References
    keep the device powered (rknpu_drv.c).  Memory comes from the misc device's
    sessions (rknpu_mem.c), from the DMA32 heap, or from GEM objects
    (rknpu_gem.c), which may use chunks of SRAM (rknpu_mm.c) and map
    scatterlists at an IOVA of their own (rknpu_iommu.c).  Frequency and voltage
    follow the power references through devfreq, in a build for the mainline
    kernel and one for the vendor's, and can be set by hand through debugfs.

    ** The files

    - Prelude: record update, errno, machine integers, bit flags, functions
      updated at a point, and generic lemmas on them.  Ledger: what a driver
      holds of the kernel, as counts by resource, with the tactics for their
      algebra.  Mapping: translations of addresses and the bytes of scatter
      tables.
    - Config (rknpu_drv.c, rknpu_ioctl.h): [rknpu_config] and the seven SoC
      configurations, [probe_config], [rk3576_cache_sgt_init].
    - Domain (rknpu_iommu.c): the table of domains and the switch; the class
      [IommuDomain] is what the scheduler relies on (a successful get holds
      references until its put, nothing else moves), with one instance for each
      build of the API.
    - Device (rknpu_drv.h, rknpu_job.h): [rknpu_device], the state that the rest
      of the scheduler shares, and the state and fault monad [M].  Jobs, argument structures, fences and buffer
      objects live in stores keyed by address; an access to an address that is
      not allocated is a [Fault], as is a NULL dereference or a work that was
      never initialised.  The registers are a log of writes and an oracle for
      reads.
    - Reset (rknpu_reset.c), Job (rknpu_job.c, rknpu_fence.c): the operations.
    - Batch, Commit: how a task range is cut into batches, and the registers one
      commit writes.
    - JobInv, JobStep, JobAbort, JobSched, JobProps: the invariant of the
      scheduler, the rules for the functions that run under irq_lock, the abort
      of a job whose interrupts have not come, the system of submitting threads,
      interrupts, works, reapers and aborts, and its properties.
    - JobRun: one job alone on a core, from its first commit to the last
      interrupt.  JobFaults: executions that reach a use after free.  JobRegs:
      the bandwidth and amount counters.  Fence (rknpu_fence.c): the fence
      context, its numbers, and the fences of aborted jobs and of two cores.
    - Load (rknpu_drv.c, rknpu_debugger.c): the timer that samples the busy time
      of the cores, a step of the system of JobSched, and the node that prints it.
    - Power (rknpu_drv.c, rknpu_debugger.c): the power references.
    - Ioctl (rknpu_drv.c): the dispatch of both devices and its power bracket;
      the handlers, which are the operations of the other files, are parameters.
      Misc: the misc device with its real handlers, as a transition system of
      opens, ioctls and closes over power, sessions and jobs.
    - Mm, MmDump (rknpu_mm.c): the SRAM chunks; the class [BitmapOps] is what
      they need of find_next_zero_bit.
    - Action (rknpu_drv.c): rknpu_action and its ioctl.
    - Mem (rknpu_mem.c, rknpu_drv.c): sessions and memory objects.  DkmsBuf: the
      exporter of the DKMS build, with the attachments and the memory behind
      every dma-buf.
    - Dma32 (dma32_heap.c): the heap.
    - Sg (rknpu_iommu.c): IOVA allocation, mapping and unmapping scatterlists.
    - Gem (rknpu_gem.c, rknpu_gem.h): GEM objects, their allocation from the DMA
      API or from SRAM or NBUF plus pages, reference counts, handles and tracked
      ranges; GemLife: what creation and destruction hold; GemSync: the
      synchronisation ioctl; GemMap: mmap, faults, dumb buffers and PRIME;
      GemPages: the build whose buffers are made of pages, through Sg; GemFile:
      the entry points of mmap and the references of mappings; GemRefs: files,
      jobs and closes as a transition system.
    - Nbuf: from the configuration through probe to the bytes that an object in
      the NBUF shows.  Drm: the scheduler's view of the objects (Device) and the
      full one (Gem) move together; a job finds its object.
    - Probe (rknpu_drv.c, rknpu_debugfs_ctrl.c): probe, remove, suspend and resume
      as operations on the ledger.  Irq: the interrupt tables and the handlers
      that a registration connects.
    - Devfreq (rknpu_devfreq_dkms.c, rknpu_debugfs_ctrl.c): the change of frequency
      and voltage, and the nodes that set them directly.  Opp and VendorDevfreq
      (rknpu_devfreq.c): the same on the vendor kernel, with the OPP helper for
      two supplies; VendorOpp: the data of the SoCs and runtime PM with them.
      DevfreqNodes: locks, runtime PM and the nodes that show the clocks; the
      class [DevfreqBuild] has an instance for the DKMS build, for the stub and
      for a kernel without devfreq.
    - Debugger (rknpu_debugger.c): the text nodes and their files.

    ** How the state and the environment are modelled

    Code under a lock is one step; code that sleeps or waits takes what the
    other threads do meanwhile as an argument ([others], [wait_step], [poll]).
    What the kernel answers (allocations, user copies, polls, the IOMMU core,
    the page allocator) is an argument too, over which the theorems quantify.
    C integers are Z with their wrap-around written out: [u32], [u64], [s32].

    ** What the theorems show

    - The scheduler: in every state that submissions, interrupts, works, reapers
      and the load timer can reach, no operation touches a freed job, the counters of a
      job agree with the queues that hold it, only complete gangs are
      committed, and gangs cannot deadlock (JobProps).  A job that runs on a
      core is driven through all its batches and finished (JobRun); the batches
      cut its range exactly (Batch), and a commit writes exactly the registers
      of its batch (Commit).  The chosen core is a least loaded one, and the
      waiter sleeps where the last interrupt wakes (Batch).  The reachable
      states contain the time-outs of running jobs (JobAbort, JobProps), but not
      the time-outs of queued jobs, aborts after an interrupt and
      rknpu_job_timeout_clean, because they break the invariant: JobFaults has
      the executions; Fence shows that an abort leaves its fence unsignalled.  A registration of the interrupts connects every core to its
      handler (Irq).
    - Compositions: whatever user space destroys, a job of the DRM device finds
      its object (Drm), one of the misc device need not (Misc); sessions, power
      and jobs stay sound under any sequence of calls of the misc device (Misc);
      an object of one core shows its half of the NBUF (Nbuf).
    - Domains: the switch refines its specification on every error path, the
      wait for other users ends, and with the code as it is the switch cannot be
      reached (Domain).
    - Resources balance: power references (Power, and around every ioctl Ioctl),
      sessions (Mem) and the exporter behind them (DkmsBuf), pages of the heap (Dma32), SRAM chunks (Mm), GEM objects
      with everything they hold (GemLife, GemMap, GemPages) and the references to
      them (GemRefs, GemFile), what probe takes (Probe), the files of the debugger (Debugger);
      with the error paths that do not balance stated as theorems of their own.
    - Mappings: the segments returned for a scatterlist name exactly its bytes
      and the unmap recovers the range (Sg); a synchronisation covers exactly
      the bytes asked (Mem, GemSync, with the ranges where it does not); kernel
      and user mappings cover the buffer (Dma32), and a user sees the bytes that
      the device sees (GemMap).
    - Frequency scaling: the voltage suits the rate at every operating point that
      a change passes through (Devfreq, Opp), but for one error path (Opp), and a
      resume programs the read margins again (VendorOpp); the
      busy time reported for a core is what its jobs ran, but for jobs on several
      cores (Load).
    - SRAM allocation is first fit, and free undoes it (Mm); the dump is a
      picture of the bitmap (MmDump); sizes reported are right (Action).
    - Probe selects a well-formed configuration (Config); registers are counted
      and restored (JobRegs); a reset has exactly two outcomes (Reset).

    ** Fuel

    [mm_search] and [mm_grow] get one more unit than there are chunks: a restart
    and a growth both move past at least one chunk.  [alloc_loop] gets the
    length in pages plus one, as every page is at least one page long.
    [dump_loop] gets one unit more than there are chunks.  Theorems prove that
    these return.  [clean_jobs] gets the length of the queue plus one.
    [domain_get_retry] gets the three attempts of the code.  Loops that really depend
    on the environment ([switch_loop], [wait_loop], [rknpu_power_put]) consume
    the list of its answers instead.

    ** Not modelled

    The registration macros of the modules and the tables of function pointers;
    rknpu_gem_prime_import, which only forwards to the DRM core; on the vendor
    kernel, the callbacks that only forward to one of its rockchip_ functions.
    The installation scripts, the device tree overlay and the test program are
    not part of the driver.

    What stays open: the IOMMU's page table in Gem is that of the single domain
    that the driver can be in; the jobs of the scheduler's reachable states have
    no fences, which Fence treats one operation at a time. *)

From Stdlib Require Export ZArith Lia.
From stdpp Require Export functions base gmap list numbers strings.

#[global] Open Scope Z_scope.

(** ** Record update

    [r <| field := v |>] is the C assignment [r->field = v] on a value of
    record type; a record is made updatable by one [Settable] instance, the
    eta-expansion of its constructor. *)

Class Settable (R : Type) := { settable : R -> R }.
Arguments settable R {_}.
Class Setter {R T : Type} (getter : R -> T) := { set_field : (T -> T) -> R -> R }.
Arguments set_field {R T} getter {_} _ _ /.

Ltac solve_setter :=
  match goal with
  | |- @Setter ?R ?T ?getter =>
      let eta := constr:(settable R) in
      let eta := eval hnf in eta in
      match eval pattern getter in eta with
      | ?upd _ =>
          let s := eval cbv beta in (fun f : T -> T => upd (fun r => f (getter r))) in
          exact {| set_field := s |}
      end
  end.

#[export] Hint Extern 1 (Setter _) => solve_setter : typeclass_instances.

Declare Scope rknpu_scope.
Delimit Scope rknpu_scope with rknpu.
#[global] Open Scope rknpu_scope.

Notation "r <| field ::= f |>" := (set_field field f r)
  (at level 1, left associativity, format "r <| field  ::=  f |>") : rknpu_scope.
Notation "r <| field := v |>" := (set_field field (fun _ => v) r)
  (at level 1, left associativity, format "r <| field  :=  v |>") : rknpu_scope.

(** ** Fixed-width C integers

    Every C integer is a [Z]; a store into (or an operation at) a [w]-bit type
    is written with the matching reduction. *)

Definition u16 (x : Z) : Z := x mod 2 ^ 16.
Definition u32 (x : Z) : Z := x mod 2 ^ 32.
Definition u64 (x : Z) : Z := x mod 2 ^ 64.
Definition s32 (x : Z) : Z :=
  let y := x mod 2 ^ 32 in if y <? 2 ^ 31 then y else y - 2 ^ 32.

Definition U32_MAX : Z := 2 ^ 32 - 1.

(** [flags & mask] used as a C condition. *)
Definition has_flag (flags mask : Z) : bool := negb (Z.land flags mask =? 0).

Lemma u32_small (x : Z) : 0 <= x < 2 ^ 32 -> u32 x = x.
Proof. apply Z.mod_small. Qed.

Lemma u64_small (x : Z) : 0 <= x < 2 ^ 64 -> u64 x = x.
Proof. apply Z.mod_small. Qed.

Lemma u32_range (x : Z) : 0 <= u32 x < 2 ^ 32.
Proof. apply Z.mod_pos_bound. lia. Qed.

Lemma u64_range (x : Z) : 0 <= u64 x < 2 ^ 64.
Proof. apply Z.mod_pos_bound. lia. Qed.

Lemma s32_small (x : Z) : 0 <= x < 2 ^ 31 -> s32 x = x.
Proof.
  intros H. unfold s32. rewrite Z.mod_small by lia.
  destruct (Z.ltb_spec x (2 ^ 31)); lia.
Qed.

Create HintDb rknpu.
Create Rewrite HintDb rknpu.
#[export] Hint Rewrite u32_small u64_small s32_small using lia : rknpu.
#[export] Hint Resolve u32_range u64_range : rknpu.

(** ** Error numbers (include/uapi/asm-generic/errno-base.h) *)

Definition EIO : Z := 5.
Definition ENXIO : Z := 6.
Definition EINTR : Z := 4.
Definition EAGAIN : Z := 11.
Definition ENOMEM : Z := 12.
Definition EFAULT : Z := 14.
Definition EBUSY : Z := 16.
Definition ENODEV : Z := 19.
Definition EINVAL : Z := 22.
Definition EOPNOTSUPP := 95.
Definition ETIMEDOUT : Z := 110.
Definition ERESTARTSYS : Z := 512.

(** ** Text *)

Definition newline : string := String (Ascii.ascii_of_nat 10) "".

(** ** Pages: the 4 KiB configuration of the arm64 kernel the driver targets *)

Definition PAGE_SHIFT : Z := 12.
Definition PAGE_SIZE : Z := 4096.

Definition round_up (x a : Z) : Z := (x + a - 1) / a * a.
Definition round_down (x a : Z) : Z := x / a * a.
Definition ceil_div (x a : Z) : Z := (x + a - 1) / a.

Lemma ceil_div_small (x a : Z) : 0 < x <= a -> ceil_div x a = 1.
Proof.
  intros H. unfold ceil_div.
  symmetry. apply (Z.div_unique _ _ 1 (x - 1)); lia.
Qed.

Lemma ceil_div_step (x a : Z) : 0 < a -> ceil_div (a + x) a = 1 + ceil_div x a.
Proof.
  intros H. unfold ceil_div.
  replace (a + x + a - 1) with (x + a - 1 + 1 * a) by lia.
  rewrite Z.div_add by lia. lia.
Qed.

Lemma ceil_div_pos (x a : Z) : 0 < a -> 0 < x -> 0 < ceil_div x a.
Proof. intros Ha Hx. unfold ceil_div. apply Z.div_str_pos. lia. Qed.

Lemma ceil_div_bounds (x a : Z) :
  0 < a -> a * (ceil_div x a - 1) < x <= a * ceil_div x a.
Proof.
  intros Ha. unfold ceil_div.
  pose proof (Z.div_mod (x + a - 1) a ltac:(lia)).
  pose proof (Z.mod_pos_bound (x + a - 1) a Ha). lia.
Qed.

(** ** Bitmaps

    A kernel bitmap ([unsigned long *]) is a list of bits; a bit past its end
    reads as 0. *)

Definition bit (bm : list bool) (i : Z) : bool := default false (bm !! Z.to_nat i).
Definition set_bit (i : Z) (bm : list bool) : list bool := <[Z.to_nat i := true]> bm.
Definition clear_bit (i : Z) (bm : list bool) : list bool := <[Z.to_nat i := false]> bm.

Lemma bit_write_eq (bm : list bool) (i : Z) (b : bool) :
  0 <= i < Z.of_nat (length bm) -> bit (<[Z.to_nat i := b]> bm) i = b.
Proof. intros H. unfold bit. rewrite list_lookup_insert_eq by lia. done. Qed.

Lemma bit_write_ne (bm : list bool) (i j : Z) (b : bool) :
  0 <= i -> 0 <= j -> i <> j -> bit (<[Z.to_nat i := b]> bm) j = bit bm j.
Proof. intros Hi Hj Hne. unfold bit. rewrite list_lookup_insert_ne by lia. done. Qed.

(** What [find_next_bit] and [find_next_zero_bit] of <linux/find.h> document:
    the first index in [off, size) that satisfies [P], or [size]. *)
Definition next_index (P : Z -> Prop) (size off r : Z) : Prop :=
  (size <= off -> r = size) /\
  (off < size ->
     off <= r <= size /\ (forall i, off <= i < r -> ~ P i) /\ (r < size -> P r)).

Class BitmapOps := {
  find_next_zero_bit : list bool -> Z -> Z -> Z;
  find_next_bit : list bool -> Z -> Z -> Z;
  find_next_zero_bit_spec (bm : list bool) (size off : Z) :
    0 <= off ->
    next_index (fun i => bit bm i = false) size off (find_next_zero_bit bm size off);
  find_next_bit_spec (bm : list bool) (size off : Z) :
    0 <= off ->
    next_index (fun i => bit bm i = true) size off (find_next_bit bm size off);
}.

(** A reference implementation, used to run the model on concrete inputs. *)
Fixpoint scan (p : Z -> bool) (fuel : nat) (size off : Z) : Z :=
  match fuel with
  | O => size
  | S f => if off <? size then if p off then off else scan p f size (off + 1) else size
  end.

Lemma scan_spec (p : Z -> bool) (P : Z -> Prop) (fuel : nat) (size off : Z) :
  (forall i, P i <-> p i = true) ->
  size - off <= Z.of_nat fuel -> next_index P size off (scan p fuel size off).
Proof.
  intros HP. revert off. induction fuel as [|f IH]; intros off Hf; simpl.
  { split; [done | lia]. }
  destruct (Z.ltb_spec off size) as [Hlt|Hge]; [| split; [done | lia]].
  destruct (p off) eqn:Hp.
  { split; [lia|]. intros _. split; [lia|]. split; [lia|]. intros _. by apply HP. }
  destruct (IH (off + 1)) as [IH1 IH2]; [lia|].
  split; [lia|]. intros _.
  destruct (decide (off + 1 < size)) as [Hs|Hs].
  - destruct (IH2 Hs) as (Hr & Hno & Hyes). split; [lia|]. split; [|done].
    intros i Hi HPi. destruct (decide (i = off)) as [->|].
    + apply HP in HPi. congruence.
    + apply (Hno i); [lia | done].
  - rewrite (IH1 ltac:(lia)). split; [lia|]. split; [|lia].
    intros i Hi HPi. replace i with off in HPi by lia. apply HP in HPi. congruence.
Qed.

#[export] Program Instance reference_bitmap_ops : BitmapOps := {
  find_next_zero_bit bm size off := scan (fun i => negb (bit bm i)) (Z.to_nat size) size off;
  find_next_bit bm size off := scan (bit bm) (Z.to_nat size) size off;
}.
Next Obligation.
  intros bm size off H. apply scan_spec; [| lia].
  intros i. destruct (bit bm i); naive_solver.
Qed.
Next Obligation. intros bm size off H. apply scan_spec; [done | lia]. Qed.

(** ** Arrays indexed by integers, as functions *)

Lemma fn_insert_eqb {A} (i j : Z) (v : A) (f : Z -> A) : <[i := v]> f j = if i =? j then v else f j.
Proof.
  destruct (Z.eqb_spec i j) as [->|H]; [by rewrite fn_lookup_insert | by rewrite fn_lookup_insert_ne].
Qed.
Lemma fn_alter_eqb {A} (g : A -> A) (f : Z -> A) (i j : Z) : alter g i f j = if i =? j then g (f j) else f j.
Proof.
  destruct (Z.eqb_spec i j) as [->|H]; [by rewrite fn_lookup_alter | by rewrite fn_lookup_alter_ne].
Qed.

(** ** Tactics *)

(** Case analysis on the first boolean test of the goal, as its proposition. *)
Tactic Notation "case_bool" "as" simple_intropattern(H) :=
  match goal with
  | |- context [Z.eqb ?a ?b] => destruct (Z.eqb_spec a b) as [H|H]
  | |- context [Z.ltb ?a ?b] => destruct (Z.ltb_spec a b) as [H|H]
  | |- context [Z.leb ?a ?b] => destruct (Z.leb_spec a b) as [H|H]
  end.
Ltac case_bool := let H := fresh "Hb" in case_bool as H.
