(* ===== verification/Ledger.v ===== *)
(** * Ledgers of held resources

    What a component holds of the kernel, counted per resource: an acquisition
    adds one, a release takes one away.  A count below zero is a release of
    something not held, a count that stays positive is a leak.  Two ledgers are
    equivalent when they count the same. *)

From Stdlib Require Import Setoid Morphisms.
From S2P Require Import Prelude.

Section Ledger.
Context {R : Type} `{EqDecision R}.

Definition ledger : Type := R -> Z.

Definition acquire (r : R) (l : ledger) : ledger := fun x => l x + (if decide (r = x) then 1 else 0).
Definition release (r : R) (l : ledger) : ledger := fun x => l x - (if decide (r = x) then 1 else 0).
Definition acquire_all (rs : list R) (l : ledger) : ledger := foldr acquire l rs.
Definition release_all (rs : list R) (l : ledger) : ledger := foldr release l rs.

#[global] Instance ledger_equiv : Equiv ledger := fun l l' => forall r, l r = l' r.

#[global] Instance ledger_equivalence : Equivalence (≡@{ledger}).
Proof.
  split.
  - by intros l r.
  - intros l l' H r. by rewrite H.
  - intros l1 l2 l3 H1 H2 r. by rewrite H1.
Qed.

Lemma acquire_count (r x : R) (l : ledger) : acquire r l x = l x + (if decide (r = x) then 1 else 0).
Proof. done. Qed.

Lemma release_count (r x : R) (l : ledger) : release r l x = l x - (if decide (r = x) then 1 else 0).
Proof. done. Qed.

#[global] Instance acquire_proper (r : R) : Proper ((≡) ==> (≡)) (acquire r).
Proof. intros l l' H x. by rewrite !acquire_count, H. Qed.
#[global] Instance release_proper (r : R) : Proper ((≡) ==> (≡)) (release r).
Proof. intros l l' H x. by rewrite !release_count, H. Qed.

Lemma release_acquire (r : R) (l : ledger) : release r (acquire r l) ≡ l.
Proof. intros x. rewrite release_count, acquire_count. lia. Qed.

Lemma release_acquire_comm (r q : R) (l : ledger) : release r (acquire q l) ≡ acquire q (release r l).
Proof. intros x. rewrite !release_count, !acquire_count, release_count. lia. Qed.

#[global] Instance acquire_all_proper (rs : list R) : Proper ((≡) ==> (≡)) (acquire_all rs).
Proof. intros l l' H. induction rs as [|r rs IH]; [done|]. cbn. by rewrite IH. Qed.
#[global] Instance release_all_proper (rs : list R) : Proper ((≡) ==> (≡)) (release_all rs).
Proof. intros l l' H. induction rs as [|r rs IH]; [done|]. cbn. by rewrite IH. Qed.

Lemma acquire_all_count (rs : list R) (x : R) (l : ledger) :
  acquire_all rs l x = l x + Z.of_nat (length (filter (fun r => r = x) rs)).
Proof.
  induction rs as [|r rs IH]; [cbn; lia|]. cbn [acquire_all foldr]. rewrite acquire_count, filter_cons.
  change (foldr acquire l rs) with (acquire_all rs l). rewrite IH. destruct (decide (r = x)); cbn [length]; lia.
Qed.
Lemma release_all_count (rs : list R) (x : R) (l : ledger) :
  release_all rs l x = l x - Z.of_nat (length (filter (fun r => r = x) rs)).
Proof.
  induction rs as [|r rs IH]; [cbn; lia|]. cbn [release_all foldr]. rewrite release_count, filter_cons.
  change (foldr release l rs) with (release_all rs l). rewrite IH. destruct (decide (r = x)); cbn [length]; lia.
Qed.

Lemma acquire_all_nil (l : ledger) : acquire_all [] l = l.
Proof. done. Qed.
Lemma release_all_nil (l : ledger) : release_all [] l = l.
Proof. done. Qed.
Lemma acquire_all_cons (r : R) (rs : list R) (l : ledger) :
  acquire_all (r :: rs) l = acquire r (acquire_all rs l).
Proof. done. Qed.
Lemma release_all_cons (r : R) (rs : list R) (l : ledger) :
  release_all (r :: rs) l = release r (release_all rs l).
Proof. done. Qed.
Lemma acquire_all_app (rs rs' : list R) (l : ledger) :
  acquire_all (rs ++ rs') l = acquire_all rs (acquire_all rs' l).
Proof. apply foldr_app. Qed.
Lemma release_all_app (rs rs' : list R) (l : ledger) :
  release_all (rs ++ rs') l = release_all rs (release_all rs' l).
Proof. apply foldr_app. Qed.

Lemma release_all_perm (rs rs' : list R) (l : ledger) : rs ≡ₚ rs' -> release_all rs l ≡ release_all rs' l.
Proof. intros H x. by rewrite !release_all_count, H. Qed.

(** What was acquired can be released in any order. *)
Lemma release_all_acquire_all (rs rs' : list R) (l : ledger) :
  rs ≡ₚ rs' -> release_all rs' (acquire_all rs l) ≡ l.
Proof.
  intros H x. rewrite release_all_count, acquire_all_count, H. lia.
Qed.
End Ledger.

Arguments ledger : clear implicits.

(** Equivalences between ledgers made of single acquisitions and releases. *)
Ltac ledger :=
  intros ?; cbn [acquire_all release_all foldr]; repeat rewrite ?release_count, ?acquire_count; lia.

(** The same, with lists of resources that are not spelt out. *)
Ltac ledger_all :=
  intros ?;
  repeat first [rewrite acquire_all_app | rewrite release_all_app | rewrite acquire_all_cons |
                rewrite release_all_cons | rewrite acquire_all_nil | rewrite release_all_nil];
  repeat rewrite ?release_count, ?acquire_count, ?acquire_all_count, ?release_all_count; lia.
