(* ===== verification/Mapping.v ===== *)
(** * Address translations

    The page table of an IOMMU domain and the mapping of a user range, both as
    the function from the addresses that are mapped to the bytes they show, and
    the loop by which the driver maps the entries of a scatterlist one after
    the other. *)

From S2P Require Import Prelude.

Definition translation : Type := Z -> option Z.

(** [size] bytes at [addr] show the bytes from [phys] on. *)
Definition map_range (addr phys size : Z) (t : translation) : translation :=
  fun x => if (addr <=? x) && (x <? addr + size) then Some (phys + (x - addr)) else t x.
Definition unmap_range (addr size : Z) (t : translation) : translation :=
  fun x => if (addr <=? x) && (x <? addr + size) then None else t x.

(** An entry of a scatterlist: where it is and how long. *)
Record sg_entry := { s_phys : Z; s_length : Z }.

(** The loop [for_each_sg(...)] that maps at most [length] bytes of the entries
    from [addr] on; [call addr phys size] is what iommu_map or remap_pfn_range
    returns.  The result is the last return value, the bytes left to map and
    the translation. *)
Fixpoint map_entries (call : Z -> Z -> Z -> Z) (addr length : Z) (sgs : list sg_entry) (ret : Z)
    (t : translation) : Z * Z * translation :=
  match sgs with
  | [] => (ret, length, t)
  | s :: sgs =>
      let size := if length <? s_length s then length else s_length s in
      let ret := call addr (s_phys s) size in
      if negb (ret =? 0) then (ret, length, t)
      else
        let t := map_range addr (s_phys s) size t in
        let length := u64 (length - size) in
        let addr := u64 (addr + size) in
        if length =? 0 then (ret, length, t) else map_entries call addr length sgs ret t
  end.

(** ** What a list of entries holds *)

Fixpoint sg_total (sgs : list sg_entry) : Z :=
  match sgs with [] => 0 | s :: sgs => s_length s + sg_total sgs end.

(** The byte at [y] of the entries laid end to end. *)
Fixpoint sg_byte (sgs : list sg_entry) (y : Z) : option Z :=
  match sgs with
  | [] => None
  | s :: sgs => if y <? s_length s then Some (s_phys s + y) else sg_byte sgs (y - s_length s)
  end.

Definition sg_ok (sgs : list sg_entry) : Prop := Forall (fun s => 0 < s_length s) sgs.

Lemma sg_total_nonneg (sgs : list sg_entry) : sg_ok sgs -> 0 <= sg_total sgs.
Proof. induction 1 as [|s sgs Hs _ IH]; [done|]. cbn. lia. Qed.

(** Only addresses of the range mapped so far change, whatever the calls return. *)
Lemma map_entries_outside (call : Z -> Z -> Z -> Z) (sgs : list sg_entry) :
  forall addr length ret0 t ret left t', sg_ok sgs -> 0 <= addr -> 0 <= length -> addr + length < 2 ^ 64 ->
  map_entries call addr length sgs ret0 t = (ret, left, t') ->
  0 <= left <= length /\ forall x, ~ (addr <= x < addr + (length - left)) -> t' x = t x.
Proof.
  induction sgs as [|s sgs IH]; intros addr length ret0 t ret left t' Hok Ha Hl Hb H; cbn in H.
  { injection H as <- <- <-. split; [lia | done]. }
  apply Forall_cons in Hok as [Hs Hok].
  set (size := if length <? s_length s then length else s_length s) in *.
  assert (0 <= size <= length) by (subst size; case_bool; lia).
  destruct (negb _); [injection H as <- <- <-; split; [lia | done]|].
  rewrite !u64_small in H by lia.
  assert (Hout : forall x, ~ (addr <= x < addr + size) -> map_range addr (s_phys s) size t x = t x).
  { intros x Hx. unfold map_range. by replace ((addr <=? x) && (x <? addr + size)) with false by lia. }
  destruct (Z.eqb_spec (length - size) 0).
  { injection H as <- <- <-. split; [lia|]. intros x Hx. apply Hout. lia. }
  apply IH in H as [H1 H2]; [|done|lia..]. split; [lia|].
  intros x Hx. rewrite H2 by lia. apply Hout. lia.
Qed.

(** When every call succeeds, the range shows the bytes of the entries. *)
Lemma map_entries_bytes (call : Z -> Z -> Z -> Z) (sgs : list sg_entry) :
  forall addr length t left t', sg_ok sgs -> 0 <= addr -> 0 <= length -> addr + length < 2 ^ 64 ->
  length <= sg_total sgs -> map_entries call addr length sgs 0 t = (0, left, t') ->
  left = 0 /\ forall y, 0 <= y < length -> t' (addr + y) = sg_byte sgs y.
Proof.
  induction sgs as [|s sgs IH]; intros addr length t left t' Hok Ha Hl Hb Ht H; cbn in H, Ht.
  { injection H as <- <-. split; lia. }
  apply Forall_cons in Hok as [Hs Hok].
  set (size := if length <? s_length s then length else s_length s) in *.
  assert (0 <= size <= length /\ size <= s_length s /\ (size = s_length s \/ size = length))
    by (subst size; case_bool; lia).
  destruct (Z.eqb_spec (call addr (s_phys s) size) 0) as [E|E]; cbn [negb] in H; [|congruence].
  rewrite E in H. rewrite !u64_small in H by lia.
  assert (Hin : forall y, 0 <= y < size -> map_range addr (s_phys s) size t (addr + y) = Some (s_phys s + y)).
  { intros y Hy. unfold map_range.
    replace ((addr <=? addr + y) && (addr + y <? addr + size)) with true by lia. f_equal. lia. }
  destruct (Z.eqb_spec (length - size) 0).
  { injection H as <- <-. split; [lia|]. intros y Hy. cbn [sg_byte]. rewrite Hin by lia.
    by rewrite (proj2 (Z.ltb_lt _ _)) by lia. }
  pose proof H as Hm. apply map_entries_outside in Hm as [_ Hout]; [|done|lia..].
  apply IH in H as [-> H2]; [|done|lia..]. split; [done|].
  intros y Hy. cbn [sg_byte]. destruct (Z.ltb_spec y (s_length s)).
  - rewrite Hout by lia. apply Hin. lia.
  - rewrite <- H2 by lia. f_equal. lia.
Qed.

Lemma map_entries_ret (call : Z -> Z -> Z -> Z) (sgs : list sg_entry) :
  (forall a p n, call a p n <= 0) -> forall addr length ret0 t ret rest t', ret0 <= 0 ->
  map_entries call addr length sgs ret0 t = (ret, rest, t') -> ret <= 0.
Proof.
  intros Hc. induction sgs as [|s sgs IH]; intros addr length ret0 t ret rest t' H0 H; cbn in H;
    [by injection H as <- _ _|].
  pose proof (Hc addr (s_phys s) (if length <? s_length s then length else s_length s)).
  destruct (negb _); [by injection H as <- _ _|]. destruct (_ =? 0); [by injection H as <- _ _|].
  by eapply IH.
Qed.

Lemma unmap_in (a n x : Z) (t : translation) : a <= x < a + n -> unmap_range a n t x = None.
Proof. intros H. unfold unmap_range. by replace ((a <=? x) && (x <? a + n)) with true by lia. Qed.
Lemma unmap_out (a n x : Z) (t : translation) : ~ (a <= x < a + n) -> unmap_range a n t x = t x.
Proof. intros H. unfold unmap_range. by replace ((a <=? x) && (x <? a + n)) with false by lia. Qed.
Lemma map_in (a ph n x : Z) (t : translation) :
  a <= x < a + n -> map_range a ph n t x = Some (ph + (x - a)).
Proof. intros H. unfold map_range. by replace ((a <=? x) && (x <? a + n)) with true by lia. Qed.
Lemma map_out (a ph n x : Z) (t : translation) : ~ (a <= x < a + n) -> map_range a ph n t x = t x.
Proof. intros H. unfold map_range. by replace ((a <=? x) && (x <? a + n)) with false by lia. Qed.

(** Unmapping two ranges undoes every change within them. *)
Lemma unmap_both (a n b m x : Z) (t t0 : translation) :
  (forall x, ~ (a <= x < a + n) -> ~ (b <= x < b + m) -> t x = t0 x) ->
  (forall x, a <= x < a + n \/ b <= x < b + m -> t0 x = None) ->
  unmap_range a n (unmap_range b m t) x = t0 x.
Proof.
  intros Hout Hin. destruct (decide (a <= x < a + n)) as [Ha|Ha].
  { rewrite unmap_in by done. symmetry. apply Hin. by left. }
  rewrite unmap_out by done. destruct (decide (b <= x < b + m)) as [Hb|Hb].
  { rewrite unmap_in by done. symmetry. apply Hin. by right. }
  rewrite unmap_out by done. by apply Hout.
Qed.

(** *** Consecutive bytes *)

Lemma seqZ_shift (c a n : Z) : seqZ (c + a) n = Z.add c <$> seqZ a n.
Proof. symmetry. apply fmap_add_seqZ. Qed.

Lemma omap_sg_byte_in (s : sg_entry) (sgs : list sg_entry) (a n : Z) :
  a + n <= s_length s -> omap (sg_byte (s :: sgs)) (seqZ a n) = seqZ (s_phys s + a) n.
Proof.
  intros H. rewrite seqZ_shift. assert (Hin : Forall (fun y => y < s_length s) (seqZ a n)).
  { apply Forall_forall. intros y Hy%elem_of_seqZ. lia. }
  induction Hin as [|y l Hy _ IH]; [done|]. cbn. rewrite (proj2 (Z.ltb_lt _ _) Hy). by f_equal.
Qed.

Lemma omap_sg_byte_past (s : sg_entry) (sgs : list sg_entry) (a n : Z) :
  s_length s <= a -> omap (sg_byte (s :: sgs)) (seqZ a n) = omap (sg_byte sgs) (seqZ (a - s_length s) n).
Proof.
  intros H. replace a with (s_length s + (a - s_length s)) at 1 by lia. rewrite seqZ_shift.
  assert (Hin : Forall (fun y => 0 <= y) (seqZ (a - s_length s) n)).
  { apply Forall_forall. intros y Hy%elem_of_seqZ. lia. }
  induction Hin as [|y l Hy _ IH]; [done|]. cbn. rewrite (proj2 (Z.ltb_ge _ _)) by lia.
  replace (s_length s + y - s_length s) with y by lia. destruct (sg_byte sgs y); [by f_equal | done].
Qed.
