(* ===== verification/Config.v ===== *)
(** * User interface structures and SoC configurations

    The ABI constants and structures of include/rknpu_ioctl.h, struct
    rknpu_config of include/rknpu_drv.h, the seven SoC tables of rknpu_drv.c,
    the choice of a table at probe time and the NBUF partition of the RK3576. *)

From S2P Require Import Prelude.

(** ** Registers (include/rknpu_ioctl.h) *)

Definition RKNPU_OFFSET_VERSION : Z := 0x0.
Definition RKNPU_OFFSET_VERSION_NUM : Z := 0x4.
Definition RKNPU_OFFSET_PC_OP_EN : Z := 0x8.
Definition RKNPU_OFFSET_PC_DATA_ADDR : Z := 0x10.
Definition RKNPU_OFFSET_PC_DATA_AMOUNT : Z := 0x14.
Definition RKNPU_OFFSET_PC_TASK_CONTROL : Z := 0x30.
Definition RKNPU_OFFSET_PC_DMA_BASE_ADDR : Z := 0x34.
Definition RKNPU_OFFSET_INT_MASK : Z := 0x20.
Definition RKNPU_OFFSET_INT_CLEAR : Z := 0x24.
Definition RKNPU_OFFSET_INT_STATUS : Z := 0x28.
Definition RKNPU_OFFSET_INT_RAW_STATUS : Z := 0x2c.
Definition RKNPU_INT_CLEAR : Z := 0x1ffff.
Definition RKNPU_PC_DATA_EXTRA_AMOUNT : Z := 4.

(** enum e_rknpu_mem_type, e_rknpu_mem_sync_mode, e_rknpu_job_mode *)
Definition RKNPU_MEM_NON_CONTIGUOUS : Z := 1.
Definition RKNPU_MEM_CACHEABLE : Z := 2.
Definition RKNPU_MEM_WRITE_COMBINE : Z := 4.
Definition RKNPU_MEM_KERNEL_MAPPING : Z := 8.
Definition RKNPU_MEM_ZEROING : Z := 32.
Definition RKNPU_MEM_DMA32 : Z := 128.
Definition RKNPU_MEM_TRY_ALLOC_SRAM : Z := 256.
Definition RKNPU_MEM_TRY_ALLOC_NBUF : Z := 512.
Definition RKNPU_MEM_IOMMU_LIMIT_IOVA_ALIGNMENT : Z := 1024.
Definition RKNPU_MEM_SYNC_TO_DEVICE : Z := 1.
Definition RKNPU_MEM_SYNC_FROM_DEVICE : Z := 2.

Definition RKNPU_JOB_PC : Z := 1.
Definition RKNPU_JOB_NONBLOCK : Z := 2.
Definition RKNPU_JOB_PINGPONG : Z := 4.
Definition RKNPU_JOB_FENCE_IN : Z := 8.
Definition RKNPU_JOB_FENCE_OUT : Z := 16.

(** include/rknpu_job.h *)
Definition RKNPU_MAX_CORES : Z := 3.
Definition RKNPU_JOB_DONE : Z := 1.
Definition RKNPU_JOB_ASYNC : Z := 2.
Definition RKNPU_CORE_AUTO_MASK : Z := 0x00.
Definition RKNPU_CORE0_MASK : Z := 0x01.
Definition RKNPU_CORE1_MASK : Z := 0x02.
Definition RKNPU_CORE2_MASK : Z := 0x04.

(** ** Tasks and submissions *)

Record rknpu_task := {
  t_flags : Z; t_op_idx : Z; t_enable_mask : Z; t_int_mask : Z; t_int_clear : Z;
  t_int_status : Z; t_regcfg_amount : Z; t_regcfg_offset : Z; t_regcmd_addr : Z }.
#[export] Instance rknpu_task_settable : Settable rknpu_task :=
  {| settable := fun t => Build_rknpu_task (t_flags t) (t_op_idx t) (t_enable_mask t) (t_int_mask t)
             (t_int_clear t) (t_int_status t) (t_regcfg_amount t) (t_regcfg_offset t)
             (t_regcmd_addr t) |}.

Record rknpu_subcore_task := { st_task_start : Z; st_task_number : Z }.

Record rknpu_submit := {
  a_flags : Z; a_timeout : Z; a_task_start : Z; a_task_number : Z; a_task_counter : Z;
  a_priority : Z; a_task_obj_addr : Z; a_iommu_domain_id : Z; a_task_base_addr : Z;
  a_hw_elapse_time : Z; a_core_mask : Z; a_fence_fd : Z;
  a_subcore_task : list rknpu_subcore_task }.   (* five entries *)
#[export] Instance rknpu_submit_settable : Settable rknpu_submit :=
  {| settable := fun a => Build_rknpu_submit (a_flags a) (a_timeout a) (a_task_start a) (a_task_number a)
             (a_task_counter a) (a_priority a) (a_task_obj_addr a) (a_iommu_domain_id a)
             (a_task_base_addr a) (a_hw_elapse_time a) (a_core_mask a) (a_fence_fd a)
             (a_subcore_task a) |}.

(** ** SoC configurations *)

Record rknpu_amount_data := {
  offset_clr_all : Z; offset_dt_wr : Z; offset_dt_rd : Z; offset_wt_rd : Z }.

(** The only non-NULL values of the two function pointers of rknpu_config. *)
Inductive state_init_fn := rk3576_state_init_fn.
Inductive cache_sgt_init_fn := rk3576_cache_sgt_init_fn.

Record rknpu_config := {
  bw_priority_addr : Z; bw_priority_length : Z; dma_mask : Z;
  pc_data_amount_scale : Z; pc_task_number_bits : Z; pc_task_number_mask : Z;
  pc_task_status_offset : Z; pc_dma_ctrl : Z; num_irqs : Z;
  nbuf_phyaddr : Z; cfg_nbuf_size : Z; max_submit_number : Z; cfg_core_mask : Z;
  amount_top : option rknpu_amount_data; amount_core : option rknpu_amount_data;
  state_init : option state_init_fn; cache_sgt_init : option cache_sgt_init_fn }.

Definition DMA_BIT_MASK (n : Z) : Z := Z.shiftl 1 n - 1.

Definition rknpu_old_top_amount : rknpu_amount_data :=
  {| offset_clr_all := 0x8010; offset_dt_wr := 0x8034;
     offset_dt_rd := 0x8038; offset_wt_rd := 0x803c |}.
Definition rknpu_top_amount : rknpu_amount_data :=
  {| offset_clr_all := 0x2210; offset_dt_wr := 0x2234;
     offset_dt_rd := 0x2238; offset_wt_rd := 0x223c |}.
Definition rknpu_core_amount : rknpu_amount_data :=
  {| offset_clr_all := 0x2410; offset_dt_wr := 0x2434;
     offset_dt_rd := 0x2438; offset_wt_rd := 0x243c |}.

Definition rk356x_rknpu_config : rknpu_config :=
  {| bw_priority_addr := 0xfe180008; bw_priority_length := 0x10; dma_mask := DMA_BIT_MASK 32;
     pc_data_amount_scale := 1; pc_task_number_bits := 12; pc_task_number_mask := 0xfff;
     pc_task_status_offset := 0x3c; pc_dma_ctrl := 0; num_irqs := 1;
     nbuf_phyaddr := 0; cfg_nbuf_size := 0; max_submit_number := Z.shiftl 1 12 - 1;
     cfg_core_mask := 0x1; amount_top := Some rknpu_old_top_amount; amount_core := None;
     state_init := None; cache_sgt_init := None |}.

Definition rk3588_rknpu_config : rknpu_config :=
  {| bw_priority_addr := 0x0; bw_priority_length := 0x0; dma_mask := DMA_BIT_MASK 40;
     pc_data_amount_scale := 2; pc_task_number_bits := 12; pc_task_number_mask := 0xfff;
     pc_task_status_offset := 0x3c; pc_dma_ctrl := 0; num_irqs := 3;
     nbuf_phyaddr := 0; cfg_nbuf_size := 0; max_submit_number := Z.shiftl 1 12 - 1;
     cfg_core_mask := 0x7; amount_top := None; amount_core := None;
     state_init := None; cache_sgt_init := None |}.

Definition rk3583_rknpu_config : rknpu_config :=
  {| bw_priority_addr := 0x0; bw_priority_length := 0x0; dma_mask := DMA_BIT_MASK 40;
     pc_data_amount_scale := 2; pc_task_number_bits := 12; pc_task_number_mask := 0xfff;
     pc_task_status_offset := 0x3c; pc_dma_ctrl := 0; num_irqs := 2;
     nbuf_phyaddr := 0; cfg_nbuf_size := 0; max_submit_number := Z.shiftl 1 12 - 1;
     cfg_core_mask := 0x3; amount_top := None; amount_core := None;
     state_init := None; cache_sgt_init := None |}.

Definition rv1106_rknpu_config : rknpu_config :=
  {| bw_priority_addr := 0x0; bw_priority_length := 0x0; dma_mask := DMA_BIT_MASK 32;
     pc_data_amount_scale := 2; pc_task_number_bits := 16; pc_task_number_mask := 0xffff;
     pc_task_status_offset := 0x3c; pc_dma_ctrl := 0; num_irqs := 1;
     nbuf_phyaddr := 0; cfg_nbuf_size := 0; max_submit_number := Z.shiftl 1 16 - 1;
     cfg_core_mask := 0x1; amount_top := Some rknpu_old_top_amount; amount_core := None;
     state_init := None; cache_sgt_init := None |}.

Definition rk3562_rknpu_config : rknpu_config :=
  {| bw_priority_addr := 0x0; bw_priority_length := 0x0; dma_mask := DMA_BIT_MASK 40;
     pc_data_amount_scale := 2; pc_task_number_bits := 16; pc_task_number_mask := 0xffff;
     pc_task_status_offset := 0x48; pc_dma_ctrl := 1; num_irqs := 1;
     nbuf_phyaddr := 0xfe400000; cfg_nbuf_size := 256 * 1024;
     max_submit_number := Z.shiftl 1 16 - 1;
     cfg_core_mask := 0x1; amount_top := Some rknpu_old_top_amount; amount_core := None;
     state_init := None; cache_sgt_init := None |}.

Definition rk3576_rknpu_config : rknpu_config :=
  {| bw_priority_addr := 0x0; bw_priority_length := 0x0; dma_mask := DMA_BIT_MASK 40;
     pc_data_amount_scale := 2; pc_task_number_bits := 16; pc_task_number_mask := 0xffff;
     pc_task_status_offset := 0x48; pc_dma_ctrl := 1; num_irqs := 2;
     nbuf_phyaddr := 0x3fe80000; cfg_nbuf_size := 1024 * 1024;
     max_submit_number := Z.shiftl 1 16 - 1;
     cfg_core_mask := 0x3; amount_top := Some rknpu_top_amount;
     amount_core := Some rknpu_core_amount;
     state_init := Some rk3576_state_init_fn; cache_sgt_init := Some rk3576_cache_sgt_init_fn |}.

Definition rv1126b_rknpu_config : rknpu_config :=
  {| bw_priority_addr := 0x0; bw_priority_length := 0x0; dma_mask := DMA_BIT_MASK 40;
     pc_data_amount_scale := 2; pc_task_number_bits := 16; pc_task_number_mask := 0xffff;
     pc_task_status_offset := 0x48; pc_dma_ctrl := 1; num_irqs := 1;
     nbuf_phyaddr := 0x3ff30000; cfg_nbuf_size := 512 * 1024;
     max_submit_number := Z.shiftl 1 16 - 1;
     cfg_core_mask := 0x1; amount_top := Some rknpu_top_amount; amount_core := None;
     state_init := None; cache_sgt_init := None |}.

(** The tables by name: a [const struct rknpu_config *] of the driver. *)
Inductive soc := RK356X | RK3588 | RK3583 | RV1106 | RK3562 | RK3576 | RV1126B.
#[export] Instance soc_eq_dec : EqDecision soc.
Proof. solve_decision. Defined.

Definition config_of (s : soc) : rknpu_config :=
  match s with
  | RK356X => rk356x_rknpu_config
  | RK3588 => rk3588_rknpu_config
  | RK3583 => rk3583_rknpu_config
  | RV1106 => rv1106_rknpu_config
  | RK3562 => rk3562_rknpu_config
  | RK3576 => rk3576_rknpu_config
  | RV1126B => rv1126b_rknpu_config
  end.

Definition rknpu_of_match : list (string * soc) :=
  [("rockchip,rknpu", RK356X); ("rockchip,rk3568-rknpu", RK356X);
   ("rockchip,rk3588-rknpu", RK3588); ("rockchip,rv1106-rknpu", RV1106);
   ("rockchip,rk3562-rknpu", RK3562); ("rockchip,rk3576-rknpu", RK3576);
   ("rockchip,rv1126b-rknpu", RV1126B)]%string.

(** The local stub of the vendor NVMEM call: success, value 0. *)
Definition rockchip_nvmem_cell_read_u8 : Z * Z := (0, 0).

(** [has_cores]: whether the node's nvmem-cell-names lists "cores". *)
Definition rknpu_get_invalid_core_mask (has_cores : bool) : Z :=
  if has_cores then
    let '(ret, invalid_core_mask) := rockchip_nvmem_cell_read_u8 in
    let invalid_core_mask := Z.lor invalid_core_mask RKNPU_CORE2_MASK in
    if negb (ret =? 0) then invalid_core_mask else invalid_core_mask
  else 0.

(** The part of [rknpu_probe] that selects the configuration; [matched] is the
    entry [of_match_device] found. *)
Definition probe_config (matched : option soc) (has_cores : bool) : Z + soc :=
  match matched with
  | None => inl (-ENODEV)
  | Some s =>
      if decide (s = RK3588) then
        let invalid_core_mask := rknpu_get_invalid_core_mask has_cores in
        if has_flag invalid_core_mask RKNPU_CORE2_MASK then
          if has_flag invalid_core_mask RKNPU_CORE0_MASK
             || has_flag invalid_core_mask RKNPU_CORE1_MASK
          then inl (-ENODEV)
          else inr RK3583
        else inr s
      else inr s
  end.

(** ** NBUF scatter lists of the RK3576 *)

Record sg_block := { blk_length : Z; blk_offset : Z }.

Definition block_size_kb : list Z := [448; 64; 448; 64].
Definition block_offset_kb : list Z := [0; 896; 448; 960].

(** The table built for core [i]. *)
Definition cache_sgt_of (core_num i : Z) : list sg_block :=
  (fun j => {| blk_length := default 0 (block_size_kb !! Z.to_nat (i * core_num + j)) * 1024;
               blk_offset := default 0 (block_offset_kb !! Z.to_nat (i * core_num + j)) * 1024 |})
  <$> seqZ 0 core_num.

(** [out_free_table]: the tables of cores below [core_num] are freed and NULL. *)
Definition drop_tables (core_num : Z) (tables : list (option (list sg_block)))
  : list (option (list sg_block)) :=
  imap (fun i t => if Z.of_nat i <? core_num then None else t) tables.

(** [kzalloc_ok i] and [sg_alloc_ret i]: outcome of the two allocations of
    round [i].  The result is the returned code and [cache_sgt[]]. *)
Fixpoint cache_sgt_rounds (kzalloc_ok : Z -> bool) (sg_alloc_ret : Z -> Z) (core_num : Z)
    (n : nat) (i ret : Z) (tables : list (option (list sg_block)))
  : Z * list (option (list sg_block)) :=
  match n with
  | O => (0, tables)
  | S n =>
      if negb (kzalloc_ok i) then (ret, drop_tables core_num tables)
      else if negb (sg_alloc_ret i =? 0) then (sg_alloc_ret i, drop_tables core_num tables)
      else cache_sgt_rounds kzalloc_ok sg_alloc_ret core_num n (i + 1) (sg_alloc_ret i)
             (<[Z.to_nat i := Some (cache_sgt_of core_num i)]> tables)
  end.
Definition rk3576_cache_sgt_init (kzalloc_ok : Z -> bool) (sg_alloc_ret : Z -> Z) (core_num : Z)
    (tables : list (option (list sg_block))) : Z * list (option (list sg_block)) :=
  cache_sgt_rounds kzalloc_ok sg_alloc_ret core_num (Z.to_nat core_num) 0 0 tables.

(** ** Driver version *)

Definition DRIVER_MAJOR : Z := 0.
Definition DRIVER_MINOR : Z := 9.
Definition DRIVER_PATCHLEVEL : Z := 8.
Definition RKNPU_GET_DRV_VERSION_CODE (major minor patch : Z) : Z :=
  major * 10000 + minor * 100 + patch.
Definition RKNPU_GET_DRV_VERSION_MAJOR (code : Z) : Z := code / 10000.
Definition RKNPU_GET_DRV_VERSION_MINOR (code : Z) : Z := (code mod 10000) / 100.
Definition RKNPU_GET_DRV_VERSION_PATCHLEVEL (code : Z) : Z := code mod 100.
Definition rknpu_get_drv_version : Z * Z :=
  (0, RKNPU_GET_DRV_VERSION_CODE DRIVER_MAJOR DRIVER_MINOR DRIVER_PATCHLEVEL).

(** ** Well-formed configurations *)

(** What the job component relies on: core [i] exists exactly for the bits of
    [core_mask], and a batch of [max_submit_number] tasks fits the task-number
    field of PC_TASK_CONTROL. *)
Record config_wf (c : rknpu_config) : Prop := {
  cw_irqs : 1 <= num_irqs c <= RKNPU_MAX_CORES;
  cw_mask : cfg_core_mask c = 2 ^ num_irqs c - 1;
  cw_scale : 1 <= pc_data_amount_scale c < 2 ^ 31;
  cw_bits : 0 < pc_task_number_bits c <= 16;
  cw_tmask : pc_task_number_mask c = 2 ^ pc_task_number_bits c - 1;
  cw_max : max_submit_number c = pc_task_number_mask c;
}.

Lemma config_of_wf (s : soc) : config_wf (config_of s).
Proof. destruct s; constructor; vm_compute; done || lia || (split; congruence). Qed.

(** ** Properties *)

(** Byte [x] of the NBUF lies in a block of the list. *)
Definition block_has (x : Z) (b : sg_block) : bool :=
  (blk_offset b <=? x) && (x <? blk_offset b + blk_length b).
Definition covered_by (x : Z) (blocks : list sg_block) : nat :=
  length (filter (fun b => block_has x b = true) blocks).

Lemma covered_cons (x : Z) (b : sg_block) (l : list sg_block) :
  covered_by x (b :: l) = ((if block_has x b then 1 else 0) + covered_by x l)%nat.
Proof. unfold covered_by. rewrite filter_cons. destruct (block_has x b); simpl; done. Qed.

(** When its allocations succeed, [rk3576_cache_sgt_init] fills one table
    per core, and the blocks of the two tables together cover every byte of the
    1 MiB NBUF exactly once, 512 KiB for each core. *)
Theorem rk3576_nbuf_partition (kzalloc_ok : Z -> bool) (sg_alloc_ret : Z -> Z) :
  (forall i, kzalloc_ok i = true) -> (forall i, sg_alloc_ret i = 0) ->
  exists t0 t1,
    rk3576_cache_sgt_init kzalloc_ok sg_alloc_ret (num_irqs rk3576_rknpu_config) [None; None]
      = (0, [Some t0; Some t1]) /\
    (forall x, 0 <= x < cfg_nbuf_size rk3576_rknpu_config ->
       covered_by x (t0 ++ t1) = 1%nat) /\
    foldr (fun b acc => blk_length b + acc) 0 t0 = cfg_nbuf_size rk3576_rknpu_config / 2 /\
    foldr (fun b acc => blk_length b + acc) 0 t1 = cfg_nbuf_size rk3576_rknpu_config / 2.
Proof.
  intros Hk Hs. exists (cache_sgt_of 2 0), (cache_sgt_of 2 1).
  split.
  - unfold rk3576_cache_sgt_init. simpl num_irqs. simpl. rewrite !Hk, !Hs. reflexivity.
  - split; [|split; reflexivity]. intros x Hx.
    change (cache_sgt_of 2 0 ++ cache_sgt_of 2 1) with
      [{| blk_length := 458752; blk_offset := 0 |}; {| blk_length := 65536; blk_offset := 917504 |};
       {| blk_length := 458752; blk_offset := 458752 |}; {| blk_length := 65536; blk_offset := 983040 |}].
    change (cfg_nbuf_size rk3576_rknpu_config) with 1048576 in Hx.
    rewrite !covered_cons. unfold block_has, covered_by. simpl.
    repeat case_bool; simpl; done || lia.
Qed.

Lemma rk3576_nbuf_partition_witness :
  exists t0 t1, rk3576_cache_sgt_init (fun _ => true) (fun _ => 0) 2 [None; None]
    = (0, [Some t0; Some t1]) /\ covered_by 900000 (t0 ++ t1) = 1%nat.
Proof.
  destruct (rk3576_nbuf_partition (fun _ => true) (fun _ => 0)) as (t0 & t1 & H1 & H2 & _);
    [reflexivity..|].
  exists t0, t1. split; [exact H1|]. apply H2. vm_compute. split; congruence.
Defined.

(** A failed [kzalloc] in [rk3576_cache_sgt_init] unwinds to "no table" but
    reports success: the returned code is that of the previous round, 0. *)
Theorem rk3576_cache_sgt_kzalloc_failure_is_silent (kzalloc_ok : Z -> bool) (sg_alloc_ret : Z -> Z) :
  kzalloc_ok 0 = false \/ (kzalloc_ok 0 = true /\ sg_alloc_ret 0 = 0 /\ kzalloc_ok 1 = false) ->
  rk3576_cache_sgt_init kzalloc_ok sg_alloc_ret 2 [None; None] = (0, [None; None]).
Proof.
  unfold rk3576_cache_sgt_init. change (Z.to_nat 2) with 2%nat. cbn [cache_sgt_rounds].
  change (0 + 1) with 1.
  intros [->|(-> & -> & ->)]; reflexivity.
Qed.

Lemma rk3576_cache_sgt_kzalloc_failure_is_silent_witness :
  rk3576_cache_sgt_init (fun i => i =? 0) (fun _ => 0) 2 [None; None] = (0, [None; None]).
Proof. apply rk3576_cache_sgt_kzalloc_failure_is_silent. right. split; [|split]; reflexivity. Defined.

(** C38: every configuration that probing can select has as many cores as bits
    in its core mask, a positive amount scale and a batch size that fits the
    task-number field; a node is refused only when nothing matched it, and the
    RK3583 table (two cores) replaces the RK3588 one exactly when the node has
    a "cores" NVMEM cell. *)
Theorem probe_selects_wf_config (matched : option soc) (has_cores : bool) :
  match probe_config matched has_cores with
  | inl ret => ret = -ENODEV /\ matched = None
  | inr s =>
      config_wf (config_of s) /\
      exists m, matched = Some m /\
        s = if decide (m = RK3588) then if has_cores then RK3583 else RK3588 else m
  end.
Proof.
  destruct matched as [m|]; [|done]. destruct m, has_cores; vm_compute probe_config;
    (split; [apply config_of_wf | eexists; split; reflexivity]).
Qed.
