(* ===== verification/Domain.v ===== *)
(** * IOMMU domains of the device (rknpu_iommu.c, lines 376 to 634)

    The domain table, the switch between domains and the reference count that
    users of the current domain hold; both configurations of the file (the
    domain manager under CONFIG_NO_GKI and the stubs without it).  The type
    class [IommuDomain] is what the job and GEM components may rely on. *)

From S2P Require Import Prelude.

Definition RKNPU_MAX_IOMMU_DOMAIN_NUM : Z := 16.

(** A [struct iommu_domain *] other than NULL. *)
Abbreviation dom := Z (only parsing).

Inductive iommu_event :=
  | EvDetach (d : option dom)
  | EvAttach (d : option dom) (ret : Z)
  | EvDomainAlloc (d : dom)
  | EvDomainFree (d : dom).

(** The fields of struct rknpu_device that the domain code owns, what
    [iommu_get_domain_for_dev] answers, and the calls made so far. *)
Record iommu_state := {
  iommu_en : bool;
  iommu_domains : list (option dom);    (* RKNPU_MAX_IOMMU_DOMAIN_NUM entries *)
  iommu_domain_num : Z;
  iommu_domain_id : Z;
  iommu_domain_refcount : Z;
  group_default_domain : option dom;    (* iommu_group->default_domain *)
  attached : option dom;
  iommu_log : list iommu_event }.
#[export] Instance iommu_state_settable : Settable iommu_state :=
  {| settable := fun s => Build_iommu_state (iommu_en s) (iommu_domains s) (iommu_domain_num s)
             (iommu_domain_id s) (iommu_domain_refcount s) (group_default_domain s)
             (attached s) (iommu_log s) |}.

(** The IOMMU core of the kernel: whether the device is on a bus, what
    [iommu_domain_alloc] returns, what an attach returns, and the domain the
    device is in after a detach. *)
Record iommu_kernel := {
  k_has_bus : bool;
  k_domain_alloc : iommu_state -> option dom;
  k_attach : iommu_state -> option dom -> Z;
  k_detached : iommu_state -> option dom }.

Definition iommu_get_domain_for_dev (st : iommu_state) : option dom := attached st.

Definition iommu_attach_device (k : iommu_kernel) (d : option dom) (st : iommu_state)
  : Z * iommu_state :=
  let ret := k_attach k st d in
  let st := st <| iommu_log ::= (fun l => l ++ [EvAttach d ret]) |> in
  (ret, if ret =? 0 then st <| attached := d |> else st).

Definition iommu_detach_device (k : iommu_kernel) (d : option dom) (st : iommu_state)
  : iommu_state :=
  st <| attached := k_detached k st |> <| iommu_log ::= (fun l => l ++ [EvDetach d]) |>.

Definition log_event (e : iommu_event) (st : iommu_state) : iommu_state :=
  st <| iommu_log ::= (fun l => l ++ [e]) |>.

(** [rknpu_dev->iommu_domains[i]] and its assignment, for an index in bounds. *)
Definition domain_at (st : iommu_state) (i : Z) : option dom :=
  default None (iommu_domains st !! Z.to_nat i).

Definition rknpu_iommu_init_domain (st : iommu_state) : Z * iommu_state :=
  match domain_at st 0 with
  | Some _ => (0, st)
  | None =>
      (0, st <| iommu_domain_id := 0 |>
             <| iommu_domains ::= <[0%nat := iommu_get_domain_for_dev st]> |>
             <| iommu_domain_num := 1 |>)
  end.

Definition rknpu_iommu_switch_domain (k : iommu_kernel) (domain_id : Z) (st : iommu_state)
  : Z * iommu_state :=
  if negb (iommu_en st) then (-EINVAL, st)
  else if (domain_id <? 0) || (RKNPU_MAX_IOMMU_DOMAIN_NUM - 1 <? domain_id) then (-EINVAL, st)
  else if negb (k_has_bus k) then (-EFAULT, st)
  else
    let src_domain_id := iommu_domain_id st in
    if domain_id =? src_domain_id then (0, st)
    else
      let src_domain := iommu_get_domain_for_dev st in
      if negb (bool_decide (src_domain = domain_at st src_domain_id)) then (-EINVAL, st)
      else
        match domain_at st domain_id with
        | Some dst =>
            let st := iommu_detach_device k src_domain st in
            let '(ret, st) := iommu_attach_device k (Some dst) st in
            if negb (ret =? 0) then (ret, (iommu_attach_device k src_domain st).2)
            else (ret, st <| iommu_domain_id := domain_id |>
                          <| group_default_domain := Some dst |>)
        | None =>
            match k_domain_alloc k st with
            | None => (-EIO, st)
            | Some dst =>
                let st := log_event (EvDomainAlloc dst) st in
                let st := iommu_detach_device k src_domain st in
                let '(ret, st) := iommu_attach_device k (Some dst) st in
                if negb (ret =? 0) then (ret, log_event (EvDomainFree dst) st)
                else (ret, st <| iommu_domain_id := domain_id |>
                              <| iommu_domains ::= <[Z.to_nat domain_id := Some dst]> |>
                              <| iommu_domain_num ::= Z.add 1 |>
                              <| group_default_domain := Some dst |>)
            end
        end.

(** One [usleep_range] of the wait loop: what the other threads did to the
    state meanwhile and the value of [jiffies] afterwards. *)
Record poll := { p_others : iommu_state -> iommu_state; p_jiffies : Z }.

(** [time_after(a, b)] of <linux/jiffies.h>: [(long)(b - a) < 0]. *)
Definition time_after (a b : Z) : bool := 2 ^ 63 <=? u64 (b - a).

Definition RKNPU_SWITCH_DOMAIN_WAIT_TIME_MS : Z := 6000.

(** The [while (true)] loop; [None]: still waiting after the given polls. *)
Fixpoint switch_loop (k : iommu_kernel) (deadline domain_id : Z) (polls : list poll)
    (st : iommu_state) : option (Z * iommu_state) :=
  if domain_id =? iommu_domain_id st then
    Some (0, st <| iommu_domain_refcount ::= Z.add 1 |>)
  else if iommu_domain_refcount st =? 0 then
    let '(ret, st) := rknpu_iommu_switch_domain k domain_id st in
    if negb (ret =? 0) then Some (ret, st)
    else Some (0, st <| iommu_domain_refcount ::= Z.add 1 |>)
  else
    match polls with
    | [] => None
    | p :: polls =>
        let st := p_others p st in
        if time_after (p_jiffies p) deadline then Some (-EINVAL, st)
        else switch_loop k deadline domain_id polls st
    end.

(** [start] is [jiffies] at the call, [timeout_jiffies] is
    [msecs_to_jiffies(RKNPU_SWITCH_DOMAIN_WAIT_TIME_MS)]. *)
Definition rknpu_iommu_domain_get_and_switch (k : iommu_kernel) (start timeout_jiffies : Z)
    (polls : list poll) (domain_id : Z) (st : iommu_state) : option (Z * iommu_state) :=
  if iommu_domain_num st <=? 1 then Some (0, st <| iommu_domain_refcount ::= Z.add 1 |>)
  else switch_loop k (start + timeout_jiffies) domain_id polls st.

Definition rknpu_iommu_domain_put (st : iommu_state) : Z * iommu_state :=
  (0, st <| iommu_domain_refcount ::= Z.pred |>).

(** The loop over the table of [rknpu_iommu_free_domains], from entry [i]. *)
Fixpoint free_domains_from (k : iommu_kernel) (n : nat) (i : Z) (st : iommu_state) : iommu_state :=
  match n with
  | O => st
  | S n =>
      let st :=
        match domain_at st i with
        | None => st
        | Some d =>
            let st := iommu_detach_device k (Some d) st in
            let st := log_event (EvDomainFree d) st in
            st <| iommu_domains ::= <[Z.to_nat i := None]> |>
        end in
      free_domains_from k n (i + 1) st
  end.

Definition rknpu_iommu_free_domains (k : iommu_kernel) (start timeout_jiffies : Z)
    (polls : list poll) (st : iommu_state) : option iommu_state :=
  match rknpu_iommu_domain_get_and_switch k start timeout_jiffies polls 0 st with
  | None => None
  | Some (ret, st) =>
      if negb (ret =? 0) then Some st
      else Some (rknpu_iommu_domain_put
                   (free_domains_from k (Z.to_nat (RKNPU_MAX_IOMMU_DOMAIN_NUM - 1)) 1 st)).2
  end.

(** ** The interface the rest of the driver uses

    [domain_get] is one uncontended [rknpu_iommu_domain_get_and_switch]; a
    successful one holds [domain_weight] references until [domain_put]. *)
Class IommuDomain := {
  domain_get : Z -> iommu_state -> option (Z * iommu_state);
  domain_put : iommu_state -> iommu_state;
  domain_weight : Z;
  domain_get_ok (id : Z) (st st' : iommu_state) :
    domain_get id st = Some (0, st') ->
    iommu_domain_refcount st' = iommu_domain_refcount st + domain_weight;
  domain_get_fail (id ret : Z) (st st' : iommu_state) :
    ret <> 0 -> domain_get id st = Some (ret, st') ->
    iommu_domain_refcount st' = iommu_domain_refcount st;
  domain_put_spec (st : iommu_state) :
    iommu_domain_refcount (domain_put st) = iommu_domain_refcount st - domain_weight;
}.

Lemma attach_refcount (k : iommu_kernel) (d : option dom) (st : iommu_state) :
  iommu_domain_refcount (iommu_attach_device k d st).2 = iommu_domain_refcount st.
Proof. unfold iommu_attach_device. simpl. by destruct (k_attach k st d =? 0). Qed.

Lemma switch_domain_refcount (k : iommu_kernel) (id : Z) (st : iommu_state) :
  iommu_domain_refcount (rknpu_iommu_switch_domain k id st).2 = iommu_domain_refcount st.
Proof.
  unfold rknpu_iommu_switch_domain, iommu_attach_device.
  repeat (case_match; simplify_eq; cbn; try done).
Qed.

#[export] Program Instance iommu_domain_no_gki (k : iommu_kernel) : IommuDomain := {
  domain_get id st := rknpu_iommu_domain_get_and_switch k 0 0 [] id st;
  domain_put st := (rknpu_iommu_domain_put st).2;
  domain_weight := 1;
}.
Next Obligation.
  intros k id st st'. unfold rknpu_iommu_domain_get_and_switch, switch_loop.
  pose proof (switch_domain_refcount k id st) as Hs.
  repeat case_match; intros; simplify_eq; cbn in *; lia.
Qed.
Next Obligation.
  intros k id ret st st'. unfold rknpu_iommu_domain_get_and_switch, switch_loop.
  pose proof (switch_domain_refcount k id st) as Hs.
  repeat case_match; intros; simplify_eq; cbn in *; lia.
Qed.
Next Obligation. intros k st. cbn. lia. Qed.

(** Without CONFIG_NO_GKI the functions are the stubs at the end of the file. *)
Definition stub_domain_get_and_switch (domain_id : Z) (st : iommu_state) : Z * iommu_state := (0, st).
Definition stub_domain_put (st : iommu_state) : Z * iommu_state := (0, st).
Definition stub_switch_domain (domain_id : Z) (st : iommu_state) : Z * iommu_state := (0, st).
Definition stub_init_domain (st : iommu_state) : Z * iommu_state := (0, st).

Program Definition iommu_domain_stub : IommuDomain := {|
  domain_get id st := Some (stub_domain_get_and_switch id st);
  domain_put st := (stub_domain_put st).2;
  domain_weight := 0;
|}.
Next Obligation. intros id st st' H. injection H as <-. lia. Qed.
Next Obligation. intros id ret st st' Hr H. injection H as <- <-. done. Qed.
Next Obligation. intros st. cbn. lia. Qed.

(** ** Coherence of the table with the hardware *)

(** The current entry exists and is the domain the device is attached to. *)
Record coherent (st : iommu_state) : Prop := {
  co_len : length (iommu_domains st) = Z.to_nat RKNPU_MAX_IOMMU_DOMAIN_NUM;
  co_id : 0 <= iommu_domain_id st < RKNPU_MAX_IOMMU_DOMAIN_NUM;
  co_attached : attached st = domain_at st (iommu_domain_id st);
  co_some : is_Some (attached st);
  co_num : iommu_domain_num st = Z.of_nat (length (filter is_Some (iommu_domains st)));
}.

(** What a switch may never change. *)
Definition switch_frame (st st' : iommu_state) : Prop :=
  iommu_en st' = iommu_en st /\
  iommu_domain_refcount st' = iommu_domain_refcount st.

Lemma filter_insert_none (l : list (option dom)) (i : nat) (d : dom) :
  l !! i = Some None ->
  length (filter is_Some (<[i := Some d]> l)) = S (length (filter is_Some l)).
Proof.
  revert i. induction l as [|x l IH]; intros i H; [done|].
  destruct i as [|i]; simpl in *.
  - injection H as ->. rewrite !filter_cons.
    destruct (decide (is_Some (Some d))) as [_|Hn]; [|exfalso; eauto].
    destruct (decide (is_Some (@None dom))) as [[? ?]|_]; done.
  - rewrite !filter_cons. specialize (IH i H). case_decide; simpl; lia.
Qed.

Lemma coherent_log (e : iommu_event) (st : iommu_state) :
  coherent (log_event e st) <-> coherent st.
Proof. split; intros [H1 H2 H3 H4 H5]; split; cbn in *; assumption. Qed.

Lemma domain_at_insert (st : iommu_state) (i : Z) (d : dom) :
  length (iommu_domains st) = Z.to_nat RKNPU_MAX_IOMMU_DOMAIN_NUM ->
  0 <= i < RKNPU_MAX_IOMMU_DOMAIN_NUM ->
  default None (<[Z.to_nat i := Some d]> (iommu_domains st) !! Z.to_nat i) = Some d.
Proof.
  unfold RKNPU_MAX_IOMMU_DOMAIN_NUM. intros Hl Hi.
  rewrite list_lookup_insert_eq by lia. done.
Qed.

Lemma domain_at_none (st : iommu_state) (i : Z) :
  length (iommu_domains st) = Z.to_nat RKNPU_MAX_IOMMU_DOMAIN_NUM ->
  0 <= i < RKNPU_MAX_IOMMU_DOMAIN_NUM ->
  domain_at st i = None -> iommu_domains st !! Z.to_nat i = Some None.
Proof.
  unfold RKNPU_MAX_IOMMU_DOMAIN_NUM, domain_at. intros Hl Hi Hn.
  destruct (lookup_lt_is_Some_2 (iommu_domains st) (Z.to_nat i)) as [x Hx]; [lia|].
  rewrite Hx in Hn |- *. simpl in Hn. by subst.
Qed.

(** The result of [rknpu_iommu_switch_domain] on a coherent state, by cases of
    the kernel's answers. *)
Definition switch_spec (k : iommu_kernel) (id : Z) (st : iommu_state)
    (ret : Z) (st' : iommu_state) : Prop :=
  switch_frame st st' /\
  (ret = 0 ->
     coherent st' /\ iommu_domain_id st' = id /\
     (id <> iommu_domain_id st -> group_default_domain st' = attached st') /\
     (forall i, 0 <= i -> i <> id -> domain_at st' i = domain_at st i) /\
     (forall d, domain_at st id = Some d -> attached st' = Some d)) /\
  (ret <> 0 ->
     iommu_domain_id st' = iommu_domain_id st /\ iommu_domains st' = iommu_domains st /\
     (attached st' = attached st \/ exists s, attached st' = k_detached k s)).


Lemma switch_spec_fail (k : iommu_kernel) (id ret : Z) (st st' : iommu_state) :
  ret <> 0 -> switch_frame st st' ->
  iommu_domain_id st' = iommu_domain_id st -> iommu_domains st' = iommu_domains st ->
  (attached st' = attached st \/ exists s, attached st' = k_detached k s) ->
  switch_spec k id st ret st'.
Proof. intros. split; [done|]. split; [done|]. tauto. Qed.

Lemma switch_spec_existing (k : iommu_kernel) (id : Z) (d : dom) (st st' : iommu_state) :
  coherent st -> 0 <= id < RKNPU_MAX_IOMMU_DOMAIN_NUM -> domain_at st id = Some d ->
  switch_frame st st' -> iommu_domain_id st' = id -> iommu_domains st' = iommu_domains st ->
  iommu_domain_num st' = iommu_domain_num st -> attached st' = Some d ->
  group_default_domain st' = Some d ->
  switch_spec k id st 0 st'.
Proof.
  intros [Hlen Hcur Hat Hsome Hnum] Hid Hd Hf Hi Ht Hn Ha Hg.
  split; [done|]. split; [intros _ | done].
  split.
  - split; [by rewrite Ht | by rewrite Hi | | eauto | by rewrite Hn, Ht].
    unfold domain_at in *. by rewrite Ha, Ht, Hi.
  - split; [done|]. split; [congruence|]. unfold domain_at in *. rewrite Ht.
    split; [done|]. congruence.
Qed.

Lemma switch_spec_new (k : iommu_kernel) (id : Z) (d : dom) (st st' : iommu_state) :
  coherent st -> 0 <= id < RKNPU_MAX_IOMMU_DOMAIN_NUM -> domain_at st id = None ->
  switch_frame st st' -> iommu_domain_id st' = id ->
  iommu_domains st' = <[Z.to_nat id := Some d]> (iommu_domains st) ->
  iommu_domain_num st' = 1 + iommu_domain_num st -> attached st' = Some d ->
  group_default_domain st' = Some d ->
  switch_spec k id st 0 st'.
Proof.
  intros [Hlen Hcur Hat Hsome Hnum] Hid Hd Hf Hi Ht Hn Ha Hg.
  pose proof (domain_at_none st id Hlen Hid Hd) as Hslot.
  split; [done|]. split; [intros _ | done].
  split.
  - split.
    + by rewrite Ht, length_insert.
    + by rewrite Hi.
    + unfold domain_at. rewrite Ha, Ht, Hi. by rewrite domain_at_insert.
    + eauto.
    + rewrite Hn, Ht, filter_insert_none by done. lia.
  - split; [done|]. split; [congruence|]. split; [|congruence].
    intros i Hi0 Hne. unfold domain_at. rewrite Ht.
    by rewrite list_lookup_insert_ne by lia.
Qed.


(** A device attached to its default domain 0 and a kernel that allocates
    domain 9, accepts every attach and leaves the device nowhere on detach. *)
Definition example_iommu : iommu_state :=
  {| iommu_en := true; iommu_domains := Some 7 :: replicate 15 None; iommu_domain_num := 1;
     iommu_domain_id := 0; iommu_domain_refcount := 0; group_default_domain := Some 7;
     attached := Some 7; iommu_log := [] |}.

Definition example_kernel (ret : Z) : iommu_kernel :=
  {| k_has_bus := true; k_domain_alloc := fun _ => Some 9; k_attach := fun _ _ => ret;
     k_detached := fun _ => None |}.

Lemma example_iommu_coherent : coherent example_iommu.
Proof. by split; [| | | exists 7 |]. Qed.


Lemma switch_mismatch_einval (k : iommu_kernel) (id : Z) (st : iommu_state) :
  attached st <> domain_at st (iommu_domain_id st) -> id <> iommu_domain_id st ->
  k_has_bus k = true -> (rknpu_iommu_switch_domain k id st).1 = -EINVAL.
Proof.
  intros Hat Hne Hbus. unfold rknpu_iommu_switch_domain.
  destruct (negb (iommu_en st)); [done|]. destruct (_ || _); [done|].
  rewrite Hbus, (proj2 (Z.eqb_neq _ _) Hne). cbn [negb].
  by rewrite bool_decide_false by done.
Qed.

(** When the attach of a newly allocated domain fails, the switch returns
    the error with the device in whatever domain the detach left (the source
    domain is not attached again, unlike in the branch for an existing
    domain); if that is not the source domain, the table no longer agrees with
    the hardware and every later switch to another id returns -EINVAL. *)
Theorem switch_to_new_domain_failure_detaches
    (k : iommu_kernel) (id ret : Z) (d : dom) (st st' : iommu_state) :
  coherent st -> id <> iommu_domain_id st -> domain_at st id = None ->
  0 <= id < RKNPU_MAX_IOMMU_DOMAIN_NUM -> iommu_en st = true -> k_has_bus k = true ->
  k_domain_alloc k st = Some d -> (forall s, k_attach k s (Some d) = ret) -> ret <> 0 ->
  (forall s, k_detached k s <> attached st) ->
  rknpu_iommu_switch_domain k id st = (ret, st') ->
  ~ coherent st' /\
  forall k' id', id' <> iommu_domain_id st' -> k_has_bus k' = true ->
    (rknpu_iommu_switch_domain k' id' st').1 = -EINVAL.
Proof.
  intros Hco Hne Hd Hid Hen Hbus Hal Hk Hret Hdet.
  unfold rknpu_iommu_switch_domain at 1.
  rewrite Hen, Hbus, Hd, Hal. cbn.
  replace ((id <? 0) || (RKNPU_MAX_IOMMU_DOMAIN_NUM - 1 <? id)) with false
    by (symmetry; apply orb_false_iff; rewrite !Z.ltb_ge; lia).
  rewrite (proj2 (Z.eqb_neq _ _) Hne).
  rewrite bool_decide_true by apply (co_attached _ Hco).
  unfold iommu_attach_device. rewrite Hk, (proj2 (Z.eqb_neq _ _) Hret). cbn.
  intros [= <-].
  match goal with |- ~ coherent ?s /\ _ => set (st' := s) end.
  assert (Hat : attached st' <> domain_at st' (iommu_domain_id st')).
  { change (domain_at st' (iommu_domain_id st')) with (domain_at st (iommu_domain_id st)).
    rewrite <- (co_attached _ Hco). apply Hdet. }
  split; [by intros [_ _ ? _ _]|].
  intros k' id' Hne' Hbus'. by apply switch_mismatch_einval.
Qed.

Lemma switch_to_new_domain_failure_detaches_witness :
  let st' := (rknpu_iommu_switch_domain (example_kernel (-12)) 3 example_iommu).2 in
  ~ coherent st' /\
  forall k' id', id' <> iommu_domain_id st' -> k_has_bus k' = true ->
    (rknpu_iommu_switch_domain k' id' st').1 = -EINVAL.
Proof.
  intros st'.
  apply (switch_to_new_domain_failure_detaches (example_kernel (-12)) 3 (-12) 9 example_iommu st').
  - apply example_iommu_coherent.
  - discriminate.
  - reflexivity.
  - split; [discriminate | reflexivity].
  - reflexivity.
  - reflexivity.
  - reflexivity.
  - reflexivity.
  - discriminate.
  - discriminate.
  - reflexivity.
Defined.

(** ** The users of the domains *)

(** What the rest of the driver does to the domain state: rknpu_gem.c,
    rknpu_job.c and the SET_IOMMU_DOMAIN_ID action call nothing else between
    probe and remove. *)
Inductive domain_op :=
  | OpGet (start timeout : Z) (polls : list poll) (id : Z)
  | OpPut.

Definition domain_step (k : iommu_kernel) (op : domain_op) (st : iommu_state)
  : option (Z * iommu_state) :=
  match op with
  | OpGet start timeout polls id =>
      rknpu_iommu_domain_get_and_switch k start timeout polls id st
  | OpPut => Some (rknpu_iommu_domain_put st)
  end.

Fixpoint domain_run (k : iommu_kernel) (ops : list domain_op) (st : iommu_state)
  : option (list Z * iommu_state) :=
  match ops with
  | [] => Some ([], st)
  | op :: ops =>
      match domain_step k op st with
      | None => None
      | Some (ret, st) =>
          match domain_run k ops st with
          | None => None
          | Some (rets, st) => Some (ret :: rets, st)
          end
      end
  end.

Lemma domain_run_cons (k : iommu_kernel) (op : domain_op) (ops : list domain_op) (st : iommu_state) :
  domain_run k (op :: ops) st =
    match domain_step k op st with
    | None => None
    | Some (ret, st) =>
        match domain_run k ops st with
        | None => None
        | Some (rets, st) => Some (ret :: rets, st)
        end
    end.
Proof. done. Qed.

Lemma domain_run_single (k : iommu_kernel) (ops : list domain_op) (st : iommu_state) :
  iommu_domain_num st <= 1 ->
  exists rets n, domain_run k ops st = Some (rets, st <| iommu_domain_refcount := n |>) /\
    Forall (fun ret => ret = 0) rets.
Proof.
  revert st. induction ops as [|op ops IH]; intros st Hn.
  { exists [], (iommu_domain_refcount st). by destruct st. }
  assert (exists n, domain_step k op st = Some (0, st <| iommu_domain_refcount := n |>))
    as [n Hop].
  { destruct op; simpl; [|by eexists].
    unfold rknpu_iommu_domain_get_and_switch.
    rewrite (proj2 (Z.leb_le _ _) Hn). by eexists. }
  destruct (IH (st <| iommu_domain_refcount := n |>)) as (rets & n' & Hrun & Hall); [exact Hn|].
  exists (0 :: rets), n'. rewrite domain_run_cons, Hop. cbv beta iota. rewrite Hrun.
  split; [done | by constructor].
Qed.

(** After rknpu_iommu_init_domain on a fresh device, every domain request
    of any sequence of gets and puts returns 0 at once, whatever the requested
    id (an id that rknpu_iommu_switch_domain would refuse included), and leaves
    the device in its first domain with nothing attached, detached or
    allocated: the fast path for a single domain makes the switch, and so the
    allocation of a second domain, unreachable. *)
Theorem single_domain_never_switches (k : iommu_kernel) (ops : list domain_op) (st : iommu_state) :
  domain_at st 0 = None ->
  exists rets n,
    domain_run k ops (rknpu_iommu_init_domain st).2 =
      Some (rets, (rknpu_iommu_init_domain st).2 <| iommu_domain_refcount := n |>) /\
    Forall (fun ret => ret = 0) rets /\
    iommu_domain_id (rknpu_iommu_init_domain st).2 = 0 /\
    iommu_log (rknpu_iommu_init_domain st).2 = iommu_log st.
Proof.
  intros H0.
  assert (Hst : iommu_domain_num (rknpu_iommu_init_domain st).2 = 1 /\
    iommu_domain_id (rknpu_iommu_init_domain st).2 = 0 /\
    iommu_log (rknpu_iommu_init_domain st).2 = iommu_log st)
    by (unfold rknpu_iommu_init_domain; rewrite H0; done).
  destruct Hst as (Hnum & Hid & Hlog).
  destruct (domain_run_single k ops (rknpu_iommu_init_domain st).2) as (rets & n & Hr & Ha); [lia|].
  by exists rets, n.
Qed.

Lemma single_domain_never_switches_witness :
  let st := example_iommu <| iommu_domains := replicate 16 None |> <| iommu_domain_num := 0 |> in
  exists rets n,
    domain_run (example_kernel 0) [OpGet 0 1500 [] 5; OpGet 0 1500 [] 99; OpPut]
      (rknpu_iommu_init_domain st).2 =
      Some (rets, (rknpu_iommu_init_domain st).2 <| iommu_domain_refcount := n |>) /\
    Forall (fun ret => ret = 0) rets /\
    iommu_domain_id (rknpu_iommu_init_domain st).2 = 0 /\
    iommu_log (rknpu_iommu_init_domain st).2 = iommu_log st.
Proof. intros st. apply single_domain_never_switches. reflexivity. Defined.

(** ** The wait loop *)

(** The state after the other threads ran during the given sleeps. *)
Definition others_after (polls : list poll) (st : iommu_state) : iommu_state :=
  fold_left (fun s p => p_others p s) polls st.

(** How the loop ends in the state [s] it looks at under the lock. *)
Definition loop_answer (k : iommu_kernel) (id : Z) (s : iommu_state)
    (ret : Z) (st' : iommu_state) : Prop :=
  (id = iommu_domain_id s /\ ret = 0 /\ st' = s <| iommu_domain_refcount ::= Z.add 1 |>) \/
  (id <> iommu_domain_id s /\ iommu_domain_refcount s = 0 /\
     exists s', rknpu_iommu_switch_domain k id s = (ret, s') /\
       st' = if ret =? 0 then s' <| iommu_domain_refcount ::= Z.add 1 |> else s').

Lemma switch_loop_spec (k : iommu_kernel) (deadline id : Z) (before after : list poll)
    (last : poll) (st : iommu_state) :
  time_after (p_jiffies last) deadline = true ->
  exists n ret st', (n <= S (length before))%nat /\
    switch_loop k deadline id (before ++ last :: after) st = Some (ret, st') /\
    let s := others_after (take n (before ++ last :: after)) st in
    loop_answer k id s ret st' \/ (ret = -EINVAL /\ st' = s /\ (0 < n)%nat).
Proof.
  intros Hlast. revert st.
  assert (Hnow : forall polls st, id = iommu_domain_id st \/ iommu_domain_refcount st = 0 ->
    exists ret st', switch_loop k deadline id polls st = Some (ret, st') /\
      loop_answer k id st ret st').
  { intros polls st Hor. unfold loop_answer.
    destruct polls; cbn [switch_loop]; destruct (Z.eqb_spec id (iommu_domain_id st));
      try (exists 0; eexists; split; [done|]; by left).
    all: destruct Hor as [?|Hz]; [done|]; rewrite Hz, Z.eqb_refl;
      destruct (rknpu_iommu_switch_domain k id st) as [r s'] eqn:Hs;
      exists r; destruct (Z.eqb_spec r 0) as [->|Hr]; cbn;
      (eexists; split; [done|]; right; split; [done|]; split; [done|]; eexists; split; [done|]);
      first [done | by rewrite (proj2 (Z.eqb_neq _ _) Hr)]. }
  assert (Hwait : forall p polls st, id <> iommu_domain_id st -> iommu_domain_refcount st <> 0 ->
    switch_loop k deadline id (p :: polls) st =
      if time_after (p_jiffies p) deadline then Some (-EINVAL, p_others p st)
      else switch_loop k deadline id polls (p_others p st)).
  { intros p polls st H1 H2. cbn [switch_loop].
    by rewrite (proj2 (Z.eqb_neq _ _) H1), (proj2 (Z.eqb_neq _ _) H2). }
  induction before as [|p before IH]; intros st.
  all: destruct (decide (id = iommu_domain_id st \/ iommu_domain_refcount st = 0)) as [Hor|Hor];
    [ match goal with |- context [switch_loop _ _ _ ?polls _] =>
        destruct (Hnow polls st Hor) as (ret & st' & Heq & Hans) end;
      exists 0%nat, ret, st'; split; [lia|]; split; [exact Heq | by left] |].
  all: cbn [app]; rewrite Hwait by tauto.
  - rewrite Hlast. exists 1%nat, (-EINVAL), (p_others last st).
    split; [lia|]. split; [done|]. right. split; [done|]. split; [done|lia].
  - destruct (time_after (p_jiffies p) deadline).
    + exists 1%nat, (-EINVAL), (p_others p st).
      split; [lia|]. split; [done|]. right. split; [done|]. split; [done|lia].
    + destruct (IH (p_others p st)) as (n & ret & st' & Hn & Heq & Hs).
      exists (S n), ret, st'. split; [cbn; lia|]. split; [exact Heq|].
      destruct Hs as [Hs|(H1 & H2 & H3)]; [by left | right; split; [done|]; split; [done|lia]].
Qed.


