(* ===== verification/Device.v ===== *)
(** * The device state and the effects of driver code

    [struct rknpu_device] with the objects its functions reach through
    pointers (jobs, argument copies, task buffers, fences), the register
    accesses, and a small monad for code that may dereference a bad pointer. *)

From S2P Require Import Prelude Config Domain.

(** ** Data *)

(** An array indexed by the core number, 0 to RKNPU_MAX_CORES - 1. *)
Abbreviation per_core A := (Z -> A) (only parsing).

(** A pointer to entry [tp_index] of the task buffer of an object: a
    rknpu_gem_object for the DRM path, a rknpu_mem_object for the other. *)
Record task_ptr := { tp_gem : bool; tp_obj : Z; tp_index : Z }.

(** struct rknpu_job; pointers to jobs, arguments and fences are addresses. *)
Record rknpu_job := {
  j_work_init : bool;                  (* cleanup_work is initialised *)
  j_irq_entry : per_core bool;
  j_flags : Z;
  j_ret : Z;
  j_args : Z;
  j_args_owner : bool;
  j_first_task : option task_ptr;
  j_last_task : option task_ptr;
  j_int_mask : per_core Z;
  j_int_status : per_core Z;
  j_fence : option Z;
  j_timestamp : Z;
  j_use_core_num : Z;
  j_run_count : Z;
  j_interrupt_count : Z;
  j_hw_commit_time : Z;
  j_hw_recoder_time : Z;
  j_hw_elapse_time : Z;
  j_submit_count : per_core Z;
  j_iommu_domain_id : Z;
  j_use_drm_gem : bool }.
#[export] Instance rknpu_job_settable : Settable rknpu_job := {| settable := fun j =>
  Build_rknpu_job (j_work_init j) (j_irq_entry j) (j_flags j) (j_ret j) (j_args j)
    (j_args_owner j) (j_first_task j) (j_last_task j) (j_int_mask j) (j_int_status j)
    (j_fence j) (j_timestamp j) (j_use_core_num j) (j_run_count j) (j_interrupt_count j)
    (j_hw_commit_time j) (j_hw_recoder_time j) (j_hw_elapse_time j) (j_submit_count j)
    (j_iommu_domain_id j) (j_use_drm_gem j) |}.

(** struct rknpu_subcore_data: [s_job] is the running job, [todo_list] the
    jobs queued through [head[core]], the two times its timer. *)
Record rknpu_subcore_data := {
  todo_list : list Z;
  s_job : option Z;
  task_num : Z;
  s_busy_time : Z;
  s_total_busy_time : Z }.
#[export] Instance rknpu_subcore_data_settable : Settable rknpu_subcore_data := {| settable := fun s =>
  Build_rknpu_subcore_data (todo_list s) (s_job s) (task_num s) (s_busy_time s)
    (s_total_busy_time s) |}.

(** The part of a GEM or memory object a job uses: the kernel mapping of its
    tasks (NULL or an array) and the reference count. *)
Record npu_object := { o_kv_addr : option (list rknpu_task); o_refcount : Z }.
#[export] Instance npu_object_settable : Settable npu_object := {| settable := fun o =>
  Build_npu_object (o_kv_addr o) (o_refcount o) |}.

Record dma_fence := { f_seqno : Z; f_refcount : Z; f_signaled : bool }.
#[export] Instance dma_fence_settable : Settable dma_fence := {| settable := fun f =>
  Build_dma_fence (f_seqno f) (f_refcount f) (f_signaled f) |}.

(** Mapped register windows: [base[i]] and [bw_priority_base]. *)
Inductive io_base := CoreBase (core : Z) | BwPriorityBase.
#[export] Instance io_base_eq_dec : EqDecision io_base.
Proof. solve_decision. Defined.

(** One [writel]. *)
Record reg_write := { w_base : io_base; w_offset : Z; w_value : Z }.

(** A reset line, by what the reset framework answers. *)
Record reset_control := { rc_assert_ret : Z; rc_deassert_ret : Z }.

(** struct rknpu_device as the job and reset code sees it.  [config] is set by
    probe before any other use and is never NULL afterwards. *)
Record rknpu_device := {
  config : rknpu_config;
  io_mapped : io_base -> bool;         (* the base pointer is not NULL *)
  reg_value : io_base -> Z -> Z;       (* what readl returns *)
  reg_writes : list reg_write;         (* every writel so far *)
  subcore_datas : per_core rknpu_subcore_data;
  jobs : gmap Z rknpu_job;             (* allocated jobs by address *)
  args_mem : gmap Z rknpu_submit;      (* allocated rknpu_submit structures *)
  next_addr : Z;                       (* next address kzalloc hands out *)
  gem_objects : gmap Z npu_object;
  mem_objects : gmap Z npu_object;
  fences : gmap Z dma_fence;
  fence_seqno : Z;                     (* fence_ctx->seqno *)
  cleanup_works : list Z;              (* jobs whose cleanup_work is queued *)
  wakeups : list Z;                    (* cores whose job_done_wq was woken *)
  soft_reseting : bool;
  srsts : list (option reset_control);
  iommu_st : iommu_state;
  now : Z }.                           (* ktime_get(), nanoseconds *)
#[export] Instance rknpu_device_settable : Settable rknpu_device := {| settable := fun d =>
  Build_rknpu_device (config d) (io_mapped d) (reg_value d) (reg_writes d) (subcore_datas d)
    (jobs d) (args_mem d) (next_addr d) (gem_objects d) (mem_objects d) (fences d)
    (fence_seqno d) (cleanup_works d) (wakeups d) (soft_reseting d) (srsts d)
    (iommu_st d) (now d) |}.

(** ** Effects *)

(** What the kernel would report or what would corrupt memory. *)
Inductive fault :=
  | NullDeref          (* access through a NULL base *)
  | UseAfterFree       (* a job, argument copy or fence that was freed *)
  | WildPointer        (* an address that is no object *)
  | OutOfBounds        (* an index outside a task buffer *)
  | UninitWork.        (* schedule_work on a work item that was never set up *)

(** [Blocked]: the call waits for something the given inputs never provide. *)
Inductive outcome (A : Type) :=
  | Ret (a : A) (d : rknpu_device)
  | Fault (f : fault)
  | Blocked.
Arguments Ret {A}.
Arguments Fault {A}.
Arguments Blocked {A}.

Definition M (A : Type) : Type := rknpu_device -> outcome A.

Definition ret {A} (a : A) : M A := fun d => Ret a d.
Definition bind {A B} (m : M A) (k : A -> M B) : M B :=
  fun d => match m d with Ret a d => k a d | Fault f => Fault f | Blocked => Blocked end.
Definition throw {A} (f : fault) : M A := fun _ => Fault f.
Definition block {A} : M A := fun _ => Blocked.
Definition gets {A} (f : rknpu_device -> A) : M A := fun d => Ret (f d) d.
Definition modify (f : rknpu_device -> rknpu_device) : M unit := fun d => Ret tt (f d).

Notation "'let!' x := m 'in' k" := (bind m (fun x => k))
  (at level 10, x binder, m at level 100, k at level 200) : rknpu_scope.
Notation "m ;; k" := (bind m (fun _ : unit => k))
  (at level 100, k at level 200, right associativity) : rknpu_scope.

Definition when (b : bool) (m : M unit) : M unit := if b then m else ret tt.

(** [for (i = 0; i < n; i++)] from [i] on, [n] iterations left. *)
Fixpoint for_from (n : nat) (i : Z) (body : Z -> M unit) : M unit :=
  match n with
  | O => ret tt
  | S n => body i ;; for_from n (i + 1) body
  end.
Definition for_cores (n : Z) (body : Z -> M unit) : M unit := for_from (Z.to_nat n) 0 body.

(** ** Memory *)

Definition lookup_or {A} (f : fault) (x : option A) : M A :=
  match x with Some a => ret a | None => throw f end.

Definition get_job (p : Z) : M rknpu_job :=
  let! js := gets jobs in lookup_or UseAfterFree (js !! p).
Definition mod_job (p : Z) (f : rknpu_job -> rknpu_job) : M unit :=
  let! j := get_job p in modify (fun d => d <| jobs ::= <[p := f j]> |>).

Definition get_args (p : Z) : M rknpu_submit :=
  let! m := gets args_mem in lookup_or UseAfterFree (m !! p).
Definition mod_args (p : Z) (f : rknpu_submit -> rknpu_submit) : M unit :=
  let! a := get_args p in modify (fun d => d <| args_mem ::= <[p := f a]> |>).

Definition get_subcore (i : Z) : M rknpu_subcore_data := gets (fun d => subcore_datas d i).
Definition mod_subcore (i : Z) (f : rknpu_subcore_data -> rknpu_subcore_data) : M unit :=
  modify (fun d => d <| subcore_datas ::= alter f i |>).

(** [kzalloc] of an address no live or freed object has. *)
Definition new_addr : M Z :=
  let! p := gets next_addr in modify (fun d => d <| next_addr := p + 1 |>) ;; ret p.

Definition get_object (gem : bool) (addr : Z) : M npu_object :=
  let! m := gets (if gem then gem_objects else mem_objects) in lookup_or WildPointer (m !! addr).
Definition set_object (gem : bool) (addr : Z) (o : npu_object) : M unit :=
  modify (fun d => if gem then d <| gem_objects ::= <[addr := o]> |>
                   else d <| mem_objects ::= <[addr := o]> |>).

(** [*p] and [p->int_status = v] for a task pointer. *)
Definition load_task (p : task_ptr) : M rknpu_task :=
  let! o := get_object (tp_gem p) (tp_obj p) in
  match o_kv_addr o with
  | None => throw NullDeref
  | Some tasks =>
      if tp_index p <? 0 then throw OutOfBounds
      else lookup_or OutOfBounds (tasks !! Z.to_nat (tp_index p))
  end.
Definition store_task_status (p : task_ptr) (v : Z) : M unit :=
  let! t := load_task p in
  let! o := get_object (tp_gem p) (tp_obj p) in
  set_object (tp_gem p) (tp_obj p)
    (o <| o_kv_addr ::= option_map (<[Z.to_nat (tp_index p) := t <| t_int_status := v |>]>) |>).

(** ** Registers *)

Definition writel (v : Z) (b : io_base) (off : Z) : M unit :=
  let! m := gets io_mapped in
  if m b then modify (fun d => d <| reg_writes ::= (fun l =>
    l ++ [{| w_base := b; w_offset := off; w_value := u32 v |}]) |>)
  else throw NullDeref.
Definition readl (b : io_base) (off : Z) : M Z :=
  let! m := gets io_mapped in
  if m b then gets (fun d => u32 (reg_value d b off)) else throw NullDeref.

(** [REG_WRITE] and [REG_READ] with [rknpu_core_base = rknpu_dev->base[core]]. *)
Definition REG_WRITE (core v off : Z) : M unit := writel v (CoreBase core) off.
Definition REG_READ (core off : Z) : M Z := readl (CoreBase core) off.

(** ** Reasoning

    [wp bad m Q d]: run in [d], [m] ends in no fault of [bad] and every normal
    result satisfies [Q]. *)
Definition wp {A} (bad : fault -> Prop) (m : M A) (Q : A -> rknpu_device -> Prop)
    (d : rknpu_device) : Prop :=
  match m d with Ret a d' => Q a d' | Fault f => ~ bad f | Blocked => True end.

Section Wp.
Context {bad : fault -> Prop}.

Lemma wp_ret {A} (a : A) (Q : A -> rknpu_device -> Prop) (d : rknpu_device) :
  Q a d -> wp bad (ret a) Q d.
Proof. done. Qed.

Lemma wp_bind {A B} (m : M A) (k : A -> M B) (Q : B -> rknpu_device -> Prop) (d : rknpu_device) :
  wp bad m (fun a d' => wp bad (k a) Q d') d -> wp bad (bind m k) Q d.
Proof. unfold wp, bind. by destruct (m d). Qed.

Lemma wp_mono {A} (m : M A) (Q Q' : A -> rknpu_device -> Prop) (d : rknpu_device) :
  wp bad m Q d -> (forall a d', Q a d' -> Q' a d') -> wp bad m Q' d.
Proof. unfold wp. destruct (m d); auto. Qed.

Lemma wp_gets {A} (f : rknpu_device -> A) (Q : A -> rknpu_device -> Prop) (d : rknpu_device) :
  Q (f d) d -> wp bad (gets f) Q d.
Proof. done. Qed.

Lemma wp_modify (f : rknpu_device -> rknpu_device) (Q : unit -> rknpu_device -> Prop)
    (d : rknpu_device) :
  Q tt (f d) -> wp bad (modify f) Q d.
Proof. done. Qed.

Lemma wp_when (b : bool) (m : M unit) (Q : unit -> rknpu_device -> Prop) (d : rknpu_device) :
  (b = true -> wp bad m Q d) -> (b = false -> Q tt d) -> wp bad (when b m) Q d.
Proof. destruct b; cbn; auto. Qed.

(** A loop rule: [I i] holds before iteration [i]. *)
Lemma wp_for_cores (n : Z) (body : Z -> M unit) (I : Z -> rknpu_device -> Prop)
    (Q : unit -> rknpu_device -> Prop) (d : rknpu_device) :
  0 <= n -> I 0 d ->
  (forall i d, 0 <= i < n -> I i d -> wp bad (body i) (fun _ d' => I (i + 1) d') d) ->
  (forall d, I n d -> Q tt d) ->
  wp bad (for_cores n body) Q d.
Proof.
  intros Hn HI Hbody HQ. unfold for_cores.
  assert (forall k i d, 0 <= i -> i + Z.of_nat k = n -> I i d ->
    wp bad (for_from k i body) Q d) as H; [|apply (H _ 0); [lia|lia|done]].
  induction k as [|k IH]; intros i d' Hi Hk HId; cbn [for_from].
  - apply wp_ret, HQ. by replace n with i by lia.
  - apply wp_bind. eapply wp_mono; [apply Hbody; [lia|done]|].
    intros ? d'' HI'. apply IH; [lia|lia|done].
Qed.

Lemma wp_lookup_or {A} (f : fault) (x : option A) (Q : A -> rknpu_device -> Prop)
    (d : rknpu_device) :
  (forall a, x = Some a -> Q a d) -> (x = None -> ~ bad f) -> wp bad (lookup_or f x) Q d.
Proof. destruct x; cbn; auto. Qed.

Lemma wp_get_job (p : Z) (j : rknpu_job) (Q : rknpu_job -> rknpu_device -> Prop)
    (d : rknpu_device) :
  jobs d !! p = Some j -> Q j d -> wp bad (get_job p) Q d.
Proof. intros Hj HQ. unfold wp, get_job, bind, gets, lookup_or. by rewrite Hj. Qed.

Lemma wp_mod_job (p : Z) (j : rknpu_job) (f : rknpu_job -> rknpu_job)
    (Q : unit -> rknpu_device -> Prop) (d : rknpu_device) :
  jobs d !! p = Some j -> Q tt (d <| jobs ::= <[p := f j]> |>) -> wp bad (mod_job p f) Q d.
Proof.
  intros Hj HQ. unfold mod_job. apply wp_bind, (wp_get_job p j); [done|].
  by apply wp_modify.
Qed.

Lemma wp_get_args (p : Z) (a : rknpu_submit) (Q : rknpu_submit -> rknpu_device -> Prop)
    (d : rknpu_device) :
  args_mem d !! p = Some a -> Q a d -> wp bad (get_args p) Q d.
Proof. intros Hj HQ. unfold wp, get_args, bind, gets, lookup_or. by rewrite Hj. Qed.

Lemma wp_mod_args (p : Z) (a : rknpu_submit) (f : rknpu_submit -> rknpu_submit)
    (Q : unit -> rknpu_device -> Prop) (d : rknpu_device) :
  args_mem d !! p = Some a -> Q tt (d <| args_mem ::= <[p := f a]> |>) -> wp bad (mod_args p f) Q d.
Proof.
  intros Hj HQ. unfold mod_args. apply wp_bind, (wp_get_args p a); [done|].
  by apply wp_modify.
Qed.
End Wp.

(** The same for a loop whose iterations all return. *)
Lemma for_cores_total (n : Z) (body : Z -> M unit) (I : Z -> rknpu_device -> Prop) (d : rknpu_device) :
  0 <= n -> I 0 d ->
  (forall i d, 0 <= i < n -> I i d -> exists d', body i d = Ret tt d' /\ I (i + 1) d') ->
  exists d', for_cores n body d = Ret tt d' /\ I n d'.
Proof.
  intros Hn HI Hbody. unfold for_cores.
  assert (forall k i d, 0 <= i -> i + Z.of_nat k = n -> I i d ->
    exists d', for_from k i body d = Ret tt d' /\ I n d') as H; [|apply (H _ 0); [lia|lia|done]].
  induction k as [|k IH]; intros i d' Hi Hk HId; cbn [for_from].
  - exists d'. split; [done|]. by replace n with i by lia.
  - destruct (Hbody i d' ltac:(lia) HId) as (d'' & E & HI'). unfold bind. rewrite E.
    apply IH; [lia|lia|done].
Qed.

Lemma wp_total {A} (m : M A) (Q : A -> rknpu_device -> Prop) (d : rknpu_device) (a : A)
    (d' : rknpu_device) (bad : fault -> Prop) :
  wp bad m Q d -> m d = Ret a d' -> Q a d'.
Proof. unfold wp. intros H Hm. by rewrite Hm in H. Qed.

Lemma wp_no_fault {A} (bad : fault -> Prop) (m : M A) (Q : A -> rknpu_device -> Prop)
    (d : rknpu_device) (f : fault) :
  wp bad m Q d -> bad f -> m d <> Fault f.
Proof. unfold wp. intros H Hf Hm. by rewrite Hm in H. Qed.
