(* ===== verification/Reset.v ===== *)
(** * Soft reset (rknpu_reset.c, and rk3576_state_init of rknpu_drv.c)

    The reset lines are the framework's ([reset_control] records what it
    answers), the IOMMU core is the parameter of [Domain]. *)

From S2P Require Import Prelude Config Domain Device.

(** The loop of [rknpu_reset_get] from line [i]; [get i] is an error code or
    the control. *)
Fixpoint reset_get_lines (get : Z -> Z + reset_control) (n : nat) (i : Z)
  : list (option reset_control) * option Z :=
  match n with
  | O => ([], None)
  | S n =>
      match get i with
      | inl err => ([], Some err)
      | inr rst => let '(l, err) := reset_get_lines get n (i + 1) in (Some rst :: l, err)
      end
  end.

Definition rknpu_reset_get (num_srsts : Z) (kcalloc_ok : bool) (get : Z -> Z + reset_control)
  : M Z :=
  if num_srsts <=? 0 then ret num_srsts
  else if negb kcalloc_ok then ret (-ENOMEM)
  else
    let '(l, err) := reset_get_lines get (Z.to_nat num_srsts) 0 in
    modify (fun d => d <| srsts := l |>) ;;
    ret (match err with Some e => e | None => num_srsts end).

Definition rknpu_reset_assert (rst : option reset_control) : Z :=
  match rst with
  | None => -EINVAL
  | Some rst => let ret := rc_assert_ret rst in if ret <? 0 then ret else 0
  end.

Definition rknpu_reset_deassert (rst : option reset_control) : Z :=
  match rst with
  | None => -EINVAL
  | Some rst => let ret := rc_deassert_ret rst in if ret <? 0 then ret else 0
  end.

Definition wake_up (core : Z) : M unit :=
  modify (fun d => d <| wakeups ::= (fun l => l ++ [core]) |>).

Definition rk3576_state_init : M unit :=
  REG_WRITE 0 0x1 0x10 ;;
  REG_WRITE 0 0 0x1004 ;;
  REG_WRITE 0 0x80000000 0x1024 ;;
  REG_WRITE 0 1 0x1004 ;;
  REG_WRITE 0 0x80000000 0x1024 ;;
  REG_WRITE 0 0x1e 0x1004.

Definition run_state_init (f : state_init_fn) : M unit :=
  match f with rk3576_state_init_fn => rk3576_state_init end.

(** [ret |= ...] over the asserts, then over the deasserts. *)
Definition reset_lines_ret (lines : list (option reset_control)) : Z :=
  let ret := fold_left (fun ret rst => Z.lor ret (rknpu_reset_assert rst)) lines 0 in
  fold_left (fun ret rst => Z.lor ret (rknpu_reset_deassert rst)) lines ret.

(** [domain]'s detach and attach. *)
Definition reattach (k : iommu_kernel) (st : iommu_state) : iommu_state :=
  match (if iommu_en st then iommu_get_domain_for_dev st else None) with
  | Some domain =>
      (iommu_attach_device k (Some domain) (iommu_detach_device k (Some domain) st)).2
  | None => st
  end.

Definition rknpu_soft_reset (k : iommu_kernel) : M Z :=
  let! c := gets config in
  modify (fun d => d <| soft_reseting := true |>) ;;
  for_cores (num_irqs c) wake_up ;;
  let! lines := gets srsts in
  let r := reset_lines_ret lines in
  if negb (r =? 0) then ret r
  else
    modify (fun d => d <| iommu_st ::= reattach k |>) ;;
    modify (fun d => d <| soft_reseting := false |>) ;;
    match state_init c with
    | Some f => run_state_init f
    | None => ret tt
    end ;;
    ret 0.

(** ** Properties *)

Lemma lor_zero (a b : Z) : Z.lor a b = 0 <-> a = 0 /\ b = 0.
Proof. apply Z.lor_eq_0_iff. Qed.

Lemma fold_lor_zero {A} (f : A -> Z) (l : list A) (a : Z) :
  fold_left (fun r x => Z.lor r (f x)) l a = 0 <-> a = 0 /\ Forall (fun x => f x = 0) l.
Proof.
  revert a. induction l as [|x l IH]; intros a; simpl.
  - split; [by split; [|constructor] | by intros [? _]].
  - rewrite IH, lor_zero, Forall_cons. tauto.
Qed.

Definition line_ok (rst : option reset_control) : Prop :=
  exists c, rst = Some c /\ 0 <= rc_assert_ret c /\ 0 <= rc_deassert_ret c.

Lemma reset_lines_ret_zero (lines : list (option reset_control)) :
  reset_lines_ret lines = 0 <-> Forall line_ok lines.
Proof.
  unfold reset_lines_ret. rewrite !fold_lor_zero, !Forall_forall.
  split.
  - intros [[_ Ha] Hd] x Hx. specialize (Ha x Hx). specialize (Hd x Hx).
    destruct x as [c|]; [exists c|done]. revert Ha Hd. simpl.
    repeat case_bool; lia || (by intros; split; [|lia]).
  - intros H. split; [split; [done|]|]; intros x Hx; destruct (H x Hx) as (c & -> & H1 & H2);
      simpl; case_bool; lia.
Qed.

(** What a soft reset does to the rest of the device: every core's waiters are
    woken, then either the flag stays up or it is down again. *)
Definition soft_reset_frame (d d' : rknpu_device) : Prop :=
  wakeups d' = wakeups d ++ seqZ 0 (num_irqs (config d)) /\
  jobs d' = jobs d /\ args_mem d' = args_mem d /\ subcore_datas d' = subcore_datas d /\
  config d' = config d /\ io_mapped d' = io_mapped d /\ srsts d' = srsts d /\
  cleanup_works d' = cleanup_works d /\ reg_value d' = reg_value d /\
  gem_objects d' = gem_objects d /\ mem_objects d' = mem_objects d /\ fences d' = fences d.

Lemma wake_cores (n : nat) (i : Z) (d : rknpu_device) :
  for_from n i wake_up d =
    Ret tt (d <| wakeups ::= (fun l => l ++ seqZ i (Z.of_nat n)) |>).
Proof.
  revert i d. induction n as [|n IH]; intros i d.
  - cbn. f_equal. destruct d; cbn. by rewrite app_nil_r.
  - cbn [for_from]. unfold bind. cbn [wake_up modify].
    unfold wake_up, modify. rewrite IH. f_equal. destruct d; cbn.
    rewrite (seqZ_cons i) by lia. rewrite <- app_assoc. cbn.
    repeat f_equal; lia.
Qed.

Lemma writel_mapped (v : Z) (b : io_base) (off : Z) (d : rknpu_device) :
  io_mapped d b = true ->
  writel v b off d =
    Ret tt (d <| reg_writes ::= (fun l => l ++ [{| w_base := b; w_offset := off; w_value := u32 v |}]) |>).
Proof. intros Hm. unfold writel, bind, gets. by rewrite Hm. Qed.

(** The register accesses of the state initialisation a configuration asks for. *)
Definition state_init_writes (f : option state_init_fn) : list reg_write :=
  match f with
  | Some rk3576_state_init_fn =>
      (fun '(off, v) => {| w_base := CoreBase 0; w_offset := off; w_value := v |}) <$>
        [(0x10, 0x1); (0x1004, 0); (0x1024, 0x80000000); (0x1004, 1); (0x1024, 0x80000000);
         (0x1004, 0x1e)]
  | None => []
  end.

Lemma run_state_init_writes (f : option state_init_fn) (d : rknpu_device) :
  io_mapped d (CoreBase 0) = true ->
  (match f with Some f => run_state_init f | None => ret tt end) d =
    Ret tt (d <| reg_writes ::= (fun l => l ++ state_init_writes f) |>).
Proof.
  intros Hm. destruct f as [[]|]; cbn [run_state_init]; unfold rk3576_state_init, REG_WRITE, bind.
  - rewrite !writel_mapped by done. f_equal. destruct d; cbn. by rewrite <- !app_assoc.
  - unfold ret. f_equal. destruct d; cbn. by rewrite app_nil_r.
Qed.

(** C35: rknpu_soft_reset always wakes the waiters of every core and keeps the
    queues, jobs and buffers.  It returns 0 exactly when every reset line was
    asserted and deasserted without an error; then the flag is down again, the
    IOMMU domain was detached and attached again and the state initialisation
    of the SoC was written.  On any failure it returns at once with the
    soft_reseting flag still up. *)
Theorem soft_reset_outcome (k : iommu_kernel) (d : rknpu_device) :
  0 <= num_irqs (config d) -> io_mapped d (CoreBase 0) = true ->
  exists r d', rknpu_soft_reset k d = Ret r d' /\ soft_reset_frame d d' /\
    (r = 0 <-> Forall line_ok (srsts d)) /\
    (r = 0 -> soft_reseting d' = false /\ iommu_st d' = reattach k (iommu_st d) /\
       reg_writes d' = reg_writes d ++ state_init_writes (state_init (config d))) /\
    (r <> 0 -> soft_reseting d' = true /\ iommu_st d' = iommu_st d /\ reg_writes d' = reg_writes d).
Proof.
  intros Hn Hm. unfold rknpu_soft_reset, bind, gets, modify, for_cores.
  rewrite wake_cores. rewrite Z2Nat.id by done. cbn [set_field].
  cbn [srsts]. destruct (Z.eqb_spec (reset_lines_ret (srsts d)) 0) as [Hr|Hr]; cbn [negb].
  - rewrite run_state_init_writes by done. eexists 0, _. split; [done|].
    split; [by repeat split|]. split; [by rewrite <- reset_lines_ret_zero|].
    by split.
  - eexists _, _. split; [done|]. split; [by repeat split|].
    split; [apply reset_lines_ret_zero|]. by split.
Qed.

(** An RK3576 with one reset line that works or does not. *)
Definition example_dev (c : rknpu_config) (lines : list (option reset_control)) : rknpu_device :=
  {| config := c;
     io_mapped := fun b => match b with CoreBase i => i <? num_irqs c | _ => true end;
     reg_value := fun _ _ => 0; reg_writes := [];
     subcore_datas := fun _ => {| todo_list := []; s_job := None; task_num := 0; s_busy_time := 0;
       s_total_busy_time := 0 |};
     jobs := ∅; args_mem := ∅; next_addr := 1; gem_objects := ∅; mem_objects := ∅; fences := ∅;
     fence_seqno := 0; cleanup_works := []; wakeups := []; soft_reseting := false; srsts := lines;
     iommu_st := example_iommu; now := 1000 |}.

Lemma soft_reset_outcome_witness :
  let d := example_dev rk3576_rknpu_config [Some {| rc_assert_ret := 0; rc_deassert_ret := -EIO |}] in
  exists r d', rknpu_soft_reset (example_kernel 0) d = Ret r d' /\ soft_reset_frame d d' /\
    (r = 0 <-> Forall line_ok (srsts d)) /\
    (r = 0 -> soft_reseting d' = false /\ iommu_st d' = reattach (example_kernel 0) (iommu_st d) /\
       reg_writes d' = reg_writes d ++ state_init_writes (state_init (config d))) /\
    (r <> 0 -> soft_reseting d' = true /\ iommu_st d' = iommu_st d /\ reg_writes d' = reg_writes d).
Proof. intros d. apply soft_reset_outcome; [discriminate | reflexivity]. Defined.
