(* ===== verification/Job.v ===== *)
(** * Jobs (rknpu_job.c, rknpu_fence.c)

    Allocation, the queues of the cores, the commit of a batch of tasks to the
    hardware, the interrupt, the blocking wait, abort, timeout clean-up and the
    submit ioctls, each as one definition over the device state.  A function
    of the source that sleeps takes what the other threads do meanwhile as an
    argument.  The build is the DKMS one: CONFIG_ROCKCHIP_RKNPU_DRM_GEM,
    CONFIG_ROCKCHIP_RKNPU_FENCE and RKNPU_DKMS_MISCDEV are defined. *)

From S2P Require Import Prelude Config Domain Device Reset.

(** ** Core numbers and masks *)

Definition rknpu_wait_core_index (core_mask : Z) : Z :=
  if (core_mask =? RKNPU_CORE0_MASK)
     || (core_mask =? Z.lor RKNPU_CORE0_MASK RKNPU_CORE1_MASK)
     || (core_mask =? Z.lor (Z.lor RKNPU_CORE0_MASK RKNPU_CORE1_MASK) RKNPU_CORE2_MASK) then 0
  else if core_mask =? RKNPU_CORE1_MASK then 1
  else if core_mask =? RKNPU_CORE2_MASK then 2
  else 0.

Definition rknpu_core_mask (core_index : Z) : Z :=
  if core_index =? 0 then RKNPU_CORE0_MASK
  else if core_index =? 1 then RKNPU_CORE1_MASK
  else if core_index =? 2 then RKNPU_CORE2_MASK
  else RKNPU_CORE_AUTO_MASK.

Definition subcore_task (a : rknpu_submit) (i : Z) : rknpu_subcore_task :=
  default {| st_task_start := 0; st_task_number := 0 |} (a_subcore_task a !! Z.to_nat i).

(** The pure part of [rknpu_get_task_number]. *)
Definition task_number_of (c : rknpu_config) (use_core_num : Z) (a : rknpu_submit) (core_index : Z) : Z :=
  if (RKNPU_MAX_CORES <=? core_index) || (core_index <? 0) then 0
  else if 1 <? num_irqs c then
    if (use_core_num =? 1) || (use_core_num =? 2) then s32 (st_task_number (subcore_task a core_index))
    else if use_core_num =? 3 then s32 (st_task_number (subcore_task a (core_index + 2)))
    else s32 (a_task_number a)
  else s32 (a_task_number a).

Definition rknpu_get_task_number (job core_index : Z) : M Z :=
  let! j := get_job job in
  let! a := get_args (j_args j) in
  let! c := gets config in
  ret (task_number_of c (j_use_core_num j) a core_index).

(** ** Fences (rknpu_fence.c) *)

Definition get_fence (f : Z) : M dma_fence :=
  let! m := gets fences in lookup_or UseAfterFree (m !! f).

(** [dma_fence_put]: the last reference frees the fence. *)
Definition dma_fence_put (f : Z) : M unit :=
  let! x := get_fence f in
  if f_refcount x =? 1 then modify (fun d => d <| fences ::= delete f |>)
  else modify (fun d => d <| fences ::= <[f := x <| f_refcount ::= Z.pred |>]> |>).

Definition dma_fence_signal (f : Z) : M unit :=
  let! x := get_fence f in
  modify (fun d => d <| fences ::= <[f := x <| f_signaled := true |>]> |>).

Definition rknpu_fence_alloc (kzalloc_ok : bool) (job : Z) : M Z :=
  if negb kzalloc_ok then ret (-ENOMEM)
  else
    let! f := new_addr in
    modify (fun d => d <| fence_seqno ::= (fun n => u32 (n + 1)) |>) ;;
    let! n := gets fence_seqno in
    modify (fun d => d <| fences ::=
      <[f := {| f_seqno := n; f_refcount := 1; f_signaled := false |}]> |>) ;;
    mod_job job (fun j => j <| j_fence := Some f |>) ;;
    ret 0.

(** [fd]: the answer of [get_unused_fd_flags]; a created sync file holds a
    reference of its own on the fence. *)
Definition rknpu_fence_get_fd (fd : Z) (sync_file_ok : bool) (job : Z) : M Z :=
  let! j := get_job job in
  match j_fence j with
  | None => ret (-EINVAL)
  | Some f =>
      if fd <? 0 then ret fd
      else if negb sync_file_ok then ret (-ENOMEM)
      else
        let! x := get_fence f in
        modify (fun d => d <| fences ::= <[f := x <| f_refcount ::= Z.succ |>]> |>) ;;
        ret fd
  end.

(** ** Life of a job *)

(** [rknpu_gem_object_get] and [rknpu_gem_object_put] on a task object. *)
Definition rknpu_gem_object_get (addr : Z) : M unit :=
  let! o := get_object true addr in
  set_object true addr (o <| o_refcount ::= Z.succ |>).
Definition rknpu_gem_object_put (addr : Z) : M unit :=
  let! o := get_object true addr in
  if o_refcount o =? 1 then modify (fun d => d <| gem_objects ::= delete addr |>)
  else set_object true addr (o <| o_refcount ::= Z.pred |>).

Definition kfree_job (job : Z) : M unit :=
  let! _ := get_job job in modify (fun d => d <| jobs ::= delete job |>).
Definition kfree_args (args : Z) : M unit :=
  let! _ := get_args args in modify (fun d => d <| args_mem ::= delete args |>).

Definition rknpu_job_free (job : Z) : M unit :=
  let! j := get_job job in
  when (j_use_drm_gem j)
    (let! a := get_args (j_args j) in
     when (negb (a_task_obj_addr a =? 0)) (rknpu_gem_object_put (a_task_obj_addr a))) ;;
  match j_fence j with Some f => dma_fence_put f | None => ret tt end ;;
  when (j_args_owner j) (kfree_args (j_args j)) ;;
  kfree_job job.

Definition rknpu_job_cleanup (job : Z) : M Z := rknpu_job_free job ;; ret 0.

(** The work item; the workqueue takes it off its list first. *)
Definition rknpu_job_cleanup_work (job : Z) : M unit :=
  modify (fun d => d <| cleanup_works ::= filter (fun p => p <> job) |>) ;;
  let! _ := rknpu_job_cleanup job in ret tt.

Definition core_count (core_mask : Z) : Z :=
  Z.land core_mask RKNPU_CORE0_MASK + Z.shiftr (Z.land core_mask RKNPU_CORE1_MASK) 1 +
  Z.shiftr (Z.land core_mask RKNPU_CORE2_MASK) 2.

(** [kzalloc]ed job: every field zero, then the assignments of the source. *)
Definition new_job (args : Z) (a : rknpu_submit) (t : Z) : rknpu_job :=
  {| j_work_init := false; j_irq_entry := fun _ => false; j_flags := 0; j_ret := 0;
     j_args := args; j_args_owner := false; j_first_task := None; j_last_task := None;
     j_int_mask := fun _ => 0; j_int_status := fun _ => 0; j_fence := None; j_timestamp := t;
     j_use_core_num := core_count (a_core_mask a); j_run_count := core_count (a_core_mask a);
     j_interrupt_count := core_count (a_core_mask a); j_hw_commit_time := 0;
     j_hw_recoder_time := 0; j_hw_elapse_time := 0; j_submit_count := fun _ => 0;
     j_iommu_domain_id := a_iommu_domain_id a; j_use_drm_gem := false |}.

Definition rknpu_job_alloc (job_ok args_ok : bool) (args : Z) : M (option Z) :=
  if negb job_ok then ret None
  else
    let! a := get_args args in
    let! t := gets now in
    let! p := new_addr in
    if negb (has_flag (a_flags a) RKNPU_JOB_NONBLOCK) then
      modify (fun d => d <| jobs ::= <[p := new_job args a t]> |>) ;; ret (Some p)
    else if negb args_ok then ret None
    else
      let! q := new_addr in
      modify (fun d => d <| args_mem ::= <[q := a]> |>) ;;
      modify (fun d => d <| jobs ::=
        <[p := (new_job q a t) <| j_args_owner := true |> <| j_work_init := true |>]> |>) ;;
      ret (Some p).

Definition schedule_work (job : Z) : M unit :=
  let! j := get_job job in
  if j_work_init j then
    modify (fun d => d <| cleanup_works ::=
      (fun l => if bool_decide (job ∈ l) then l else l ++ [job]) |>)
  else throw UninitWork.

Definition ktime_us_delta (later earlier : Z) : Z := Z.quot (later - earlier) 1000.

(** ** Commit to the hardware *)

(** The range of tasks [rknpu_job_subcore_commit_pc] picks: the job's or the
    core's range, then batch [submit_index] of it. *)
Definition task_range_of (c : rknpu_config) (use_core_num : Z) (a : rknpu_submit) (core_index : Z)
  : Z * Z :=
  let whole := (s32 (a_task_start a), s32 (a_task_number a)) in
  let sub i := (s32 (st_task_start (subcore_task a i)), s32 (st_task_number (subcore_task a i))) in
  if 1 <? num_irqs c then
    if (use_core_num =? 1) || (use_core_num =? 2) then sub core_index
    else if use_core_num =? 3 then sub (core_index + 2)
    else whole
  else whole.

Definition batch_of (c : rknpu_config) (use_core_num : Z) (a : rknpu_submit)
    (core_index submit_index : Z) : Z * Z :=
  let max := s32 (max_submit_number c) in
  let '(task_start, task_number) := task_range_of c use_core_num a core_index in
  let task_start := s32 (task_start + s32 (submit_index * max)) in
  let task_number := s32 (task_number - s32 (submit_index * max)) in
  let task_number := if max <? task_number then max else task_number in
  (task_start, task_number).

Definition pc_data_amount (c : rknpu_config) (regcfg_amount : Z) : Z :=
  u32 (u32 (regcfg_amount + RKNPU_PC_DATA_EXTRA_AMOUNT + pc_data_amount_scale c - 1)
         / pc_data_amount_scale c - 1).

Definition pc_task_control (c : rknpu_config) (task_pp_en task_number : Z) : Z :=
  Z.lor (Z.shiftl (Z.lor 0x6 task_pp_en) (pc_task_number_bits c)) task_number.

Definition set_ret (job v : Z) : M Z := mod_job job (fun j => j <| j_ret := v |>) ;; ret v.

Definition rknpu_job_subcore_commit_pc (job core_index : Z) : M Z :=
  let! j := get_job job in
  let! args := get_args (j_args j) in
  let! c := gets config in
  let addr := a_task_obj_addr args in
  let! task_kv_addr :=
    (if addr =? 0 then ret None
     else let! o := get_object (j_use_drm_gem j) addr in ret (o_kv_addr o)) in
  if (core_index <? 0) || (num_irqs c <=? core_index) then set_ret job (-EINVAL)
  else
    let! mapped := gets (fun d => io_mapped d (CoreBase core_index)) in
    if negb mapped then set_ret job (-EIO)
    else
      let task_pp_en := if has_flag (a_flags args) RKNPU_JOB_PINGPONG then 1 else 0 in
      let submit_index := j_submit_count j core_index in
      if negb (bool_decide (is_Some task_kv_addr)) then set_ret job (-EINVAL)
      else
        when (1 <? num_irqs c)
          (REG_WRITE core_index (0xe + 0x10000000 * core_index) 0x1004 ;;
           REG_WRITE core_index (0xe + 0x10000000 * core_index) 0x3004) ;;
        let '(task_start, task_number) := batch_of c (j_use_core_num j) args core_index submit_index in
        let task_end := s32 (s32 (task_start + task_number) - 1) in
        let first_task := {| tp_gem := j_use_drm_gem j; tp_obj := addr; tp_index := task_start |} in
        let last_task := {| tp_gem := j_use_drm_gem j; tp_obj := addr; tp_index := task_end |} in
        let! first := load_task first_task in
        let! last := load_task last_task in
        REG_WRITE core_index (t_regcmd_addr first) RKNPU_OFFSET_PC_DATA_ADDR ;;
        REG_WRITE core_index (pc_data_amount c (t_regcfg_amount first)) RKNPU_OFFSET_PC_DATA_AMOUNT ;;
        REG_WRITE core_index (t_int_mask last) RKNPU_OFFSET_INT_MASK ;;
        REG_WRITE core_index (t_int_mask first) RKNPU_OFFSET_INT_CLEAR ;;
        REG_WRITE core_index (pc_task_control c task_pp_en task_number) RKNPU_OFFSET_PC_TASK_CONTROL ;;
        REG_WRITE core_index (a_task_base_addr args) RKNPU_OFFSET_PC_DMA_BASE_ADDR ;;
        mod_job job (fun j => j <| j_first_task := Some first_task |>
                                <| j_last_task := Some last_task |>
                                <| j_int_mask ::= <[core_index := t_int_mask last]> |>) ;;
        REG_WRITE core_index 0x1 RKNPU_OFFSET_PC_OP_EN ;;
        REG_WRITE core_index 0x0 RKNPU_OFFSET_PC_OP_EN ;;
        ret 0.

Definition rknpu_job_subcore_commit (job core_index : Z) : M Z :=
  let! j := get_job job in
  REG_WRITE core_index 0x1 RKNPU_OFFSET_PC_DATA_ADDR ;;
  let! args := get_args (j_args j) in
  if negb (has_flag (a_flags args) RKNPU_JOB_PC) then set_ret job (-EINVAL)
  else rknpu_job_subcore_commit_pc job core_index.

(** The cores [rknpu_job_commit] starts, in order. *)
Definition commit_cores (core_mask : Z) : list Z :=
  if core_mask =? RKNPU_CORE0_MASK then [0]
  else if core_mask =? RKNPU_CORE1_MASK then [1]
  else if core_mask =? RKNPU_CORE2_MASK then [2]
  else if core_mask =? Z.lor RKNPU_CORE0_MASK RKNPU_CORE1_MASK then [0; 1]
  else if core_mask =? Z.lor (Z.lor RKNPU_CORE0_MASK RKNPU_CORE1_MASK) RKNPU_CORE2_MASK then [0; 1; 2]
  else [].

Fixpoint commit_each (job : Z) (cores : list Z) : M unit :=
  match cores with
  | [] => ret tt
  | i :: cores => let! _ := rknpu_job_subcore_commit job i in commit_each job cores
  end.

Definition rknpu_job_commit (job : Z) : M unit :=
  let! j := get_job job in
  let! args := get_args (j_args j) in
  commit_each job (commit_cores (a_core_mask args)).

(** ** Queues *)

Definition rknpu_job_next (core_index : Z) : M unit :=
  let! resetting := gets soft_reseting in
  if resetting then ret tt
  else
    let! s := get_subcore core_index in
    match s_job s, todo_list s with
    | None, job :: rest =>
        let! t := gets now in
        mod_subcore core_index (fun s => s <| todo_list := rest |> <| s_job := Some job |>) ;;
        mod_job job (fun j => j <| j_hw_commit_time := t |> <| j_hw_recoder_time := t |>
                                <| j_run_count ::= Z.pred |>) ;;
        let! j := get_job job in
        if j_run_count j =? 0 then rknpu_job_commit job else ret tt
    | _, _ => ret tt
    end.

(** [for (i = 1; i < core_num; i++)] of [rknpu_schedule_core_index]; [best] is
    its [int task_num], [num i] the 64-bit count of core [i]. *)
Fixpoint least_loaded (num : Z -> Z) (n : nat) (i core_index best : Z) : Z :=
  match n with
  | O => core_index
  | S n =>
      if num i <? best then least_loaded num n (i + 1) i (s32 (num i))
      else least_loaded num n (i + 1) core_index best
  end.

Definition schedule_core_index (core_num : Z) (num : Z -> Z) : Z :=
  least_loaded num (Z.to_nat (core_num - 1)) 1 0 (s32 (num 0)).

Definition rknpu_schedule_core_index : M Z :=
  let! c := gets config in
  let! sub := gets subcore_datas in
  ret (schedule_core_index (num_irqs c) (fun i => task_num (sub i))).

(** [job->args->core_mask & rknpu_core_mask(i)]. *)
Definition uses_core (job i : Z) : M bool :=
  let! j := get_job job in
  let! a := get_args (j_args j) in
  ret (has_flag (a_core_mask a) (rknpu_core_mask i)).

(** The AUTO mask is resolved to the least loaded core. *)
Definition schedule_resolve_core (job : Z) : M unit :=
  let! j := get_job job in
  let! a := get_args (j_args j) in
  when (a_core_mask a =? RKNPU_CORE_AUTO_MASK)
    (let! core_index := rknpu_schedule_core_index in
     mod_args (j_args j) (fun a => a <| a_core_mask := rknpu_core_mask core_index |>) ;;
     mod_job job (fun j => j <| j_use_core_num := 1 |> <| j_run_count := 1 |>
                             <| j_interrupt_count := 1 |>)).

(** The critical section of [rknpu_job_schedule]. *)
Definition schedule_enqueue (job : Z) : M unit :=
  let! c := gets config in
  for_cores (num_irqs c) (fun i =>
    let! used := uses_core job i in
    when used
      (let! n := rknpu_get_task_number job i in
       mod_subcore i (fun s => s <| todo_list ::= (fun l => l ++ [job]) |>
                                 <| task_num ::= Z.add n |>))).

(** Its last loop. *)
Definition schedule_kick (job : Z) : M unit :=
  let! c := gets config in
  for_cores (num_irqs c) (fun i =>
    let! used := uses_core job i in when used (rknpu_job_next i)).

Section Job.
Context {iommu : IommuDomain}.

(** [rknpu_iommu_domain_get_and_switch] and its put on the device state. *)
Definition domain_get_and_switch (id : Z) : M Z := fun d =>
  match domain_get id (iommu_st d) with
  | None => Blocked
  | Some (r, st) => Ret r (d <| iommu_st := st |>)
  end.
Definition domain_put_ref : M unit := modify (fun d => d <| iommu_st ::= domain_put |>).

Definition rknpu_job_schedule (job : Z) : M unit :=
  schedule_resolve_core job ;;
  let! j := get_job job in
  let! r := domain_get_and_switch (j_iommu_domain_id j) in
  if negb (r =? 0) then mod_job job (fun j => j <| j_ret := -EINVAL |>)
  else
    schedule_enqueue job ;;
    schedule_kick job.

(** ** Completion *)

(** The last interrupt of a job. *)
Definition job_complete (job r core_index : Z) : M unit :=
  let! j := get_job job in
  let use_core_num := j_use_core_num j in
  domain_put_ref ;;
  mod_job job (fun j => j <| j_flags ::= (fun f => Z.lor f RKNPU_JOB_DONE) |> <| j_ret := r |>) ;;
  match j_fence j with Some f => dma_fence_signal f | None => ret tt end ;;
  when (has_flag (j_flags j) RKNPU_JOB_ASYNC) (schedule_work job) ;;
  wake_up (if 1 <? use_core_num then 0 else core_index).

(** [(n + max - 1) / max] of C ints. *)
Definition batch_count (n max : Z) : Z := Z.quot (s32 (n + max - 1)) max.

Definition rknpu_job_done (job r core_index : Z) : M unit :=
  let! c := gets config in
  let max := s32 (max_submit_number c) in
  mod_job job (fun j => j <| j_submit_count ::= alter Z.succ core_index |>) ;;
  let! j := get_job job in
  let! n := rknpu_get_task_number job core_index in
  if j_submit_count j core_index <? batch_count n max then
    let! _ := rknpu_job_subcore_commit job core_index in ret tt
  else
    let! t := gets now in
    mod_subcore core_index (fun s => s <| s_job := None |> <| task_num ::= (fun x => x - n) |>
      <| s_busy_time ::= Z.add (t - j_hw_recoder_time j) |>) ;;
    mod_job job (fun j => j <| j_hw_elapse_time := t - j_hw_commit_time j |>
                            <| j_interrupt_count ::= Z.pred |>) ;;
    let! j := get_job job in
    when (j_interrupt_count j =? 0) (job_complete job r core_index) ;;
    rknpu_job_next core_index.

Definition rknpu_fuzz_status (status : Z) : Z :=
  fold_left (fun fuzz_status pair => if has_flag status pair then Z.lor fuzz_status pair else fuzz_status)
    [0x3; 0xc; 0x30; 0xc0; 0x300; 0xc00] 0.

Definition rknpu_irq_handler (core_index : Z) : M unit :=
  let! s := get_subcore core_index in
  match s_job s with
  | None =>
      REG_WRITE core_index RKNPU_INT_CLEAR RKNPU_OFFSET_INT_CLEAR ;;
      rknpu_job_next core_index
  | Some job =>
      mod_job job (fun j => j <| j_irq_entry ::= <[core_index := true]> |>) ;;
      let! status := REG_READ core_index RKNPU_OFFSET_INT_STATUS in
      mod_job job (fun j => j <| j_int_status ::= <[core_index := status]> |>) ;;
      let! j := get_job job in
      if negb (rknpu_fuzz_status status =? j_int_mask j core_index) then
        let! _ := REG_READ core_index RKNPU_OFFSET_INT_RAW_STATUS in
        let! c := gets config in
        let! _ := REG_READ core_index (pc_task_status_offset c) in
        REG_WRITE core_index RKNPU_INT_CLEAR RKNPU_OFFSET_INT_CLEAR
      else
        REG_WRITE core_index RKNPU_INT_CLEAR RKNPU_OFFSET_INT_CLEAR ;;
        rknpu_job_done job 0 core_index
  end.

Definition rknpu_core0_irq_handler : M unit := rknpu_irq_handler 0.
Definition rknpu_core1_irq_handler : M unit := rknpu_irq_handler 1.
Definition rknpu_core2_irq_handler : M unit := rknpu_irq_handler 2.

(** ** The blocking wait *)

(** One [wait_event_timeout] on the done queue: what the other threads do until
    it returns and the jiffies left.  It returns 0 when the condition is false
    and a positive number otherwise. *)
Record wait_step := { w_others : rknpu_device -> rknpu_device; w_remaining : Z }.

Definition wait_event_timeout (job : Z) (w : wait_step) : M Z :=
  modify (w_others w) ;;
  let! j := get_job job in
  let! resetting := gets soft_reseting in
  ret (if has_flag (j_flags j) RKNPU_JOB_DONE || resetting then Z.max 1 (w_remaining w) else 0).

(** The [do ... while]: at most three waits. *)
Fixpoint wait_loop (job timeout wait_count : Z) (waits : list wait_step) : M Z :=
  match waits with
  | [] => block
  | w :: waits =>
      let! r := wait_event_timeout job w in
      let wait_count := wait_count + 1 in
      if 3 <=? wait_count then ret r
      else if r =? 0 then
        let! j := get_job job in
        let! t := gets now in
        let elapse_time_us := ktime_us_delta t (j_hw_commit_time j) in
        let continue_wait :=
          if j_hw_commit_time j =? 0 then true else elapse_time_us <? u32 (timeout * 1000) in
        if continue_wait then wait_loop job timeout wait_count waits else ret r
      else ret r
  end.

(** [list_del(&job->head[i])] if the job is in the list. *)
Fixpoint remove_first (p : Z) (l : list Z) : list Z :=
  match l with
  | [] => []
  | q :: l => if q =? p then l else q :: remove_first p l
  end.

Definition rknpu_job_wait (waits : list wait_step) (job : Z) : M Z :=
  let! j := get_job job in
  let args := j_args j in
  let! a := get_args args in
  let core_index := rknpu_wait_core_index (a_core_mask a) in
  let! r := wait_loop job (a_timeout a) 0 waits in
  let! j := get_job job in
  match j_last_task j with
  | None =>
      for_cores (j_use_core_num j) (fun i =>
        mod_subcore i (fun s => s <| todo_list ::= remove_first job |>)) ;;
      ret (if r <? 0 then r else -EINVAL)
  | Some last_task =>
      store_task_status last_task (j_int_status j core_index) ;;
      if r <=? 0 then
        mod_args args (fun a => a <| a_task_counter := 0 |>) ;;
        when (has_flag (a_flags a) RKNPU_JOB_PC)
          (let! c := gets config in
           let! task_status := REG_READ core_index (pc_task_status_offset c) in
           mod_args args (fun a => a <| a_task_counter :=
             Z.land task_status (pc_task_number_mask c) |>)) ;;
        ret (if r <? 0 then r else -ETIMEDOUT)
      else if negb (has_flag (j_flags j) RKNPU_JOB_DONE) then ret (-EINVAL)
      else
        mod_args args (fun a => a <| a_task_counter := a_task_number a |>
                                  <| a_hw_elapse_time := j_hw_elapse_time j |>) ;;
        ret 0
  end.

(** ** Abort and timeout *)

Section Abort.
Context (k : iommu_kernel).

(** [others]: what runs during the [msleep(10)]. *)
Definition rknpu_job_abort (others : rknpu_device -> rknpu_device) (job : Z) : M unit :=
  domain_put_ref ;;
  modify others ;;
  let! c := gets config in
  for_cores (num_irqs c) (fun i =>
    let! used := uses_core job i in
    when used
      (let! s := get_subcore i in
       let! j := get_job job in
       when (bool_decide (s_job s = Some job) && negb (j_irq_entry j i))
         (mod_subcore i (fun s => s <| s_job := None |>) ;;
          let! n := rknpu_get_task_number job i in
          mod_subcore i (fun s => s <| task_num ::= (fun x => x - n) |>)))) ;;
  let! j := get_job job in
  when (j_ret j =? -ETIMEDOUT)
    (for_cores (num_irqs c) (fun i =>
       let! used := uses_core job i in
       when used
         (let! _ := REG_READ i RKNPU_OFFSET_INT_STATUS in
          let! _ := REG_READ i RKNPU_OFFSET_INT_RAW_STATUS in
          let! _ := REG_READ i (pc_task_status_offset c) in
          ret tt)) ;;
     let! _ := rknpu_soft_reset k in ret tt) ;;
  let! _ := rknpu_job_cleanup job in ret tt.

(** The [do ... while (job)]: every job taken off the queue is handed to the
    workqueue; [fuel] bounds the length of the queue plus one. *)
Fixpoint clean_jobs (fuel : nat) (job core_index : Z) : M unit :=
  match fuel with
  | O => block
  | S fuel =>
      schedule_work job ;;
      let! s := get_subcore core_index in
      match todo_list s with
      | [] => ret tt
      | next :: rest =>
          mod_subcore core_index (fun s => s <| todo_list := rest |>) ;;
          clean_jobs fuel next core_index
      end
  end.

Definition rknpu_job_timeout_clean (core_mask : Z) : M unit :=
  let! c := gets config in
  for_cores (num_irqs c) (fun i =>
    when (has_flag core_mask (rknpu_core_mask i))
      (let! s := get_subcore i in
       match s_job s with
       | None => ret tt
       | Some job =>
           let! j := get_job job in
           let! a := get_args (j_args j) in
           let! t := gets now in
           when (a_timeout a <=? ktime_us_delta t (j_timestamp j))
             (let! _ := rknpu_soft_reset k in
              mod_subcore i (fun s => s <| s_job := None |>) ;;
              clean_jobs (S (length (todo_list s))) job i)
       end)).

(** ** Submission *)

(** The answers of the kernel during one submission: the two allocations of
    the job, the wait for the in-fence ([inl]: no such fence; [inr (same, r)]:
    whether its context is the driver's and what the wait returns), the three
    steps of the out-fence, the waits of [rknpu_job_wait], and what the other
    threads and interrupts do between rknpu_job_schedule and the reading of
    [job->ret] and during the sleep of rknpu_job_abort. *)
Record submit_env := {
  e_job_ok : bool;
  e_args_ok : bool;
  e_in_fence : option (bool * Z);
  e_fence_ok : bool;
  e_fd : Z;
  e_sync_file_ok : bool;
  e_waits : list wait_step;
  e_scheduled : rknpu_device -> rknpu_device;
  e_abort_sleep : rknpu_device -> rknpu_device }.

(** The FENCE_IN block; [inr tt] continues, [inl ret] returns. *)
Definition submit_fence_in (env : submit_env) (args : Z) : M (Z + unit) :=
  match e_in_fence env with
  | None => ret (inl (-EINVAL))
  | Some (same_context, wait_ret) =>
      mod_args args (fun a => a <| a_fence_fd := -1 |>) ;;
      let r := if same_context then 0 else wait_ret in
      ret (if r <? 0 then inl r else inr tt)
  end.

(** The FENCE_OUT block. *)
Definition submit_fence_out (env : submit_env) (job args : Z) : M (Z + unit) :=
  let! r := rknpu_fence_alloc (e_fence_ok env) job in
  if negb (r =? 0) then rknpu_job_free job ;; ret (inl r)
  else
    let! fd := rknpu_fence_get_fd (e_fd env) (e_sync_file_ok env) job in
    let! j := get_job job in
    mod_args (j_args j) (fun a => a <| a_fence_fd := fd |>) ;;
    mod_args args (fun a => a <| a_fence_fd := fd |>) ;;
    ret (inr tt).

(** The NONBLOCK branch. *)
Definition submit_nonblock (env : submit_env) (job : Z) : M Z :=
  mod_job job (fun j => j <| j_flags ::= (fun f => Z.lor f RKNPU_JOB_ASYNC) |>) ;;
  let! j := get_job job in
  let! a := get_args (j_args j) in
  rknpu_job_timeout_clean (a_core_mask a) ;;
  rknpu_job_schedule job ;;
  modify (e_scheduled env) ;;
  let! j := get_job job in
  if negb (j_ret j =? 0) then rknpu_job_abort (e_abort_sleep env) job ;; ret (j_ret j)
  else ret 0.

(** The blocking branch. *)
Definition submit_block (env : submit_env) (job args flags : Z) : M Z :=
  rknpu_job_schedule job ;;
  modify (e_scheduled env) ;;
  when (has_flag flags RKNPU_JOB_PC)
    (let! r := rknpu_job_wait (e_waits env) job in
     mod_job job (fun j => j <| j_ret := r |>)) ;;
  let! j := get_job job in
  let! ja := get_args (j_args j) in
  mod_args args (fun a => a <| a_task_counter := a_task_counter ja |>) ;;
  if j_ret j =? 0 then let! _ := rknpu_job_cleanup job in ret 0
  else rknpu_job_abort (e_abort_sleep env) job ;; ret (j_ret j).

Definition rknpu_submit_job (env : submit_env) (args : Z) (use_drm_gem : bool) : M Z :=
  let! a := get_args args in
  let! c := gets config in
  if a_task_number a =? 0 then ret (-EINVAL)
  else if cfg_core_mask c <? a_core_mask a then ret (-EINVAL)
  else
    let! o := rknpu_job_alloc (e_job_ok env) (e_args_ok env) args in
    match o with
    | None => ret (-ENOMEM)
    | Some job =>
        mod_job job (fun j => j <| j_use_drm_gem := use_drm_gem |>) ;;
        when (use_drm_gem && negb (a_task_obj_addr a =? 0))
          (rknpu_gem_object_get (a_task_obj_addr a)) ;;
        let! r := (if has_flag (a_flags a) RKNPU_JOB_FENCE_IN then submit_fence_in env args
                   else ret (inr tt)) in
        match r with
        | inl e => ret e
        | inr _ =>
            let! r := (if has_flag (a_flags a) RKNPU_JOB_FENCE_OUT then submit_fence_out env job args
                       else ret (inr tt)) in
            match r with
            | inl e => ret e
            | inr _ =>
                if has_flag (a_flags a) RKNPU_JOB_NONBLOCK then submit_nonblock env job
                else submit_block env job args (a_flags a)
            end
        end
    end.

(** The DRM ioctl: [data] is the DRM core's copy of the arguments. *)
Definition rknpu_submit_ioctl (env : submit_env) (data : Z) : M Z :=
  rknpu_submit_job env data true.

(** The misc-device ioctl: [user] is what copy_from_user reads (None: it
    fails); the result pairs the return value with what copy_to_user stores. *)
Definition rknpu_miscdev_submit_ioctl (env : submit_env) (user : option rknpu_submit)
    (copy_to_user_ok : bool) : M (Z * option rknpu_submit) :=
  match user with
  | None => ret (-EFAULT, None)
  | Some a =>
      let! args := new_addr in
      modify (fun d => d <| args_mem ::= <[args := a]> |>) ;;
      let! r := rknpu_submit_job env args false in
      let! a := get_args args in
      modify (fun d => d <| args_mem ::= delete args |>) ;;
      if copy_to_user_ok then ret (r, Some a) else ret (-EFAULT, None)
  end.
End Abort.
End Job.
