(* ===== verification/Batch.v ===== *)
(** * Task batches, masks and register programming of a job

    The arithmetic of rknpu_job.c on its own: the batches a job is cut into,
    the PC_TASK_CONTROL word, interrupt masks, core choice, and the register
    writes of one commit. *)

From S2P Require Import Prelude Config Domain Device Reset Job.

(** ** Batches *)

(** The range of tasks a job runs on a core is in bounds of a C int. *)
Record range_ok (c : rknpu_config) (r : Z * Z) : Prop := {
  ro_start : 0 <= r.1;
  ro_number : 0 < r.2;
  ro_end : r.1 + r.2 + max_submit_number c < 2 ^ 31;
}.

Lemma config_max (c : rknpu_config) :
  config_wf c -> 0 < max_submit_number c < 2 ^ 16 /\ s32 (max_submit_number c) = max_submit_number c.
Proof.
  intros Hc.
  assert (2 ^ 1 <= 2 ^ pc_task_number_bits c <= 2 ^ 16).
  { split; apply Z.pow_le_mono_r; pose proof (cw_bits _ Hc); lia. }
  rewrite (cw_max _ Hc), (cw_tmask _ Hc).
  split; [lia|]. apply s32_small. lia.
Qed.

Lemma batch_count_ceil (n max : Z) :
  0 < max -> 0 < n -> n + max < 2 ^ 31 -> batch_count n max = ceil_div n max.
Proof.
  intros Hm Hn Hb. unfold batch_count, ceil_div. rewrite s32_small by lia.
  apply Z.quot_div_nonneg; lia.
Qed.

(** A batch inside the range, in closed form. *)
Lemma batch_of_range (c : rknpu_config) (u : Z) (a : rknpu_submit) (core k : Z) :
  config_wf c -> range_ok c (task_range_of c u a core) ->
  0 <= k < ceil_div (task_range_of c u a core).2 (max_submit_number c) ->
  let '(s, n) := task_range_of c u a core in
  let max := max_submit_number c in
  batch_of c u a core k = (s + k * max, Z.min max (n - k * max)) /\ 0 < n - k * max.
Proof.
  intros Hc [H1 H2 H3] Hk. unfold batch_of.
  destruct (task_range_of c u a core) as [s n]. simpl in *.
  destruct (config_max c Hc) as [Hmax ->].
  pose proof (ceil_div_bounds n (max_submit_number c) ltac:(lia)) as Hcd.
  assert (0 <= k * max_submit_number c < n) by nia.
  rewrite !s32_small by (rewrite ?s32_small by lia; lia).
  split; [|lia]. f_equal. case_bool; lia.
Qed.

Lemma seqZ_split (s a b : Z) : 0 <= a -> 0 <= b -> seqZ s (a + b) = seqZ s a ++ seqZ (s + a) b.
Proof. intros. apply seqZ_app; lia. Qed.

Lemma seqZ_one (s : Z) : seqZ s 1 = [s].
Proof. rewrite seqZ_cons by lia. by rewrite seqZ_nil by lia. Qed.

(** The first [k] batches are the first tasks of the range. *)
Lemma batches_prefix (s n max : Z) (k : nat) :
  0 < max -> Z.of_nat k * max < n + max ->
  concat ((fun i => seqZ (s + i * max) (Z.min max (n - i * max))) <$> seqZ 0 (Z.of_nat k)) =
    seqZ s (Z.min n (Z.of_nat k * max)).
Proof.
  intros Hmax. induction k as [|k IH]; intros Hk.
  { simpl. rewrite seqZ_nil by lia. done. }
  replace (Z.of_nat (S k)) with (Z.of_nat k + 1) by lia.
  rewrite seqZ_split by lia. rewrite fmap_app, concat_app, IH by nia.
  rewrite seqZ_one, Z.add_0_l. cbn [fmap list_fmap concat]. rewrite app_nil_r. rewrite (Z.min_r n (Z.of_nat k * max)) by nia.
  replace (Z.min n ((Z.of_nat k + 1) * max))
    with (Z.of_nat k * max + Z.min max (n - Z.of_nat k * max)) by nia.
  rewrite seqZ_split by nia. done.
Qed.

(** C10: For a job whose task range on a core fits an int, the batches that the
    successive commits take (submit_index 0, 1, ... up to the count that
    rknpu_job_done compares with) run exactly the tasks of the range, each
    once and in order; every batch is non-empty, and its length fits the task
    number field of PC_TASK_CONTROL. *)
Theorem batches_partition_range (c : rknpu_config) (u : Z) (a : rknpu_submit) (core : Z) :
  config_wf c -> range_ok c (task_range_of c u a core) ->
  let '(s, n) := task_range_of c u a core in
  let count := batch_count n (s32 (max_submit_number c)) in
  let batch k := batch_of c u a core k in
  concat ((fun k => seqZ (batch k).1 (batch k).2) <$> seqZ 0 count) = seqZ s n /\
  (forall k, 0 <= k < count -> 0 < (batch k).2 <= pc_task_number_mask c).
Proof.
  intros Hc Hr. pose proof (batch_of_range c u a core) as Hb.
  destruct (config_max c Hc) as [Hmax Hs].
  destruct (task_range_of c u a core) as [s n] eqn:E.
  destruct Hr as [H1 H2 H3]. simpl in *. rewrite Hs, batch_count_ceil by lia.
  pose proof (ceil_div_bounds n (max_submit_number c) ltac:(lia)) as Hcd.
  pose proof (ceil_div_pos n (max_submit_number c) ltac:(lia) H2) as Hpos.
  assert (forall k, 0 <= k < ceil_div n (max_submit_number c) ->
    batch_of c u a core k = (s + k * max_submit_number c,
      Z.min (max_submit_number c) (n - k * max_submit_number c)) /\
    0 < n - k * max_submit_number c) as Hbatch.
  { intros k Hk. by apply Hb. }
  split.
  - rewrite <- (Z2Nat.id (ceil_div n (max_submit_number c))) in * by lia.
    set (k := Z.to_nat (ceil_div n (max_submit_number c))) in *.
    rewrite <- (Z.min_l n (Z.of_nat k * max_submit_number c)) at 1 by lia.
    rewrite <- batches_prefix by lia. f_equal.
    apply list_fmap_ext. intros i x Hx.
    apply lookup_seqZ in Hx as [-> Hi]. rewrite (proj1 (Hbatch (0 + Z.of_nat i) ltac:(lia))). done.
  - intros k Hk. destruct (Hbatch k Hk) as [-> Hpos']. simpl.
    rewrite <- (cw_max _ Hc). lia.
Qed.

(** A submission of 5000 tasks from task 7 on the single core of an RK3568. *)
Definition example_submit (flags core_mask number : Z) : rknpu_submit :=
  {| a_flags := flags; a_timeout := 6000; a_task_start := 7; a_task_number := number;
     a_task_counter := 0; a_priority := 0; a_task_obj_addr := 0; a_iommu_domain_id := 0;
     a_task_base_addr := 0; a_hw_elapse_time := 0; a_core_mask := core_mask; a_fence_fd := -1;
     a_subcore_task := replicate 5 {| st_task_start := 7; st_task_number := number |} |}.

Lemma batches_partition_range_witness :
  let c := rk356x_rknpu_config in
  let a := example_submit RKNPU_JOB_PC 1 5000 in
  let batch k := batch_of c 1 a 0 k in
  batch 0 = (7, 4095) /\ batch 1 = (4102, 905) /\
  concat ((fun k => seqZ (batch k).1 (batch k).2) <$> seqZ 0 2) = seqZ 7 5000.
Proof.
  intros c a batch. split; [reflexivity|]. split; [reflexivity|].
  apply (batches_partition_range c 1 a 0).
  - apply (config_of_wf RK356X).
  - constructor; vm_compute; congruence.
Defined.

(** A value below [2 ^ b] does not meet the bits above a shift by [b]. *)
Lemma lor_shiftl_add (x b n : Z) : 0 <= b -> 0 <= n < 2 ^ b -> Z.lor (Z.shiftl x b) n = x * 2 ^ b + n.
Proof.
  intros Hb Hn. rewrite <- Z.add_nocarry_lor.
  { by rewrite Z.shiftl_mul_pow2 by done. }
  apply Z.bits_inj'. intros i Hi. rewrite Z.land_spec, Z.bits_0, Z.shiftl_spec by done.
  destruct (decide (i < b)).
  - by rewrite (Z.testbit_neg_r x) by lia.
  - destruct (decide (n = 0)) as [->|Hn0]; [by rewrite Z.bits_0, andb_false_r|].
    rewrite (Z.bits_above_log2 n i), andb_false_r; [done | lia |].
    apply Z.log2_lt_pow2; [lia|]. apply Z.lt_le_trans with (2 ^ b); [lia|].
    apply Z.pow_le_mono_r; lia.
Qed.

(** The two fields of a PC_TASK_CONTROL word. *)
Definition control_task_number (c : rknpu_config) (word : Z) : Z := Z.land word (pc_task_number_mask c).
Definition control_mode (c : rknpu_config) (word : Z) : Z := Z.shiftr word (pc_task_number_bits c).

(** The PC_TASK_CONTROL word carries the length of the batch in its task
    number field and 6 (7 with the ping-pong flag) above it, whenever the
    length fits the field; it is a positive C int. *)
Theorem pc_task_control_fields (c : rknpu_config) (pp n : Z) :
  config_wf c -> 0 <= pp <= 1 -> 0 <= n <= pc_task_number_mask c ->
  control_task_number c (pc_task_control c pp n) = n /\
  control_mode c (pc_task_control c pp n) = 6 + pp /\
  0 <= pc_task_control c pp n < 2 ^ 31.
Proof.
  intros Hc Hpp Hn. unfold control_task_number, control_mode. pose proof (cw_bits _ Hc) as Hb. rewrite (cw_tmask _ Hc) in *.
  unfold pc_task_control. set (b := pc_task_number_bits c) in *.
  assert (0 < 2 ^ b <= 2 ^ 16) as Hp by (split; [lia | apply Z.pow_le_mono_r; lia]).
  assert (Z.lor 6 pp = 6 + pp) as -> by (assert (pp = 0 \/ pp = 1) as [-> | ->] by lia; done).
  rewrite lor_shiftl_add by lia.
  replace (2 ^ b - 1) with (Z.ones b) by (rewrite Z.ones_equiv; lia).
  rewrite Z.land_ones, Z.shiftr_div_pow2 by lia.
  split; [|split; [|nia]].
  - symmetry. apply Z.mod_unique with (6 + pp); lia.
  - symmetry. apply Z.div_unique with n; lia.
Qed.

Lemma pc_task_control_fields_witness :
  control_task_number rk356x_rknpu_config (pc_task_control rk356x_rknpu_config 1 905) = 905 /\
  control_mode rk356x_rknpu_config (pc_task_control rk356x_rknpu_config 1 905) = 6 + 1 /\
  0 <= pc_task_control rk356x_rknpu_config 1 905 < 2 ^ 31.
Proof.
  apply (pc_task_control_fields rk356x_rknpu_config 1 905).
  - apply (config_of_wf RK356X).
  - split; vm_compute; congruence.
  - split; vm_compute; congruence.
Defined.

(** ** Choice of a core *)

Lemma least_loaded_range (num : Z -> Z) (n : nat) (i ci best : Z) :
  0 <= ci < i -> 0 <= least_loaded num n i ci best < i + Z.of_nat n.
Proof.
  revert i ci best. induction n as [|n IH]; intros i ci best Hci; cbn [least_loaded]; [lia|].
  destruct (num i <? best).
  - specialize (IH (i + 1) i (s32 (num i)) ltac:(lia)). lia.
  - specialize (IH (i + 1) ci best ltac:(lia)). lia.
Qed.

Lemma schedule_core_index_range (c : rknpu_config) (num : Z -> Z) :
  config_wf c -> 0 <= schedule_core_index (num_irqs c) num < num_irqs c.
Proof.
  intros Hc. pose proof (cw_irqs _ Hc).
  pose proof (least_loaded_range num (Z.to_nat (num_irqs c - 1)) 1 0 (s32 (num 0)) ltac:(lia)).
  unfold schedule_core_index. lia.
Qed.

Lemma least_loaded_spec (num : Z -> Z) (n : nat) (i ci : Z) :
  (forall x, 0 <= x < i + Z.of_nat n -> 0 <= num x < 2 ^ 31) -> 0 <= ci < i ->
  (forall x, 0 <= x < i -> num ci <= num x) -> (forall x, 0 <= x < ci -> num ci < num x) ->
  let r := least_loaded num n i ci (num ci) in
  (forall x, 0 <= x < i + Z.of_nat n -> num r <= num x) /\ (forall x, 0 <= x < r -> num r < num x).
Proof.
  revert i ci. induction n as [|n IH]; intros i ci Hint Hci Hmin Hfirst; cbn [least_loaded].
  { replace (i + Z.of_nat 0) with i by lia. by split. }
  rewrite (s32_small (num i)) by (apply Hint; lia).
  replace (i + Z.of_nat (S n)) with (i + 1 + Z.of_nat n) in * by lia.
  destruct (Z.ltb_spec (num i) (num ci)).
  - apply IH; [done | lia| |].
    + intros x Hx. destruct (decide (x = i)) as [->|]; [lia|]. specialize (Hmin x). lia.
    + intros x Hx. specialize (Hmin x). lia.
  - apply IH; [done | lia| |done].
    intros x Hx. destruct (decide (x = i)) as [->|]; [lia|]. apply Hmin. lia.
Qed.

(** [r] is the first of the [n] cores with the least [num]. *)
Definition first_least (num : Z -> Z) (n r : Z) : Prop :=
  0 <= r < n /\ (forall x, 0 <= x < n -> num r <= num x) /\ (forall x, 0 <= x < r -> num r < num x).

(** As long as the outstanding tasks of every core fit an int,
    rknpu_schedule_core_index picks an existing core with the fewest of them,
    the first one among equals. *)
Theorem schedule_core_index_least_loaded (c : rknpu_config) (num : Z -> Z) :
  config_wf c -> (forall x, 0 <= x < num_irqs c -> 0 <= num x < 2 ^ 31) ->
  first_least num (num_irqs c) (schedule_core_index (num_irqs c) num).
Proof.
  intros Hc Hint. set (r := schedule_core_index (num_irqs c) num).
  split; [by apply schedule_core_index_range|].
  pose proof (cw_irqs _ Hc) as Hi.
  pose proof (least_loaded_spec num (Z.to_nat (num_irqs c - 1)) 1 0) as H.
  rewrite Z2Nat.id in H by lia. replace (1 + (num_irqs c - 1)) with (num_irqs c) in H by lia.
  unfold r, schedule_core_index. rewrite (s32_small (num 0)) by (apply Hint; lia).
  apply H; [done | lia| |lia]. intros x Hx. by replace x with 0 by lia.
Qed.

Lemma schedule_core_index_least_loaded_witness :
  let num x := if x =? 0 then 9 else if x =? 1 then 4 else 4 in
  let r := schedule_core_index (num_irqs rk3588_rknpu_config) num in
  r = 1 /\ first_least num 3 r.
Proof.
  intros num r. split; [reflexivity|].
  apply (schedule_core_index_least_loaded rk3588_rknpu_config num); [apply (config_of_wf RK3588)|].
  intros x _. unfold num. destruct (x =? 0), (x =? 1); lia.
Defined.

(** ** Interrupt status *)

Lemma has_flag_bit (x k : Z) : 0 <= k ->
  has_flag x (Z.lor (2 ^ (2 * k)) (2 ^ (2 * k + 1))) = Z.testbit x (2 * k) || Z.testbit x (2 * k + 1).
Proof.
  intros Hk. unfold has_flag. rewrite Z.land_lor_distr_r.
  assert (forall j, 0 <= j -> (Z.land x (2 ^ j) = 0 <-> Z.testbit x j = false)) as Hbit.
  { intros j Hj. split.
    - intros H. assert (Z.testbit (Z.land x (2 ^ j)) j = false) as H' by (rewrite H; apply Z.bits_0).
      rewrite Z.land_spec, Z.pow2_bits_true, andb_true_r in H' by done. done.
    - intros H. apply Z.bits_inj'. intros i Hi. rewrite Z.land_spec, Z.bits_0.
      destruct (decide (i = j)) as [->|]; [by rewrite H|].
      by rewrite Z.pow2_bits_false, andb_false_r by done. }
  destruct (Z.eqb_spec (Z.lor (Z.land x (2 ^ (2 * k))) (Z.land x (2 ^ (2 * k + 1)))) 0) as [E|E].
  - apply Z.lor_eq_0_iff in E as [E1%Hbit E2%Hbit]; [|lia|lia]. by rewrite E1, E2.
  - cbn. symmetry. apply not_false_iff_true. intros [F1 F2]%orb_false_elim.
    apply E, Z.lor_eq_0_iff. by rewrite !Hbit by lia.
Qed.

(** Bit [i] of the status with the bits of each pair put together. *)
Definition fuzzed_bit (status i : Z) : bool :=
  (i <? 12) && (Z.testbit status (2 * (i / 2)) || Z.testbit status (2 * (i / 2) + 1)).

(** Rknpu_fuzz_status sets both bits of each of the six pairs of status
    bits in which at least one is set, and no other bit. *)
Theorem fuzz_status_pairs (status i : Z) :
  0 <= i -> Z.testbit (rknpu_fuzz_status status) i = fuzzed_bit status i.
Proof.
  intros Hi. unfold fuzzed_bit, rknpu_fuzz_status. cbn [fold_left].
  set (T k := Z.testbit status (2 * k) || Z.testbit status (2 * k + 1)).
  change (Z.testbit status (2 * (i / 2)) || Z.testbit status (2 * (i / 2) + 1)) with (T (i / 2)).
  rewrite (has_flag_bit status 0 ltac:(lia) : has_flag status 0x3 = T 0).
  rewrite (has_flag_bit status 1 ltac:(lia) : has_flag status 0xc = T 1).
  rewrite (has_flag_bit status 2 ltac:(lia) : has_flag status 0x30 = T 2).
  rewrite (has_flag_bit status 3 ltac:(lia) : has_flag status 0xc0 = T 3).
  rewrite (has_flag_bit status 4 ltac:(lia) : has_flag status 0x300 = T 4).
  rewrite (has_flag_bit status 5 ltac:(lia) : has_flag status 0xc00 = T 5).
  clearbody T. destruct (Z.ltb_spec i 12) as [Hlt|Hge]; cbn [andb].
  - assert (i = 0 \/ i = 1 \/ i = 2 \/ i = 3 \/ i = 4 \/ i = 5 \/ i = 6 \/ i = 7 \/ i = 8 \/ i = 9
      \/ i = 10 \/ i = 11) as Hc by lia.
    repeat (destruct Hc as [->|Hc]); [..|subst i].
    all: match goal with |- _ = ?f ?k => let k' := eval vm_compute in k in change (f k) with (f k') end.
    all: destruct (T 0), (T 1), (T 2), (T 3), (T 4), (T 5); reflexivity.
  - destruct (T 0), (T 1), (T 2), (T 3), (T 4), (T 5);
      apply Z.bits_above_log2; vm_compute Z.lor; vm_compute Z.log2; done || lia.
Qed.

Lemma fuzz_status_pairs_witness :
  Z.testbit (rknpu_fuzz_status 0x101) 9 = fuzzed_bit 0x101 9.
Proof. apply (fuzz_status_pairs 0x101 9). discriminate. Defined.

(** ** Wait queues *)

(** The core whose queue [job_complete] wakes when core [i] comes last. *)
Definition woken_core (core_mask i : Z) : Z := if 1 <? core_count core_mask then 0 else i.

(** For every core mask a job can be committed with, and whichever of its
    cores interrupts last, the wait queue that job_complete wakes is the one
    rknpu_job_wait sleeps on. *)
Theorem waiter_queue_is_woken_queue (core_mask i : Z) :
  1 <= core_mask <= 7 -> has_flag core_mask (rknpu_core_mask i) = true ->
  rknpu_wait_core_index core_mask = woken_core core_mask i.
Proof.
  intros Hm Hf. unfold woken_core.
  assert (core_mask = 1 \/ core_mask = 2 \/ core_mask = 3 \/ core_mask = 4 \/ core_mask = 5 \/
    core_mask = 6 \/ core_mask = 7) as Hc by lia.
  assert (i = 0 \/ i = 1 \/ i = 2) as Hi.
  { revert Hf. unfold rknpu_core_mask. repeat case_bool; try lia.
    unfold has_flag, RKNPU_CORE_AUTO_MASK. by rewrite Z.land_0_r. }
  repeat (destruct Hc as [->|Hc]); [..|subst core_mask];
    (repeat (destruct Hi as [->|Hi]); [..|subst i]);
    vm_compute in Hf |- *; done.
Qed.

Lemma waiter_queue_is_woken_queue_witness :
  rknpu_wait_core_index 3 = woken_core 3 1.
Proof. apply (waiter_queue_is_woken_queue 3 1); [split; discriminate | reflexivity]. Defined.
