(* ===== verification/Commit.v ===== *)
(** * The commit of a job to the hardware

    What [rknpu_job_subcore_commit] programs into the registers of a core, and
    what a commit may never change (the frame the scheduling proofs use). *)

From S2P Require Import Prelude Config Domain Device Reset Job Batch.

(** ** Register programming *)

(** The register writes of a successful commit of the batch [first] .. [last]
    of [n] tasks on [core], in order. *)
Definition commit_writes (c : rknpu_config) (core : Z) (first last : rknpu_task)
    (pp n task_base_addr : Z) : list reg_write :=
  (fun '(off, v) => {| w_base := CoreBase core; w_offset := off; w_value := u32 v |}) <$>
    [(RKNPU_OFFSET_PC_DATA_ADDR, 0x1)] ++
    (if 1 <? num_irqs c then [(0x1004, 0xe + 0x10000000 * core); (0x3004, 0xe + 0x10000000 * core)]
     else []) ++
    [(RKNPU_OFFSET_PC_DATA_ADDR, t_regcmd_addr first);
     (RKNPU_OFFSET_PC_DATA_AMOUNT, pc_data_amount c (t_regcfg_amount first));
     (RKNPU_OFFSET_INT_MASK, t_int_mask last);
     (RKNPU_OFFSET_INT_CLEAR, t_int_mask first);
     (RKNPU_OFFSET_PC_TASK_CONTROL, pc_task_control c pp n);
     (RKNPU_OFFSET_PC_DMA_BASE_ADDR, task_base_addr);
     (RKNPU_OFFSET_PC_OP_EN, 0x1); (RKNPU_OFFSET_PC_OP_EN, 0x0)].

Lemma get_job_ret (p : Z) (j : rknpu_job) (d : rknpu_device) :
  jobs d !! p = Some j -> get_job p d = Ret j d.
Proof. intros H. unfold get_job, bind, gets, lookup_or. by rewrite H. Qed.

Lemma get_args_ret (p : Z) (a : rknpu_submit) (d : rknpu_device) :
  args_mem d !! p = Some a -> get_args p d = Ret a d.
Proof. intros H. unfold get_args, bind, gets, lookup_or. by rewrite H. Qed.

Lemma mod_job_ret (p : Z) (j : rknpu_job) (f : rknpu_job -> rknpu_job) (d : rknpu_device) :
  jobs d !! p = Some j -> mod_job p f d = Ret tt (d <| jobs ::= <[p := f j]> |>).
Proof. intros H. unfold mod_job, bind. by rewrite (get_job_ret p j). Qed.

(** The tasks object of a job holds the given array. *)
Definition task_array (d : rknpu_device) (gem : bool) (addr : Z) (tasks : list rknpu_task) : Prop :=
  exists o, (if gem then gem_objects d else mem_objects d) !! addr = Some o /\
    o_kv_addr o = Some tasks.

Lemma get_object_ret (gem : bool) (addr : Z) (tasks : list rknpu_task) (d : rknpu_device) :
  task_array d gem addr tasks ->
  exists o, get_object gem addr d = Ret o d /\ o_kv_addr o = Some tasks.
Proof.
  intros (o & Ho & Ht). exists o. split; [|done].
  unfold get_object, bind, gets, lookup_or. destruct gem; by rewrite Ho.
Qed.

Lemma load_task_ret (p : task_ptr) (tasks : list rknpu_task) (t : rknpu_task) (d : rknpu_device) :
  task_array d (tp_gem p) (tp_obj p) tasks -> 0 <= tp_index p ->
  tasks !! Z.to_nat (tp_index p) = Some t -> load_task p d = Ret t d.
Proof.
  intros Ha Hi Ht. destruct (get_object_ret _ _ _ _ Ha) as (o & Ho & Hk).
  unfold load_task, bind. rewrite Ho, Hk. case_bool; [lia|].
  unfold lookup_or. by rewrite Ht.
Qed.

Lemma task_array_writes (d : rknpu_device) (gem : bool) (addr : Z) (tasks : list rknpu_task)
    (f : list reg_write -> list reg_write) :
  task_array d gem addr tasks -> task_array (d <| reg_writes ::= f |>) gem addr tasks.
Proof. done. Qed.

(** The selectors of a multi-core SoC. *)
Lemma selector_writes (c core : Z) (d : rknpu_device) :
  io_mapped d (CoreBase core) = true ->
  when (1 <? c)
    (REG_WRITE core (0xe + 0x10000000 * core) 0x1004 ;;
     REG_WRITE core (0xe + 0x10000000 * core) 0x3004) d =
  Ret tt (d <| reg_writes ::= (fun l => l ++
    if 1 <? c then
      (fun '(off, v) => {| w_base := CoreBase core; w_offset := off; w_value := u32 v |}) <$>
        [(0x1004, 0xe + 0x10000000 * core); (0x3004, 0xe + 0x10000000 * core)]
    else []) |>).
Proof.
  intros Hm. unfold when, bind, REG_WRITE. destruct (1 <? c).
  - rewrite !writel_mapped by done. f_equal. destruct d; cbn -[u32]. by rewrite <- app_assoc.
  - unfold ret. f_equal. destruct d; cbn. by rewrite app_nil_r.
Qed.

Ltac step_write := unfold bind at 1, REG_WRITE at 1; rewrite writel_mapped by done.

(** What the hardware is told when [core] starts batch [submit_index]. *)
Record commit_input (c : rknpu_config) (d : rknpu_device) (p core : Z) (j : rknpu_job)
    (a : rknpu_submit) (s n : Z) (first last : rknpu_task) (tasks : list rknpu_task) : Prop := {
  ci_config : config d = c;
  ci_job : jobs d !! p = Some j;
  ci_args : args_mem d !! j_args j = Some a;
  ci_pc : has_flag (a_flags a) RKNPU_JOB_PC = true;
  ci_addr : a_task_obj_addr a <> 0;
  ci_tasks : task_array d (j_use_drm_gem j) (a_task_obj_addr a) tasks;
  ci_core : 0 <= core < num_irqs c;
  ci_mapped : io_mapped d (CoreBase core) = true;
  ci_batch : batch_of c (j_use_core_num j) a core (j_submit_count j core) = (s, n);
  ci_range : 0 <= s /\ 0 < n /\ s + n < 2 ^ 31;
  ci_first : tasks !! Z.to_nat s = Some first;
  ci_last : tasks !! Z.to_nat (s + n - 1) = Some last;
}.

(** C11: When the task array, the core and the range are valid, committing a job
    to a core returns 0 and writes exactly the register sequence that runs its
    next batch (slave mode, the multi-core selectors, command address and
    amount of the first task, interrupt mask of the last one, the interrupt
    clear, task control, DMA base, then the start pulse); the job remembers
    the batch's first and last task and the interrupt mask to expect, and
    nothing else changes. *)
Theorem subcore_commit_programs_batch (c : rknpu_config) (d : rknpu_device) (p core : Z)
    (j : rknpu_job) (a : rknpu_submit) (s n : Z) (first last : rknpu_task) (tasks : list rknpu_task) :
  commit_input c d p core j a s n first last tasks ->
  let ptr i := {| tp_gem := j_use_drm_gem j; tp_obj := a_task_obj_addr a; tp_index := i |} in
  let pp := if has_flag (a_flags a) RKNPU_JOB_PINGPONG then 1 else 0 in
  rknpu_job_subcore_commit p core d =
    Ret 0 (d <| reg_writes ::= (fun l => l ++ commit_writes c core first last pp n (a_task_base_addr a)) |>
             <| jobs ::= <[p := j <| j_first_task := Some (ptr s) |>
                                  <| j_last_task := Some (ptr (s + n - 1)) |>
                                  <| j_int_mask ::= <[core := t_int_mask last]> |>]> |>).
Proof.
  intros [Hc Hj Ha Hpc Haddr Ht Hcore Hmap Hb Hr Hf Hl] ptr pp. subst c.
  unfold rknpu_job_subcore_commit. unfold bind at 1.
  rewrite (get_job_ret p j) by done.
  unfold bind at 1, REG_WRITE at 1. rewrite writel_mapped by done.
  unfold bind at 1. rewrite (get_args_ret _ a) by done. rewrite Hpc. cbn [negb].
  set (d1 := d <| reg_writes ::= _ |>).
  unfold rknpu_job_subcore_commit_pc. unfold bind at 1.
  rewrite (get_job_ret p j) by done.
  unfold bind at 1. rewrite (get_args_ret _ a) by done.
  unfold bind at 1, gets at 1.
  rewrite (proj2 (Z.eqb_neq _ _) Haddr).
  destruct (get_object_ret _ _ _ d1 Ht) as (o & Ho & Hk).
  unfold bind at 1 2. rewrite Ho, Hk. unfold ret at 1.
  change (config d1) with (config d).
  replace ((core <? 0) || (num_irqs (config d) <=? core)) with false
    by (symmetry; apply orb_false_iff; rewrite Z.ltb_ge, Z.leb_gt; lia).
  unfold bind at 1, gets at 1. change (io_mapped d1) with (io_mapped d). rewrite Hmap. cbn [negb].
  rewrite bool_decide_true by eauto. cbn [negb].
  rewrite Hb. rewrite (s32_small (s + n)), (s32_small (s + n - 1)) by lia.
  fold pp. unfold bind at 1. subst d1. rewrite selector_writes by done.
  unfold bind at 1. rewrite (load_task_ret _ tasks first); [|done|simpl; lia|done].
  unfold bind at 1. rewrite (load_task_ret _ tasks last); [|done|simpl; lia|done].
  do 6 step_write.
  unfold bind at 1. rewrite (mod_job_ret p j) by done.
  do 2 step_write. unfold ret. f_equal.
  destruct d; cbn -[u32]. f_equal. unfold commit_writes. cbn -[u32].
  rewrite <- !app_assoc. cbn -[u32]. destruct (1 <? num_irqs config); reflexivity.
Qed.

(** A device with one job of three tasks, 7 to 9, in its slot. *)
Definition example_task (m : Z) : rknpu_task :=
  {| t_flags := 0; t_op_idx := 0; t_enable_mask := 0; t_int_mask := m; t_int_clear := 0;
     t_int_status := 0; t_regcfg_amount := 100; t_regcfg_offset := 0; t_regcmd_addr := 0x10000 |}.
Definition example_args (flags mask number : Z) : rknpu_submit :=
  (example_submit flags mask number) <| a_task_obj_addr := 64 |>.
Definition example_job_dev (c : rknpu_config) (flags mask number : Z) : rknpu_device :=
  let a := example_args flags mask number in
  (example_dev c [])
    <| gem_objects := {[ 64 := {| o_kv_addr := Some (replicate 12 (example_task 0x300)); o_refcount := 2 |} ]} |>
    <| args_mem := {[ 20 := a ]} |>
    <| jobs := {[ 10 := (new_job 20 a 500) <| j_use_drm_gem := true |> ]} |>
    <| next_addr := 100 |>.

Lemma subcore_commit_programs_batch_witness :
  let d := example_job_dev rk3588_rknpu_config RKNPU_JOB_PC 2 3 in
  exists d', rknpu_job_subcore_commit 10 1 d = Ret 0 d' /\
    reg_writes d' = commit_writes rk3588_rknpu_config 1 (example_task 0x300) (example_task 0x300) 0 3 0.
Proof.
  intros d. eexists. split.
  - apply (subcore_commit_programs_batch rk3588_rknpu_config d 10 1
      ((new_job 20 (example_args RKNPU_JOB_PC 2 3) 500) <| j_use_drm_gem := true |>)
      (example_args RKNPU_JOB_PC 2 3) 7 3 (example_task 0x300) (example_task 0x300)
      (replicate 12 (example_task 0x300))).
    constructor; try (vm_compute; (reflexivity || discriminate)).
    + exists {| o_kv_addr := Some (replicate 12 (example_task 0x300)); o_refcount := 2 |}.
      split; reflexivity.
    + split; [discriminate | reflexivity].
    + repeat split; vm_compute; congruence.
  - reflexivity.
Defined.

(** ** The frame of a commit *)

(** [m], started in a state that satisfies [P], ends in one and never in a
    fault of [bad]. *)
Definition keeps (bad : fault -> Prop) (P : rknpu_device -> Prop) {A} (m : M A) : Prop :=
  forall d, P d -> wp bad m (fun _ d' => P d') d.

Section Keeps.
Context {bad : fault -> Prop} {P : rknpu_device -> Prop}.

Lemma keeps_ret {A} (a : A) : keeps bad P (ret a).
Proof. intros d H. exact H. Qed.
Lemma keeps_gets {A} (f : rknpu_device -> A) : keeps bad P (gets f).
Proof. intros d H. exact H. Qed.
Lemma keeps_throw {A} (f : fault) : ~ bad f -> keeps bad P (throw (A := A) f).
Proof. intros Hf d H. exact Hf. Qed.
Lemma keeps_bind {A B} (m : M A) (k : A -> M B) :
  keeps bad P m -> (forall a, keeps bad P (k a)) -> keeps bad P (bind m k).
Proof.
  intros Hm Hk d H. apply wp_bind. eapply wp_mono; [by apply Hm|]. intros a d' H'. by apply Hk.
Qed.
Lemma keeps_when (b : bool) (m : M unit) : keeps bad P m -> keeps bad P (when b m).
Proof. destruct b; [done|]. intros _. apply keeps_ret. Qed.
Lemma keeps_modify (f : rknpu_device -> rknpu_device) :
  (forall d, P d -> P (f d)) -> keeps bad P (modify f).
Proof. intros Hf d H. apply wp_modify. by apply Hf. Qed.
Lemma keeps_lookup_or {A} (f : fault) (x : option A) : ~ bad f -> keeps bad P (lookup_or f x).
Proof. intros Hf. destruct x; [apply keeps_ret | by apply keeps_throw]. Qed.
Lemma keeps_get_object (gem : bool) (addr : Z) : ~ bad WildPointer -> keeps bad P (get_object gem addr).
Proof. intros Hf. apply keeps_bind; [apply keeps_gets | intros; by apply keeps_lookup_or]. Qed.
Lemma keeps_load_task (p : task_ptr) :
  ~ bad WildPointer -> ~ bad NullDeref -> ~ bad OutOfBounds -> keeps bad P (load_task p).
Proof.
  intros Hw Hn Ho. apply keeps_bind; [by apply keeps_get_object|]. intros o.
  destruct (o_kv_addr o); [|by apply keeps_throw]. case_bool; [by apply keeps_throw|].
  by apply keeps_lookup_or.
Qed.
Lemma keeps_writel (v : Z) (b : io_base) (off : Z) :
  ~ bad NullDeref -> (forall d l, P d -> P (d <| reg_writes := l |>)) ->
  keeps bad P (writel v b off).
Proof.
  intros Hn HP. apply keeps_bind; [apply keeps_gets|]. intros f.
  destruct (f b); [apply keeps_modify; intros d H; by apply (HP d) | by apply keeps_throw].
Qed.
Lemma keeps_readl (b : io_base) (off : Z) : ~ bad NullDeref -> keeps bad P (readl b off).
Proof.
  intros Hn. apply keeps_bind; [apply keeps_gets|]. intros f.
  destruct (f b); [apply keeps_gets | by apply keeps_throw].
Qed.
Lemma keeps_for_cores (n : Z) (body : Z -> M unit) :
  (forall x, keeps bad P (body x)) -> keeps bad P (for_cores n body).
Proof.
  intros Hb. unfold for_cores. generalize 0. induction (Z.to_nat n) as [|m IH]; intros x; cbn [for_from].
  - apply keeps_ret.
  - apply keeps_bind; [apply Hb | intros []; apply IH].
Qed.

(** A reset changes registers, the flag, the wake-ups and the IOMMU only. *)
Lemma keeps_soft_reset (k : iommu_kernel) :
  ~ bad NullDeref -> (forall d l, P d -> P (d <| reg_writes := l |>)) ->
  (forall d b, P d -> P (d <| soft_reseting := b |>)) -> (forall d l, P d -> P (d <| wakeups := l |>)) ->
  (forall d st, P d -> P (d <| iommu_st := st |>)) -> keeps bad P (rknpu_soft_reset k).
Proof.
  intros Hn Hw Hr Hl Hs. unfold rknpu_soft_reset. apply keeps_bind; [apply keeps_gets|]. intros c.
  apply keeps_bind; [apply keeps_modify; intros; by apply Hr|]. intros [].
  apply keeps_bind; [apply keeps_for_cores; intros x; apply keeps_modify; intros; by apply Hl|]. intros [].
  apply keeps_bind; [apply keeps_gets|]. intros lines. destruct (negb _); [apply keeps_ret|].
  apply keeps_bind; [apply keeps_modify; intros; by apply Hs|]. intros [].
  apply keeps_bind; [apply keeps_modify; intros; by apply Hr|]. intros [].
  apply keeps_bind; [|intros; apply keeps_ret].
  destruct (state_init c) as [[]|]; [|apply keeps_ret].
  unfold run_state_init, rk3576_state_init.
  repeat (apply keeps_bind; [by apply keeps_writel | intros []]). by apply keeps_writel.
Qed.
End Keeps.

(** The faults that would be the driver's own doing, whatever the arguments. *)
Definition lifetime_fault (f : fault) : Prop := f = UseAfterFree \/ f = UninitWork.

(** Two values of one job that differ at most in what a commit stores. *)
Definition job_same (j j' : rknpu_job) : Prop :=
  exists r f l m, j' = j <| j_ret := r |> <| j_first_task := f |> <| j_last_task := l |>
                         <| j_int_mask := m |>.

(** [d'] differs from [d] by commits of job [p] only. *)
Definition commit_frame (p : Z) (d d' : rknpu_device) : Prop :=
  (exists j j', jobs d !! p = Some j /\ jobs d' = <[p := j']> (jobs d) /\ job_same j j' /\
     is_Some (args_mem d !! j_args j)) /\
  config d' = config d /\ subcore_datas d' = subcore_datas d /\ args_mem d' = args_mem d /\
  next_addr d' = next_addr d /\ cleanup_works d' = cleanup_works d /\
  soft_reseting d' = soft_reseting d /\ fences d' = fences d.

Lemma job_same_refl (j : rknpu_job) : job_same j j.
Proof. exists (j_ret j), (j_first_task j), (j_last_task j), (j_int_mask j). by destruct j. Qed.

Lemma commit_frame_refl (p : Z) (j : rknpu_job) (d : rknpu_device) :
  jobs d !! p = Some j -> is_Some (args_mem d !! j_args j) -> commit_frame p d d.
Proof.
  intros Hj Ha. split; [|done]. exists j, j. split; [done|].
  rewrite insert_id by done. split; [done|]. split; [apply job_same_refl | done].
Qed.

Section Frame.
Context (p : Z) (d0 : rknpu_device).
Abbreviation P := (commit_frame p d0).
Abbreviation bad := lifetime_fault.

Lemma frame_get_job_bind {A} (k : rknpu_job -> M A) :
  (forall j, (exists a, args_mem d0 !! j_args j = Some a) -> keeps bad P (k j)) ->
  keeps bad P (bind (get_job p) k).
Proof.
  intros Hk d H. destruct H as ((j & j' & Hj & Hj' & Hs & [a Ha]) & H').
  apply wp_bind. apply (wp_get_job p j'); [by rewrite Hj', lookup_insert_eq|].
  apply Hk.
  - exists a. by destruct Hs as (?&?&?&?&->).
  - split; [|done]. exists j, j'. split; [done|]. split; [done|]. split; [done|]. by exists a.
Qed.

Lemma frame_get_args (q : Z) :
  (exists a, args_mem d0 !! q = Some a) -> keeps bad P (get_args q).
Proof.
  intros [a Ha] d H. apply (wp_get_args q a); [|done].
  destruct H as (_ & _ & _ & -> & _). done.
Qed.

Lemma frame_mod_job (f : rknpu_job -> rknpu_job) :
  (forall j, job_same j (f j)) -> keeps bad P (mod_job p f).
Proof.
  intros Hf d H. destruct H as ((j & j' & Hj & Hj' & Hs & Ha) & H').
  apply (wp_mod_job p j'); [by rewrite Hj', lookup_insert_eq|].
  split; [|exact H']. exists j, (f j'). split; [done|].
  split; [cbn; by rewrite Hj', insert_insert_eq|]. split; [|done].
  destruct Hs as (?&?&?&?&->). destruct (Hf (j <| j_ret := x |> <| j_first_task := x0 |>
    <| j_last_task := x1 |> <| j_int_mask := x2 |>)) as (r & g & l & m & ->).
  exists r, g, l, m. reflexivity.
Qed.

Lemma frame_writel (v : Z) (b : io_base) (off : Z) : keeps bad P (writel v b off).
Proof. apply keeps_writel; [by intros [|]|]. intros d l H. exact H. Qed.

Lemma frame_set_ret (v : Z) : keeps bad P (set_ret p v).
Proof.
  apply keeps_bind; [|intros; apply keeps_ret]. apply frame_mod_job.
  intros j. exists v, (j_first_task j), (j_last_task j), (j_int_mask j). by destruct j.
Qed.

(** One step through commit code. *)
Ltac keeps_step :=
  match goal with
  | |- keeps _ _ (bind (get_job p) _) => apply frame_get_job_bind; intros
  | |- keeps _ _ (bind _ _) => apply keeps_bind; [|intros]
  | |- keeps _ _ (ret _) => apply keeps_ret
  | |- keeps _ _ (gets _) => apply keeps_gets
  | |- keeps _ _ (when _ _) => apply keeps_when
  | |- keeps _ _ (set_ret _ _) => apply frame_set_ret
  | |- keeps _ _ (get_args _) => apply frame_get_args; assumption
  | |- keeps _ _ (REG_WRITE _ _ _) => apply frame_writel
  | |- keeps _ _ (load_task _) => apply keeps_load_task; by intros [|]
  | |- keeps _ _ (get_object _ _) => apply keeps_get_object; by intros [|]
  | |- keeps _ _ (if ?b then _ else _) => destruct b
  | |- keeps _ _ (let '(_, _) := ?x in _) => destruct x
  end.

Lemma frame_subcore_commit_pc (core : Z) : keeps bad P (rknpu_job_subcore_commit_pc p core).
Proof.
  unfold rknpu_job_subcore_commit_pc. repeat keeps_step.
  apply frame_mod_job. intros job.
  eexists (j_ret job), _, _, _. by destruct job.
Qed.

Lemma frame_subcore_commit (core : Z) : keeps bad P (rknpu_job_subcore_commit p core).
Proof.
  unfold rknpu_job_subcore_commit. repeat keeps_step. apply frame_subcore_commit_pc.
Qed.

Lemma frame_commit : keeps bad P (rknpu_job_commit p).
Proof.
  unfold rknpu_job_commit. repeat keeps_step.
  induction (commit_cores (a_core_mask a)) as [|i l IH]; [apply keeps_ret|].
  apply keeps_bind; [apply frame_subcore_commit | by intros].
Qed.
End Frame.

Lemma wp_subcore_commit (p core : Z) (j : rknpu_job) (d : rknpu_device) :
  jobs d !! p = Some j -> is_Some (args_mem d !! j_args j) ->
  wp lifetime_fault (rknpu_job_subcore_commit p core) (fun _ d' => commit_frame p d d') d.
Proof. intros Hj Ha. apply frame_subcore_commit. by apply (commit_frame_refl p j). Qed.

Lemma wp_commit (p : Z) (j : rknpu_job) (d : rknpu_device) :
  jobs d !! p = Some j -> is_Some (args_mem d !! j_args j) ->
  wp lifetime_fault (rknpu_job_commit p) (fun _ d' => commit_frame p d d') d.
Proof. intros Hj Ha. apply frame_commit. by apply (commit_frame_refl p j). Qed.
