(* ===== verification/JobInv.v ===== *)
(** * The invariant of the job queues

    The queues of the cores, the counters of a job and the ownership of its
    memory, as one invariant of the device state, with what each elementary
    update of rknpu_job.c does to it. *)

From Stdlib Require Import Sorted.
From S2P Require Import Prelude Config Domain Device Reset Job Batch Commit.

(** ** Counting cores *)

Definition count_cores (n : Z) (P : Z -> bool) : Z :=
  Z.of_nat (length (filter (fun i => P i = true) (seqZ 0 n))).

Lemma filter_length_ext {A} (P Q : A -> bool) (l : list A) :
  (forall x, x ∈ l -> P x = Q x) ->
  length (filter (fun x => P x = true) l) = length (filter (fun x => Q x = true) l).
Proof.
  intros H. induction l as [|x l IH]; [done|]. rewrite !filter_cons.
  rewrite (H x) by set_solver. specialize (IH ltac:(set_solver)).
  destruct (Q x); simpl; lia.
Qed.

Lemma count_ext (n : Z) (P Q : Z -> bool) :
  (forall i, 0 <= i < n -> P i = Q i) -> count_cores n P = count_cores n Q.
Proof.
  intros H. unfold count_cores. f_equal. apply filter_length_ext.
  intros x Hx%elem_of_seqZ. apply H. lia.
Qed.

Lemma filter_length_incr (P Q : Z -> bool) (l : list Z) (i : Z) :
  NoDup l -> i ∈ l -> (forall x, x ∈ l -> x <> i -> P x = Q x) -> P i = false -> Q i = true ->
  length (filter (fun x => Q x = true) l) = S (length (filter (fun x => P x = true) l)).
Proof.
  intros Hnd Hin Hne Hp Hq. induction Hnd as [|x l Hx Hnd IH]; [set_solver|].
  rewrite !filter_cons. apply elem_of_cons in Hin as [->|Hin].
  - rewrite Hp, Hq. simpl. f_equal. apply filter_length_ext.
    intros y Hy. symmetry. apply Hne; set_solver.
  - rewrite (Hne x) by set_solver. specialize (IH Hin ltac:(set_solver)).
    destruct (Q x); simpl; lia.
Qed.

Lemma count_incr (n i : Z) (P Q : Z -> bool) :
  0 <= i < n -> (forall x, 0 <= x < n -> x <> i -> P x = Q x) -> P i = false -> Q i = true ->
  count_cores n Q = count_cores n P + 1.
Proof.
  intros Hi Hne Hp Hq. unfold count_cores.
  rewrite (filter_length_incr P Q (seqZ 0 n) i); [lia | apply NoDup_seqZ | | | done | done].
  - apply elem_of_seqZ. lia.
  - intros x Hx%elem_of_seqZ. apply Hne. lia.
Qed.

Lemma count_nonneg (n : Z) (P : Z -> bool) : 0 <= count_cores n P.
Proof. unfold count_cores. lia. Qed.

Lemma count_zero (n : Z) (P : Z -> bool) :
  count_cores n P = 0 <-> forall i, 0 <= i < n -> P i = false.
Proof.
  unfold count_cores. split.
  - intros H i Hi. assert (filter (fun i => P i = true) (seqZ 0 n) = []) as E.
    { destruct (filter _ _); [done|]. simpl in H. lia. }
    destruct (P i) eqn:Hp; [|done].
    assert (i ∈ filter (fun i => P i = true) (seqZ 0 n)) as Hin.
    { apply list_elem_of_filter. split; [done|]. apply elem_of_seqZ. lia. }
    rewrite E in Hin. set_solver.
  - intros H. rewrite (filter_length_ext P (fun _ => false)).
    + induction (seqZ 0 n); [done|]. by rewrite filter_cons.
    + intros x Hx%elem_of_seqZ. apply H. lia.
Qed.

Lemma count_pos (n i : Z) (P : Z -> bool) : 0 <= i < n -> P i = true -> 0 < count_cores n P.
Proof.
  intros Hi Hp. pose proof (count_nonneg n P). destruct (decide (count_cores n P = 0)) as [E|]; [|lia].
  rewrite (proj1 (count_zero n P) E i Hi) in Hp. done.
Qed.

Lemma count_pos_inv (n : Z) (P : Z -> bool) :
  0 < count_cores n P -> exists i, 0 <= i < n /\ P i = true.
Proof.
  intros H. unfold count_cores in H.
  destruct (filter (fun i => P i = true) (seqZ 0 n)) as [|i l] eqn:E; [simpl in H; lia|].
  exists i. assert (i ∈ filter (fun i => P i = true) (seqZ 0 n)) as Hin by (rewrite E; set_solver).
  apply list_elem_of_filter in Hin as [Hp Hi%elem_of_seqZ]. split; [lia | done].
Qed.

(** ** Sums over a queue *)

Definition zsum {A} (f : A -> Z) (l : list A) : Z := foldr (fun x acc => f x + acc) 0 l.

Lemma zsum_app {A} (f : A -> Z) (l1 l2 : list A) : zsum f (l1 ++ l2) = zsum f l1 + zsum f l2.
Proof. induction l1 as [|x l1 IH]; simpl; [done|]. rewrite IH. lia. Qed.

Lemma zsum_ext {A} (f g : A -> Z) (l : list A) :
  (forall x, x ∈ l -> f x = g x) -> zsum f l = zsum g l.
Proof.
  intros H. induction l as [|x l IH]; simpl; [done|].
  rewrite (H x) by set_solver. rewrite IH; [done | set_solver].
Qed.

(** ** Orders *)

Lemma sorted_snoc (s : Z -> Z) (l : list Z) (p : Z) :
  StronglySorted (fun a b => s a < s b) l -> Forall (fun a => s a < s p) l ->
  StronglySorted (fun a b => s a < s b) (l ++ [p]).
Proof.
  induction 1 as [|x l Hl IH Hx]; intros Hp; simpl.
  - constructor; constructor.
  - apply Forall_cons in Hp as [Hxp Hp]. constructor; [by apply IH|].
    apply Forall_app. split; [done|]. by constructor.
Qed.

Lemma sorted_ext (s s' : Z -> Z) (l : list Z) :
  (forall p, p ∈ l -> s p = s' p) ->
  StronglySorted (fun a b => s a < s b) l -> StronglySorted (fun a b => s' a < s' b) l.
Proof.
  intros H Hl. induction Hl as [|x l Hl IH Hx]; constructor.
  - apply IH. set_solver.
  - rewrite Forall_forall in Hx |- *. intros y Hy.
    rewrite <- (H x), <- (H y) by set_solver. by apply Hx.
Qed.

Lemma sorted_head (s : Z -> Z) (p q : Z) (l : list Z) :
  StronglySorted (fun a b => s a < s b) (p :: l) -> q ∈ l -> s p < s q.
Proof. inversion_clear 1 as [|? ? ? Hf]. rewrite Forall_forall in Hf. apply Hf. Qed.

(** ** The invariant *)

(** The jobs a core holds: the running one, then the queued ones. *)
Definition queue (s : rknpu_subcore_data) : list Z := option_list (s_job s) ++ todo_list s.

Definition ncores (d : rknpu_device) : Z := num_irqs (config d).
Definition queue_at (d : rknpu_device) (i : Z) : list Z := queue (subcore_datas d i).

(** On how many cores a job still waits, and on how many it holds the slot. *)
Definition waiting (d : rknpu_device) (p : Z) : Z :=
  count_cores (ncores d) (fun i => bool_decide (p ∈ todo_list (subcore_datas d i))).
Definition running (d : rknpu_device) (p : Z) : Z :=
  count_cores (ncores d) (fun i => bool_decide (s_job (subcore_datas d i) = Some p)).

Definition inactive (d : rknpu_device) (p : Z) : Prop :=
  forall i, 0 <= i < ncores d -> p ∉ queue_at d i.

(** The tasks of a job that count for a core. *)
Definition job_load (d : rknpu_device) (i p : Z) : Z :=
  match jobs d !! p with
  | Some j =>
      match args_mem d !! j_args j with
      | Some a => task_number_of (config d) (j_use_core_num j) a i
      | None => 0
      end
  | None => 0
  end.

(** A job some core holds. *)
Record active_ok (d : rknpu_device) (p : Z) (j : rknpu_job) (a : rknpu_submit) : Prop := {
  ao_run : j_run_count j = waiting d p;
  ao_int : j_interrupt_count j = waiting d p + running d p;
  ao_not_done : has_flag (j_flags j) RKNPU_JOB_DONE = false;
  ao_cores : forall i, 0 <= i < ncores d -> p ∈ queue_at d i ->
    has_flag (a_core_mask a) (rknpu_core_mask i) = true;
  ao_wait : 0 < waiting d p ->
    (forall i, 0 <= i < ncores d -> has_flag (a_core_mask a) (rknpu_core_mask i) = true ->
       p ∈ queue_at d i) /\
    (forall i, j_int_mask j i = 0);
}.

(** A live job, active or not. *)
Record job_ok (d : rknpu_device) (p : Z) (j : rknpu_job) : Prop := {
  jk_addr : p < next_addr d;
  jk_args : is_Some (args_mem d !! j_args j);
  jk_fence : forall f, j_fence j = Some f -> exists x, fences d !! f = Some x /\ 1 <= f_refcount x;
  jk_work : has_flag (j_flags j) RKNPU_JOB_ASYNC = true -> j_work_init j = true;
}.

Record inv (d : rknpu_device) : Prop := {
  iv_config : config_wf (config d);
  iv_order : exists (s : Z -> Z) (bound : Z), forall i, 0 <= i < ncores d ->
    StronglySorted (fun a b => s a < s b) (queue_at d i) /\
    Forall (fun a => s a < bound) (queue_at d i);
  iv_active : forall i p, 0 <= i < ncores d -> p ∈ queue_at d i ->
    exists j a, jobs d !! p = Some j /\ args_mem d !! j_args j = Some a /\ active_ok d p j a;
  iv_load : forall i, 0 <= i < ncores d ->
    task_num (subcore_datas d i) = zsum (job_load d i) (queue_at d i);
  iv_works : forall p, p ∈ cleanup_works d -> inactive d p /\
    exists j, jobs d !! p = Some j /\ has_flag (j_flags j) RKNPU_JOB_ASYNC = true /\
      has_flag (j_flags j) RKNPU_JOB_DONE = true;
  iv_job : forall p j, jobs d !! p = Some j -> job_ok d p j;
  iv_own : forall p q j j', p <> q -> jobs d !! p = Some j -> jobs d !! q = Some j' ->
    j_args_owner j = true -> j_args j <> j_args j';
  iv_fresh : forall q, is_Some (args_mem d !! q) -> q < next_addr d;
  iv_fence : forall p q j j' f, p <> q -> jobs d !! p = Some j -> jobs d !! q = Some j' ->
    j_fence j = Some f -> j_fence j' <> Some f;
  iv_fence_fresh : forall f, is_Some (fences d !! f) -> f < next_addr d;
}.

(** The invariant looks at part of the device only, and not at the times of the
    cores. *)
Definition sub_same (s s' : rknpu_subcore_data) : Prop :=
  todo_list s' = todo_list s /\ s_job s' = s_job s /\ task_num s' = task_num s.

Lemma sub_same_queue (s s' : rknpu_subcore_data) : sub_same s s' -> queue s' = queue s.
Proof. unfold queue. by intros (-> & -> & _). Qed.

Record view_eq (d d' : rknpu_device) : Prop := {
  ve_config : config d' = config d;
  ve_jobs : jobs d' = jobs d;
  ve_args : args_mem d' = args_mem d;
  ve_next : next_addr d' = next_addr d;
  ve_works : cleanup_works d' = cleanup_works d;
  ve_sub : forall i, sub_same (subcore_datas d i) (subcore_datas d' i);
  ve_fences : fences d' = fences d;
}.

Lemma same_cores (d d' : rknpu_device) :
  config d' = config d -> (forall i, sub_same (subcore_datas d i) (subcore_datas d' i)) ->
  (forall i, queue_at d' i = queue_at d i) /\ ncores d' = ncores d /\
  (forall p, waiting d' p = waiting d p) /\ (forall p, running d' p = running d p) /\
  (forall i, task_num (subcore_datas d' i) = task_num (subcore_datas d i)).
Proof.
  intros Hc Hs. assert (Hnc : ncores d' = ncores d) by (unfold ncores; by rewrite Hc).
  split; [intros i; by apply sub_same_queue|]. split; [done|].
  unfold waiting, running. rewrite Hnc. repeat split; try (intros p; apply count_ext; intros i _).
  - by destruct (Hs i) as (-> & _).
  - by destruct (Hs i) as (_ & -> & _).
  - intros i. by destruct (Hs i) as (_ & _ & ->).
Qed.

Lemma inv_view (d d' : rknpu_device) : view_eq d d' -> inv d -> inv d'.
Proof.
  intros [Hc Hj Ha Hn Hw Hs Hff] [H1 H2 H3 H4 H5 H6 H7 H8 H9 H10].
  destruct (same_cores d d' Hc Hs) as (Hq & Hnc & Hwait & Hrun & Htn).
  split.
  - by rewrite Hc.
  - destruct H2 as (s & b & H2). exists s, b. intros i Hi. rewrite Hq. apply H2. by rewrite <- Hnc.
  - intros i p Hi Hp. rewrite Hq in Hp. rewrite Hnc in Hi.
    destruct (H3 i p Hi Hp) as (j & a & Hjp & Hap & [A1 A2 A3 A4 A5]).
    exists j, a. rewrite Hj, Ha. split; [done|]. split; [done|].
    split; rewrite ?Hwait, ?Hrun, ?Hnc; try done.
    + intros x Hx. rewrite Hq. by apply A4.
    + intros Hpos. destruct (A5 Hpos) as [A6 A7]. split; [|done].
      intros x Hx Hf. rewrite Hq. by apply A6.
  - intros i Hi. rewrite Htn, Hq, Hnc in *. rewrite H4 by done.
    apply zsum_ext. intros p _. unfold job_load. by rewrite Hj, Ha, Hc.
  - intros p Hp. rewrite Hw in Hp. destruct (H5 p Hp) as [I1 I2]. rewrite Hj. split; [|done].
    intros i Hi. rewrite Hq. apply I1. by rewrite <- Hnc.
  - intros p j Hp. rewrite Hj in Hp. destruct (H6 p j Hp). split; by rewrite ?Hn, ?Ha, ?Hff.
  - by rewrite Hj.
  - by rewrite Ha, Hn.
  - by rewrite Hj.
  - by rewrite Hff, Hn.
Qed.

(** Fences may change as long as those of live jobs stay alive. *)
Lemma inv_fences (d : rknpu_device) (m : gmap Z dma_fence) :
  inv d ->
  (forall p j f, jobs d !! p = Some j -> j_fence j = Some f -> exists x, m !! f = Some x /\ 1 <= f_refcount x) ->
  (forall f, is_Some (m !! f) -> f < next_addr d) -> inv (d <| fences := m |>).
Proof.
  intros [H1 H2 H3 H4 H5 H6 H7 H8 H9 H10] Hm Hf. split; try done.
  - intros i p Hi Hp. destruct (H3 i p Hi Hp) as (j & a & ? & ? & [A1 A2 A3 A4 A5]).
    exists j, a. split; [done|]. split; [done|]. by split.
  - intros p j Hp. destruct (H6 p j Hp). split; try done. intros f. by apply (Hm p).
Qed.

(** ** Updates of one job *)

(** [j'] is [j] as far as everything but the counters goes. *)
Record job_kept (j j' : rknpu_job) : Prop := {
  jp_args : j_args j' = j_args j;
  jp_owner : j_args_owner j' = j_args_owner j;
  jp_fence : j_fence j' = j_fence j;
  jp_cores : j_use_core_num j' = j_use_core_num j;
  jp_work : j_work_init j' = j_work_init j;
  jp_async : has_flag (j_flags j') RKNPU_JOB_ASYNC = has_flag (j_flags j) RKNPU_JOB_ASYNC;
  jp_done : has_flag (j_flags j) RKNPU_JOB_DONE = true -> has_flag (j_flags j') RKNPU_JOB_DONE = true;
}.

Lemma job_kept_refl (j : rknpu_job) : job_kept j j.
Proof. by split. Qed.

Lemma job_same_kept (j j' : rknpu_job) : job_same j j' -> job_kept j j'.
Proof. intros (r & f & l & m & ->). by split. Qed.

(** The tasks of a job do not depend on what may change. *)
Lemma job_load_set (d : rknpu_device) (i p q : Z) (j j' : rknpu_job) :
  jobs d !! p = Some j -> job_kept j j' ->
  job_load (d <| jobs ::= <[p := j']> |>) i q = job_load d i q.
Proof.
  intros Hj [Ha _ _ Hc _ _ _]. unfold job_load. cbn.
  destruct (decide (p = q)) as [<-|Hne].
  - by rewrite lookup_insert_eq, Hj, Ha, Hc.
  - by rewrite lookup_insert_ne.
Qed.

(** The parts of the invariant on single jobs survive an update of a job. *)
Lemma job_clauses_set (d : rknpu_device) (p : Z) (j j' : rknpu_job) :
  inv d -> jobs d !! p = Some j -> job_kept j j' ->
  let d' := d <| jobs ::= <[p := j']> |> in
  (forall q jq, jobs d' !! q = Some jq -> job_ok d' q jq) /\
  (forall q q' x x', q <> q' -> jobs d' !! q = Some x -> jobs d' !! q' = Some x' ->
     j_args_owner x = true -> j_args x <> j_args x') /\
  (forall q q' x x' f, q <> q' -> jobs d' !! q = Some x -> jobs d' !! q' = Some x' ->
     j_fence x = Some f -> j_fence x' <> Some f).
Proof.
  intros Hinv Hj [Ka Ko Kf Kc Kw Kas Kd] d'.
  pose proof (iv_job _ Hinv p j Hj) as [P1 P2 P3 P4].
  assert (forall r y, jobs d' !! r = Some y -> exists y0, jobs d !! r = Some y0 /\
    j_args y = j_args y0 /\ j_args_owner y = j_args_owner y0 /\ j_fence y = j_fence y0) as Hback.
  { intros r y Hr. cbn in Hr. destruct (decide (p = r)) as [<-|Hr'].
    - rewrite lookup_insert_eq in Hr. injection Hr as <-. by exists j.
    - rewrite lookup_insert_ne in Hr by done. by exists y. }
  split; [|split].
  - intros q jq Hq. cbn in Hq. destruct (decide (p = q)) as [<-|Hne].
    + rewrite lookup_insert_eq in Hq. injection Hq as <-.
      split; rewrite ?Ka, ?Kf, ?Kw, ?Kas; assumption.
    + rewrite lookup_insert_ne in Hq by done. destruct (iv_job _ Hinv q jq Hq). by split.
  - intros q q' x x' Hne Hq Hq' Ho.
    destruct (Hback q x Hq) as (x0 & H1 & -> & Ho1 & _). rewrite Ho1 in Ho.
    destruct (Hback q' x' Hq') as (x0' & H1' & -> & _). by apply (iv_own _ Hinv q q').
  - intros q q' x x' f Hne Hq Hq'.
    destruct (Hback q x Hq) as (x0 & H1 & _ & _ & ->), (Hback q' x' Hq') as (x0' & H1' & _ & _ & ->).
    by apply (iv_fence _ Hinv q q').
Qed.

Lemma inv_job_set (d : rknpu_device) (p : Z) (j j' : rknpu_job) :
  inv d -> jobs d !! p = Some j -> job_kept j j' ->
  (forall i a, 0 <= i < ncores d -> p ∈ queue_at d i -> active_ok d p j a -> active_ok d p j' a) ->
  inv (d <| jobs ::= <[p := j']> |>).
Proof.
  intros Hinv Hj Hk Hact. destruct (job_clauses_set d p j j' Hinv Hj Hk) as (Hjob & Hown & Hfen).
  split; [apply (iv_config _ Hinv) | apply (iv_order _ Hinv) | | | | done | done | apply (iv_fresh _ Hinv)
    | done | apply (iv_fence_fresh _ Hinv)].
  - intros i q Hi Hq. destruct (iv_active _ Hinv i q Hi Hq) as (jq & a & H1 & H2 & H3).
    cbn. destruct (decide (p = q)) as [<-|Hne].
    + rewrite lookup_insert_eq. exists j', a. split; [done|]. rewrite (jp_args _ _ Hk).
      simplify_eq. split; [done|]. destruct (Hact i a Hi Hq H3). by split.
    + rewrite lookup_insert_ne by done. exists jq, a. split; [done|]. split; [done|].
      destruct H3. by split.
  - intros i Hi. etransitivity; [apply (iv_load _ Hinv i Hi)|].
    apply zsum_ext. intros q _. symmetry. by apply (job_load_set d i p q j j').
  - intros q Hq. destruct (iv_works _ Hinv q Hq) as [Hin (jq & H1 & H2 & H3)].
    split; [exact Hin|]. cbn. destruct (decide (p = q)) as [<-|Hne].
    + rewrite lookup_insert_eq. exists j'. simplify_eq.
      split; [done|]. rewrite (jp_async _ _ Hk). split; [done|]. by apply (jp_done _ _ Hk).
    + rewrite lookup_insert_ne by done. by exists jq.
Qed.

(** A commit of a job that waits nowhere. *)
Lemma inv_commit (d d' : rknpu_device) (p : Z) :
  inv d -> waiting d p = 0 -> commit_frame p d d' -> inv d'.
Proof.
  intros Hinv Hw ((j & j' & Hj & Hj' & Hs & Ha) & Hc & Hsub & Hargs & Hnext & Hworks & Hr & Hfen).
  apply (inv_view (d <| jobs ::= <[p := j']> |>)).
  { split; cbn; try done. intros i. by rewrite Hsub. }
  apply (inv_job_set d p j j'); [done | done | by apply job_same_kept |].
  intros i a Hi Hq [A1 A2 A3 A4 A5]. destruct Hs as (r & f & l & m & ->).
  split; cbn; try done. lia.
Qed.

(** ** Updates of one core *)

(** [d'] is [d] with [s] as the data of core [i], as far as cores go. *)
Record core_set (d d' : rknpu_device) (i : Z) (s : rknpu_subcore_data) : Prop := {
  cs_config : config d' = config d;
  cs_at : subcore_datas d' i = s;
  cs_other : forall x, x <> i -> subcore_datas d' x = subcore_datas d x;
}.

Lemma core_set_alter (d : rknpu_device) (i : Z) (f : rknpu_subcore_data -> rknpu_subcore_data)
    (g : gmap Z rknpu_job -> gmap Z rknpu_job) :
  core_set d (d <| subcore_datas ::= alter f i |> <| jobs ::= g |>) i (f (subcore_datas d i)).
Proof.
  split; cbn; [done | by rewrite fn_lookup_alter | intros x Hx; by rewrite fn_lookup_alter_ne].
Qed.

Lemma inv_nodup (d : rknpu_device) (i : Z) : inv d -> 0 <= i < ncores d -> NoDup (queue_at d i).
Proof.
  intros Hinv Hi. destruct (iv_order _ Hinv) as (s & b & H). destruct (H i Hi) as [Hs _].
  induction Hs as [|x l Hl IH Hx]; constructor; [|done].
  intros Hin. rewrite Forall_forall in Hx. specialize (Hx x Hin). lia.
Qed.

Lemma elem_of_queue (s : rknpu_subcore_data) (p : Z) :
  p ∈ queue s <-> s_job s = Some p \/ p ∈ todo_list s.
Proof.
  unfold queue. rewrite elem_of_app. destruct (s_job s) as [q|]; simpl.
  - rewrite list_elem_of_singleton. split; (intros [Hp|Hp]; [left; congruence | by right]).
  - rewrite elem_of_nil. split; (intros [Hp|Hp]; [done | by right]).
Qed.

(** A core that holds a job counts for it. *)
Lemma held_positive (d : rknpu_device) (i p : Z) :
  0 <= i < ncores d -> p ∈ queue_at d i -> 0 < waiting d p + running d p.
Proof.
  intros Hi Hq. unfold waiting, running.
  pose proof (count_nonneg (ncores d) (fun i => bool_decide (p ∈ todo_list (subcore_datas d i)))).
  pose proof (count_nonneg (ncores d) (fun i => bool_decide (s_job (subcore_datas d i) = Some p))).
  apply elem_of_queue in Hq as [Hq|Hq].
  - pose proof (count_pos (ncores d) i (fun i => bool_decide (s_job (subcore_datas d i) = Some p)) Hi
      ltac:(by apply bool_decide_eq_true)). lia.
  - pose proof (count_pos (ncores d) i (fun i => bool_decide (p ∈ todo_list (subcore_datas d i))) Hi
      ltac:(by apply bool_decide_eq_true)). lia.
Qed.

Lemma waiting_zero_todo (d : rknpu_device) (i p : Z) :
  0 <= i < ncores d -> waiting d p = 0 -> p ∉ todo_list (subcore_datas d i).
Proof.
  intros Hi Hw. eapply bool_decide_eq_false_1.
  by apply (proj1 (count_zero _ _) Hw i Hi).
Qed.

(** An update of job [p] and of the queues it is in. *)
Record gang_step (d d' : rknpu_device) (p : Z) (j j' : rknpu_job) : Prop := {
  gs_job : jobs d !! p = Some j;
  gs_kept : job_kept j j';
  gs_jobs : jobs d' = <[p := j']> (jobs d);
  gs_frame : config d' = config d /\ args_mem d' = args_mem d /\ next_addr d' = next_addr d /\
    cleanup_works d' = cleanup_works d /\ fences d' = fences d;
  gs_idle : p ∉ cleanup_works d;
  gs_queue : forall x q, 0 <= x < ncores d -> q <> p -> (q ∈ queue_at d' x <-> q ∈ queue_at d x);
  gs_counts : forall q, q <> p -> waiting d' q = waiting d q /\ running d' q = running d q;
}.

Lemma gang_load (d d' : rknpu_device) (p : Z) (j j' : rknpu_job) (i q : Z) :
  gang_step d d' p j j' -> job_load d' i q = job_load d i q.
Proof.
  intros [Hj Hk Hjobs (Fc & Fa & Fn & Fw & Ff) _ _ _].
  rewrite <- (job_load_set d i p q j j' Hj Hk). unfold job_load. cbn. by rewrite Hjobs, Fc, Fa.
Qed.

Lemma inv_gang_step (d d' : rknpu_device) (p : Z) (j j' : rknpu_job) :
  inv d -> gang_step d d' p j j' ->
  (exists (s : Z -> Z) (bound : Z), forall i, 0 <= i < ncores d ->
    StronglySorted (fun a b => s a < s b) (queue_at d' i) /\
    Forall (fun a => s a < bound) (queue_at d' i)) ->
  (forall i, 0 <= i < ncores d ->
    task_num (subcore_datas d' i) = zsum (job_load d i) (queue_at d' i)) ->
  (forall i, 0 <= i < ncores d -> p ∈ queue_at d' i ->
    exists a, args_mem d !! j_args j = Some a /\ active_ok d' p j' a) ->
  inv d'.
Proof.
  intros Hinv Hg Horder Hload Hself.
  pose proof (gang_load d d' p j j') as Hld. destruct Hg as [Hj Hk Hjobs Hframe Hidle Hq Hcnt] eqn:Eg.
  destruct (job_clauses_set d p j j' Hinv Hj Hk) as (Hjob & Hown & Hfen). cbn in Hjob, Hown, Hfen.
  rewrite <- Hjobs in Hjob, Hown, Hfen.
  destruct Hframe as (Fc & Fa & Fn & Fw & Ff).
  assert (Hnc : ncores d' = ncores d) by (unfold ncores; by rewrite Fc).
  split; [rewrite Fc; apply (iv_config _ Hinv) | by rewrite Hnc | | | | | exact Hown |
    rewrite Fa, Fn; apply (iv_fresh _ Hinv) | exact Hfen | rewrite Ff, Fn; apply (iv_fence_fresh _ Hinv)];
    rewrite ?Hnc, ?Fw.
  - intros x q Hx Hqx. rewrite Hjobs, Fa. destruct (decide (p = q)) as [<-|Hne].
    + rewrite lookup_insert_eq. destruct (Hself x Hx Hqx) as (a & Ha & Hact).
      exists j', a. by rewrite (jp_args _ _ Hk).
    + rewrite lookup_insert_ne by done. apply Hq in Hqx; [|done|done].
      destruct (iv_active _ Hinv x q Hx Hqx) as (jq & a & H1 & H2 & [A1 A2 A3 A4 A5]).
      exists jq, a. split; [done|]. split; [done|].
      destruct (Hcnt q) as [C1 C2]; [done|]. split; rewrite ?Hnc, ?C1, ?C2; try done.
      * intros y Hy Hqy. apply A4; [done|]. by apply Hq.
      * intros Hpos. destruct (A5 Hpos) as [A6 A7]. split; [|done].
        intros y Hy Hf. apply Hq; [done|done|]. by apply A6.
  - intros x Hx. rewrite Hload by done. apply zsum_ext. intros q _. symmetry. by apply Hld.
  - intros q Hqw. destruct (iv_works _ Hinv q Hqw) as [Hin (jq & H1 & H2 & H3)].
    assert (p <> q) as Hne by (intros <-; done).
    split; [|exists jq; by rewrite Hjobs, lookup_insert_ne].
    intros x Hx Hqx. rewrite Hnc in Hx. apply (Hin x Hx). by apply Hq.
  - intros q jq Hqj. destruct (Hjob q jq Hqj) as [B1 B2 B3 B4]. split; by rewrite ?Fn, ?Fa, ?Ff.
Qed.

(** A job some core holds is not with the workqueue. *)
Lemma active_not_work (d : rknpu_device) (i p : Z) :
  inv d -> 0 <= i < ncores d -> p ∈ queue_at d i -> p ∉ cleanup_works d.
Proof. intros Hinv Hi Hp Hw. destruct (iv_works _ Hinv p Hw) as [Hin _]. by apply (Hin i). Qed.

Section Dequeue.
Context (d d' : rknpu_device) (i p : Z) (rest : list Z) (s : rknpu_subcore_data).
Context (Hi : 0 <= i < ncores d) (Hcs : core_set d d' i s).
Context (Hidle : s_job (subcore_datas d i) = None).
Context (Htodo : todo_list (subcore_datas d i) = p :: rest) (Hrest : p ∉ rest).
Context (Hjob : s_job s = Some p) (Hq : todo_list s = rest).

Lemma dequeue_queue (x : Z) : queue_at d' x = queue_at d x.
Proof.
  unfold queue_at. destruct (decide (x = i)) as [->|Hx].
  - rewrite (cs_at _ _ _ _ Hcs). unfold queue. by rewrite Hidle, Htodo, Hjob, Hq.
  - by rewrite (cs_other _ _ _ _ Hcs).
Qed.

Lemma dequeue_waiting : waiting d p = waiting d' p + 1.
Proof.
  unfold waiting, ncores. rewrite (cs_config _ _ _ _ Hcs). apply (count_incr _ i); [done| | |].
  - intros x _ Hx. by rewrite (cs_other _ _ _ _ Hcs).
  - rewrite (cs_at _ _ _ _ Hcs), Hq. by apply bool_decide_eq_false.
  - rewrite Htodo. apply bool_decide_eq_true. apply list_elem_of_here.
Qed.

Lemma dequeue_running : running d' p = running d p + 1.
Proof.
  unfold running, ncores. rewrite (cs_config _ _ _ _ Hcs). apply (count_incr _ i); [done| | |].
  - intros x _ Hx. by rewrite (cs_other _ _ _ _ Hcs).
  - rewrite Hidle. by apply bool_decide_eq_false.
  - rewrite (cs_at _ _ _ _ Hcs), Hjob. by apply bool_decide_eq_true.
Qed.

Lemma dequeue_others (q : Z) : q <> p -> waiting d' q = waiting d q /\ running d' q = running d q.
Proof.
  intros Hne. unfold waiting, running, ncores. rewrite (cs_config _ _ _ _ Hcs).
  split; apply count_ext; intros x _; destruct (decide (x = i)) as [->|Hx];
    rewrite ?(cs_at _ _ _ _ Hcs); try by rewrite (cs_other _ _ _ _ Hcs).
  - rewrite Htodo, Hq. apply bool_decide_ext. rewrite elem_of_cons.
    split; [by right | by intros [?|?]].
  - rewrite Hidle, Hjob. apply bool_decide_ext. split; [congruence | done].
Qed.
End Dequeue.

(** The critical section of [rknpu_job_next]. *)
Lemma inv_dequeue (d : rknpu_device) (i p : Z) (rest : list Z) (j j' : rknpu_job)
    (f : rknpu_subcore_data -> rknpu_subcore_data) :
  inv d -> 0 <= i < ncores d -> s_job (subcore_datas d i) = None ->
  todo_list (subcore_datas d i) = p :: rest -> jobs d !! p = Some j -> job_kept j j' ->
  j_run_count j' = j_run_count j - 1 -> j_interrupt_count j' = j_interrupt_count j ->
  j_flags j' = j_flags j -> j_int_mask j' = j_int_mask j ->
  s_job (f (subcore_datas d i)) = Some p -> todo_list (f (subcore_datas d i)) = rest ->
  task_num (f (subcore_datas d i)) = task_num (subcore_datas d i) ->
  inv (d <| subcore_datas ::= alter f i |> <| jobs ::= <[p := j']> |>).
Proof.
  intros Hinv Hi Hidle Htodo Hj Hk Hrun Hint Hfl Hmask Hs Ht Hn.
  set (d' := d <| subcore_datas ::= alter f i |> <| jobs ::= <[p := j']> |>).
  pose proof (core_set_alter d i f (<[p := j']>)) as Hcs. fold d' in Hcs.
  assert (Hpq : p ∈ queue_at d i).
  { apply elem_of_queue. right. rewrite Htodo. apply list_elem_of_here. }
  assert (Hrest : p ∉ rest).
  { pose proof (inv_nodup d i Hinv Hi) as Hnd. unfold queue_at, queue in Hnd.
    rewrite Hidle, Htodo in Hnd. by apply NoDup_cons in Hnd as [? _]. }
  pose proof (dequeue_queue d d' i p rest _ Hcs Hidle Htodo Hs Ht) as Hq.
  pose proof (dequeue_waiting d d' i p rest _ Hi Hcs Htodo Hrest Ht) as Hw.
  pose proof (dequeue_running d d' i p _ Hi Hcs Hidle Hs) as Hr.
  pose proof (dequeue_others d d' i p rest _ Hcs Hidle Htodo Hs Ht) as Ho.
  assert (Hg : gang_step d d' p j j').
  { split; try done; [by apply (active_not_work d i) | by intros; rewrite Hq]. }
  assert (Hnum : forall x, task_num (subcore_datas d' x) = task_num (subcore_datas d x)).
  { intros x. destruct (decide (x = i)) as [->|Hne]; [by rewrite (cs_at _ _ _ _ Hcs)|].
    by rewrite (cs_other _ _ _ _ Hcs). }
  assert (Hnc : ncores d' = ncores d) by done.
  clearbody d'. apply (inv_gang_step d d' p j j' Hinv Hg).
  - destruct (iv_order _ Hinv) as (o & b & H). exists o, b. intros x Hx. rewrite Hq. by apply H.
  - intros x Hx. rewrite Hq, Hnum. by apply (iv_load _ Hinv).
  - intros x Hx _. destruct (iv_active _ Hinv i p Hi Hpq) as (j0 & a & H1 & H2 & [A1 A2 A3 A4 A5]).
    assert (j0 = j) as -> by congruence. exists a. split; [done|]. rewrite <- Hfl in A3.
    split; rewrite ?Hnc; [lia | lia | done | |].
    + intros y Hy. rewrite Hq. by apply A4.
    + intros Hpos. destruct A5 as [A6 A7]; [lia|]. rewrite Hmask. split; [|done].
      intros y Hy Hf. rewrite Hq. by apply A6.
Qed.

(** ** Release of a core *)

Section Release.
Context (d d' : rknpu_device) (i p : Z) (s : rknpu_subcore_data).
Context (Hi : 0 <= i < ncores d) (Hcs : core_set d d' i s).
Context (Hrun : s_job (subcore_datas d i) = Some p).
Context (Hjob : s_job s = None) (Hq : todo_list s = todo_list (subcore_datas d i)).

Lemma release_queue : queue_at d i = p :: queue_at d' i.
Proof. unfold queue_at. rewrite (cs_at _ _ _ _ Hcs). unfold queue. by rewrite Hrun, Hjob, Hq. Qed.

Lemma release_queue_other (x : Z) : x <> i -> queue_at d' x = queue_at d x.
Proof. intros Hx. unfold queue_at. by rewrite (cs_other _ _ _ _ Hcs). Qed.

Lemma release_waiting (q : Z) : waiting d' q = waiting d q.
Proof.
  unfold waiting, ncores. rewrite (cs_config _ _ _ _ Hcs). apply count_ext.
  intros x _. destruct (decide (x = i)) as [->|Hx].
  - by rewrite (cs_at _ _ _ _ Hcs), Hq.
  - by rewrite (cs_other _ _ _ _ Hcs).
Qed.

Lemma release_running : running d p = running d' p + 1.
Proof.
  unfold running, ncores. rewrite (cs_config _ _ _ _ Hcs). apply (count_incr _ i); [done| | |].
  - intros x _ Hx. by rewrite (cs_other _ _ _ _ Hcs).
  - rewrite (cs_at _ _ _ _ Hcs), Hjob. by apply bool_decide_eq_false.
  - rewrite Hrun. by apply bool_decide_eq_true.
Qed.

Lemma release_others (q : Z) : q <> p -> running d' q = running d q.
Proof.
  intros Hne. unfold running, ncores. rewrite (cs_config _ _ _ _ Hcs). apply count_ext.
  intros x _. destruct (decide (x = i)) as [->|Hx].
  - rewrite (cs_at _ _ _ _ Hcs), Hjob, Hrun. apply bool_decide_ext. split; congruence.
  - by rewrite (cs_other _ _ _ _ Hcs).
Qed.
End Release.

(** The critical section of [rknpu_job_done], for a job all of whose cores
    have started. *)
Lemma inv_release (d : rknpu_device) (i p : Z) (j j' : rknpu_job)
    (f : rknpu_subcore_data -> rknpu_subcore_data) :
  inv d -> 0 <= i < ncores d -> s_job (subcore_datas d i) = Some p -> waiting d p = 0 ->
  jobs d !! p = Some j -> job_kept j j' ->
  j_run_count j' = j_run_count j -> j_interrupt_count j' = j_interrupt_count j - 1 ->
  j_flags j' = j_flags j ->
  s_job (f (subcore_datas d i)) = None ->
  todo_list (f (subcore_datas d i)) = todo_list (subcore_datas d i) ->
  task_num (f (subcore_datas d i)) = task_num (subcore_datas d i) - job_load d i p ->
  let d' := d <| subcore_datas ::= alter f i |> <| jobs ::= <[p := j']> |> in
  inv d' /\ waiting d' p = 0 /\ running d' p = j_interrupt_count j' /\ p ∉ cleanup_works d'.
Proof.
  intros Hinv Hi Hrun Hw0 Hj Hk Hrc Hic Hfl Hs Ht Hn d'.
  pose proof (core_set_alter d i f (<[p := j']>)) as Hcs. fold d' in Hcs.
  assert (Hpq : p ∈ queue_at d i) by (apply elem_of_queue; by left).
  pose proof (active_not_work d i p Hinv Hi Hpq) as Hnw.
  pose proof (release_queue d d' i p _ Hcs Hrun Hs Ht) as Hq.
  pose proof (release_queue_other d d' i _ Hcs) as Hqo.
  pose proof (release_waiting d d' i _ Hcs Ht) as Hw.
  pose proof (release_running d d' i p _ Hi Hcs Hrun Hs) as Hr.
  pose proof (release_others d d' i p _ Hcs Hrun Hs) as Ho.
  assert (Hg : gang_step d d' p j j').
  { split; try done.
    - intros x q _ Hne. destruct (decide (x = i)) as [->|Hx]; [|by rewrite Hqo].
      rewrite Hq, elem_of_cons. split; [by right | by intros [?|?]].
    - intros q Hne. by rewrite Hw, Ho. }
  assert (Hnum : forall x, task_num (subcore_datas d' x) =
    if decide (x = i) then task_num (subcore_datas d i) - job_load d i p
    else task_num (subcore_datas d x)).
  { intros x. destruct (decide (x = i)) as [->|Hne]; [by rewrite (cs_at _ _ _ _ Hcs)|].
    by rewrite (cs_other _ _ _ _ Hcs). }
  destruct (iv_active _ Hinv i p Hi Hpq) as (j0 & a & H1 & H2 & [A1 A2 A3 A4 A5]).
  assert (j0 = j) as -> by congruence.
  assert (Hnc : ncores d' = ncores d) by done.
  split; [|split; [by rewrite Hw | split; [lia | done]]].
  clearbody d'. apply (inv_gang_step d d' p j j' Hinv Hg).
  - destruct (iv_order _ Hinv) as (o & b & H). exists o, b. intros x Hx.
    destruct (H x Hx) as [O1 O2]. destruct (decide (x = i)) as [->|Hne]; [|by rewrite Hqo].
    rewrite Hq in O1, O2. inversion O1. by inversion O2.
  - intros x Hx. rewrite Hnum. destruct (decide (x = i)) as [->|Hne].
    + rewrite (iv_load _ Hinv i Hi), Hq. simpl. lia.
    + rewrite Hqo by done. by apply (iv_load _ Hinv).
  - intros x Hx _. exists a. split; [done|]. rewrite <- Hfl in A3.
    split; rewrite ?Hnc, ?Hw; [lia | lia | done | | lia].
    intros y Hy Hpy. apply A4; [done|]. destruct (decide (y = i)) as [->|Hne]; [done|].
    by rewrite <- Hqo.
Qed.

(** ** Enqueueing *)

(** The state after the critical section of [rknpu_job_schedule]. *)
Record enqueued (d d' : rknpu_device) (p : Z) (j : rknpu_job) (a : rknpu_submit) : Prop := {
  en_frame : config d' = config d /\ args_mem d' = args_mem d /\ next_addr d' = next_addr d /\
    cleanup_works d' = cleanup_works d /\ jobs d' = jobs d /\ fences d' = fences d;
  en_sub : forall i, 0 <= i < ncores d ->
    let s := subcore_datas d i in
    subcore_datas d' i =
      if has_flag (a_core_mask a) (rknpu_core_mask i) then
        s <| todo_list ::= (fun l => l ++ [p]) |>
          <| task_num ::= Z.add (task_number_of (config d) (j_use_core_num j) a i) |>
      else s;
}.

Definition mask_cores (d : rknpu_device) (a : rknpu_submit) : Z :=
  count_cores (ncores d) (fun i => has_flag (a_core_mask a) (rknpu_core_mask i)).

Lemma inactive_counts (d : rknpu_device) (p : Z) : inactive d p -> waiting d p = 0 /\ running d p = 0.
Proof.
  intros H. unfold waiting, running.
  split; apply count_zero; intros i Hi; apply bool_decide_eq_false; intros Hp;
    apply (H i Hi), elem_of_queue; auto.
Qed.

Section Enqueue.
Context (d d' : rknpu_device) (p : Z) (j : rknpu_job) (a : rknpu_submit).
Context (Hen : enqueued d d' p j a) (Hin : inactive d p).

Lemma enqueue_queue (i : Z) : 0 <= i < ncores d ->
  queue_at d' i = queue_at d i ++
    if has_flag (a_core_mask a) (rknpu_core_mask i) then [p] else [].
Proof.
  intros Hi. unfold queue_at. rewrite (en_sub _ _ _ _ _ Hen i Hi). unfold queue.
  destruct (has_flag _ _); cbn; [by rewrite app_assoc | by rewrite app_nil_r].
Qed.

Lemma enqueue_ncores : ncores d' = ncores d.
Proof. unfold ncores. destruct (en_frame _ _ _ _ _ Hen) as (-> & _). done. Qed.

Lemma enqueue_others (q : Z) : q <> p -> waiting d' q = waiting d q.
Proof.
  intros Hne. unfold waiting. rewrite enqueue_ncores. apply count_ext. intros i Hi.
  rewrite (en_sub _ _ _ _ _ Hen i Hi). destruct (has_flag _ _); [|done]. cbn.
  apply bool_decide_ext. rewrite elem_of_app, list_elem_of_singleton.
  split; [by intros [?|?] | by left].
Qed.

Lemma enqueue_running (q : Z) : running d' q = running d q.
Proof.
  unfold running. rewrite enqueue_ncores. apply count_ext. intros i Hi.
  rewrite (en_sub _ _ _ _ _ Hen i Hi). by destruct (has_flag _ _).
Qed.

Lemma enqueue_waiting : waiting d' p = mask_cores d a.
Proof.
  unfold waiting, mask_cores. rewrite enqueue_ncores. apply count_ext. intros i Hi.
  assert (p ∉ todo_list (subcore_datas d i)) as Hn
    by (intros ?; apply (Hin i Hi), elem_of_queue; auto).
  rewrite (en_sub _ _ _ _ _ Hen i Hi). destruct (has_flag _ _); cbn.
  - apply bool_decide_eq_true. rewrite elem_of_app, list_elem_of_singleton. by right.
  - by apply bool_decide_eq_false.
Qed.
End Enqueue.

Lemma inv_enqueue (d d' : rknpu_device) (p : Z) (j : rknpu_job) (a : rknpu_submit) :
  inv d -> jobs d !! p = Some j -> args_mem d !! j_args j = Some a -> inactive d p ->
  p ∉ cleanup_works d -> has_flag (j_flags j) RKNPU_JOB_DONE = false ->
  j_run_count j = mask_cores d a -> j_interrupt_count j = mask_cores d a ->
  (forall i, j_int_mask j i = 0) -> enqueued d d' p j a -> inv d'.
Proof.
  intros Hinv Hj Ha Hin Hnw Hnd Hrc Hic Hmask Hen.
  pose proof (enqueue_queue d d' p j a Hen) as Hq.
  pose proof (enqueue_waiting d d' p j a Hen Hin) as Hw.
  pose proof (enqueue_running d d' p j a Hen) as Hr.
  pose proof (enqueue_others d d' p j a Hen) as Ho.
  pose proof (enqueue_ncores d d' p j a Hen) as Hnc.
  destruct (inactive_counts d p Hin) as [_ Hr0].
  destruct (en_frame _ _ _ _ _ Hen) as (Fc & Fa & Fn & Fw & Fj & Ff).
  assert (Hg : gang_step d d' p j j).
  { split; [done | apply job_kept_refl | by rewrite Fj, insert_id | done | done | |].
    - intros x q Hx Hne. rewrite Hq by done. rewrite elem_of_app.
      destruct (has_flag (a_core_mask a) (rknpu_core_mask x)).
      + rewrite list_elem_of_singleton. split; [by intros [?|?] | by left].
      + split; [by intros [?|?%elem_of_nil] | by left].
    - intros q Hne. by rewrite Ho, Hr. }
  apply (inv_gang_step d d' p j j Hinv Hg).
  - destruct (iv_order _ Hinv) as (o & b & H). exists (<[p := b]> o), (b + 1). intros x Hx.
    destruct (H x Hx) as [O1 O2].
    assert (Hsame : forall q, q ∈ queue_at d x -> o q = <[p := b]> o q).
    { intros q Hqx. rewrite fn_lookup_insert_ne; [done|]. intros ->. by apply (Hin x). }
    apply (sorted_ext _ _ _ Hsame) in O1.
    rewrite Forall_forall in O2. assert (Forall (fun q => <[p := b]> o q < b) (queue_at d x)).
    { apply Forall_forall. intros q Hqx. rewrite <- Hsame by done. by apply O2. }
    rewrite Hq by done. destruct (has_flag (a_core_mask a) (rknpu_core_mask x)); rewrite ?app_nil_r.
    + split; [apply sorted_snoc; [done|]; by rewrite fn_lookup_insert|].
      apply Forall_app. split; [eapply Forall_impl; [done|]; cbn; lia|].
      constructor; [rewrite fn_lookup_insert; lia | constructor].
    + split; [done|]. eapply Forall_impl; [done|]. cbn. lia.
  - intros x Hx. rewrite (en_sub _ _ _ _ _ Hen x Hx), Hq, zsum_app by done.
    rewrite <- (iv_load _ Hinv x Hx). destruct (has_flag (a_core_mask a) (rknpu_core_mask x)); cbn; [|lia].
    unfold job_load. rewrite Hj, Ha. lia.
  - intros x Hx _. exists a. split; [done|].
    split; rewrite ?Hnc, ?Hw, ?Hr, ?Hr0; [done | lia | done | |].
    + intros y Hy. rewrite Hq, elem_of_app by done. intros [Hp|Hp]; [by destruct (Hin y)|].
      destruct (has_flag (a_core_mask a) (rknpu_core_mask y)); [done | by apply elem_of_nil in Hp].
    + intros _. split; [|done]. intros y Hy Hf. rewrite Hq, Hf, elem_of_app by done.
      right. apply list_elem_of_here.
Qed.

(** ** The end of a job *)

Lemma inv_add_work (d : rknpu_device) (p : Z) (j : rknpu_job) (f : list Z -> list Z) :
  inv d -> inactive d p -> jobs d !! p = Some j ->
  has_flag (j_flags j) RKNPU_JOB_ASYNC = true -> has_flag (j_flags j) RKNPU_JOB_DONE = true ->
  (forall q, q ∈ f (cleanup_works d) -> q = p \/ q ∈ cleanup_works d) ->
  inv (d <| cleanup_works ::= f |>).
Proof.
  intros [H1 H2 H3 H4 H5 H6 H7 H8 H9 H10] Hin Hj Ha Hd Hf. split; try done.
  - intros i q Hi Hq. destruct (H3 i q Hi Hq) as (jq & a & ? & ? & [A1 A2 A3 A4 A5]).
    exists jq, a. split; [done|]. split; [done|]. by split.
  - intros q Hq. destruct (Hf q Hq) as [->|Hq']; [by split; [|exists j] | by apply H5].
  - intros q jq Hq. by destruct (H6 q jq Hq).
Qed.

(** dma_fence_put of the fence of a job, if it has one. *)
Definition put_fence (o : option Z) (m : gmap Z dma_fence) : gmap Z dma_fence :=
  match o with
  | Some f =>
      match m !! f with
      | Some x => if f_refcount x =? 1 then delete f m else <[f := x <| f_refcount ::= Z.pred |>]> m
      | None => m
      end
  | None => m
  end.

Lemma put_fence_other (o : option Z) (m : gmap Z dma_fence) (f : Z) :
  o <> Some f -> put_fence o m !! f = m !! f.
Proof.
  intros H. destruct o as [g|]; [|done]. cbn. destruct (m !! g) as [x|]; [|done].
  assert (g <> f) by congruence. destruct (_ =? 1); [by apply lookup_delete_ne | by apply lookup_insert_ne].
Qed.
Lemma put_fence_some (o : option Z) (m : gmap Z dma_fence) (f : Z) :
  is_Some (put_fence o m !! f) -> is_Some (m !! f).
Proof.
  destruct (decide (o = Some f)) as [->|Hne]; [|by rewrite put_fence_other].
  cbn. destruct (m !! f) eqn:E; [by eexists | by rewrite E].
Qed.

(** [kfree] of a finished job, of the arguments it owns and of its reference on
    its fence. *)
Definition free_job (p : Z) (j : rknpu_job) (d : rknpu_device) : rknpu_device :=
  d <| jobs ::= delete p |>
    <| args_mem ::= (fun m => if j_args_owner j then delete (j_args j) m else m) |>
    <| fences ::= put_fence (j_fence j) |>.

Lemma inv_free (d : rknpu_device) (p : Z) (j : rknpu_job) :
  inv d -> inactive d p -> jobs d !! p = Some j -> p ∉ cleanup_works d -> inv (free_job p j d).
Proof.
  intros [H1 H2 H3 H4 H5 H6 H7 H8 H9 H10] Hin Hj Hnw.
  assert (Hargs : forall q jq, q <> p -> jobs d !! q = Some jq ->
    args_mem (free_job p j d) !! j_args jq = args_mem d !! j_args jq).
  { intros q jq Hne Hq. cbn. destruct (j_args_owner j) eqn:Ho; [|done].
    apply lookup_delete_ne. by apply (H7 p q). }
  assert (Hjobs : forall q, q <> p -> jobs (free_job p j d) !! q = jobs d !! q)
    by (intros q Hne; cbn; by rewrite lookup_delete_ne).
  assert (Hback : forall q jq, jobs (free_job p j d) !! q = Some jq -> q <> p /\ jobs d !! q = Some jq).
  { intros q jq Hq. cbn in Hq. by apply lookup_delete_Some in Hq as [? ?]. }
  split; try done.
  - intros i q Hi Hq. assert (q <> p) as Hne by (intros ->; by apply (Hin i)).
    destruct (H3 i q Hi Hq) as (jq & a & J1 & J2 & [A1 A2 A3 A4 A5]).
    exists jq, a. rewrite Hjobs, (Hargs q) by done.
    split; [done|]. split; [done|]. by split.
  - intros i Hi. rewrite (H4 i Hi : task_num (subcore_datas (free_job p j d) i) = _).
    apply zsum_ext. intros q Hq. assert (q <> p) as Hne by (intros ->; by apply (Hin i)).
    unfold job_load. rewrite Hjobs by done. destruct (jobs d !! q) as [jq|] eqn:E; [|done].
    by rewrite (Hargs q).
  - intros q Hq. assert (q <> p) as Hne by (intros ->; done). rewrite Hjobs by done.
    destruct (H5 q Hq) as [H5' ?]. by split.
  - intros q jq Hq. destruct (Hback q jq Hq) as [Hne Hq']. destruct (H6 q jq Hq').
    split; try done; [by rewrite (Hargs q)|]. intros f Hf. cbn.
    rewrite put_fence_other; [by eauto|]. intros Hjf. by apply (H9 p q j jq f).
  - intros q q' x x' Hne Hq Hq' Ho. destruct (Hback q x Hq), (Hback q' x' Hq').
    by apply (H7 q q').
  - intros q Hq. apply H8. cbn in Hq. destruct (j_args_owner j); [|done].
    destruct Hq as [y Hq]. apply lookup_delete_Some in Hq as [_ Hq]. by exists y.
  - intros q q' x x' f Hne Hq Hq'. destruct (Hback q x Hq), (Hback q' x' Hq'). by apply (H9 q q').
  - intros f Hf. apply H10. cbn in Hf. by apply put_fence_some in Hf.
Qed.
