(* ===== verification/JobStep.v ===== *)
(** * What the handlers do to the queue invariant

    [rknpu_job_next], the interrupt handler, the critical section of
    [rknpu_job_schedule] and the freeing of a job keep the invariant, never
    touch freed memory, and change only jobs that some core holds. *)

From S2P Require Import Prelude Config Domain Device Reset Job Batch Commit JobInv.

(** ** Evolution of a device *)

(** [d] comes from [d0] by handlers that only progress the jobs cores hold. *)
Record evolves (d0 d : rknpu_device) : Prop := {
  ev_config : config d = config d0;
  ev_args : args_mem d = args_mem d0;
  ev_next : next_addr d = next_addr d0;
  ev_job : forall p j, jobs d0 !! p = Some j -> exists j', jobs d !! p = Some j' /\ job_kept j j';
  ev_back : forall p j, jobs d !! p = Some j -> is_Some (jobs d0 !! p);
  ev_inactive : forall p, inactive d0 p -> jobs d !! p = jobs d0 !! p /\ inactive d p;
}.

Lemma job_kept_trans (j1 j2 j3 : rknpu_job) : job_kept j1 j2 -> job_kept j2 j3 -> job_kept j1 j3.
Proof. intros [] []. split; [congruence.. | auto]. Qed.

Lemma evolves_refl (d : rknpu_device) : evolves d d.
Proof.
  split; try done. intros p j Hj. exists j. by split; [|apply job_kept_refl].
Qed.

Lemma evolves_view (d0 d d' : rknpu_device) : view_eq d d' -> evolves d0 d -> evolves d0 d'.
Proof.
  intros [Vc Vj Va Vn Vw Vs Vf] [H1 H2 H3 H4 H5 H6].
  split; rewrite ?Vc, ?Va, ?Vn, ?Vj; try done.
  intros p Hp. destruct (H6 p Hp) as [H7 H8]. split; [done|].
  intros i Hi. unfold queue_at. rewrite (sub_same_queue _ _ (Vs i)). apply H8. unfold ncores in *. by rewrite <- Vc.
Qed.

(** One job progresses and the queues only lose jobs. *)
Lemma evolves_job (d0 d d' : rknpu_device) (p : Z) (j j' : rknpu_job) :
  evolves d0 d -> ~ inactive d0 p -> jobs d !! p = Some j -> job_kept j j' ->
  config d' = config d -> args_mem d' = args_mem d -> next_addr d' = next_addr d ->
  jobs d' = <[p := j']> (jobs d) ->
  (forall q, q <> p -> inactive d q -> inactive d' q) -> evolves d0 d'.
Proof.
  intros [H1 H2 H3 H4 H5 H6] Hact Hj Hk Fc Fa Fn Fj Hin.
  split; rewrite ?Fc, ?Fa, ?Fn, ?Fj; try done.
  - intros q jq Hq. destruct (H4 q jq Hq) as (jq' & H7 & H8).
    destruct (decide (p = q)) as [<-|Hne].
    + rewrite lookup_insert_eq. exists j'. split; [done|].
      assert (jq' = j) as -> by congruence. by apply (job_kept_trans jq j).
    + rewrite lookup_insert_ne by done. by exists jq'.
  - intros q jq Hq. destruct (decide (p = q)) as [<-|Hne]; [by apply (H5 p j)|].
    rewrite lookup_insert_ne in Hq by done. by apply (H5 q jq).
  - intros q Hq. destruct (H6 q Hq) as [H7 H8].
    assert (p <> q) as Hne by (intros ->; done). rewrite lookup_insert_ne by done.
    split; [done|]. by apply Hin.
Qed.

Lemma commit_evolves (d0 d d' : rknpu_device) (p : Z) :
  evolves d0 d -> ~ inactive d0 p -> commit_frame p d d' -> evolves d0 d'.
Proof.
  intros He Hact ((j & j' & Hj & Hj' & Hs & Ha) & Fc & Fs & Fa & Fn & Fw & Fr & Ff).
  apply (evolves_job d0 d d' p j j'); try done; [by apply job_same_kept|].
  intros q _ Hq i Hi. unfold queue_at. rewrite Fs. apply Hq. unfold ncores in *. by rewrite <- Fc.
Qed.

(** What every handler keeps. *)
Definition good (d0 d : rknpu_device) : Prop := inv d /\ evolves d0 d.

Lemma good_view (d0 d d' : rknpu_device) : view_eq d d' -> good d0 d -> good d0 d'.
Proof. intros Hv [H1 H2]. split; [by apply (inv_view d) | by apply (evolves_view d0 d)]. Qed.

Lemma good_held (d0 d : rknpu_device) (i p : Z) :
  good d0 d -> 0 <= i < ncores d -> p ∈ queue_at d i ->
  ~ inactive d0 p /\ exists j a, jobs d !! p = Some j /\ args_mem d !! j_args j = Some a /\
    active_ok d p j a.
Proof.
  intros [Hinv He] Hi Hp. split; [|by apply (iv_active _ Hinv i p)].
  intros Hin. destruct (ev_inactive _ _ He p Hin) as [_ Hin']. by apply (Hin' i).
Qed.

Lemma good_ncores (d0 d : rknpu_device) : good d0 d -> ncores d = ncores d0.
Proof. intros [_ He]. unfold ncores. by rewrite (ev_config _ _ He). Qed.

(** ** rknpu_job_next *)

Lemma wp_job_next (d0 d : rknpu_device) (i : Z) :
  good d0 d -> 0 <= i < ncores d ->
  wp lifetime_fault (rknpu_job_next i) (fun _ d' => good d0 d') d.
Proof.
  intros Hg Hi. unfold rknpu_job_next. apply wp_bind, wp_gets.
  destruct (soft_reseting d); [by apply wp_ret|].
  apply wp_bind, wp_gets.
  destruct (s_job (subcore_datas d i)) as [|] eqn:Hidle; [by apply wp_ret|].
  destruct (todo_list (subcore_datas d i)) as [|p rest] eqn:Htodo; [by apply wp_ret|].
  assert (Hpq : p ∈ queue_at d i).
  { apply elem_of_queue. right. rewrite Htodo. apply list_elem_of_here. }
  destruct (good_held d0 d i p Hg Hi Hpq) as [Hact (j & a & Hj & Ha & Hok)].
  destruct Hg as [Hinv He].
  apply wp_bind, wp_gets. apply wp_bind, wp_modify. apply wp_bind.
  apply (wp_mod_job p j); [exact Hj|].
  set (f s := s <| todo_list := rest |> <| s_job := Some p |>).
  set (j' := j <| j_hw_commit_time := now d |> <| j_hw_recoder_time := now d |>
               <| j_run_count ::= Z.pred |>).
  set (d1 := d <| subcore_datas ::= alter f i |> <| jobs ::= <[p := j']> |>).
  assert (Hk : job_kept j j') by by split.
  assert (Hinv1 : inv d1) by (apply (inv_dequeue d i p rest j j' f); done || (cbn; lia)).
  assert (Hq1 : forall x, queue_at d1 x = queue_at d x).
  { intros x. apply (dequeue_queue d d1 i p rest (f (subcore_datas d i)));
      done || apply core_set_alter. }
  assert (Hg1 : good d0 d1).
  { split; [done|]. apply (evolves_job d0 d d1 p j j'); try done.
    intros q _ Hq x Hx. rewrite Hq1. by apply Hq. }
  destruct (good_held d0 d1 i p Hg1 Hi ltac:(by rewrite Hq1)) as [_ (j1 & a1 & Hj1 & Ha1 & Hok1)].
  apply wp_bind, (wp_get_job p j1); [exact Hj1|].
  destruct (Z.eqb_spec (j_run_count j1) 0) as [Hz|]; [|by apply wp_ret].
  eapply wp_mono; [by apply (wp_commit p j1); [|eexists]|].
  intros ? d2 Hf. split.
  - apply (inv_commit d1 d2 p); [done | by rewrite <- (ao_run _ _ _ _ Hok1) | done].
  - by apply (commit_evolves d0 d1 d2 p); [apply Hg1|..].
Qed.

(** ** The interrupt *)

(** The signal of the fence of a job, if it has one. *)
Lemma wp_signal (d0 d : rknpu_device) (p : Z) (j : rknpu_job) :
  good d0 d -> jobs d !! p = Some j ->
  wp lifetime_fault (match j_fence j with Some f => dma_fence_signal f | None => ret tt end)
    (fun _ d' => good d0 d' /\ jobs d' = jobs d /\ forall q, inactive d q -> inactive d' q) d.
Proof.
  intros [Hinv He] Hj. destruct (j_fence j) as [f|] eqn:Hf; [|by apply wp_ret].
  destruct (jk_fence _ _ _ (iv_job _ Hinv p j Hj) f Hf) as (x & Hx & Hr).
  unfold dma_fence_signal, get_fence. do 2 apply wp_bind. apply wp_gets. rewrite Hx. apply wp_ret, wp_modify.
  split; [|done]. split; [|destruct He; by split].
  apply (inv_fences d (<[f := x <| f_signaled := true |>]> (fences d)) Hinv).
  - intros q jq g Hq Hg. destruct (decide (f = g)) as [<-|Hne].
    + rewrite lookup_insert_eq. by eexists.
    + rewrite lookup_insert_ne by done. by apply (iv_job _ Hinv q jq Hq).
  - intros g. destruct (decide (f = g)) as [<-|Hne].
    + intros _. apply (iv_fence_fresh _ Hinv). by exists x.
    + rewrite lookup_insert_ne by done. apply (iv_fence_fresh _ Hinv).
Qed.

(** The last interrupt of a job, whose cores have all let go of it. *)
Lemma wp_job_complete {iommu : IommuDomain} (d0 d : rknpu_device) (p r i : Z) (j : rknpu_job) :
  good d0 d -> jobs d !! p = Some j -> inactive d p -> ~ inactive d0 p ->
  wp lifetime_fault (job_complete p r i) (fun _ d' => good d0 d') d.
Proof.
  intros [Hinv He] Hj Hin Hact. destruct (iv_job _ Hinv p j Hj) as [P1 P2 P3 P4].
  unfold job_complete. apply wp_bind, (wp_get_job p j); [done|].
  apply wp_bind, wp_modify. apply wp_bind, (wp_mod_job p j); [exact Hj|].
  set (j' := j <| j_flags ::= (fun f => Z.lor f RKNPU_JOB_DONE) |> <| j_ret := r |>).
  set (d1 := d <| iommu_st ::= domain_put |> <| jobs ::= <[p := j']> |>).
  assert (Hdone : has_flag (j_flags j') RKNPU_JOB_DONE = true).
  { unfold has_flag. cbn. rewrite Z.land_lor_distr_l.
    change (Z.land RKNPU_JOB_DONE RKNPU_JOB_DONE) with RKNPU_JOB_DONE.
    destruct (Z.eqb_spec (Z.lor (Z.land (j_flags j) RKNPU_JOB_DONE) RKNPU_JOB_DONE) 0) as [E|]; [|done].
    by apply Z.lor_eq_0_iff in E as [_ ?]. }
  assert (Hasync : has_flag (j_flags j') RKNPU_JOB_ASYNC = has_flag (j_flags j) RKNPU_JOB_ASYNC).
  { unfold has_flag. cbn. rewrite Z.land_lor_distr_l.
    change (Z.land RKNPU_JOB_DONE RKNPU_JOB_ASYNC) with 0. by rewrite Z.lor_0_r. }
  assert (Hk : job_kept j j') by by split.
  assert (Hg1 : good d0 d1).
  { split.
    - apply (inv_view (d <| jobs ::= <[p := j']> |>)); [by split|].
      apply (inv_job_set d p j j'); try done. intros x a Hx Hpx. by destruct (Hin x).
    - by apply (evolves_job d0 d d1 p j j'). }
  assert (Hj1 : jobs d1 !! p = Some j') by (cbn; apply lookup_insert_eq).
  assert (Hwake : forall d', good d0 d' ->
    wp lifetime_fault (wake_up (if 1 <? j_use_core_num j then 0 else i)) (fun _ d'' => good d0 d'') d').
  { intros d' Hg. apply wp_modify. apply (good_view d0 d'); [by split | done]. }
  apply wp_bind. eapply wp_mono; [by apply (wp_signal d0 d1 p j')|]. intros [] d2 (Hg2 & Hj2 & Hin2).
  apply wp_bind, wp_when; [|by intros _; apply Hwake].
  intros Ha. unfold schedule_work. apply wp_bind, (wp_get_job p j'); [by rewrite Hj2|].
  change (j_work_init j') with (j_work_init j). rewrite (P4 Ha).
  apply wp_modify, Hwake. destruct Hg2 as [Hinv2 He2]. split.
  - apply (inv_add_work d2 p j'); [done | by apply Hin2 | by rewrite Hj2 | by rewrite Hasync | done |].
    intros q Hq. case_bool_decide; [by right|].
    apply elem_of_app in Hq as [Hq|Hq%list_elem_of_singleton]; auto.
  - destruct He2 as [E1 E2 E3 E4 E5 E6]. by split.
Qed.

(** An interrupt of a job all of whose cores have started. *)
Lemma wp_job_done {iommu : IommuDomain} (d0 d : rknpu_device) (p i : Z) :
  good d0 d -> 0 <= i < ncores d -> s_job (subcore_datas d i) = Some p -> waiting d p = 0 ->
  wp lifetime_fault (rknpu_job_done p 0 i) (fun _ d' => good d0 d') d.
Proof.
  intros Hg Hi Hs Hw.
  assert (Hpq : p ∈ queue_at d i) by (apply elem_of_queue; by left).
  destruct (good_held d0 d i p Hg Hi Hpq) as [Hact (j & a & Hj & Ha & Hok)].
  destruct Hg as [Hinv He].
  unfold rknpu_job_done. apply wp_bind, wp_gets. apply wp_bind, (wp_mod_job p j); [done|].
  set (j1 := j <| j_submit_count ::= alter Z.succ i |>).
  set (d1 := d <| jobs ::= <[p := j1]> |>).
  assert (Hj1 : jobs d1 !! p = Some j1) by (cbn; apply lookup_insert_eq).
  assert (Hinv1 : inv d1).
  { apply (inv_job_set d p j j1); [done | done | by split |].
    intros x b _ _ [A1 A2 A3 A4 A5]. by split. }
  assert (He1 : evolves d0 d1).
  { by apply (evolves_job d0 d d1 p j j1); [..|split|]. }
  assert (Hi1 : 0 <= i < ncores d1) by exact Hi.
  apply wp_bind, (wp_get_job p j1); [done|].
  unfold rknpu_get_task_number.
  apply wp_bind, wp_bind, (wp_get_job p j1); [done|].
  apply wp_bind, (wp_get_args _ a); [done|]. apply wp_bind, wp_gets, wp_ret.
  set (n := task_number_of (config d1) (j_use_core_num j1) a i).
  destruct (_ <? _).
  { apply wp_bind. eapply wp_mono; [by apply (wp_subcore_commit p i j1); [|eexists]|].
    intros r d2 Hf. apply wp_ret. split; [by apply (inv_commit d1 d2 p)|].
    by apply (commit_evolves d0 d1 d2 p). }
  apply wp_bind, wp_gets. apply wp_bind, wp_modify. apply wp_bind, (wp_mod_job p j1); [done|].
  set (f s := s <| s_job := None |> <| task_num ::= (fun x => x - n) |>
                <| s_busy_time ::= Z.add (now d1 - j_hw_recoder_time j1) |>).
  set (j2 := j1 <| j_hw_elapse_time := now d1 - j_hw_commit_time j1 |>
                <| j_interrupt_count ::= Z.pred |>).
  assert (Hload : job_load d1 i p = n).
  { unfold job_load. by rewrite Hj1, (Ha : args_mem d1 !! j_args j1 = Some a). }
  destruct (inv_release d1 i p j1 j2 f) as (Hinv2 & Hw2 & Hr2 & Hnw2);
    [first [done | by split | cbn; lia | by rewrite Hload].. |].
  set (d2 := d1 <| subcore_datas ::= alter f i |> <| jobs ::= <[p := j2]> |>) in *.
  assert (Hj2 : jobs d2 !! p = Some j2) by (cbn; apply lookup_insert_eq).
  assert (Hcs : core_set d1 d2 i (f (subcore_datas d1 i))) by apply core_set_alter.
  assert (He2 : evolves d0 d2).
  { apply (evolves_job d0 d1 d2 p j1 j2); try done. intros q _ Hq x Hx Hqx. apply (Hq x Hx).
    destruct (decide (x = i)) as [->|Hne].
    - rewrite (release_queue d1 d2 i p _ Hcs Hs eq_refl eq_refl). by right.
    - by rewrite <- (release_queue_other d1 d2 i _ Hcs x Hne). }
  apply wp_bind, (wp_get_job p j2); [done|].
  apply wp_bind, wp_when.
  - intros Hz%Z.eqb_eq. eapply wp_mono.
    + apply (wp_job_complete d0 d2 p 0 i j2); try done.
      intros x Hx Hpx. pose proof (held_positive d2 x p Hx Hpx). lia.
    + intros ? d3 Hg3. apply wp_job_next; [done|].
      rewrite (good_ncores d0 d3 Hg3), <- (good_ncores d0 d2) by by split. exact Hi.
  - intros _. apply wp_job_next; [by split | exact Hi].
Qed.

(** An interrupt raises at least one of the status bits the driver looks at. *)
Definition genuine_irq (d : rknpu_device) (i : Z) : Prop :=
  rknpu_fuzz_status (u32 (reg_value d (CoreBase i) RKNPU_OFFSET_INT_STATUS)) <> 0.

Lemma good_writel (d0 d : rknpu_device) (v : Z) (b : io_base) (off : Z) :
  good d0 d -> wp lifetime_fault (writel v b off) (fun _ d' => good d0 d') d.
Proof.
  intros Hg. apply (keeps_writel (P := fun d => good d0 d)); [by intros [|]| |done].
  intros d' l Hg'. apply (good_view d0 d'); [by split | done].
Qed.

Lemma wp_readl (d : rknpu_device) (b : io_base) (off : Z) (Q : Z -> rknpu_device -> Prop) :
  Q (u32 (reg_value d b off)) d -> wp lifetime_fault (readl b off) Q d.
Proof.
  intros HQ. unfold readl. apply wp_bind, wp_gets. destruct (io_mapped d b); [by apply wp_gets|].
  by intros [|].
Qed.

(** An update of a running job that leaves its counters alone. *)
Lemma good_job_set (d0 d : rknpu_device) (p : Z) (j j' : rknpu_job) :
  good d0 d -> ~ inactive d0 p -> jobs d !! p = Some j -> job_kept j j' ->
  j_run_count j' = j_run_count j -> j_interrupt_count j' = j_interrupt_count j ->
  j_flags j' = j_flags j -> j_int_mask j' = j_int_mask j ->
  good d0 (d <| jobs ::= <[p := j']> |>).
Proof.
  intros [Hinv He] Hact Hj Hk Hrc Hic Hfl Hm. split.
  - apply (inv_job_set d p j j'); try done. intros i a _ _ [A1 A2 A3 A4 A5].
    split; rewrite ?Hrc, ?Hic, ?Hfl, ?Hm; done.
  - by apply (evolves_job d0 d _ p j j').
Qed.

Lemma wp_irq_handler {iommu : IommuDomain} (d0 d : rknpu_device) (i : Z) :
  good d0 d -> 0 <= i < ncores d -> genuine_irq d i ->
  wp lifetime_fault (rknpu_irq_handler i) (fun _ d' => good d0 d') d.
Proof.
  intros Hg Hi Hirq. unfold rknpu_irq_handler. apply wp_bind, wp_gets.
  destruct (s_job (subcore_datas d i)) as [p|] eqn:Hs.
  2: { apply wp_bind. eapply wp_mono; [by apply good_writel|]. intros ? d1 Hg1.
       apply wp_job_next; [done|]. by rewrite (good_ncores d0 d1 Hg1), <- (good_ncores d0 d Hg). }
  assert (Hpq : p ∈ queue_at d i) by (apply elem_of_queue; by left).
  destruct (good_held d0 d i p Hg Hi Hpq) as [Hact (j & a & Hj & Ha & Hok)].
  apply wp_bind, (wp_mod_job p j); [done|].
  set (j1 := j <| j_irq_entry ::= <[i := true]> |>).
  set (d1 := d <| jobs ::= <[p := j1]> |>).
  assert (Hj1 : jobs d1 !! p = Some j1) by (cbn; apply lookup_insert_eq).
  assert (Hg1 : good d0 d1) by (by apply (good_job_set d0 d p j j1)).
  apply wp_bind, wp_readl. change (reg_value d1) with (reg_value d).
  set (status := u32 (reg_value d (CoreBase i) RKNPU_OFFSET_INT_STATUS)).
  apply wp_bind, (wp_mod_job p j1); [done|].
  set (j2 := j1 <| j_int_status ::= <[i := status]> |>).
  set (d2 := d1 <| jobs ::= <[p := j2]> |>).
  assert (Hj2 : jobs d2 !! p = Some j2) by (cbn; apply lookup_insert_eq).
  assert (Hg2 : good d0 d2) by (by apply (good_job_set d0 d1 p j1 j2)).
  apply wp_bind, (wp_get_job p j2); [done|].
  destruct (Z.eqb_spec (rknpu_fuzz_status status) (j_int_mask j2 i)) as [Hm|Hm]; cbn [negb].
  - assert (Hw : waiting d p = 0).
    { pose proof (count_nonneg (ncores d) (fun i => bool_decide (p ∈ todo_list (subcore_datas d i)))).
      destruct (decide (waiting d p = 0)) as [|Hpos]; [done|].
      destruct (ao_wait _ _ _ _ Hok) as [_ Hmask]; [unfold waiting in *; lia|].
      destruct Hirq. fold status. rewrite Hm. apply Hmask. }
    assert (Hkeep : keeps lifetime_fault (fun d' => good d0 d' /\
      subcore_datas d' = subcore_datas d) (REG_WRITE i RKNPU_INT_CLEAR RKNPU_OFFSET_INT_CLEAR)).
    { apply keeps_writel; [by intros [|]|]. intros d' l [Hg' Hs']. split; [|done].
      apply (good_view d0 d'); [by split | done]. }
    apply wp_bind. eapply wp_mono; [by apply Hkeep|]. intros ? d3 [Hg3 Hs3].
    pose proof (good_ncores d0 d Hg) as Hn. pose proof (good_ncores d0 d3 Hg3) as Hn3.
    apply wp_job_done; [done | by rewrite Hn3, <- Hn | by rewrite Hs3 |].
    unfold waiting. by rewrite Hn3, <- Hn, Hs3.
  - apply wp_bind, wp_readl. apply wp_bind, wp_gets. apply wp_bind, wp_readl. by apply good_writel.
Qed.

(** ** The critical section of rknpu_job_schedule *)

Lemma wp_uses_core (bad : fault -> Prop) (d : rknpu_device) (p i : Z) (j : rknpu_job)
    (a : rknpu_submit) (Q : bool -> rknpu_device -> Prop) :
  jobs d !! p = Some j -> args_mem d !! j_args j = Some a ->
  Q (has_flag (a_core_mask a) (rknpu_core_mask i)) d -> wp bad (uses_core p i) Q d.
Proof.
  intros Hj Ha HQ. unfold uses_core. apply wp_bind, (wp_get_job p j); [done|].
  apply wp_bind, (wp_get_args _ a); [done|]. by apply wp_ret.
Qed.

Lemma wp_schedule_enqueue (bad : fault -> Prop) (d : rknpu_device) (p : Z) (j : rknpu_job)
    (a : rknpu_submit) :
  0 <= ncores d -> jobs d !! p = Some j -> args_mem d !! j_args j = Some a ->
  wp bad (schedule_enqueue p) (fun _ d' => enqueued d d' p j a) d.
Proof.
  intros Hn Hj Ha. unfold schedule_enqueue. apply wp_bind, wp_gets.
  apply (wp_for_cores _ _ (fun i d' =>
    (config d' = config d /\ args_mem d' = args_mem d /\ next_addr d' = next_addr d /\
     cleanup_works d' = cleanup_works d /\ jobs d' = jobs d /\ fences d' = fences d) /\
    forall x, subcore_datas d' x =
      let s := subcore_datas d x in
      if (0 <=? x) && (x <? i) && has_flag (a_core_mask a) (rknpu_core_mask x) then
        s <| todo_list ::= (fun l => l ++ [p]) |>
          <| task_num ::= Z.add (task_number_of (config d) (j_use_core_num j) a x) |>
      else s)); [done | | |].
  - split; [done|]. intros x. assert ((0 <=? x) && (x <? 0) = false) as -> by
      (destruct (Z.leb_spec 0 x), (Z.ltb_spec x 0); done || lia). done.
  - intros i d1 Hi [(Fc & Fa & Fn & Fw & Fj & Ff) Hsub].
    apply wp_bind, (wp_uses_core _ d1 p i j a); [by rewrite Fj | by rewrite Fa |].
    assert (Hnext : forall x, x <> i -> (0 <=? x) && (x <? i + 1) = (0 <=? x) && (x <? i)).
    { intros x Hx. destruct (Z.leb_spec 0 x), (Z.ltb_spec x i), (Z.ltb_spec x (i + 1)); done || lia. }
    assert (Hnow : (0 <=? i) && (i <? i + 1) = true /\ (0 <=? i) && (i <? i) = false).
    { destruct (Z.leb_spec 0 i), (Z.ltb_spec i i), (Z.ltb_spec i (i + 1)); done || lia. }
    apply wp_when; intros Hf.
    + unfold rknpu_get_task_number. apply wp_bind, wp_bind, (wp_get_job p j); [by rewrite Fj|].
      apply wp_bind, (wp_get_args _ a); [by rewrite Fa|]. apply wp_bind, wp_gets, wp_ret, wp_modify.
      split; [done|]. intros x. cbn. destruct (decide (x = i)) as [->|Hx].
      * rewrite fn_lookup_alter, Hsub, Fc, Hf. destruct Hnow as [-> ->]. done.
      * rewrite fn_lookup_alter_ne, Hsub, Hnext by done. done.
    + split; [done|]. intros x. rewrite Hsub. destruct (decide (x = i)) as [->|Hx].
      * rewrite Hf. destruct Hnow as [-> ->]. done.
      * by rewrite Hnext.
  - intros d1 [Hframe Hsub]. split; [done|]. intros i Hi s. rewrite Hsub. unfold ncores in Hi.
    destruct (Z.leb_spec 0 i), (Z.ltb_spec i (num_irqs (config d))); try lia. done.
Qed.

(** ** Freeing a job *)

Lemma view_eq_trans (d1 d2 d3 : rknpu_device) : view_eq d1 d2 -> view_eq d2 d3 -> view_eq d1 d3.
Proof.
  intros [A1 A2 A3 A4 A5 A6 A7] [B1 B2 B3 B4 B5 B6 B7]. split; [congruence..| |congruence]. intros i.
  destruct (A6 i) as (?&?&?), (B6 i) as (?&?&?). unfold sub_same. split; [congruence|]. split; congruence.
Qed.

Lemma keeps_gem_put (bad : fault -> Prop) (d0 : rknpu_device) (addr : Z) :
  ~ bad WildPointer -> keeps bad (view_eq d0) (rknpu_gem_object_put addr).
Proof.
  intros Hb. apply keeps_bind; [by apply keeps_get_object|]. intros o.
  destruct (_ =? 1); apply keeps_modify; intros d [H1 H2 H3 H4 H5 H6 H7]; by split.
Qed.

Lemma wp_job_free (d : rknpu_device) (p : Z) (j : rknpu_job) :
  inv d -> jobs d !! p = Some j ->
  wp lifetime_fault (rknpu_job_free p) (fun _ d' => view_eq (free_job p j d) d') d.
Proof.
  intros Hinv Hj. destruct (iv_job _ Hinv p j Hj) as [P1 [a Ha] P3 P4].
  unfold rknpu_job_free. apply wp_bind, (wp_get_job p j); [done|]. apply wp_bind.
  assert (Hput : wp lifetime_fault (when (j_use_drm_gem j)
    (let! a := get_args (j_args j) in
     when (negb (a_task_obj_addr a =? 0)) (rknpu_gem_object_put (a_task_obj_addr a))))
    (fun _ d' => view_eq d d') d).
  { apply wp_when; [|by split]. intros _. apply wp_bind, (wp_get_args _ a); [done|].
    apply wp_when; [|by split]. intros _. apply keeps_gem_put; [by intros [|] | by split]. }
  eapply wp_mono; [exact Hput|]. intros ? d1 [V1 V2 V3 V4 V5 V6 V7].
  apply wp_bind. apply (wp_mono _ (fun _ => view_eq (d <| fences ::= put_fence (j_fence j) |>))).
  { destruct (j_fence j) as [f|] eqn:Hf; [|apply wp_ret; by split].
    destruct (P3 f eq_refl) as (x & Hx & _). unfold dma_fence_put, get_fence.
    do 2 apply wp_bind. apply wp_gets. rewrite V7, Hx. apply wp_ret.
    destruct (f_refcount x =? 1) eqn:E; apply wp_modify; split; cbn; rewrite ?V7, ?Hx, ?E; done. }
  intros [] d2 [W1 W2 W3 W4 W5 W6 W7]. cbn in W1, W2, W3, W4, W5, W6, W7. apply wp_bind.
  assert (Hj1 : jobs d2 !! p = Some j) by by rewrite W2.
  apply wp_when; intros Ho.
  - unfold kfree_args. apply wp_bind, (wp_get_args _ a); [by rewrite W3|]. apply wp_modify.
    unfold kfree_job. apply wp_bind, (wp_get_job p j); [done|]. apply wp_modify.
    split; cbn; rewrite ?W1, ?W2, ?W3, ?W4, ?W5, ?W7, ?Ho; done.
  - unfold kfree_job. apply wp_bind, (wp_get_job p j); [done|]. apply wp_modify.
    split; cbn; rewrite ?W1, ?W2, ?W3, ?W4, ?W5, ?W7, ?Ho; done.
Qed.
