(* ===== verification/JobAbort.v ===== *)
(** * The abort of a job that no interrupt has entered (rknpu_job.c)

    rknpu_job_abort takes the job out of the slots of its cores, resets them after
    a time-out and frees the job.  When no interrupt has entered the handler of a
    core that runs the job, and the job waits in no queue, this keeps the
    invariant of the queues: the aborts that are part of the system of JobSched.
    The others are in JobFaults. *)

From S2P Require Import Prelude Config Domain Device Reset Job Batch Commit JobInv JobStep.

(** ** The slots *)

(** [d'] is [d] with job [p], now [j'], out of the slots. *)
Record unslotted (d d' : rknpu_device) (p : Z) (j j' : rknpu_job) (a : rknpu_submit) : Prop := {
  un_frame : config d' = config d /\ args_mem d' = args_mem d /\ next_addr d' = next_addr d /\
    cleanup_works d' = cleanup_works d /\ jobs d' = <[p := j']> (jobs d) /\ fences d' = fences d;
  un_sub : forall i, 0 <= i < ncores d ->
    let s := subcore_datas d i in
    subcore_datas d' i =
      if bool_decide (s_job s = Some p) then
        s <| s_job := None |> <| task_num ::= (fun x => x - task_number_of (config d) (j_use_core_num j) a i) |>
      else s;
}.

Section Unslot.
Context (d d' : rknpu_device) (p : Z) (j j' : rknpu_job) (a : rknpu_submit).
Context (Hun : unslotted d d' p j j' a) (Hw : waiting d p = 0).

Lemma unslot_ncores : ncores d' = ncores d.
Proof. unfold ncores. destruct (un_frame _ _ _ _ _ _ Hun) as (-> & _). done. Qed.

Lemma unslot_queue (i : Z) : 0 <= i < ncores d ->
  queue_at d i = (if bool_decide (s_job (subcore_datas d i) = Some p) then [p] else []) ++ queue_at d' i.
Proof.
  intros Hi. unfold queue_at. rewrite (un_sub _ _ _ _ _ _ Hun i Hi). case_bool_decide as E; [|done].
  unfold queue. cbn. by rewrite E.
Qed.

Lemma unslot_inactive : inactive d' p.
Proof.
  intros i Hi Hp. rewrite unslot_ncores in Hi. unfold queue_at in Hp.
  rewrite (un_sub _ _ _ _ _ _ Hun i Hi) in Hp. pose proof (waiting_zero_todo d i p Hi Hw) as Ht.
  case_bool_decide as E; apply elem_of_queue in Hp as [Hp|Hp]; cbn in Hp; done.
Qed.

Lemma unslot_counts (q : Z) : q <> p -> waiting d' q = waiting d q /\ running d' q = running d q.
Proof.
  intros Hne. unfold waiting, running. rewrite unslot_ncores.
  split; apply count_ext; intros i Hi; rewrite (un_sub _ _ _ _ _ _ Hun i Hi); cbn zeta;
    destruct (decide (s_job (subcore_datas d i) = Some p)) as [E|E];
    rewrite ?(bool_decide_eq_true_2 _ E), ?(bool_decide_eq_false_2 _ E); try done.
  cbn. apply bool_decide_ext. rewrite E. split; congruence.
Qed.

Lemma inv_unslot :
  inv d -> jobs d !! p = Some j -> args_mem d !! j_args j = Some a -> job_kept j j' -> p ∉ cleanup_works d ->
  inv d'.
Proof.
  intros Hinv Hj Ha Hk Hnw. destruct (un_frame _ _ _ _ _ _ Hun) as (Fc & Fa & Fn & Fw & Fj & Ff).
  assert (Hg : gang_step d d' p j j').
  { split; try done; [|by apply unslot_counts]. intros x q Hx Hne. rewrite (unslot_queue x Hx).
    case_bool_decide; [|done]. cbn. rewrite elem_of_cons. split; [by right | by intros [?|?]]. }
  apply (inv_gang_step d d' p j j' Hinv Hg).
  - destruct (iv_order _ Hinv) as (s & b & H). exists s, b. intros i Hi. destruct (H i Hi) as [O1 O2].
    rewrite (unslot_queue i Hi) in O1, O2. case_bool_decide; [|done]. cbn in O1, O2.
    inversion O1. by inversion O2.
  - intros i Hi. pose proof (iv_load _ Hinv i Hi) as Hl. rewrite (unslot_queue i Hi), zsum_app in Hl.
    rewrite (un_sub _ _ _ _ _ _ Hun i Hi). case_bool_decide; cbn in Hl |- *; [|done].
    unfold job_load at 1 in Hl. rewrite Hj, Ha in Hl. lia.
  - intros i Hi Hp. destruct (unslot_inactive i); [by rewrite unslot_ncores | done].
Qed.
End Unslot.

(** ** The abort *)

Section Abort.
Context {iommu : IommuDomain} (bad : fault -> Prop) (k : iommu_kernel).
Context (d : rknpu_device) (p : Z) (j : rknpu_job) (a : rknpu_submit).
Context (Hj : jobs d !! p = Some j) (Ha : args_mem d !! j_args j = Some a) (Hn : 0 <= ncores d).

(** No interrupt has entered a core that runs the job. *)
Definition not_entered : Prop := forall i, 0 <= i < ncores d -> s_job (subcore_datas d i) = Some p ->
  j_irq_entry j i = false /\ has_flag (a_core_mask a) (rknpu_core_mask i) = true.
Context (Hentry : not_entered).

(** The critical section. *)
Lemma wp_abort_loop (d1 : rknpu_device) :
  view_eq d d1 -> subcore_datas d1 = subcore_datas d ->
  wp bad (for_cores (ncores d) (fun i =>
    let! used := uses_core p i in
    when used
      (let! s := get_subcore i in
       let! j := get_job p in
       when (bool_decide (s_job s = Some p) && negb (j_irq_entry j i))
         (mod_subcore i (fun s => s <| s_job := None |>) ;;
          let! n := rknpu_get_task_number p i in
          mod_subcore i (fun s => s <| task_num ::= (fun x => x - n) |>)))))
    (fun _ d' => unslotted d d' p j j a) d1.
Proof.
  intros [V1 V2 V3 V4 V5 _ V7] Vs.
  set (cleared i s := s <| s_job := None |>
    <| task_num ::= (fun x => x - task_number_of (config d) (j_use_core_num j) a i) |>).
  apply (wp_for_cores _ _ (fun i d' =>
    (config d' = config d /\ args_mem d' = args_mem d /\ next_addr d' = next_addr d /\
     cleanup_works d' = cleanup_works d /\ jobs d' = jobs d /\ fences d' = fences d) /\
    forall x, subcore_datas d' x =
      if bool_decide (0 <= x < i) && bool_decide (s_job (subcore_datas d x) = Some p)
      then cleared x (subcore_datas d x) else subcore_datas d x)); [done | | |].
  - split; [done|]. intros x. by rewrite bool_decide_eq_false_2, Vs by lia.
  - intros i d2 Hi [(Fc & Fa & Fn & Fw & Fj & Ff) Hsub].
    assert (Hj2 : jobs d2 !! p = Some j) by by rewrite Fj.
    assert (Ha2 : args_mem d2 !! j_args j = Some a) by by rewrite Fa.
    assert (Hnow : subcore_datas d2 i = subcore_datas d i)
      by (by rewrite Hsub, bool_decide_eq_false_2 by lia).
    assert (Hskip : s_job (subcore_datas d i) <> Some p -> forall x, subcore_datas d2 x =
      if bool_decide (0 <= x < i + 1) && bool_decide (s_job (subcore_datas d x) = Some p)
      then cleared x (subcore_datas d x) else subcore_datas d x).
    { intros Hs x. rewrite Hsub. destruct (decide (x = i)) as [->|Hx].
      - by rewrite (bool_decide_eq_false_2 _ Hs), !andb_false_r.
      - by rewrite (bool_decide_ext (0 <= x < i + 1) (0 <= x < i)) by lia. }
    apply wp_bind, (wp_uses_core _ d2 p i j a); [done | done |]. apply wp_when; intros Hf.
    + apply wp_bind, wp_gets, wp_bind, (wp_get_job p j); [done|]. rewrite Hnow.
      destruct (decide (s_job (subcore_datas d i) = Some p)) as [Hs|Hs].
      * rewrite (bool_decide_eq_true_2 _ Hs), (proj1 (Hentry i Hi Hs)). cbn [andb negb when].
        apply wp_bind, wp_modify. unfold rknpu_get_task_number.
        apply wp_bind, wp_bind, (wp_get_job p j); [done|]. apply wp_bind, (wp_get_args _ a); [done|].
        apply wp_bind, wp_gets, wp_ret, wp_modify. split; [done|]. intros x. cbn.
        destruct (decide (x = i)) as [->|Hx].
        -- rewrite !fn_lookup_alter, Hnow, Fc, bool_decide_eq_true_2 by lia. by rewrite (bool_decide_eq_true_2 _ Hs).
        -- rewrite !fn_lookup_alter_ne, Hsub by done. by rewrite (bool_decide_ext (0 <= x < i + 1) (0 <= x < i)) by lia.
      * rewrite (bool_decide_eq_false_2 _ Hs). apply wp_ret. split; [done|]. by apply Hskip.
    + split; [done|]. apply Hskip. intros Hs. destruct (Hentry i Hi Hs). congruence.
  - intros d2 [(Fc & Fa & Fn & Fw & Fj & Ff) Hsub]. split; [by rewrite Fj, insert_id|].
    intros i Hi. cbn zeta. by rewrite Hsub, bool_decide_eq_true_2 by done.
Qed.
End Abort.

(** The registers that are read, and the reset, change nothing of the queues. *)
Lemma keeps_abort_reset {iommu : IommuDomain} (k : iommu_kernel) (d : rknpu_device) (p n off : Z)
    (j : rknpu_job) (a : rknpu_submit) :
  jobs d !! p = Some j -> args_mem d !! j_args j = Some a ->
  keeps lifetime_fault (view_eq d)
    (for_cores n (fun i =>
       let! used := uses_core p i in
       when used
         (let! _ := REG_READ i RKNPU_OFFSET_INT_STATUS in
          let! _ := REG_READ i RKNPU_OFFSET_INT_RAW_STATUS in
          let! _ := REG_READ i off in
          ret tt)) ;;
     let! _ := rknpu_soft_reset k in ret tt).
Proof.
  intros Hj Ha. assert (Hnull : ~ lifetime_fault NullDeref) by (by intros [|]).
  apply keeps_bind; [|intros []; apply keeps_bind; [|intros; apply keeps_ret]].
  - apply keeps_for_cores. intros i. apply keeps_bind.
    + intros d1 Hv. apply (wp_uses_core _ d1 p i j a); [by rewrite (ve_jobs _ _ Hv) | by rewrite (ve_args _ _ Hv) | done].
    + intros used. apply keeps_when. do 3 (apply keeps_bind; [by apply keeps_readl|]; intros). apply keeps_ret.
  - apply keeps_soft_reset; [done|..]; intros d1 x [V1 V2 V3 V4 V5 V6 V7]; by split.
Qed.

(** The abort ends with the job freed and out of the slots, and everything else
    of the queues as it was. *)
Lemma wp_abort {iommu : IommuDomain} (k : iommu_kernel) (d : rknpu_device) (p : Z) (j : rknpu_job)
    (a : rknpu_submit) :
  inv d -> jobs d !! p = Some j -> args_mem d !! j_args j = Some a -> not_entered d p j a ->
  waiting d p = 0 -> p ∉ cleanup_works d ->
  wp lifetime_fault (rknpu_job_abort k id p)
    (fun _ d' => exists d2, unslotted d d2 p j j a /\ inv d2 /\ view_eq (free_job p j d2) d') d.
Proof.
  intros Hinv Hj Ha He Hw Hnw. unfold rknpu_job_abort.
  apply wp_bind, wp_modify. apply wp_bind, wp_modify. apply wp_bind, wp_gets. cbn [id].
  assert (Hn : 0 <= ncores d) by (pose proof (cw_irqs _ (iv_config _ Hinv)); unfold ncores; lia).
  apply wp_bind. eapply wp_mono; [apply (wp_abort_loop lifetime_fault d p j a); [done.. | by split | done]|].
  intros [] d2 Hun. pose proof (inv_unslot d d2 p j j a Hun Hw Hinv Hj Ha (job_kept_refl j) Hnw) as Hinv2.
  destruct (un_frame _ _ _ _ _ _ Hun) as (Fc & Fa & Fn & Fw & Fj & Ff).
  assert (Hj2 : jobs d2 !! p = Some j) by (rewrite Fj; apply lookup_insert_eq).
  assert (Ha2 : args_mem d2 !! j_args j = Some a) by by rewrite Fa.
  apply wp_bind, (wp_get_job p j); [done|].
  apply wp_bind. apply (wp_mono _ (fun _ d3 => view_eq d2 d3)).
  { apply wp_when; [|by split]. intros _. by apply (keeps_abort_reset k d2 p _ _ j a). }
  intros [] d3 Hv. pose proof Hv as [V1 V2 V3 V4 V5 V6 V7].
  unfold rknpu_job_cleanup. apply wp_bind, wp_bind.
  eapply wp_mono; [apply (wp_job_free d3 p j); [by apply (inv_view d2) | by rewrite V2]|].
  intros [] d4 Hf. apply wp_ret, wp_ret. exists d2. split; [done|]. split; [done|].
  apply (view_eq_trans _ (free_job p j d3)); [|done].
  split; cbn; rewrite ?V1, ?V2, ?V3, ?V4, ?V5, ?V7; done.
Qed.

(** The end of a blocking submission whose wait returned the error [r]; the sleep
    of the abort is over at once. *)
Definition give_up_job {iommu : IommuDomain} (k : iommu_kernel) (r job : Z) : M unit :=
  mod_job job (fun j => j <| j_ret := r |>) ;; rknpu_job_abort k id job.

Lemma wp_give_up {iommu : IommuDomain} (k : iommu_kernel) (r : Z) (d : rknpu_device) (p : Z) (j : rknpu_job)
    (a : rknpu_submit) :
  inv d -> jobs d !! p = Some j -> args_mem d !! j_args j = Some a -> waiting d p = 0 -> p ∉ cleanup_works d ->
  (forall i, 0 <= i < ncores d -> s_job (subcore_datas d i) = Some p -> j_irq_entry j i = false) ->
  let j' := j <| j_ret := r |> in
  wp lifetime_fault (give_up_job k r p)
    (fun _ d' => exists d2, unslotted d d2 p j j' a /\ inv d2 /\ view_eq (free_job p j' d2) d') d.
Proof.
  intros Hinv Hj Ha Hw Hnw He j1. apply wp_bind, (wp_mod_job p j); [done|]. fold j1.
  set (d1 := d <| jobs ::= <[p := j1]> |>).
  assert (Hinv1 : inv d1).
  { apply (inv_job_set d p j j1); [done | done | by split |]. intros i b _ _ [A1 A2 A3 A4 A5]. by split. }
  eapply wp_mono.
  { apply (wp_abort k d1 p j1 a); [done | cbn; apply lookup_insert_eq | done | | done | done].
    intros i Hi Hs. split; [by apply He|].
    assert (Hpq : p ∈ queue_at d i) by (apply elem_of_queue; by left).
    destruct (iv_active _ Hinv i p Hi Hpq) as (j0 & b & H1 & H2 & Hok).
    assert (j0 = j) as -> by congruence. assert (b = a) as -> by congruence. by apply (ao_cores _ _ _ _ Hok). }
  intros [] d3 (d2 & [(Fc & Fa & Fn & Fw & Fj & Ff) Hsub] & Hinv2 & Hv). exists d2. split; [|by split].
  split; [|exact Hsub]. split; [exact Fc|]. split; [exact Fa|]. split; [exact Fn|]. split; [exact Fw|].
  split; [|exact Ff]. rewrite Fj. change (jobs d1) with (<[p := j1]> (jobs d)). by rewrite insert_insert_eq.
Qed.
