(* ===== verification/JobSubmit.v ===== *)
(** * The start of a submission (rknpu_job.c)

    From the ioctl's argument structure to the critical section of
    rknpu_job_schedule: the job, its arguments, its reference on the task object
    and its fences.  All of it is new memory, and the queues do not know the job
    yet. *)

From S2P Require Import Prelude Config Domain Device Reset Job Batch Commit JobInv JobStep.

(** ** Code *)

(** A thread inside rknpu_submit: it has allocated its job and not yet entered
    the critical section, it waits for its blocking job, or it has handed its
    non-blocking job over and will return.  [args] is its argument structure. *)
Inductive thread :=
  | TEnqueue (args job : Z)
  | TWait (args job : Z)
  | TReturn (args : Z).
#[export] Instance thread_eq_dec : EqDecision thread.
Proof. solve_decision. Defined.

Definition thread_args (t : thread) : Z :=
  match t with TEnqueue q _ | TWait q _ | TReturn q => q end.
Definition thread_job (t : thread) : option Z :=
  match t with TEnqueue _ p | TWait _ p => Some p | TReturn _ => None end.

(** The start of a submission: the argument structure of the ioctl, then
    rknpu_submit up to rknpu_job_schedule, with the flag of the NONBLOCK branch. *)
Definition submit_begin (a : rknpu_submit) (env : submit_env) (drm : bool) : M thread :=
  let! c := gets config in
  let! args := new_addr in
  modify (fun d => d <| args_mem ::= <[args := a]> |>) ;;
  if a_task_number a =? 0 then ret (TReturn args)
  else if cfg_core_mask c <? a_core_mask a then ret (TReturn args)
  else
    let! o := rknpu_job_alloc (e_job_ok env) (e_args_ok env) args in
    match o with
    | None => ret (TReturn args)
    | Some job =>
        mod_job job (fun j => j <| j_use_drm_gem := drm |>) ;;
        when (drm && negb (a_task_obj_addr a =? 0)) (rknpu_gem_object_get (a_task_obj_addr a)) ;;
        let! r := (if has_flag (a_flags a) RKNPU_JOB_FENCE_IN then submit_fence_in env args
                   else ret (inr tt)) in
        match r with
        | inl _ => ret (TReturn args)
        | inr _ =>
            let! r := (if has_flag (a_flags a) RKNPU_JOB_FENCE_OUT then submit_fence_out env job args
                       else ret (inr tt)) in
            match r with
            | inl _ => ret (TReturn args)
            | inr _ =>
                when (has_flag (a_flags a) RKNPU_JOB_NONBLOCK)
                  (mod_job job (fun j => j <| j_flags ::= (fun f => Z.lor f RKNPU_JOB_ASYNC) |>)) ;;
                ret (TEnqueue args job)
            end
        end
    end.

(** The in-fence, if there is one, is found and its wait succeeds: the other
    returns of that part leak the job. *)
Definition fence_in_ok (a : rknpu_submit) (env : submit_env) : Prop :=
  has_flag (a_flags a) RKNPU_JOB_FENCE_IN = true ->
  exists same r, e_in_fence env = Some (same, r) /\ (same = true \/ 0 <= r).

(** ** New memory *)

(** A job no core holds appears or is replaced. *)
Lemma inv_put_job (d d' : rknpu_device) (p : Z) (j : rknpu_job) :
  inv d -> inactive d p -> p ∉ cleanup_works d ->
  config d' = config d -> (forall i, sub_same (subcore_datas d i) (subcore_datas d' i)) ->
  cleanup_works d' = cleanup_works d -> jobs d' = <[p := j]> (jobs d) ->
  (forall q a, args_mem d !! q = Some a -> args_mem d' !! q = Some a) ->
  next_addr d <= next_addr d' -> (forall q, is_Some (args_mem d' !! q) -> q < next_addr d') ->
  job_ok d' p j ->
  (forall q jq, q <> p -> jobs d !! q = Some jq ->
     (j_args_owner j = true \/ j_args_owner jq = true) -> j_args j <> j_args jq) ->
  (forall f x, fences d !! f = Some x -> fences d' !! f = Some x) ->
  (forall f, is_Some (fences d' !! f) -> f < next_addr d') ->
  (forall q jq f, q <> p -> jobs d !! q = Some jq -> j_fence j = Some f -> j_fence jq <> Some f) ->
  inv d'.
Proof.
  intros Hinv Hin Hnw Fc Fs Fw Fj Fa Fn Hfresh Hok Hown Ff Hffresh Hfown.
  destruct (same_cores d d' Fc Fs) as (Hq & Hnc & Hw & Hr & Htn).
  assert (Hne : forall i q, 0 <= i < ncores d -> q ∈ queue_at d i -> q <> p)
    by (intros i q Hi Hqi ->; by apply (Hin i)).
  split; rewrite ?Fc, ?Hnc, ?Fw; [apply (iv_config _ Hinv) | | | | | | | done | | done].
  - destruct (iv_order _ Hinv) as (s & b & H). exists s, b. intros i Hi. rewrite Hq. by apply H.
  - intros i q Hi Hqi. rewrite Hq in Hqi. specialize (Hne i q Hi Hqi).
    destruct (iv_active _ Hinv i q Hi Hqi) as (jq & a & H1 & H2 & [A1 A2 A3 A4 A5]).
    exists jq, a. rewrite Fj, lookup_insert_ne by done. split; [done|]. split; [by apply Fa|].
    split; rewrite ?Hw, ?Hr, ?Hnc; try done.
    + intros x Hx. rewrite Hq. by apply A4.
    + intros Hpos. destruct (A5 Hpos) as [A6 A7]. split; [|done].
      intros x Hx. rewrite Hq. by apply A6.
  - intros i Hi. rewrite Htn, Hq, (iv_load _ Hinv i Hi). apply zsum_ext. intros q Hqi.
    specialize (Hne i q Hi Hqi). destruct (iv_active _ Hinv i q Hi Hqi) as (jq & a & H1 & H2 & _).
    unfold job_load. by rewrite Fj, lookup_insert_ne, H1, H2, (Fa _ _ H2), Fc by done.
  - intros q Hqw. destruct (iv_works _ Hinv q Hqw) as [Hinq (jq & H1 & H2)].
    split; [intros i Hi; rewrite Hq; apply Hinq; by rewrite <- Hnc|].
    exists jq. rewrite Fj, lookup_insert_ne; [done | by intros ->].
  - intros q jq Hj. rewrite Fj in Hj. destruct (decide (p = q)) as [<-|Hpq].
    + rewrite lookup_insert_eq in Hj. by injection Hj as <-.
    + rewrite lookup_insert_ne in Hj by done. destruct (iv_job _ Hinv q jq Hj) as [K1 [a K2] K3 K4].
      split; [lia | exists a; by apply Fa | | done]. intros f Hf. destruct (K3 f Hf) as (x & Hx & Hr').
      exists x. by split; [apply Ff|].
  - intros q q' x x' Hqq Hx Hx' Ho. rewrite Fj in Hx, Hx'.
    destruct (decide (p = q)) as [<-|Hpq]; [|destruct (decide (p = q')) as [<-|Hpq']].
    + rewrite lookup_insert_eq in Hx. injection Hx as <-.
      rewrite lookup_insert_ne in Hx' by done. apply (Hown q'); auto.
    + rewrite lookup_insert_eq in Hx'. injection Hx' as <-.
      rewrite lookup_insert_ne in Hx by done. intros E. apply (Hown q x); auto.
    + rewrite lookup_insert_ne in Hx, Hx' by done. by apply (iv_own _ Hinv q q').
  - intros q q' x x' f Hqq Hx Hx' Hf. rewrite Fj in Hx, Hx'.
    destruct (decide (p = q)) as [<-|Hpq]; [|destruct (decide (p = q')) as [<-|Hpq']].
    + rewrite lookup_insert_eq in Hx. injection Hx as <-.
      rewrite lookup_insert_ne in Hx' by done. by apply (Hfown q').
    + rewrite lookup_insert_eq in Hx'. injection Hx' as <-.
      rewrite lookup_insert_ne in Hx by done. intros E. by apply (Hfown q x f).
    + rewrite lookup_insert_ne in Hx, Hx' by done. by apply (iv_fence _ Hinv q q' x x').
Qed.

(** [d'] has more memory than [d], all of it new. *)
Record grown (d d' : rknpu_device) : Prop := {
  gr_config : config d' = config d;
  gr_sub : forall i, sub_same (subcore_datas d i) (subcore_datas d' i);
  gr_works : cleanup_works d' = cleanup_works d;
  gr_args : forall x a, args_mem d !! x = Some a -> args_mem d' !! x = Some a;
  gr_next : next_addr d <= next_addr d';
  gr_fresh : forall x, is_Some (args_mem d' !! x) -> x < next_addr d';
  gr_fences : forall f x, fences d !! f = Some x -> fences d' !! f = Some x;
  gr_fence_fresh : forall f, is_Some (fences d' !! f) -> f < next_addr d';
}.

Lemma inactive_fresh (d : rknpu_device) (p : Z) : inv d -> jobs d !! p = None -> inactive d p.
Proof.
  intros Hinv Hp i Hi Hq. destruct (iv_active _ Hinv i p Hi Hq) as (j & _ & Hj & _). by rewrite Hj in Hp.
Qed.

(** ** A job under construction

    [d'] is [d] with job [p], whose arguments are at [r], and the argument
    structure of the ioctl, which is the first new address. *)
Record submitting (d d' : rknpu_device) (a : rknpu_submit) (p r : Z) (j : rknpu_job) : Prop := {
  sb_config : config d' = config d;
  sb_sub : forall i, sub_same (subcore_datas d i) (subcore_datas d' i);
  sb_works : cleanup_works d' = cleanup_works d;
  sb_jobs : jobs d' = <[p := j]> (jobs d);
  sb_args : exists a1 a2, args_mem d' = <[r := a1]> (<[next_addr d := a2]> (args_mem d)) /\
    a_core_mask a1 = a_core_mask a;
  sb_next : next_addr d < p < next_addr d' /\ r < next_addr d';
  sb_owner : if has_flag (a_flags a) RKNPU_JOB_NONBLOCK then next_addr d < r else r = next_addr d;
  sb_fences : forall f x, fences d !! f = Some x -> fences d' !! f = Some x;
  sb_fence_fresh : forall f, is_Some (fences d' !! f) -> f < next_addr d';
  sb_fence : forall f, j_fence j = Some f ->
    next_addr d <= f /\ exists x, fences d' !! f = Some x /\ 1 <= f_refcount x;
  sb_job : j_args j = r /\ j_args_owner j = has_flag (a_flags a) RKNPU_JOB_NONBLOCK /\
    j_work_init j = has_flag (a_flags a) RKNPU_JOB_NONBLOCK /\ j_use_core_num j = core_count (a_core_mask a) /\
    j_run_count j = j_use_core_num j /\ j_interrupt_count j = j_use_core_num j /\ forall i, j_int_mask j i = 0;
  sb_flags : j_flags j = 0 \/
    j_flags j = RKNPU_JOB_ASYNC /\ has_flag (a_flags a) RKNPU_JOB_NONBLOCK = true;
}.

Section Submitting.
Context (d : rknpu_device) (a : rknpu_submit) (p r : Z) (Hinv : inv d).

Lemma fresh_none : next_addr d < p -> jobs d !! p = None.
Proof.
  intros Hp. destruct (jobs d !! p) as [j|] eqn:E; [|done].
  pose proof (jk_addr _ _ _ (iv_job _ Hinv p j E)). lia.
Qed.

Lemma submitting_args_live (d' : rknpu_device) (j : rknpu_job) :
  submitting d d' a p r j ->
  (exists a1, args_mem d' !! r = Some a1 /\ a_core_mask a1 = a_core_mask a) /\
  is_Some (args_mem d' !! next_addr d).
Proof.
  intros H. destruct (sb_args _ _ _ _ _ _ H) as (a1 & a2 & E & Em). rewrite E. split.
  - exists a1. by rewrite lookup_insert_eq.
  - destruct (decide (r = next_addr d)) as [->|Hne]; [rewrite lookup_insert_eq; by eexists|].
    rewrite lookup_insert_ne, lookup_insert_eq by done. by eexists.
Qed.

Lemma submitting_grown (d' : rknpu_device) (j : rknpu_job) : submitting d d' a p r j -> grown d d'.
Proof.
  intros [S1 S2 S3 S4 (a1 & a2 & S5 & _) [S6 S6'] S7 S8 S9 S10 S11 S12].
  assert (Hr : next_addr d <= r) by (destruct (has_flag _ _); lia).
  split; try done; [|lia|]; rewrite S5.
  - intros x b Hx. pose proof (iv_fresh _ Hinv x ltac:(by exists b)). by rewrite !lookup_insert_ne by lia.
  - intros x [b Hx]. rewrite !lookup_insert_Some in Hx. destruct Hx as [[-> _]|[_ [[<- _]|[_ Hx]]]]; [lia..|].
    pose proof (iv_fresh _ Hinv x ltac:(by exists b)). lia.
Qed.

Lemma submitting_inv (d' : rknpu_device) (j : rknpu_job) : submitting d d' a p r j -> inv d'.
Proof.
  intros H. pose proof (submitting_grown d' j H) as [G1 G2 G3 G4 G5 G6 G7 G8].
  destruct (submitting_args_live d' j H) as [(a1 & Ha1 & _) _].
  destruct H as [S1 S2 S3 S4 S5 [S6 S6'] S7 S8 S9 S10 (J1 & J2 & J3 & J4) S12].
  pose proof (fresh_none ltac:(lia)) as Hnone.
  assert (Hr : next_addr d <= r) by (destruct (has_flag _ _); lia).
  apply (inv_put_job d d' p j); try done.
  - by apply inactive_fresh.
  - intros Hw. destruct (iv_works _ Hinv p Hw) as [_ (j0 & H0 & _)]. by rewrite H0 in Hnone.
  - split; [lia | rewrite J1; by eexists | intros f Hf; by apply (S10 f Hf) |].
    rewrite J3. destruct S12 as [-> | [_ ->]]; done.
  - intros q jq _ Hq _. pose proof (iv_fresh _ Hinv _ (jk_args _ _ _ (iv_job _ Hinv q jq Hq))). lia.
  - intros q jq f _ Hq Hf E. destruct (S10 f Hf) as [Hge _].
    destruct (jk_fence _ _ _ (iv_job _ Hinv q jq Hq) f E) as (x & Hx & _).
    pose proof (iv_fence_fresh _ Hinv f ltac:(by exists x)). lia.
Qed.

(** *** Steps *)

Lemma submitting_view (d' d'' : rknpu_device) (j : rknpu_job) :
  view_eq d' d'' -> submitting d d' a p r j -> submitting d d'' a p r j.
Proof.
  intros [V1 V2 V3 V4 V5 V6 V7] [S1 S2 S3 S4 S5 S6 S7 S8 S9 S10 S11 S12].
  split; rewrite ?V1, ?V2, ?V3, ?V4, ?V5, ?V7; try done.
  intros i. destruct (S2 i) as (?&?&?), (V6 i) as (?&?&?). unfold sub_same. split; [congruence|]. split; congruence.
Qed.

(** An update of the job that is not of its counters. *)
Lemma submitting_job (d' : rknpu_device) (j j' : rknpu_job) :
  submitting d d' a p r j ->
  j_args j' = j_args j /\ j_args_owner j' = j_args_owner j /\ j_fence j' = j_fence j /\
    j_use_core_num j' = j_use_core_num j /\ j_work_init j' = j_work_init j ->
  j_run_count j' = j_run_count j ->
  j_interrupt_count j' = j_interrupt_count j -> j_int_mask j' = j_int_mask j ->
  (j_flags j' = j_flags j \/ j_flags j' = RKNPU_JOB_ASYNC /\ has_flag (a_flags a) RKNPU_JOB_NONBLOCK = true) ->
  submitting d (d' <| jobs ::= <[p := j']> |>) a p r j'.
Proof.
  intros [S1 S2 S3 S4 S5 S6 S7 S8 S9 S10 S11 S12] (K1 & K2 & K3 & K4 & K5) Kr Ki Km Kf.
  split; try done; rewrite ?K1, ?K2, ?K3, ?K4, ?K5, ?Kr, ?Ki, ?Km; try done.
  - cbn. by rewrite S4, insert_insert_eq.
  - destruct Kf as [-> | Kf]; [done | by right].
Qed.

(** The number of a fence in one of the two argument structures. *)
Lemma submitting_args (d' : rknpu_device) (j : rknpu_job) (x : Z) (b b' : rknpu_submit) :
  submitting d d' a p r j -> (x = r \/ x = next_addr d) -> args_mem d' !! x = Some b ->
  a_core_mask b' = a_core_mask b -> submitting d (d' <| args_mem ::= <[x := b']> |>) a p r j.
Proof.
  intros [S1 S2 S3 S4 (a1 & a2 & S5 & Sm) S6 S7 S8 S9 S10 S11 S12] Hx Hb Hm. split; try done. cbn. rewrite S5 in Hb |- *.
  destruct (decide (x = r)) as [->|Hne].
  - rewrite lookup_insert_eq in Hb. injection Hb as ->. exists b', a2. rewrite insert_insert_eq. split; [done|]. congruence.
  - destruct Hx as [ | ->]; [done|]. exists a1, b'. split; [|done].
    by rewrite insert_insert_ne, insert_insert_eq by done.
Qed.

(** The out-fence of the job. *)
Lemma submitting_new_fence (d' : rknpu_device) (j : rknpu_job) (x : dma_fence) (n : Z) :
  submitting d d' a p r j -> j_fence j = None -> 1 <= f_refcount x ->
  submitting d (d' <| next_addr := next_addr d' + 1 |> <| fence_seqno := n |>
    <| fences ::= <[next_addr d' := x]> |> <| jobs ::= <[p := j <| j_fence := Some (next_addr d') |>]> |>) a p r
    (j <| j_fence := Some (next_addr d') |>).
Proof.
  intros [S1 S2 S3 S4 S5 [S6 S6'] S7 S8 S9 S10 S11 S12] Hf Hx. split; try done; cbn.
  - by rewrite S4, insert_insert_eq.
  - lia.
  - intros f y Hy. rewrite lookup_insert_ne; [by apply S8|].
    pose proof (iv_fence_fresh _ Hinv f ltac:(by exists y)). lia.
  - intros f [y Hy]. rewrite lookup_insert_Some in Hy. destruct Hy as [[<- _]|[_ Hy]]; [lia|].
    pose proof (S9 f ltac:(by exists y)). lia.
  - intros f [= <-]. split; [lia|]. exists x. by rewrite lookup_insert_eq.
Qed.

(** A reference more on it. *)
Lemma submitting_fence_ref (d' : rknpu_device) (j : rknpu_job) (f : Z) (x x' : dma_fence) :
  submitting d d' a p r j -> j_fence j = Some f -> fences d' !! f = Some x -> f_refcount x <= f_refcount x' ->
  submitting d (d' <| fences ::= <[f := x']> |>) a p r j.
Proof.
  intros [S1 S2 S3 S4 S5 S6 S7 S8 S9 S10 S11 S12] Hf Hx Hr. destruct (S10 f Hf) as (Hge & x0 & H0 & Hr0).
  assert (x0 = x) as -> by congruence. split; try done; cbn.
  - intros g y Hy. rewrite lookup_insert_ne; [by apply S8|].
    pose proof (iv_fence_fresh _ Hinv g ltac:(by exists y)). lia.
  - intros g [y Hy]. rewrite lookup_insert_Some in Hy. destruct Hy as [[<- _]|[_ Hy]]; apply S9; by eexists.
  - intros g Hg. assert (g = f) as -> by congruence. split; [done|]. exists x'. rewrite lookup_insert_eq. split; [done|lia].
Qed.

(** *** The parts of the code *)

Lemma wp_fence_in (env : submit_env) (d' : rknpu_device) (j : rknpu_job) :
  fence_in_ok a env -> submitting d d' a p r j ->
  wp lifetime_fault (if has_flag (a_flags a) RKNPU_JOB_FENCE_IN then submit_fence_in env (next_addr d) else ret (inr tt))
    (fun x d'' => x = inr tt /\ submitting d d'' a p r j) d'.
Proof.
  intros He H. destruct (has_flag (a_flags a) RKNPU_JOB_FENCE_IN) eqn:Hf; [|by apply wp_ret].
  destruct (He Hf) as (same & w & E & Hw). unfold submit_fence_in. rewrite E.
  destruct (submitting_args_live d' j H) as [_ [b Hb]].
  apply wp_bind, (wp_mod_args _ b); [done|]. apply wp_ret.
  assert (((if same then 0 else w) <? 0) = false) as -> by (apply Z.ltb_ge; destruct same, Hw; lia || congruence).
  split; [done|]. apply (submitting_args d' j _ b); auto.
Qed.

(** What a submission that returned leaves. *)
Definition returned (d'' : rknpu_device) : Prop :=
  grown d d'' /\ jobs d'' = jobs d /\ is_Some (args_mem d'' !! next_addr d).

Lemma wp_undo (d' : rknpu_device) (j : rknpu_job) :
  submitting d d' a p r j -> j_fence j = None ->
  wp lifetime_fault (rknpu_job_free p) (fun _ d'' => returned d'') d'.
Proof.
  intros H Hf. pose proof (submitting_inv d' j H) as Hinv'. pose proof (submitting_grown d' j H) as [G1 G2 G3 G4 G5 G6 G7 G8].
  assert (Hj : jobs d' !! p = Some j) by (rewrite (sb_jobs _ _ _ _ _ _ H); apply lookup_insert_eq).
  eapply wp_mono; [by apply (wp_job_free d' p j)|]. intros [] d2 [V1 V2 V3 V4 V5 V6 V7].
  cbn in V1, V2, V3, V4, V5, V6, V7. rewrite Hf in V7. cbn in V7.
  destruct (sb_job _ _ _ _ _ _ H) as (J1 & J2 & _). pose proof (sb_owner _ _ _ _ _ _ H) as Ho.
  assert (Hargs : forall x b, x < next_addr d \/ x = next_addr d -> args_mem d' !! x = Some b -> args_mem d2 !! x = Some b).
  { intros x b Hx Hb. rewrite V3, J2, J1. destruct (has_flag (a_flags a) RKNPU_JOB_NONBLOCK); [|done].
    rewrite lookup_delete_ne; [done | lia]. }
  assert (Hsome : forall x, is_Some (args_mem d2 !! x) -> is_Some (args_mem d' !! x)).
  { intros x [b Hb]. rewrite V3 in Hb. destruct (j_args_owner j); [apply lookup_delete_Some in Hb as [_ Hb]|]; by exists b. }
  split; [|split].
  - split; rewrite ?V1, ?V4, ?V5, ?V7; try done.
    + intros i. destruct (G2 i) as (?&?&?), (V6 i) as (?&?&?). unfold sub_same. split; [congruence|]. split; congruence.
    + intros x b Hb. apply Hargs; [|by apply G4]. left. apply (iv_fresh _ Hinv). by exists b.
    + intros x Hx. by apply G6, Hsome.
  - rewrite V2, (sb_jobs _ _ _ _ _ _ H). apply delete_insert_id.
    apply fresh_none. apply (sb_next _ _ _ _ _ _ H).
  - destruct (submitting_args_live d' j H) as [_ [b Hb]]. exists b. apply Hargs; auto.
Qed.

Lemma wp_get_fd (d' : rknpu_device) (fd : Z) (ok : bool) (j : rknpu_job) :
  submitting d d' a p r j ->
  wp lifetime_fault (rknpu_fence_get_fd fd ok p) (fun _ d'' => submitting d d'' a p r j) d'.
Proof.
  intros H. assert (Hj : jobs d' !! p = Some j) by (rewrite (sb_jobs _ _ _ _ _ _ H); apply lookup_insert_eq).
  unfold rknpu_fence_get_fd. apply wp_bind, (wp_get_job p j); [done|].
  destruct (j_fence j) as [f|] eqn:Hf; [|by apply wp_ret].
  destruct (fd <? 0); [by apply wp_ret|]. destruct (negb ok); [by apply wp_ret|].
  destruct (sb_fence _ _ _ _ _ _ H f Hf) as (_ & x & Hx & Hr). unfold get_fence.
  do 2 apply wp_bind. apply wp_gets. rewrite Hx. apply wp_ret, wp_bind, wp_modify, wp_ret.
  apply (submitting_fence_ref d' j f x); [done..|]. cbn. lia.
Qed.

Lemma wp_fence_out (env : submit_env) (d' : rknpu_device) (j : rknpu_job) :
  submitting d d' a p r j -> j_fence j = None ->
  wp lifetime_fault
    (if has_flag (a_flags a) RKNPU_JOB_FENCE_OUT then submit_fence_out env p (next_addr d) else ret (inr tt))
    (fun x d'' => match x with inl _ => returned d'' | inr _ => exists j', submitting d d'' a p r j' end) d'.
Proof.
  intros H Hf. destruct (has_flag (a_flags a) RKNPU_JOB_FENCE_OUT); [|apply wp_ret; by exists j].
  assert (Hj : jobs d' !! p = Some j) by (rewrite (sb_jobs _ _ _ _ _ _ H); apply lookup_insert_eq).
  unfold submit_fence_out, rknpu_fence_alloc. destruct (e_fence_ok env); cbn [negb].
  2: { apply wp_bind, wp_ret. apply wp_bind. eapply wp_mono; [by apply (wp_undo d' j)|].
       intros [] d2 H2. by apply wp_ret. }
  apply wp_bind. unfold new_addr. do 2 apply wp_bind. apply wp_gets. apply wp_bind, wp_modify, wp_ret.
  apply wp_bind, wp_modify. apply wp_bind, wp_gets. apply wp_bind, wp_modify.
  apply wp_bind, (wp_mod_job p j); [done|]. apply wp_ret. cbn [negb Z.eqb].
  set (j1 := j <| j_fence := Some (next_addr d') |>).
  match goal with |- wp _ _ _ ?x => set (d1 := x) end.
  assert (H1 : submitting d d1 a p r j1).
  { apply (submitting_new_fence d' j {| f_seqno := u32 (fence_seqno d' + 1); f_refcount := 1; f_signaled := false |}
      (u32 (fence_seqno d' + 1))); done. }
  apply wp_bind. eapply wp_mono; [by apply (wp_get_fd d1)|]. intros fd d2 H2.
  assert (Hj2 : jobs d2 !! p = Some j1) by (rewrite (sb_jobs _ _ _ _ _ _ H2); apply lookup_insert_eq).
  apply wp_bind, (wp_get_job p j1); [done|].
  destruct (submitting_args_live d2 j1 H2) as [(b & Hb & _) _].
  assert (Ej : j_args j1 = r) by apply (sb_job _ _ _ _ _ _ H2).
  apply wp_bind, (wp_mod_args _ b); [by rewrite Ej|]. rewrite Ej.
  set (b' := b <| a_fence_fd := fd |>).
  assert (H3 : submitting d (d2 <| args_mem ::= <[r := b']> |>) a p r j1) by (apply (submitting_args d2 j1 r b); auto).
  destruct (submitting_args_live _ j1 H3) as [_ [c Hc]].
  apply wp_bind, (wp_mod_args _ c); [done|]. apply wp_ret. exists j1.
  by apply (submitting_args _ j1 _ c); auto.
Qed.
End Submitting.

(** ** The whole start *)

(** What the thread that comes out of it has. *)
Definition submit_post (d : rknpu_device) (a : rknpu_submit) (t : thread) (d' : rknpu_device) : Prop :=
  (t = TReturn (next_addr d) /\ returned d d') \/
  (exists p r j, t = TEnqueue (next_addr d) p /\ submitting d d' a p r j /\
     a_core_mask a <= cfg_core_mask (config d) /\
     (has_flag (j_flags j) RKNPU_JOB_ASYNC = true <-> j_args_owner j = true)).

(** From the new job on. *)
Lemma wp_submit_rest (d d' : rknpu_device) (a : rknpu_submit) (env : submit_env) (drm : bool) (p r : Z) (j : rknpu_job) :
  inv d -> fence_in_ok a env -> a_core_mask a <= cfg_core_mask (config d) ->
  submitting d d' a p r j -> j_fence j = None -> j_flags j = 0 ->
  wp lifetime_fault
    (mod_job p (fun j => j <| j_use_drm_gem := drm |>) ;;
     when (drm && negb (a_task_obj_addr a =? 0)) (rknpu_gem_object_get (a_task_obj_addr a)) ;;
     let! r := (if has_flag (a_flags a) RKNPU_JOB_FENCE_IN then submit_fence_in env (next_addr d)
                else ret (inr tt)) in
     match r with
     | inl _ => ret (TReturn (next_addr d))
     | inr _ =>
         let! r := (if has_flag (a_flags a) RKNPU_JOB_FENCE_OUT then submit_fence_out env p (next_addr d)
                    else ret (inr tt)) in
         match r with
         | inl _ => ret (TReturn (next_addr d))
         | inr _ =>
             when (has_flag (a_flags a) RKNPU_JOB_NONBLOCK)
               (mod_job p (fun j => j <| j_flags ::= (fun f => Z.lor f RKNPU_JOB_ASYNC) |>)) ;;
             ret (TEnqueue (next_addr d) p)
         end
     end) (submit_post d a) d'.
Proof.
  intros Hinv He Hmask H Hf Hfl.
  assert (Hj : jobs d' !! p = Some j) by (rewrite (sb_jobs _ _ _ _ _ _ H); apply lookup_insert_eq).
  apply wp_bind, (wp_mod_job p j); [done|]. set (j1 := j <| j_use_drm_gem := drm |>).
  assert (H1 : submitting d (d' <| jobs ::= <[p := j1]> |>) a p r j1)
    by (apply (submitting_job d a p r d' j j1); [done | by repeat split | done | done | done | by left]).
  apply wp_bind. apply (wp_mono _ (fun _ d2 => submitting d d2 a p r j1)).
  { apply wp_when; [|by intros]. intros _. unfold rknpu_gem_object_get. apply wp_bind.
    eapply wp_mono; [apply (keeps_get_object (P := fun d2 => submitting d d2 a p r j1)); [by intros [|] | done]|].
    intros o d2 H2. apply wp_modify. apply (submitting_view d a p r d2); [by split | done]. }
  intros [] d2 H2. apply wp_bind. eapply wp_mono; [by apply (wp_fence_in d a p r env d2 j1)|].
  intros x d3 [-> H3]. apply wp_bind. eapply wp_mono; [by apply (wp_fence_out d a p r Hinv env d3 j1)|].
  intros [e|[]] d4 H4; [apply wp_ret; by left|]. destruct H4 as [j4 H4].
  assert (Hj4 : jobs d4 !! p = Some j4) by (rewrite (sb_jobs _ _ _ _ _ _ H4); apply lookup_insert_eq).
  pose proof (sb_job _ _ _ _ _ _ H4) as (_ & Ho & _). pose proof (sb_flags _ _ _ _ _ _ H4) as Hfl4.
  apply wp_bind, wp_when; intros Hnb.
  - apply (wp_mod_job p j4); [done|]. apply wp_ret. right.
    set (j5 := j4 <| j_flags ::= (fun f => Z.lor f RKNPU_JOB_ASYNC) |>). exists p, r, j5. split; [done|].
    assert (Ef : j_flags j5 = RKNPU_JOB_ASYNC) by (cbn; by destruct Hfl4 as [-> | [-> _]]).
    split; [|split; [done|]]; [|rewrite Ef; cbn; by rewrite Ho].
    apply (submitting_job d a p r d4 j4 j5); [done | by repeat split | done | done | done | by right].
  - apply wp_ret. right. exists p, r, j4. split; [done|]. split; [done|]. split; [done|].
    rewrite Ho, Hnb. destruct Hfl4 as [-> | [_ E]]; [done | congruence].
Qed.

Lemma wp_submit_begin (d : rknpu_device) (a : rknpu_submit) (env : submit_env) (drm : bool) :
  inv d -> fence_in_ok a env -> wp lifetime_fault (submit_begin a env drm) (submit_post d a) d.
Proof.
  intros Hinv He. unfold submit_begin, new_addr.
  apply wp_bind, wp_gets. do 2 apply wp_bind. apply wp_gets. apply wp_bind, wp_modify, wp_ret.
  apply wp_bind, wp_modify. set (q := next_addr d). set (d1 := _ <| args_mem ::= <[q := a]> |>).
  assert (Hfail : forall n, q < n -> submit_post d a (TReturn q) (d1 <| next_addr := n |>)).
  { intros n Hn. left. split; [done|]. split; [|split; [done | cbn; rewrite lookup_insert_eq; by eexists]].
    split; cbn; try done; [..|lia| |].
    - intros x b Hx. pose proof (iv_fresh _ Hinv x ltac:(by exists b)). by rewrite lookup_insert_ne by (unfold q; lia).
    - intros x [b Hx]. rewrite lookup_insert_Some in Hx. destruct Hx as [[<- _]|[_ Hx]]; [lia|].
      pose proof (iv_fresh _ Hinv x ltac:(by exists b)). unfold q in Hn. lia.
    - intros f Hf. pose proof (iv_fence_fresh _ Hinv f Hf). unfold q in Hn. lia. }
  destruct (_ =? 0). { apply wp_ret, (Hfail (q + 1)). lia. }
  destruct (Z.ltb_spec (cfg_core_mask (config d)) (a_core_mask a)) as [|Hmask].
  { apply wp_ret, (Hfail (q + 1)). lia. }
  apply wp_bind. unfold rknpu_job_alloc.
  destruct (e_job_ok env); cbn [negb]; [|apply wp_ret, wp_ret, (Hfail (q + 1)); lia].
  apply wp_bind, (wp_get_args _ a); [apply lookup_insert_eq|]. apply wp_bind, wp_gets.
  unfold new_addr. do 2 apply wp_bind. apply wp_gets. apply wp_bind, wp_modify, wp_ret.
  assert (Hold : forall f x, fences d !! f = Some x -> f < q).
  { intros f x Hx. apply (iv_fence_fresh _ Hinv). by exists x. }
  destruct (has_flag (a_flags a) RKNPU_JOB_NONBLOCK) eqn:Hnb; cbn [negb].
  - destruct (e_args_ok env); cbn [negb]; [|apply wp_ret, wp_ret, (Hfail (q + 1 + 1)); lia].
    do 2 apply wp_bind. apply wp_gets. apply wp_bind, wp_modify, wp_ret.
    apply wp_bind, wp_modify. apply wp_bind, wp_modify, wp_ret. rewrite <- Hnb.
    apply (wp_submit_rest d _ a env drm (q + 1) (q + 1 + 1)
      ((new_job (q + 1 + 1) a (now d)) <| j_args_owner := true |> <| j_work_init := true |>)); [done | done | done | | done | done].
    split; rewrite ?Hnb; cbn; fold q; try done; [|lia|lia| |by left].
    + by exists a, a.
    + intros f [x Hx]. specialize (Hold f x Hx). lia.
  - apply wp_bind, wp_modify, wp_ret. rewrite <- Hnb.
    apply (wp_submit_rest d _ a env drm (q + 1) q (new_job q a (now d))); [done | done | done | | done | done].
    split; rewrite ?Hnb; cbn; fold q; try done; [|lia| |by left].
    + exists a, a. by rewrite insert_insert_eq.
    + intros f [x Hx]. specialize (Hold f x Hx). lia.
Qed.
