(* ===== verification/Load.v ===== *)
(** * The load of the cores (rknpu_drv.c and rknpu_debugger.c)

    The timer that samples how long each core was busy, and the node that
    prints the load.  The theorems: the sampling is one more step the invariant
    of the scheduler survives, and what it reports. *)

From stdpp Require Import pretty.
From S2P Require Import Prelude Config Domain Device Reset Job Batch Commit JobInv JobStep.

Definition RKNPU_LOAD_INTERVAL : Z := 1000000000.

(** ** The timer *)

(** The body of the loop of hrtimer_handler: the region under irq_lock. *)
Definition timer_sample (i : Z) : M unit :=
  let! s := get_subcore i in
  match s_job s with
  | Some job =>
      let! t := gets now in
      let! j := get_job job in
      mod_subcore i (fun s => s <| s_busy_time ::= Z.add (t - j_hw_recoder_time j) |>) ;;
      mod_job job (fun j => j <| j_hw_recoder_time := t |>)
  | None => ret tt
  end ;;
  mod_subcore i (fun s => s <| s_total_busy_time := s_busy_time s |> <| s_busy_time := 0 |>).

Definition hrtimer_handler : M unit :=
  let! c := gets config in for_cores (num_irqs c) timer_sample.

(** ** The node *)

Definition core_load (s : rknpu_subcore_data) : Z :=
  let n := u64 (s_total_busy_time s) / (RKNPU_LOAD_INTERVAL / 100) in
  if 100 <? n then 100 else n.

(** [%2.d]. *)
Definition pad2 (s : string) : string := if (String.length s <? 2)%nat then " " +:+ s else s.

Fixpoint load_text (many : bool) (n : nat) (i : Z) (d : rknpu_device) : string :=
  match n with
  | O => ""
  | S n =>
      (if many then " Core" +:+ pretty i +:+ ": " else "") +:+
      pad2 (pretty (core_load (subcore_datas d i))) +:+ (if many then "%," else "%") +:+
      load_text many n (i + 1) d
  end.

Definition rknpu_load_show (d : rknpu_device) : string :=
  "NPU load: " +:+ load_text (1 <? num_irqs (config d)) (Z.to_nat (num_irqs (config d))) 0 d +:+
  String (Ascii.ascii_of_nat 10) "".

(** ** The scheduler's invariant *)

Lemma alter_same (f : rknpu_subcore_data -> rknpu_subcore_data) (g : per_core rknpu_subcore_data) (i x : Z) :
  (forall s, sub_same s (f s)) -> sub_same (g x) (alter f i g x).
Proof.
  intros Hf. destruct (decide (i = x)) as [<-|]; [rewrite fn_lookup_alter; apply Hf|].
  by rewrite fn_lookup_alter_ne.
Qed.

Lemma good_sub (d0 d : rknpu_device) (i : Z) (f : rknpu_subcore_data -> rknpu_subcore_data) :
  good d0 d -> (forall s, sub_same s (f s)) -> good d0 (d <| subcore_datas ::= alter f i |>).
Proof.
  intros Hg Hf. apply (good_view d0 d); [|done]. split; try done. intros x. by apply alter_same.
Qed.

(** A sample accesses no freed job and keeps what every handler keeps. *)
Lemma wp_timer_sample (d0 d : rknpu_device) (i : Z) :
  good d0 d -> 0 <= i < ncores d ->
  wp lifetime_fault (timer_sample i) (fun _ d' => good d0 d') d.
Proof.
  intros Hg Hi. unfold timer_sample. apply wp_bind, wp_gets, wp_bind.
  apply (wp_mono _ (fun _ d' => good d0 d')).
  2:{ intros ? d1 Hg1. apply wp_modify. by apply good_sub. }
  destruct (s_job (subcore_datas d i)) as [p|] eqn:Hs; [|by apply wp_ret].
  assert (Hq : p ∈ queue_at d i) by (apply elem_of_queue; by left).
  destruct (good_held d0 d i p Hg Hi Hq) as [Hact (j & a & Hj & Ha & Hok)].
  apply wp_bind, wp_gets, wp_bind, (wp_get_job p j); [done|].
  apply wp_bind, wp_modify. apply (wp_mod_job p j); [exact Hj|].
  set (d1 := d <| subcore_datas ::= alter _ i |>).
  assert (Hg1 : good d0 d1) by by apply good_sub.
  set (j' := j <| j_hw_recoder_time := now d |>).
  assert (Hk : job_kept j j') by by split.
  destruct Hg1 as [Hinv1 He1]. split.
  - apply (inv_job_set d1 p j j'); [done..|]. intros x a' _ _ []. by split.
  - by apply (evolves_job d0 d1 _ p j j').
Qed.

(** ** What the timer reports *)

(** Whether a core below [i] runs [p]. *)
Definition sampled (d : rknpu_device) (i p : Z) : bool :=
  existsb (fun x => bool_decide (s_job (subcore_datas d x) = Some p)) (seqZ 0 i).

Lemma sampled_succ (d : rknpu_device) (i p : Z) :
  0 <= i -> sampled d (i + 1) p = sampled d i p || bool_decide (s_job (subcore_datas d i) = Some p).
Proof.
  intros Hi. unfold sampled. rewrite seqZ_app by lia. rewrite existsb_app.
  replace (seqZ (0 + i) 1) with [i] by (unfold seqZ; cbn; f_equal; lia). cbn. by rewrite orb_false_r.
Qed.

(** The time core [i] has been busy since its last sample, as far as the timer
    can see: a job keeps one mark for all its cores, which the first core that
    runs it moves. *)
Definition unsampled (d : rknpu_device) (i : Z) : Z :=
  match s_job (subcore_datas d i) with
  | Some p => if sampled d i p then 0 else from_option (fun j => now d - j_hw_recoder_time j) 0 (jobs d !! p)
  | None => 0
  end.

(** How far the loop is, at core [i], from the state [d0] it started in. *)
Record sampling (d0 : rknpu_device) (i : Z) (d : rknpu_device) : Prop := {
  sp_now : now d = now d0;
  sp_ahead : forall x, i <= x -> subcore_datas d x = subcore_datas d0 x;
  sp_behind : forall x, 0 <= x < i ->
    s_busy_time (subcore_datas d x) = 0 /\
    s_total_busy_time (subcore_datas d x) = s_busy_time (subcore_datas d0 x) + unsampled d0 x;
  sp_mark : forall p j0, jobs d0 !! p = Some j0 -> exists j, jobs d !! p = Some j /\
    j_hw_recoder_time j = if sampled d0 i p then now d0 else j_hw_recoder_time j0;
}.

Lemma sampling_step (d0 d : rknpu_device) (i : Z) :
  (forall p, s_job (subcore_datas d0 i) = Some p -> is_Some (jobs d0 !! p)) ->
  0 <= i -> sampling d0 i d -> exists d', timer_sample i d = Ret tt d' /\ sampling d0 (i + 1) d'.
Proof.
  intros Hlive Hi [Hnow Hahead Hbehind Hmark]. pose proof (Hahead i ltac:(lia)) as Hcur.
  unfold timer_sample, bind, get_subcore, gets. rewrite Hcur.
  destruct (s_job (subcore_datas d0 i)) as [p|] eqn:Hs.
  - destruct (Hlive p eq_refl) as [j0 Hj0]. destruct (Hmark p j0 Hj0) as (j & Hj & Hr).
    assert (Hget : forall d1, jobs d1 = jobs d -> get_job p d1 = Ret j d1)
      by (intros d1 E; unfold get_job, bind, gets, lookup_or; by rewrite E, Hj).
    rewrite Hget by done. unfold mod_subcore, modify, mod_job, bind. rewrite Hget by done.
    eexists. split; [reflexivity|]. split.
    + done.
    + intros x Hx. cbn. rewrite !fn_lookup_alter_ne by lia. apply Hahead. lia.
    + intros x Hx. cbn. destruct (decide (i = x)) as [<-|Hne].
      * rewrite !fn_lookup_alter. cbn. rewrite Hcur. split; [done|].
        unfold unsampled. rewrite Hs, Hj0, Hr, Hnow. cbn. destruct (sampled d0 i p); lia.
      * rewrite !fn_lookup_alter_ne by done. apply Hbehind. lia.
    + intros q jq Hq. rewrite sampled_succ, Hs by done. cbn. destruct (decide (p = q)) as [<-|Hne].
      * rewrite lookup_insert_eq. eexists. split; [done|]. cbn.
        rewrite bool_decide_true, orb_true_r by done. by rewrite Hnow.
      * rewrite lookup_insert_ne, bool_decide_false, orb_false_r by congruence. by apply Hmark.
  - unfold mod_subcore, modify, ret. eexists. split; [reflexivity|]. split.
    + done.
    + intros x Hx. cbn. rewrite fn_lookup_alter_ne by lia. apply Hahead. lia.
    + intros x Hx. cbn. destruct (decide (i = x)) as [<-|Hne].
      * rewrite fn_lookup_alter. cbn. rewrite Hcur. split; [done|].
        unfold unsampled. rewrite Hs. lia.
      * rewrite fn_lookup_alter_ne by done. apply Hbehind. lia.
    + intros q jq Hq. rewrite sampled_succ, Hs, orb_false_r by done. by apply Hmark.
Qed.

(** C33: When the jobs the cores run are allocated, hrtimer_handler returns, and
    for every core reports its finished busy time plus what its job ran since the
    last sample, and starts again from zero; but of a job on several cores it
    sees the running time on the first of them only.  The load shown is that
    time as a percentage of the interval, between 0 and 100. *)
Theorem timer_reports_running_share (d : rknpu_device) :
  0 <= num_irqs (config d) ->
  (forall i p, 0 <= i < num_irqs (config d) -> s_job (subcore_datas d i) = Some p -> is_Some (jobs d !! p)) ->
  exists d', hrtimer_handler d = Ret tt d' /\
    forall i, 0 <= i < num_irqs (config d) ->
      let share := s_busy_time (subcore_datas d i) + unsampled d i in
      s_busy_time (subcore_datas d' i) = 0 /\ s_total_busy_time (subcore_datas d' i) = share /\
      0 <= core_load (subcore_datas d' i) <= 100 /\
      (0 <= share <= RKNPU_LOAD_INTERVAL ->
         core_load (subcore_datas d' i) = 100 * share / RKNPU_LOAD_INTERVAL).
Proof.
  intros Hn Hlive. unfold hrtimer_handler, bind, gets.
  destruct (for_cores_total (num_irqs (config d)) timer_sample (sampling d) d) as (d' & E & [_ _ Hb _]).
  - done.
  - split; [done | done | intros; lia |]. intros p j Hj. by exists j.
  - intros i d1 Hi. apply sampling_step; [|lia]. intros p. by apply Hlive.
  - exists d'. split; [done|]. intros i Hi. set (share := s_busy_time (subcore_datas d i) + unsampled d i). destruct (Hb i Hi) as [Hb1 Hb2].
    split; [done|]. split; [done|]. unfold core_load. rewrite Hb2. fold share.
    change (RKNPU_LOAD_INTERVAL / 100) with 10000000. pose proof (u64_range share).
    split; [case_bool; Z.to_euclidean_division_equations; lia|]. unfold RKNPU_LOAD_INTERVAL. intros Hs.
    rewrite u64_small by lia. case_bool; Z.to_euclidean_division_equations; lia.
Qed.

(** A job on cores 0 and 1 of an RK3588, 0.5 s after it was committed. *)
Definition example_two_cores : rknpu_device :=
  (example_job_dev rk3588_rknpu_config RKNPU_JOB_PC 3 3)
    <| jobs := {[ 10 := (new_job 20 (example_args RKNPU_JOB_PC 3 3) 500) <| j_hw_recoder_time := 1000 |> ]} |>
    <| subcore_datas := fun i => {| todo_list := []; s_job := if i <? 2 then Some 10 else None;
         task_num := 3; s_busy_time := 0; s_total_busy_time := 0 |} |>
    <| now := 500001000 |>.

Lemma timer_reports_running_share_witness :
  exists d', hrtimer_handler example_two_cores = Ret tt d' /\
    core_load (subcore_datas d' 0) = 50 /\ core_load (subcore_datas d' 1) = 0.
Proof.
  destruct (timer_reports_running_share example_two_cores) as (d' & E & H).
  - vm_compute. discriminate.
  - intros i p Hi Hp. exists ((new_job 20 (example_args RKNPU_JOB_PC 3 3) 500) <| j_hw_recoder_time := 1000 |>).
    cbn in Hp. destruct (i <? 2); [by injection Hp as <- | done].
  - exists d'. split; [done|].
    destruct (H 0) as (_ & _ & _ & H0); [vm_compute; split; congruence|].
    destruct (H 1) as (_ & _ & _ & H1); [vm_compute; split; congruence|].
    rewrite H0, H1; [by vm_compute | vm_compute; split; congruence | vm_compute; split; congruence].
Defined.
