(* ===== verification/JobSched.v ===== *)
(** * The job scheduler as a concurrent system

    Submitting threads, interrupts, the workqueue and [rknpu_job_next] calls
    interleave on one device; one step is the code between two points where
    another context can run.  The properties: no handler ever touches a freed
    job, the counters of a gang of cores agree with the queues, and the queues
    cannot deadlock. *)

From S2P Require Import Prelude Config Domain Device Reset Job Batch Commit JobInv JobStep JobAbort JobSubmit Load.

(** ** More updates of the invariant *)

(** Argument structures that no held job uses may appear, change or go. *)
Lemma inv_set_args (d d' : rknpu_device) :
  inv d ->
  config d' = config d -> (forall i, sub_same (subcore_datas d i) (subcore_datas d' i)) ->
  cleanup_works d' = cleanup_works d -> jobs d' = jobs d -> next_addr d <= next_addr d' ->
  (forall i p j, 0 <= i < ncores d -> p ∈ queue_at d i -> jobs d !! p = Some j ->
     args_mem d' !! j_args j = args_mem d !! j_args j) ->
  (forall p j, jobs d !! p = Some j -> is_Some (args_mem d' !! j_args j)) ->
  (forall q, is_Some (args_mem d' !! q) -> q < next_addr d') ->
  (forall f x, fences d !! f = Some x -> fences d' !! f = Some x) ->
  (forall f, is_Some (fences d' !! f) -> f < next_addr d') ->
  inv d'.
Proof.
  intros Hinv Fc Fs Fw Fj Fn Hsame Hlive Hfresh Ff Hffresh.
  destruct (same_cores d d' Fc Fs) as (Hq & Hnc & Hw & Hr & Htn).
  split; rewrite ?Fc, ?Hnc, ?Fw, ?Fj; [apply (iv_config _ Hinv) | | | | | | apply (iv_own _ Hinv) | done
    | apply (iv_fence _ Hinv) | done].
  - destruct (iv_order _ Hinv) as (s & b & H). exists s, b. intros i Hi. rewrite Hq. by apply H.
  - intros i q Hi Hqi. rewrite Hq in Hqi.
    destruct (iv_active _ Hinv i q Hi Hqi) as (jq & a & H1 & H2 & [A1 A2 A3 A4 A5]).
    exists jq, a. split; [done|]. rewrite (Hsame i q jq) by done. split; [done|].
    split; rewrite ?Hw, ?Hr, ?Hnc; try done.
    + intros x Hx. rewrite Hq. by apply A4.
    + intros Hpos. destruct (A5 Hpos) as [A6 A7]. split; [|done].
      intros x Hx. rewrite Hq. by apply A6.
  - intros i Hi. rewrite Htn, Hq, (iv_load _ Hinv i Hi). apply zsum_ext. intros q Hqi.
    destruct (iv_active _ Hinv i q Hi Hqi) as (jq & a & H1 & H2 & _).
    unfold job_load. by rewrite Fj, H1, (Hsame i q jq), Fc by done.
  - intros q Hqw. destruct (iv_works _ Hinv q Hqw) as [Hinq ?]. split; [|done].
    intros i Hi. rewrite Hq. apply Hinq. by rewrite <- Hnc.
  - intros q jq Hj. destruct (iv_job _ Hinv q jq Hj) as [K1 K2 K3 K4].
    split; [lia | by apply (Hlive q) | | done]. intros f Hf. destruct (K3 f Hf) as (x & Hx & Hr').
    exists x. by split; [apply Ff|].
Qed.

(** ** Masks *)

(** The population count of a core mask, over the cores that exist. *)
Lemma mask_count (n mask : Z) :
  1 <= n <= 3 -> 0 <= mask <= 2 ^ n - 1 ->
  count_cores n (fun i => has_flag mask (rknpu_core_mask i)) = core_count mask.
Proof.
  intros Hn Hm. assert (n = 1 \/ n = 2 \/ n = 3) as [-> | [-> | ->]] by lia.
  all: assert (mask = 0 \/ mask = 1 \/ mask = 2 \/ mask = 3 \/ mask = 4 \/ mask = 5 \/ mask = 6 \/
    mask = 7) as Hc by lia.
  all: repeat (destruct Hc as [->|Hc]); [..|subst mask]; try lia; vm_compute; reflexivity.
Qed.

Lemma core_mask_range (c : rknpu_config) (i : Z) :
  config_wf c -> 0 <= i < num_irqs c ->
  0 <= rknpu_core_mask i <= cfg_core_mask c /\ core_count (rknpu_core_mask i) = 1.
Proof.
  intros Hc Hi. pose proof (cw_irqs _ Hc) as Hn. rewrite (cw_mask _ Hc).
  unfold RKNPU_MAX_CORES in Hn.
  assert (num_irqs c = 1 \/ num_irqs c = 2 \/ num_irqs c = 3) as Hnc by lia.
  assert (i = 0 \/ i = 1 \/ i = 2) as Hic by lia.
  destruct Hnc as [E|[E|E]]; rewrite E in *; destruct Hic as [->|[->| ->]]; try lia;
    vm_compute; split; congruence || (split; congruence).
Qed.

(** ** The system *)

Section System.
Context {iommu : IommuDomain}.

(** [rknpu_job_schedule] up to the end of its critical section; false when it
    returned because the IOMMU domain could not be switched. *)
Definition schedule_begin (job : Z) : M bool :=
  schedule_resolve_core job ;;
  let! j := get_job job in
  let! r := domain_get_and_switch (j_iommu_domain_id j) in
  if negb (r =? 0) then mod_job job (fun j => j <| j_ret := -EINVAL |>) ;; ret false
  else schedule_enqueue job ;; ret true.

(** [rknpu_job_schedule] is this start followed by the kicks. *)
Lemma job_schedule_split (job : Z) (d : rknpu_device) :
  rknpu_job_schedule job d =
    (let! b := schedule_begin job in if b : bool then schedule_kick job else ret tt) d.
Proof.
  unfold rknpu_job_schedule, schedule_begin, bind.
  destruct (schedule_resolve_core job d) as [[] d1| |]; [|done|done].
  destruct (get_job job d1) as [j d2| |]; [|done|done].
  destruct (domain_get_and_switch (j_iommu_domain_id j) d2) as [r d3| |]; [|done|done].
  destruct (negb (r =? 0)).
  - by destruct (mod_job job (fun j => j <| j_ret := -EINVAL |>) d3) as [[] d4| |].
  - by destruct (schedule_enqueue job d3) as [[] d4| |].
Qed.

Record system := { dev : rknpu_device; threads : list thread }.

Inductive op :=
  | OpSubmit (a : rknpu_submit) (env : submit_env) (drm : bool)
  | OpEnqueue (args job : Z)
  | OpNext (core : Z)
  | OpIrq (core : Z)
  | OpTimer (core : Z)
  | OpWork (job : Z)
  | OpReap (args job : Z)
  | OpAbort (k : iommu_kernel) (r args job : Z)
  | OpReturn (args : Z)
  | OpFencePut (f : Z)
  | OpEnv (d : rknpu_device).

Definition enabled (s : system) (o : op) : Prop :=
  match o with
  | OpSubmit a env _ => fence_in_ok a env /\ 0 <= a_core_mask a
  | OpEnqueue args job => TEnqueue args job ∈ threads s
  | OpNext core => 0 <= core < ncores (dev s)
  | OpIrq core => 0 <= core < ncores (dev s) /\ genuine_irq (dev s) core
  | OpTimer core => 0 <= core < ncores (dev s)
  | OpWork job => job ∈ cleanup_works (dev s)
  | OpReap args job => TWait args job ∈ threads s /\
      exists j, jobs (dev s) !! job = Some j /\ has_flag (j_flags j) RKNPU_JOB_DONE = true
  | OpAbort _ r args job => TWait args job ∈ threads s /\ r <> 0 /\ waiting (dev s) job = 0 /\
      exists j, jobs (dev s) !! job = Some j /\
        forall i, 0 <= i < ncores (dev s) -> s_job (subcore_datas (dev s) i) = Some job -> j_irq_entry j i = false
  | OpReturn args => TReturn args ∈ threads s
  | OpFencePut f => exists x, fences (dev s) !! f = Some x /\
      ((forall p j, jobs (dev s) !! p = Some j -> j_fence j <> Some f) \/ 2 <= f_refcount x)
  | OpEnv d => view_eq (dev s) d
  end.

(** The caller's argument structure goes when its ioctl returns. *)
Definition drop_args (args : Z) : M unit := modify (fun d => d <| args_mem ::= delete args |>).
Definition drop_thread (t : thread) (l : list thread) : list thread := filter (fun x => x <> t) l.

(** [OpFencePut]: whoever else has a reference on a fence, as a sync file has, gives
    it back.
    [OpEnv]: registers, time, buffers, domains or the reset flag change.
    [OpAbort]: the wait of a blocking job gave up with the error [r], the job
    waits in no queue and no interrupt has entered a core that runs it; whatever
    happens during the sleep of the abort happens before. *)

(** What an operation runs, and what becomes of the threads. *)
Definition op_code (o : op) : M (list thread -> list thread) :=
  match o with
  | OpSubmit a env drm => let! t := submit_begin a env drm in ret (cons t)
  | OpEnqueue args job =>
      let! j := get_job job in
      let! b := schedule_begin job in
      if negb b then block
      else ret (fun l =>
        (if has_flag (j_flags j) RKNPU_JOB_ASYNC then TReturn args else TWait args job)
          :: drop_thread (TEnqueue args job) l)
  | OpNext core => rknpu_job_next core ;; ret id
  | OpIrq core => rknpu_irq_handler core ;; ret id
  | OpTimer core => timer_sample core ;; ret id
  | OpWork job => rknpu_job_cleanup_work job ;; ret id
  | OpReap args job =>
      let! _ := rknpu_job_cleanup job in
      drop_args args ;; ret (drop_thread (TWait args job))
  | OpAbort k r args job =>
      give_up_job k r job ;;
      drop_args args ;; ret (drop_thread (TWait args job))
  | OpReturn args => drop_args args ;; ret (drop_thread (TReturn args))
  | OpFencePut f => dma_fence_put f ;; ret id
  | OpEnv d => modify (fun _ => d) ;; ret id
  end.

Inductive step (s s' : system) : Prop :=
  | step_op (o : op) (f : list thread -> list thread) :
      enabled s o -> op_code o (dev s) = Ret f (dev s') -> threads s' = f (threads s) -> step s s'.

Inductive reachable : system -> Prop :=
  | reach_init (c : rknpu_config) (d : rknpu_device) :
      config_wf c -> config d = c -> jobs d = ∅ -> args_mem d = ∅ -> fences d = ∅ -> cleanup_works d = [] ->
      (forall i, todo_list (subcore_datas d i) = [] /\ s_job (subcore_datas d i) = None /\
         task_num (subcore_datas d i) = 0) ->
      reachable {| dev := d; threads := [] |}
  | reach_step (s s' : system) : reachable s -> step s s' -> reachable s'.

(** ** The invariant of the system *)

(** A job as [rknpu_job_alloc] left it. *)
Record pristine (d : rknpu_device) (q p : Z) : Prop := {
  pr_inactive : inactive d p;
  pr_job : exists j a, jobs d !! p = Some j /\ args_mem d !! j_args j = Some a /\
    has_flag (j_flags j) RKNPU_JOB_DONE = false /\
    0 <= a_core_mask a <= cfg_core_mask (config d) /\
    j_use_core_num j = core_count (a_core_mask a) /\
    j_run_count j = j_use_core_num j /\ j_interrupt_count j = j_use_core_num j /\
    (forall i, j_int_mask j i = 0) /\
    (has_flag (j_flags j) RKNPU_JOB_ASYNC = true <-> j_args_owner j = true) /\
    (j_args_owner j = true -> j_args j <> q) /\ (j_args_owner j = false -> j_args j = q);
}.

Definition thread_state (d : rknpu_device) (t : thread) : Prop :=
  match t with
  | TEnqueue q p => pristine d q p
  | TWait q p => exists j, jobs d !! p = Some j /\ has_flag (j_flags j) RKNPU_JOB_ASYNC = false /\
      j_args j = q /\ j_args_owner j = false
  | TReturn q => True
  end.

Record thread_ok (d : rknpu_device) (t : thread) : Prop := {
  th_state : thread_state d t;
  th_args : is_Some (args_mem d !! thread_args t);
  th_only : forall p j, jobs d !! p = Some j -> j_args j = thread_args t -> thread_job t = Some p;
}.

Record threads_ok (d : rknpu_device) (l : list thread) : Prop := {
  to_each : forall t, t ∈ l -> thread_ok d t;
  to_args : forall t t', t ∈ l -> t' ∈ l -> thread_args t = thread_args t' -> t = t';
  to_jobs : forall t t' p, t ∈ l -> t' ∈ l -> thread_job t = Some p -> thread_job t' = Some p -> t = t';
}.

Definition sys_ok (d : rknpu_device) (l : list thread) : Prop := inv d /\ threads_ok d l.

Lemma threads_evolve (d d' : rknpu_device) (l : list thread) :
  evolves d d' -> threads_ok d l -> threads_ok d' l.
Proof.
  intros [E1 E2 E3 E4 E5 E6] [T1 T2 T3]. split; [|done|done].
  intros t Ht. destruct (T1 t Ht) as [S1 S2 S3]. split.
  - destruct t as [q p|q p|q]; [| |done]; cbn in S1 |- *.
    + destruct S1 as [S1 S4]. destruct (E6 p S1) as [E7 E8].
      split; [done|]. by rewrite E7, E2, E1.
    + destruct S1 as (j & H1 & H2 & H3 & H4). destruct (E4 p j H1) as (j' & H1' & [K1 K2 K3 K4 K5 K6 K7]).
      exists j'. split; [done|]. split; [by rewrite K6|]. split; congruence.
  - by rewrite E2.
  - intros p j' Hp Hq. destruct (E5 p j' Hp) as [j Hj]. destruct (E4 p j Hj) as (j'' & H1 & K).
    apply (S3 p j Hj). rewrite <- Hq. assert (j'' = j') as -> by congruence.
    symmetry. apply (jp_args _ _ K).
Qed.

Lemma good_sys (d d' : rknpu_device) (l : list thread) :
  threads_ok d l -> good d d' -> sys_ok d' l.
Proof. intros Ht [Hi He]. split; [done|]. by apply (threads_evolve d). Qed.

(** ** Each operation *)

Lemma elem_of_drop (t x : thread) (l : list thread) : x ∈ drop_thread t l <-> x <> t /\ x ∈ l.
Proof. unfold drop_thread. by rewrite list_elem_of_filter. Qed.

Lemma sound_handler (d : rknpu_device) (l : list thread) (m : M unit) :
  sys_ok d l -> wp lifetime_fault m (fun _ d' => good d d') d ->
  wp lifetime_fault (m ;; ret id) (fun f d' => sys_ok d' (f l)) d.
Proof.
  intros [Hi Ht] Hm. apply wp_bind. eapply wp_mono; [exact Hm|].
  intros ? d' Hg. apply wp_ret. by apply (good_sys d).
Qed.

Lemma good_refl (d : rknpu_device) : inv d -> good d d.
Proof. intros H. split; [done | apply evolves_refl]. Qed.

(** Freeing the finished job [p]: the threads are unaffected unless one of
    them holds [p]. *)
Lemma threads_free (d d' : rknpu_device) (p : Z) (j : rknpu_job) (l : list thread) :
  inv d -> view_eq (free_job p j d) d' -> jobs d !! p = Some j ->
  threads_ok d l -> (forall t, t ∈ l -> thread_job t <> Some p) -> threads_ok d' l.
Proof.
  intros Hinv [V1 V2 V3 V4 V5 V6 V7] Hj [T1 T2 T3] Hno. split; [|done|done].
  assert (Hargs : forall q, q <> j_args j -> args_mem d' !! q = args_mem d !! q).
  { intros q Hq. rewrite V3. cbn. destruct (j_args_owner j); [by rewrite lookup_delete_ne | done]. }
  assert (Hq : forall i, queue_at d' i = queue_at d i) by (intros i; by apply (sub_same_queue _ _ (V6 i))).
  intros t Ht. destruct (T1 t Ht) as [S1 S2 S3].
  assert (Hta : thread_args t <> j_args j).
  { intros E. apply (Hno t Ht). apply (S3 p j Hj). done. }
  assert (Hjobs : forall q, thread_job t = Some q -> jobs d' !! q = jobs d !! q).
  { intros q Hq'. rewrite V2. cbn. apply lookup_delete_ne. intros ->. by apply (Hno t Ht). }
  split.
  - destruct t as [q r|q r|q]; [| |done]; cbn in S1 |- *.
    + destruct S1 as [S1 (jr & a & H1 & H2 & H3)]. split.
      * intros i Hi. rewrite Hq. apply S1. unfold ncores in *. by rewrite V1 in Hi.
      * exists jr, a. rewrite (Hjobs r eq_refl), V1. split; [done|]. split; [|done].
        rewrite V3. cbn. destruct (j_args_owner j) eqn:Ho; [|done].
        rewrite lookup_delete_ne; [done|]. apply (iv_own _ Hinv p r); [|done|done|done].
        intros ->. by apply (Hno (TEnqueue q r)).
    + destruct S1 as (jr & H1 & H2). exists jr. by rewrite (Hjobs r eq_refl).
  - by rewrite Hargs.
  - intros q jq Hq' Ha. rewrite V2 in Hq'. cbn in Hq'. apply lookup_delete_Some in Hq' as [_ Hq'].
    by apply (S3 q jq).
Qed.

Lemma sound_work (d : rknpu_device) (l : list thread) (p : Z) :
  sys_ok d l -> p ∈ cleanup_works d ->
  wp lifetime_fault (op_code (OpWork p)) (fun f d' => sys_ok d' (f l)) d.
Proof.
  intros [Hinv Ht] Hw. destruct (iv_works _ Hinv p Hw) as [Hin (j & Hj & Has & Hd)].
  cbn. unfold rknpu_job_cleanup_work. apply wp_bind, wp_bind, wp_modify.
  set (d1 := d <| cleanup_works ::= filter (fun q => q <> p) |>).
  assert (Hinv1 : inv d1).
  { destruct Hinv as [H1 H2 H3 H4 H5 H6 H7 H8 H9 H10]. split; try done.
    - intros i q Hi Hq. destruct (H3 i q Hi Hq) as (jq & a & ? & ? & [A1 A2 A3 A4 A5]).
      exists jq, a. split; [done|]. split; [done|]. by split.
    - intros q Hq. apply H5. cbn in Hq. by apply list_elem_of_filter in Hq as [_ Hq].
    - intros q jq Hq. by destruct (H6 q jq Hq). }
  assert (Hnw : p ∉ cleanup_works d1).
  { cbn. intros Hp. by apply list_elem_of_filter in Hp as [? _]. }
  assert (Ht1 : threads_ok d1 l).
  { destruct Ht as [T1 T2 T3]. split; [|done|done]. intros t Htt.
    destruct (T1 t Htt) as [S1 S2 S3]. split; [|done|done]. destruct t; try done.
    destruct S1 as [S1 S4]. by split. }
  unfold rknpu_job_cleanup. apply wp_bind, wp_bind.
  eapply wp_mono; [by apply (wp_job_free d1 p j)|].
  intros ? d2 Hv. apply wp_ret, wp_ret, wp_ret. split.
  - apply (inv_view _ d2 Hv). by apply inv_free.
  - apply (threads_free d1 d2 p j l); try done. intros t Htt Hp.
    destruct (to_each _ _ Ht t Htt) as [S1 S2 S3]. destruct t as [q r|q r|q]; [| |done].
    + injection Hp as ->. destruct S1 as [_ (jr & ar & H1 & _ & H2 & _)].
      assert (jr = j) as -> by congruence. by rewrite Hd in H2.
    + injection Hp as ->. destruct S1 as (jr & H1 & H2 & _).
      assert (jr = j) as -> by congruence. by rewrite Has in H2.
Qed.

(** The argument structure of a thread that returns. *)
Lemma sound_drop (d : rknpu_device) (l : list thread) (t : thread) :
  inv d -> threads_ok d (drop_thread t l) -> is_Some (args_mem d !! thread_args t) ->
  (forall p j, jobs d !! p = Some j -> j_args j <> thread_args t) ->
  (forall x, x ∈ drop_thread t l -> thread_args x <> thread_args t) ->
  wp lifetime_fault (drop_args (thread_args t) ;; ret (drop_thread t)) (fun f d' => sys_ok d' (f l)) d.
Proof.
  intros Hinv [T1 T2 T3] Hs Hno Hne. apply wp_bind, wp_modify, wp_ret. split.
  - apply (inv_set_args d); try done; cbn.
    + intros i p j _ _ Hj. apply lookup_delete_ne. intros E. by apply (Hno p j).
    + intros p j Hj. rewrite lookup_delete_ne; [by apply (iv_job _ Hinv p j)|].
      intros E. by apply (Hno p j).
    + intros q [b Hq]. apply lookup_delete_Some in Hq as [_ Hq]. apply (iv_fresh _ Hinv). by exists b.
    + apply (iv_fence_fresh _ Hinv).
  - split; [|done|done]. intros x Hx. destruct (T1 x Hx) as [S1 S2 S3]. split; [|cbn|done].
    + destruct x as [q p|q p|q]; [|done|done]. destruct S1 as [S1 (j & a & H1 & H2 & H3)].
      split; [done|]. exists j, a. split; [done|]. cbn. split; [|done].
      rewrite lookup_delete_ne; [done|]. intros E. by apply (Hno p j).
    + rewrite lookup_delete_ne; [done|]. intros E. by apply (Hne x).
Qed.

Lemma threads_drop (d : rknpu_device) (l : list thread) (t : thread) :
  threads_ok d l -> threads_ok d (drop_thread t l).
Proof.
  intros [T1 T2 T3]. split.
  - intros x [_ Hx]%elem_of_drop. by apply T1.
  - intros x y [_ Hx]%elem_of_drop [_ Hy]%elem_of_drop. by apply T2.
  - intros x y p [_ Hx]%elem_of_drop [_ Hy]%elem_of_drop. by apply T3.
Qed.

Lemma sound_return (d : rknpu_device) (l : list thread) (q : Z) :
  sys_ok d l -> TReturn q ∈ l ->
  wp lifetime_fault (op_code (OpReturn q)) (fun f d' => sys_ok d' (f l)) d.
Proof.
  intros [Hinv Ht] Hin. destruct (to_each _ _ Ht _ Hin) as [S1 S2 S3].
  apply (sound_drop d l (TReturn q)); [done | by apply threads_drop | done | |].
  - intros p j Hj E. by specialize (S3 p j Hj E).
  - intros x [Hx Hxl]%elem_of_drop E. apply Hx. by apply (to_args _ _ Ht).
Qed.

(** The job of a waiting thread is not with the workqueue. *)
Lemma wait_not_work (d : rknpu_device) (l : list thread) (q p : Z) :
  sys_ok d l -> TWait q p ∈ l -> p ∉ cleanup_works d.
Proof.
  intros [Hinv Ht] Hin Hw. destruct (th_state _ _ (to_each _ _ Ht _ Hin)) as (j & H1 & Has & _).
  destruct (iv_works _ Hinv p Hw) as [_ (j1 & H2 & H3 & _)].
  assert (j1 = j) as -> by congruence. by rewrite Has in H3.
Qed.

(** The job of a waiting thread, once it is free of the cores and gone. *)
Lemma sound_gone (d d1 : rknpu_device) (l : list thread) (q p : Z) (j : rknpu_job) :
  sys_ok d l -> TWait q p ∈ l -> jobs d !! p = Some j -> inactive d p -> view_eq (free_job p j d) d1 ->
  wp lifetime_fault (drop_args q ;; ret (drop_thread (TWait q p))) (fun f d' => sys_ok d' (f l)) d1.
Proof.
  intros [Hinv Ht] Hin Hj Hina Hv. destruct (to_each _ _ Ht _ Hin) as [S1 S2 S3].
  destruct S1 as (j0 & H1 & Has & Hq & Ho). assert (j0 = j) as -> by congruence.
  assert (Hnw : p ∉ cleanup_works d) by (by apply (wait_not_work d l q)).
  pose proof Hv as [V1 V2 V3 V4 V5 V6 V7]. apply (sound_drop d1 l (TWait q p)).
  - apply (inv_view _ d1 Hv). by apply inv_free.
  - apply (threads_free d d1 p j); [done | done | done | by apply threads_drop |].
    intros x [Hx Hxl]%elem_of_drop Hp. apply Hx. by apply (to_jobs _ _ Ht x (TWait q p) p).
  - rewrite V3. cbn. by rewrite Ho.
  - intros r jr Hr E. rewrite V2 in Hr. cbn in Hr, E. apply lookup_delete_Some in Hr as [Hne Hr].
    apply Hne. specialize (S3 r jr Hr E). cbn in S3. congruence.
  - intros x [Hx Hxl]%elem_of_drop E. apply Hx. by apply (to_args _ _ Ht).
Qed.

Lemma sound_reap (d : rknpu_device) (l : list thread) (q p : Z) (j : rknpu_job) :
  sys_ok d l -> TWait q p ∈ l -> jobs d !! p = Some j -> has_flag (j_flags j) RKNPU_JOB_DONE = true ->
  wp lifetime_fault (op_code (OpReap q p)) (fun f d' => sys_ok d' (f l)) d.
Proof.
  intros Hsys Hin Hj Hd. pose proof Hsys as [Hinv Ht].
  assert (Hina : inactive d p).
  { intros i Hi Hp. destruct (iv_active _ Hinv i p Hi Hp) as (j1 & a & H2 & _ & Hok).
    assert (j1 = j) as -> by congruence. by rewrite (ao_not_done _ _ _ _ Hok) in Hd. }
  cbn. unfold rknpu_job_cleanup. apply wp_bind, wp_bind.
  eapply wp_mono; [by apply (wp_job_free d p j)|]. intros ? d1 Hv. apply wp_ret. by apply (sound_gone d d1 l q p j).
Qed.

(** *** Giving up *)

(** The job of a waiting thread changes, and the queues at most lose it. *)
Lemma threads_wait_set (d d' : rknpu_device) (l : list thread) (q p : Z) (j j' : rknpu_job) :
  threads_ok d l -> TWait q p ∈ l -> jobs d !! p = Some j -> job_kept j j' ->
  config d' = config d -> args_mem d' = args_mem d -> jobs d' = <[p := j']> (jobs d) ->
  (forall r, r <> p -> inactive d r -> inactive d' r) -> threads_ok d' l.
Proof.
  intros Ht Hin Hj Hk Fc Fa Fj Hq. pose proof Ht as [T1 T2 T3]. split; [|done|done].
  intros t Hl. destruct (T1 t Hl) as [S1 S2 S3]. split; [|by rewrite Fa|].
  - destruct t as [x r|x r|x]; [| |done]; cbn in S1 |- *.
    + assert (r <> p) as Hne by (intros ->; discriminate (T3 _ _ p Hl Hin eq_refl eq_refl)).
      destruct S1 as [S1 (jr & ar & H)]. split; [by apply Hq|]. exists jr, ar.
      by rewrite Fj, Fa, Fc, lookup_insert_ne.
    + destruct S1 as (jr & H1 & H2 & H3 & H4). rewrite Fj. destruct (decide (p = r)) as [<-|Hne].
      * assert (jr = j) as -> by congruence. exists j'. rewrite lookup_insert_eq. split; [done|].
        by rewrite (jp_async _ _ Hk), (jp_args _ _ Hk), (jp_owner _ _ Hk).
      * exists jr. by rewrite lookup_insert_ne.
  - intros r jr Hr E. rewrite Fj in Hr. destruct (decide (p = r)) as [<-|Hne].
    + rewrite lookup_insert_eq in Hr. injection Hr as <-. apply (S3 p j Hj). by rewrite <- (jp_args _ _ Hk).
    + rewrite lookup_insert_ne in Hr by done. by apply (S3 r jr).
Qed.

Lemma sound_abort (d : rknpu_device) (l : list thread) (k : iommu_kernel) (r q p : Z) (j : rknpu_job) :
  sys_ok d l -> TWait q p ∈ l -> waiting d p = 0 -> jobs d !! p = Some j ->
  (forall i, 0 <= i < ncores d -> s_job (subcore_datas d i) = Some p -> j_irq_entry j i = false) ->
  wp lifetime_fault (op_code (OpAbort k r q p)) (fun f d' => sys_ok d' (f l)) d.
Proof.
  intros [Hinv Ht] Hin Hw Hj He. destruct (jk_args _ _ _ (iv_job _ Hinv p j Hj)) as [a Ha].
  pose proof (wait_not_work d l q p (conj Hinv Ht) Hin) as Hnw.
  set (j1 := j <| j_ret := r |>). assert (Hk : job_kept j j1) by by split.
  cbn. apply wp_bind. eapply wp_mono; [by apply (wp_give_up k r d p j a)|]. fold j1.
  intros [] d3 (d2 & Hun & Hinv2 & Hv). destruct (un_frame _ _ _ _ _ _ Hun) as (Fc & Fa & Fn & Fw & Fj & Ff).
  apply (sound_gone d2 d3 l q p j1); [split; [done|] | done | rewrite Fj; apply lookup_insert_eq | | done].
  - apply (threads_wait_set d d2 l q p j j1); try done. intros x Hne Hx i Hi Hxi.
    rewrite (unslot_ncores d d2 p j j1 a Hun) in Hi. apply (Hx i Hi).
    rewrite (unslot_queue d d2 p j j1 a Hun i Hi). apply elem_of_app. by right.
  - by apply (unslot_inactive d d2 p j j1 a).
Qed.

(** *** Entering the queues *)

(** The state after [schedule_resolve_core]. *)
Record resolved (d d' : rknpu_device) (p : Z) (j j' : rknpu_job) (a' : rknpu_submit) : Prop := {
  rs_jobs : jobs d' = <[p := j']> (jobs d);
  rs_args : args_mem d' = <[j_args j := a']> (args_mem d);
  rs_frame : config d' = config d /\ next_addr d' = next_addr d /\
    cleanup_works d' = cleanup_works d /\ subcore_datas d' = subcore_datas d /\ fences d' = fences d;
  rs_same : j_args j' = j_args j /\ j_args_owner j' = j_args_owner j /\ j_flags j' = j_flags j /\
    j_int_mask j' = j_int_mask j /\ j_fence j' = j_fence j /\ j_work_init j' = j_work_init j;
  rs_mask : 0 <= a_core_mask a' <= cfg_core_mask (config d) /\
    j_use_core_num j' = core_count (a_core_mask a') /\ j_run_count j' = j_use_core_num j' /\
    j_interrupt_count j' = j_use_core_num j';
}.

Lemma wp_resolve (d : rknpu_device) (p : Z) (j : rknpu_job) (a : rknpu_submit) :
  config_wf (config d) -> jobs d !! p = Some j -> args_mem d !! j_args j = Some a ->
  0 <= a_core_mask a <= cfg_core_mask (config d) ->
  j_use_core_num j = core_count (a_core_mask a) -> j_run_count j = j_use_core_num j ->
  j_interrupt_count j = j_use_core_num j ->
  wp lifetime_fault (schedule_resolve_core p)
    (fun _ d' => exists j' a', resolved d d' p j j' a') d.
Proof.
  intros Hc Hj Ha Hm Hu Hr Hi. unfold schedule_resolve_core.
  apply wp_bind, (wp_get_job p j); [done|]. apply wp_bind, (wp_get_args _ a); [done|].
  apply wp_when.
  - intros _. unfold rknpu_schedule_core_index.
    apply wp_bind, wp_bind, wp_gets, wp_bind, wp_gets, wp_ret.
    set (ci := schedule_core_index _ _).
    assert (Hci : 0 <= ci < num_irqs (config d)).
    { by apply schedule_core_index_range. }
    destruct (core_mask_range (config d) ci Hc Hci) as [C1 C2].
    apply wp_bind, (wp_mod_args _ a); [done|]. apply (wp_mod_job p j); [done|].
    eexists _, _. split; [reflexivity | reflexivity | done | done |].
    split; [exact C1|]. split; [symmetry; exact C2 | done].
  - intros _. exists j, a. split; [by rewrite insert_id | by rewrite insert_id | done..].
Qed.

(** A job that only its thread knows shares its arguments with no other. *)
Lemma enqueue_separate (d : rknpu_device) (l : list thread) (q p : Z) (j : rknpu_job) :
  sys_ok d l -> TEnqueue q p ∈ l -> jobs d !! p = Some j ->
  (j_args_owner j = false -> j_args j = q) ->
  forall r jr, r <> p -> jobs d !! r = Some jr -> j_args j <> j_args jr.
Proof.
  intros [Hinv Ht] Hin Hj Hq r jr Hne Hr. destruct (j_args_owner j) eqn:Ho.
  - by apply (iv_own _ Hinv p r).
  - destruct (to_each _ _ Ht _ Hin) as [_ _ S3]. rewrite (Hq eq_refl). intros E.
    specialize (S3 r jr Hr (eq_sym E)). cbn in S3. congruence.
Qed.

Lemma inv_resolved (d d' : rknpu_device) (p : Z) (j j' : rknpu_job) (a' : rknpu_submit) :
  inv d -> inactive d p -> p ∉ cleanup_works d -> jobs d !! p = Some j ->
  (forall r jr, r <> p -> jobs d !! r = Some jr -> j_args j <> j_args jr) ->
  resolved d d' p j j' a' -> inv d'.
Proof.
  intros Hinv Hin Hnw Hj Hsep [Rj Ra (Fc & Fn & Fw & Fs & Ff) (S1 & S2 & S3 & S4 & S5 & S6) _].
  set (d1 := d <| args_mem := args_mem d' |>).
  destruct (iv_job _ Hinv p j Hj) as [P1 P2 P3 P4].
  assert (Hfresh : forall q, is_Some (args_mem d' !! q) -> q < next_addr d).
  { intros q. rewrite Ra. destruct (decide (j_args j = q)) as [<-|Hne].
    - intros _. by apply (iv_fresh _ Hinv).
    - rewrite lookup_insert_ne by done. apply (iv_fresh _ Hinv). }
  assert (Hinv1 : inv d1).
  { apply (inv_set_args d); try done; cbn; rewrite ?Ra; [| |apply (iv_fence_fresh _ Hinv)].
    - intros i r jr Hi Hr Hjr. apply lookup_insert_ne. apply (Hsep r); [|done].
      intros ->. by apply (Hin i).
    - intros r jr Hjr. destruct (decide (j_args j = j_args jr)) as [<-|Hne].
      + rewrite lookup_insert_eq. by eexists.
      + rewrite lookup_insert_ne by done. by apply (iv_job _ Hinv r jr). }
  apply (inv_put_job d1 d' p j'); try done; cbn.
  - intros i. by rewrite Fs.
  - lia.
  - by rewrite Fn.
  - split; rewrite ?Fn, ?S1, ?S3, ?S5, ?S6, ?Ff; try done. rewrite Ra, lookup_insert_eq. by eexists.
  - intros r jr Hne Hr _. rewrite S1. by apply (Hsep r).
  - by rewrite Ff.
  - rewrite Ff, Fn. apply (iv_fence_fresh _ Hinv).
  - intros r jr f Hne Hr. rewrite S5. by apply (iv_fence _ Hinv p r).
Qed.

Lemma threads_enqueued (d d' : rknpu_device) (l : list thread) (q p : Z) (j j' : rknpu_job)
    (a' : rknpu_submit) :
  sys_ok d l -> TEnqueue q p ∈ l -> jobs d !! p = Some j ->
  (has_flag (j_flags j) RKNPU_JOB_ASYNC = true <-> j_args_owner j = true) ->
  (j_args_owner j = true -> j_args j <> q) -> (j_args_owner j = false -> j_args j = q) ->
  j_args j' = j_args j -> j_args_owner j' = j_args_owner j -> j_flags j' = j_flags j ->
  config d' = config d -> jobs d' = <[p := j']> (jobs d) ->
  args_mem d' = <[j_args j := a']> (args_mem d) ->
  (forall i r, 0 <= i < ncores d -> r <> p -> r ∈ queue_at d' i -> r ∈ queue_at d i) ->
  threads_ok d' ((if has_flag (j_flags j) RKNPU_JOB_ASYNC then TReturn q else TWait q p)
    :: drop_thread (TEnqueue q p) l).
Proof.
  intros Hsys Hin Hj Has Hown Hnown E1 E2 E3 Fc Fj Fa Hq.
  pose proof (enqueue_separate d l q p j Hsys Hin Hj Hnown) as Hsep.
  destruct Hsys as [Hinv Ht]. destruct (to_each _ _ Ht _ Hin) as [_ S2 S3]. cbn in S2, S3.
  set (t0 := if has_flag (j_flags j) RKNPU_JOB_ASYNC then TReturn q else TWait q p).
  assert (Ht0 : thread_args t0 = q) by (unfold t0; by destruct (has_flag _ _)).
  assert (Hback : forall r jr, jobs d' !! r = Some jr ->
    exists jr0, jobs d !! r = Some jr0 /\ j_args jr = j_args jr0).
  { intros r jr Hr. rewrite Fj in Hr. destruct (decide (p = r)) as [<-|Hne].
    - rewrite lookup_insert_eq in Hr. injection Hr as <-. by exists j.
    - rewrite lookup_insert_ne in Hr by done. by exists jr. }
  assert (Hargs : forall x, is_Some (args_mem d !! x) -> is_Some (args_mem d' !! x)).
  { intros x Hx. rewrite Fa. destruct (decide (j_args j = x)) as [<-|Hne];
      [rewrite lookup_insert_eq; by eexists | by rewrite lookup_insert_ne]. }
  split.
  - intros t [->|[Hne Hl]%elem_of_drop]%elem_of_cons; split.
    + unfold t0. destruct (has_flag (j_flags j) RKNPU_JOB_ASYNC) eqn:E; [done|].
      exists j'. rewrite Fj, lookup_insert_eq, E1, E2, E3.
      destruct (j_args_owner j) eqn:Ho; [discriminate (proj2 Has eq_refl)|]. auto.
    + rewrite Ht0. by apply Hargs.
    + intros r jr Hr Hrq. rewrite Ht0 in Hrq. destruct (Hback r jr Hr) as (jr0 & Hr0 & Eq).
      rewrite Eq in Hrq. specialize (S3 r jr0 Hr0 Hrq). injection S3 as ->.
      unfold t0. destruct (has_flag (j_flags j) RKNPU_JOB_ASYNC) eqn:E; [|done].
      assert (jr0 = j) as -> by congruence. by destruct (Hown (proj1 Has eq_refl)).
    + destruct (to_each _ _ Ht t Hl) as [T1 _ _].
      assert (Hnp : thread_job t <> Some p) by (intros E; apply Hne; by apply (to_jobs _ _ Ht t (TEnqueue q p) p)).
      destruct t as [x r|x r|x]; [| |done]; cbn in T1, Hnp |- *.
      * assert (p <> r) as Hpr by congruence. destruct T1 as [T1 (jr & ar & H1 & H2 & H3)].
        split; [|exists jr, ar; rewrite Fj, Fc, Fa; rewrite !lookup_insert_ne;
          [done | by apply (Hsep r jr (not_eq_sym Hpr)) | done]].
        intros i Hi Hr. unfold ncores in Hi. rewrite Fc in Hi. apply (T1 i Hi). by apply Hq.
      * destruct T1 as (jr & H1 & H2). exists jr. rewrite Fj, lookup_insert_ne; [done|congruence].
    + destruct (to_each _ _ Ht t Hl) as [_ T2 _]. by apply Hargs.
    + destruct (to_each _ _ Ht t Hl) as [_ _ T3]. intros r jr Hr Hrq.
      destruct (Hback r jr Hr) as (jr0 & Hr0 & Eq). apply (T3 r jr0 Hr0). congruence.
  - intros t t' [->|[Hne Hl]%elem_of_drop]%elem_of_cons [->|[Hne' Hl']%elem_of_drop]%elem_of_cons E;
      [done | | | by apply (to_args _ _ Ht)].
    + rewrite Ht0 in E. destruct Hne'. by apply (to_args _ _ Ht).
    + rewrite Ht0 in E. destruct Hne. by apply (to_args _ _ Ht).
  - assert (Hj0 : forall r, thread_job t0 = Some r -> r = p).
    { unfold t0. intros r. destruct (has_flag _ _); cbn; congruence. }
    intros t t' r [->|[Hne Hl]%elem_of_drop]%elem_of_cons [->|[Hne' Hl']%elem_of_drop]%elem_of_cons E E';
      [done | | | by apply (to_jobs _ _ Ht t t' r)].
    + apply Hj0 in E as ->. destruct Hne'. by apply (to_jobs _ _ Ht t' (TEnqueue q p) p).
    + apply Hj0 in E' as ->. destruct Hne. by apply (to_jobs _ _ Ht t (TEnqueue q p) p).
Qed.

Lemma resolved_count (d d' : rknpu_device) (p : Z) (j j' : rknpu_job) (a' : rknpu_submit) :
  inv d -> resolved d d' p j j' a' ->
  j_run_count j' = mask_cores d a' /\ j_interrupt_count j' = mask_cores d a'.
Proof.
  intros Hinv [_ _ _ _ (M1 & M2 & M3 & M4)]. pose proof (iv_config _ Hinv) as Hc.
  unfold mask_cores, ncores. rewrite mask_count.
  - rewrite M4, M3. done.
  - apply (cw_irqs _ Hc).
  - by rewrite <- (cw_mask _ Hc).
Qed.

Lemma sound_enqueue (d : rknpu_device) (l : list thread) (q p : Z) :
  sys_ok d l -> TEnqueue q p ∈ l ->
  wp lifetime_fault (op_code (OpEnqueue q p)) (fun f d' => sys_ok d' (f l)) d.
Proof.
  intros Hsys Hin. pose proof Hsys as [Hinv Ht].
  destruct (to_each _ _ Ht _ Hin) as [[Hina Hp] _ _].
  destruct Hp as (j & a & Hj & Ha & Hnd & Hm & Hu & Hr & Hi & Hmask & Has & Hown & Hnown).
  pose proof (enqueue_separate d l q p j Hsys Hin Hj Hnown) as Hsep.
  assert (Hnw : p ∉ cleanup_works d).
  { intros Hw. destruct (iv_works _ Hinv p Hw) as [_ (j1 & H1 & _ & H2)].
    assert (j1 = j) as -> by congruence. by rewrite Hnd in H2. }
  cbn. apply wp_bind, (wp_get_job p j); [done|]. apply wp_bind.
  unfold schedule_begin. apply wp_bind.
  eapply wp_mono; [by apply (wp_resolve d p j a); [apply (iv_config _ Hinv)|..]|].
  intros [] d1 (j' & a' & Hres).
  pose proof (inv_resolved d d1 p j j' a' Hinv Hina Hnw Hj Hsep Hres) as Hinv1.
  destruct (resolved_count d d1 p j j' a' Hinv Hres) as [Hc1 Hc2].
  pose proof Hres as [Rj Ra (Fc & Fn & Fw & Fs & Ff) (S1 & S2 & S3 & S4 & S5 & S6) _].
  assert (Hj1 : jobs d1 !! p = Some j') by (rewrite Rj; apply lookup_insert_eq).
  assert (Ha1 : args_mem d1 !! j_args j' = Some a') by (rewrite S1, Ra; apply lookup_insert_eq).
  assert (Hnc : ncores d1 = ncores d) by (unfold ncores; by rewrite Fc).
  apply wp_bind, (wp_get_job p j'); [done|]. apply wp_bind.
  unfold domain_get_and_switch, wp. destruct (domain_get _ _) as [[r st]|]; [|done].
  set (d2 := d1 <| iommu_st := st |>).
  assert (Hv : view_eq d1 d2) by by split.
  pose proof (inv_view d1 d2 Hv Hinv1) as Hinv2.
  apply (fun H => H : wp _ _ _ _). destruct (negb (r =? 0)).
  { apply wp_bind, (wp_mod_job p j'); [done|]. apply wp_ret. done. }
  apply wp_bind. eapply wp_mono.
  { apply (wp_schedule_enqueue lifetime_fault d2 p j' a'); [|done|done].
    unfold ncores. pose proof (cw_irqs _ (iv_config _ Hinv2)). lia. }
  intros [] d3 Hen. apply wp_ret, wp_ret.
  assert (Hina2 : inactive d2 p).
  { intros i Hi0. unfold queue_at. cbn. rewrite Fs. apply Hina. by rewrite <- Hnc. }
  split.
  - apply (inv_enqueue d2 d3 p j' a'); try done.
    + cbn. by rewrite Fw.
    + by rewrite S3.
    + unfold mask_cores. by rewrite (Hnc : ncores d2 = ncores d).
    + unfold mask_cores. by rewrite (Hnc : ncores d2 = ncores d).
    + intros i. by rewrite S4.
  - destruct (en_frame _ _ _ _ _ Hen) as (G1 & G2 & G3 & G4 & G5 & G6).
    apply (threads_enqueued d d3 l q p j j' a'); try done.
    + by rewrite G1.
    + by rewrite G5.
    + by rewrite G2.
    + intros i x Hi0 Hne Hr0.
      rewrite (enqueue_queue d2 d3 p j' a' Hen i ltac:(by rewrite (Hnc : ncores d2 = _))) in Hr0.
      apply elem_of_app in Hr0 as [Hr0|Hr0].
      * unfold queue_at in *. cbn in Hr0. by rewrite Fs in Hr0.
      * destruct (has_flag (a_core_mask a') (rknpu_core_mask i)); [|by apply elem_of_nil in Hr0].
        by apply list_elem_of_singleton in Hr0.
Qed.

(** *** Submission *)

(** The threads that were there, after jobs above [next_addr d] appeared. *)
Lemma threads_grown (d d' : rknpu_device) (l : list thread) :
  inv d -> grown d d' -> (forall r, r < next_addr d -> jobs d' !! r = jobs d !! r) ->
  (forall r jr t, next_addr d <= r -> jobs d' !! r = Some jr -> t ∈ l -> j_args jr <> thread_args t) ->
  threads_ok d l -> threads_ok d' l.
Proof.
  intros Hinv [G1 G2 G3 G4 G5 G6 _ _] Hold Hnew [T1 T2 T3]. split; [|done|done].
  assert (Hlive : forall r jr, jobs d !! r = Some jr -> jobs d' !! r = Some jr).
  { intros r jr Hr. rewrite Hold; [done|]. by apply (iv_job _ Hinv r jr). }
  intros t Ht. destruct (T1 t Ht) as [S1 S2 S3]. split.
  - destruct t as [q p|q p|q]; [| |done]; cbn in S1 |- *.
    + destruct S1 as [S1 (j & a & H1 & H2 & H3)]. split.
      * intros i Hi. unfold ncores in Hi. rewrite G1 in Hi. rewrite (proj1 (same_cores d d' G1 G2) i). by apply S1.
      * exists j, a. rewrite G1. auto.
    + destruct S1 as (j & H1 & H2). exists j. auto.
  - destruct S2 as [a S2]. exists a. auto.
  - intros r jr Hr E. destruct (decide (r < next_addr d)) as [Hlt|Hge].
    + rewrite Hold in Hr by done. by apply (S3 r jr).
    + destruct (Hnew r jr t ltac:(lia) Hr Ht E).
Qed.

Lemma threads_cons (d : rknpu_device) (l : list thread) (t : thread) :
  threads_ok d l -> thread_ok d t ->
  (forall x, x ∈ l -> thread_args x <> thread_args t) ->
  (forall x p, x ∈ l -> thread_job t = Some p -> thread_job x <> Some p) ->
  threads_ok d (t :: l).
Proof.
  intros [T1 T2 T3] Ht Ha Hj. split.
  - by intros x [->|Hx]%elem_of_cons; [|apply T1].
  - intros x y [->|Hx]%elem_of_cons [->|Hy]%elem_of_cons E; [done | | | by apply T2].
    + by destruct (Ha y).
    + by destruct (Ha x).
  - intros x y r [->|Hx]%elem_of_cons [->|Hy]%elem_of_cons E E'; [done | | | by apply (T3 x y r)].
    + by destruct (Hj y r).
    + by destruct (Hj x r).
Qed.

Lemma thread_below (d : rknpu_device) (l : list thread) (t : thread) :
  inv d -> threads_ok d l -> t ∈ l ->
  thread_args t < next_addr d /\ forall p, thread_job t = Some p -> p < next_addr d.
Proof.
  intros Hinv Ht Hin. destruct (to_each _ _ Ht t Hin) as [S1 S2 S3].
  split; [by apply (iv_fresh _ Hinv)|]. intros p Hp. destruct t as [q r|q r|q]; [| |done];
    injection Hp as ->.
  - destruct S1 as [_ (j & a & Hj & _)]. by apply (iv_job _ Hinv p j).
  - destruct S1 as (j & Hj & _). by apply (iv_job _ Hinv p j).
Qed.

(** A submission that returns an error. *)
Lemma sound_new_return (d d' : rknpu_device) (l : list thread) :
  sys_ok d l -> returned d d' -> sys_ok d' (TReturn (next_addr d) :: l).
Proof.
  intros [Hinv Ht] (Hg & Fj & Hs). pose proof Hg as [G1 G2 G3 G4 G5 G6 G7 G8]. split.
  - apply (inv_set_args d); try done.
    + intros i p j _ _ Hj. destruct (iv_job _ Hinv p j Hj) as [_ [a Ha] _ _]. by rewrite Ha, (G4 _ _ Ha).
    + intros p j Hj. destruct (iv_job _ Hinv p j Hj) as [_ [a Ha] _ _]. exists a. auto.
  - apply threads_cons.
    + apply (threads_grown d); try done; [by rewrite Fj|]. intros r jr t Hr Hjr.
      rewrite Fj in Hjr. pose proof (jk_addr _ _ _ (iv_job _ Hinv r jr Hjr)). lia.
    + split; [done | done |]. intros p j Hj E. rewrite Fj in Hj. cbn in E.
      destruct (iv_job _ Hinv p j Hj) as [_ Ha _ _]. apply (iv_fresh _ Hinv) in Ha. lia.
    + intros x Hx. pose proof (thread_below d l x Hinv Ht Hx) as [H _]. cbn. lia.
    + done.
Qed.

(** A submission that has its job. *)
Lemma sound_new_job (d d' : rknpu_device) (l : list thread) (a : rknpu_submit) (p r : Z) (j : rknpu_job) :
  sys_ok d l -> submitting d d' a p r j -> 0 <= a_core_mask a <= cfg_core_mask (config d) ->
  (has_flag (j_flags j) RKNPU_JOB_ASYNC = true <-> j_args_owner j = true) ->
  sys_ok d' (TEnqueue (next_addr d) p :: l).
Proof.
  intros [Hinv Ht] H Hm Has. pose proof (submitting_grown d a p r Hinv d' j H) as Hg.
  split; [by apply (submitting_inv d a p r Hinv d' j)|].
  destruct (submitting_args_live d a p r d' j H) as [(a1 & Ha1 & Em) Hq].
  destruct H as [S1 S2 S3 Fj _ [S6 S6'] S7 S8 S9 S10 (J1 & J2 & J3 & J4 & J5 & J6 & J7) S12].
  assert (Hr : next_addr d <= r) by (destruct (has_flag _ _); lia).
  pose proof (fresh_none d p Hinv ltac:(lia)) as Hnone. pose proof (inactive_fresh d p Hinv Hnone) as Hin.
  assert (Hargs : forall x jx, jobs d !! x = Some jx -> j_args jx < next_addr d).
  { intros x jx Hx. apply (iv_fresh _ Hinv), (iv_job _ Hinv x jx Hx). }
  apply threads_cons.
  - apply (threads_grown d); try done.
    + intros x Hx. rewrite Fj, lookup_insert_ne; [done | lia].
    + intros x jx t Hx Hjx Htl. pose proof (thread_below d l t Hinv Ht Htl) as [Hb _].
      rewrite Fj in Hjx. destruct (decide (p = x)) as [<-|Hne].
      * rewrite lookup_insert_eq in Hjx. injection Hjx as <-. lia.
      * rewrite lookup_insert_ne in Hjx by done.
        pose proof (jk_addr _ _ _ (iv_job _ Hinv x jx Hjx)). lia.
  - split; [|done|].
    + split.
      * intros i Hi0. rewrite (proj1 (same_cores d d' S1 S2) i). apply Hin. unfold ncores in *. by rewrite S1 in Hi0.
      * exists j, a1. rewrite Fj, lookup_insert_eq, S1, J1, Em. cbn. split; [done|]. split; [done|].
        split; [by destruct S12 as [-> | [-> _]]|]. repeat (split; [done|]). rewrite J2.
        destruct (has_flag (a_flags a) RKNPU_JOB_NONBLOCK); split; lia || done.
    + intros x jx Hx E. cbn in E |- *. rewrite Fj in Hx.
      destruct (decide (p = x)) as [<-|Hne]; [done|]. rewrite lookup_insert_ne in Hx by done.
      specialize (Hargs x jx Hx). lia.
  - intros x Hx. pose proof (thread_below d l x Hinv Ht Hx) as [Hb _]. cbn. lia.
  - intros x y Hx [= <-] E. pose proof (thread_below d l x Hinv Ht Hx) as [_ Hb].
    specialize (Hb p E). lia.
Qed.

Lemma sound_submit (d : rknpu_device) (l : list thread) (a : rknpu_submit) (env : submit_env) (drm : bool) :
  sys_ok d l -> fence_in_ok a env -> 0 <= a_core_mask a ->
  wp lifetime_fault (op_code (OpSubmit a env drm)) (fun f d' => sys_ok d' (f l)) d.
Proof.
  intros Hsys He Hm. pose proof Hsys as [Hinv _]. cbn. apply wp_bind.
  eapply wp_mono; [by apply wp_submit_begin|].
  intros t d' [[-> H] | (p & r & j & -> & H & Hmask & Has)]; apply wp_ret.
  - by apply (sound_new_return d).
  - by apply (sound_new_job d d' l a p r j).
Qed.

(** *** Closing a sync file *)

Lemma sound_fence_put (d : rknpu_device) (l : list thread) (f : Z) (x : dma_fence) :
  sys_ok d l -> fences d !! f = Some x ->
  (forall p j, jobs d !! p = Some j -> j_fence j <> Some f) \/ 2 <= f_refcount x ->
  wp lifetime_fault (op_code (OpFencePut f)) (fun f d' => sys_ok d' (f l)) d.
Proof.
  intros [Hinv Ht] Hx Hr. cbn. apply wp_bind. unfold dma_fence_put, get_fence.
  do 2 apply wp_bind. apply wp_gets. rewrite Hx. apply wp_ret.
  assert (Hput : sys_ok (d <| fences ::= put_fence (Some f) |>) l).
  { split.
    - apply (inv_fences d (put_fence (Some f) (fences d)) Hinv).
      + intros p j g Hp Hg. destruct (jk_fence _ _ _ (iv_job _ Hinv p j Hp) g Hg) as (y & Hy & Hy1).
        destruct (decide (f = g)) as [<-|Hne]; [|exists y; rewrite put_fence_other; [done | congruence]].
        destruct Hr as [Hr | Hr]; [by destruct (Hr p j Hp)|]. cbn. rewrite Hx, (proj2 (Z.eqb_neq _ _)) by lia.
        rewrite lookup_insert_eq. eexists. split; [done|]. cbn. lia.
      + intros g Hg. by apply (iv_fence_fresh _ Hinv), (put_fence_some (Some f)).
    - apply (threads_evolve d); [|done]. split; try done. intros p j Hp. exists j. by split; [|apply job_kept_refl]. }
  unfold set_field in Hput. cbn [put_fence] in Hput. rewrite Hx in Hput.
  destruct (f_refcount x =? 1); by apply wp_modify, wp_ret.
Qed.

(** ** The theorems *)

Lemma op_sound (s : system) (o : op) :
  sys_ok (dev s) (threads s) -> enabled s o ->
  wp lifetime_fault (op_code o) (fun f d' => sys_ok d' (f (threads s))) (dev s).
Proof.
  intros Hsys He. pose proof Hsys as [Hinv Ht]. destruct o; cbn in He.
  - destruct He as [Hf Hm]. by apply sound_submit.
  - by apply sound_enqueue.
  - apply sound_handler; [done|]. apply wp_job_next; [by apply good_refl | done].
  - destruct He as [Hi Hg]. apply sound_handler; [done|].
    apply wp_irq_handler; [by apply good_refl | done | done].
  - apply sound_handler; [done|]. apply wp_timer_sample; [by apply good_refl | done].
  - by apply sound_work.
  - destruct He as [Hw (j & Hj & Hd)]. by apply (sound_reap _ _ _ _ j).
  - destruct He as (Hl & _ & Hw & j & Hj & Hen). by apply (sound_abort _ _ _ _ _ _ j).
  - by apply sound_return.
  - destruct He as (x & Hx & Hr). by apply (sound_fence_put _ _ f x).
  - apply wp_bind, wp_modify, wp_ret. apply (good_sys (dev s)); [done|].
    apply (good_view _ (dev s)); [done | by apply good_refl].
Qed.

Lemma reachable_ok (s : system) : reachable s -> sys_ok (dev s) (threads s).
Proof.
  induction 1 as [c d Hc <- Hj Ha Hfe Hw Hsub|s s' Hr IH [o f He Ho Hf]].
  - assert (Hq : forall i, queue_at d i = []).
    { intros i. unfold queue_at, queue. destruct (Hsub i) as (-> & -> & _). done. }
    split; cbn.
    + split; [done | | | | | | | | |].
      * exists (fun _ => 0), 0. intros i _. rewrite Hq. split; constructor.
      * intros i p _. rewrite Hq. by intros ?%elem_of_nil.
      * intros i _. rewrite Hq. by destruct (Hsub i) as (_ & _ & ->).
      * intros p. rewrite Hw. by intros ?%elem_of_nil.
      * intros p j. by rewrite Hj, lookup_empty.
      * intros p q j j' _. by rewrite Hj, lookup_empty.
      * intros q. rewrite Ha, lookup_empty. by intros [].
      * intros p q j j' f _. by rewrite Hj, lookup_empty.
      * intros f. rewrite Hfe, lookup_empty. by intros [].
    + split; [intros t Ht | intros t t' Ht | intros t t' p Ht]; by apply elem_of_nil in Ht.
  - rewrite Hf. pose proof (op_sound s o IH He) as Hwp. by apply (wp_total _ _ _ _ _ _ Hwp Ho).
Qed.
End System.
