(* ===== verification/JobRun.v ===== *)
(** * A job runs to completion

    With a valid task array, one completion interrupt per batch carries a job
    through all its batches: each interrupt but the last programs the next
    batch, the last one finishes the job and wakes its waiter. *)

From S2P Require Import Prelude Config Domain Device Reset Job Batch Commit.

(** ** A running job *)

(** Job [p] holds core [i] alone, has [k] batches behind it, and its tasks are
    in bounds; nothing else is queued on the core. *)
Record run_state (d : rknpu_device) (p i : Z) (j : rknpu_job) (a : rknpu_submit)
    (tasks : list rknpu_task) (k : Z) : Prop := {
  rn_config : config_wf (config d);
  rn_job : jobs d !! p = Some j;
  rn_args : args_mem d !! j_args j = Some a;
  rn_pc : has_flag (a_flags a) RKNPU_JOB_PC = true;
  rn_addr : a_task_obj_addr a <> 0;
  rn_tasks : task_array d (j_use_drm_gem j) (a_task_obj_addr a) tasks;
  rn_core : 0 <= i < num_irqs (config d);
  rn_mapped : io_mapped d (CoreBase i) = true;
  rn_range : range_ok (config d) (task_range_of (config d) (j_use_core_num j) a i);
  rn_bound : (task_range_of (config d) (j_use_core_num j) a i).1 +
    (task_range_of (config d) (j_use_core_num j) a i).2 <= Z.of_nat (length tasks);
  rn_slot : s_job (subcore_datas d i) = Some p;
  rn_todo : todo_list (subcore_datas d i) = [];
  rn_count : j_submit_count j i = k;
  rn_last_core : j_interrupt_count j = 1;
  rn_not_done : has_flag (j_flags j) RKNPU_JOB_DONE = false;
  rn_fence : j_fence j = None;
  rn_work : has_flag (j_flags j) RKNPU_JOB_ASYNC = true -> j_work_init j = true;
}.

(** The number of batches of the job on the core. *)
Definition batches (c : rknpu_config) (u : Z) (a : rknpu_submit) (i : Z) : Z :=
  batch_count (task_range_of c u a i).2 (s32 (max_submit_number c)).

Lemma task_number_range (c : rknpu_config) (u : Z) (a : rknpu_submit) (i : Z) :
  config_wf c -> 0 <= i < num_irqs c ->
  task_number_of c u a i = (task_range_of c u a i).2.
Proof.
  intros Hc Hi. pose proof (cw_irqs _ Hc) as Hn. unfold task_number_of, task_range_of.
  unfold RKNPU_MAX_CORES in *.
  replace ((3 <=? i) || (i <? 0)) with false
    by (symmetry; apply orb_false_iff; rewrite Z.leb_gt, Z.ltb_ge; lia).
  destruct (1 <? num_irqs c); [|done].
  destruct ((u =? 1) || (u =? 2)); [done|]. by destruct (u =? 3).
Qed.

(** The batch a commit of a running job programs. *)
Lemma run_commit (d : rknpu_device) (p i : Z) (j : rknpu_job) (a : rknpu_submit)
    (tasks : list rknpu_task) (k : Z) :
  run_state d p i j a tasks k -> 0 <= k < batches (config d) (j_use_core_num j) a i ->
  exists s n first last, batch_of (config d) (j_use_core_num j) a i k = (s, n) /\
    commit_input (config d) d p i j a s n first last tasks.
Proof.
  intros [Hc Hj Ha Hpc Hadr Ht Hi Hm Hr Hb _ _ Hk _ _ _ _] Hkb.
  pose proof Hr as [R1 R2 R3]. destruct (config_max _ Hc) as [Hmax Hs]. unfold batches in Hkb.
  rewrite Hs, batch_count_ceil in Hkb by lia.
  pose proof (batch_of_range (config d) (j_use_core_num j) a i k Hc Hr Hkb) as Hbatch.
  destruct (task_range_of (config d) (j_use_core_num j) a i) as [s n]. simpl in *.
  destruct Hbatch as [Hbatch Hpos]. set (max := max_submit_number (config d)) in *.
  assert (Hend : 0 <= s + k * max /\ s + k * max + Z.min max (n - k * max) <= s + n) by nia.
  destruct (lookup_lt_is_Some_2 tasks (Z.to_nat (s + k * max))) as [first Hf]; [lia|].
  destruct (lookup_lt_is_Some_2 tasks (Z.to_nat (s + k * max + Z.min max (n - k * max) - 1)))
    as [last Hl]; [lia|].
  exists (s + k * max), (Z.min max (n - k * max)), first, last. split; [done|].
  constructor; try done; [by rewrite Hk | lia].
Qed.

(** ** One interrupt *)

(** An interrupt of a batch that is not the last one. *)
Lemma run_next_batch {iommu : IommuDomain} (d : rknpu_device) (p i : Z) (j : rknpu_job)
    (a : rknpu_submit) (tasks : list rknpu_task) (k : Z) :
  run_state d p i j a tasks k -> 0 <= k ->
  k + 1 < batches (config d) (j_use_core_num j) a i ->
  exists d' j', rknpu_job_done p 0 i d = Ret tt d' /\
    run_state d' p i j' a tasks (k + 1) /\ config d' = config d /\
    j_use_core_num j' = j_use_core_num j /\
    exists s n first last,
      batch_of (config d) (j_use_core_num j) a i (k + 1) = (s, n) /\
      tasks !! Z.to_nat s = Some first /\ tasks !! Z.to_nat (s + n - 1) = Some last /\
      j_int_mask j' i = t_int_mask last /\
      reg_writes d' = reg_writes d ++ commit_writes (config d) i first last
        (if has_flag (a_flags a) RKNPU_JOB_PINGPONG then 1 else 0) n (a_task_base_addr a) /\
      subcore_datas d' = subcore_datas d /\ wakeups d' = wakeups d.
Proof.
  intros Hrun Hk0 Hk. pose proof Hrun as [Hc Hj Ha Hpc Hadr Ht Hi Hm Hr Hb Hs Htd Hk' Hl Hnd Hf Hw].
  set (j1 := j <| j_submit_count ::= alter Z.succ i |>).
  set (d1 := d <| jobs ::= <[p := j1]> |>).
  assert (Hj1 : jobs d1 !! p = Some j1) by (cbn; apply lookup_insert_eq).
  assert (Hcnt : j_submit_count j1 i = k + 1) by (cbn; rewrite fn_lookup_alter; lia).
  assert (Hrun1 : run_state d1 p i j1 a tasks (k + 1)) by (split; try done).
  destruct (run_commit d1 p i j1 a tasks (k + 1) Hrun1 ltac:(cbn; lia))
    as (s & n & first & last & Hbatch & Hin).
  pose proof (subcore_commit_programs_batch _ _ _ _ _ _ _ _ _ _ _ Hin) as Hcommit. cbn zeta in Hcommit.
  unfold rknpu_job_done, bind, gets. rewrite (mod_job_ret p j) by done. fold j1 d1.
  rewrite (get_job_ret p j1) by done.
  unfold rknpu_get_task_number, bind, gets.
  rewrite (get_job_ret p j1), (get_args_ret _ a) by done. unfold ret at 1.
  rewrite task_number_range by done.
  change (config d1) with (config d). change (j_use_core_num j1) with (j_use_core_num j).
  rewrite Hcnt. fold (batches (config d) (j_use_core_num j) a i).
  rewrite (proj2 (Z.ltb_lt _ _) Hk), Hcommit. unfold ret.
  set (ptr x := {| tp_gem := j_use_drm_gem j1; tp_obj := a_task_obj_addr a; tp_index := x |}).
  set (j2 := j1 <| j_first_task := Some (ptr s) |> <| j_last_task := Some (ptr (s + n - 1)) |>
                <| j_int_mask ::= <[i := t_int_mask last]> |>).
  exists (d1 <| reg_writes ::= (fun l => l ++ commit_writes (config d) i first last
      (if has_flag (a_flags a) RKNPU_JOB_PINGPONG then 1 else 0) n (a_task_base_addr a)) |>
    <| jobs ::= <[p := j2]> |>), j2.
  split; [reflexivity|]. split; [|split; [done|split; [reflexivity|]]].
  - split; try done. cbn. apply lookup_insert_eq.
  - exists s, n, first, last. destruct Hin. split; [done|]. split; [done|]. split; [done|].
    split; [cbn; by rewrite fn_lookup_insert | done].
Qed.

(** The job is finished and its core is free. *)
Definition job_finished (d : rknpu_device) (p i : Z) : Prop :=
  s_job (subcore_datas d i) = None /\
  exists j, jobs d !! p = Some j /\ has_flag (j_flags j) RKNPU_JOB_DONE = true /\ j_ret j = 0 /\
    (has_flag (j_flags j) RKNPU_JOB_ASYNC = true -> p ∈ cleanup_works d).

Lemma done_flag (f : Z) : has_flag (Z.lor f RKNPU_JOB_DONE) RKNPU_JOB_DONE = true /\
  has_flag (Z.lor f RKNPU_JOB_DONE) RKNPU_JOB_ASYNC = has_flag f RKNPU_JOB_ASYNC.
Proof.
  unfold has_flag. rewrite !Z.land_lor_distr_l.
  change (Z.land RKNPU_JOB_DONE RKNPU_JOB_DONE) with RKNPU_JOB_DONE.
  change (Z.land RKNPU_JOB_DONE RKNPU_JOB_ASYNC) with 0. rewrite Z.lor_0_r. split; [|done].
  destruct (Z.eqb_spec (Z.lor (Z.land f RKNPU_JOB_DONE) RKNPU_JOB_DONE) 0) as [E|]; [|done].
  by apply Z.lor_eq_0_iff in E as [_ ?].
Qed.

(** Nothing is queued behind the job. *)
Lemma job_next_idle (i : Z) (d : rknpu_device) :
  todo_list (subcore_datas d i) = [] -> rknpu_job_next i d = Ret tt d.
Proof.
  intros Ht. unfold rknpu_job_next, get_subcore, bind, gets.
  destruct (soft_reseting d); [done|]. rewrite Ht. by destruct (s_job (subcore_datas d i)).
Qed.

(** The interrupt of the last batch. *)
Lemma run_last_batch {iommu : IommuDomain} (d : rknpu_device) (p i : Z) (j : rknpu_job)
    (a : rknpu_submit) (tasks : list rknpu_task) (k : Z) :
  run_state d p i j a tasks k -> batches (config d) (j_use_core_num j) a i <= k + 1 ->
  exists d', rknpu_job_done p 0 i d = Ret tt d' /\ job_finished d' p i /\
    task_num (subcore_datas d' i) =
      task_num (subcore_datas d i) - (task_range_of (config d) (j_use_core_num j) a i).2 /\
    wakeups d' = wakeups d ++ [if 1 <? j_use_core_num j then 0 else i] /\
    reg_writes d' = reg_writes d.
Proof.
  intros Hrun Hk. pose proof Hrun as [Hc Hj Ha Hpc Hadr Ht Hi Hm Hr Hb Hs Htd Hk' Hl Hnd Hf Hw].
  set (j1 := j <| j_submit_count ::= alter Z.succ i |>).
  set (d1 := d <| jobs ::= <[p := j1]> |>).
  assert (Hj1 : jobs d1 !! p = Some j1) by (cbn; apply lookup_insert_eq).
  assert (Hcnt : j_submit_count j1 i = k + 1) by (cbn; rewrite fn_lookup_alter; lia).
  unfold rknpu_job_done, bind, gets. rewrite (mod_job_ret p j) by done. fold j1 d1.
  rewrite (get_job_ret p j1) by done.
  unfold rknpu_get_task_number, bind, gets.
  rewrite (get_job_ret p j1), (get_args_ret _ a) by done. unfold ret at 1.
  rewrite task_number_range by done.
  change (config d1) with (config d). change (j_use_core_num j1) with (j_use_core_num j).
  rewrite Hcnt. fold (batches (config d) (j_use_core_num j) a i).
  rewrite (proj2 (Z.ltb_ge _ _) Hk). set (n := (task_range_of (config d) (j_use_core_num j) a i).2).
  unfold mod_subcore, modify.
  set (d2 := d1 <| subcore_datas ::= _ |>).
  rewrite (mod_job_ret p j1) by done.
  set (j2 := j1 <| j_hw_elapse_time := _ |> <| j_interrupt_count ::= Z.pred |>).
  set (d3 := d2 <| jobs ::= <[p := j2]> |>).
  assert (Hj3 : jobs d3 !! p = Some j2) by (cbn; apply lookup_insert_eq).
  rewrite (get_job_ret p j2) by done.
  change (j_interrupt_count j2) with (Z.pred (j_interrupt_count j)). rewrite Hl. cbn [Z.pred Z.eqb when].
  change (Z.pred 1 =? 0) with true. cbn [when].
  unfold job_complete, bind. rewrite (get_job_ret p j2) by done.
  unfold domain_put_ref, modify. set (d4 := d3 <| iommu_st ::= _ |>).
  rewrite (mod_job_ret p j2) by done. set (j3 := j2 <| j_flags ::= _ |> <| j_ret := 0 |>).
  set (d5 := d4 <| jobs ::= <[p := j3]> |>).
  assert (Hj5 : jobs d5 !! p = Some j3) by (cbn; apply lookup_insert_eq).
  change (j_fence j2) with (j_fence j). rewrite Hf. unfold ret at 1.
  change (j_flags j2) with (j_flags j). change (j_use_core_num j2) with (j_use_core_num j).
  destruct (done_flag (j_flags j)) as [Hd1 Hd2].
  assert (Hsub : subcore_datas d5 i = (subcore_datas d i) <| s_job := None |>
    <| task_num ::= (fun x => x - n) |> <| s_busy_time ::= Z.add (now d - j_hw_recoder_time j) |>)
    by (cbn; by rewrite fn_lookup_alter).
  destruct (has_flag (j_flags j) RKNPU_JOB_ASYNC) eqn:Has; cbn [when].
  - unfold schedule_work, bind. rewrite (get_job_ret p j3) by done.
    change (j_work_init j3) with (j_work_init j). rewrite (Hw eq_refl). unfold modify, wake_up, modify.
    rewrite job_next_idle by (cbn -[subcore_datas]; cbn; rewrite fn_lookup_alter; done).
    eexists. split; [reflexivity|]. split; [split|split; [|done]].
    + cbn. by rewrite fn_lookup_alter.
    + exists j3. split; [done|]. split; [done|]. split; [done|]. intros _. cbn.
      case_bool_decide; [done|]. apply elem_of_app. right. apply list_elem_of_here.
    + cbn. by rewrite fn_lookup_alter.
  - unfold ret, wake_up, modify.
    rewrite job_next_idle by (cbn; rewrite fn_lookup_alter; done).
    eexists. split; [reflexivity|]. split; [split|split; [|done]].
    + cbn. by rewrite fn_lookup_alter.
    + exists j3. split; [done|]. split; [done|]. split; [done|]. intros H.
      change (has_flag (Z.lor (j_flags j) RKNPU_JOB_DONE) RKNPU_JOB_ASYNC = true) in H.
      by rewrite Hd2 in H.
    + cbn. by rewrite fn_lookup_alter.
Qed.

(** ** The interrupts of a job *)

(** The first and last task of batch [k]. *)
Definition batch_ends (c : rknpu_config) (u : Z) (a : rknpu_submit) (i : Z)
    (tasks : list rknpu_task) (k : Z) : option (Z * rknpu_task * rknpu_task) :=
  let '(s, n) := batch_of c u a i k in
  match tasks !! Z.to_nat s, tasks !! Z.to_nat (s + n - 1) with
  | Some first, Some last => Some (n, first, last)
  | _, _ => None
  end.

(** The mask the interrupt of batch [k] has to match, and the writes that
    start the batch. *)
Definition batch_mask (c : rknpu_config) (u : Z) (a : rknpu_submit) (i : Z)
    (tasks : list rknpu_task) (k : Z) : Z :=
  match batch_ends c u a i tasks k with Some (_, _, last) => t_int_mask last | None => 0 end.
Definition batch_writes (c : rknpu_config) (u : Z) (a : rknpu_submit) (i : Z)
    (tasks : list rknpu_task) (k : Z) : list reg_write :=
  match batch_ends c u a i tasks k with
  | Some (n, first, last) =>
      commit_writes c i first last (if has_flag (a_flags a) RKNPU_JOB_PINGPONG then 1 else 0) n
        (a_task_base_addr a)
  | None => []
  end.

(** The hardware shows [v] in the interrupt status register of core [i]. *)
Definition raise_status (i v : Z) (d : rknpu_device) : rknpu_device :=
  d <| reg_value := fun b off =>
    if decide (b = CoreBase i /\ off = RKNPU_OFFSET_INT_STATUS) then v else reg_value d b off |>.

(** One interrupt of core [i] after the other. *)
Fixpoint irqs {iommu : IommuDomain} (i : Z) (vs : list Z) : M unit :=
  match vs with
  | [] => ret tt
  | v :: vs => modify (raise_status i v) ;; rknpu_irq_handler i ;; irqs i vs
  end.

(** The write that acknowledges an interrupt. *)
Definition ack (i : Z) : reg_write :=
  {| w_base := CoreBase i; w_offset := RKNPU_OFFSET_INT_CLEAR; w_value := u32 RKNPU_INT_CLEAR |}.

(** *** The state between two interrupts *)

Section Irqs.
Context {iommu : IommuDomain} (p i u : Z) (a : rknpu_submit) (tasks : list rknpu_task)
  (c : rknpu_config).

(** Batch [k] runs, and its mask is the one the interrupt has to match. *)
Definition at_batch (k : Z) (d : rknpu_device) : Prop :=
  config d = c /\ exists j, run_state d p i j a tasks k /\ j_use_core_num j = u /\
    j_int_mask j i = batch_mask c u a i tasks k.

(** The interrupt handler, on the status of the programmed batch, is
    rknpu_job_done after the acknowledgement. *)
Lemma irq_is_done (d : rknpu_device) (k v : Z) :
  at_batch k d -> rknpu_fuzz_status (u32 v) = batch_mask c u a i tasks k ->
  exists d1, at_batch k d1 /\ rknpu_irq_handler i (raise_status i v d) = rknpu_job_done p 0 i d1 /\
    reg_writes d1 = reg_writes d ++ [ack i] /\ subcore_datas d1 = subcore_datas d /\
    wakeups d1 = wakeups d.
Proof.
  intros (Hc & j & Hrun & Hu & Hmask) Hv.
  pose proof Hrun as [? Hj ? ? ? ? ? Hm ? ? Hs ? ? ? ? ? ?].
  set (d0 := raise_status i v d).
  set (j1 := j <| j_irq_entry ::= <[i := true]> |>).
  set (j2 := j1 <| j_int_status ::= <[i := u32 v]> |>).
  exists (d0 <| jobs ::= <[p := j1]> |> <| jobs ::= <[p := j2]> |>
    <| reg_writes ::= (fun l => l ++ [ack i]) |>).
  split; [|split; [|done]].
  - split; [done|]. exists j2. split; [|done]. split; try done. cbn. apply lookup_insert_eq.
  - unfold rknpu_irq_handler, get_subcore, bind, gets.
    change (s_job (subcore_datas d0 i)) with (s_job (subcore_datas d i)). rewrite Hs.
    rewrite (mod_job_ret p j) by done. fold j1.
    unfold REG_READ, readl, bind, gets. cbn [io_mapped].
    change (io_mapped (d0 <| jobs ::= <[p:=j1]> |>)) with (io_mapped d). rewrite Hm.
    assert (Hst : reg_value (d0 <| jobs ::= <[p:=j1]> |>) (CoreBase i) RKNPU_OFFSET_INT_STATUS = v)
      by (cbn; by rewrite decide_True).
    rewrite Hst, (mod_job_ret p j1) by (cbn; apply lookup_insert_eq). fold j2.
    rewrite (get_job_ret p j2) by (cbn; apply lookup_insert_eq).
    change (j_int_mask j2 i) with (j_int_mask j i). rewrite Hv, Hmask, Z.eqb_refl. cbn [negb].
    unfold REG_WRITE. by rewrite writel_mapped.
Qed.

Lemma batch_ends_eq (k s n : Z) (first last : rknpu_task) :
  batch_of c u a i k = (s, n) -> tasks !! Z.to_nat s = Some first ->
  tasks !! Z.to_nat (s + n - 1) = Some last ->
  batch_ends c u a i tasks k = Some (n, first, last).
Proof. intros Hb Hf Hl. unfold batch_ends. by rewrite Hb, Hf, Hl. Qed.

(** An interrupt in the middle of the job. *)
Lemma irq_next_batch (d : rknpu_device) (k v : Z) :
  at_batch k d -> 0 <= k -> k + 1 < batches c u a i ->
  rknpu_fuzz_status (u32 v) = batch_mask c u a i tasks k ->
  exists d', rknpu_irq_handler i (raise_status i v d) = Ret tt d' /\ at_batch (k + 1) d' /\
    reg_writes d' = reg_writes d ++ ack i :: batch_writes c u a i tasks (k + 1) /\
    subcore_datas d' = subcore_datas d /\ wakeups d' = wakeups d.
Proof.
  intros Hk Hk0 Hlt Hv. destruct (irq_is_done d k v Hk Hv) as (d1 & (Hc & j & Hrun & Hu & _) & -> & Hw & Hs & Hwk).
  rewrite <- Hc, <- Hu in Hlt.
  destruct (run_next_batch d1 p i j a tasks k Hrun Hk0 Hlt)
    as (d' & j' & -> & Hrun' & Hc' & Hu' & s & n & first & last & Hb & Hf & Hl & Hm & Hw' & Hs' & Hwk').
  rewrite Hc in Hb, Hw'. rewrite Hu in Hb. pose proof (batch_ends_eq _ _ _ _ _ Hb Hf Hl) as He.
  exists d'. split; [done|]. split; [|split; [|split; congruence]].
  - split; [congruence|]. exists j'. split; [done|]. split; [congruence|].
    rewrite Hm. unfold batch_mask. by rewrite He.
  - rewrite Hw', Hw, <- app_assoc. unfold batch_writes. by rewrite He.
Qed.

(** The interrupts of the batches [k] to [k + length vs - 1]. *)
Lemma irqs_run (vs : list Z) : forall (k : Z) (d : rknpu_device),
  at_batch k d -> 0 <= k -> k + Z.of_nat (length vs) < batches c u a i ->
  (forall x v, vs !! x = Some v ->
    rknpu_fuzz_status (u32 v) = batch_mask c u a i tasks (k + Z.of_nat x)) ->
  exists d', irqs i vs d = Ret tt d' /\ at_batch (k + Z.of_nat (length vs)) d' /\
    reg_writes d' = reg_writes d ++
      mjoin ((fun x => ack i :: batch_writes c u a i tasks x) <$> seqZ (k + 1) (Z.of_nat (length vs))) /\
    subcore_datas d' = subcore_datas d /\ wakeups d' = wakeups d.
Proof.
  induction vs as [|v vs IH]; intros k d Hk Hk0 Hlt Hvs.
  - exists d. split; [done|]. split; [by replace (k + _) with k by (cbn; lia)|].
    cbn. by rewrite app_nil_r.
  - cbn [length] in *. destruct (irq_next_batch d k v Hk Hk0 ltac:(lia)) as (d1 & H1 & Hk1 & Hw1 & Hs1 & Hwk1).
    { rewrite (Hvs 0%nat v) by done. f_equal. lia. }
    destruct (IH (k + 1) d1 Hk1) as (d' & H2 & Hk2 & Hw2 & Hs2 & Hwk2); [lia|lia| |].
    { intros x w Hx. rewrite (Hvs (S x) w) by done. f_equal. lia. }
    exists d'. cbn [irqs]. unfold bind at 1, modify. unfold bind at 1. rewrite H1, H2.
    split; [done|]. split; [by replace (k + Z.of_nat (S (length vs))) with (k + 1 + Z.of_nat (length vs)) by lia|].
    split; [|split; congruence].
    rewrite Hw2, Hw1, <- app_assoc. replace (Z.of_nat (S (length vs))) with (Z.succ (Z.of_nat (length vs))) by lia.
    rewrite (seqZ_cons (k + 1)) by lia. rewrite Z.pred_succ. cbn. by replace (Z.succ (k + 1)) with (k + 1 + 1) by lia.
Qed.
End Irqs.

(** The registers written for batches 1 to [n - 1], with the interrupts
    acknowledged in between. *)
Definition batch_log (c : rknpu_config) (u : Z) (a : rknpu_submit) (i : Z)
    (tasks : list rknpu_task) (n : Z) : list reg_write :=
  mjoin ((fun x => ack i :: batch_writes c u a i tasks x) <$> seqZ 1 n).

Lemma bind_ret_tt (m : M unit) (d : rknpu_device) : (m ;; ret tt) d = m d.
Proof. unfold bind. by destruct (m d) as [[] ?| |]. Qed.

Lemma irqs_snoc {iommu : IommuDomain} (i v : Z) (vs : list Z) : forall d d1,
  irqs i vs d = Ret tt d1 -> irqs i (vs ++ [v]) d = rknpu_irq_handler i (raise_status i v d1).
Proof.
  induction vs as [|w vs IH]; intros d d1 H.
  - injection H as ->. change (irqs i ([] ++ [v]) d1) with
      ((rknpu_irq_handler i ;; ret tt) (raise_status i v d1)). apply bind_ret_tt.
  - change (irqs i ((w :: vs) ++ [v]) d) with
      ((rknpu_irq_handler i ;; irqs i (vs ++ [v])) (raise_status i w d)).
    change ((rknpu_irq_handler i ;; irqs i vs) (raise_status i w d) = Ret tt d1) in H.
    unfold bind in *. destruct (rknpu_irq_handler i (raise_status i w d)) as [? d2| |]; [|done..].
    by apply IH.
Qed.

(** C9: a job that runs alone on a core is driven to completion by its
    interrupts: while fewer interrupts than batches have come, the job keeps
    the core and each interrupt has acknowledged one batch and programmed the
    next, in order; the interrupt of the last batch finishes the job with
    return value 0, frees the core, takes its tasks off the load count and
    wakes its waiter, and no register is written after the acknowledgement. *)
Theorem job_completes_after_batches {iommu : IommuDomain} (p i u : Z) (a : rknpu_submit)
    (tasks : list rknpu_task) (c : rknpu_config) (d : rknpu_device) (vs : list Z) :
  let m := Z.of_nat (length vs) in
  at_batch p i u a tasks c 0 d -> m <= batches c u a i ->
  (forall x v, vs !! x = Some v -> rknpu_fuzz_status (u32 v) = batch_mask c u a i tasks (Z.of_nat x)) ->
  exists d', irqs i vs d = Ret tt d' /\
    if m <? batches c u a i then
      at_batch p i u a tasks c m d' /\ s_job (subcore_datas d' i) = Some p /\
      reg_writes d' = reg_writes d ++ batch_log c u a i tasks m /\ wakeups d' = wakeups d
    else
      job_finished d' p i /\
      task_num (subcore_datas d' i) = task_num (subcore_datas d i) - (task_range_of c u a i).2 /\
      reg_writes d' = reg_writes d ++ batch_log c u a i tasks (m - 1) ++ [ack i] /\
      wakeups d' = wakeups d ++ [if 1 <? u then 0 else i].
Proof.
  intros m Hrun Hm Hvs. subst m. destruct (Z.ltb_spec (Z.of_nat (length vs)) (batches c u a i)) as [Hlt|Hge].
  - destruct (irqs_run p i u a tasks c vs 0 d Hrun) as (d' & H1 & Hr & H2 & H3 & H4); [lia|lia|done|].
    exists d'. split; [done|]. split; [done|]. split; [|done].
    destruct Hr as (_ & j & Hr & _). apply Hr.
  - assert (0 < batches c u a i) as Hpos.
    { destruct Hrun as (<- & j & [Hc ? ? ? ? ? ? ? Hr ? ? ? ? ? ? ? ?] & <- & _).
      destruct (config_max _ Hc) as [Hmax Hs]. destruct Hr. unfold batches.
      rewrite Hs, batch_count_ceil by lia. by apply ceil_div_pos; [lia|]. }
    destruct (exists_last (l := vs)) as (vs' & v & ->); [intros ->; cbn [length] in *; lia|].
    rewrite length_app in *. cbn [length] in *.
    destruct (irqs_run p i u a tasks c vs' 0 d Hrun) as (d1 & H1 & Hr & H2 & H3 & H4); [lia|lia| |].
    { intros x w Hx. apply Hvs. by apply lookup_app_l_Some. }
    destruct (irq_is_done p i u a tasks c d1 _ v Hr) as (d2 & (Hc & j & Hr2 & Hu & _) & He & Hw & Hs & Hwk).
    { apply (Hvs (length vs')). apply list_lookup_middle. done. }
    destruct (run_last_batch d2 p i j a tasks _ Hr2) as (d' & Hd & Hfin & Htn & Hwake & Hlog).
    { rewrite Hc, Hu. lia. }
    exists d'. rewrite (irqs_snoc i v vs' d d1) by done. rewrite He. split; [done|]. split; [done|].
    split; [by rewrite Htn, Hc, Hu, Hs, H3|].
    split; [|by rewrite Hwake, Hwk, H4, Hu].
    rewrite Hlog, Hw, H2, <- app_assoc. unfold batch_log. repeat f_equal. lia.
Qed.

(** A job of 5000 tasks, two batches, on the core of the RK356x. *)
Definition example_running : rknpu_device :=
  let a := example_args RKNPU_JOB_PC 1 5000 in
  (example_job_dev rk356x_rknpu_config RKNPU_JOB_PC 1 5000)
    <| gem_objects := {[ 64 := {| o_kv_addr := Some (replicate (Z.to_nat 5010) (example_task 0x300));
                                  o_refcount := 2 |} ]} |>
    <| jobs := {[ 10 := (new_job 20 a 500) <| j_use_drm_gem := true |>
                                           <| j_int_mask := fun _ => 0x300 |> ]} |>
    <| subcore_datas ::= alter (fun s => s <| s_job := Some 10 |> <| task_num := 5000 |>) 0 |>.

Lemma job_completes_after_batches_witness :
  exists d', irqs (iommu := iommu_domain_stub) 0 [0x100; 0x200] example_running = Ret tt d' /\
    job_finished d' 10 0 /\ task_num (subcore_datas d' 0) = 0 /\ wakeups d' = [0].
Proof.
  set (a := example_args RKNPU_JOB_PC 1 5000). set (t := replicate (Z.to_nat 5010) (example_task 0x300)).
  destruct (job_completes_after_batches (iommu := iommu_domain_stub) 10 0 1 a t
    rk356x_rknpu_config example_running [0x100; 0x200]) as (d' & H & Hd).
  - split; [reflexivity|].
    exists ((new_job 20 a 500) <| j_use_drm_gem := true |> <| j_int_mask := fun _ => 0x300 |>).
    split; [|split; reflexivity].
    constructor; try (vm_compute; (reflexivity || discriminate)).
    + apply (config_of_wf RK356X).
    + exists {| o_kv_addr := Some t; o_refcount := 2 |}. split; reflexivity.
    + split; [discriminate | reflexivity].
    + split; vm_compute; congruence.
  - vm_compute. discriminate.
  - intros [|[|x]] v Hv; [injection Hv as <-; reflexivity..|done].
  - exists d'. split; [exact H|]. change (job_finished d' 10 0 /\
      task_num (subcore_datas d' 0) = 5000 - 5000 /\
      reg_writes d' = reg_writes example_running ++
        batch_log rk356x_rknpu_config 1 a 0 t 1 ++ [ack 0] /\ wakeups d' = [] ++ [0]) in Hd.
    destruct Hd as (H1 & H2 & _ & H3). auto.
Defined.
