(* ===== verification/Power.v ===== *)
(** * Power management: the reference count and what it switches

    rknpu_power_on, rknpu_power_off, the functions that count references on
    them, the delayed power-off work, and the debugger's power node. *)

From S2P Require Import Prelude Config Domain Device Reset.

(** ** State *)

(** The answers of the kernel to one rknpu_power_on. *)
Record on_answer := {
  clk_ret : Z;               (* clk_bulk_prepare_enable *)
  npu_ret : per_core Z;      (* pm_runtime_resume_and_get of npu0, npu1, npu2 *)
  dev_ret : Z }.             (* pm_runtime_get_sync of the device *)

(** The counts are the references the driver holds: on the clocks, on the
    device's runtime PM and on the power domains npu0, npu1, npu2.
    [inits] counts the calls of the configuration's state_init. *)
Record power_state := {
  power_refcount : Z;
  cmdline_power_refcount : Z;
  power_put_delay : Z;
  power_off_work : bool;     (* the delayed work is queued *)
  clk_enabled : Z;
  rt_dev : Z;
  rt_npu : per_core Z;
  inits : Z }.
#[export] Instance power_state_settable : Settable power_state := {| settable := fun s =>
  Build_power_state (power_refcount s) (cmdline_power_refcount s) (power_put_delay s)
    (power_off_work s) (clk_enabled s) (rt_dev s) (rt_npu s) (inits s) |}.

(** What probe found: more than one power domain, and which of them. *)
Record power_layout := {
  multiple_domains : bool;
  genpd_dev_npu : per_core bool;
  has_state_init : bool }.

(** ** Operations *)

Section Power.
Context (l : power_layout).

(** The block of one power domain: its result, or [None] to go on. *)
Definition get_domain (ans : on_answer) (core : Z) (s : power_state) : option Z * power_state :=
  if genpd_dev_npu l core then
    if npu_ret ans core <? 0 then (Some (npu_ret ans core), s)
    else (None, s <| rt_npu ::= alter Z.succ core |>)
  else (None, s).

Fixpoint get_domains (ans : on_answer) (cores : list Z) (s : power_state) : option Z * power_state :=
  match cores with
  | [] => (None, s)
  | core :: cores =>
      match get_domain ans core s with
      | (Some ret, s) => (Some ret, s)
      | (None, s) => get_domains ans cores s
      end
  end.

Definition rknpu_power_on (ans : on_answer) (s : power_state) : Z * power_state :=
  if negb (clk_ret ans =? 0) then (clk_ret ans, s)
  else
    let s := s <| clk_enabled ::= Z.succ |> in
    match (if multiple_domains l then get_domains ans [0; 1; 2] s else (None, s)) with
    | (Some ret, s) => (ret, s)
    | (None, s) =>
        let s := s <| rt_dev ::= Z.succ |> in
        (dev_ret ans, if has_state_init l then s <| inits ::= Z.succ |> else s)
    end.

Definition put_domain (core : Z) (s : power_state) : power_state :=
  if genpd_dev_npu l core then s <| rt_npu ::= alter Z.pred core |> else s.

(** [poll] is the result of readx_poll_timeout on the IOMMU. *)
Definition rknpu_power_off (poll : Z) (s : power_state) : Z * power_state :=
  let s := s <| rt_dev ::= Z.pred |> in
  if multiple_domains l && negb (poll =? 0) then (poll, s <| rt_dev ::= Z.succ |>)
  else
    let s := if multiple_domains l then put_domain 0 (put_domain 1 (put_domain 2 s)) else s in
    (0, s <| clk_enabled ::= Z.pred |>).

(** [atomic_dec_if_positive]: the old value minus one, stored unless negative. *)
Definition dec_if_positive (x : Z) : Z * Z :=
  let x' := s32 (x - 1) in (x', if x' <? 0 then x else x').

Definition rknpu_power_get (ans : on_answer) (s : power_state) : Z * power_state :=
  let s := s <| power_refcount ::= (fun x => s32 (x + 1)) |> in
  if power_refcount s =? 1 then rknpu_power_on ans s else (0, s).

(** The region of rknpu_power_put and rknpu_power_off_delay_work that holds
    power_lock. *)
Definition put_locked (poll : Z) (s : power_state) : Z * power_state :=
  let '(x, x') := dec_if_positive (power_refcount s) in
  let s := s <| power_refcount := x' |> in
  if x =? 0 then
    let '(ret, s) := rknpu_power_off poll s in
    if negb (ret =? 0) then (ret, s <| power_refcount ::= (fun x => s32 (x + 1)) |>) else (ret, s)
  else (0, s).

(** The region of rknpu_power_put_delay that holds power_lock. *)
Definition put_delay_locked (s : power_state) : power_state :=
  if power_refcount s =? 1 then s <| power_off_work := true |>
  else s <| power_refcount ::= (fun x => (dec_if_positive x).2) |>.

(** rknpu_power_put and rknpu_power_put_delay call each other; [polls] are the
    results of the power-offs they attempt, and [None] means that more were
    needed. *)
Fixpoint rknpu_power_put (polls : list Z) (s : power_state) : option (Z * power_state) :=
  match polls with
  | [] => None
  | poll :: polls =>
      let '(ret, s) := put_locked poll s in
      if negb (ret =? 0) then
        if power_put_delay s =? 0 then option_map (fun r => (ret, r.2)) (rknpu_power_put polls s)
        else Some (ret, put_delay_locked s)
      else Some (ret, s)
  end.

Definition rknpu_power_put_delay (polls : list Z) (s : power_state) : option (Z * power_state) :=
  if power_put_delay s =? 0 then rknpu_power_put polls s else Some (0, put_delay_locked s).

Definition rknpu_power_off_delay_work (polls : list Z) (s : power_state) : option power_state :=
  match polls with
  | [] => None
  | poll :: polls =>
      let '(ret, s) := put_locked poll (s <| power_off_work := false |>) in
      if negb (ret =? 0) then option_map snd (rknpu_power_put_delay polls s) else Some s
  end.

(** rknpu_power_set, after it has read "on" or "off". *)
Definition power_set_on (ans : on_answer) (s : power_state) : power_state :=
  (rknpu_power_get ans (s <| cmdline_power_refcount ::= (fun x => s32 (x + 1)) |>)).2.
(** The part of the "off" branch before its rknpu_power_put; whether it calls it. *)
Definition power_set_off (s : power_state) : bool * power_state :=
  if 0 <? power_refcount s then
    let '(x, x') := dec_if_positive (cmdline_power_refcount s) in
    if 0 <=? x then
      (true, s <| power_refcount ::= (fun r => s32 (r - x')) |> <| cmdline_power_refcount := 0 |>)
    else (false, s <| cmdline_power_refcount := x' |>)
  else (false, s).
End Power.

(** ** The system: holders of references, and the work

    [users] counts the calls of rknpu_power_get not yet paid back (by an
    ioctl, by suspend, by a debugger read), [retries] the threads that failed
    to power off in rknpu_power_put or in the work and have yet to call
    rknpu_power_put_delay.  Each step is one region under power_lock. *)
Record power_system := { dev : power_state; users : Z; retries : Z }.
#[export] Instance power_system_settable : Settable power_system := {| settable := fun y =>
  Build_power_system (dev y) (users y) (retries y) |}.

Inductive power_op :=
  | Get (ans : on_answer)          (* rknpu_power_get *)
  | Put (poll : Z)                 (* rknpu_power_put *)
  | PutDelay (poll : Z)            (* rknpu_power_put_delay *)
  | Work (poll : Z)                (* rknpu_power_off_delay_work *)
  | Retry (poll : Z)               (* the rknpu_power_put_delay after a failed power-off *)
  | CmdOn (ans : on_answer)        (* echo on > power *)
  | CmdOff (poll : Z)              (* echo off > power *)
  | SetDelay (v : Z).              (* echo v > delayms *)

Section System.
Context (l : power_layout).

Definition put_section (poll : Z) (y : power_system) : power_system :=
  let '(ret, s) := put_locked l poll (dev y) in
  y <| dev := s |> <| retries ::= Z.add (if ret =? 0 then 0 else 1) |>.

Definition delay_section (poll : Z) (y : power_system) : power_system :=
  if power_put_delay (dev y) =? 0 then put_section poll y
  else y <| dev ::= put_delay_locked |>.

Definition power_step (op : power_op) (y : power_system) : option power_system :=
  match op with
  | Get ans => Some (y <| dev ::= (fun s => (rknpu_power_get l ans s).2) |> <| users ::= Z.succ |>)
  | Put poll => if 0 <? users y then Some (put_section poll (y <| users ::= Z.pred |>)) else None
  | PutDelay poll => if 0 <? users y then Some (delay_section poll (y <| users ::= Z.pred |>)) else None
  | Work poll =>
      if power_off_work (dev y) then
        Some (put_section poll (y <| dev ::= (fun s => s <| power_off_work := false |>) |>))
      else None
  | Retry poll => if 0 <? retries y then Some (delay_section poll (y <| retries ::= Z.pred |>)) else None
  | CmdOn ans => Some (y <| dev ::= power_set_on l ans |>)
  | CmdOff poll =>
      let '(put, s) := power_set_off (dev y) in
      Some (if put then put_section poll (y <| dev := s |>) else y <| dev := s |>)
  | SetDelay v => Some (y <| dev ::= (fun s => s <| power_put_delay := v |>) |>)
  end.

Fixpoint power_run (ops : list power_op) (y : power_system) : option power_system :=
  match ops with
  | [] => Some y
  | op :: ops => match power_step op y with Some y => power_run ops y | None => None end
  end.

(** ** The invariant *)

(** What the driver holds is what [b], the device being on, says. *)
Record holds (b : bool) (s : power_state) : Prop := {
  ho_clk : clk_enabled s = Z.b2z b;
  ho_dev : rt_dev s = Z.b2z b;
  ho_npu : forall core, rt_npu s core =
    if multiple_domains l && genpd_dev_npu l core && bool_decide (0 <= core < 3) then Z.b2z b else 0;
}.

Definition refs (y : power_system) : Z :=
  users y + retries y + cmdline_power_refcount (dev y) + Z.b2z (power_off_work (dev y)).

Record balanced (y : power_system) : Prop := {
  ba_users : 0 <= users y;
  ba_retries : 0 <= retries y;
  ba_cmdline : 0 <= cmdline_power_refcount (dev y);
  ba_refs : power_refcount (dev y) = refs y;
  ba_holds : holds (0 <? power_refcount (dev y)) (dev y);
}.

(** The kernel grants what rknpu_power_on asks for. *)
Definition on_ok (ans : on_answer) : Prop :=
  clk_ret ans = 0 /\ (forall core, 0 <= npu_ret ans core) /\ 0 <= dev_ret ans.
Definition op_ok (op : power_op) : Prop :=
  match op with Get ans | CmdOn ans => on_ok ans | _ => True end.

(** The fields that power_on and power_off leave alone. *)
Definition same_refs (s s' : power_state) : Prop :=
  power_refcount s' = power_refcount s /\ cmdline_power_refcount s' = cmdline_power_refcount s /\
  power_off_work s' = power_off_work s /\ power_put_delay s' = power_put_delay s.

Lemma same_refs_trans (s1 s2 s3 : power_state) : same_refs s1 s2 -> same_refs s2 s3 -> same_refs s1 s3.
Proof. unfold same_refs. intuition congruence. Qed.

(** *** The references on the power domains *)

Definition shift (f : Z -> Z) (s : power_state) (core : Z) : power_state :=
  if genpd_dev_npu l core then s <| rt_npu ::= alter f core |> else s.
Definition shifts (f : Z -> Z) (cores : list Z) (s : power_state) : power_state :=
  foldl (shift f) s cores.

Lemma shifts_frame (f : Z -> Z) (cores : list Z) : forall s,
  same_refs s (shifts f cores s) /\ clk_enabled (shifts f cores s) = clk_enabled s /\
  rt_dev (shifts f cores s) = rt_dev s.
Proof.
  induction cores as [|c cores IH]; intros s; [done|]. cbn [shifts foldl].
  destruct (IH (shift f s c)) as (H1 & H2 & H3). unfold shifts in *. rewrite H2, H3.
  unfold shift in *. by destruct (genpd_dev_npu l c).
Qed.

Lemma shifts_npu (f : Z -> Z) (cores : list Z) (core : Z) : forall s, NoDup cores ->
  rt_npu (shifts f cores s) core =
    if genpd_dev_npu l core && bool_decide (core ∈ cores) then f (rt_npu s core) else rt_npu s core.
Proof.
  induction cores as [|c cores IH]; intros s Hnd; inversion Hnd as [|? ? Hc Hnd']; subst.
  { rewrite bool_decide_false, andb_false_r by set_solver. done. }
  cbn [shifts foldl]. fold (shifts f cores (shift f s c)). rewrite IH by done.
  destruct (decide (core = c)) as [->|Hne].
  - rewrite (bool_decide_false (c ∈ cores)), (bool_decide_true (c ∈ c :: cores)) by set_solver.
    unfold shift. destruct (genpd_dev_npu l c); cbn; [by rewrite fn_lookup_alter | done].
  - rewrite (bool_decide_ext (core ∈ c :: cores) (core ∈ cores)) by set_solver.
    replace (rt_npu (shift f s c) core) with (rt_npu s core); [done|].
    unfold shift. destruct (genpd_dev_npu l c); cbn; [by rewrite fn_lookup_alter_ne | done].
Qed.

Lemma get_domains_ok (ans : on_answer) (cores : list Z) : on_ok ans ->
  forall s, get_domains l ans cores s = (None, shifts Z.succ cores s).
Proof.
  intros (_ & Hn & _). induction cores as [|c cores IH]; intros s; [done|].
  cbn [get_domains shifts foldl]. unfold get_domain, shift.
  rewrite (proj2 (Z.ltb_ge _ _) (Hn c)). destruct (genpd_dev_npu l c); apply IH.
Qed.

Lemma in_cores (core : Z) (cores : list Z) :
  cores ≡ₚ [0; 1; 2] -> bool_decide (core ∈ cores) = bool_decide (0 <= core < 3).
Proof.
  intros Hp. apply bool_decide_ext. rewrite Hp, !elem_of_cons, elem_of_nil. lia.
Qed.

(** Shifting every count moves from one side of [holds] to the other. *)
Lemma holds_shift (b b' : bool) (f : Z -> Z) (cores : list Z) (s s' : power_state) :
  cores ≡ₚ [0; 1; 2] -> f (Z.b2z b) = Z.b2z b' -> holds b s ->
  s' = (if multiple_domains l then shifts f cores s else s) ->
  same_refs s s' /\ clk_enabled s' = Z.b2z b /\ rt_dev s' = Z.b2z b /\
  forall core, rt_npu s' core =
    if multiple_domains l && genpd_dev_npu l core && bool_decide (0 <= core < 3) then Z.b2z b' else 0.
Proof.
  intros Hp Hf [H1 H2 H3] ->. destruct (multiple_domains l) eqn:Hm; cbn [andb] in *.
  - destruct (shifts_frame f cores s) as (F1 & F2 & F3).
    split; [done|]. split; [congruence|]. split; [congruence|]. intros core.
    rewrite shifts_npu by (rewrite Hp; repeat constructor; set_solver).
    rewrite (in_cores core cores Hp), H3.
    destruct (genpd_dev_npu l core && bool_decide (0 <= core < 3)); done.
  - done.
Qed.

Lemma power_on_holds (ans : on_answer) (s s' : power_state) (ret : Z) :
  on_ok ans -> holds false s -> rknpu_power_on l ans s = (ret, s') ->
  holds true s' /\ same_refs s s'.
Proof.
  intros Hans Hs Hon. pose proof Hans as (Hc & _). unfold rknpu_power_on in Hon. cbv zeta in Hon.
  rewrite Hc in Hon. cbn [Z.eqb negb] in Hon. rewrite get_domains_ok in Hon by done.
  destruct (holds_shift false true Z.succ [0; 1; 2] s _ (reflexivity _) eq_refl Hs eq_refl)
    as (H1 & H2 & H3 & H4).
  set (s1 := if multiple_domains l then shifts Z.succ [0; 1; 2] s else s) in *.
  assert (Hx : (if multiple_domains l
      then (None, shifts Z.succ [0; 1; 2] (s <| clk_enabled ::= Z.succ |>))
      else (None (A := Z), s <| clk_enabled ::= Z.succ |>)) = (None, s1 <| clk_enabled ::= Z.succ |>)).
  { subst s1. destruct (multiple_domains l); [|done]. f_equal. unfold shifts. cbn [foldl].
    unfold shift. by destruct (genpd_dev_npu l 0), (genpd_dev_npu l 1), (genpd_dev_npu l 2). }
  rewrite Hx in Hon. injection Hon as _ <-.
  split; [split|]; destruct (has_state_init l); cbn; rewrite ?H2, ?H3; done.
Qed.

Lemma power_off_holds (poll : Z) (s s' : power_state) (ret : Z) :
  holds true s -> rknpu_power_off l poll s = (ret, s') ->
  holds (negb (ret =? 0)) s' /\ same_refs s s'.
Proof.
  intros Hs Hoff. unfold rknpu_power_off in Hoff. cbv zeta in Hoff.
  destruct (multiple_domains l && negb (poll =? 0)) eqn:Hp.
  - injection Hoff as <- <-. apply andb_true_iff in Hp as [_ Hp]. rewrite Hp.
    split; [|done]. destruct Hs as [H1 H2 H3]. split; [done | cbn; rewrite H2; done | done].
  - destruct (holds_shift true false Z.pred [2; 1; 0] s _ (reverse_Permutation [0; 1; 2]) eq_refl Hs eq_refl)
      as (H1 & H2 & H3 & H4).
    set (s1 := if multiple_domains l then shifts Z.pred [2; 1; 0] s else s) in *.
    assert (Hx : (if multiple_domains l
        then put_domain l 0 (put_domain l 1 (put_domain l 2 (s <| rt_dev ::= Z.pred |>)))
        else s <| rt_dev ::= Z.pred |>) = s1 <| rt_dev ::= Z.pred |>).
    { subst s1. destruct (multiple_domains l); [|done]. unfold shifts. cbn [foldl].
      unfold shift, put_domain.
      by destruct (genpd_dev_npu l 0), (genpd_dev_npu l 1), (genpd_dev_npu l 2). }
    rewrite Hx in Hoff. injection Hoff as <- <-. cbn [Z.eqb negb].
    split; [split|]; cbn; rewrite ?H2, ?H3; done.
Qed.

(** *** One region under the lock *)

Lemma dec_if_positive_pos (x : Z) : 0 < x < 2 ^ 31 -> dec_if_positive x = (x - 1, x - 1).
Proof.
  intros Hx. unfold dec_if_positive. rewrite s32_small by lia.
  by rewrite (proj2 (Z.ltb_ge _ _)) by lia.
Qed.

(** Whoever holds a reference gives it back, or keeps it when the power-off
    failed. *)
Lemma put_locked_holds (poll ret : Z) (s s' : power_state) :
  0 < power_refcount s < 2 ^ 31 -> holds true s -> put_locked l poll s = (ret, s') ->
  holds (0 <? power_refcount s') s' /\
  power_refcount s' = power_refcount s - 1 + (if ret =? 0 then 0 else 1) /\
  cmdline_power_refcount s' = cmdline_power_refcount s /\
  power_off_work s' = power_off_work s /\ power_put_delay s' = power_put_delay s.
Proof.
  intros Hr Hs Hput. unfold put_locked in Hput. rewrite dec_if_positive_pos in Hput by done.
  set (s1 := s <| power_refcount := power_refcount s - 1 |>) in *.
  assert (Hs1 : holds true s1) by (destruct Hs; by split).
  destruct (Z.eqb_spec (power_refcount s - 1) 0) as [H0|H0].
  - destruct (rknpu_power_off l poll s1) as [r s2] eqn:Hoff.
    destruct (power_off_holds _ _ _ _ Hs1 Hoff) as (Hh & H1 & H2 & H3 & H4).
    change (power_refcount s1) with (power_refcount s - 1) in H1.
    destruct (Z.eqb_spec r 0) as [->|Hr0]; cbn [negb] in *; injection Hput as <- <-.
    + rewrite H1, H0. done.
    + rewrite (proj2 (Z.eqb_neq _ _) Hr0). cbn. rewrite H1, H0. cbn.
      split; [by destruct Hh; split|]. done.
  - injection Hput as <- <-. split; [|cbn; split; [lia | done]].
    replace (0 <? power_refcount s1) with true; [done|]. symmetry. apply Z.ltb_lt. cbn. lia.
Qed.

(** The state of the system apart from one reference in some thread's hands. *)
Definition balanced_with (extra : Z) (y : power_system) : Prop :=
  0 <= users y /\ 0 <= retries y /\ 0 <= cmdline_power_refcount (dev y) /\
  power_refcount (dev y) = refs y + extra /\
  holds (0 <? power_refcount (dev y)) (dev y).

Lemma balanced_0 (y : power_system) : balanced_with 0 y <-> balanced y.
Proof.
  unfold balanced_with. rewrite Z.add_0_r.
  split; [intros (?&?&?&?&?); by split | intros []; done].
Qed.

Lemma refs_nonneg (y : power_system) : 0 <= users y -> 0 <= retries y ->
  0 <= cmdline_power_refcount (dev y) -> 0 <= refs y.
Proof. intros. unfold refs. destruct (power_off_work (dev y)); cbn; lia. Qed.

Lemma put_section_balanced (poll : Z) (y : power_system) :
  balanced_with 1 y -> power_refcount (dev y) < 2 ^ 31 ->
  balanced (put_section poll y) /\
  power_refcount (dev (put_section poll y)) <= power_refcount (dev y).
Proof.
  intros (H1 & H2 & H3 & H4 & H5) Hb. pose proof (refs_nonneg y H1 H2 H3) as Hpos.
  rewrite (proj2 (Z.ltb_lt _ _)) in H5 by lia. unfold put_section.
  destruct (put_locked l poll (dev y)) as [r s] eqn:Hput.
  destruct (put_locked_holds poll r (dev y) s ltac:(lia) H5 Hput) as (P1 & P2 & P3 & P4 & P5).
  split; [|cbn; rewrite P2; destruct (r =? 0); lia].
  unfold refs in *. split; cbn; [done | destruct (r =? 0); lia | lia | | done].
  unfold refs. cbn. rewrite P2, P3, P4, H4. destruct (r =? 0); lia.
Qed.

Lemma put_delay_locked_cases (s : power_state) : 0 < power_refcount s < 2 ^ 31 ->
  (power_refcount s = 1 /\ put_delay_locked s = s <| power_off_work := true |>) \/
  (1 < power_refcount s /\ put_delay_locked s = s <| power_refcount := power_refcount s - 1 |>).
Proof.
  intros Hr. unfold put_delay_locked. destruct (Z.eqb_spec (power_refcount s) 1) as [He|Hne].
  - left. done.
  - right. split; [lia|]. destruct s. cbn -[dec_if_positive] in *. by rewrite dec_if_positive_pos.
Qed.

Lemma put_delay_balanced (y : power_system) :
  balanced_with 1 y -> power_refcount (dev y) < 2 ^ 31 ->
  balanced (y <| dev ::= put_delay_locked |>) /\
  power_refcount (put_delay_locked (dev y)) <= power_refcount (dev y).
Proof.
  intros (H1 & H2 & H3 & H4 & H5) Hb. pose proof (refs_nonneg y H1 H2 H3) as Hpos.
  rewrite (proj2 (Z.ltb_lt _ _)) in H5 by lia.
  destruct (put_delay_locked_cases (dev y) ltac:(lia)) as [[He Hd]|[Hlt Hd]].
  - assert (power_off_work (dev y) = false) as Hw.
    { unfold refs in *. destruct (power_off_work (dev y)); [cbn in *; lia | done]. }
    unfold refs in *. rewrite Hw in *. cbn in *. split; [|rewrite Hd; done]. split; cbn; rewrite ?Hd; cbn; [done..| |].
    + unfold refs. cbn. rewrite ?Hd. cbn. lia.
    + rewrite He. by destruct H5; split.
  - unfold refs in *. split; [|rewrite Hd; cbn; lia]. split; cbn; rewrite ?Hd; cbn; [done..| |].
    + unfold refs. cbn. rewrite ?Hd. cbn. lia.
    + rewrite (proj2 (Z.ltb_lt _ _)) by lia. by destruct H5; split.
Qed.

Lemma delay_section_balanced (poll : Z) (y : power_system) :
  balanced_with 1 y -> power_refcount (dev y) < 2 ^ 31 ->
  balanced (delay_section poll y) /\
  power_refcount (dev (delay_section poll y)) <= power_refcount (dev y).
Proof.
  intros Hy Hb. unfold delay_section. destruct (power_put_delay (dev y) =? 0).
  - by apply put_section_balanced.
  - by apply put_delay_balanced.
Qed.

Lemma power_get_balanced (ans : on_answer) (y : power_system) (s : power_state) (extra : Z) :
  on_ok ans -> balanced_with extra y -> 0 <= power_refcount (dev y) < 2 ^ 31 - 1 ->
  (rknpu_power_get l ans (dev y)).2 = s -> balanced_with (extra + 1) (y <| dev := s |>) /\
  cmdline_power_refcount s = cmdline_power_refcount (dev y) /\
  power_refcount s = power_refcount (dev y) + 1.
Proof.
  intros Hans (H1 & H2 & H3 & H4 & H5) Hb Hg. unfold rknpu_power_get in Hg.
  set (s1 := (dev y) <| power_refcount ::= (fun x => s32 (x + 1)) |>) in *.
  assert (E1 : power_refcount s1 = power_refcount (dev y) + 1) by (cbn; rewrite s32_small; lia).
  assert (same_refs s1 s /\ holds true s) as [(F1 & F2 & F3 & F4) Hh].
  { destruct (Z.eqb_spec (power_refcount s1) 1) as [He|Hne].
    - destruct (rknpu_power_on l ans s1) as [r s'] eqn:Hon. cbn in Hg. subst s'.
      replace (0 <? power_refcount (dev y)) with false in H5 by (symmetry; apply Z.ltb_ge; lia).
      assert (holds false s1) as Hs1 by (destruct H5; by split).
      by destruct (power_on_holds _ _ _ _ Hans Hs1 Hon).
    - cbn in Hg. subst s. split; [done|].
      rewrite (proj2 (Z.ltb_lt _ _)) in H5 by lia. destruct H5; by split. }
  split; [|split; [done|lia]]. rewrite E1 in F1.
  split; [done|]. split; [done|]. split; [cbn; by rewrite F2|].
  unfold refs in *. cbn. rewrite F1, F2, F3. split; [cbn; lia|].
  by rewrite (proj2 (Z.ltb_lt _ _)) by lia.
Qed.

(** *** Every step *)

Lemma power_set_off_balanced (y : power_system) (put : bool) (s : power_state) :
  balanced y -> power_refcount (dev y) < 2 ^ 31 -> power_set_off (dev y) = (put, s) ->
  balanced_with (if put then 1 else 0) (y <| dev := s |>) /\
  power_refcount s <= power_refcount (dev y).
Proof.
  intros [H1 H2 H3 H4 H5] Hb. pose proof (refs_nonneg y H1 H2 H3) as Hpos. unfold power_set_off.
  assert (Hsame : balanced_with 0 (y <| dev := dev y |>)) by (apply balanced_0; by split).
  destruct (Z.ltb_spec 0 (power_refcount (dev y))) as [Hp|Hp]; [|intros [= <- <-]; done].
  assert (cmdline_power_refcount (dev y) <= refs y)
    by (unfold refs; destruct (power_off_work (dev y)); cbn; lia).
  destruct (decide (cmdline_power_refcount (dev y) = 0)) as [H0|H0].
  - assert (E : (dev y) <| cmdline_power_refcount := 0 |> = dev y)
      by (revert H0; destruct (dev y); cbn; by intros ->).
    unfold dec_if_positive. rewrite H0.
    change (s32 (0 - 1)) with (-1). intros Heq.
    assert (put = false /\ s = dev y) as [-> ->]; [|done].
    rewrite <- E. by injection Heq as <- <-.
  - rewrite dec_if_positive_pos by lia.
    rewrite (proj2 (Z.leb_le _ _)) by lia.
    assert (Hs : s32 (power_refcount (dev y) - (cmdline_power_refcount (dev y) - 1)) =
      power_refcount (dev y) - (cmdline_power_refcount (dev y) - 1)) by (rewrite s32_small; lia).
    cbn -[s32 Z.sub]. rewrite Hs. set (r' := power_refcount (dev y) - _).
    intros [= <- <-]. cbn [power_refcount]. subst r'. split; [|lia].
    unfold balanced_with, refs in *. cbn.
    split; [done|]. split; [done|]. split; [done|]. split; [lia|].
    rewrite (proj2 (Z.ltb_lt _ _)) by (destruct (power_off_work (dev y)); cbn in *; lia).
    by destruct H5; split.
Qed.

Lemma power_step_balanced (op : power_op) (y y' : power_system) :
  op_ok op -> balanced y -> power_refcount (dev y) < 2 ^ 31 - 1 -> power_step op y = Some y' ->
  balanced y' /\ power_refcount (dev y') <= power_refcount (dev y) + 1.
Proof.
  intros Hop Hy Hb Hstep. pose proof Hy as [H1 H2 H3 H4 H5].
  pose proof (refs_nonneg y H1 H2 H3) as Hpos.
  destruct op as [ans|poll|poll|poll|poll|ans|poll|v]; cbn [power_step] in Hstep.
  - injection Hstep as <-.
    destruct (power_get_balanced ans y _ 0 Hop (proj2 (balanced_0 y) Hy) ltac:(lia) eq_refl)
      as ((G1 & G2 & G3 & G4 & G5) & _ & G6).
    unfold refs in *. split; [|cbn in *; lia]. split; cbn in *; [lia|done|done| |done].
    unfold refs. cbn. lia.
  - destruct (Z.ltb_spec 0 (users y)); [|done]. injection Hstep as <-.
    destruct (put_section_balanced poll (y <| users ::= Z.pred |>)) as [? Hle]; [|cbn; lia|].
    + unfold balanced_with, refs in *. cbn. split; [lia|]. do 2 (split; [done|]). split; [lia|done].
    + split; [done|]. cbn in Hle |- *. lia.
  - destruct (Z.ltb_spec 0 (users y)); [|done]. injection Hstep as <-.
    destruct (delay_section_balanced poll (y <| users ::= Z.pred |>)) as [? Hle]; [|cbn; lia|].
    + unfold balanced_with, refs in *. cbn. split; [lia|]. do 2 (split; [done|]). split; [lia|done].
    + split; [done|]. cbn in Hle |- *. lia.
  - destruct (power_off_work (dev y)) eqn:Hw; [|done]. injection Hstep as <-.
    destruct (put_section_balanced poll (y <| dev ::= (fun s => s <| power_off_work := false |>) |>))
      as [? Hle]; [|cbn; lia|].
    + unfold balanced_with, refs in *. cbn. do 3 (split; [done|]). rewrite Hw in H4. cbn in H4.
      split; [lia|]. by destruct H5; split.
    + split; [done|]. cbn in Hle |- *. lia.
  - destruct (Z.ltb_spec 0 (retries y)); [|done]. injection Hstep as <-.
    destruct (delay_section_balanced poll (y <| retries ::= Z.pred |>)) as [? Hle]; [|cbn; lia|].
    + unfold balanced_with, refs in *. cbn. split; [done|]. split; [lia|]. split; [done|].
      split; [lia|done].
    + split; [done|]. cbn in Hle |- *. lia.
  - injection Hstep as <-.
    assert (cmdline_power_refcount (dev y) <= refs y)
      by (unfold refs; destruct (power_off_work (dev y)); cbn; lia).
    set (y1 := y <| dev ::= (fun s => s <| cmdline_power_refcount ::= (fun x => s32 (x + 1)) |>) |>).
    assert (Hy1 : balanced_with (-1) y1).
    { unfold balanced_with, refs in *. subst y1. cbn. rewrite s32_small by lia.
      do 2 (split; [done|]). split; [lia|]. split; [lia|]. by destruct H5; split. }
    destruct (power_get_balanced ans y1 _ (-1) Hop Hy1 ltac:(unfold y1; cbn; lia) eq_refl) as (Hg & _ & Hr).
    split; [by apply balanced_0|]. apply Z.eq_le_incl. exact Hr.
  - destruct (power_set_off (dev y)) as [put s] eqn:Hoff. injection Hstep as <-.
    destruct (power_set_off_balanced y put s Hy ltac:(lia) Hoff) as [Hs Hle].
    destruct put; [|split; [by apply balanced_0 | cbn; lia]].
    destruct (put_section_balanced poll (y <| dev := s |>) Hs ltac:(cbn; lia)) as [? Hle'].
    split; [done|]. cbn in Hle' |- *. lia.
  - injection Hstep as <-. split; [|cbn; lia]. by destruct H5; split.
Qed.

Lemma power_run_balanced (ops : list power_op) : forall y y',
  Forall op_ok ops -> balanced y ->
  power_refcount (dev y) + Z.of_nat (length ops) < 2 ^ 31 ->
  power_run ops y = Some y' -> balanced y'.
Proof.
  induction ops as [|op ops IH]; intros y y' Hops Hy Hb Hrun; [by injection Hrun as <-|].
  inversion Hops; subst. cbn [power_run length] in *.
  destruct (power_step op y) as [y1|] eqn:Hstep; [|done].
  destruct (power_step_balanced op y y1) as [Hy1 Hle]; [done|done|lia|done|].
  apply (IH y1); [done|done|lia|done].
Qed.
End System.

(** The system when probe returns: the device is off and nobody holds it. *)
Definition initial_power (delay : Z) : power_system :=
  {| dev := {| power_refcount := 0; cmdline_power_refcount := 0; power_put_delay := delay;
               power_off_work := false; clk_enabled := 0; rt_dev := 0; rt_npu := fun _ => 0;
               inits := 0 |};
     users := 0; retries := 0 |}.


Definition ok_answer : on_answer := {| clk_ret := 0; npu_ret := fun _ => 0; dev_ret := 1 |}.
Definition rk3588_layout : power_layout :=
  {| multiple_domains := true; genpd_dev_npu := fun _ => true; has_state_init := false |}.


(** ** Power-offs that fail *)

Lemma put_locked_fail (l : power_layout) (poll : Z) (s : power_state) :
  multiple_domains l = true -> poll <> 0 -> power_refcount s = 1 -> put_locked l poll s = (poll, s).
Proof.
  intros Hm Hp Hr. unfold put_locked. rewrite Hr. cbn -[rknpu_power_off].
  unfold rknpu_power_off. rewrite Hm, (proj2 (Z.eqb_neq _ _) Hp). cbn.
  rewrite (proj2 (Z.eqb_neq _ _) Hp). cbn. f_equal. destruct s; cbn in *. subst.
  by rewrite Z.succ_pred.
Qed.

(** With no delay, rknpu_power_put and rknpu_power_put_delay call each
    other until a power-off succeeds: the last put with the IOMMU still on for
    [fails] polls returns after exactly one more attempt, with the device off,
    the count at 0 and the error of the first attempt; and while the polls
    keep failing it does not return. *)
Theorem power_put_retries_until_off (l : power_layout) (fails rest : list Z) (s : power_state) :
  multiple_domains l = true -> power_put_delay s = 0 -> power_refcount s = 1 -> holds l true s ->
  Forall (fun p => p <> 0) fails ->
  rknpu_power_put l fails s = None /\
  exists s', rknpu_power_put l (fails ++ 0 :: rest) s = Some (hd 0 fails, s') /\
    power_refcount s' = 0 /\ holds l false s'.
Proof.
  intros Hm Hd Hr Hs Hf. induction Hf as [|p fails Hp Hf IH].
  - split; [done|]. cbn [rknpu_power_put app hd].
    destruct (put_locked l 0 s) as [r s'] eqn:Hput.
    destruct (put_locked_holds l 0 r s s' ltac:(lia) Hs Hput) as (H1 & H2 & _).
    assert (r = 0) as ->.
    { unfold put_locked in Hput. rewrite Hr in Hput. cbn -[rknpu_power_off] in Hput.
      unfold rknpu_power_off in Hput. rewrite Hm in Hput. cbn in Hput. change (s32 (1 - 1) =? 0) with true in Hput. congruence. }
    cbn. exists s'. split; [done|]. rewrite Hr in H2. cbn in H2. rewrite H2 in *. done.
  - destruct IH as [IH1 (s' & IH2 & IH3)]. cbn [rknpu_power_put app hd].
    rewrite put_locked_fail by done. rewrite (proj2 (Z.eqb_neq _ _) Hp), Hd. cbn.
    rewrite IH1, IH2. split; [done|]. exists s'. done.
Qed.

Definition powered_state : power_state :=
  {| power_refcount := 1; cmdline_power_refcount := 0; power_put_delay := 0; power_off_work := false;
     clk_enabled := 1; rt_dev := 1; rt_npu := fun core => if bool_decide (0 <= core < 3) then 1 else 0;
     inits := 1 |}.

Lemma power_put_retries_until_off_witness :
  rknpu_power_put rk3588_layout [-110; -110] powered_state = None /\
  exists s', rknpu_power_put rk3588_layout [-110; -110; 0] powered_state = Some (-110, s') /\
    power_refcount s' = 0 /\ holds rk3588_layout false s'.
Proof.
  apply (power_put_retries_until_off rk3588_layout [-110; -110] [] powered_state);
    try reflexivity; [split; reflexivity | repeat constructor; discriminate].
Defined.

(** ** Power-ons that fail *)

(** A power-on that fails on the clocks leaves the count at 1: the caller
    gets the error, but every later rknpu_power_get reports success without
    touching the hardware, and the matching put switches off clocks and a
    device reference that were never taken. *)
Theorem failed_power_on_is_forgotten (l : power_layout) (ans : on_answer) (s : power_state) :
  holds l false s -> power_refcount s = 0 -> clk_ret ans <> 0 ->
  exists s1, rknpu_power_get l ans s = (clk_ret ans, s1) /\ holds l false s1 /\
    (forall ans2, (rknpu_power_get l ans2 s1).1 = 0 /\ holds l false (rknpu_power_get l ans2 s1).2) /\
    let s2 := (put_locked l 0 s1).2 in
    power_refcount s2 = 0 /\ clk_enabled s2 = -1 /\ rt_dev s2 = -1.
Proof.
  intros [H1 H2 H3] Hr Hc. exists (s <| power_refcount := 1 |>). unfold rknpu_power_get. cbn.
  rewrite Hr. cbn -[rknpu_power_on]. unfold rknpu_power_on.
  rewrite (proj2 (Z.eqb_neq _ _) Hc). cbn. split; [done|]. split; [by split|].
  split; [intros ans2; change (s32 (1 + 1)) with 2; cbn; split; [done | by split]|].
  unfold put_locked. cbn -[rknpu_power_off]. change (s32 (1 - 1)) with 0. cbn -[rknpu_power_off].
  unfold rknpu_power_off, put_domain. rewrite andb_false_r. cbn.
  destruct (multiple_domains l); cbn; [|by rewrite H1, H2].
  destruct (genpd_dev_npu l 0), (genpd_dev_npu l 1), (genpd_dev_npu l 2); cbn; by rewrite H1, H2.
Qed.

Lemma failed_power_on_is_forgotten_witness :
  let ans := {| clk_ret := -5; npu_ret := fun _ => 0; dev_ret := 0 |} in
  let s := dev (initial_power 0) in
  (rknpu_power_get rk3588_layout ans s).1 = -5 /\
  clk_enabled (put_locked rk3588_layout 0 (rknpu_power_get rk3588_layout ans s).2).2 = -1.
Proof.
  intros ans s. destruct (failed_power_on_is_forgotten rk3588_layout ans s) as (s1 & E & _ & _ & _ & H & _).
  - split; [reflexivity|reflexivity|]. intros core. cbn. destruct (bool_decide _); reflexivity.
  - reflexivity.
  - discriminate.
  - rewrite E. split; [reflexivity | exact H].
Defined.
