(* ===== verification/JobProps.v ===== *)
(** * What holds of the job scheduler in every reachable state

    The main theorems on the system of [JobSched], for any IOMMU configuration
    and any interleaving of submitting threads, interrupts, the workqueue and
    blocking jobs that are aborted after no interrupt entered.  (JobFaults has
    the aborts that are left out.) *)

From S2P Require Import Prelude Config Domain Device Reset Job Batch Commit JobInv JobStep JobAbort JobSubmit JobSched.
From Stdlib Require Import Sorted.

(** A system with one non-blocking job of three tasks, with an out-fence, that has
    just started on the core of an RK3568: used as a concrete reachable state. *)
Definition example_init : rknpu_device :=
  (example_dev rk356x_rknpu_config [])
    <| gem_objects := {[ 64 := {| o_kv_addr := Some (replicate 12 (example_task 0x300)); o_refcount := 2 |} ]} |>
    <| reg_value := fun _ _ => 0x100 |>.

(** Every allocation succeeds, and the out-fence gets descriptor 3. *)
Definition example_env : submit_env :=
  {| e_job_ok := true; e_args_ok := true; e_in_fence := None; e_fence_ok := true; e_fd := 3;
     e_sync_file_ok := true; e_waits := []; e_scheduled := id; e_abort_sleep := id |}.

Definition run_op {iommu : IommuDomain} (o : op) (s : system) : system :=
  match op_code o (dev s) with
  | Ret f d => {| dev := d; threads := f (threads s) |}
  | _ => s
  end.

Lemma run_op_reachable {iommu : IommuDomain} (o : op) (s : system) :
  reachable s -> enabled s o -> reachable (run_op o s).
Proof.
  intros Hr He. unfold run_op. destruct (op_code o (dev s)) as [f d| |] eqn:Ho; try done.
  apply (reach_step s); [done|]. by apply (step_op s _ o f).
Qed.

(** A job of three tasks in the queue of the core of an RK3568. *)
Definition example_submitted (flags : Z) : system :=
  run_op (iommu := iommu_domain_stub) (OpSubmit (example_args flags 0 3) example_env true)
    {| dev := example_init; threads := [] |}.
Definition example_enqueued (flags : Z) : system :=
  run_op (iommu := iommu_domain_stub) (OpEnqueue 1 2) (example_submitted flags).

Lemma example_enqueued_reachable (flags : Z) :
  has_flag flags RKNPU_JOB_FENCE_IN = false -> TEnqueue 1 2 ∈ threads (example_submitted flags) ->
  reachable (iommu := iommu_domain_stub) (example_enqueued flags).
Proof.
  intros Hf Ht. apply run_op_reachable; [apply run_op_reachable|exact Ht].
  - apply (reach_init rk356x_rknpu_config example_init); [apply (config_of_wf RK356X) | done..].
  - split; [|change (0 <= 0); lia]. intros H. change (has_flag flags RKNPU_JOB_FENCE_IN = true) in H. congruence.
Qed.

Definition example_async : Z := RKNPU_JOB_PC + RKNPU_JOB_NONBLOCK + RKNPU_JOB_FENCE_OUT.
Definition example_system : system :=
  run_op (iommu := iommu_domain_stub) (OpNext 0) (example_enqueued example_async).

Lemma example_system_reachable : reachable (iommu := iommu_domain_stub) example_system.
Proof.
  apply run_op_reachable; [apply example_enqueued_reachable|].
  - reflexivity.
  - vm_compute. apply list_elem_of_here.
  - vm_compute. split; congruence.
Qed.

Section Props.
Context {iommu : IommuDomain}.

(** An operation is free of lifetime faults in a state. *)
Definition lifetime_safe (d : rknpu_device) (o : op) : Prop :=
  forall f, lifetime_fault f -> op_code o d <> Fault f.


(** The counters of the jobs, and of the cores, agree with the queues. *)
Record gang_counters (d : rknpu_device) : Prop := {
  gc_jobs : forall i p, 0 <= i < ncores d -> p ∈ queue_at d i ->
    exists j a, jobs d !! p = Some j /\ args_mem d !! j_args j = Some a /\ active_ok d p j a;
  gc_cores : forall i, 0 <= i < ncores d ->
    task_num (subcore_datas d i) = zsum (job_load d i) (queue_at d i);
}.

(** C2: In every reachable state, the counters of a job that some core holds
    agree with the queues: run_count is the number of cores where it still
    waits, interrupt_count the number of cores that hold it; it is not DONE,
    only cores of its mask hold it, and while it waits anywhere every core of
    its mask holds it and no interrupt mask is armed.  The task count of every
    core is the sum of the task numbers of the jobs it holds. *)
Theorem gang_counters_match_queues (s : system) :
  reachable s -> gang_counters (dev s).
Proof.
  intros Hr. destruct (reachable_ok s Hr) as [Hinv _].
  split; [apply (iv_active _ Hinv) | apply (iv_load _ Hinv)].
Qed.

(** The queues are drained as far as [rknpu_job_next] can. *)
Definition quiescent (d : rknpu_device) : Prop :=
  forall i, 0 <= i < ncores d -> s_job (subcore_datas d i) = None -> todo_list (subcore_datas d i) = [].

Lemma exists_min (n : nat) (P : Z -> Prop) (f : Z -> Z) :
  (forall i, Decision (P i)) ->
  (forall i, 0 <= i < Z.of_nat n -> ~ P i) \/
  exists i, 0 <= i < Z.of_nat n /\ P i /\ forall x, 0 <= x < Z.of_nat n -> P x -> f i <= f x.
Proof.
  intros Hdec. induction n as [|n IH]; [left; lia|].
  assert (Hlast : forall x, 0 <= x < Z.of_nat (S n) -> x = Z.of_nat n \/ 0 <= x < Z.of_nat n) by lia.
  destruct IH as [Hno|(m & Hm & Hpm & Hmin)]; destruct (decide (P (Z.of_nat n))) as [Hp|Hp].
  - right. exists (Z.of_nat n). split; [lia|]. split; [done|].
    intros x Hx Hpx. destruct (Hlast x Hx) as [->|Hx']; [lia|]. by destruct (Hno x).
  - left. intros x Hx. destruct (Hlast x Hx) as [->|Hx']; [done | by apply Hno].
  - right. destruct (decide (f (Z.of_nat n) < f m)) as [Hlt|Hge].
    + exists (Z.of_nat n). split; [lia|]. split; [done|]. intros x Hx Hpx.
      destruct (Hlast x Hx) as [->|Hx']; [lia|]. specialize (Hmin x Hx' Hpx). lia.
    + exists m. split; [lia|]. split; [done|]. intros x Hx Hpx.
      destruct (Hlast x Hx) as [->|Hx']; [lia | by apply Hmin].
  - right. exists m. split; [lia|]. split; [done|]. intros x Hx Hpx.
    destruct (Hlast x Hx) as [->|Hx']; [done | by apply Hmin].
Qed.

(** C3: The queues of multi-core jobs cannot deadlock: in every reachable state
    in which each idle core has an empty queue (rknpu_job_next has nothing
    left to do), if any core holds a job then some job runs on every core that
    holds it, so the hardware has work whose interrupt will make progress. *)
Theorem no_gang_deadlock (s : system) (i p : Z) :
  reachable s -> quiescent (dev s) -> 0 <= i < ncores (dev s) -> p ∈ queue_at (dev s) i ->
  exists r, 0 < running (dev s) r /\ waiting (dev s) r = 0.
Proof.
  intros Hr Hquiet Hi Hp. destruct (reachable_ok s Hr) as [Hinv _]. set (d := dev s) in *.
  destruct (iv_order _ Hinv) as (o & b & Hord).
  set (head x := default 0 (s_job (subcore_datas d x))).
  assert (Hhead : forall x q, 0 <= x < ncores d -> q ∈ queue_at d x ->
    s_job (subcore_datas d x) = Some (head x)).
  { intros x q Hx Hq. unfold head. destruct (s_job (subcore_datas d x)) eqn:E; [done|].
    exfalso. unfold queue_at, queue in Hq. rewrite E, (Hquiet x Hx E) in Hq. by apply elem_of_nil in Hq. }
  destruct (exists_min (Z.to_nat (ncores d)) (fun x => is_Some (s_job (subcore_datas d x)))
    (fun x => o (head x)) ltac:(intros; apply _)) as [Hno|(x & Hx & Hsx & Hmin)].
  { destruct (Hno i); [lia|]. rewrite (Hhead i p Hi Hp). by eexists. }
  rewrite Z2Nat.id in Hx, Hmin by lia.
  assert (Hjx : s_job (subcore_datas d x) = Some (head x)).
  { unfold head. by destruct Hsx as [q ->]. }
  exists (head x). split.
  - unfold running. apply (count_pos _ x); [done|]. by apply bool_decide_eq_true.
  - apply count_zero. intros y Hy. apply bool_decide_eq_false. intros Hq.
    assert (Hqy : head x ∈ queue_at d y) by (apply elem_of_queue; by right).
    pose proof (Hhead y _ Hy Hqy) as Hjy. destruct (Hord y Hy) as [Hs _].
    unfold queue_at, queue in Hs. rewrite Hjy in Hs.
    pose proof (sorted_head o (head y) (head x) _ Hs Hq).
    specialize (Hmin y Hy ltac:(rewrite Hjy; by eexists)). lia.
Qed.

(** Every core of the mask of job [p] runs it. *)
Definition gang_complete (d : rknpu_device) (i p : Z) : Prop :=
  exists j a, jobs d !! p = Some j /\ args_mem d !! j_args j = Some a /\
    s_job (subcore_datas d i) = Some p /\
    forall c, 0 <= c < ncores d -> has_flag (a_core_mask a) (rknpu_core_mask c) = true ->
      s_job (subcore_datas d c) = Some p.

Lemma wp_job_next_gang (d : rknpu_device) (i : Z) :
  inv d -> 0 <= i < ncores d ->
  wp lifetime_fault (rknpu_job_next i)
    (fun _ d' => reg_writes d' = reg_writes d \/ exists p, gang_complete d' i p) d.
Proof.
  intros Hinv Hi. unfold rknpu_job_next. apply wp_bind, wp_gets.
  destruct (soft_reseting d); [apply wp_ret; by left|].
  apply wp_bind, wp_gets.
  destruct (s_job (subcore_datas d i)) as [|] eqn:Hidle; [apply wp_ret; by left|].
  destruct (todo_list (subcore_datas d i)) as [|p rest] eqn:Htodo; [apply wp_ret; by left|].
  assert (Hpq : p ∈ queue_at d i).
  { apply elem_of_queue. right. rewrite Htodo. apply list_elem_of_here. }
  destruct (iv_active _ Hinv i p Hi Hpq) as (j & a & Hj & Ha & [A1 A2 A3 A4 A5]).
  apply wp_bind, wp_gets. apply wp_bind, wp_modify. apply wp_bind.
  apply (wp_mod_job p j); [exact Hj|].
  set (f s := s <| todo_list := rest |> <| s_job := Some p |>).
  set (j' := j <| j_hw_commit_time := now d |> <| j_hw_recoder_time := now d |>
               <| j_run_count ::= Z.pred |>).
  set (d1 := d <| subcore_datas ::= alter f i |> <| jobs ::= <[p := j']> |>).
  assert (Hcs : core_set d d1 i (f (subcore_datas d i))) by apply core_set_alter.
  assert (Hrest : p ∉ rest).
  { pose proof (inv_nodup d i Hinv Hi) as Hnd. unfold queue_at, queue in Hnd.
    rewrite Hidle, Htodo in Hnd. by apply NoDup_cons in Hnd as [? _]. }
  pose proof (dequeue_waiting d d1 i p rest _ Hi Hcs Htodo Hrest eq_refl) as Hw.
  pose proof (dequeue_queue d d1 i p rest _ Hcs Hidle Htodo eq_refl eq_refl) as Hq.
  assert (Hj1 : jobs d1 !! p = Some j') by (cbn; apply lookup_insert_eq).
  apply wp_bind, (wp_get_job p j'); [done|].
  destruct (Z.eqb_spec (j_run_count j') 0) as [Hz|]; [|apply wp_ret; by left].
  change (j_run_count j') with (Z.pred (j_run_count j)) in Hz.
  assert (Hw1 : waiting d1 p = 0) by (rewrite A1, Hw in Hz; rewrite <- Hz; lia).
  eapply wp_mono; [by apply (wp_commit p j'); [|eexists]|].
  intros [] d2 ((j1 & j2 & Hj1' & Hj2 & Hs & _) & Fc & Fs & Fa & _). right. exists p, j2, a.
  assert (j1 = j') as -> by congruence.
  split; [by rewrite Hj2, lookup_insert_eq|].
  split; [destruct Hs as (?&?&?&?&->); by rewrite Fa|].
  assert (Hslot : s_job (subcore_datas d1 i) = Some p) by by rewrite (cs_at _ _ _ _ Hcs).
  rewrite Fs. split; [done|]. intros c Hc Hf. unfold ncores in Hc. rewrite Fc in Hc.
  destruct A5 as [A6 _]; [pose proof (count_nonneg (ncores d1)
    (fun i => bool_decide (p ∈ todo_list (subcore_datas d1 i)))); unfold waiting in *; lia|].
  specialize (A6 c Hc Hf). rewrite <- Hq in A6. apply elem_of_queue in A6 as [|Hin]; [done|].
  by destruct (waiting_zero_todo d1 c p Hc Hw1).
Qed.

(** C4: In every reachable state, rknpu_job_next programs the hardware only for
    a job that then holds the slot of every core of its mask. *)
Theorem job_next_commits_whole_gang (s : system) (i : Z) (d' : rknpu_device) :
  reachable s -> 0 <= i < ncores (dev s) ->
  rknpu_job_next i (dev s) = Ret tt d' -> reg_writes d' <> reg_writes (dev s) ->
  exists p, gang_complete d' i p.
Proof.
  intros Hr Hi Hd Hne. destruct (reachable_ok s Hr) as [Hinv _].
  by destruct (wp_total _ _ _ _ _ _ (wp_job_next_gang (dev s) i Hinv Hi) Hd).
Qed.

(** C5: The abort of a blocking job that runs, or has finished, and whose
    interrupts have not come, frees the job, takes it out of the slot of every
    core that ran it, takes its tasks, and no others, off the task counts, and
    leaves every queue as it is: no next job is started. *)
Theorem abort_takes_job_out (s s' : system) (k : iommu_kernel) (r q p : Z) (f : list thread -> list thread) :
  reachable s -> enabled s (OpAbort k r q p) -> op_code (OpAbort k r q p) (dev s) = Ret f (dev s') ->
  jobs (dev s') = delete p (jobs (dev s)) /\
  forall i, 0 <= i < ncores (dev s) ->
    let c := subcore_datas (dev s) i in
    let c' := subcore_datas (dev s') i in
    todo_list c' = todo_list c /\
    if bool_decide (s_job c = Some p)
    then s_job c' = None /\ task_num c' = task_num c - job_load (dev s) i p
    else s_job c' = s_job c /\ task_num c' = task_num c.
Proof.
  intros Hr (Hl & _ & Hw & j & Hj & He) Ho. pose proof (reachable_ok s Hr) as Hsys. pose proof Hsys as [Hinv _].
  destruct (jk_args _ _ _ (iv_job _ Hinv p j Hj)) as [a Ha].
  pose proof (wp_give_up k r (dev s) p j a Hinv Hj Ha Hw (wait_not_work _ _ q p Hsys Hl) He) as Hwp.
  cbn in Ho. unfold bind at 1 in Ho. unfold wp in Hwp.
  destruct (give_up_job k r p (dev s)) as [[] d3| |]; [|done..].
  destruct Hwp as (d2 & Hun & _ & [V1 V2 V3 V4 V5 V6 V7]). injection Ho as _ Hd. rewrite <- Hd. cbn.
  destruct (un_frame _ _ _ _ _ _ Hun) as (Fc & Fa & Fn & Fw & Fj & Ff). split.
  - rewrite V2. cbn. rewrite Fj. apply delete_insert_eq.
  - intros i Hi. destruct (V6 i) as (E1 & E2 & E3). rewrite E1, E2, E3. cbn.
    rewrite (un_sub _ _ _ _ _ _ Hun i Hi). case_bool_decide as E; [|done].
    split; [done|]. split; [done|]. cbn. unfold job_load. by rewrite Hj, Ha.
Qed.
End Props.


Lemma gang_counters_match_queues_witness :
  task_num (subcore_datas (dev example_system) 0) = 3 /\ gang_counters (dev example_system).
Proof.
  split; [reflexivity|].
  apply (gang_counters_match_queues (iommu := iommu_domain_stub) example_system).
  apply example_system_reachable.
Defined.

Lemma no_gang_deadlock_witness :
  exists r, 0 < running (dev example_system) r /\ waiting (dev example_system) r = 0.
Proof.
  apply (no_gang_deadlock (iommu := iommu_domain_stub) example_system 0 2).
  - apply example_system_reachable.
  - intros i Hi. change (ncores (dev example_system)) with 1 in Hi.
    assert (i = 0) as -> by lia. vm_compute. discriminate.
  - split; vm_compute; congruence.
  - vm_compute. apply list_elem_of_here.
Defined.

Lemma job_next_commits_whole_gang_witness :
  exists d', rknpu_job_next 0 (dev (example_enqueued example_async)) = Ret tt d' /\ exists p, gang_complete d' 0 p.
Proof.
  assert (match rknpu_job_next 0 (dev (example_enqueued example_async)) with
          | Ret _ d => length (reg_writes d) | _ => 0%nat end = 9%nat) as Hlen
    by (vm_compute; reflexivity).
  destruct (rknpu_job_next 0 (dev (example_enqueued example_async))) as [[] d'| |] eqn:H; [|discriminate Hlen..].
  exists d'. split; [reflexivity|].
  apply (job_next_commits_whole_gang (iommu := iommu_domain_stub) (example_enqueued example_async) 0 d').
  - apply example_enqueued_reachable; [reflexivity | vm_compute; apply list_elem_of_here].
  - split; vm_compute; congruence.
  - exact H.
  - intros E. rewrite E in Hlen. vm_compute in Hlen. discriminate Hlen.
Defined.

(** A blocking job of three tasks that runs on the core of an RK3568 and times
    out. *)
Definition example_blocking : system :=
  run_op (iommu := iommu_domain_stub) (OpNext 0) (example_enqueued RKNPU_JOB_PC).

Lemma example_blocking_reachable : reachable (iommu := iommu_domain_stub) example_blocking.
Proof.
  apply run_op_reachable; [apply example_enqueued_reachable|].
  - reflexivity.
  - vm_compute. apply list_elem_of_here.
  - vm_compute. split; congruence.
Qed.

Lemma example_abort_enabled (r : Z) :
  r <> 0 -> enabled example_blocking (OpAbort (example_kernel 0) r 1 2).
Proof.
  intros Hr. split; [vm_compute; apply list_elem_of_here|]. split; [exact Hr|].
  split; [vm_compute; reflexivity|].
  destruct (jobs (dev example_blocking) !! 2) as [j|] eqn:E; [|vm_compute in E; discriminate].
  exists j. split; [reflexivity|]. intros i Hi _. change (ncores (dev example_blocking)) with 1 in Hi.
  assert (i = 0) as -> by lia. vm_compute in E. by injection E as <-.
Qed.

(** The time-out, and the state it leaves, which is reachable again. *)
Lemma abort_takes_job_out_witness :
  exists s', reachable (iommu := iommu_domain_stub) s' /\ jobs (dev s') = delete 2 (jobs (dev example_blocking)) /\
    s_job (subcore_datas (dev example_blocking) 0) = Some 2 /\ task_num (subcore_datas (dev example_blocking) 0) = 3 /\
    s_job (subcore_datas (dev s') 0) = None /\ task_num (subcore_datas (dev s') 0) = 0.
Proof.
  set (o := OpAbort (example_kernel 0) (-ETIMEDOUT) 1 2).
  assert (He : enabled example_blocking o) by (apply example_abort_enabled; discriminate).
  destruct (op_code (iommu := iommu_domain_stub) o (dev example_blocking)) as [f d'| |] eqn:Ho;
    [|vm_compute in Ho; discriminate..].
  exists {| dev := d'; threads := f (threads example_blocking) |}.
  destruct (abort_takes_job_out (iommu := iommu_domain_stub) example_blocking
    {| dev := d'; threads := f (threads example_blocking) |} (example_kernel 0) (-ETIMEDOUT) 1 2 f
    example_blocking_reachable He Ho) as [H1 H2].
  specialize (H2 0 ltac:(split; vm_compute; congruence)).
  split; [apply (reach_step example_blocking); [apply example_blocking_reachable | by apply (step_op _ _ o f)]|].
  split; [exact H1|]. split; [reflexivity|]. split; [reflexivity|].
  destruct H2 as [_ H2]. rewrite bool_decide_eq_true_2 in H2 by reflexivity. destruct H2 as [H2 H3].
  split; [exact H2|]. etransitivity; [exact H3|]. reflexivity.
Defined.
