(* ===== verification/JobFaults.v ===== *)
(** * Abort, timeout and hand-over: where the job code leaves dangling jobs

    The paths that [JobSched] excludes.  An abort after an interrupt entered
    the handler, a blocking wait that gives up on a queued job of core 1, and
    the read of [job->ret] after a non-blocking job was handed over. *)

From S2P Require Import Prelude Config Domain Device Reset Job Batch Commit JobInv JobStep JobAbort.

(** ** Abort *)

(** What the cores still know, and the fences. *)
Definition around : Type := per_core rknpu_subcore_data -> gmap Z dma_fence -> Prop.

(** The job is live and the cores and the fences satisfy [R]. *)
Definition live_in (p : Z) (j : rknpu_job) (R : around) (d : rknpu_device) : Prop :=
  jobs d !! p = Some j /\ R (subcore_datas d) (fences d).

(** The job was freed and the cores and the fences satisfy [R]. *)
Definition dangling (p : Z) (R : around) (d : rknpu_device) : Prop :=
  jobs d !! p = None /\ R (subcore_datas d) (fences d).

(** dma_fence_put on the store. *)
Definition fence_put (f : Z) (x : dma_fence) (m : gmap Z dma_fence) : gmap Z dma_fence :=
  if f_refcount x =? 1 then delete f m else <[f := x <| f_refcount ::= Z.pred |>]> m.

Definition no_fault (f : fault) : Prop := False.

Lemma not_no_fault (f : fault) : ~ no_fault f.
Proof. by intros []. Qed.
#[local] Hint Resolve not_no_fault : core.

Lemma slot_get_args {P : rknpu_device -> Prop} (q : Z) : keeps no_fault P (get_args q).
Proof. apply keeps_bind; [apply keeps_gets|]. intros m. by apply keeps_lookup_or. Qed.

Section Abort.
Context {iommu : IommuDomain} (k : iommu_kernel) (p : Z) (j : rknpu_job).
Context (R R' : around).
Context (HR : forall x sub m f, R sub m -> j_irq_entry j x = false ->
  (forall s, todo_list (f s) = todo_list s) -> R (alter f x sub) m).
Context (HR' : forall sub m, R sub m ->
  match j_fence j with
  | Some f => forall x, m !! f = Some x -> R' sub (fence_put f x m)
  | None => R' sub m
  end).
Abbreviation P := (live_in p j R).
Abbreviation bad := no_fault.

Lemma slot_get_job {A} (f : rknpu_job -> M A) : keeps bad P (f j) -> keeps bad P (bind (get_job p) f).
Proof.
  intros Hf d H. apply wp_bind. apply (wp_get_job p j); [apply H | by apply Hf].
Qed.

Lemma slot_uses_core (x : Z) : keeps bad P (uses_core p x).
Proof.
  unfold uses_core. apply slot_get_job. apply keeps_bind; [apply slot_get_args|].
  intros. apply keeps_ret.
Qed.

Lemma slot_readl (b : io_base) (off : Z) : keeps bad P (readl b off).
Proof. by apply keeps_readl. Qed.

Lemma slot_soft_reset : keeps bad P (rknpu_soft_reset k).
Proof. by apply keeps_soft_reset. Qed.

(** The loop of the abort. *)
Lemma slot_abort_loop (n : Z) :
  keeps bad P (for_cores n (fun i =>
    let! used := uses_core p i in
    when used
      (let! s := get_subcore i in
       let! j := get_job p in
       when (bool_decide (s_job s = Some p) && negb (j_irq_entry j i))
         (mod_subcore i (fun s => s <| s_job := None |>) ;;
          let! n := rknpu_get_task_number p i in
          mod_subcore i (fun s => s <| task_num ::= (fun x => x - n) |>))))).
Proof.
  apply keeps_for_cores. intros x. apply keeps_bind; [apply slot_uses_core|]. intros used.
  apply keeps_when. apply keeps_bind; [apply keeps_gets|]. intros s. apply slot_get_job.
  destruct (j_irq_entry j x) eqn:He; [rewrite andb_false_r; apply keeps_ret|].
  apply keeps_when.
  assert (Hmod : forall f, (forall s, todo_list (f s) = todo_list s) -> keeps bad P (mod_subcore x f)).
  { intros f Hf. apply keeps_modify. intros d [H1 H2]. split; [done|]. by apply HR. }
  apply keeps_bind; [by apply Hmod|]. intros [].
  unfold rknpu_get_task_number. apply keeps_bind; [|intros; by apply Hmod].
  apply slot_get_job. apply keeps_bind; [apply slot_get_args|]. intros a.
  apply keeps_bind; [apply keeps_gets | intros; apply keeps_ret].
Qed.

Lemma slot_free (d : rknpu_device) :
  P d -> wp bad (rknpu_job_free p) (fun _ d' => dangling p R' d') d.
Proof.
  intros H. unfold rknpu_job_free. apply wp_bind. apply (wp_get_job p j); [apply H|].
  assert (Hk : keeps bad P (when (j_use_drm_gem j)
    (let! a := get_args (j_args j) in
     when (negb (a_task_obj_addr a =? 0)) (rknpu_gem_object_put (a_task_obj_addr a))))).
  { apply keeps_when. apply keeps_bind; [apply slot_get_args|]. intros a. apply keeps_when.
    apply keeps_bind; [by apply keeps_get_object|]. intros o.
    destruct (_ =? 1); by apply keeps_modify. }
  apply wp_bind. eapply wp_mono; [by apply Hk|]. intros [] d1 H1.
  apply wp_bind. apply (wp_mono _ (fun _ => live_in p j R')).
  { destruct H1 as [H1 H2]. specialize (HR' _ _ H2). destruct (j_fence j) as [f|]; [|by apply wp_ret].
    unfold dma_fence_put, get_fence. apply wp_bind, wp_bind, wp_gets.
    destruct (fences d1 !! f) as [x|] eqn:Ef; [|by apply not_no_fault].
    apply wp_ret. specialize (HR' x eq_refl). unfold fence_put in HR'.
    destruct (f_refcount x =? 1); apply wp_modify; by split. }
  intros [] d2 H2. apply wp_bind. apply (wp_mono _ (fun _ => live_in p j R')).
  { apply (keeps_when (P := live_in p j R')); [|done]. apply keeps_bind; [apply slot_get_args|]. intros a.
    by apply keeps_modify. }
  intros [] d3 [H3 H4]. unfold kfree_job. apply wp_bind, (wp_get_job p j); [done|]. apply wp_modify.
  split; [cbn; apply lookup_delete_eq | done].
Qed.

Lemma wp_abort_dangling (d : rknpu_device) :
  P d -> wp bad (rknpu_job_abort k id p) (fun _ d' => dangling p R' d') d.
Proof.
  intros H. unfold rknpu_job_abort. apply wp_bind, wp_modify. apply wp_bind, wp_modify.
  apply wp_bind, wp_gets. apply wp_bind. eapply wp_mono; [by apply slot_abort_loop|].
  intros [] d1 H1. apply wp_bind. apply (wp_get_job p j); [apply H1|]. apply wp_bind.
  apply (wp_mono _ (fun _ => P)).
  { apply (keeps_when (P := P)); [|done]. apply keeps_bind.
    - apply keeps_for_cores. intros x. apply keeps_bind; [apply slot_uses_core|]. intros used.
      apply keeps_when. do 3 (apply keeps_bind; [apply slot_readl|]; intros). apply keeps_ret.
    - intros []. apply keeps_bind; [apply slot_soft_reset | intros; apply keeps_ret]. }
  intros [] d2 H2. unfold rknpu_job_cleanup. apply wp_bind, wp_bind.
  eapply wp_mono; [by apply slot_free|]. intros [] d3 H3. by do 2 apply wp_ret.
Qed.

End Abort.

(** ** An interrupt that entered *)

(** Core [i] runs job [p]. *)
Definition runs (p i : Z) : around := fun sub _ => s_job (sub i) = Some p.

(** Rknpu_job_abort of a job whose interrupt has entered the handler of a
    core (a status that did not match, or an earlier batch) frees the job but
    leaves it in the core's slot: whatever the reset lines and the IOMMU do,
    the next interrupt of that core dereferences the freed job. *)
Theorem abort_after_irq_entry_dangles {iommu : IommuDomain} (k : iommu_kernel) (p i : Z)
    (j : rknpu_job) (d d' : rknpu_device) :
  jobs d !! p = Some j -> runs p i (subcore_datas d) (fences d) -> j_irq_entry j i = true ->
  rknpu_job_abort k id p d = Ret tt d' ->
  dangling p (runs p i) d' /\ rknpu_irq_handler i d' = Fault UseAfterFree.
Proof.
  intros Hj Hs He Hrun.
  assert (HR : forall x sub m f, runs p i sub m -> j_irq_entry j x = false ->
    (forall s, todo_list (f s) = todo_list s) -> runs p i (alter f x sub) m).
  { intros x sub m f H Hx _. unfold runs. rewrite fn_lookup_alter_ne; [done|]. congruence. }
  pose proof (wp_abort_dangling k p j (runs p i) (runs p i) HR ltac:(intros; by destruct (j_fence j)) d (conj Hj Hs)) as Hwp.
  apply (wp_total _ _ _ _ _ _ Hwp) in Hrun as [H1 H2]. split; [done|].
  unfold rknpu_irq_handler, get_subcore, bind, gets. rewrite H2.
  unfold mod_job, get_job, bind, gets, lookup_or. by rewrite H1.
Qed.

(** ** A blocking wait that gives up *)

(** Job [p] is queued on core [i]. *)
Definition queued (p i : Z) : around := fun sub _ => p ∈ todo_list (sub i).

(** What rknpu_submit does after scheduling a blocking PC job that fails. *)
Definition wait_then_abort {iommu : IommuDomain} (k : iommu_kernel) (waits : list wait_step) (p : Z) : M unit :=
  let! r := rknpu_job_wait waits p in give_up_job k r p.

Section GiveUp.
Context (p i : Z) (j : rknpu_job).
Abbreviation P := (live_in p j (queued p i)).

Lemma keeps_wait_loop (waits : list wait_step) (timeout n : Z) :
  Forall (fun w => w_others w = id) waits -> keeps no_fault P (wait_loop p timeout n waits).
Proof.
  intros Hw. revert n. induction Hw as [|w waits Hid Hw IH]; intros n; cbn [wait_loop].
  - by intros d H.
  - apply keeps_bind.
    + unfold wait_event_timeout. rewrite Hid. apply keeps_bind; [by apply keeps_modify|]. intros [].
      apply slot_get_job. apply keeps_bind; [apply keeps_gets | intros; apply keeps_ret].
    + intros r. destruct (3 <=? n + 1); [apply keeps_ret|]. destruct (r =? 0); [|apply keeps_ret].
      apply slot_get_job. apply keeps_bind; [apply keeps_gets|]. intros t.
      destruct (if _ : bool then _ else _); [apply IH | apply keeps_ret].
Qed.

(** The waiter of a single-core job only looks at the queue of core 0. *)
Lemma keeps_job_wait (waits : list wait_step) :
  Forall (fun w => w_others w = id) waits -> j_last_task j = None -> j_use_core_num j = 1 -> i <> 0 ->
  keeps no_fault P (rknpu_job_wait waits p).
Proof.
  intros Hw Hlast Hone Hi. unfold rknpu_job_wait. apply slot_get_job.
  apply keeps_bind; [apply slot_get_args|]. intros a.
  apply keeps_bind; [by apply keeps_wait_loop|]. intros r. apply slot_get_job. rewrite Hlast, Hone.
  apply keeps_bind; [|intros; apply keeps_ret].
  apply (keeps_bind (P := P)); [|intros; apply keeps_ret]. apply keeps_modify.
  intros d [H1 H2]. split; [done|]. unfold queued. cbn. by rewrite fn_lookup_alter_ne.
Qed.
End GiveUp.

(** When the wait for a single-core job on core 1 or 2 that was never
    committed gives up, rknpu_job_wait removes it from the queue of core 0,
    where it is not; the abort then frees it while it is still in the queue of
    its core, and rknpu_job_next dereferences it once it is at the head. *)
Theorem give_up_on_other_core_dangles {iommu : IommuDomain} (k : iommu_kernel) (p i : Z)
    (j : rknpu_job) (waits : list wait_step) (d d' : rknpu_device) :
  jobs d !! p = Some j -> j_last_task j = None -> j_use_core_num j = 1 -> i <> 0 ->
  queued p i (subcore_datas d) (fences d) -> Forall (fun w => w_others w = id) waits ->
  wait_then_abort k waits p d = Ret tt d' ->
  dangling p (queued p i) d' /\
  (soft_reseting d' = false -> s_job (subcore_datas d' i) = None ->
   head (todo_list (subcore_datas d' i)) = Some p -> rknpu_job_next i d' = Fault UseAfterFree).
Proof.
  intros Hj Hlast Hone Hi Hq Hw Hrun.
  assert (Hwp : wp no_fault (wait_then_abort k waits p) (fun _ d' => dangling p (queued p i) d') d).
  { unfold wait_then_abort. apply wp_bind. eapply wp_mono; [by apply (keeps_job_wait p i j)|].
    intros r d1 [H1 H2]. apply wp_bind, (wp_mod_job p j); [done|].
    apply (wp_abort_dangling k p (j <| j_ret := r |>) (queued p i)).
    - intros x sub m f H _ Hf. unfold queued. destruct (decide (x = i)) as [->|Hne].
      + rewrite fn_lookup_alter, Hf. done.
      + by rewrite fn_lookup_alter_ne.
    - intros. by destruct (j_fence _).
    - split; [cbn; apply lookup_insert_eq | done]. }
  apply (wp_total _ _ _ _ _ _ Hwp) in Hrun as [H1 H2]. split; [done|].
  intros Hr Hs Hh. unfold rknpu_job_next, get_subcore, bind, gets. rewrite Hr, Hs.
  destruct (todo_list (subcore_datas d' i)) as [|q rest]; [done|]. injection Hh as ->.
  unfold mod_subcore, modify, mod_job, get_job, bind, gets, lookup_or. cbn [set_field jobs].
  by rewrite H1.
Qed.

(** ** Concrete runs *)

(** Job 10 in the slot of core 0 of an RK3568, after an interrupt whose status
    did not match, timed out. *)
Definition timed_out_job : rknpu_job :=
  (new_job 20 (example_args RKNPU_JOB_PC 1 3) 500)
    <| j_use_drm_gem := true |> <| j_irq_entry := fun i => i =? 0 |> <| j_ret := -ETIMEDOUT |>.
Definition timed_out_dev : rknpu_device :=
  (example_job_dev rk356x_rknpu_config RKNPU_JOB_PC 1 3)
    <| jobs := {[ 10 := timed_out_job ]} |>
    <| subcore_datas ::= alter (fun s => s <| s_job := Some 10 |> <| task_num := 3 |>) 0 |>
    <| srsts := [Some {| rc_assert_ret := 0; rc_deassert_ret := 0 |}] |>.

Lemma abort_after_irq_entry_dangles_witness :
  exists d', rknpu_job_abort (iommu := iommu_domain_stub) (example_kernel 0) id 10 timed_out_dev = Ret tt d' /\
    dangling 10 (runs 10 0) d' /\ rknpu_irq_handler (iommu := iommu_domain_stub) 0 d' = Fault UseAfterFree.
Proof.
  assert (match rknpu_job_abort (iommu := iommu_domain_stub) (example_kernel 0) id 10 timed_out_dev with
          | Ret _ _ => true | _ => false end = true) as Hret by (vm_compute; reflexivity).
  destruct (rknpu_job_abort (iommu := iommu_domain_stub) (example_kernel 0) id 10 timed_out_dev)
    as [[] d'| |] eqn:H; [|discriminate Hret..].
  exists d'. split; [reflexivity|].
  apply (abort_after_irq_entry_dangles (example_kernel 0) 10 0 timed_out_job timed_out_dev d');
    [reflexivity | reflexivity | reflexivity | exact H].
Defined.

(** Job 10 queued on core 1 of an RK3588. *)
Definition queued_dev : rknpu_device :=
  (example_job_dev rk3588_rknpu_config RKNPU_JOB_PC 2 3)
    <| subcore_datas ::= alter (fun s => s <| todo_list := [10] |> <| task_num := 3 |>) 1 |>.
Definition expired : wait_step := {| w_others := id; w_remaining := 0 |}.

Lemma give_up_on_other_core_dangles_witness :
  exists d', wait_then_abort (iommu := iommu_domain_stub) (example_kernel 0) [expired; expired; expired] 10 queued_dev
      = Ret tt d' /\
    dangling 10 (queued 10 1) d' /\ rknpu_job_next 1 d' = Fault UseAfterFree.
Proof.
  assert (match wait_then_abort (iommu := iommu_domain_stub) (example_kernel 0) [expired; expired; expired] 10 queued_dev with
          | Ret _ d => negb (soft_reseting d) && bool_decide (s_job (subcore_datas d 1) = None)
                       && bool_decide (head (todo_list (subcore_datas d 1)) = Some 10)
          | _ => false end = true) as Hret by (vm_compute; reflexivity).
  destruct (wait_then_abort (iommu := iommu_domain_stub) (example_kernel 0) [expired; expired; expired] 10 queued_dev)
    as [[] d'| |] eqn:H; [|discriminate Hret..].
  apply andb_true_iff in Hret as [Hret H3]. apply andb_true_iff in Hret as [H1 H2].
  destruct (give_up_on_other_core_dangles (iommu := iommu_domain_stub) (example_kernel 0) 10 1
    ((new_job 20 (example_args RKNPU_JOB_PC 2 3) 500) <| j_use_drm_gem := true |>)
    [expired; expired; expired] queued_dev d') as [H4 H5];
    [reflexivity | reflexivity | reflexivity | discriminate | | | exact H |].
  - unfold queued. vm_compute. apply list_elem_of_here.
  - repeat constructor.
  - exists d'. split; [reflexivity|]. split; [exact H4|]. apply H5.
    + by destruct (soft_reseting d').
    + by apply bool_decide_eq_true in H2.
    + by apply bool_decide_eq_true in H3.
Defined.

(** ** The load after a time-out

    Job 10 queued on core 0 behind nothing, of three tasks.  After its time-out it
    is gone from the queue, and its tasks still count: rknpu_job_schedule takes
    the core for busier than it is from then on. *)
Definition queued_first : rknpu_device :=
  (example_job_dev rk3588_rknpu_config RKNPU_JOB_PC 1 3)
    <| subcore_datas ::= alter (fun s => s <| todo_list := [10] |> <| task_num := 3 |>) 0 |>.

Lemma queued_timeout_inflates_load :
  match wait_then_abort (iommu := iommu_domain_stub) (example_kernel 0) [expired; expired; expired] 10 queued_first with
  | Ret _ d => jobs d !! 10 = None /\ todo_list (subcore_datas d 0) = [] /\ s_job (subcore_datas d 0) = None /\
      task_num (subcore_datas d 0) = 3 /\ schedule_core_index 3 (fun i => task_num (subcore_datas d i)) = 1
  | _ => False
  end.
Proof. vm_compute. by repeat split. Qed.

(** ** Handing over a non-blocking job

    The interrupt and the work item of the job run between rknpu_job_schedule
    and the read of [job->ret]. *)

Definition after {A} (m : M A) (d : rknpu_device) : rknpu_device :=
  match m d with Ret _ d' => d' | _ => d end.

Definition race_env (job : Z) : submit_env :=
  {| e_job_ok := true; e_args_ok := true; e_in_fence := None; e_fence_ok := true; e_fd := 3;
     e_sync_file_ok := true; e_waits := [];
     e_scheduled := fun d => after (rknpu_job_cleanup_work job)
       (after (rknpu_irq_handler (iommu := iommu_domain_stub) 0) d);
     e_abort_sleep := id |}.

(** The arguments of a non-blocking job of three tasks, at address 1. *)
Definition race_dev : rknpu_device :=
  (example_job_dev rk356x_rknpu_config RKNPU_JOB_PC 1 3)
    <| jobs := ∅ |>
    <| args_mem := {[ 1 := example_args (RKNPU_JOB_PC + RKNPU_JOB_NONBLOCK) 1 3 ]} |>
    <| reg_value := fun _ _ => 0x100 |> <| next_addr := 2 |>.

(** The submission faults when the job completes before rknpu_submit reads its
    result, and returns 0 otherwise. *)
Lemma nonblock_submit_race :
  (match rknpu_submit_job (iommu := iommu_domain_stub) (example_kernel 0) (race_env 2) 1 true race_dev with
   | Fault f => f = UseAfterFree | _ => False end) /\
  (match rknpu_submit_job (iommu := iommu_domain_stub) (example_kernel 0) (race_env 99) 1 true race_dev with
   | Ret r _ => r = 0 | _ => False end).
Proof. split; vm_compute; reflexivity. Qed.
