(* ===== verification/Fence.v ===== *)
(** * Fences (rknpu_fence.c)

    The fence context of the device, the numbers of its fences, and what becomes
    of a fence: the completion of its job signals it (Job.v), the abort does not.
    All cores share one context, whose users may take the order of the numbers
    for the order of completion: the last part shows where they are wrong. *)

From S2P Require Import Prelude Config Domain Device Reset Job Batch Commit JobFaults.

(** ** The context *)

(** struct rknpu_fence_context. *)
Record rknpu_fence_context := { fc_context : Z; fc_seqno : Z }.

(** The driver and the timeline name of a fence. *)
Definition DRIVER_NAME : string := "rknpu".
Definition rknpu_fence_get_name : string := DRIVER_NAME.

(** [context] is the answer of dma_fence_context_alloc; [fence_ctx] is
    rknpu_dev->fence_ctx, which a failure leaves. *)
Definition rknpu_fence_context_alloc (devm_kzalloc_ok : bool) (context : Z)
    (fence_ctx : option rknpu_fence_context) : Z * option rknpu_fence_context :=
  if negb devm_kzalloc_ok then (-ENOMEM, fence_ctx)
  else (0, Some {| fc_context := u32 context; fc_seqno := 0 |}).

(** The context as the scheduler's state has it. *)
Definition with_context (c : rknpu_fence_context) (d : rknpu_device) : rknpu_device :=
  d <| fence_seqno := fc_seqno c |>.

(** ** Numbers *)

(** Every fence has a number that was given out, and no two have the same. *)
Record seqnos_ok (d : rknpu_device) : Prop := {
  sq_range : forall f x, fences d !! f = Some x -> 1 <= f_seqno x <= fence_seqno d;
  sq_inj : forall f g x y, fences d !! f = Some x -> fences d !! g = Some y -> f_seqno x = f_seqno y -> f = g;
  sq_addr : forall f, next_addr d <= f -> fences d !! f = None;
}.

Lemma context_seqnos (ctx : rknpu_fence_context) (d : rknpu_device) :
  fences d = ∅ -> seqnos_ok (with_context ctx d).
Proof. intros H. split; cbn; rewrite H; intros *; by rewrite ?lookup_empty. Qed.

(** A new fence is not signalled, belongs to the job alone, and has the next
    number; the others keep theirs.  The numbers are distinct until they wrap. *)
Theorem fence_alloc_numbers (ok : bool) (p : Z) (j : rknpu_job) (d : rknpu_device) :
  jobs d !! p = Some j -> seqnos_ok d -> 0 <= fence_seqno d < 2 ^ 32 - 1 ->
  exists r d', rknpu_fence_alloc ok p d = Ret r d' /\ seqnos_ok d' /\
    if ok then r = 0 /\ fence_seqno d' = fence_seqno d + 1 /\
      jobs d' !! p = Some (j <| j_fence := Some (next_addr d) |>) /\
      fences d' = <[next_addr d := {| f_seqno := fence_seqno d + 1; f_refcount := 1; f_signaled := false |}]> (fences d)
    else r = -ENOMEM /\ d' = d.
Proof.
  intros Hj [S1 S2 S3] Hn. unfold rknpu_fence_alloc. destruct ok; cbn [negb]; [|by exists (-ENOMEM), d].
  unfold new_addr, mod_job, get_job, bind, gets, modify, lookup_or, ret. cbn. rewrite Hj.
  eexists 0, _. split; [done|]. rewrite u32_small by lia.
  pose proof (S3 (next_addr d) ltac:(lia)) as Hnew.
  split; [|split; [done|]; split; [done|]; split; [by apply lookup_insert_eq | done]].
  split; cbn.
  - intros f x. rewrite lookup_insert_Some. intros [[_ <-]|[_ H]]; cbn; [lia|]. specialize (S1 _ _ H). lia.
  - intros f g x y. rewrite !lookup_insert_Some. intros [[<- <-]|[N1 H1]] [[<- <-]|[N2 H2]] E; cbn in E.
    + done.
    + specialize (S1 _ _ H2). lia.
    + specialize (S1 _ _ H1). lia.
    + by apply (S2 f g x y).
  - intros f Hf. rewrite lookup_insert_ne by lia. apply S3. lia.
Qed.

(** ** The fence of an aborted job *)

(** Fence [f] is [x]. *)
Definition fence_kept (f : Z) (x : dma_fence) : around := fun _ m => m !! f = Some x.

(** C39: An abort does not signal the fence of its job.  Whoever else has
    a reference, as the sync file of the submission does, keeps a fence that was
    not signalled, and the job that could have done it is gone. *)
Theorem abort_leaves_fence_unsignalled {iommu : IommuDomain} (k : iommu_kernel) (p f : Z)
    (j : rknpu_job) (x : dma_fence) (d d' : rknpu_device) :
  jobs d !! p = Some j -> j_fence j = Some f -> fences d !! f = Some x -> 1 < f_refcount x ->
  rknpu_job_abort k id p d = Ret tt d' ->
  jobs d' !! p = None /\ fences d' !! f = Some (x <| f_refcount ::= Z.pred |>).
Proof.
  intros Hj Hf Hx Hr Hrun.
  assert (Hput : forall (sub : per_core rknpu_subcore_data) m, fence_kept f x sub m ->
    match j_fence j with
    | Some g => forall y, m !! g = Some y -> fence_kept f (x <| f_refcount ::= Z.pred |>) sub (fence_put g y m)
    | None => fence_kept f (x <| f_refcount ::= Z.pred |>) sub m
    end).
  { rewrite Hf. intros sub m Hm y Hy. unfold fence_kept, fence_put in *. rewrite Hm in Hy. injection Hy as <-.
    rewrite (proj2 (Z.eqb_neq _ _)) by lia. apply lookup_insert_eq. }
  pose proof (wp_abort_dangling k p j (fence_kept f x) _ (fun _ _ _ _ H _ _ => H) Hput d (conj Hj Hx)) as Hwp.
  by apply (wp_total _ _ _ _ _ _ Hwp) in Hrun.
Qed.

(** ** One context for all the cores

    Job A runs on core 0, job B on core 1, both with an out-fence; B has A's
    fence as its in-fence. *)

Definition two_core_args (flags mask : Z) : rknpu_submit :=
  example_args (RKNPU_JOB_PC + RKNPU_JOB_NONBLOCK + RKNPU_JOB_FENCE_OUT + flags) mask 3.
Definition two_core_dev : rknpu_device :=
  (example_job_dev rk3588_rknpu_config RKNPU_JOB_PC 1 3)
    <| jobs := ∅ |>
    <| args_mem := {[ 1 := two_core_args 0 1; 2 := two_core_args RKNPU_JOB_FENCE_IN 2 ]} |>
    <| reg_value := fun _ _ => 0x300 |> <| next_addr := 3 |>.
Definition two_core_env (in_fence : option (bool * Z)) : submit_env :=
  {| e_job_ok := true; e_args_ok := true; e_in_fence := in_fence; e_fence_ok := true; e_fd := 3;
     e_sync_file_ok := true; e_waits := []; e_scheduled := id; e_abort_sleep := id |}.

(** A is submitted, then B; the wait for B's in-fence would be interrupted. *)
Definition two_core_run : M (Z * Z) :=
  let submit := rknpu_submit_job (iommu := iommu_domain_stub) (example_kernel 0) in
  let! ra := submit (two_core_env None) 1 true in
  let! rb := submit (two_core_env (Some (true, -EINTR))) 2 true in
  ret (ra, rb).

(** The fences by number, with whether they are signalled. *)
Definition fence_states (d : rknpu_device) : list (Z * bool) :=
  (fun kx => (f_seqno kx.2, f_signaled kx.2)) <$> map_to_list (fences d).

Definition two_core_check : bool :=
  match two_core_run two_core_dev with
  | Ret (ra, rb) d =>
      (ra =? 0) && (rb =? 0) && bool_decide (s_job (subcore_datas d 0) = Some 3) &&
      bool_decide (s_job (subcore_datas d 1) = Some 6) &&
      bool_decide (fence_states d = [(1, false); (2, false)]) &&
      (match rknpu_irq_handler (iommu := iommu_domain_stub) 1 d with
       | Ret _ d' => bool_decide (fence_states d' = [(1, false); (2, true)])
       | _ => false
       end)
  | _ => false
  end.

(** An in-fence of the driver's own context is not waited for, although
    the cores run side by side: B is started on core 1 while A, whose fence it
    was to wait for, is running on core 0; and when core 1 is done first, the
    fence with the later number is signalled before the earlier one. *)
Theorem second_core_overtakes_in_fence :
  exists d d', two_core_run two_core_dev = Ret (0, 0) d /\
    s_job (subcore_datas d 0) = Some 3 /\ s_job (subcore_datas d 1) = Some 6 /\
    fence_states d = [(1, false); (2, false)] /\
    rknpu_irq_handler (iommu := iommu_domain_stub) 1 d = Ret tt d' /\
    fence_states d' = [(1, false); (2, true)].
Proof.
  assert (two_core_check = true) as Hrun by (vm_compute; reflexivity). unfold two_core_check in Hrun.
  destruct (two_core_run two_core_dev) as [[ra rb] d| |] eqn:H; [|discriminate Hrun..].
  destruct (rknpu_irq_handler (iommu := iommu_domain_stub) 1 d) as [[] d'| |] eqn:H';
    [|by rewrite andb_false_r in Hrun..].
  rewrite !andb_true_iff, !bool_decide_eq_true, !Z.eqb_eq in Hrun. destruct Hrun as [[[[[-> ->] R1] R2] R3] R4].
  exists d, d'. exact (conj eq_refl (conj R1 (conj R2 (conj R3 (conj H' R4))))).
Qed.

(** *** Witnesses *)

Lemma fence_alloc_numbers_witness :
  let ctx := {| fc_context := 1; fc_seqno := 0 |} in
  let d := with_context ctx (example_job_dev rk3588_rknpu_config RKNPU_JOB_PC 1 3) in
  rknpu_fence_context_alloc true 1 None = (0, Some ctx) /\
  exists r d', rknpu_fence_alloc true 10 d = Ret r d' /\ r = 0 /\ fence_states d' = [(1, false)].
Proof.
  intros ctx d. split; [done|].
  destruct (fence_alloc_numbers true 10
    ((new_job 20 (example_args RKNPU_JOB_PC 1 3) 500) <| j_use_drm_gem := true |>) d)
    as (r & d' & H1 & H2 & H3 & _ & _ & H4); [reflexivity | by apply context_seqnos | done |].
  exists r, d'. split; [exact H1|]. split; [exact H3|]. unfold fence_states. rewrite H4. reflexivity.
Defined.

(** The job of [timed_out_dev], with an out-fence that a sync file shares. *)
Definition fenced_dev : rknpu_device :=
  timed_out_dev <| jobs := {[ 10 := timed_out_job <| j_fence := Some 30 |> ]} |>
    <| fences := {[ 30 := {| f_seqno := 1; f_refcount := 2; f_signaled := false |} ]} |>.

Lemma abort_leaves_fence_unsignalled_witness :
  exists d', rknpu_job_abort (iommu := iommu_domain_stub) (example_kernel 0) id 10 fenced_dev = Ret tt d' /\
    jobs d' !! 10 = None /\ fences d' !! 30 = Some {| f_seqno := 1; f_refcount := 1; f_signaled := false |}.
Proof.
  assert (match rknpu_job_abort (iommu := iommu_domain_stub) (example_kernel 0) id 10 fenced_dev with
          | Ret _ _ => true | _ => false end = true) as Hret by (vm_compute; reflexivity).
  destruct (rknpu_job_abort (iommu := iommu_domain_stub) (example_kernel 0) id 10 fenced_dev)
    as [[] d'| |] eqn:H; [|discriminate Hret..].
  exists d'. split; [reflexivity|].
  apply (abort_leaves_fence_unsignalled (iommu := iommu_domain_stub) (example_kernel 0) 10 30 (timed_out_job <| j_fence := Some 30 |>)
    {| f_seqno := 1; f_refcount := 2; f_signaled := false |} fenced_dev d');
    [reflexivity | reflexivity | reflexivity | reflexivity | exact H].
Defined.
