(* ===== verification/JobRegs.v ===== *)
(** * Register services (the end of rknpu_job.c)

    Hardware version, bus priority and the read/write amount counters.  An
    output pointer is a flag that says whether it is not NULL. *)

From S2P Require Import Prelude Config Domain Device Reset.

Definition rknpu_get_hw_version (version : bool) : M (Z * Z) :=
  if negb version then ret (-EINVAL, 0)
  else
    let! v := REG_READ 0 RKNPU_OFFSET_VERSION in
    let! n := REG_READ 0 RKNPU_OFFSET_VERSION_NUM in
    ret (0, u32 (v + Z.land n 0xffff)).

Definition read_if (wanted : bool) (m : M Z) : M (option Z) :=
  if wanted then let! v := m in ret (Some v) else ret None.

Definition rknpu_get_bw_priority (priority expect tw : bool)
  : M (Z * (option Z * option Z * option Z)) :=
  let! mapped := gets (fun d => io_mapped d BwPriorityBase) in
  if negb mapped then ret (-EINVAL, (None, None, None))
  else
    let! p := read_if priority (readl BwPriorityBase 0x0) in
    let! e := read_if expect (readl BwPriorityBase 0x8) in
    let! t := read_if tw (readl BwPriorityBase 0xc) in
    ret (0, (p, e, t)).

Definition rknpu_set_bw_priority (priority expect tw : Z) : M Z :=
  let! mapped := gets (fun d => io_mapped d BwPriorityBase) in
  if negb mapped then ret (-EINVAL)
  else
    when (negb (priority =? 0)) (writel priority BwPriorityBase 0x0) ;;
    when (negb (expect =? 0)) (writel expect BwPriorityBase 0x8) ;;
    when (negb (tw =? 0)) (writel tw BwPriorityBase 0xc) ;;
    ret 0.

(** The pair of writes that clears one group of counters. *)
Definition clear_amount (o : option rknpu_amount_data) : M unit :=
  match o with
  | None => ret tt
  | Some a =>
      REG_WRITE 0 0x80000101 (offset_clr_all a) ;;
      REG_WRITE 0 0x00000101 (offset_clr_all a)
  end.

Definition rknpu_clear_rw_amount : M Z :=
  let! c := gets config in
  match amount_top c with
  | None => ret 0
  | Some _ =>
      if negb (pc_dma_ctrl c =? 0) then
        let! pc_data_addr := REG_READ 0 RKNPU_OFFSET_PC_DATA_ADDR in
        REG_WRITE 0 0x1 RKNPU_OFFSET_PC_DATA_ADDR ;;
        clear_amount (amount_top c) ;;
        clear_amount (amount_core c) ;;
        REG_WRITE 0 pc_data_addr RKNPU_OFFSET_PC_DATA_ADDR ;;
        ret 0
      else
        clear_amount (amount_top c) ;;
        clear_amount (amount_core c) ;;
        ret 0
  end.

(** One counter: the top unit's, plus the core's where there is one. *)
Definition read_amount (c : rknpu_config) (top : rknpu_amount_data) (off : rknpu_amount_data -> Z)
  : M Z :=
  let! v := REG_READ 0 (off top) in
  let v := u32 (v * pc_data_amount_scale c) in
  match amount_core c with
  | None => ret v
  | Some core =>
      let! w := REG_READ 0 (off core) in
      ret (u32 (v + u32 (w * pc_data_amount_scale c)))
  end.

Definition rknpu_get_rw_amount (dt_wr dt_rd wd_rd : bool)
  : M (Z * (option Z * option Z * option Z)) :=
  let! c := gets config in
  match amount_top c with
  | None => ret (0, (None, None, None))
  | Some top =>
      let! a := read_if dt_wr (read_amount c top offset_dt_wr) in
      let! b := read_if dt_rd (read_amount c top offset_dt_rd) in
      let! w := read_if wd_rd (read_amount c top offset_wt_rd) in
      ret (0, (a, b, w))
  end.

(** The stored amount is [None] when nothing is stored. *)
Definition rknpu_get_total_rw_amount (amount : bool) : M (Z * option Z) :=
  let! c := gets config in
  match amount_top c with
  | None => ret (0, None)
  | Some _ =>
      let! r := rknpu_get_rw_amount true true true in
      let '(r, (dt_wr, dt_rd, wd_rd)) := r in
      let get o := default 0 o in
      ret (r, if amount then Some (u32 (u32 (get dt_wr + get dt_rd) + get wd_rd)) else None)
  end.

(** ** Properties *)

Lemma readl_mapped (b : io_base) (off : Z) (d : rknpu_device) :
  io_mapped d b = true -> readl b off d = Ret (u32 (reg_value d b off)) d.
Proof. intros Hm. unfold readl, bind, gets. by rewrite Hm. Qed.

(** What one counter is worth: each 32-bit reading scaled, summed modulo 2^32. *)
Definition amount_value (d : rknpu_device) (off : rknpu_amount_data -> Z) : Z :=
  let c := config d in
  let unit o := match o with
                | Some a => u32 (reg_value d (CoreBase 0) (off a)) * pc_data_amount_scale c
                | None => 0
                end in
  u32 (unit (amount_top c) + unit (amount_core c)).

Lemma u32_add (a b : Z) : u32 (u32 a + u32 b) = u32 (a + b).
Proof. unfold u32. by rewrite <- Zplus_mod. Qed.
Lemma u32_add_l (a b : Z) : u32 (u32 a + b) = u32 (a + b).
Proof. unfold u32. by rewrite Zplus_mod_idemp_l. Qed.

Lemma read_amount_value (d : rknpu_device) (top : rknpu_amount_data) (off : rknpu_amount_data -> Z) :
  io_mapped d (CoreBase 0) = true -> amount_top (config d) = Some top ->
  read_amount (config d) top off d = Ret (amount_value d off) d.
Proof.
  intros Hm Ht. unfold read_amount, REG_READ, bind, amount_value. rewrite readl_mapped, Ht by done.
  destruct (amount_core (config d)).
  - rewrite readl_mapped by done. unfold ret. by rewrite u32_add.
  - unfold ret. by rewrite Z.add_0_r.
Qed.

(** On an SoC with amount counters, rknpu_get_total_rw_amount stores the
    sum modulo 2^32 of the three counters, each the scaled readings of the top
    unit and (where the SoC has it) of the core added modulo 2^32, and touches
    nothing; on the others it returns 0 and stores nothing. *)
Theorem total_rw_amount_sums_counters (d : rknpu_device) :
  io_mapped d (CoreBase 0) = true ->
  rknpu_get_total_rw_amount true d =
    match amount_top (config d) with
    | None => Ret (0, None) d
    | Some _ =>
        Ret (0, Some (u32 (amount_value d offset_dt_wr + amount_value d offset_dt_rd +
                           amount_value d offset_wt_rd))) d
    end.
Proof.
  intros Hm. unfold rknpu_get_total_rw_amount, rknpu_get_rw_amount, read_if, bind, gets.
  destruct (amount_top (config d)) as [top|] eqn:Ht; [|done].
  rewrite Ht. cbv beta iota.
  do 3 (rewrite read_amount_value by done; cbv beta iota delta [ret]).
  cbn. by rewrite u32_add_l.
Qed.

Lemma total_rw_amount_sums_counters_witness :
  let d := (example_dev rk3576_rknpu_config []) <| reg_value := fun _ off => off |> in
  rknpu_get_total_rw_amount true d =
    Ret (0, Some (2 * (0x2234 + 0x2434 + 0x2238 + 0x2438 + 0x223c + 0x243c))) d.
Proof. intros d. apply (total_rw_amount_sums_counters d). reflexivity. Defined.

(** The writes that clear the counters of a configuration. *)
Definition clear_writes (c : rknpu_config) : list reg_write :=
  let pair o :=
    match o with
    | Some a => [{| w_base := CoreBase 0; w_offset := offset_clr_all a; w_value := 0x80000101 |};
                 {| w_base := CoreBase 0; w_offset := offset_clr_all a; w_value := 0x101 |}]
    | None => []
    end in
  pair (amount_top c) ++ pair (amount_core c).

Lemma clear_amount_writes (o : option rknpu_amount_data) (d : rknpu_device) :
  io_mapped d (CoreBase 0) = true ->
  exists l, clear_amount o d = Ret tt (d <| reg_writes ::= (fun w => w ++ l) |>) /\
    l = match o with
        | Some a => [{| w_base := CoreBase 0; w_offset := offset_clr_all a; w_value := 0x80000101 |};
                     {| w_base := CoreBase 0; w_offset := offset_clr_all a; w_value := 0x101 |}]
        | None => []
        end.
Proof.
  intros Hm. eexists. split; [|done]. destruct o; cbn [clear_amount]; unfold bind, REG_WRITE.
  - rewrite !writel_mapped by done. f_equal. destruct d; cbn. by rewrite <- app_assoc.
  - unfold ret. f_equal. destruct d; cbn. by rewrite app_nil_r.
Qed.

(** Rknpu_clear_rw_amount clears every group of counters the SoC has, and
    on an SoC whose PC unit needs it (pc_dma_ctrl) it does so in slave mode
    and then puts the data address back that it read before; without counters
    it returns 0 and writes nothing. *)
Theorem clear_rw_amount_restores_pc (d : rknpu_device) :
  io_mapped d (CoreBase 0) = true ->
  exists d', rknpu_clear_rw_amount d = Ret 0 d' /\
    d' = d <| reg_writes ::= (fun w => w ++
      match amount_top (config d) with
      | None => []
      | Some _ =>
          let set v := {| w_base := CoreBase 0; w_offset := RKNPU_OFFSET_PC_DATA_ADDR; w_value := v |} in
          if pc_dma_ctrl (config d) =? 0 then clear_writes (config d)
          else set 1 :: clear_writes (config d) ++
               [set (u32 (reg_value d (CoreBase 0) RKNPU_OFFSET_PC_DATA_ADDR))]
      end) |>.
Proof.
  intros Hm. unfold rknpu_clear_rw_amount, clear_writes. unfold bind at 1, gets at 1.
  destruct (amount_top (config d)) as [top|] eqn:Ht.
  2: { eexists. split; [reflexivity|]. destruct d; cbn. by rewrite app_nil_r. }
  destruct (Z.eqb_spec (pc_dma_ctrl (config d)) 0) as [Hp|Hp]; cbn [negb].
  - destruct (clear_amount_writes (Some top) d Hm) as (l1 & H1 & E1).
    unfold bind. rewrite H1.
    match goal with |- context [clear_amount (amount_core (config d)) ?x] =>
      destruct (clear_amount_writes (amount_core (config d)) x Hm) as (l2 & H2 & E2) end.
    rewrite H2. eexists. split; [done|]. subst l1 l2. destruct d; cbn in *.
    f_equal. by rewrite <- app_assoc.
  - unfold bind, REG_READ, REG_WRITE. rewrite readl_mapped by done. rewrite writel_mapped by done.
    match goal with |- context [clear_amount (Some top) ?x] =>
      destruct (clear_amount_writes (Some top) x Hm) as (l1 & H1 & E1) end.
    rewrite H1.
    match goal with |- context [clear_amount (amount_core (config d)) ?x] =>
      destruct (clear_amount_writes (amount_core (config d)) x Hm) as (l2 & H2 & E2) end.
    rewrite H2, writel_mapped by done. eexists. split; [done|]. subst l1 l2.
    rewrite (u32_small (u32 _)) by apply u32_range.
    destruct d; cbn -[u32] in *. f_equal. by rewrite <- !app_assoc.
Qed.

Lemma clear_rw_amount_restores_pc_witness :
  let d := example_dev rv1126b_rknpu_config [] in
  exists d', rknpu_clear_rw_amount d = Ret 0 d' /\ length (reg_writes d') = 4%nat.
Proof.
  intros d. destruct (clear_rw_amount_restores_pc d eq_refl) as (d' & H1 & H2).
  exists d'. split; [exact H1|]. rewrite H2. reflexivity.
Defined.
