(* ===== verification/Mm.v ===== *)
(** * The SRAM chunk allocator (rknpu_mm.c)

    A bitmap of fixed-size chunks with a first-fit search for a contiguous
    run.  [rknpu_mm_alloc] is proved equal to a reference first-fit
    specification, and a transition system of allocations and frees keeps the
    live ranges disjoint. *)

From S2P Require Import Prelude.

(** struct rknpu_mm; the lock serialises the operations, so each operation is
    one transition and the field itself is not modelled. *)
Record rknpu_mm := {
  bitmap : list bool;
  chunk_size : Z;
  total_chunks : Z;
  free_chunks : Z;
}.
#[export] Instance rknpu_mm_settable : Settable rknpu_mm :=
  {| settable := fun m => Build_rknpu_mm (bitmap m) (chunk_size m) (total_chunks m) (free_chunks m) |}.

Record rknpu_mm_obj := { range_start : Z; range_end : Z }.

Definition BITS_PER_LONG : Z := 64.

(** What the caller's [*mm] holds after [rknpu_mm_create], and the pointers the
    call handed to [kfree]: the address of the caller's slot or the object. *)
Inductive mm_slot := SlotUntouched | SlotNull | SlotMm (m : rknpu_mm).
Inductive mm_kptr := AddrOfSlot | AddrOfMm | AddrOfBitmap.

(** [kzalloc_ok]/[kcalloc_ok]: whether the two kernel allocations succeed.  A
    bitmap that could not be allocated is NULL, written []. *)
Definition rknpu_mm_create (kzalloc_ok kcalloc_ok : bool) (mem_size chunk : Z)
  : Z * mm_slot * list mm_kptr :=
  if mem_size <? chunk then (-EINVAL, SlotUntouched, [])
  else if mem_size =? 0 then (-EINVAL, SlotUntouched, [])
  else if chunk =? 0 then (-EINVAL, SlotUntouched, [])
  else if negb kzalloc_ok then (-ENOMEM, SlotNull, [])
  else
    let total := mem_size / chunk in
    let mm := {| bitmap := []; chunk_size := chunk;
                 total_chunks := total; free_chunks := total |} in
    let num_of_longs := u32 (total + BITS_PER_LONG - 1) / BITS_PER_LONG in
    if negb kcalloc_ok then (-ENOMEM, SlotMm mm, [AddrOfSlot])
    else (0, SlotMm (mm <| bitmap := replicate (Z.to_nat (num_of_longs * BITS_PER_LONG)) false |>), []).

Definition rknpu_mm_destroy (mm : option rknpu_mm) : list mm_kptr :=
  match mm with
  | Some _ => [AddrOfBitmap; AddrOfMm]
  | None => []
  end.

(** What the caller's [*mm_obj] holds after [rknpu_mm_alloc]. *)
Inductive obj_slot := ObjUntouched | ObjNull | ObjDangling | ObjPtr (o : rknpu_mm_obj).

(** How one pass of the inner [do .. while] of [rknpu_mm_alloc] leaves it. *)
Inductive grow_result :=
  | GrowFound (range_end : Z)
  | GrowRestart (start_search : Z)
  | GrowNoFree.

Section Operations.
Context `{BO : BitmapOps}.

(** The [do .. while (cur_size > 0)] loop; [None] when the fuel runs out. *)
Fixpoint mm_grow (fuel : nat) (mm : rknpu_mm) (found cur_size : Z) : option grow_result :=
  match fuel with
  | O => None
  | S f =>
      let found := u32 (found + 1) in
      let range_end := find_next_zero_bit (bitmap mm) (total_chunks mm) found in
      if negb (range_end =? found) then Some (GrowRestart found)
      else if found =? total_chunks mm then Some GrowNoFree
      else
        let cur_size := if cur_size <=? chunk_size mm then 0
                        else cur_size - chunk_size mm in
        if 0 <? cur_size then mm_grow f mm found cur_size
        else Some (GrowFound range_end)
  end.

(** From [mm_restart_search]: the outer [None] is missing fuel, the inner one
    the jump to [mm_no_free_chunk]. *)
Fixpoint mm_search (fuel : nat) (mm : rknpu_mm) (size start_search : Z)
  : option (option rknpu_mm_obj) :=
  match fuel with
  | O => None
  | S f =>
      let found := find_next_zero_bit (bitmap mm) (total_chunks mm) start_search in
      if found =? total_chunks mm then Some None
      else if size <=? chunk_size mm then
        Some (Some {| range_start := found; range_end := found |})
      else
        match mm_grow (S (Z.to_nat (total_chunks mm))) mm found (size - chunk_size mm) with
        | None => None
        | Some (GrowFound e) => Some (Some {| range_start := found; range_end := e |})
        | Some (GrowRestart s) => mm_search f mm size s
        | Some GrowNoFree => Some None
        end
  end.

(** [for (i = start; i <= end; i++) set_bit(i)] and its [clear_bit] twin. *)
Fixpoint write_bits (b : bool) (n : nat) (i : Z) (bm : list bool) : list bool :=
  match n with
  | O => bm
  | S n => write_bits b n (i + 1) (<[Z.to_nat i := b]> bm)
  end.
Definition range_len (o : rknpu_mm_obj) : Z := range_end o - range_start o + 1.
Definition set_range (o : rknpu_mm_obj) (bm : list bool) : list bool :=
  write_bits true (Z.to_nat (range_len o)) (range_start o) bm.
Definition clear_range (o : rknpu_mm_obj) (bm : list bool) : list bool :=
  write_bits false (Z.to_nat (range_len o)) (range_start o) bm.

(** [None]: the search loop did not finish within its fuel. *)
Definition rknpu_mm_alloc (kzalloc_ok : bool) (mm : rknpu_mm) (size : Z)
  : option (Z * rknpu_mm * obj_slot) :=
  if size =? 0 then Some (-EINVAL, mm, ObjUntouched)
  else if u32 (total_chunks mm * chunk_size mm) <? size then Some (-ENOMEM, mm, ObjUntouched)
  else if negb kzalloc_ok then Some (-ENOMEM, mm, ObjNull)
  else
    match mm_search (S (Z.to_nat (total_chunks mm))) mm size 0 with
    | None => None
    | Some None => Some (-ENOMEM, mm, ObjDangling)
    | Some (Some o) =>
        Some (0,
              mm <| bitmap ::= set_range o |>
                 <| free_chunks := u32 (free_chunks mm - u32 (range_end o - range_start o + 1)) |>,
              ObjPtr o)
    end.

Definition rknpu_mm_free (mm : rknpu_mm) (mm_obj : option rknpu_mm_obj) : Z * rknpu_mm :=
  match mm_obj with
  | None => (0, mm)
  | Some o =>
      (0, mm <| bitmap ::= clear_range o |>
             <| free_chunks := u32 (free_chunks mm + u32 (range_end o - range_start o + 1)) |>)
  end.

End Operations.

(** ** Specification: first fit

    [window_free bm total k s]: the [k] chunks from [s] exist and are free. *)

Definition window_free (bm : list bool) (total k s : Z) : Prop :=
  0 <= s /\ s + k <= total /\ forall i, s <= i < s + k -> bit bm i = false.

Fixpoint run_free (bm : list bool) (n : nat) (s : Z) : bool :=
  match n with
  | O => true
  | S n => negb (bit bm s) && run_free bm n (s + 1)
  end.

(** The smallest start in [s, s + fuel) of a free window of [k] chunks. *)
Fixpoint first_fit_from (bm : list bool) (total k : Z) (fuel : nat) (s : Z) : option Z :=
  match fuel with
  | O => None
  | S f => if (s + k <=? total) && run_free bm (Z.to_nat k) s then Some s
           else first_fit_from bm total k f (s + 1)
  end.
Definition first_fit (bm : list bool) (total k : Z) : option Z :=
  first_fit_from bm total k (Z.to_nat total) 0.

Definition free_bits (bm : list bool) (total : Z) : Z :=
  Z.of_nat (length (filter (fun b => b = false) (take (Z.to_nat total) bm))).

(** Well-formedness of an allocator, as [rknpu_mm_create] establishes it. *)
Record mm_wf (mm : rknpu_mm) : Prop := {
  wf_chunk : 0 < chunk_size mm;
  wf_total : 0 <= total_chunks mm;
  wf_bytes : total_chunks mm * chunk_size mm < 2 ^ 32;
  wf_bits : total_chunks mm <= Z.of_nat (length (bitmap mm));
  wf_free : free_chunks mm = free_bits (bitmap mm) (total_chunks mm);
}.

(** What [rknpu_mm_alloc] promises: first fit over chunks. *)
Definition alloc_spec (mm : rknpu_mm) (size : Z) : Z * rknpu_mm * obj_slot :=
  let k := ceil_div size (chunk_size mm) in
  match first_fit (bitmap mm) (total_chunks mm) k with
  | None => (-ENOMEM, mm, ObjDangling)
  | Some s =>
      let o := {| range_start := s; range_end := s + k - 1 |} in
      (0, mm <| bitmap ::= set_range o |> <| free_chunks := free_chunks mm - k |>, ObjPtr o)
  end.

(** ** Lemmas on windows and bit ranges *)

Lemma run_free_spec (bm : list bool) (n : nat) (s : Z) :
  run_free bm n s = true <-> forall i, s <= i < s + Z.of_nat n -> bit bm i = false.
Proof.
  revert s. induction n as [|n IH]; intros s; simpl.
  { split; [intros _ i Hi; lia | done]. }
  rewrite andb_true_iff, negb_true_iff, IH. split.
  - intros [H0 H] i Hi. destruct (decide (i = s)) as [->|]; [done|]. apply H. lia.
  - intros H. split; [apply H; lia|]. intros i Hi. apply H. lia.
Qed.

Lemma first_fit_from_spec (bm : list bool) (total k : Z) (fuel : nat) (s0 : Z) :
  0 <= s0 -> 0 <= k ->
  match first_fit_from bm total k fuel s0 with
  | Some s => s0 <= s /\ window_free bm total k s /\
              forall t, s0 <= t < s -> ~ window_free bm total k t
  | None => forall t, s0 <= t < s0 + Z.of_nat fuel -> ~ window_free bm total k t
  end.
Proof.
  revert s0. induction fuel as [|f IH]; intros s0 H0 Hk; simpl; [lia|].
  destruct ((s0 + k <=? total) && run_free bm (Z.to_nat k) s0) eqn:E.
  - apply andb_true_iff in E as [E1 E2]. apply Z.leb_le in E1.
    rewrite run_free_spec, Z2Nat.id in E2 by lia.
    split; [lia|]. split; [done | lia].
  - assert (~ window_free bm total k s0) as Hno.
    { intros (_ & H1 & H2). apply andb_false_iff in E as [E|E].
      - apply Z.leb_gt in E. lia.
      - rewrite <- not_true_iff_false, run_free_spec, Z2Nat.id in E by lia. done. }
    specialize (IH (s0 + 1) ltac:(lia) Hk).
    destruct (first_fit_from bm total k f (s0 + 1)) as [s|].
    + destruct IH as (H1 & H2 & H3). split; [lia|]. split; [done|].
      intros t Ht. destruct (decide (t = s0)) as [->|]; [done|]. apply H3. lia.
    + intros t Ht. destruct (decide (t = s0)) as [->|]; [done|]. apply IH. lia.
Qed.

Lemma first_fit_Some (bm : list bool) (total k s : Z) :
  0 < k ->
  window_free bm total k s -> (forall t, 0 <= t < s -> ~ window_free bm total k t) ->
  first_fit bm total k = Some s.
Proof.
  intros Hk Hw Hmin. unfold first_fit.
  pose proof (first_fit_from_spec bm total k (Z.to_nat total) 0 ltac:(lia) ltac:(lia)) as H.
  pose proof Hw as (Hs & Hle & _).
  destruct (first_fit_from _ _ _ _ _) as [s'|].
  - destruct H as (H1 & H2 & H3). f_equal.
    destruct (Z.lt_trichotomy s s') as [Hlt|[->|Hlt]]; [|done|].
    + exfalso. by apply (H3 s); [lia|].
    + exfalso. by apply (Hmin s'); [lia|].
  - exfalso. by apply (H s); [lia|].
Qed.

Lemma first_fit_None (bm : list bool) (total k : Z) :
  0 < k -> (forall t, 0 <= t < total -> ~ window_free bm total k t) ->
  first_fit bm total k = None.
Proof.
  intros Hk Hno. unfold first_fit.
  pose proof (first_fit_from_spec bm total k (Z.to_nat total) 0 ltac:(lia) ltac:(lia)) as H.
  destruct (first_fit_from _ _ _ _ _) as [s'|]; [|done].
  destruct H as (H1 & H2 & _). exfalso. pose proof H2 as (_ & Hle & _).
  by apply (Hno s'); [lia|].
Qed.

Lemma first_fit_sound (bm : list bool) (total k s : Z) :
  0 < k -> first_fit bm total k = Some s -> window_free bm total k s.
Proof.
  intros Hk H. unfold first_fit in H.
  pose proof (first_fit_from_spec bm total k (Z.to_nat total) 0 ltac:(lia) ltac:(lia)) as Hs.
  rewrite H in Hs. apply Hs.
Qed.

Lemma length_write_bits (b : bool) (n : nat) (i : Z) (bm : list bool) :
  length (write_bits b n i bm) = length bm.
Proof.
  revert i bm. induction n as [|n IH]; intros i bm; simpl; [done|].
  by rewrite IH, length_insert.
Qed.

Lemma bit_write_bits (b : bool) (n : nat) (i j : Z) (bm : list bool) :
  0 <= i -> 0 <= j -> i + Z.of_nat n <= Z.of_nat (length bm) ->
  bit (write_bits b n i bm) j =
    if (i <=? j) && (j <? i + Z.of_nat n) then b else bit bm j.
Proof.
  revert i bm. induction n as [|n IH]; intros i bm Hi Hj Hlen; simpl.
  { repeat case_bool; simpl; done || lia. }
  rewrite IH by (rewrite ?length_insert; lia).
  destruct (decide (i = j)) as [->|Hne].
  - rewrite bit_write_eq by lia. repeat case_bool; simpl; done || lia.
  - rewrite bit_write_ne by lia. repeat case_bool; simpl; done || lia.
Qed.

Lemma bit_list_ext (bm bm' : list bool) :
  length bm = length bm' ->
  (forall i, 0 <= i < Z.of_nat (length bm) -> bit bm i = bit bm' i) -> bm = bm'.
Proof.
  intros Hlen H. apply list_eq. intros i.
  destruct (decide (i < length bm)%nat) as [Hi|Hi].
  - specialize (H (Z.of_nat i) ltac:(lia)). unfold bit in H. rewrite Nat2Z.id in H.
    destruct (lookup_lt_is_Some_2 bm i Hi) as [x Hx].
    destruct (lookup_lt_is_Some_2 bm' i ltac:(lia)) as [y Hy].
    rewrite Hx, Hy in *. simpl in H. by subst.
  - rewrite !lookup_ge_None_2 by lia. done.
Qed.

(** Number of free bits below [total], as a recursion over the index. *)
Fixpoint free_below (bm : list bool) (n : nat) : Z :=
  match n with
  | O => 0
  | S n => free_below bm n + if bit bm (Z.of_nat n) then 0 else 1
  end.

Lemma free_bits_below (bm : list bool) (total : Z) :
  0 <= total <= Z.of_nat (length bm) ->
  free_bits bm total = free_below bm (Z.to_nat total).
Proof.
  intros H. unfold free_bits.
  assert (Z.to_nat total <= length bm)%nat as Hn by lia. revert Hn.
  generalize (Z.to_nat total) as n. intros n. induction n as [|n IH]; intros Hn; [done|].
  destruct (lookup_lt_is_Some_2 bm n ltac:(lia)) as [x Hx].
  rewrite (take_S_r _ _ x Hx), filter_app, length_app, Nat2Z.inj_add, IH by lia. simpl.
  f_equal. unfold bit. rewrite Nat2Z.id, Hx. simpl.
  destruct x; simpl; done.
Qed.

Lemma free_below_write_out (b : bool) (i : Z) (n : nat) (bm : list bool) :
  Z.of_nat n <= i -> free_below (<[Z.to_nat i := b]> bm) n = free_below bm n.
Proof.
  induction n as [|n IH]; intros H; simpl; [done|].
  rewrite IH, bit_write_ne by lia. done.
Qed.

Lemma free_below_write (b : bool) (i : Z) (n : nat) (bm : list bool) :
  0 <= i < Z.of_nat n -> Z.of_nat n <= Z.of_nat (length bm) -> bit bm i = negb b ->
  free_below (<[Z.to_nat i := b]> bm) n = free_below bm n + if b then -1 else 1.
Proof.
  induction n as [|n IH]; intros Hi Hn Hb; simpl; [lia|].
  destruct (decide (i = Z.of_nat n)) as [->|Hne].
  - rewrite free_below_write_out, bit_write_eq by lia. rewrite Hb.
    destruct b; simpl; lia.
  - rewrite IH, bit_write_ne by (done || lia). lia.
Qed.

Lemma free_below_write_bits (b : bool) (m : nat) (i : Z) (n : nat) (bm : list bool) :
  0 <= i -> i + Z.of_nat m <= Z.of_nat n -> Z.of_nat n <= Z.of_nat (length bm) ->
  (forall j, i <= j < i + Z.of_nat m -> bit bm j = negb b) ->
  free_below (write_bits b m i bm) n = free_below bm n + if b then - Z.of_nat m else Z.of_nat m.
Proof.
  revert i bm. induction m as [|m IH]; intros i bm Hi Hm Hn Hb; simpl.
  { destruct b; lia. }
  rewrite IH.
  - rewrite free_below_write; [destruct b; lia | lia.. |]. apply Hb. lia.
  - lia.
  - lia.
  - rewrite length_insert. lia.
  - intros j Hj. rewrite bit_write_ne by lia. apply Hb. lia.
Qed.

Lemma free_below_bounds (bm : list bool) (n : nat) : 0 <= free_below bm n <= Z.of_nat n.
Proof. induction n as [|n IH]; simpl; [lia|]. destruct (bit _ _); lia. Qed.

(** ** The search loop is first fit *)

Section Search.
Context `{BO : BitmapOps}.

Lemma next_zero_cases (bm : list bool) (size off : Z) :
  0 <= off <= size ->
  let r := find_next_zero_bit bm size off in
  off <= r <= size /\ (forall i, off <= i < r -> bit bm i = true) /\
  (r < size -> bit bm r = false).
Proof.
  intros H r. destruct (find_next_zero_bit_spec bm size off ltac:(lia)) as [H1 H2].
  fold r in H1, H2. destruct (decide (off < size)) as [Hlt|Hge].
  - destruct (H2 Hlt) as (Hr & Hno & Hyes). split; [done|]. split; [|done].
    intros i Hi. apply not_false_iff_true. by apply Hno.
  - rewrite H1 by lia. split; [lia|]. split; lia.
Qed.

(** One run of the inner loop from [found] with [cur] bytes still missing. *)
Definition grow_post (mm : rknpu_mm) (found m : Z) (r : grow_result) : Prop :=
  match r with
  | GrowFound e => e = found + m /\ e < total_chunks mm /\
      forall i, found < i <= e -> bit (bitmap mm) i = false
  | GrowRestart p => found < p <= found + m /\ p < total_chunks mm /\
      bit (bitmap mm) p = true
  | GrowNoFree => total_chunks mm <= found + m
  end.

Lemma mm_grow_post (mm : rknpu_mm) (fuel : nat) (found cur : Z) :
  0 < chunk_size mm -> total_chunks mm < 2 ^ 32 ->
  0 <= found < total_chunks mm -> 0 < cur ->
  total_chunks mm - found <= Z.of_nat fuel ->
  exists r, mm_grow fuel mm found cur = Some r /\
            grow_post mm found (ceil_div cur (chunk_size mm)) r.
Proof.
  intros Hc Ht. revert found cur. induction fuel as [|f IH]; intros found cur Hf Hcur Hfuel; [lia|].
  pose proof (ceil_div_pos cur (chunk_size mm) Hc Hcur) as Hpos.
  simpl. rewrite u32_small by lia.
  destruct (next_zero_cases (bitmap mm) (total_chunks mm) (found + 1)) as (Hr & Hset & Hfree); [lia|].
  set (r := find_next_zero_bit (bitmap mm) (total_chunks mm) (found + 1)) in *.
  destruct (Z.eqb_spec r (found + 1)) as [Heq|Hne]; simpl.
  2: { eexists; split; [done|]. simpl. split; [lia|]. split; [lia|]. apply Hset. lia. }
  destruct (Z.eqb_spec (found + 1) (total_chunks mm)) as [He|He].
  { eexists; split; [done|]. simpl. lia. }
  rewrite Heq in *. clear Heq r.
  destruct (Z.leb_spec cur (chunk_size mm)) as [Hle|Hgt]; simpl.
  { eexists; split; [done|]. rewrite ceil_div_small by lia. simpl.
    split; [lia|]. split; [lia|]. intros i Hi. replace i with (found + 1) by lia. apply Hfree. lia. }
  destruct (Z.ltb_spec 0 (cur - chunk_size mm)) as [_|]; [|lia].
  destruct (IH (found + 1) (cur - chunk_size mm)) as (g & Hg & Hpost); [lia..|].
  exists g. split; [done|].
  pose proof (ceil_div_step (cur - chunk_size mm) (chunk_size mm) Hc) as Hstep.
  replace (chunk_size mm + (cur - chunk_size mm)) with cur in Hstep by lia.
  rewrite Hstep. destruct g; simpl in *.
  - destruct Hpost as (H1 & H2 & H3). split; [lia|]. split; [lia|].
    intros i Hi. destruct (decide (i = found + 1)) as [->|]; [apply Hfree; lia | apply H3; lia].
  - destruct Hpost as (H1 & H2 & H3). split; [lia|]. done.
  - lia.
Qed.

Lemma mm_search_first_fit (mm : rknpu_mm) (size : Z) (fuel : nat) (start : Z) :
  mm_wf mm -> 0 < size -> 0 <= start <= total_chunks mm ->
  total_chunks mm - start < Z.of_nat fuel ->
  let k := ceil_div size (chunk_size mm) in
  (forall s, 0 <= s < start -> ~ window_free (bitmap mm) (total_chunks mm) k s) ->
  mm_search fuel mm size start =
    Some (match first_fit (bitmap mm) (total_chunks mm) k with
          | Some s => Some {| range_start := s; range_end := s + k - 1 |}
          | None => None
          end).
Proof.
  intros [Hc Ht Hb Hl _] Hsize. revert start.
  induction fuel as [|f IH]; intros start Hs Hfuel k Hblock; [lia|].
  pose proof (ceil_div_pos size (chunk_size mm) Hc Hsize) as Hk. fold k in Hk.
  assert (total_chunks mm < 2 ^ 32) as Ht32 by nia.
  cbn [mm_search].
  destruct (next_zero_cases (bitmap mm) (total_chunks mm) start) as (Hr & Hset & Hfree); [lia|].
  set (r := find_next_zero_bit (bitmap mm) (total_chunks mm) start) in *.
  assert (forall s, 0 <= s < r -> ~ window_free (bitmap mm) (total_chunks mm) k s) as Hbr.
  { intros s Hsr (H0 & Hw1 & Hw2). destruct (decide (s < start)) as [Hlt|Hge].
    - by apply (Hblock s); [lia|].
    - specialize (Hset s ltac:(lia)). specialize (Hw2 s ltac:(lia)). congruence. }
  destruct (Z.eqb_spec r (total_chunks mm)) as [He|He].
  { rewrite first_fit_None; [done | lia |]. intros s Hs'. apply Hbr. lia. }
  specialize (Hfree ltac:(lia)).
  destruct (Z.leb_spec size (chunk_size mm)) as [Hle|Hgt].
  { assert (k = 1) as Hk1 by (apply ceil_div_small; lia).
    rewrite (first_fit_Some _ _ _ r); [| lia | | done].
    - repeat f_equal. lia.
    - split; [lia|]. split; [lia|]. intros i Hi. by replace i with r by lia. }
  destruct (mm_grow_post mm (S (Z.to_nat (total_chunks mm))) r (size - chunk_size mm))
    as (g & -> & Hpost); [lia..|].
  pose proof (ceil_div_step (size - chunk_size mm) (chunk_size mm) Hc) as Hstep.
  replace (chunk_size mm + (size - chunk_size mm)) with size in Hstep by lia. fold k in Hstep.
  destruct g as [e|p|]; simpl in Hpost.
  - destruct Hpost as (He' & Het & Hrun).
    rewrite (first_fit_Some _ _ _ r); [| lia | | done].
    + repeat f_equal. lia.
    + split; [lia|]. split; [lia|]. intros i Hi.
      destruct (decide (i = r)) as [->|]; [done|]. apply Hrun. lia.
  - destruct Hpost as (Hp & Hpt & Hbit). apply IH; [lia..|].
    intros s Hsp. destruct (decide (s < r)); [apply Hbr; lia|].
    intros (_ & _ & Hw). specialize (Hw p ltac:(lia)). congruence.
  - rewrite first_fit_None; [done | lia |].
    intros s Hsp. destruct (decide (s < r)); [apply Hbr; lia|].
    intros (_ & Hw & _). lia.
Qed.

Lemma alloc_range_free (mm : rknpu_mm) (size s : Z) :
  mm_wf mm -> 0 < size ->
  first_fit (bitmap mm) (total_chunks mm) (ceil_div size (chunk_size mm)) = Some s ->
  ceil_div size (chunk_size mm) <= free_chunks mm.
Proof.
  intros [Hc Ht Hb Hl Hf] Hsize H.
  pose proof (ceil_div_pos size (chunk_size mm) Hc Hsize) as Hk.
  apply first_fit_sound in H as (H0 & H1 & H2); [|done].
  rewrite Hf, free_bits_below by lia.
  pose proof (free_below_write_bits true (Z.to_nat (ceil_div size (chunk_size mm))) s
                (Z.to_nat (total_chunks mm)) (bitmap mm)) as Hw.
  rewrite Z2Nat.id in Hw by lia.
  pose proof (free_below_bounds
                (write_bits true (Z.to_nat (ceil_div size (chunk_size mm))) s (bitmap mm))
                (Z.to_nat (total_chunks mm))) as Hb'.
  rewrite Hw in Hb' by (lia || done). lia.
Qed.

Lemma free_chunks_bounds (mm : rknpu_mm) :
  mm_wf mm -> 0 <= free_chunks mm <= total_chunks mm /\ total_chunks mm < 2 ^ 32.
Proof.
  intros [Hc Ht Hb Hl Hf]. rewrite Hf, free_bits_below by lia.
  pose proof (free_below_bounds (bitmap mm) (Z.to_nat (total_chunks mm))). nia.
Qed.

Lemma mm_alloc_refines (mm : rknpu_mm) (size : Z) :
  mm_wf mm -> 0 < size <= total_chunks mm * chunk_size mm ->
  rknpu_mm_alloc true mm size = Some (alloc_spec mm size).
Proof.
  intros Hwf Hsize. pose proof Hwf as [Hc Ht Hb Hl Hf]. unfold rknpu_mm_alloc.
  destruct (Z.eqb_spec size 0); [lia|].
  rewrite u32_small by lia. destruct (Z.ltb_spec (total_chunks mm * chunk_size mm) size); [lia|].
  cbn [negb].
  rewrite (mm_search_first_fit mm size) by (done || lia). unfold alloc_spec.
  destruct (first_fit _ _ _) as [s|] eqn:Hfit; [|done].
  pose proof (alloc_range_free mm size s Hwf ltac:(lia) Hfit) as Hfree.
  pose proof (free_chunks_bounds mm Hwf) as Hfb.
  pose proof (ceil_div_pos size (chunk_size mm) Hc ltac:(lia)) as Hk.
  cbn [range_start range_end].
  set (k := ceil_div size (chunk_size mm)) in *.
  replace (s + k - 1 - s + 1) with k by lia.
  rewrite (u32_small k) by lia. rewrite u32_small by lia. done.
Qed.

End Search.

(** ** Effect of one allocation and one free on the allocator *)

Definition in_range (o : rknpu_mm_obj) (i : Z) : bool :=
  (range_start o <=? i) && (i <=? range_end o).

(** Two objects share no chunk. *)
Definition disjoint_objs (o1 o2 : rknpu_mm_obj) : Prop :=
  range_end o1 < range_start o2 \/ range_end o2 < range_start o1.

(** A live object of [mm]: a non-empty range of existing, allocated chunks. *)
Definition obj_live (mm : rknpu_mm) (o : rknpu_mm_obj) : Prop :=
  0 <= range_start o <= range_end o /\ range_end o < total_chunks mm /\
  forall i, range_start o <= i <= range_end o -> bit (bitmap mm) i = true.

Lemma bit_set_range (bm : list bool) (o : rknpu_mm_obj) (i : Z) :
  0 <= range_start o <= range_end o -> range_end o < Z.of_nat (length bm) -> 0 <= i ->
  bit (set_range o bm) i = in_range o i || bit bm i.
Proof.
  intros H1 H2 Hi. unfold set_range, range_len, in_range.
  rewrite bit_write_bits by lia. rewrite Z2Nat.id by lia.
  repeat case_bool; simpl; done || lia.
Qed.

Lemma bit_clear_range (bm : list bool) (o : rknpu_mm_obj) (i : Z) :
  0 <= range_start o <= range_end o -> range_end o < Z.of_nat (length bm) -> 0 <= i ->
  bit (clear_range o bm) i = negb (in_range o i) && bit bm i.
Proof.
  intros H1 H2 Hi. unfold clear_range, range_len, in_range.
  rewrite bit_write_bits by lia. rewrite Z2Nat.id by lia.
  repeat case_bool; simpl; done || lia.
Qed.

Lemma disjoint_or_shared (o1 o2 : rknpu_mm_obj) :
  range_start o1 <= range_end o1 -> range_start o2 <= range_end o2 ->
  disjoint_objs o1 o2 \/ exists c, in_range o1 c = true /\ in_range o2 c = true.
Proof.
  intros H1 H2. unfold disjoint_objs, in_range.
  destruct (decide (range_end o1 < range_start o2)); [tauto|].
  destruct (decide (range_end o2 < range_start o1)); [tauto|].
  right. exists (Z.max (range_start o1) (range_start o2)).
  repeat case_bool; simpl; done || lia.
Qed.

Lemma length_set_range (o : rknpu_mm_obj) (bm : list bool) :
  length (set_range o bm) = length bm.
Proof. apply length_write_bits. Qed.

Lemma length_clear_range (o : rknpu_mm_obj) (bm : list bool) :
  length (clear_range o bm) = length bm.
Proof. apply length_write_bits. Qed.

Lemma free_below_set_range (bm : list bool) (o : rknpu_mm_obj) (total : Z) :
  0 <= range_start o <= range_end o -> range_end o < total ->
  total <= Z.of_nat (length bm) ->
  (forall i, range_start o <= i <= range_end o -> bit bm i = false) ->
  free_below (set_range o bm) (Z.to_nat total)
    = free_below bm (Z.to_nat total) - range_len o.
Proof.
  intros H1 H2 H3 H4. unfold set_range, range_len.
  rewrite free_below_write_bits by (intros; try apply H4; lia). lia.
Qed.

Lemma free_below_clear_range (bm : list bool) (o : rknpu_mm_obj) (total : Z) :
  0 <= range_start o <= range_end o -> range_end o < total ->
  total <= Z.of_nat (length bm) ->
  (forall i, range_start o <= i <= range_end o -> bit bm i = true) ->
  free_below (clear_range o bm) (Z.to_nat total)
    = free_below bm (Z.to_nat total) + range_len o.
Proof.
  intros H1 H2 H3 H4. unfold clear_range, range_len.
  rewrite free_below_write_bits by (intros; try apply H4; lia). lia.
Qed.

(** The facts a client needs about a successful allocation. *)
Record alloc_effect (mm mm' : rknpu_mm) (size : Z) (o : rknpu_mm_obj) : Prop := {
  ae_len : range_len o = ceil_div size (chunk_size mm);
  ae_fresh : forall i, range_start o <= i <= range_end o -> bit (bitmap mm) i = false;
  ae_live : obj_live mm' o;
  ae_bits : forall i, 0 <= i -> bit (bitmap mm') i = in_range o i || bit (bitmap mm) i;
  ae_chunk : chunk_size mm' = chunk_size mm;
  ae_total : total_chunks mm' = total_chunks mm;
  ae_blen : length (bitmap mm') = length (bitmap mm);
  ae_free : free_chunks mm' = free_chunks mm - range_len o;
}.

Section Effects.
Context `{BO : BitmapOps}.

Lemma mm_alloc_success (kz : bool) (mm mm' : rknpu_mm) (size : Z) (ret : Z) (o : rknpu_mm_obj) :
  mm_wf mm -> 0 <= size -> rknpu_mm_alloc kz mm size = Some (ret, mm', ObjPtr o) ->
  ret = 0 /\ 0 < size <= total_chunks mm * chunk_size mm /\
  mm_wf mm' /\ alloc_effect mm mm' size o.
Proof.
  intros Hwf Hsz H. pose proof Hwf as [Hc Ht Hb Hl Hf].
  assert (0 < size <= total_chunks mm * chunk_size mm /\ kz = true) as [Hsize ->].
  { unfold rknpu_mm_alloc in H. destruct (Z.eqb_spec size 0); [done|].
    rewrite u32_small in H by lia.
    destruct (Z.ltb_spec (total_chunks mm * chunk_size mm) size); [done|].
    destruct kz; [split; [lia|done] | done]. }
  rewrite mm_alloc_refines in H by done. unfold alloc_spec in H.
  destruct (first_fit _ _ _) as [s|] eqn:Hfit; [|done].
  pose proof (ceil_div_pos size (chunk_size mm) Hc ltac:(lia)) as Hk.
  apply first_fit_sound in Hfit as (Hs0 & Hs1 & Hs2); [|done].
  set (k := ceil_div size (chunk_size mm)) in *.
  injection H as <- <- <-. set (o := {| range_start := s; range_end := s + k - 1 |}).
  assert (range_len o = k) as Hlen by (unfold range_len; simpl; lia).
  assert (forall i, 0 <= i -> bit (set_range o (bitmap mm)) i = in_range o i || bit (bitmap mm) i) as Hbits.
  { intros i Hi. apply bit_set_range; simpl; lia. }
  assert (forall i, range_start o <= i <= range_end o -> bit (bitmap mm) i = false) as Hfresh.
  { simpl. intros i Hi. apply Hs2. lia. }
  split; [done|]. split; [done|]. split.
  - constructor; simpl; rewrite ?length_set_range; try done.
    rewrite free_bits_below by (rewrite length_set_range; lia).
    rewrite free_below_set_range by (done || simpl; lia).
    rewrite Hlen, Hf, free_bits_below by lia. done.
  - constructor; simpl; rewrite ?length_set_range; try done; [|lia].
    split; [simpl; lia|]. split; [simpl; lia|]. simpl. intros i Hi.
    rewrite Hbits by lia. unfold in_range. simpl. repeat case_bool; simpl; done || lia.
Qed.

Lemma mm_alloc_failure (kz : bool) (mm mm' : rknpu_mm) (size ret : Z) (slot : obj_slot) :
  mm_wf mm -> 0 <= size -> rknpu_mm_alloc kz mm size = Some (ret, mm', slot) ->
  (forall o, slot <> ObjPtr o) -> mm' = mm /\ (ret = - EINVAL \/ ret = - ENOMEM).
Proof.
  intros Hwf Hsz H Hslot. unfold rknpu_mm_alloc in H.
  destruct (Z.eqb_spec size 0); [by simplify_eq; auto|].
  destruct (u32 _ <? size); [by simplify_eq; auto|].
  destruct kz; cbn [negb] in H; [|by simplify_eq; auto].
  destruct (mm_search (S (Z.to_nat (total_chunks mm))) mm size 0) as [[o|]|]; [| by simplify_eq; auto | done].
  simplify_eq. by exfalso; eapply Hslot.
Qed.

Lemma mm_free_effect (mm : rknpu_mm) (o : rknpu_mm_obj) :
  mm_wf mm -> obj_live mm o ->
  let mm' := (rknpu_mm_free mm (Some o)).2 in
  mm_wf mm' /\
  (forall i, 0 <= i -> bit (bitmap mm') i = negb (in_range o i) && bit (bitmap mm) i) /\
  free_chunks mm' = free_chunks mm + range_len o /\
  total_chunks mm' = total_chunks mm /\ chunk_size mm' = chunk_size mm.
Proof.
  intros Hwf (H1 & H2 & H3). pose proof Hwf as [Hc Ht Hb Hl Hf]. simpl.
  pose proof (free_below_clear_range (bitmap mm) o (total_chunks mm) H1 H2 Hl H3) as Hcl.
  assert (u32 (free_chunks mm + u32 (range_end o - range_start o + 1))
          = free_chunks mm + range_len o) as Heq.
  { pose proof (free_below_bounds (clear_range o (bitmap mm)) (Z.to_nat (total_chunks mm))) as Hbd.
    pose proof (free_chunks_bounds mm Hwf) as Hfb.
    rewrite Hcl in Hbd. rewrite Hf, free_bits_below in * by lia.
    unfold range_len in *. rewrite (u32_small (range_end o - range_start o + 1)) by lia.
    rewrite u32_small by lia. done. }
  split.
  - constructor; simpl; rewrite ?length_clear_range; try done.
    rewrite Heq, free_bits_below by (rewrite length_clear_range; lia).
    rewrite Hcl, Hf, free_bits_below by lia. done.
  - split; [|done]. intros i Hi. apply bit_clear_range; lia.
Qed.

(** ** The allocator with its live objects as a transition system *)

Inductive mm_step : rknpu_mm * list rknpu_mm_obj -> rknpu_mm * list rknpu_mm_obj -> Prop :=
  | StepAlloc kz mm objs size mm' o :
      0 <= size < 2 ^ 32 ->
      rknpu_mm_alloc kz mm size = Some (0, mm', ObjPtr o) ->
      mm_step (mm, objs) (mm', o :: objs)
  | StepAllocFails kz mm objs size ret mm' slot :
      0 <= size < 2 ^ 32 -> (forall o, slot <> ObjPtr o) ->
      rknpu_mm_alloc kz mm size = Some (ret, mm', slot) ->
      mm_step (mm, objs) (mm', objs)
  | StepFree mm before o after :
      mm_step (mm, before ++ o :: after) ((rknpu_mm_free mm (Some o)).2, before ++ after).

Definition sum_lens (objs : list rknpu_mm_obj) : Z :=
  foldr (fun o acc => range_len o + acc) 0 objs.

(** How many live objects own chunk [i]. *)
Definition owners (objs : list rknpu_mm_obj) (i : Z) : nat :=
  length (filter (fun o => in_range o i = true) objs).

Record mm_inv (st : rknpu_mm * list rknpu_mm_obj) : Prop := {
  inv_wf : mm_wf st.1;
  inv_objs : Forall (fun o => 0 <= range_start o <= range_end o /\
                              range_end o < total_chunks st.1) st.2;
  inv_owner : forall i, 0 <= i < total_chunks st.1 ->
      owners st.2 i = if bit (bitmap st.1) i then 1%nat else 0%nat;
  inv_free : free_chunks st.1 = total_chunks st.1 - sum_lens st.2;
}.

Lemma owners_app (l1 l2 : list rknpu_mm_obj) (i : Z) :
  owners (l1 ++ l2) i = (owners l1 i + owners l2 i)%nat.
Proof. unfold owners. by rewrite filter_app, length_app. Qed.

Lemma owners_cons (o : rknpu_mm_obj) (l : list rknpu_mm_obj) (i : Z) :
  owners (o :: l) i = ((if in_range o i then 1 else 0) + owners l i)%nat.
Proof. unfold owners. rewrite filter_cons. destruct (in_range o i); simpl; done. Qed.

Lemma sum_lens_app (l1 l2 : list rknpu_mm_obj) :
  sum_lens (l1 ++ l2) = sum_lens l1 + sum_lens l2.
Proof. induction l1 as [|o l IH]; simpl; [done|]. rewrite IH. lia. Qed.

Lemma mm_inv_live (st : rknpu_mm * list rknpu_mm_obj) (o : rknpu_mm_obj) :
  mm_inv st -> o ∈ st.2 -> obj_live st.1 o.
Proof.
  intros [Hwf Hobjs Hown _] Ho. rewrite Forall_forall in Hobjs.
  destruct (Hobjs o Ho) as [H1 H2]. split; [done|]. split; [done|].
  intros i Hi. specialize (Hown i ltac:(lia)).
  apply list_elem_of_split in Ho as (l1 & l2 & Heq). rewrite Heq in Hown.
  rewrite owners_app, owners_cons in Hown. unfold in_range in Hown.
  destruct (Z.leb_spec (range_start o) i); [|lia].
  destruct (Z.leb_spec i (range_end o)); [|lia].
  destruct (bit (bitmap st.1) i); [done|]. simpl in Hown. lia.
Qed.

Lemma mm_step_inv (st st' : rknpu_mm * list rknpu_mm_obj) :
  mm_inv st -> mm_step st st' -> mm_inv st'.
Proof.
  intros Hinv Hstep. destruct Hstep as [kz mm objs size mm' o Hsz H|kz mm objs size ret mm' slot Hsz Hn H|mm l1 o l2].
  - destruct Hinv as [Hwf Hobjs Hown Hfree]. simpl in *.
    apply mm_alloc_success in H as (_ & _ & Hwf' & [Hlen Hfresh Hlive Hbits Hc Ht _ Hfr]); [|done|lia].
    destruct Hlive as (L1 & L2 & L3).
    constructor; simpl; [done| | |lia].
    + constructor; [done|]. rewrite Ht. done.
    + intros i Hi. rewrite owners_cons, Hbits by lia. rewrite Ht in Hi.
      rewrite Hown by lia. unfold in_range.
      destruct (Z.leb_spec (range_start o) i), (Z.leb_spec i (range_end o)); simpl; try done.
      rewrite Hfresh by lia. done.
  - destruct Hinv as [Hwf Hobjs Hown Hfree]. simpl in *.
    apply mm_alloc_failure in H as [-> _]; [done|done|lia|done].
  - pose proof (mm_inv_live _ o Hinv) as Hlive. destruct Hinv as [Hwf Hobjs Hown Hfree].
    cbn [fst snd] in *.
    destruct (mm_free_effect mm o Hwf) as (Hwf' & Hbits & Hfr & Ht & _); [apply Hlive; set_solver|].
    rewrite sum_lens_app in Hfree. simpl in Hfree.
    constructor; cbn [fst snd]; rewrite ?Ht, ?sum_lens_app; [done| | |lia].
    + apply Forall_app in Hobjs as [Hl1 Hl2]. apply Forall_cons in Hl2 as [_ Hl2].
      by apply Forall_app.
    + intros i Hi. rewrite Hbits by lia.
      specialize (Hown i Hi). rewrite owners_app, owners_cons in Hown.
      rewrite owners_app. destruct (in_range o i); simpl in *; [|done].
      destruct (bit (bitmap mm) i); lia.
Qed.

End Effects.

Lemma owners_overlap (objs : list rknpu_mm_obj) (i j : nat) (o1 o2 : rknpu_mm_obj) (c : Z) :
  i <> j -> objs !! i = Some o1 -> objs !! j = Some o2 ->
  in_range o1 c = true -> in_range o2 c = true -> (2 <= owners objs c)%nat.
Proof.
  assert (forall i j o1 o2, (i < j)%nat -> objs !! i = Some o1 -> objs !! j = Some o2 ->
            in_range o1 c = true -> in_range o2 c = true -> (2 <= owners objs c)%nat) as Hlt.
  { clear. intros i j o1 o2 Hij Hi Hj H1 H2.
    rewrite <- (take_drop_middle objs i o1 Hi), owners_app, owners_cons, H1.
    assert (o2 ∈ drop (S i) objs) as Hin.
    { apply (list_elem_of_lookup_2 _ (j - S i)). rewrite lookup_drop.
      by replace (S i + (j - S i))%nat with j by lia. }
    apply list_elem_of_split in Hin as (l1 & l2 & ->).
    rewrite owners_app, owners_cons, H2. lia. }
  intros Hne Hi Hj H1 H2. destruct (Nat.lt_ge_cases i j) as [H|H]; [by eapply (Hlt i j)|].
  eapply (Hlt j i); [lia|done..].
Qed.

Lemma free_below_replicate (n m : nat) :
  (n <= m)%nat -> free_below (replicate m false) n = Z.of_nat n.
Proof.
  induction n as [|n IH]; intros H; simpl; [done|].
  rewrite IH by lia. unfold bit. rewrite Nat2Z.id, lookup_replicate_2 by lia. simpl. lia.
Qed.

Lemma bit_replicate_false (m : nat) (i : Z) : bit (replicate m false) i = false.
Proof.
  unfold bit. destruct (replicate m false !! Z.to_nat i) as [b|] eqn:E; [|done].
  by apply lookup_replicate in E as [-> _].
Qed.

(** [rknpu_mm_create] for arguments that do not overflow the bitmap size. *)
Lemma mm_create_wf (mem_size chunk : Z) (mm : rknpu_mm) (freed : list mm_kptr) (ret : Z) :
  0 <= mem_size < 2 ^ 32 -> 0 <= chunk -> mem_size / chunk + 63 < 2 ^ 32 ->
  rknpu_mm_create true true mem_size chunk = (ret, SlotMm mm, freed) ->
  ret = 0 /\ freed = [] /\ mm_wf mm /\ chunk_size mm = chunk /\
  total_chunks mm = mem_size / chunk /\ free_chunks mm = total_chunks mm /\
  forall i, bit (bitmap mm) i = false.
Proof.
  intros Hm Hc Hov H. unfold rknpu_mm_create in H.
  destruct (Z.ltb_spec mem_size chunk); [done|].
  destruct (Z.eqb_spec mem_size 0); [done|]. destruct (Z.eqb_spec chunk 0); [done|].
  simpl in H. injection H as <- <- <-. split; [done|]. split; [done|].
  assert (0 <= mem_size / chunk) as Hq by (apply Z.div_pos; lia).
  unfold BITS_PER_LONG in *. rewrite u32_small by lia.
  pose proof (Z.div_mod (mem_size / chunk + 64 - 1) 64 ltac:(lia)).
  pose proof (Z.mod_pos_bound (mem_size / chunk + 64 - 1) 64 ltac:(lia)).
  pose proof (Z.div_mod mem_size chunk ltac:(lia)).
  pose proof (Z.mod_pos_bound mem_size chunk ltac:(lia)).
  split; [|split; [done|split; [done|split; [done|apply bit_replicate_false]]]].
  constructor; simpl; rewrite ?length_replicate; try lia.
  rewrite free_bits_below by (rewrite length_replicate; lia).
  rewrite free_below_replicate by lia. lia.
Qed.

Lemma mm_inv_init (mm : rknpu_mm) :
  mm_wf mm -> free_chunks mm = total_chunks mm ->
  (forall i, bit (bitmap mm) i = false) -> mm_inv (mm, []).
Proof.
  intros Hwf Hf Hb. constructor; simpl; [done|done| |lia].
  intros i Hi. by rewrite Hb.
Qed.

(** ** The allocator's properties *)

Section Properties.
Context `{BO : BitmapOps}.

Lemma mm_steps_inv (st st' : rknpu_mm * list rknpu_mm_obj) :
  mm_inv st -> rtc mm_step st st' -> mm_inv st'.
Proof. intros Hinv Hsteps. induction Hsteps; eauto using mm_step_inv. Qed.

(** The live objects of a reachable allocator state never share a chunk. *)
Lemma mm_inv_disjoint (st : rknpu_mm * list rknpu_mm_obj) (i j : nat) (o1 o2 : rknpu_mm_obj) :
  mm_inv st -> i <> j -> st.2 !! i = Some o1 -> st.2 !! j = Some o2 -> disjoint_objs o1 o2.
Proof.
  intros Hinv Hne Hi Hj.
  assert (forall k o, st.2 !! k = Some o ->
            0 <= range_start o <= range_end o /\ range_end o < total_chunks st.1) as Hb.
  { intros k o Hk. by apply (Forall_lookup_1 _ _ k o (inv_objs _ Hinv)). }
  destruct (Hb _ _ Hi), (Hb _ _ Hj).
  destruct (disjoint_or_shared o1 o2) as [|(c & Hc1 & Hc2)]; [lia|lia|done|].
  pose proof (owners_overlap _ _ _ _ _ c Hne Hi Hj Hc1 Hc2) as Hown.
  unfold in_range in Hc1. apply andb_true_iff in Hc1 as [H1a H1b].
  apply Z.leb_le in H1a, H1b.
  rewrite (inv_owner _ Hinv) in Hown by lia. destruct (bit _ _); lia.
Qed.

(** C29: on a well-formed allocator with memory for the descriptor, the bitmap
    search with its restarts ([rknpu_mm_alloc]) always terminates and computes
    exactly the reference first fit: the lowest run of ceil(size/chunk_size)
    free chunks is reserved and [free_chunks] drops by that number, or no such
    run exists, nothing changes and -ENOMEM is returned (the caller's slot is
    left holding the freed descriptor). *)
Theorem mm_alloc_is_first_fit (mm : rknpu_mm) (size : Z) :
  mm_wf mm -> 0 < size <= total_chunks mm * chunk_size mm ->
  rknpu_mm_alloc true mm size = Some (alloc_spec mm size).
Proof. apply mm_alloc_refines. Qed.

(** C30: from a freshly created allocator, after any sequence of allocations
    (successful or failing) and frees of live objects: live objects occupy
    pairwise disjoint in-range chunk intervals, a chunk's bit is set exactly
    when one live object owns it, and [free_chunks] is the total minus the
    chunks of the live objects. *)
Theorem mm_reachable_ownership (mem_size chunk : Z) (mm0 : rknpu_mm)
    (st : rknpu_mm * list rknpu_mm_obj) :
  0 <= mem_size < 2 ^ 32 -> 0 <= chunk -> mem_size / chunk + 63 < 2 ^ 32 ->
  rknpu_mm_create true true mem_size chunk = (0, SlotMm mm0, []) ->
  rtc mm_step (mm0, []) st ->
  (forall i j o1 o2, i <> j -> st.2 !! i = Some o1 -> st.2 !! j = Some o2 ->
     disjoint_objs o1 o2) /\
  (forall o, o ∈ st.2 -> obj_live st.1 o) /\
  (forall c, 0 <= c < total_chunks st.1 ->
     bit (bitmap st.1) c = true -> exists o, o ∈ st.2 /\ in_range o c = true) /\
  free_chunks st.1 = total_chunks st.1 - sum_lens st.2.
Proof.
  intros Hm Hc Hov Hcr Hsteps.
  destruct (mm_create_wf _ _ _ _ _ Hm Hc Hov Hcr) as (_ & _ & Hwf & _ & _ & Hf & Hb).
  pose proof (mm_steps_inv _ _ (mm_inv_init mm0 Hwf Hf Hb) Hsteps) as Hinv.
  split; [intros i j o1 o2; by apply mm_inv_disjoint|].
  split; [intros o; by apply mm_inv_live|]. split; [|apply Hinv].
  intros c Hcr' Hbit. pose proof (inv_owner _ Hinv c Hcr') as Hown. rewrite Hbit in Hown.
  unfold owners in Hown. destruct (filter (fun o => in_range o c = true) st.2) as [|o l] eqn:E; [done|].
  exists o. assert (o ∈ filter (fun o => in_range o c = true) st.2) as Hin by (rewrite E; set_solver).
  apply list_elem_of_filter in Hin as [??]. done.
Qed.

(** A free takes back what the allocation did. *)
Lemma mm_free_alloc (kz : bool) (mm mm' : rknpu_mm) (size ret : Z) (o : rknpu_mm_obj) :
  mm_wf mm -> 0 <= size ->
  rknpu_mm_alloc kz mm size = Some (ret, mm', ObjPtr o) ->
  rknpu_mm_free mm' (Some o) = (0, mm).
Proof.
  intros Hwf Hsz H. apply mm_alloc_success in H as (-> & Hsize & Hwf' & He); [|done..].
  destruct He as [Hlen Hfresh Hlive Hbits Hc Ht Hbl Hfr].
  pose proof (mm_free_effect mm' o Hwf' Hlive) as (_ & Hbits' & Hfr' & Ht' & Hc').
  destruct (rknpu_mm_free mm' (Some o)) as [r mm''] eqn:E. simpl in *.
  injection E as <- Emm. f_equal.
  assert (bitmap mm'' = bitmap mm) as Hbm.
  { apply bit_list_ext; [rewrite <- Emm; simpl; rewrite length_clear_range; done|].
    intros i Hi. rewrite Hbits', Hbits by lia. destruct (in_range o i) eqn:Ein; simpl; [|done].
    unfold in_range in Ein. apply andb_true_iff in Ein as [E1 E2].
    apply Z.leb_le in E1, E2. symmetry. apply Hfresh. lia. }
  destruct mm, mm''. simpl in *. subst. f_equal; lia.
Qed.

(** Freeing the object that an allocation has just returned restores the
    allocator exactly (bitmap, counters and parameters). *)
Theorem mm_free_undoes_alloc (kz : bool) (mm mm' : rknpu_mm) (size ret : Z) (o : rknpu_mm_obj) :
  mm_wf mm -> 0 <= size ->
  rknpu_mm_alloc kz mm size = Some (ret, mm', ObjPtr o) ->
  rknpu_mm_free mm' (Some o) = (0, mm).
Proof. apply mm_free_alloc. Qed.

(** Every outcome of [rknpu_mm_create]: bad sizes are rejected without
    touching anything; without memory for the descriptor the slot becomes NULL;
    when the bitmap cannot be allocated the error path hands the address of the
    caller's pointer to [kfree] instead of the descriptor, which stays
    referenced (and leaks); otherwise the result is a well-formed allocator of
    mem_size/chunk_size chunks that are all free. *)
Theorem mm_create_outcomes (kzalloc_ok kcalloc_ok : bool) (mem_size chunk : Z) :
  0 <= mem_size < 2 ^ 32 -> 0 <= chunk -> mem_size / chunk + 63 < 2 ^ 32 ->
  let '(ret, slot, freed) := rknpu_mm_create kzalloc_ok kcalloc_ok mem_size chunk in
  if decide (mem_size < chunk \/ mem_size = 0 \/ chunk = 0) then
    ret = -EINVAL /\ slot = SlotUntouched /\ freed = []
  else if negb kzalloc_ok then ret = -ENOMEM /\ slot = SlotNull /\ freed = []
  else if negb kcalloc_ok then
    ret = -ENOMEM /\ (exists mm, slot = SlotMm mm) /\ freed = [AddrOfSlot]
  else
    ret = 0 /\ freed = [] /\
    exists mm, slot = SlotMm mm /\ mm_wf mm /\ chunk_size mm = chunk /\
      total_chunks mm = mem_size / chunk /\ free_chunks mm = total_chunks mm /\
      forall i, bit (bitmap mm) i = false.
Proof.
  intros Hm Hc Hov.
  destruct (rknpu_mm_create kzalloc_ok kcalloc_ok mem_size chunk) as [[ret slot] freed] eqn:E.
  pose proof E as E'. unfold rknpu_mm_create in E.
  destruct (Z.ltb_spec mem_size chunk); [rewrite decide_True by lia; by simplify_eq|].
  destruct (Z.eqb_spec mem_size 0); [rewrite decide_True by lia; by simplify_eq|].
  destruct (Z.eqb_spec chunk 0); [rewrite decide_True by lia; by simplify_eq|].
  rewrite decide_False by lia.
  destruct kzalloc_ok; cbn [negb] in *; [|by simplify_eq].
  destruct kcalloc_ok; cbn [negb] in *; [|by simplify_eq; eauto].
  destruct slot as [| |mm]; [done|done|].
  apply mm_create_wf in E' as (-> & -> & Hwf & H1 & H2 & H3 & H4); [|done..].
  split; [done|]. split; [done|]. exists mm. done.
Qed.

End Properties.

(** ** Witnesses: four chunks of 4096 bytes *)

Definition example_mm (bits : list bool) (free : Z) : rknpu_mm :=
  {| bitmap := bits ++ replicate 60 false; chunk_size := 4096; total_chunks := 4;
     free_chunks := free |}.

Lemma example_mm_wf : mm_wf (example_mm [false; true; false; false] 3).
Proof. constructor; vm_compute; congruence. Qed.

(** The hole at chunk 0 is too small for two chunks: the search restarts. *)
Lemma mm_alloc_is_first_fit_witness :
  rknpu_mm_alloc true (example_mm [false; true; false; false] 3) 5000
    = Some (0, example_mm [false; true; true; true] 1,
            ObjPtr {| range_start := 2; range_end := 3 |}).
Proof.
  transitivity (Some (alloc_spec (example_mm [false; true; false; false] 3) 5000)).
  - apply (mm_alloc_is_first_fit (example_mm [false; true; false; false] 3) 5000).
    + exact example_mm_wf.
    + split; vm_compute; congruence.
  - vm_compute. reflexivity.
Defined.

Lemma mm_reachable_ownership_witness :
  exists mm0, rknpu_mm_create true true 16384 4096 = (0, SlotMm mm0, []) /\
  let o1 := {| range_start := 0; range_end := 1 |} in
  let o2 := {| range_start := 2; range_end := 2 |} in
  disjoint_objs o2 o1.
Proof.
  eexists. split; [vm_compute; reflexivity|].
  refine (proj1 (mm_reachable_ownership 16384 4096 _ (_, [_; _]) _ _ _ _ _) 0%nat 1%nat _ _ _ _ _).
  - lia.
  - lia.
  - vm_compute. reflexivity.
  - vm_compute. reflexivity.
  - eapply rtc_l; [apply (StepAlloc true _ _ 8192); [lia | vm_compute; reflexivity]|].
    eapply rtc_l; [apply (StepAlloc true _ _ 100); [lia | vm_compute; reflexivity]|].
    apply rtc_refl.
  - discriminate.
  - reflexivity.
  - reflexivity.
Defined.

Lemma mm_free_undoes_alloc_witness :
  rknpu_mm_free (example_mm [false; true; true; true] 1)
    (Some {| range_start := 2; range_end := 3 |})
  = (0, example_mm [false; true; false; false] 3).
Proof.
  apply (mm_free_undoes_alloc true (example_mm [false; true; false; false] 3) _ 5000 0).
  - exact example_mm_wf.
  - lia.
  - vm_compute. reflexivity.
Defined.

(** The 44 KiB SRAM of the RK3568. *)
Lemma mm_create_outcomes_witness :
  exists mm, (rknpu_mm_create true true 45056 4096).1.2 = SlotMm mm /\ total_chunks mm = 11.
Proof.
  pose proof (mm_create_outcomes true true 45056 4096 ltac:(lia) ltac:(lia)
                ltac:(vm_compute; congruence)) as H.
  destruct (rknpu_mm_create true true 45056 4096) as [[ret slot] freed].
  destruct H as (_ & _ & mm & -> & _ & _ & Ht & _). exists mm. split; [reflexivity|].
  rewrite Ht. reflexivity.
Defined.
