(* ===== verification/MmDump.v ===== *)
(** * The SRAM map dump (rknpu_mm_dump in rknpu_mm.c)

    The procfs/debugfs "mm" node walks the bitmap run by run and prints it in
    segments of 32 characters.  The text it prints is proved to be the bitmap
    itself, cut into lines of 32. *)

From S2P Require Import Prelude Mm.

Inductive mark := Used | Free.   (* "*" and "." *)

(** The lines already printed and the content of [buf] below [ret]. *)
Record dump_out := { lines : list (list mark); buf : list mark }.

Definition seg_chunks : nat := 32.

(** [ret += scnprintf(buf + ret, .., c); if (ret >= seg_chunks) {print; ret = 0}] *)
Definition emit (c : mark) (out : dump_out) : dump_out :=
  let b := buf out ++ [c] in
  if (seg_chunks <=? length b)%nat then {| lines := lines out ++ [b]; buf := [] |}
  else {| lines := lines out; buf := b |}.

Fixpoint emit_n (c : mark) (n : nat) (out : dump_out) : dump_out :=
  match n with O => out | S n => emit_n c n (emit c out) end.

(** What is printed: the size of a chunk in KiB, the segments (numbered by
    their position), and the total, used and free byte counts. *)
Record dump_text := {
  bit_kb : Z; segments : list (list mark); sram_total : Z; sram_used : Z; sram_free : Z }.

Section Dump.
Context `{BO : BitmapOps}.

(** The [while (cur < mm->total_chunks)] loop. *)
Fixpoint dump_loop (fuel : nat) (mm : rknpu_mm) (cur rbot : Z) (out : dump_out) : option dump_out :=
  match fuel with
  | O => None
  | S f =>
      if cur <? total_chunks mm then
        let rtop := cur in
        let cur := find_next_bit (bitmap mm) (total_chunks mm) (cur + 1) in
        if (cur <? total_chunks mm) && (cur <=? rtop + 1) then dump_loop f mm cur rbot out
        else
          let out := emit_n Used (Z.to_nat (rtop - rbot + 1)) out in
          let out := emit_n Free (Z.to_nat (cur - (rtop + 1))) out in
          dump_loop f mm cur cur out
      else Some out
  end.

(** [sram_mm] is NULL ([None]) when the device has no SRAM.  The outer [None]
    is missing fuel, the inner one the early return that prints nothing. *)
Definition rknpu_mm_dump (sram_mm : option rknpu_mm) (sram_size : Z) : option (option dump_text) :=
  match sram_mm with
  | None => Some None
  | Some mm =>
      let cur := find_next_bit (bitmap mm) (total_chunks mm) 0 in
      let out := emit_n Free (Z.to_nat cur) {| lines := []; buf := [] |} in
      match dump_loop (S (Z.to_nat (total_chunks mm))) mm cur cur out with
      | None => None
      | Some out =>
          let segs := if (0 <? length (buf out))%nat then lines out ++ [buf out] else lines out in
          let free_size := s32 (u32 (free_chunks mm * chunk_size mm)) in
          Some (Some {| bit_kb := chunk_size mm / 1024; segments := segs;
                        sram_total := sram_size;
                        sram_used := s32 (sram_size - free_size); sram_free := free_size |})
      end
  end.

(** ** The dump prints the bitmap *)

Definition mark_of (b : bool) : mark := if b then Used else Free.

(** The picture of chunks [0, n). *)
Definition picture (bm : list bool) (n : Z) : list mark :=
  (fun i => mark_of (bit bm i)) <$> seqZ 0 n.

Definition flat (out : dump_out) : list mark := concat (lines out) ++ buf out.

Definition dump_ok (out : dump_out) : Prop :=
  Forall (fun l => length l = seg_chunks) (lines out) /\ (length (buf out) < seg_chunks)%nat.

Lemma emit_ok (c : mark) (out : dump_out) :
  dump_ok out -> dump_ok (emit c out) /\ flat (emit c out) = flat out ++ [c].
Proof.
  intros [Hl Hb]. unfold emit, flat.
  destruct (Nat.leb_spec seg_chunks (length (buf out ++ [c]))) as [Hge|Hlt].
  - split; [split; simpl; [|unfold seg_chunks; lia]|].
    + apply Forall_app. split; [done|]. constructor; [|done].
      rewrite length_app in *. simpl in *. lia.
    + simpl. rewrite concat_app. simpl. rewrite !app_nil_r. by rewrite app_assoc.
  - split; [split; [done|simpl; lia]|]. simpl. by rewrite app_assoc.
Qed.

Lemma emit_n_ok (c : mark) (n : nat) (out : dump_out) :
  dump_ok out -> dump_ok (emit_n c n out) /\ flat (emit_n c n out) = flat out ++ replicate n c.
Proof.
  revert out. induction n as [|n IH]; intros out Hok; simpl.
  { by rewrite app_nil_r. }
  destruct (emit_ok c out Hok) as [H1 H2]. destruct (IH _ H1) as [H3 H4].
  split; [done|]. rewrite H4, H2, <- app_assoc. done.
Qed.

Lemma picture_extend (bm : list bool) (a b : Z) (c : mark) :
  0 <= a <= b -> (forall i, a <= i < b -> mark_of (bit bm i) = c) ->
  picture bm b = picture bm a ++ replicate (Z.to_nat (b - a)) c.
Proof.
  intros H Hc. unfold picture. replace b with (a + (b - a)) at 1 by lia.
  rewrite seqZ_app, fmap_app by lia. f_equal. simpl.
  apply list_eq_Forall2. apply Forall2_same_length_lookup_2.
  { rewrite length_fmap, length_seqZ, length_replicate. done. }
  intros i x y Hx Hy. apply lookup_replicate in Hy as [-> Hi].
  rewrite list_lookup_fmap, lookup_seqZ_lt in Hx by lia. injection Hx as <-.
  apply Hc. lia.
Qed.

Lemma next_set_cases (bm : list bool) (size off : Z) :
  0 <= off <= size ->
  let r := find_next_bit bm size off in
  off <= r <= size /\ (forall i, off <= i < r -> bit bm i = false) /\
  (r < size -> bit bm r = true).
Proof.
  intros H r. destruct (find_next_bit_spec bm size off ltac:(lia)) as [H1 H2].
  fold r in H1, H2. destruct (decide (off < size)) as [Hlt|Hge].
  - destruct (H2 Hlt) as (Hr & Hno & Hyes). split; [done|]. split; [|done].
    intros i Hi. apply not_true_iff_false. by apply Hno.
  - rewrite H1 by lia. split; [lia|]. split; lia.
Qed.

Lemma dump_loop_ok (mm : rknpu_mm) (fuel : nat) (cur rbot : Z) (out : dump_out) :
  0 <= rbot <= cur -> cur <= total_chunks mm ->
  (cur < total_chunks mm -> forall i, rbot <= i <= cur -> bit (bitmap mm) i = true) ->
  (cur = total_chunks mm -> rbot = cur) ->
  dump_ok out -> flat out = picture (bitmap mm) rbot ->
  total_chunks mm - cur < Z.of_nat fuel ->
  exists out', dump_loop fuel mm cur rbot out = Some out' /\ dump_ok out' /\
    flat out' = picture (bitmap mm) (total_chunks mm).
Proof.
  revert cur rbot out.
  induction fuel as [|f IH]; intros cur rbot out Hr Hc Hset Hend Hok Hflat Hfuel; [lia|].
  cbn [dump_loop]. destruct (Z.ltb_spec cur (total_chunks mm)) as [Hlt|Hge].
  2: { exists out. split; [done|]. split; [done|]. rewrite Hflat. f_equal. lia. }
  specialize (Hset Hlt).
  destruct (next_set_cases (bitmap mm) (total_chunks mm) (cur + 1)) as (Hn & Hclr & Hbit); [lia|].
  set (next := find_next_bit (bitmap mm) (total_chunks mm) (cur + 1)) in *.
  destruct ((next <? total_chunks mm) && (next <=? cur + 1)) eqn:E.
  - apply andb_true_iff in E as [E1 E2]. apply Z.ltb_lt in E1. apply Z.leb_le in E2.
    apply IH; try lia; try done.
    intros _ i Hi. destruct (decide (i = next)) as [->|]; [by apply Hbit | apply Hset; lia].
  - destruct (emit_n_ok Used (Z.to_nat (cur - rbot + 1)) out Hok) as [Hok1 Hf1].
    destruct (emit_n_ok Free (Z.to_nat (next - (cur + 1))) _ Hok1) as [Hok2 Hf2].
    apply IH; try lia; try done.
    + intros Hlt' i Hi. replace i with next by lia. by apply Hbit.
    + rewrite Hf2, Hf1, Hflat.
      rewrite (picture_extend _ (cur + 1) next Free); [|lia|].
      2: { intros i Hi. rewrite Hclr by lia. done. }
      rewrite (picture_extend _ rbot (cur + 1) Used); [|lia|].
      2: { intros i Hi. rewrite Hset by lia. done. }
      replace (cur + 1 - rbot) with (cur - rbot + 1) by lia. done.
Qed.

(** The dump always terminates; the printed segments, concatenated, are the
    picture of the bitmap (one mark per chunk, "*" exactly for the chunks in
    use), no segment is longer than 32 marks, and used + free bytes is the SRAM
    size whenever it fits an [int]. *)
Theorem mm_dump_prints_bitmap (mm : rknpu_mm) (sram_size : Z) :
  mm_wf mm ->
  exists t, rknpu_mm_dump (Some mm) sram_size = Some (Some t) /\
    concat (segments t) = picture (bitmap mm) (total_chunks mm) /\
    Forall (fun l => (0 < length l <= seg_chunks)%nat) (segments t) /\
    (total_chunks mm * chunk_size mm <= sram_size < 2 ^ 31 ->
       sram_free t = free_chunks mm * chunk_size mm /\ sram_used t + sram_free t = sram_size).
Proof.
  intros Hwf. pose proof Hwf as [Hc Ht Hb Hl Hf].
  unfold rknpu_mm_dump.
  destruct (next_set_cases (bitmap mm) (total_chunks mm) 0) as (Hn & Hclr & Hbit); [lia|].
  set (cur := find_next_bit (bitmap mm) (total_chunks mm) 0) in *.
  destruct (emit_n_ok Free (Z.to_nat cur) {| lines := []; buf := [] |}) as [Hok Hflat].
  { split; simpl; [done | unfold seg_chunks; lia]. }
  destruct (dump_loop_ok mm (S (Z.to_nat (total_chunks mm))) cur cur
              (emit_n Free (Z.to_nat cur) {| lines := []; buf := [] |}))
    as (out & -> & [Hlines Hbuf] & Hout); try lia; try done.
  - intros Hlt i Hi. replace i with cur by lia. by apply Hbit.
  - rewrite Hflat, (picture_extend _ 0 cur Free); [by rewrite Z.sub_0_r | lia |].
    intros i Hi. rewrite Hclr by lia. done.
  - eexists. split; [done|]. simpl. split; [|split].
    + unfold flat in Hout. destruct (buf out) eqn:Eb; simpl; [by rewrite app_nil_r in Hout|].
      rewrite concat_app. simpl. by rewrite app_nil_r.
    + assert (Forall (fun l => (0 < length l <= seg_chunks)%nat) (lines out)) as Hall.
      { eapply Forall_impl; [apply Hlines|]. simpl. unfold seg_chunks. lia. }
      destruct (buf out) eqn:Eb; [done|].
      apply Forall_app. split; [done|]. constructor; [simpl in *; lia | done].
    + intros Hs. pose proof (free_chunks_bounds mm Hwf) as [Hfb _].
      assert (0 <= free_chunks mm * chunk_size mm <= sram_size) as Hfs by nia.
      rewrite u32_small by lia. rewrite s32_small by lia. rewrite s32_small by lia. lia.
Qed.

End Dump.

Lemma mm_dump_prints_bitmap_witness :
  exists t, rknpu_mm_dump (Some (example_mm [true; false; true; true] 1)) 16384 = Some (Some t) /\
            concat (segments t) = [Used; Free; Used; Used].
Proof.
  destruct (mm_dump_prints_bitmap (example_mm [true; false; true; true] 1) 16384) as (t & H1 & H2 & _).
  { constructor; vm_compute; congruence. }
  exists t. split; [exact H1|]. rewrite H2. vm_compute. reflexivity.
Defined.
