(* ===== verification/Action.v ===== *)
(** * The action ioctl (rknpu_action of rknpu_drv.c)

    One dispatch over the services of the other components: registers, reset,
    SRAM accounting and the IOMMU domain. *)

From S2P Require Import Prelude Config Domain Device Reset Job JobRegs Mm.

Definition RKNPU_GET_HW_VERSION : Z := 0.
Definition RKNPU_GET_DRV_VERSION : Z := 1.
Definition RKNPU_GET_FREQ : Z := 2.
Definition RKNPU_SET_FREQ : Z := 3.
Definition RKNPU_GET_VOLT : Z := 4.
Definition RKNPU_SET_VOLT : Z := 5.
Definition RKNPU_ACT_RESET : Z := 6.
Definition RKNPU_GET_BW_PRIORITY : Z := 7.
Definition RKNPU_SET_BW_PRIORITY : Z := 8.
Definition RKNPU_GET_BW_EXPECT : Z := 9.
Definition RKNPU_SET_BW_EXPECT : Z := 10.
Definition RKNPU_GET_BW_TW : Z := 11.
Definition RKNPU_SET_BW_TW : Z := 12.
Definition RKNPU_ACT_CLR_TOTAL_RW_AMOUNT : Z := 13.
Definition RKNPU_GET_DT_WR_AMOUNT : Z := 14.
Definition RKNPU_GET_DT_RD_AMOUNT : Z := 15.
Definition RKNPU_GET_WT_RD_AMOUNT : Z := 16.
Definition RKNPU_GET_TOTAL_RW_AMOUNT : Z := 17.
Definition RKNPU_GET_IOMMU_EN : Z := 18.
Definition RKNPU_SET_PROC_NICE : Z := 19.
Definition RKNPU_POWER_ON : Z := 20.
Definition RKNPU_POWER_OFF : Z := 21.
Definition RKNPU_GET_TOTAL_SRAM_SIZE : Z := 22.
Definition RKNPU_GET_FREE_SRAM_SIZE : Z := 23.
Definition RKNPU_GET_IOMMU_DOMAIN_ID : Z := 24.
Definition RKNPU_SET_IOMMU_DOMAIN_ID : Z := 25.

(** What the action reads outside struct rknpu_device's register side: the
    rate of the first clock, the voltage of the supply (no supply: a NULL
    [vdd]), and the SRAM allocator (no SRAM: a NULL [sram_mm]). *)
Record action_env := {
  clk_get_rate : Z;
  vdd : option Z;
  sram_mm : option rknpu_mm }.

(** args->value after a callee that stores through [&args->value]. *)
Definition stored (value : Z) (o : option Z) : Z := default value o.

Section Action.
Context {iommu : IommuDomain} (k : iommu_kernel) (env : action_env).

(** The result is the return value, args->value, and the nice value given to
    the calling process, if any. *)
Definition rknpu_action (flags value : Z) : M (Z * Z * option Z) :=
  if flags =? RKNPU_GET_HW_VERSION then
    let! r := rknpu_get_hw_version true in ret (r.1, r.2, None)
  else if flags =? RKNPU_GET_DRV_VERSION then
    ret (rknpu_get_drv_version, None)
  else if flags =? RKNPU_GET_FREQ then ret (0, u32 (clk_get_rate env), None)
  else if flags =? RKNPU_SET_FREQ then ret (-EINVAL, value, None)
  else if flags =? RKNPU_GET_VOLT then
    match vdd env with Some v => ret (0, u32 v, None) | None => throw NullDeref end
  else if flags =? RKNPU_SET_VOLT then ret (-EINVAL, value, None)
  else if flags =? RKNPU_ACT_RESET then
    let! r := rknpu_soft_reset k in ret (r, value, None)
  else if flags =? RKNPU_GET_BW_PRIORITY then
    let! r := rknpu_get_bw_priority true false false in
    let '(r, (p, _, _)) := r in ret (r, stored value p, None)
  else if flags =? RKNPU_SET_BW_PRIORITY then
    let! r := rknpu_set_bw_priority value 0 0 in ret (r, value, None)
  else if flags =? RKNPU_GET_BW_EXPECT then
    let! r := rknpu_get_bw_priority false true false in
    let '(r, (_, e, _)) := r in ret (r, stored value e, None)
  else if flags =? RKNPU_SET_BW_EXPECT then
    let! r := rknpu_set_bw_priority 0 value 0 in ret (r, value, None)
  else if flags =? RKNPU_GET_BW_TW then
    let! r := rknpu_get_bw_priority false false true in
    let '(r, (_, _, t)) := r in ret (r, stored value t, None)
  else if flags =? RKNPU_SET_BW_TW then
    let! r := rknpu_set_bw_priority 0 0 value in ret (r, value, None)
  else if flags =? RKNPU_ACT_CLR_TOTAL_RW_AMOUNT then
    let! r := rknpu_clear_rw_amount in ret (r, value, None)
  else if flags =? RKNPU_GET_DT_WR_AMOUNT then
    let! r := rknpu_get_rw_amount true false false in
    let '(r, (a, _, _)) := r in ret (r, stored value a, None)
  else if flags =? RKNPU_GET_DT_RD_AMOUNT then
    let! r := rknpu_get_rw_amount false true false in
    let '(r, (_, a, _)) := r in ret (r, stored value a, None)
  else if flags =? RKNPU_GET_WT_RD_AMOUNT then
    let! r := rknpu_get_rw_amount false false true in
    let '(r, (_, _, a)) := r in ret (r, stored value a, None)
  else if flags =? RKNPU_GET_TOTAL_RW_AMOUNT then
    let! r := rknpu_get_total_rw_amount true in ret (r.1, stored value r.2, None)
  else if flags =? RKNPU_GET_IOMMU_EN then
    let! st := gets iommu_st in ret (0, if iommu_en st then 1 else 0, None)
  else if flags =? RKNPU_SET_PROC_NICE then ret (0, value, Some (s32 value))
  else if flags =? RKNPU_GET_TOTAL_SRAM_SIZE then
    ret (0, match sram_mm env with Some mm => u32 (total_chunks mm * chunk_size mm) | None => 0 end, None)
  else if flags =? RKNPU_GET_FREE_SRAM_SIZE then
    ret (0, match sram_mm env with Some mm => u32 (free_chunks mm * chunk_size mm) | None => 0 end, None)
  else if flags =? RKNPU_GET_IOMMU_DOMAIN_ID then
    let! st := gets iommu_st in ret (0, u32 (iommu_domain_id st), None)
  else if flags =? RKNPU_SET_IOMMU_DOMAIN_ID then
    let! r := domain_get_and_switch (s32 value) in
    if negb (r =? 0) then ret (r, value, None)
    else domain_put_ref ;; ret (r, value, None)
  else ret (-EINVAL, value, None).

(** The misc device's wrapper; [copy_in] and [copy_out] say whether the copies
    from and to user memory succeed.  The result holds what user memory
    receives. *)
Definition rknpu_miscdev_action_ioctl (copy_in copy_out : bool) (flags value : Z)
  : M (Z * option Z) :=
  if negb copy_in then ret (-EFAULT, None)
  else
    let! r := rknpu_action flags value in
    let '(r, v, _) := r in
    if negb copy_out then ret (-EFAULT, None) else ret (r, Some v).
End Action.

(** ** Which actions change the device *)

(** The actions that change nothing but args->value. *)
Definition reading (flags : Z) : bool :=
  bool_decide (flags ∈ [RKNPU_GET_HW_VERSION; RKNPU_GET_DRV_VERSION; RKNPU_GET_FREQ; RKNPU_GET_VOLT;
    RKNPU_GET_BW_PRIORITY; RKNPU_GET_BW_EXPECT; RKNPU_GET_BW_TW; RKNPU_GET_DT_WR_AMOUNT;
    RKNPU_GET_DT_RD_AMOUNT; RKNPU_GET_WT_RD_AMOUNT; RKNPU_GET_TOTAL_RW_AMOUNT; RKNPU_GET_IOMMU_EN;
    RKNPU_SET_PROC_NICE; RKNPU_GET_TOTAL_SRAM_SIZE; RKNPU_GET_FREE_SRAM_SIZE;
    RKNPU_GET_IOMMU_DOMAIN_ID]).
(** The actions that act on the device. *)
Definition acting (flags : Z) : bool :=
  bool_decide (flags ∈ [RKNPU_ACT_RESET; RKNPU_SET_BW_PRIORITY; RKNPU_SET_BW_EXPECT; RKNPU_SET_BW_TW;
    RKNPU_ACT_CLR_TOTAL_RW_AMOUNT; RKNPU_SET_IOMMU_DOMAIN_ID]).

(** A computation that only looks: it ends in the state it began in, or on a
    NULL base. *)
Definition looks {A} (m : M A) : Prop :=
  forall d, match m d with Ret _ d' => d' = d | Fault f => f = NullDeref | Blocked => False end.

Lemma looks_ret {A} (a : A) : looks (ret a).
Proof. done. Qed.
Lemma looks_gets {A} (f : rknpu_device -> A) : looks (gets f).
Proof. done. Qed.
Lemma looks_bind {A B} (m : M A) (f : A -> M B) :
  looks m -> (forall a, looks (f a)) -> looks (bind m f).
Proof.
  intros Hm Hf d. unfold bind. specialize (Hm d). destruct (m d) as [a d'| |]; [|done..].
  subst d'. apply Hf.
Qed.
Lemma looks_readl (b : io_base) (off : Z) : looks (readl b off).
Proof. intros d. unfold readl, bind, gets. by destruct (io_mapped d b). Qed.
Lemma looks_read_if (b : bool) (m : M Z) : looks m -> looks (read_if b m).
Proof. intros Hm. destruct b; [|done]. apply looks_bind; [done|]. intros a. apply looks_ret. Qed.

Ltac look := repeat first
  [ apply looks_ret | apply looks_gets | apply looks_readl | apply looks_read_if
  | apply looks_bind | progress intros | progress case_match ].

Lemma looks_hw_version (b : bool) : looks (rknpu_get_hw_version b).
Proof. unfold rknpu_get_hw_version, REG_READ. look. Qed.
Lemma looks_bw_priority (p e t : bool) : looks (rknpu_get_bw_priority p e t).
Proof. unfold rknpu_get_bw_priority. look. Qed.
Lemma looks_rw_amount (a b w : bool) : looks (rknpu_get_rw_amount a b w).
Proof. unfold rknpu_get_rw_amount, read_amount, REG_READ. look. Qed.
Lemma looks_total_rw_amount (b : bool) : looks (rknpu_get_total_rw_amount b).
Proof.
  unfold rknpu_get_total_rw_amount. apply looks_bind; [apply looks_gets|]. intros c.
  case_match; [|apply looks_ret]. apply looks_bind; [apply looks_rw_amount|]. look.
Qed.

(** Of the action codes, those that query (and the one that sets the
    process's nice value) leave the device as it is, whatever they return; and a
    code that neither queries nor acts (setting the frequency or the voltage,
    the power codes 20 and 21, and everything from 26 on) is refused with
    -EINVAL, the device and the argument untouched. *)
Theorem action_queries_change_nothing {iommu : IommuDomain} (k : iommu_kernel) (env : action_env)
    (flags value : Z) :
  (reading flags = true -> looks (rknpu_action k env flags value)) /\
  (reading flags = false -> acting flags = false ->
     forall d, rknpu_action k env flags value d = Ret (-EINVAL, value, None) d).
Proof.
  split.
  - unfold reading. intros H%bool_decide_eq_true_1.
    repeat (apply elem_of_cons in H as [->|H]); [..|by apply elem_of_nil in H];
      try (exact (looks_ret _)); try exact (looks_bind _ _ (looks_gets _) (fun _ => looks_ret _)).
    + apply (looks_bind _ _ (looks_hw_version true)). look.
    + intros d. unfold rknpu_action. cbn. by destruct (vdd env).
    + apply (looks_bind _ _ (looks_bw_priority _ _ _)). look.
    + apply (looks_bind _ _ (looks_bw_priority _ _ _)). look.
    + apply (looks_bind _ _ (looks_bw_priority _ _ _)). look.
    + apply (looks_bind _ _ (looks_rw_amount _ _ _)). look.
    + apply (looks_bind _ _ (looks_rw_amount _ _ _)). look.
    + apply (looks_bind _ _ (looks_rw_amount _ _ _)). look.
    + apply (looks_bind _ _ (looks_total_rw_amount _)). look.
  - unfold reading, acting. intros Hr%bool_decide_eq_false Ha%bool_decide_eq_false d.
    unfold rknpu_action.
    repeat (match goal with |- context [flags =? ?c] => destruct (Z.eqb_spec flags c) as [->|_] end;
      try reflexivity; try (exfalso; (apply Hr + apply Ha); repeat constructor; fail)).
    all: try reflexivity.
Qed.

Definition example_env : action_env :=
  {| clk_get_rate := 600000000; vdd := None;
     sram_mm := Some (example_mm [true; true; false; false] 2) |}.

Lemma action_queries_change_nothing_witness (iommu := iommu_domain_stub) :
  looks (rknpu_action (example_kernel 0) example_env RKNPU_GET_VOLT 7) /\
  forall d, rknpu_action (example_kernel 0) example_env RKNPU_POWER_ON 7 d = Ret (-22, 7, None) d.
Proof.
  split.
  - apply (action_queries_change_nothing (example_kernel 0) example_env RKNPU_GET_VOLT 7). reflexivity.
  - apply (action_queries_change_nothing (example_kernel 0) example_env RKNPU_POWER_ON 7); reflexivity.
Defined.

Lemma free_bits_range (bm : list bool) (total : Z) : 0 <= total -> 0 <= free_bits bm total <= total.
Proof.
  intros Ht. unfold free_bits. pose proof (length_filter (fun b => b = false) (take (Z.to_nat total) bm)).
  pose proof (firstn_le_length (Z.to_nat total) bm). lia.
Qed.

(** On a device with SRAM the two size actions report, without overflow, the
    bytes of the whole allocator and those bytes minus the ones the live
    allocations own. *)
Theorem sram_actions_account {iommu : IommuDomain} (k : iommu_kernel) (env : action_env)
    (mm : rknpu_mm) (objs : list rknpu_mm_obj) (value : Z) (d : rknpu_device) :
  sram_mm env = Some mm -> mm_inv (mm, objs) ->
  rknpu_action k env RKNPU_GET_TOTAL_SRAM_SIZE value d =
    Ret (0, total_chunks mm * chunk_size mm, None) d /\
  rknpu_action k env RKNPU_GET_FREE_SRAM_SIZE value d =
    Ret (0, total_chunks mm * chunk_size mm - sum_lens objs * chunk_size mm, None) d.
Proof.
  intros He [[W1 W2 W3 W4 W5] _ _ Hf]. cbn [fst snd] in *. unfold rknpu_action. cbn.
  rewrite He. pose proof (free_bits_range (bitmap mm) (total_chunks mm) W2) as Hr.
  rewrite <- W5 in Hr. rewrite !u32_small by nia. rewrite Hf, Z.mul_sub_distr_r. done.
Qed.

Lemma sram_actions_account_witness (iommu := iommu_domain_stub) :
  let d := example_dev rk3588_rknpu_config [] in
  rknpu_action (example_kernel 0) example_env RKNPU_GET_FREE_SRAM_SIZE 7 d = Ret (0, 8192, None) d.
Proof.
  intros d.
  apply (sram_actions_account (example_kernel 0) example_env (example_mm [true; true; false; false] 2)
    [{| range_start := 0; range_end := 1 |}] 7 d).
  - reflexivity.
  - split; [split; vm_compute; (reflexivity || discriminate)| | |].
    + repeat constructor; cbn; lia.
    + intros i Hi. cbn in Hi. assert (i = 0 \/ i = 1 \/ i = 2 \/ i = 3) as [->|[->|[->| ->]]] by lia;
        reflexivity.
    + reflexivity.
Defined.
