(* ===== verification/Mem.v ===== *)
(** * The misc device's memory (rknpu_mem.c, rknpu_open and rknpu_release)

    Sessions of /dev/rknpu, their memory objects, and what the driver holds of
    each dma-buf: references, attachments, mappings and kernel mappings.  The
    dma-buf calls are counted; what they answer is an input. *)

From S2P Require Import Prelude Config.

(** ** State *)

(** struct rknpu_mem_object; [mo_kv]: kv_addr is not NULL. *)
Record rknpu_mem_object := {
  mo_buf : Z;                (* dmabuf, which also names attachment and sgt *)
  mo_owner : bool;
  mo_kv : bool;
  mo_size : Z;
  mo_dma_addr : Z }.
#[export] Instance rknpu_mem_object_settable : Settable rknpu_mem_object := {| settable := fun o =>
  Build_rknpu_mem_object (mo_buf o) (mo_owner o) (mo_kv o) (mo_size o) (mo_dma_addr o) |}.

(** [sessions] maps an open file to its session's list; a file with no session
    has a NULL private_data.  [mem_objs] are the objects kzalloc gave out and
    kfree has not had back.  The counts are the driver's: dma_buf_get and a
    successful export add a reference, dma_buf_put drops one, and dma_buf_fd
    hands one over to the new file descriptor.  [dkms_bufs] counts struct
    rknpu_dkms_buf allocations, [coherent] the dma_alloc_coherent ones. *)
Record mem_world := {
  sessions : gmap Z (list Z);
  mem_objs : gmap Z rknpu_mem_object;
  buf_refs : Z -> Z;
  buf_attached : Z -> Z;
  buf_mapped : Z -> Z;
  buf_vmapped : Z -> Z;
  dkms_bufs : Z;
  coherent : Z }.
#[export] Instance mem_world_settable : Settable mem_world := {| settable := fun w =>
  Build_mem_world (sessions w) (mem_objs w) (buf_refs w) (buf_attached w) (buf_mapped w)
    (buf_vmapped w) (dkms_bufs w) (coherent w) |}.

(** struct rknpu_mem_create. *)
Record rknpu_mem_create := {
  mc_handle : Z; mc_flags : Z; mc_size : Z; mc_obj_addr : Z; mc_dma_addr : Z;
  mc_sram_size : Z; mc_iommu_domain_id : Z; mc_core_mask : Z }.


(** [PAGE_ALIGN] of an unsigned 64-bit size. *)
Definition PAGE_ALIGN (x : Z) : Z := round_down (u64 (x + PAGE_SIZE - 1)) PAGE_SIZE.

(** ** The DKMS allocator *)

(** What the kernel answers: whether kzalloc and dma_alloc_coherent succeed, and
    the exported dma-buf or an error. *)
Record dkms_answer := { da_kzalloc : bool; da_dma : bool; da_export : Z + Z }.

Definition rknpu_dkms_alloc (ans : dkms_answer) (size : Z) (w : mem_world) : (Z + Z) * mem_world :=
  if negb (da_kzalloc ans) then (inl (-ENOMEM), w)
  else
    let w := w <| dkms_bufs ::= Z.succ |> in
    if negb (da_dma ans) then (inl (-ENOMEM), w <| dkms_bufs ::= Z.pred |>)
    else
      let w := w <| coherent ::= Z.succ |> in
      match da_export ans with
      | inl e => (inl e, w <| coherent ::= Z.pred |> <| dkms_bufs ::= Z.pred |>)
      | inr buf => (inr buf, w <| buf_refs ::= alter Z.succ buf |>)
      end.

(** The exporter's release callback: the last reference is gone. *)
Definition rknpu_dkms_buf_release (w : mem_world) : mem_world :=
  w <| coherent ::= Z.pred |> <| dkms_bufs ::= Z.pred |>.

(** ** Create *)

(** What the kernel answers to one create: the user copies, the object's
    address, the dma-buf of an imported handle, the allocator, the new file
    descriptor, and the dma-buf calls (0 or an error). *)
Record create_answer := {
  ca_copy_in : bool;
  ca_kzalloc : option Z;
  ca_get : Z -> Z + Z;
  ca_dkms : dkms_answer;
  ca_fd : Z;
  ca_attach : Z;
  ca_map : Z;
  ca_vmap : Z;
  ca_dma_addr : Z;
  ca_copy_out : bool }.

(** A little-endian field of [size] bytes at [off], of which the ioctl copied
    those below [in_size] and zeroed the others. *)
Definition copied (in_size off size v : Z) : Z :=
  if in_size <=? off then 0 else v mod 2 ^ (8 * Z.min size (in_size - off)).

Definition copied_args (in_size : Z) (a : rknpu_mem_create) : rknpu_mem_create :=
  {| mc_handle := copied in_size 0 4 (mc_handle a); mc_flags := copied in_size 4 4 (mc_flags a);
     mc_size := copied in_size 8 8 (mc_size a); mc_obj_addr := copied in_size 16 8 (mc_obj_addr a);
     mc_dma_addr := copied in_size 24 8 (mc_dma_addr a);
     mc_sram_size := copied in_size 32 8 (mc_sram_size a);
     mc_iommu_domain_id := copied in_size 40 4 (mc_iommu_domain_id a);
     mc_core_mask := copied in_size 44 4 (mc_core_mask a) |}.

Definition sizeof_mem_create : Z := 48.

(** [dma_buf_put], [dma_buf_vunmap] and the pair unmap and detach. *)
Definition dma_buf_put (buf : Z) (w : mem_world) : mem_world := w <| buf_refs ::= alter Z.pred buf |>.
Definition dma_buf_vunmap (buf : Z) (w : mem_world) : mem_world :=
  w <| buf_vmapped ::= alter Z.pred buf |>.
Definition unmap_detach (buf : Z) (w : mem_world) : mem_world :=
  w <| buf_mapped ::= alter Z.pred buf |> <| buf_attached ::= alter Z.pred buf |>.

(** The first half: the dma-buf, whether the object owns it, and the fd; an
    error is the value to return after err_free_obj or err_free_dma_buf. *)
Definition create_buffer (ans : create_answer) (a : rknpu_mem_create) (w : mem_world)
  : (Z + Z * bool * Z) * mem_world :=
  if 0 <? mc_handle a then
    let fd := s32 (mc_handle a) in
    match ca_get ans fd with
    | inl e => (inl e, w)
    | inr buf => (inr (buf, false, fd), w <| buf_refs ::= alter Z.succ buf |>)
    end
  else
    match rknpu_dkms_alloc (ca_dkms ans) (mc_size a) w with
    | (inl e, w) => (inl e, w)
    | (inr buf, w) =>
        if ca_fd ans <? 0 then (inl (-EFAULT), dma_buf_put buf w)
        else (inr (buf, true, ca_fd ans), w <| buf_refs ::= alter Z.pred buf |>)
    end.

(** rknpu_mem_create_ioctl on [file]; the result holds what user memory
    receives.  check_copy_size refuses to copy more than the structure. *)
Definition rknpu_mem_create_ioctl (ans : create_answer) (file in_size : Z)
    (user : rknpu_mem_create) (w : mem_world) : Z * option rknpu_mem_create * mem_world :=
  if negb (ca_copy_in ans) || (sizeof_mem_create <? in_size) then (-EFAULT, None, w)
  else
    let a := copied_args in_size user in
    match ca_kzalloc ans with
    | None => (-ENOMEM, None, w)
    | Some p =>
        match create_buffer ans a w with
        | (inl e, w) => (e, None, w)
        | (inr (buf, owner, fd), w) =>
            if negb (ca_attach ans =? 0) then (ca_attach ans, None, dma_buf_put buf w)
            else
              let w := w <| buf_attached ::= alter Z.succ buf |> in
              if negb (ca_map ans =? 0) then
                (ca_map ans, None,
                 dma_buf_put buf (w <| buf_attached ::= alter Z.pred buf |>))
              else
                let w := w <| buf_mapped ::= alter Z.succ buf |> in
                let kv := has_flag (mc_flags a) RKNPU_MEM_KERNEL_MAPPING in
                if kv && negb (ca_vmap ans =? 0) then
                  (ca_vmap ans, None, dma_buf_put buf (unmap_detach buf w))
                else
                  let w := if kv then w <| buf_vmapped ::= alter Z.succ buf |> else w in
                  let o := {| mo_buf := buf; mo_owner := owner; mo_kv := kv;
                              mo_size := PAGE_ALIGN (mc_size a); mo_dma_addr := ca_dma_addr ans |} in
                  let out := {| mc_handle := u32 fd; mc_flags := mc_flags a; mc_size := mo_size o;
                                mc_obj_addr := p; mc_dma_addr := mo_dma_addr o;
                                mc_sram_size := mc_sram_size a;
                                mc_iommu_domain_id := mc_iommu_domain_id a;
                                mc_core_mask := mc_core_mask a |} in
                  let fail w := dma_buf_put buf (unmap_detach buf (dma_buf_vunmap buf w)) in
                  if negb (ca_copy_out ans) then (-EFAULT, None, fail w)
                  else
                    match sessions w !! file with
                    | None => (-EFAULT, Some out, fail w)
                    | Some l =>
                        (0, Some out, w <| mem_objs ::= <[p := o]> |>
                                        <| sessions ::= <[file := l ++ [p]]> |>)
                    end
        end
    end.

(** ** Destroy, open and release

    A result [None] is an access to an object that kfree has had back, or
    through a NULL session. *)

(** The body that destroy and release share: give back what the object holds
    and free it. *)
Definition free_object (p : Z) (w : mem_world) : option mem_world :=
  match mem_objs w !! p with
  | None => None
  | Some o =>
      let w := if mo_kv o then dma_buf_vunmap (mo_buf o) w else w in
      let w := unmap_detach (mo_buf o) w in
      let w := if negb (mo_owner o) then dma_buf_put (mo_buf o) w else w in
      Some (w <| mem_objs ::= delete p |>)
  end.

(** [list_del] of the first entry whose address is [p]. *)
Fixpoint list_del (p : Z) (l : list Z) : list Z :=
  match l with [] => [] | q :: l => if q =? p then l else q :: list_del p l end.

Definition rknpu_mem_destroy_ioctl (copy_in : bool) (file obj_addr : Z) (w : mem_world)
  : option (Z * mem_world) :=
  if negb copy_in then Some (-EFAULT, w)
  else
    match sessions w !! file with
    | None => Some (-EFAULT, w)
    | Some l =>
        if bool_decide (obj_addr ∈ l) then
          let w := w <| sessions ::= <[file := list_del obj_addr l]> |> in
          option_map (fun w => (0, w)) (free_object obj_addr w)
        else Some (-EINVAL, w)
    end.

(** rknpu_mem_find_by_obj_addr. *)
Definition rknpu_mem_find_by_obj_addr (file obj_addr : Z) (w : mem_world) : option Z :=
  match sessions w !! file with
  | None => None
  | Some l => if bool_decide (obj_addr ∈ l) then Some obj_addr else None
  end.

Definition rknpu_open (kzalloc_ok : bool) (file : Z) (w : mem_world) : Z * mem_world :=
  if negb kzalloc_ok then (-ENOMEM, w) else (0, w <| sessions ::= <[file := []]> |>).

Fixpoint free_objects (l : list Z) (w : mem_world) : option mem_world :=
  match l with
  | [] => Some w
  | p :: l => match free_object p w with Some w => free_objects l w | None => None end
  end.

Definition rknpu_release (file : Z) (w : mem_world) : option (Z * mem_world) :=
  match sessions w !! file with
  | None => None
  | Some l => option_map (fun w => (0, w)) (free_objects l (w <| sessions ::= delete file |>))
  end.

(** ** Synchronisation *)


(** One dma_sync_single_range_for_cpu or _for_device. *)
Record dma_sync := { ds_for_cpu : bool; ds_addr : Z; ds_offset : Z; ds_size : Z }.

(** The loop of rknpu_dma_buf_sync over the lengths of the table's entries. *)
Fixpoint sync_loop (for_cpu : bool) (sg_dma_addr len offset length : Z) (sgs : list Z)
  : list dma_sync :=
  match sgs with
  | [] => []
  | sg_length :: sgs =>
      let len := u32 (len + sg_length) in
      if len <=? offset then sync_loop for_cpu (u64 (sg_dma_addr + sg_length)) len offset length sgs
      else
        let sg_left := u32 (len - offset) in
        let sg_offset := u32 (sg_length - sg_left) in
        let size := if length <? sg_left then length else sg_left in
        let call := {| ds_for_cpu := for_cpu; ds_addr := sg_dma_addr; ds_offset := sg_offset;
                       ds_size := size |} in
        let offset := u32 (offset + size) in
        let length := u32 (length - size) in
        call :: (if length =? 0 then []
                 else sync_loop for_cpu (u64 (sg_dma_addr + sg_length)) len offset length sgs)
  end.

Definition rknpu_dma_buf_sync (for_cpu : bool) (dma_addr offset length : Z) (sgs : list Z)
  : list dma_sync :=
  sync_loop for_cpu dma_addr 0 (u32 offset) (u32 length) sgs.

(** rknpu_mem_sync_ioctl; [sgt] gives the DMA address of a buffer's first entry
    and the lengths of its entries. *)
Definition rknpu_mem_sync_ioctl (copy_in : bool) (file flags obj_addr offset size : Z)
    (sgt : Z -> Z * list Z) (w : mem_world) : option (Z * list dma_sync) :=
  if negb copy_in then Some (-EFAULT, [])
  else
    match sessions w !! file with
    | None => Some (-EFAULT, [])
    | Some l =>
        if bool_decide (obj_addr ∈ l) then
          match mem_objs w !! obj_addr with
          | None => None
          | Some o =>
              let '(addr, sgs) := sgt (mo_buf o) in
              Some (0,
                (if has_flag flags RKNPU_MEM_SYNC_TO_DEVICE
                 then rknpu_dma_buf_sync false addr offset size sgs else []) ++
                (if has_flag flags RKNPU_MEM_SYNC_FROM_DEVICE
                 then rknpu_dma_buf_sync true addr offset size sgs else []))
          end
        else Some (-EINVAL, [])
    end.

(** ** Sessions: the invariant *)

(** How many live objects satisfy [P]. *)
Definition count (P : rknpu_mem_object -> bool) (w : mem_world) : Z :=
  Z.of_nat (size (filter (fun po => P po.2 = true) (mem_objs w))).

Definition on_buf (buf : Z) (o : rknpu_mem_object) : bool := mo_buf o =? buf.
Definition imported (buf : Z) (o : rknpu_mem_object) : bool := on_buf buf o && negb (mo_owner o).
Definition kernel_mapped (buf : Z) (o : rknpu_mem_object) : bool := on_buf buf o && mo_kv o.

(** The driver holds one attachment and one mapping for each live object of a
    buffer, one reference for each imported one and one kernel mapping for each
    mapped one. *)
Record counted (w : mem_world) : Prop := {
  co_refs : forall b, buf_refs w b = count (imported b) w;
  co_attached : forall b, buf_attached w b = count (on_buf b) w;
  co_mapped : forall b, buf_mapped w b = count (on_buf b) w;
  co_vmapped : forall b, buf_vmapped w b = count (kernel_mapped b) w;
}.

(** Every live object is in exactly one session, once. *)
Record listed (w : mem_world) : Prop := {
  li_nodup : forall f l, sessions w !! f = Some l -> NoDup l;
  li_live : forall f l p, sessions w !! f = Some l -> p ∈ l -> is_Some (mem_objs w !! p);
  li_one : forall f1 f2 l1 l2 p, sessions w !! f1 = Some l1 -> sessions w !! f2 = Some l2 ->
    p ∈ l1 -> p ∈ l2 -> f1 = f2;
  li_owned : forall p, is_Some (mem_objs w !! p) -> exists f l, sessions w !! f = Some l /\ p ∈ l;
}.

Lemma count_insert (P : rknpu_mem_object -> bool) (p : Z) (o : rknpu_mem_object) (w : mem_world) :
  mem_objs w !! p = None ->
  count P (w <| mem_objs ::= <[p := o]> |>) = count P w + (if P o then 1 else 0).
Proof.
  intros Hp. unfold count. cbn. destruct (P o) eqn:HP.
  - rewrite map_filter_insert_True by done. rewrite map_size_insert_None; [lia|].
    apply map_lookup_filter_None_2. by left.
  - rewrite map_filter_insert_False by (cbn; congruence). rewrite delete_id by done. lia.
Qed.

Lemma count_delete (P : rknpu_mem_object -> bool) (p : Z) (o : rknpu_mem_object) (w : mem_world) :
  mem_objs w !! p = Some o ->
  count P (w <| mem_objs ::= delete p |>) = count P w - (if P o then 1 else 0).
Proof.
  intros Hp.
  assert (w = (w <| mem_objs ::= delete p |>) <| mem_objs ::= <[p := o]> |>) as Hw.
  { destruct w; cbn in *. by rewrite insert_delete_id. }
  rewrite Hw at 2. rewrite count_insert; [lia|]. cbn. apply lookup_delete_eq.
Qed.

Lemma count_objs_ext (P : rknpu_mem_object -> bool) (w w' : mem_world) :
  mem_objs w' = mem_objs w -> count P w' = count P w.
Proof. unfold count. by intros ->. Qed.

(** Freeing a live object takes exactly its share of the holdings. *)
Lemma free_object_ok (p : Z) (o : rknpu_mem_object) (w : mem_world) :
  counted w -> mem_objs w !! p = Some o ->
  exists w', free_object p w = Some w' /\ counted w' /\
    mem_objs w' = delete p (mem_objs w) /\ sessions w' = sessions w /\
    dkms_bufs w' = dkms_bufs w /\ coherent w' = coherent w.
Proof.
  intros [H1 H2 H3 H4] Hp. unfold free_object. rewrite Hp. eexists. split; [reflexivity|].
  match goal with |- counted ?w1 /\ _ => set (w2 := w1) end.
  assert (Hd : forall P, count P w2 = count P w - (if P o then 1 else 0)).
  { intros P. rewrite <- (count_delete P p o w Hp). apply count_objs_ext. subst w2.
    by destruct (mo_kv o), (mo_owner o). }
  split; [|subst w2; by destruct (mo_kv o), (mo_owner o)].
  split; intros b; rewrite Hd; [rewrite <- H1|rewrite <- H2|rewrite <- H3|rewrite <- H4];
    unfold imported, kernel_mapped, on_buf; subst w2;
    destruct (mo_kv o), (mo_owner o); cbn; rewrite ?fn_alter_eqb;
    destruct (mo_buf o =? b); cbn; lia.
Qed.

Lemma elem_of_list_del (p q : Z) (l : list Z) :
  NoDup l -> q ∈ list_del p l <-> q ∈ l /\ q <> p.
Proof.
  induction l as [|x l IH]; intros Hnd; [cbn; split; [intros H | intros [H _]]; by apply elem_of_nil in H|].
  apply NoDup_cons in Hnd as [Hx Hnd]. cbn. destruct (Z.eqb_spec x p) as [->|Hne].
  - rewrite elem_of_cons. split; [intros H; split; [by right|intros ->; done] | intros [[->|H] ?]; done].
  - rewrite !elem_of_cons, IH by done. split; [intros [->|[? ?]]; auto | intros [[->|?] ?]; auto].
Qed.

Lemma NoDup_list_del (p : Z) (l : list Z) : NoDup l -> NoDup (list_del p l).
Proof.
  induction l as [|x l IH]; intros Hnd; [done|]. pose proof Hnd as Hnd'.
  apply NoDup_cons in Hnd as [Hx Hnd]. cbn. destruct (Z.eqb_spec x p) as [->|Hne]; [done|].
  apply NoDup_cons. split; [|by apply IH]. rewrite elem_of_list_del by done. tauto.
Qed.

(** Freeing a list of distinct live objects. *)
Lemma free_objects_ok (l : list Z) : forall w,
  counted w -> NoDup l -> (forall p, p ∈ l -> is_Some (mem_objs w !! p)) ->
  exists w', free_objects l w = Some w' /\ counted w' /\ sessions w' = sessions w /\
    (forall p, mem_objs w' !! p = if bool_decide (p ∈ l) then None else mem_objs w !! p).
Proof.
  induction l as [|p l IH]; intros w Hw Hnd Hl.
  - exists w. split; [done|]. split; [done|]. split; [done|]. intros p.
    rewrite bool_decide_false by apply not_elem_of_nil. done.
  - apply NoDup_cons in Hnd as [Hp Hnd]. destruct (Hl p (list_elem_of_here _ _)) as [o Ho].
    destruct (free_object_ok p o w Hw Ho) as (w1 & E1 & Hw1 & Ho1 & Hs1 & _).
    destruct (IH w1 Hw1 Hnd) as (w' & E2 & Hw' & Hs' & Ho').
    { intros q Hq. rewrite Ho1, lookup_delete_ne by (intros ->; done). by apply Hl, list_elem_of_further. }
    exists w'. cbn. rewrite E1. split; [done|]. split; [done|]. split; [congruence|].
    intros q. rewrite Ho', Ho1. destruct (decide (q = p)) as [->|Hne].
    + rewrite lookup_delete_eq, (bool_decide_true (p ∈ p :: l)) by apply list_elem_of_here.
      by destruct (bool_decide _).
    + rewrite lookup_delete_ne by done.
      rewrite (bool_decide_ext (q ∈ p :: l) (q ∈ l)); [done|]. rewrite elem_of_cons. naive_solver.
Qed.

(** *** Create *)

Definition wants_kernel_mapping (in_size : Z) (user : rknpu_mem_create) : bool :=
  has_flag (mc_flags (copied_args in_size user)) RKNPU_MEM_KERNEL_MAPPING.
Definition imports (in_size : Z) (user : rknpu_mem_create) : bool :=
  0 <? mc_handle (copied_args in_size user).

(** A create whose failures, if it fails, the driver cleans up exactly: once an
    allocated buffer has its file descriptor nothing fails any more, and the
    copy to user memory fails only with a kernel mapping. *)
Definition clean (ans : create_answer) (in_size : Z) (user : rknpu_mem_create) : Prop :=
  (imports in_size user = false -> ca_attach ans = 0 /\ ca_map ans = 0 /\
     (wants_kernel_mapping in_size user = true -> ca_vmap ans = 0) /\ ca_copy_out ans = true) /\
  (wants_kernel_mapping in_size user = false -> ca_copy_out ans = true).

Record same_holdings (w w' : mem_world) : Prop := {
  sh_sessions : sessions w' = sessions w;
  sh_objs : mem_objs w' = mem_objs w;
  sh_refs : forall b, buf_refs w' b = buf_refs w b;
  sh_attached : forall b, buf_attached w' b = buf_attached w b;
  sh_mapped : forall b, buf_mapped w' b = buf_mapped w b;
  sh_vmapped : forall b, buf_vmapped w' b = buf_vmapped w b;
}.

Lemma same_holdings_refl (w : mem_world) : same_holdings w w.
Proof. done. Qed.

Lemma counted_same (w w' : mem_world) : same_holdings w w' -> counted w -> counted w'.
Proof.
  intros [_ E H1 H2 H3 H4] [C1 C2 C3 C4].
  split; intros b; rewrite (count_objs_ext _ w w' E); rewrite ?H1, ?H2, ?H3, ?H4; done.
Qed.

Ltac holdings := split; [done..| | | |]; intros ?; cbn; rewrite ?fn_alter_eqb; repeat case_bool; cbn; lia.

(** What the two halves of a create leave behind. *)
Lemma create_buffer_cases (ans : create_answer) (in_size : Z) (user : rknpu_mem_create) (w : mem_world) :
  match create_buffer ans (copied_args in_size user) w with
  | (inl _, w1) => same_holdings w w1
  | (inr (buf, owner, _), w1) =>
      owner = negb (imports in_size user) /\
      sessions w1 = sessions w /\ mem_objs w1 = mem_objs w /\ buf_attached w1 = buf_attached w /\
      buf_mapped w1 = buf_mapped w /\ buf_vmapped w1 = buf_vmapped w /\
      forall b, buf_refs w1 b = buf_refs w b + (if (buf =? b) && negb owner then 1 else 0)
  end.
Proof.
  unfold create_buffer, imports. destruct (0 <? _).
  - destruct (ca_get _ _) as [e|buf]; [apply same_holdings_refl|]. do 6 (split; [done|]).
    intros b. cbn. rewrite fn_alter_eqb, andb_true_r. destruct (buf =? b); lia.
  - unfold rknpu_dkms_alloc. destruct (da_kzalloc _); cbn [negb]; [|done].
    destruct (da_dma _); cbn [negb]; [|holdings].
    destruct (da_export _) as [e|buf]; [holdings|].
    destruct (ca_fd ans <? 0).
    + holdings.
    + do 6 (split; [done|]). intros b. cbn. rewrite !fn_alter_eqb, andb_false_r.
      destruct (buf =? b); lia.
Qed.

Lemma create_cases (ans : create_answer) (file in_size : Z) (user : rknpu_mem_create)
    (w w' : mem_world) (l : list Z) (r : Z) (out : option rknpu_mem_create) :
  sessions w !! file = Some l -> clean ans in_size user ->
  rknpu_mem_create_ioctl ans file in_size user w = (r, out, w') ->
  same_holdings w w' \/
  exists p o, r = 0 /\ ca_kzalloc ans = Some p /\
    mo_owner o = negb (imports in_size user) /\ mo_kv o = wants_kernel_mapping in_size user /\
    sessions w' = <[file := l ++ [p]]> (sessions w) /\ mem_objs w' = <[p := o]> (mem_objs w) /\
    (forall b, buf_refs w' b = buf_refs w b + (if imported b o then 1 else 0)) /\
    (forall b, buf_attached w' b = buf_attached w b + (if on_buf b o then 1 else 0)) /\
    (forall b, buf_mapped w' b = buf_mapped w b + (if on_buf b o then 1 else 0)) /\
    (forall b, buf_vmapped w' b = buf_vmapped w b + (if kernel_mapped b o then 1 else 0)).
Proof.
  intros Hl [Hc1 Hc2]. unfold rknpu_mem_create_ioctl.
  destruct (negb _ || _); [intros [= <- <- <-]; by left|].
  destruct (ca_kzalloc ans) as [p|] eqn:Hk; [|intros [= <- <- <-]; by left].
  pose proof (create_buffer_cases ans in_size user w) as Hb.
  destruct (create_buffer ans (copied_args in_size user) w) as [[e|[[buf owner] fd]] w1];
    [intros [= <- <- <-]; by left|].
  destruct Hb as (Ho & E1 & E2 & E3 & E4 & E5 & E6).
  fold (wants_kernel_mapping in_size user).
  assert (Hfail : forall w2, imports in_size user = true ->
    sessions w2 = sessions w1 -> mem_objs w2 = mem_objs w1 -> buf_refs w2 = buf_refs w1 ->
    (forall b, buf_attached w2 b = buf_attached w1 b) -> (forall b, buf_mapped w2 b = buf_mapped w1 b) ->
    (forall b, buf_vmapped w2 b = buf_vmapped w1 b) -> same_holdings w (dma_buf_put buf w2)).
  { intros w2 Hi F1 F2 F3 F4 F5 F6. rewrite Ho, Hi in E6.
    split; cbn; rewrite ?F1, ?F2, ?F3; [done..| | | |]; intros b;
      [rewrite fn_alter_eqb, E6; destruct (buf =? b); cbn; lia | rewrite ?F4, ?F5, ?F6; congruence..]. }
  destruct (Z.eqb_spec (ca_attach ans) 0) as [Ha|Ha]; cbn [negb].
  2: { intros [= <- <- <-]. left. apply Hfail; try done.
       destruct (imports in_size user); [done|]. by destruct (Hc1 eq_refl). }
  destruct (Z.eqb_spec (ca_map ans) 0) as [Hm|Hm]; cbn [negb].
  2: { intros [= <- <- <-]. left. apply Hfail; try done.
       - destruct (imports in_size user); [done|]. by destruct (Hc1 eq_refl) as (_ & ? & _).
       - intros b. cbn. rewrite !fn_alter_eqb. destruct (buf =? b); lia. }
  destruct (wants_kernel_mapping in_size user && negb (ca_vmap ans =? 0)) eqn:Hv.
  { apply andb_true_iff in Hv as [Hw Hv]. intros [= <- <- <-]. left. apply Hfail; try done.
    - destruct (imports in_size user); [done|]. destruct (Hc1 eq_refl) as (_ & _ & H & _).
      by rewrite (H Hw) in Hv.
    - intros b. cbn. rewrite !fn_alter_eqb. destruct (buf =? b); lia.
    - intros b. cbn. rewrite !fn_alter_eqb. destruct (buf =? b); lia. }
  destruct (ca_copy_out ans) eqn:Hco; cbn [negb].
  2: { intros [= <- <- <-]. left.
       destruct (wants_kernel_mapping in_size user); [|by discriminate (Hc2 eq_refl)].
       apply Hfail; try done; try (intros b; cbn; rewrite !fn_alter_eqb; destruct (buf =? b); lia).
       destruct (imports in_size user); [done|]. by destruct (Hc1 eq_refl) as (_ & _ & _ & ?). }
  match goal with |- context [sessions ?w2 !! file] =>
    assert (Hs2 : sessions w2 !! file = Some l)
      by (destruct (wants_kernel_mapping in_size user); cbn; by rewrite E1); rewrite Hs2
  end.
  intros [= <- <- <-]. right.
  exists p, {| mo_buf := buf; mo_owner := owner; mo_kv := wants_kernel_mapping in_size user;
    mo_size := PAGE_ALIGN (mc_size (copied_args in_size user)); mo_dma_addr := ca_dma_addr ans |}.
  do 2 (split; [done|]). split; [exact Ho|]. split; [done|]. unfold imported, kernel_mapped, on_buf. cbn.
  split; [destruct (wants_kernel_mapping in_size user); cbn; by rewrite E1|].
  split; [destruct (wants_kernel_mapping in_size user); cbn; by rewrite E2|].
  split; [intros b; rewrite <- E6; by destruct (wants_kernel_mapping in_size user)|].
  destruct (wants_kernel_mapping in_size user); cbn; rewrite E3, E4, E5;
    (split; [|split]); intros b; rewrite ?fn_alter_eqb; destruct (buf =? b); cbn; lia.
Qed.

(** ** Sessions: the system *)

Inductive mem_op :=
  | MemOpen (kzalloc_ok : bool) (file : Z)
  | MemCreate (ans : create_answer) (file in_size : Z) (user : rknpu_mem_create)
  | MemDestroy (copy_in : bool) (file obj_addr : Z)
  | MemRelease (file : Z).

Definition mem_step (op : mem_op) (w : mem_world) : option mem_world :=
  match op with
  | MemOpen ok file => Some (rknpu_open ok file w).2
  | MemCreate ans file in_size user => Some (rknpu_mem_create_ioctl ans file in_size user w).2
  | MemDestroy ok file addr => option_map snd (rknpu_mem_destroy_ioctl ok file addr w)
  | MemRelease file => option_map snd (rknpu_release file w)
  end.

(** The calls the kernel makes: open on a new file, ioctls and one release on
    an open one; kzalloc never returns an address in use, and the create is
    [clean].  A destroy may name any address. *)
Definition mem_allowed (op : mem_op) (w : mem_world) : Prop :=
  match op with
  | MemOpen _ file => sessions w !! file = None
  | MemCreate ans file in_size user => is_Some (sessions w !! file) /\ clean ans in_size user /\
      forall p, ca_kzalloc ans = Some p -> mem_objs w !! p = None
  | MemDestroy _ file _ | MemRelease file => is_Some (sessions w !! file)
  end.

Definition empty_world : mem_world :=
  {| sessions := ∅; mem_objs := ∅; buf_refs := fun _ => 0; buf_attached := fun _ => 0;
     buf_mapped := fun _ => 0; buf_vmapped := fun _ => 0; dkms_bufs := 0; coherent := 0 |}.

Inductive mem_reach : mem_world -> Prop :=
  | MemStart : mem_reach empty_world
  | MemStep op w w' : mem_reach w -> mem_allowed op w -> mem_step op w = Some w' -> mem_reach w'.

Lemma same_listed (w w' : mem_world) : same_holdings w w' -> listed w -> listed w'.
Proof. intros [E1 E2 _ _ _ _] [H1 H2 H3 H4]. split; rewrite E1, ?E2; done. Qed.

Lemma insert_listed (w w' : mem_world) (file p : Z) (l : list Z) (o : rknpu_mem_object) :
  listed w -> sessions w !! file = Some l -> mem_objs w !! p = None ->
  sessions w' = <[file := l ++ [p]]> (sessions w) -> mem_objs w' = <[p := o]> (mem_objs w) ->
  listed w'.
Proof.
  intros [H1 H2 H3 H4] Hl Hp Es Eo.
  assert (Hno : forall f k, sessions w !! f = Some k -> p ∉ k).
  { intros f k Hf Hin. destruct (H2 f k p Hf Hin) as [? E]. congruence. }
  assert (Hs : forall f k, sessions w' !! f = Some k ->
    exists k0, sessions w !! f = Some k0 /\ k = if decide (f = file) then k0 ++ [p] else k0).
  { intros f k Hf. rewrite Es in Hf. destruct (decide (f = file)) as [->|Hne].
    - rewrite lookup_insert_eq in Hf. injection Hf as <-. by exists l.
    - rewrite lookup_insert_ne in Hf by done. by exists k. }
  assert (Hin : forall f k q, sessions w' !! f = Some k -> q ∈ k -> q = p /\ f = file \/
    exists k0, sessions w !! f = Some k0 /\ q ∈ k0).
  { intros f k q Hf Hq. destruct (Hs f k Hf) as (k0 & Hk0 & ->). destruct (decide (f = file)); [|eauto].
    apply elem_of_app in Hq as [Hq|Hq]; [eauto|]. left. by apply list_elem_of_singleton in Hq. }
  split.
  - intros f k Hf. destruct (Hs f k Hf) as (k0 & Hk0 & ->). destruct (decide (f = file)); [|by eapply H1].
    apply NoDup_app. split; [by eapply H1|]. split; [|apply NoDup_singleton].
    intros q Hq ->%list_elem_of_singleton. by eapply Hno.
  - intros f k q Hf Hq. rewrite Eo. destruct (decide (p = q)) as [->|Hne]; [by rewrite lookup_insert_eq|].
    rewrite lookup_insert_ne by done. destruct (Hin f k q Hf Hq) as [[-> _]|(k0 & Hk0 & Hq0)]; [done|].
    by eapply H2.
  - intros f1 f2 k1 k2 q Hf1 Hf2 Hq1 Hq2.
    destruct (Hin f1 k1 q Hf1 Hq1) as [[-> ->]|(k & Hk & Hq)], (Hin f2 k2 _ Hf2 Hq2) as [[? ->]|(k' & Hk' & Hq')];
      [done | by destruct (Hno _ _ Hk') | subst q; by destruct (Hno _ _ Hk) | by eapply H3].
  - intros q Hq. rewrite Eo in Hq. destruct (decide (p = q)) as [<-|Hne].
    + exists file, (l ++ [p]). rewrite Es, lookup_insert_eq. split; [done|].
      apply elem_of_app. right. by apply list_elem_of_singleton.
    + rewrite lookup_insert_ne in Hq by done. destruct (H4 q Hq) as (f & k & Hf & Hk).
      destruct (decide (f = file)) as [->|Hf'].
      * exists file, (l ++ [p]). rewrite Es, lookup_insert_eq. split; [done|].
        apply elem_of_app. left. by replace l with k by congruence.
      * exists f, k. by rewrite Es, lookup_insert_ne.
Qed.

(** A session loses the objects of [gone], which are freed. *)
Lemma remove_listed (w w' : mem_world) (file : Z) (l gone : list Z) (keep : option (list Z)) :
  listed w -> sessions w !! file = Some l ->
  sessions w' = partial_alter (fun _ => keep) file (sessions w) ->
  NoDup (default [] keep) -> (forall q, q ∈ default [] keep <-> q ∈ l /\ q ∉ gone) ->
  (forall q, q ∈ gone -> q ∈ l) ->
  (forall q, mem_objs w' !! q = if bool_decide (q ∈ gone) then None else mem_objs w !! q) ->
  listed w'.
Proof.
  intros [H1 H2 H3 H4] Hl Es Hnd Hk Hg Eo.
  assert (Hs : forall f k q, sessions w' !! f = Some k -> q ∈ k ->
    exists k0, sessions w !! f = Some k0 /\ q ∈ k0 /\ q ∉ gone).
  { intros f k q Hf Hq. rewrite Es in Hf. destruct (decide (f = file)) as [->|Hne].
    - rewrite lookup_partial_alter_eq in Hf. subst keep. cbn in Hk.
      exists l. apply Hk in Hq. tauto.
    - rewrite lookup_partial_alter_ne in Hf by done. exists k. split; [done|]. split; [done|].
      intros Hgq. destruct Hne. by apply (H3 f file k l q Hf Hl Hq (Hg q Hgq)). }
  split.
  - intros f k Hf. rewrite Es in Hf. destruct (decide (f = file)) as [->|Hne].
    + rewrite lookup_partial_alter_eq in Hf. by subst keep.
    + rewrite lookup_partial_alter_ne in Hf by done. by eapply H1.
  - intros f k q Hf Hq. destruct (Hs f k q Hf Hq) as (k0 & Hk0 & Hq0 & Hng).
    rewrite Eo, bool_decide_false by done. by eapply H2.
  - intros f1 f2 k1 k2 q Hf1 Hf2 Hq1 Hq2.
    destruct (Hs _ _ _ Hf1 Hq1) as (? & ? & ? & _), (Hs _ _ _ Hf2 Hq2) as (? & ? & ? & _).
    by eapply H3.
  - intros q Hq. rewrite Eo in Hq. destruct (bool_decide_reflect (q ∈ gone)) as [|Hng]; [by destruct Hq|].
    destruct (H4 q Hq) as (f & k & Hf & Hqk). destruct (decide (f = file)) as [->|Hne].
    + exists file, (default [] keep). rewrite Es, lookup_partial_alter_eq.
      assert (q ∈ default [] keep) as Hin by (apply Hk; split; [congruence | done]).
      split; [|done]. destruct keep; [done|]. by apply elem_of_nil in Hin.
    + exists f, k. by rewrite Es, lookup_partial_alter_ne.
Qed.

Lemma mem_step_ok (op : mem_op) (w : mem_world) :
  listed w -> counted w -> mem_allowed op w ->
  exists w', mem_step op w = Some w' /\ listed w' /\ counted w'.
Proof.
  intros Hli Hco Ha. destruct op as [ok file|ans file in_size user|ok file addr|file]; cbn in *.
  - exists (rknpu_open ok file w).2. split; [done|]. unfold rknpu_open.
    destruct ok; cbn [negb snd]; [|done]. split; [|by destruct Hco].
    destruct Hli as [H1 H2 H3 H4]. split; cbn.
    + intros f k [[_ <-]|[_ ?]]%lookup_insert_Some; [constructor | by eapply H1].
    + intros f k q [[_ <-]|[_ ?]]%lookup_insert_Some Hq; [by apply elem_of_nil in Hq | by eapply H2].
    + intros f1 f2 k1 k2 q [[_ <-]|[_ ?]]%lookup_insert_Some [[_ <-]|[_ ?]]%lookup_insert_Some Hq1 Hq2;
        [by apply elem_of_nil in Hq1.. | by apply elem_of_nil in Hq2 | by eapply H3].
    + intros q Hq. destruct (H4 q Hq) as (f & k & Hf & ?). exists f, k.
      rewrite lookup_insert_ne; [done|]. congruence.
  - destruct Ha as ([l Hl] & Hc & Hfresh). eexists. split; [reflexivity|].
    destruct (rknpu_mem_create_ioctl ans file in_size user w) as [[r out] w'] eqn:E. cbn.
    destruct (create_cases _ _ _ _ _ _ _ _ _ Hl Hc E)
      as [Hsame|(p & o & _ & Hp & _ & _ & Es & Eo & R1 & R2 & R3 & R4)].
    + split; [by eapply same_listed | by eapply counted_same].
    + split; [eapply insert_listed; eauto|]. specialize (Hfresh p Hp).
      assert (Hcount : forall P, count P w' = count P w + (if P o then 1 else 0)).
      { intros P. rewrite <- (count_insert P p o w Hfresh). by apply count_objs_ext. }
      destruct Hco as [C1 C2 C3 C4].
      split; intros b; rewrite Hcount, ?R1, ?R2, ?R3, ?R4, ?C1, ?C2, ?C3, ?C4; done.
  - destruct Ha as [l Hl]. unfold rknpu_mem_destroy_ioctl. destruct ok; cbn [negb]; [|by exists w].
    rewrite Hl. case_bool_decide as Hin; [|by exists w].
    destruct (li_live _ Hli _ _ _ Hl Hin) as [o Ho].
    pose proof (li_nodup _ Hli _ _ Hl) as Hnd.
    set (w1 := w <| sessions ::= <[file := list_del addr l]> |>).
    destruct (free_object_ok addr o w1) as (w2 & E & Hco2 & Eo & Es & _); [by destruct Hco|done|].
    rewrite E. exists w2. split; [done|]. split; [|done].
    apply (remove_listed w w2 file l [addr] (Some (list_del addr l))); try done.
    + by apply NoDup_list_del.
    + intros q. cbn. rewrite elem_of_list_del by done. by rewrite list_elem_of_singleton.
    + intros q ->%list_elem_of_singleton. done.
    + intros q. rewrite Eo. cbn. destruct (decide (q = addr)) as [->|Hne].
      * rewrite bool_decide_true by (by apply list_elem_of_singleton). apply lookup_delete_eq.
      * rewrite bool_decide_false by (by rewrite list_elem_of_singleton). by apply lookup_delete_ne.
  - destruct Ha as [l Hl]. unfold rknpu_release. rewrite Hl.
    set (w1 := w <| sessions ::= delete file |>).
    destruct (free_objects_ok l w1) as (w2 & E & Hco2 & Es & Eo);
      [by destruct Hco | by eapply li_nodup | intros p Hp; by eapply (li_live _ Hli)|].
    rewrite E. exists w2. split; [done|]. split; [|done].
    apply (remove_listed w w2 file l l None); try done; [constructor|].
    intros q. cbn. split; [intros H; by apply elem_of_nil in H | tauto].
Qed.

Lemma mem_reach_inv (w : mem_world) : mem_reach w -> listed w /\ counted w.
Proof.
  induction 1 as [|op w w' _ [Hli Hco] Ha Hstep].
  - split; [|by split; intros b; cbn].
    by split; cbn; intros; repeat match goal with
      | H : ∅ !! _ = Some _ |- _ => by apply lookup_empty_Some in H
      | H : is_Some _ |- _ => destruct H end.
  - destruct (mem_step_ok op w Hli Hco Ha) as (w1 & E & H). by replace w' with w1 by congruence.
Qed.

(** Without an open file nothing is held. *)
Lemma no_session_no_holding (w : mem_world) : listed w -> counted w -> sessions w = ∅ ->
  mem_objs w = ∅ /\ forall b, buf_refs w b = 0 /\ buf_attached w b = 0 /\ buf_mapped w b = 0 /\ buf_vmapped w b = 0.
Proof.
  intros Hli Hco Hs. assert (mem_objs w = ∅) as He.
  { apply map_empty. intros p. apply eq_None_not_Some. intros Hp.
    destruct (li_owned _ Hli p Hp) as (f & l & Hf & _). by rewrite Hs in Hf. }
  split; [done|]. assert (forall P, count P w = 0) as Hz by (intros P; unfold count; by rewrite He).
  intros b. destruct Hco as [-> -> -> ->]. by rewrite !Hz.
Qed.


(** A file opened, a buffer allocated with a kernel mapping, and the file closed. *)
Definition good_answer (p : Z) : create_answer :=
  {| ca_copy_in := true; ca_kzalloc := Some p; ca_get := fun fd => inr (fd + 1000);
     ca_dkms := {| da_kzalloc := true; da_dma := true; da_export := inr 7 |}; ca_fd := 5;
     ca_attach := 0; ca_map := 0; ca_vmap := 0; ca_dma_addr := 0x10000; ca_copy_out := true |}.
Definition example_create (handle flags : Z) : rknpu_mem_create :=
  {| mc_handle := handle; mc_flags := flags; mc_size := 100; mc_obj_addr := 0; mc_dma_addr := 0;
     mc_sram_size := 0; mc_iommu_domain_id := 0; mc_core_mask := 0 |}.
Definition example_opened : mem_world := (rknpu_open true 1 empty_world).2.
Definition example_created : mem_world :=
  (rknpu_mem_create_ioctl (good_answer 64) 1 48 (example_create 0 8) example_opened).2.

Lemma example_created_reach : mem_reach example_created.
Proof.
  apply (MemStep (MemCreate (good_answer 64) 1 48 (example_create 0 8)) example_opened);
    [|split; [vm_compute; eauto|split; [split; vm_compute; auto|intros; reflexivity]]|reflexivity].
  apply (MemStep (MemOpen true 1) empty_world); [constructor|reflexivity..].
Qed.


(** Two failures of a create are not cleaned up exactly.  When a buffer it
    allocated has its file descriptor and a later step fails, the error path
    drops a reference that now belongs to the descriptor; and when the results
    cannot be copied out, it unmaps a kernel mapping that was never made
    unless the caller asked for one. *)
Theorem failed_create_overreleases (ans : create_answer) (file in_size p buf : Z)
    (user : rknpu_mem_create) (w : mem_world) :
  ca_copy_in ans = true -> in_size <= sizeof_mem_create -> ca_kzalloc ans = Some p ->
  (imports in_size user = false -> ca_dkms ans = {| da_kzalloc := true; da_dma := true; da_export := inr buf |} ->
     0 <= ca_fd ans -> ca_attach ans <> 0 ->
     exists w', rknpu_mem_create_ioctl ans file in_size user w = (ca_attach ans, None, w') /\
       buf_refs w' buf = buf_refs w buf - 1 /\ coherent w' = coherent w + 1) /\
  (imports in_size user = true -> wants_kernel_mapping in_size user = false ->
     ca_get ans (s32 (mc_handle (copied_args in_size user))) = inr buf ->
     ca_attach ans = 0 -> ca_map ans = 0 -> ca_copy_out ans = false ->
     exists w', rknpu_mem_create_ioctl ans file in_size user w = (-EFAULT, None, w') /\
       buf_vmapped w' buf = buf_vmapped w buf - 1 /\ buf_refs w' buf = buf_refs w buf).
Proof.
  intros Hin Hsz Hp. unfold rknpu_mem_create_ioctl.
  rewrite Hin, (proj2 (Z.ltb_ge _ _) Hsz), Hp. cbn [negb orb]. unfold create_buffer. split.
  - unfold imports. intros -> -> Hfd Ha. cbn -[Z.eqb Z.ltb].
    rewrite (proj2 (Z.ltb_ge _ _) Hfd), (proj2 (Z.eqb_neq _ _) Ha). cbn [negb].
    eexists. split; [reflexivity|]. cbn. rewrite !fn_alter_eqb, Z.eqb_refl. lia.
  - unfold imports, wants_kernel_mapping. intros -> Hk Hg Ha Hm Hco. rewrite Hg, Ha, Hm, Hk, Hco. cbn.
    eexists. split; [reflexivity|]. cbn. rewrite !fn_alter_eqb, Z.eqb_refl. lia.
Qed.

Definition attach_fails : create_answer :=
  {| ca_copy_in := true; ca_kzalloc := Some 64; ca_get := fun fd => inr (fd + 1000);
     ca_dkms := {| da_kzalloc := true; da_dma := true; da_export := inr 7 |}; ca_fd := 5;
     ca_attach := -12; ca_map := 0; ca_vmap := 0; ca_dma_addr := 0; ca_copy_out := true |}.

Lemma failed_create_overreleases_witness :
  exists w', rknpu_mem_create_ioctl attach_fails 1 48 (example_create 0 0) example_opened =
      (-12, None, w') /\ buf_refs w' 7 = -1 /\ coherent w' = 1.
Proof.
  destruct (failed_create_overreleases attach_fails 1 48 64 7 (example_create 0 0) example_opened)
    as [H _]; [reflexivity | discriminate | reflexivity |].
  apply H; (reflexivity || discriminate).
Defined.

(** ** Synchronisation covers exactly the range *)

Definition total_length (sgs : list Z) : Z := foldr Z.add 0 sgs.

(** The calls cover [from] to [to] without gap or overlap, in order. *)
Fixpoint covers (from : Z) (calls : list dma_sync) (to : Z) : Prop :=
  match calls with
  | [] => from = to
  | c :: calls => ds_addr c + ds_offset c = from /\ 0 <= ds_size c /\
      covers (from + ds_size c) calls to
  end.

(** The call stays inside one entry of a table mapped from [addr] on. *)
Definition in_entry (addr : Z) (sgs : list Z) (c : dma_sync) : Prop :=
  exists before l after, sgs = before ++ l :: after /\ ds_addr c = addr + total_length before /\
    0 <= ds_offset c /\ ds_offset c + ds_size c <= l.

Lemma total_cons (l : Z) (sgs : list Z) : total_length (l :: sgs) = l + total_length sgs.
Proof. done. Qed.

Lemma total_length_nonneg (sgs : list Z) : Forall (fun l => 0 < l) sgs -> 0 <= total_length sgs.
Proof. induction 1; [done|]. rewrite total_cons. lia. Qed.

Lemma in_entry_cons (addr l : Z) (sgs : list Z) (c : dma_sync) :
  in_entry (addr + l) sgs c -> in_entry addr (l :: sgs) c.
Proof.
  intros (b & m & t & -> & Ha & H). exists (l :: b), m, t. split; [done|]. rewrite total_cons. split; [lia|done].
Qed.

Lemma sync_loop_covers (fc : bool) (addr : Z) (sgs : list Z) : forall len offset length,
  Forall (fun l => 0 < l) sgs -> 0 <= addr -> 0 <= len <= offset -> offset < 2 ^ 32 ->
  0 <= length < 2 ^ 32 -> len + total_length sgs < 2 ^ 32 -> addr + len + total_length sgs < 2 ^ 64 ->
  let calls := sync_loop fc (addr + len) len offset length sgs in
  let total := len + total_length sgs in
  covers (addr + Z.min offset total) calls (addr + Z.min (offset + length) total) /\
  Forall (fun c => ds_for_cpu c = fc /\ in_entry (addr + len) sgs c) calls.
Proof.
  induction sgs as [|l sgs IH]; intros len offset length Hp Ha Hlen Ho Hl Ht Hw calls total.
  - subst calls total. cbn. split; [lia | constructor].
  - inversion Hp as [|? ? Hl0 Hp']; subst. pose proof (total_length_nonneg sgs Hp') as Hnn.
    rewrite total_cons in Ht, Hw.
    assert (Hrest : forall o n, len + l <= o -> o < 2 ^ 32 -> 0 <= n < 2 ^ 32 ->
      covers (addr + Z.min o total) (sync_loop fc (addr + len + l) (len + l) o n sgs)
        (addr + Z.min (o + n) total) /\
      Forall (fun c => ds_for_cpu c = fc /\ in_entry (addr + len) (l :: sgs) c)
        (sync_loop fc (addr + len + l) (len + l) o n sgs)).
    { intros o n H1 H2 H3. destruct (IH (len + l) o n) as [C I]; try done; try lia.
      replace (addr + (len + l)) with (addr + len + l) in * by lia.
      replace (len + l + total_length sgs) with total in C by (subst total; rewrite total_cons; lia).
      split; [done|]. eapply Forall_impl; [done|]. intros c [? ?]. split; [done|]. by apply in_entry_cons. }
    subst calls. cbn [sync_loop]. rewrite (u32_small (len + l)) by lia.
    rewrite (u64_small (addr + len + l)) by lia.
    destruct (Z.leb_spec (len + l) offset) as [Hle|Hgt]; [apply Hrest; lia|].
    rewrite (u32_small (len + l - offset)) by lia.
    rewrite (u32_small (l - (len + l - offset))) by lia.
    set (size := if length <? len + l - offset then length else len + l - offset).
    assert (Hsize : size = Z.min length (len + l - offset)).
    { subst size. destruct (Z.ltb_spec length (len + l - offset)); lia. }
    rewrite (u32_small (offset + size)), (u32_small (length - size)) by lia.
    assert (Htot : total = len + l + total_length sgs) by (subst total; rewrite total_cons; lia).
    assert (Hin : in_entry (addr + len) (l :: sgs)
      {| ds_for_cpu := fc; ds_addr := addr + len; ds_offset := l - (len + l - offset); ds_size := size |}).
    { exists [], l, sgs. cbn. split; [done|]. lia. }
    destruct (Z.eqb_spec (length - size) 0) as [H0|H0].
    + split; [|by repeat constructor]. cbn [covers ds_addr ds_offset ds_size]. lia.
    + destruct (Hrest (offset + size) (length - size)) as [C I]; [lia..|].
      split; [|constructor; [done | exact I]]. cbn [covers ds_addr ds_offset ds_size].
      split; [lia|]. split; [lia|].
      replace (addr + Z.min offset total + size) with (addr + Z.min (offset + size) total) by lia.
      replace (offset + length) with (offset + size + (length - size)) by lia. exact C.
Qed.

(** On a buffer whose entries are mapped from [addr] on, one after the other,
    and are shorter than 4 GiB together, the calls rknpu_dma_buf_sync makes cover, in order,
    without gap or overlap, exactly the part of [offset, offset + length) that
    lies in the buffer, each inside one entry and in the direction asked. *)
Theorem mem_sync_covers_range (fc : bool) (addr offset length : Z) (sgs : list Z) :
  Forall (fun l => 0 < l) sgs -> 0 <= addr -> addr + total_length sgs < 2 ^ 64 ->
  total_length sgs < 2 ^ 32 -> 0 <= offset < 2 ^ 32 -> 0 <= length < 2 ^ 32 ->
  let calls := rknpu_dma_buf_sync fc addr offset length sgs in
  let total := total_length sgs in
  covers (addr + Z.min offset total) calls (addr + Z.min (offset + length) total) /\
  Forall (fun c => ds_for_cpu c = fc /\ in_entry addr sgs c) calls.
Proof.
  intros Hp Ha Hw Ht Ho Hl. unfold rknpu_dma_buf_sync. rewrite !u32_small by lia.
  pose proof (sync_loop_covers fc addr sgs 0 offset length Hp Ha) as H. rewrite !Z.add_0_r, Z.add_0_l in H.
  apply H; lia.
Qed.

Lemma mem_sync_covers_range_witness :
  covers (0x1000 + 5000) (rknpu_dma_buf_sync true 0x1000 5000 6000 [4096; 4096; 8192]) (0x1000 + 11000).
Proof.
  apply (mem_sync_covers_range true 0x1000 5000 6000 [4096; 4096; 8192]);
    [repeat constructor | | | | split | split]; (discriminate || reflexivity).
Defined.
