(* ===== verification/DkmsBuf.v ===== *)
(** * The DKMS exporter of dma-bufs (rknpu_mem.c)

    The buffers that rknpu_dkms_alloc exports and the operations of their
    dma_buf_ops.  Mem.v counts what a session holds of such buffers; here each
    buffer has its memory, and the counts of Mem.v are what this model has. *)

From S2P Require Import Prelude Ledger Mapping Config Mem.

(** ** Data *)

(** struct rknpu_dkms_buf, but for the device. *)
Record rknpu_dkms_buf := { db_size : Z; db_vaddr : Z; db_dma_addr : Z }.

(** A table made by rknpu_dkms_buf_map: the address of its struct, and its one
    entry; the lengths are unsigned int. *)
Record dkms_table := {
  dt_struct : Z; dt_page : Z; dt_length : Z; dt_dma_address : Z; dt_dma_length : Z; dt_nents : Z }.

(** What the exporter holds of the kernel: the structs kzalloc gave out, by
    address, the coherent allocations, and the entries of a table. *)
Inductive dkms_resource :=
  | HeldBuf (p : Z)
  | HeldCoherent (size vaddr dma_addr : Z)
  | HeldSgt (p : Z)
  | HeldEntries (p : Z).
#[export] Instance dkms_resource_eq : EqDecision dkms_resource.
Proof. solve_decision. Defined.

(** [dk_priv] maps a dma-buf to its priv, [dk_bufs] an address to the struct. *)
Record dkms_state := {
  dk_bufs : gmap Z rknpu_dkms_buf;
  dk_priv : gmap Z Z;
  dk_held : ledger dkms_resource }.
#[export] Instance dkms_state_settable : Settable dkms_state := {| settable := fun s =>
  Build_dkms_state (dk_bufs s) (dk_priv s) (dk_held s) |}.

(** The answers to rknpu_dkms_alloc: the struct's address (NULL: [None]), the
    addresses of the memory (NULL: [None]), and the dma-buf or an error. *)
Record exporter_answer := {
  xa_kzalloc : option Z; xa_coherent : Z -> option (Z * Z); xa_export : Z + Z }.

Definition dkms_hold (r : dkms_resource) (s : dkms_state) : dkms_state := s <| dk_held ::= acquire r |>.
Definition dkms_drop (r : dkms_resource) (s : dkms_state) : dkms_state := s <| dk_held ::= release r |>.

(** ** Operations *)

Definition rknpu_dkms_alloc (ans : exporter_answer) (size : Z) (s : dkms_state) : (Z + Z) * dkms_state :=
  match xa_kzalloc ans with
  | None => (inl (-ENOMEM), s)
  | Some p =>
      let s := dkms_hold (HeldBuf p) s in
      let size := PAGE_ALIGN size in
      match xa_coherent ans size with
      | None => (inl (-ENOMEM), dkms_drop (HeldBuf p) s)
      | Some (vaddr, dma_addr) =>
          let s := dkms_hold (HeldCoherent size vaddr dma_addr) s in
          match xa_export ans with
          | inl e => (inl e, dkms_drop (HeldBuf p) (dkms_drop (HeldCoherent size vaddr dma_addr) s))
          | inr d =>
              (inr d, s <| dk_bufs ::= <[p := {| db_size := size; db_vaddr := vaddr; db_dma_addr := dma_addr |}]> |>
                        <| dk_priv ::= <[d := p]> |>)
          end
      end
  end.

(** The callbacks follow dmabuf->priv; [None] is an access to a freed struct. *)
Definition dkms_buf_of (d : Z) (s : dkms_state) : option (Z * rknpu_dkms_buf) :=
  match dk_priv s !! d with
  | None => None
  | Some p => option_map (fun b => (p, b)) (dk_bufs s !! p)
  end.

Definition rknpu_dkms_buf_release (d : Z) (s : dkms_state) : option dkms_state :=
  match dkms_buf_of d s with
  | None => None
  | Some (p, b) =>
      let s := dkms_drop (HeldCoherent (db_size b) (db_vaddr b) (db_dma_addr b)) s in
      Some ((dkms_drop (HeldBuf p) s) <| dk_bufs ::= delete p |> <| dk_priv ::= delete d |>)
  end.

(** [kzalloc] is the address of the struct sg_table, [sg_alloc] the answer of
    sg_alloc_table. *)
Definition rknpu_dkms_buf_map (virt_to_page : Z -> Z) (kzalloc : option Z) (sg_alloc : Z) (d : Z)
    (s : dkms_state) : option ((Z + dkms_table) * dkms_state) :=
  match dkms_buf_of d s with
  | None => None
  | Some (_, b) =>
      match kzalloc with
      | None => Some (inl (-ENOMEM), s)
      | Some q =>
          let s := dkms_hold (HeldSgt q) s in
          if negb (sg_alloc =? 0) then Some (inl sg_alloc, dkms_drop (HeldSgt q) s)
          else
            Some (inr {| dt_struct := q; dt_page := virt_to_page (db_vaddr b); dt_length := u32 (db_size b);
                         dt_dma_address := db_dma_addr b; dt_dma_length := u32 (db_size b); dt_nents := 1 |},
                  dkms_hold (HeldEntries q) s)
      end
  end.

Definition rknpu_dkms_buf_unmap (t : dkms_table) (s : dkms_state) : dkms_state :=
  dkms_drop (HeldSgt (dt_struct t)) (dkms_drop (HeldEntries (dt_struct t)) s).

(** The result and the address in the iosys_map. *)
Definition rknpu_dkms_buf_vmap (d : Z) (s : dkms_state) : option (Z * Z) :=
  option_map (fun b => (0, db_vaddr b.2)) (dkms_buf_of d s).
Definition rknpu_dkms_buf_vunmap (vaddr : Z) : Z := 0.

(** [dma_mmap vaddr dma_addr size] is dma_mmap_coherent on the area. *)
Definition rknpu_dkms_buf_mmap (dma_mmap : Z -> Z -> Z -> Z) (d : Z) (s : dkms_state) : option Z :=
  option_map (fun b => dma_mmap (db_vaddr b.2) (db_dma_addr b.2) (db_size b.2)) (dkms_buf_of d s).

(** ** The exporter as a transition system *)

(** The exporter and the tables its importers have. *)
Record dkms_sys := { ds_state : dkms_state; ds_tables : list dkms_table }.

(** kzalloc and dma_buf_export hand out what is not in use.  The last reference
    of a dma-buf is dropped after its attachments, but its tables need not be
    those of its own. *)
Inductive dkms_step : dkms_sys -> dkms_sys -> Prop :=
  | DkAlloc ans size s s' r ts :
      (forall p, xa_kzalloc ans = Some p -> dk_bufs s !! p = None) ->
      (forall d, xa_export ans = inr d -> dk_priv s !! d = None) ->
      rknpu_dkms_alloc ans size s = (r, s') ->
      dkms_step {| ds_state := s; ds_tables := ts |} {| ds_state := s'; ds_tables := ts |}
  | DkMapFail virt q ret d s s' e ts :
      rknpu_dkms_buf_map virt q ret d s = Some (inl e, s') ->
      dkms_step {| ds_state := s; ds_tables := ts |} {| ds_state := s'; ds_tables := ts |}
  | DkMap virt q ret d s s' t ts :
      rknpu_dkms_buf_map virt q ret d s = Some (inr t, s') ->
      dkms_step {| ds_state := s; ds_tables := ts |} {| ds_state := s'; ds_tables := t :: ts |}
  | DkUnmap t s ts1 ts2 :
      dkms_step {| ds_state := s; ds_tables := ts1 ++ t :: ts2 |}
                {| ds_state := rknpu_dkms_buf_unmap t s; ds_tables := ts1 ++ ts2 |}
  | DkRelease d s s' ts :
      rknpu_dkms_buf_release d s = Some s' ->
      dkms_step {| ds_state := s; ds_tables := ts |} {| ds_state := s'; ds_tables := ts |}.

Definition dkms_start (s : dkms_sys) : Prop :=
  dk_bufs (ds_state s) = ∅ /\ dk_priv (ds_state s) = ∅ /\ dk_held (ds_state s) ≡ (fun _ => 0) /\ ds_tables s = [].
Definition dkms_reach (s : dkms_sys) : Prop := exists s0, dkms_start s0 /\ rtc dkms_step s0 s.

(** What the live buffers and the tables hold. *)
Definition buf_holding (pb : Z * rknpu_dkms_buf) : list dkms_resource :=
  [HeldBuf pb.1; HeldCoherent (db_size pb.2) (db_vaddr pb.2) (db_dma_addr pb.2)].
Definition table_holding (t : dkms_table) : list dkms_resource :=
  [HeldSgt (dt_struct t); HeldEntries (dt_struct t)].
Definition holding (s : dkms_sys) : list dkms_resource :=
  (map_to_list (dk_bufs (ds_state s)) ≫= buf_holding) ++ (ds_tables s ≫= table_holding).

(** Each dma-buf has a live struct of its own, each struct a dma-buf, and the
    ledger is what they and the tables hold. *)
Record dkms_inv (s : dkms_sys) : Prop := {
  di_live : forall d p, dk_priv (ds_state s) !! d = Some p -> is_Some (dk_bufs (ds_state s) !! p);
  di_one : forall d1 d2 p, dk_priv (ds_state s) !! d1 = Some p -> dk_priv (ds_state s) !! d2 = Some p -> d1 = d2;
  di_owned : forall p, is_Some (dk_bufs (ds_state s) !! p) -> exists d, dk_priv (ds_state s) !! d = Some p;
  di_held : dk_held (ds_state s) ≡ acquire_all (holding s) (fun _ => 0);
}.

Lemma acquire_all_perm {R} `{EqDecision R} (rs rs' : list R) (l : ledger R) :
  rs ≡ₚ rs' -> acquire_all rs l ≡ acquire_all rs' l.
Proof. intros H x. by rewrite !acquire_all_count, H. Qed.

(** A new buffer and a deleted one, in the list of what is held. *)
Lemma holding_insert (p : Z) (b : rknpu_dkms_buf) (bufs : gmap Z rknpu_dkms_buf) (rs : list dkms_resource) :
  bufs !! p = None ->
  (map_to_list (<[p := b]> bufs) ≫= buf_holding) ++ rs ≡ₚ
    buf_holding (p, b) ++ (map_to_list bufs ≫= buf_holding) ++ rs.
Proof. intros Hp. by rewrite map_to_list_insert, bind_cons, <- app_assoc by done. Qed.
Lemma holding_delete (p : Z) (b : rknpu_dkms_buf) (bufs : gmap Z rknpu_dkms_buf) (rs : list dkms_resource) :
  bufs !! p = Some b ->
  (map_to_list bufs ≫= buf_holding) ++ rs ≡ₚ
    buf_holding (p, b) ++ (map_to_list (delete p bufs) ≫= buf_holding) ++ rs.
Proof. intros Hp. by rewrite <- (map_to_list_delete bufs p b Hp), bind_cons, <- app_assoc. Qed.

(** A ledger that differs from the books by some resources. *)
Lemma books_add (l : ledger dkms_resource) (rs new old : list dkms_resource) :
  l ≡ acquire_all old (fun _ => 0) -> new ≡ₚ rs ++ old -> acquire_all rs l ≡ acquire_all new (fun _ => 0).
Proof. intros Hl Hn x. by rewrite (acquire_all_perm _ _ _ Hn x), acquire_all_app, !(acquire_all_count rs), Hl. Qed.
Lemma books_remove (l : ledger dkms_resource) (rs new old : list dkms_resource) :
  l ≡ acquire_all old (fun _ => 0) -> old ≡ₚ rs ++ new -> release_all rs l ≡ acquire_all new (fun _ => 0).
Proof.
  intros Hl Ho x. rewrite release_all_count, Hl, (acquire_all_perm _ _ _ Ho x), acquire_all_app, acquire_all_count. lia.
Qed.

(** An operation that leaves the buffers and dma-bufs alone. *)
Lemma inv_books (s s' : dkms_state) (ts ts' : list dkms_table) :
  dkms_inv {| ds_state := s; ds_tables := ts |} -> dk_bufs s' = dk_bufs s -> dk_priv s' = dk_priv s ->
  dk_held s' ≡ acquire_all (holding {| ds_state := s'; ds_tables := ts' |}) (fun _ => 0) ->
  dkms_inv {| ds_state := s'; ds_tables := ts' |}.
Proof. intros [H1 H2 H3 _] E1 E2 H. split; cbn in *; rewrite ?E1, ?E2; done. Qed.

Lemma alloc_inv (ans : exporter_answer) (size : Z) (s s' : dkms_state) (r : Z + Z) (ts : list dkms_table) :
  (forall p, xa_kzalloc ans = Some p -> dk_bufs s !! p = None) ->
  (forall d, xa_export ans = inr d -> dk_priv s !! d = None) ->
  rknpu_dkms_alloc ans size s = (r, s') ->
  dkms_inv {| ds_state := s; ds_tables := ts |} -> dkms_inv {| ds_state := s'; ds_tables := ts |}.
Proof.
  intros Hp Hd H Hi. unfold rknpu_dkms_alloc in H. destruct (xa_kzalloc ans) as [p|]; [|by injection H as _ <-].
  destruct (xa_coherent ans _) as [[vaddr dma]|].
  2:{ injection H as _ <-. apply (inv_books s _ ts ts Hi); [done|done|]. etrans; [|exact (di_held _ Hi)]. cbn. ledger. }
  destruct (xa_export ans) as [e|d].
  { injection H as _ <-. apply (inv_books s _ ts ts Hi); [done|done|]. etrans; [|exact (di_held _ Hi)]. cbn. ledger. }
  injection H as _ <-. specialize (Hp p eq_refl). specialize (Hd d eq_refl). destruct Hi as [H1 H2 H3 H4].
  set (b := {| db_size := _; db_vaddr := _; db_dma_addr := _ |}). cbn in *. split; cbn.
  - intros d1 p1. destruct (decide (d1 = d)) as [->|Hne].
    + rewrite lookup_insert_eq. intros [= <-]. rewrite lookup_insert_eq. by eexists.
    + rewrite lookup_insert_ne by done. intros Hl. apply H1 in Hl as [b1 Hb].
      rewrite lookup_insert_ne by congruence. by eexists.
  - intros d1 d2 p1. rewrite !lookup_insert. repeat case_decide; subst; try done; try (intros; simplify_eq).
    + exfalso. match goal with E : dk_priv s !! _ = Some _ |- _ => apply H1 in E as [? ?]; congruence end.
    + exfalso. match goal with E : dk_priv s !! _ = Some _ |- _ => apply H1 in E as [? ?]; congruence end.
    + by eapply H2.
  - intros p1. rewrite lookup_insert. case_decide as Hc; [intros _; exists d; rewrite Hc; apply lookup_insert_eq|].
    intros Hl. destruct (H3 p1 Hl) as [d1 Hd1]. exists d1. rewrite lookup_insert_ne by congruence. done.
  - assert (Hb := books_add (dk_held s) [HeldCoherent (PAGE_ALIGN size) vaddr dma; HeldBuf p]
      (holding {| ds_state := s <| dk_bufs ::= <[p := b]> |>; ds_tables := ts |}) _ H4). cbn in Hb. apply Hb.
    unfold holding at 1. cbn [ds_state ds_tables dk_bufs set_field].
    rewrite (holding_insert p b _ _ Hp). cbn [buf_holding app fst snd]. by rewrite Permutation_swap.
Qed.

Lemma release_inv (d : Z) (s s' : dkms_state) (ts : list dkms_table) :
  rknpu_dkms_buf_release d s = Some s' ->
  dkms_inv {| ds_state := s; ds_tables := ts |} -> dkms_inv {| ds_state := s'; ds_tables := ts |}.
Proof.
  unfold rknpu_dkms_buf_release, dkms_buf_of. intros H [H1 H2 H3 H4]. cbn in *.
  destruct (dk_priv s !! d) as [p|] eqn:Ed; [|done]. destruct (dk_bufs s !! p) as [b|] eqn:Ep; [|done].
  injection H as <-. split; cbn.
  - intros d1 p1 Hl. apply lookup_delete_Some in Hl as [Hne Hl]. rewrite lookup_delete_ne; [by eapply H1|].
    intros ->. apply Hne. by apply (H2 d d1 p1).
  - intros d1 d2 p1 Hl1 Hl2. apply lookup_delete_Some in Hl1 as [_ Hl1], Hl2 as [_ Hl2]. by eapply H2.
  - intros p1 [b1 Hl]. apply lookup_delete_Some in Hl as [Hne Hl]. destruct (H3 p1 ltac:(by eexists)) as [d1 Hd1].
    exists d1. rewrite lookup_delete_ne; [done|]. intros ->. congruence.
  - assert (Hb := books_remove (dk_held s) (buf_holding (p, b))
      (holding {| ds_state := s <| dk_bufs ::= delete p |>; ds_tables := ts |}) _ H4). cbn in Hb.
    rewrite <- Hb; [cbn; ledger|]. unfold holding. cbn [ds_state ds_tables dk_bufs set_field].
    apply (holding_delete p b _ _ Ep).
Qed.

Lemma dkms_step_inv (s s' : dkms_sys) : dkms_step s s' -> dkms_inv s -> dkms_inv s'.
Proof.
  intros Hs Hi. destruct Hs as [ans size s s' r ts Hp Hd H|virt q ret d s s' e ts H|virt q ret d s s' t ts H|t s ts1 ts2|d s s' ts H].
  - by eapply alloc_inv.
  - unfold rknpu_dkms_buf_map in H. destruct (dkms_buf_of d s) as [[p b]|]; [|done].
    destruct q as [q|]; [|by injection H as _ <-]. destruct (negb _); [|done]. injection H as _ <-.
    apply (inv_books s _ ts ts Hi); [done|done|]. etrans; [|exact (di_held _ Hi)]. cbn. ledger.
  - unfold rknpu_dkms_buf_map in H. destruct (dkms_buf_of d s) as [[p b]|]; [|done].
    destruct q as [q|]; [|done]. destruct (negb _); [done|]. injection H as <- <-.
    apply (inv_books s _ ts _ Hi); [done|done|].
    set (t := {| dt_struct := q; dt_page := _; dt_length := _; dt_dma_address := _; dt_dma_length := _;
      dt_nents := _ |}).
    assert (Hb := books_add (dk_held s) [HeldEntries q; HeldSgt q] (holding {| ds_state := s; ds_tables := t :: ts |})
      _ (di_held _ Hi)). cbn in Hb. apply Hb. unfold holding. cbn [ds_state ds_tables]. rewrite bind_cons.
    cbn [table_holding dt_struct t]. solve_Permutation.
  - apply (inv_books s _ _ (ts1 ++ ts2) Hi); [done|done|].
    assert (Hb := books_remove (dk_held s) (table_holding t) (holding {| ds_state := s; ds_tables := ts1 ++ ts2 |}) _
      (di_held _ Hi)). cbn in Hb. rewrite <- Hb; [cbn; ledger|].
    unfold holding. cbn [ds_state ds_tables]. rewrite !bind_app, bind_cons. solve_Permutation.
  - by eapply release_inv.
Qed.

Lemma dkms_reach_inv (s : dkms_sys) : dkms_reach s -> dkms_inv s.
Proof.
  intros (s0 & (B1 & B2 & B3 & B4) & Hr).
  assert (H0 : dkms_inv s0).
  { split.
    - intros d p. by rewrite B2, lookup_empty.
    - intros d1 d2 p. by rewrite B2, lookup_empty.
    - intros p. rewrite B1, lookup_empty. by intros [? ?].
    - rewrite B3. unfold holding. by rewrite B1, B4, map_to_list_empty. }
  clear B1 B2 B3 B4. induction Hr as [s|s1 s2 s3 Hs _ IH]; [done|]. apply IH. by eapply dkms_step_inv.
Qed.

(** C20: The exporter neither leaks nor frees too early, in any order of allocations,
    mappings, unmappings and releases.  A dma-buf that has not been released has
    its struct and its memory, so no callback on it goes through a freed pointer;
    and when the last dma-buf is released and the last table unmapped, nothing
    is held any more. *)
Theorem dkms_exporter_sound (s : dkms_sys) :
  dkms_reach s ->
  (forall d p, dk_priv (ds_state s) !! d = Some p -> exists b, dkms_buf_of d (ds_state s) = Some (p, b) /\
     1 <= dk_held (ds_state s) (HeldBuf p) /\
     1 <= dk_held (ds_state s) (HeldCoherent (db_size b) (db_vaddr b) (db_dma_addr b))) /\
  (dk_priv (ds_state s) = ∅ -> ds_tables s = [] -> dk_held (ds_state s) ≡ (fun _ => 0)).
Proof.
  intros Hr. apply dkms_reach_inv in Hr as [H1 H2 H3 H4]. split.
  - intros d p Hd. destruct (H1 d p Hd) as [b Hb]. exists b. unfold dkms_buf_of. rewrite Hd, Hb. split; [done|].
    assert (Hc : forall r, r ∈ buf_holding (p, b) -> 1 <= dk_held (ds_state s) r).
    { intros r Hin. rewrite H4. unfold holding. rewrite (acquire_all_perm _ _ _ (holding_delete p b _ _ Hb) r).
      rewrite acquire_all_app, acquire_all_count, acquire_all_count.
      assert (0 < length (filter (fun q => q = r) (buf_holding (p, b))))%nat; [|lia].
      destruct (filter (fun q => q = r) (buf_holding (p, b))) eqn:E; [|cbn; lia].
      exfalso. assert (r ∈ filter (fun q => q = r) (buf_holding (p, b))) as Hf by by apply list_elem_of_filter.
      rewrite E in Hf. by apply not_elem_of_nil in Hf. }
    split; apply Hc; cbn; set_solver.
  - intros Hp Ht. rewrite H4. unfold holding. rewrite Ht.
    assert (dk_bufs (ds_state s) = ∅) as ->; [|by rewrite map_to_list_empty].
    apply map_empty. intros p. destruct (dk_bufs (ds_state s) !! p) as [b|] eqn:E; [|done].
    destruct (H3 p ltac:(by eexists)) as [d Hd]. by rewrite Hp in Hd.
Qed.

(** ** The counts of Mem.v *)

Definition counts_of (s : dkms_state) (w : mem_world) : Prop :=
  dkms_bufs w = Z.of_nat (size (dk_bufs s)) /\ coherent w = Z.of_nat (size (dk_bufs s)).
Definition answer_of (ans : exporter_answer) (size : Z) : dkms_answer :=
  {| da_kzalloc := bool_decide (is_Some (xa_kzalloc ans));
     da_dma := bool_decide (is_Some (xa_coherent ans (PAGE_ALIGN size))); da_export := xa_export ans |}.

(** The allocation and the release that sessions count in Mem.v are refined by
    the exporter's: same results, and the counts remain the number of buffers
    that exist. *)
Theorem dkms_exporter_refines_counts (ans : exporter_answer) (n : Z) (s : dkms_state) (w : mem_world) :
  counts_of s w ->
  (forall p, xa_kzalloc ans = Some p -> dk_bufs s !! p = None) ->
  ((rknpu_dkms_alloc ans n s).1 = (Mem.rknpu_dkms_alloc (answer_of ans n) n w).1 /\
   counts_of (rknpu_dkms_alloc ans n s).2 (Mem.rknpu_dkms_alloc (answer_of ans n) n w).2) /\
  (forall d s', rknpu_dkms_buf_release d s = Some s' -> counts_of s' (Mem.rknpu_dkms_buf_release w)).
Proof.
  intros [C1 C2] Hp. split.
  - unfold rknpu_dkms_alloc, Mem.rknpu_dkms_alloc, answer_of, counts_of. cbn [da_kzalloc da_dma da_export].
    destruct (xa_kzalloc ans) as [p|]; [|done]. specialize (Hp p eq_refl).
    rewrite bool_decide_eq_true_2 by by eexists. cbn [negb].
    destruct (xa_coherent ans (PAGE_ALIGN n)) as [[vaddr dma]|].
    2:{ rewrite bool_decide_eq_false_2 by by intros [? ?]. cbn. split; [done|]. lia. }
    rewrite bool_decide_eq_true_2 by by eexists. cbn [negb].
    destruct (xa_export ans) as [e|d]; cbn; (split; [done|]); [lia|].
    rewrite map_size_insert_None by done. lia.
  - intros d s' H. unfold rknpu_dkms_buf_release, dkms_buf_of in H.
    destruct (dk_priv s !! d) as [p|]; [|done]. destruct (dk_bufs s !! p) as [b|] eqn:Eb; [|done].
    injection H as <-. unfold counts_of. cbn. rewrite map_size_delete_Some by done.
    assert (size (dk_bufs s) <> 0%nat) by (intros E%map_size_empty_iff; by rewrite E in Eb). lia.
Qed.

(** A table shows its buffer to the device when the size fits an unsigned int;
    of a larger buffer it shows the size modulo 4 GiB. *)
Theorem dkms_table_shows_buffer (virt : Z -> Z) (q d p : Z) (b : rknpu_dkms_buf) (s : dkms_state) :
  dkms_buf_of d s = Some (p, b) -> 0 <= db_size b ->
  exists t s', rknpu_dkms_buf_map virt (Some q) 0 d s = Some (inr t, s') /\ dt_dma_address t = db_dma_addr b /\
    (db_size b < 2 ^ 32 -> dt_dma_length t = db_size b /\ dt_length t = db_size b) /\
    (2 ^ 32 <= db_size b -> dt_dma_length t < db_size b) /\
    rknpu_dkms_buf_unmap t s' = s' <| dk_held := dk_held (rknpu_dkms_buf_unmap t s') |> /\
    dk_held (rknpu_dkms_buf_unmap t s') ≡ dk_held s.
Proof.
  intros Hd Hs. unfold rknpu_dkms_buf_map. rewrite Hd. eexists _, _. split; [done|]. split; [done|].
  split; [intros H; cbn; by rewrite u32_small|]. split; [cbn; pose proof (u32_range (db_size b)); lia|].
  split; [done|]. cbn. ledger.
Qed.

(** *** A buffer is allocated, mapped, unmapped and released *)

Definition example_exporter : exporter_answer :=
  {| xa_kzalloc := Some 0x10; xa_coherent := fun size => if size <? 2 ^ 20 then Some (0xffff0000, 0x7000) else None;
     xa_export := inr 3 |}.
Definition example_exported : dkms_state :=
  (rknpu_dkms_alloc example_exporter 5000 {| dk_bufs := ∅; dk_priv := ∅; dk_held := fun _ => 0 |}).2.

Lemma dkms_exporter_sound_witness :
  exists t s1, rknpu_dkms_buf_map (fun v => v) (Some 0x20) 0 3 example_exported = Some (inr t, s1) /\
    1 <= dk_held s1 (HeldCoherent 8192 0xffff0000 0x7000) /\
    exists s2, rknpu_dkms_buf_release 3 (rknpu_dkms_buf_unmap t s1) = Some s2 /\ dk_held s2 ≡ (fun _ => 0).
Proof.
  set (t := {| dt_struct := 0x20; dt_page := 0xffff0000; dt_length := 8192; dt_dma_address := 0x7000;
    dt_dma_length := 8192; dt_nents := 1 |}).
  set (s0 := {| ds_state := {| dk_bufs := ∅; dk_priv := ∅; dk_held := fun _ => 0 |}; ds_tables := [] |}).
  set (s1 := dkms_hold (HeldEntries 0x20) (dkms_hold (HeldSgt 0x20) example_exported)).
  assert (Hmap : rknpu_dkms_buf_map (fun v => v) (Some 0x20) 0 3 example_exported = Some (inr t, s1)) by done.
  assert (H1 : rtc dkms_step s0 {| ds_state := s1; ds_tables := [t] |}).
  { eapply rtc_l; [|eapply rtc_once].
    - apply (DkAlloc example_exporter 5000 (ds_state s0) example_exported (inr 3) []); done.
    - by eapply DkMap. }
  set (s2 := (dkms_drop (HeldBuf 0x10) (dkms_drop (HeldCoherent 8192 0xffff0000 0x7000) (rknpu_dkms_buf_unmap t s1)))
    <| dk_bufs ::= delete 0x10 |> <| dk_priv ::= delete 3 |>).
  assert (Hrel : rknpu_dkms_buf_release 3 (rknpu_dkms_buf_unmap t s1) = Some s2) by done.
  assert (H2 : rtc dkms_step s0 {| ds_state := s2; ds_tables := [] |}).
  { etrans; [exact H1|]. eapply rtc_l; [apply (DkUnmap t s1 [] [])|]. apply rtc_once. by eapply DkRelease. }
  exists t, s1. split; [exact Hmap|]. split.
  - destruct (dkms_exporter_sound {| ds_state := s1; ds_tables := [t] |}) as [H _]; [by exists s0|].
    destruct (H 3 0x10) as (b & Hb & _ & Hc); [done|]. vm_compute in Hb. injection Hb as <-. exact Hc.
  - exists s2. split; [exact Hrel|].
    destruct (dkms_exporter_sound {| ds_state := s2; ds_tables := [] |}) as [_ H]; [by exists s0|].
    apply H; [vm_compute; reflexivity | done].
Defined.
