(* ===== verification/Dma32.v ===== *)
(** * The DMA32 heap (dma32-heap/dma32_heap.c)

    A dma-buf heap that allocates below 4 GiB: the greedy page allocation and
    its error paths, the kernel mapping of a buffer, its user mapping and its
    attachments. *)

From Stdlib Require Import Sorting.Sorted.
From S2P Require Import Prelude.

(** ** Pages *)

Inductive gfp := LOW_ORDER_GFP | HIGH_ORDER_GFP.

Record page := { page_to_phys : Z; compound_order : Z }.
Definition page_size (p : page) : Z := Z.shiftl PAGE_SIZE (compound_order p).

(** The page allocator as the heap sees it: how many alloc_pages calls it has
    made, the pages it got and the pages it freed. *)
Record page_log := { calls : nat; got : list page; freed : list page }.
#[export] Instance page_log_settable : Settable page_log :=
  {| settable := fun s => Build_page_log (calls s) (got s) (freed s) |}.

Definition orders : list Z := [8; 4; 0].

(** ** Buffers *)

(** struct dma32_heap_attachment. *)
Record dma32_heap_attachment := { dev : Z; table : list page; mapped : bool }.
#[export] Instance dma32_heap_attachment_settable : Settable dma32_heap_attachment :=
  {| settable := fun a => Build_dma32_heap_attachment (dev a) (table a) (mapped a) |}.

(** [attachments] is keyed by the dma_buf_attachment. *)
Record dma32_heap_buffer := {
  attachments : gmap Z dma32_heap_attachment;
  len : Z;
  sg_table : list page;      (* one entry per page, of the page's size *)
  vmap_cnt : Z;
  vaddr : option Z }.
#[export] Instance dma32_heap_buffer_settable : Settable dma32_heap_buffer :=
  {| settable := fun b => Build_dma32_heap_buffer (attachments b) (len b) (sg_table b) (vmap_cnt b) (vaddr b) |}.

Section Dma32.
(** [alloc_pages n g o] is the address the n-th call returns (NULL: [None]);
    [fatal_signal_pending i] what the i-th turn of the loop sees. *)
Context (alloc_pages : nat -> gfp -> Z -> option Z) (fatal_signal_pending : Z -> bool).

Definition free_page (p : page) (s : page_log) : page_log := s <| freed ::= (fun l => l ++ [p]) |>.
Definition free_pages (ps : list page) (s : page_log) : page_log := s <| freed ::= (fun l => l ++ ps) |>.

Fixpoint try_orders (os : list Z) (size max_order : Z) (s : page_log) : option page * page_log :=
  match os with
  | [] => (None, s)
  | order :: os =>
      if size <? Z.shiftl PAGE_SIZE order then try_orders os size max_order s
      else if max_order <? order then try_orders os size max_order s
      else
        let g := if 0 <? order then HIGH_ORDER_GFP else LOW_ORDER_GFP in
        let ans := alloc_pages (calls s) g order in
        let s := s <| calls ::= S |> in
        match ans with
        | None => try_orders os size max_order s
        | Some phys =>
            let p := {| page_to_phys := phys; compound_order := order |} in
            let s := s <| got ::= (fun l => l ++ [p]) |> in
            if 0x100000000 <=? phys then try_orders os size max_order (free_page p s)
            else (Some p, s)
        end
  end.

Definition alloc_largest_available_dma32 (size max_order : Z) (s : page_log)
  : option page * page_log := try_orders orders size max_order s.

(** The loop of dma32_heap_allocate; the result is an error or the list of
    pages, with the pages collected so far in either case, and [None] when the
    fuel runs out. *)
Fixpoint alloc_loop (fuel : nat) (size_remaining max_order i : Z) (pages : list page) (s : page_log)
  : option (option Z * list page * page_log) :=
  if negb (0 <? size_remaining) then Some (None, pages, s)
  else
    match fuel with
    | O => None
    | S fuel =>
        if fatal_signal_pending i then Some (Some (-EINTR), pages, s)
        else
          match alloc_largest_available_dma32 size_remaining max_order s with
          | (None, s) => Some (Some (-ENOMEM), pages, s)
          | (Some p, s) =>
              alloc_loop fuel (u64 (size_remaining - page_size p)) (compound_order p) (i + 1)
                (pages ++ [p]) s
          end
    end.

(** Enough turns: every page is at least PAGE_SIZE long. *)
Definition alloc_fuel (l : Z) : nat := Z.to_nat (l / PAGE_SIZE + 1).

(** [kzalloc_ok] and [sg_ok] say whether those allocations succeed, [export] is
    0 or the error of dma_buf_export. *)
Definition dma32_heap_allocate (kzalloc_ok sg_ok : bool) (export l : Z) (s : page_log)
  : option ((Z + dma32_heap_buffer) * page_log) :=
  if negb kzalloc_ok then Some (inl (-ENOMEM), s)
  else
    match alloc_loop (alloc_fuel l) l 8 0 [] s with
    | None => None
    | Some (Some e, pages, s) => Some (inl e, free_pages pages s)
    | Some (None, pages, s) =>
        if negb sg_ok then Some (inl (-ENOMEM), free_pages pages s)
        else
          let b := {| attachments := ∅; len := l; sg_table := pages; vmap_cnt := 0; vaddr := None |} in
          if negb (export =? 0) then
            (* free_pages: through the table; then the list, which is empty *)
            Some (inl export, free_pages [] (free_pages (sg_table b) s))
          else Some (inr b, s)
    end.

Definition dma32_heap_dma_buf_release (b : dma32_heap_buffer) (s : page_log) : page_log :=
  free_pages (sg_table b) s.

(** ** Attachments *)

(** [a_ok] and [table_ok] are the two kzalloc results, [sg_ret] that of
    sg_alloc_table; [att] is the dma_buf_attachment. *)
Definition dma32_heap_attach (a_ok table_ok : bool) (sg_ret att d : Z) (b : dma32_heap_buffer)
  : Z * dma32_heap_buffer :=
  if negb a_ok then (-ENOMEM, b)
  else if negb table_ok then (-ENOMEM, b)
  else if negb (sg_ret =? 0) then (sg_ret, b)
  else
    let a := {| dev := d; table := sg_table b; mapped := false |} in
    (0, b <| attachments ::= <[att := a]> |>).

Definition dma32_heap_detach (att : Z) (b : dma32_heap_buffer) : dma32_heap_buffer :=
  b <| attachments ::= delete att |>.

(** [map_ret] is the result of dma_map_sgtable. *)
Definition dma32_heap_map_dma_buf (map_ret : Z) (a : dma32_heap_attachment)
  : (Z + list page) * dma32_heap_attachment :=
  if negb (map_ret =? 0) then (inl map_ret, a)
  else (inr (table a), a <| mapped := true |>).

Definition dma32_heap_unmap_dma_buf (a : dma32_heap_attachment) : dma32_heap_attachment :=
  a <| mapped := false |>.

(** ** Kernel mappings *)

(** The page pointers that the loops of dma32_heap_vmap store: each page of
    each entry, by its address. *)
Definition entry_pages (p : page) : list Z :=
  (fun j => page_to_phys p + j * PAGE_SIZE) <$> seqZ 0 (Z.shiftr (page_size p) PAGE_SHIFT).
Definition vmap_pages (b : dma32_heap_buffer) : list Z := mjoin (entry_pages <$> sg_table b).

Definition vmap_npages (b : dma32_heap_buffer) : Z :=
  u32 (Z.shiftr (round_down (u64 (len b + PAGE_SIZE - 1)) PAGE_SIZE) PAGE_SHIFT).

(** [array_ok] is the result of kvmalloc_array, [mapped] that of vmap.  The result holds the address
    in [map]. *)
Definition dma32_heap_vmap (array_ok : bool) (mapped : option Z) (b : dma32_heap_buffer)
  : Z * option Z * dma32_heap_buffer :=
  if negb (vmap_cnt b =? 0) then (0, vaddr b, b <| vmap_cnt ::= (fun c => s32 (c + 1)) |>)
  else if negb array_ok then (-ENOMEM, None, b)
  else
    match mapped with
    | None => (-ENOMEM, None, b)
    | Some v => (0, Some v, b <| vaddr := Some v |> <| vmap_cnt ::= (fun c => s32 (c + 1)) |>)
    end.

(** Whether vunmap was called is the first result. *)
Definition dma32_heap_vunmap (b : dma32_heap_buffer) : bool * dma32_heap_buffer :=
  if vmap_cnt b =? 0 then (false, b)
  else
    let b := b <| vmap_cnt ::= (fun c => s32 (c - 1)) |> in
    if vmap_cnt b =? 0 then (true, b <| vaddr := None |>) else (false, b).

(** ** User mappings *)

(** One remap_pfn_range. *)
Record remap := { r_addr : Z; r_phys : Z; r_len : Z }.

(** [rets] is what each remap_pfn_range returns. *)
Fixpoint mmap_loop (rets : Z -> Z) (i vm_end addr : Z) (sgs : list page) : Z * list remap :=
  match sgs with
  | [] => (0, [])
  | p :: sgs =>
      let remainder := u64 (vm_end - addr) in
      let n := if remainder <? page_size p then remainder else page_size p in
      let call := {| r_addr := addr; r_phys := page_to_phys p; r_len := n |} in
      if negb (rets i =? 0) then (rets i, [call])
      else
        let addr := u64 (addr + n) in
        if vm_end <=? addr then (0, [call])
        else let '(ret, calls) := mmap_loop rets (i + 1) vm_end addr sgs in (ret, call :: calls)
  end.

Definition dma32_heap_mmap (rets : Z -> Z) (vm_start vm_end : Z) (b : dma32_heap_buffer)
  : Z * list remap := mmap_loop rets 0 vm_end vm_start (sg_table b).
End Dma32.

(** ** The module

    [heaps] are the names of the registered heaps; [dma_heap_add] answers with an
    error or the heap. *)
Definition dma32_heap_init (dma_heap_add : Z + Z) (heaps : list string) : Z * list string :=
  match dma_heap_add with
  | inl e => (e, heaps)
  | inr _ => (0, heaps ++ ["dma32"])
  end.
Definition dma32_heap_exit (heaps : list string) : list string := heaps.

(** The heap outlives its module: what loading registers, unloading leaves, and
    with it the pointer to the allocate callback. *)
Lemma heap_outlives_module (answer : Z + Z) (heaps : list string) :
  let '(ret, heaps1) := dma32_heap_init answer heaps in
  match answer with
  | inl e => ret = e /\ dma32_heap_exit heaps1 = heaps
  | inr _ => ret = 0 /\ "dma32" ∈ dma32_heap_exit heaps1
  end.
Proof. destruct answer; cbn; (split; [done|]); [done | set_solver]. Qed.

(** ** Properties of the allocation *)

(** The pages obtained and not freed are [ps]: none is lost, none freed twice. *)
Definition outstanding (s : page_log) (ps : list page) : Prop := got s ≡ₚ freed s ++ ps.

Definition total_size (ps : list page) : Z := foldr (fun p n => page_size p + n) 0 ps.

(** A page the heap accepts. *)
Record page_ok (p : page) : Prop := {
  pk_order : compound_order p ∈ orders;
  pk_phys : page_to_phys p < 2 ^ 32;
}.

Lemma page_size_orders (p : page) : compound_order p ∈ orders ->
  4096 <= page_size p <= 2 ^ 20 /\ page_size p mod PAGE_SIZE = 0.
Proof.
  unfold page_size, orders. intros H.
  repeat (apply elem_of_cons in H as [->|H]; [vm_compute; (repeat split; congruence)|]).
  by apply elem_of_nil in H.
Qed.

Lemma total_size_app (ps qs : list page) : total_size (ps ++ qs) = total_size ps + total_size qs.
Proof. unfold total_size. induction ps as [|p ps IH]; [done|]. cbn. rewrite IH. lia. Qed.

Lemma free_pages_outstanding (ps qs : list page) (s : page_log) :
  outstanding s (qs ++ ps) -> outstanding (free_pages ps s) qs.
Proof.
  unfold outstanding. cbn. intros ->. rewrite <- app_assoc. f_equiv. apply Permutation_app_comm.
Qed.

Section Allocation.
Context (alloc_pages : nat -> gfp -> Z -> option Z) (fatal_signal_pending : Z -> bool).

Lemma try_orders_ok (os : list Z) (size max_order : Z) : forall s ps r s',
  (forall o, o ∈ os -> o ∈ orders) -> outstanding s ps ->
  try_orders alloc_pages os size max_order s = (r, s') ->
  match r with
  | None => outstanding s' ps
  | Some p => outstanding s' (ps ++ [p]) /\ page_ok p /\ page_size p <= size /\
      compound_order p <= max_order
  end.
Proof.
  induction os as [|o os IH]; intros s ps r s' Hos Hs H; cbn [try_orders] in H.
  { by injection H as <- <-. }
  assert (Hos' : forall x, x ∈ os -> x ∈ orders) by (intros x Hx; apply Hos; by apply list_elem_of_further).
  destruct (Z.ltb_spec size (Z.shiftl PAGE_SIZE o)) as [|Hsz]; [by eapply IH|].
  destruct (Z.ltb_spec max_order o) as [|Hmax]; [by eapply IH|].
  destruct (alloc_pages _ _ o) as [phys|]; [|by eapply (IH (s <| calls ::= S |>))].
  set (p := {| page_to_phys := phys; compound_order := o |}) in *.
  set (s1 := s <| calls ::= S |> <| got ::= (fun l => l ++ [p]) |>) in *.
  assert (Hs1 : outstanding s1 (ps ++ [p])).
  { unfold outstanding in *. subst s1. cbn. rewrite Hs. by rewrite <- app_assoc. }
  destruct (Z.leb_spec 0x100000000 phys) as [Hhi|Hlo].
  - eapply (IH (free_page p s1)); [done | | done]. by apply (free_pages_outstanding [p]).
  - injection H as <- <-. split; [done|]. split; [|done]. split; [|done].
    apply Hos, list_elem_of_here.
Qed.

(** The list of pages the loop keeps. *)
Record collected (ps : list page) (max_order : Z) : Prop := {
  cl_ok : Forall page_ok ps;
  cl_order : Forall (fun p => max_order <= compound_order p) ps;
  cl_sorted : StronglySorted (fun p q => compound_order q <= compound_order p) ps;
}.

Lemma collected_snoc (ps : list page) (max_order : Z) (p : page) :
  collected ps max_order -> page_ok p -> compound_order p <= max_order ->
  collected (ps ++ [p]) (compound_order p).
Proof.
  intros [H1 H2 H3] Hp Hle. split.
  - apply Forall_app. split; [done | by constructor].
  - apply Forall_app. split; [|by constructor]. eapply Forall_impl; [exact H2|]. intros q Hq; cbn in *; lia.
  - clear H1. induction H3 as [|q ps Hs IH Hq]; cbn; [by repeat constructor|].
    inversion H2; subst. constructor; [by apply IH|]. apply Forall_app. split; [done|].
    constructor; [lia | constructor].
Qed.

Lemma alloc_loop_ok (fuel : nat) : forall size max_order i ps s,
  0 <= size < 2 ^ 64 -> size / PAGE_SIZE < Z.of_nat fuel -> collected ps max_order -> outstanding s ps ->
  exists e ps' s', alloc_loop alloc_pages fatal_signal_pending fuel size max_order i ps s = Some (e, ps', s') /\
    outstanding s' ps' /\
    match e with
    | Some e => e = -EINTR \/ e = -ENOMEM
    | None => total_size ps' = total_size ps + size /\ exists m, collected ps' m
    end.
Proof.
  induction fuel as [|fuel IH]; intros size max_order i ps s Hsz Hf Hc Hs.
  { exfalso. pose proof (Z.div_pos size PAGE_SIZE ltac:(lia) eq_refl). lia. }
  cbn [alloc_loop]. destruct (Z.ltb_spec 0 size) as [Hpos|Hz]; cbn [negb].
  2: { exists None, ps, s. split; [done|]. split; [done|]. split; [lia | eauto]. }
  destruct (fatal_signal_pending i); [exists (Some (-EINTR)), ps, s; auto|].
  destruct (alloc_largest_available_dma32 alloc_pages size max_order s) as [r s1] eqn:E.
  pose proof (try_orders_ok orders size max_order s ps r s1 (fun _ H => H) Hs E) as Hr.
  destruct r as [p|]; [|exists (Some (-ENOMEM)), ps, s1; auto].
  destruct Hr as (Hs1 & Hp & Hle & Hmax). destruct (page_size_orders p (pk_order _ Hp)) as [Hb _].
  rewrite u64_small by lia.
  destruct (IH (size - page_size p) (compound_order p) (i + 1) (ps ++ [p]) s1)
    as (e & ps' & s' & -> & Hs' & He); [lia| |by eapply collected_snoc|done|].
  { change PAGE_SIZE with 4096 in *. enough ((size - page_size p) / 4096 + 1 <= size / 4096) by lia.
    rewrite <- (Z.div_add _ 1 4096) by lia.
    apply Z.div_le_mono; lia. }
  exists e, ps', s'. split; [done|]. split; [done|]. destruct e as [e|]; [done|].
  destruct He as [-> He]. split; [|done]. rewrite total_size_app. cbn. lia.
Qed.
End Allocation.

Definition no_pages : page_log := {| calls := 0; got := []; freed := [] |}.

Lemma no_pages_outstanding : outstanding no_pages [].
Proof. unfold outstanding. reflexivity. Qed.

(** C34: dma32_heap_allocate returns for every length, whatever the page
    allocator answers and the signals do.  When it fails, every page it
    obtained was freed exactly once; when it succeeds, exactly the pages of the
    buffer are left, all of them begin below 4 GiB, they come in order of
    decreasing size, and their sizes add up to the length asked for; and
    the release callback then frees each of them once. *)
Theorem dma32_allocate_balances (alloc_pages : nat -> gfp -> Z -> option Z)
    (signals : Z -> bool) (kzalloc_ok sg_ok : bool) (export l : Z) :
  0 <= l < 2 ^ 64 ->
  exists r s, dma32_heap_allocate alloc_pages signals kzalloc_ok sg_ok export l no_pages = Some (r, s) /\
    match r with
    | inl e => outstanding s []
    | inr b => outstanding s (sg_table b) /\ len b = l /\ total_size (sg_table b) = l /\
        Forall page_ok (sg_table b) /\
        StronglySorted (fun p q => compound_order q <= compound_order p) (sg_table b) /\
        outstanding (dma32_heap_dma_buf_release b s) []
    end.
Proof.
  intros Hl. unfold dma32_heap_allocate.
  destruct kzalloc_ok; cbn [negb]; [|exists (inl (-ENOMEM)), no_pages; split; [done | exact no_pages_outstanding]].
  destruct (alloc_loop_ok alloc_pages signals (alloc_fuel l) l 8 0 [] no_pages)
    as (e & ps & s & -> & Hs & He); [done| |by repeat constructor|exact no_pages_outstanding|].
  { unfold alloc_fuel. pose proof (Z.div_pos l PAGE_SIZE ltac:(lia) eq_refl). lia. }
  pose proof (free_pages_outstanding ps [] s Hs) as Hfree.
  destruct e as [e|]; [by eexists _, _|]. destruct He as [Ht [m [H1 H2 H3]]].
  destruct sg_ok; cbn [negb]; [|by eexists _, _].
  destruct (Z.eqb_spec export 0) as [_|_]; cbn [negb].
  - eexists _, _. split; [done|]. cbn. done.
  - eexists _, _. split; [done|]. cbn [sg_table]. by apply free_pages_outstanding.
Qed.

(** Pages of 1 MiB and 64 KiB far apart, one of them above 4 GiB. *)
Definition example_alloc (n : nat) (g : gfp) (order : Z) : option Z :=
  if decide (n = 1%nat) then Some 0x100000000
  else if 8 <=? order then None else Some (Z.of_nat n * 0x1000000).

Lemma dma32_allocate_balances_witness :
  exists r s, dma32_heap_allocate example_alloc (fun _ => false) true true 0 0x22000 no_pages = Some (r, s) /\
    match r with
    | inl e => outstanding s []
    | inr b => total_size (sg_table b) = 0x22000 /\ outstanding (dma32_heap_dma_buf_release b s) []
    end.
Proof.
  destruct (dma32_allocate_balances example_alloc (fun _ => false) true true 0 0x22000) as (r & s & H & Hr).
  - split; [discriminate | reflexivity].
  - exists r, s. split; [exact H|]. destruct r as [e|b]; [exact Hr|].
    destruct Hr as (_ & _ & H1 & _ & _ & H2). split; assumption.
Defined.

(** ** Properties of the mappings *)

Lemma entry_pages_length (p : page) : compound_order p ∈ orders ->
  Z.of_nat (length (entry_pages p)) * PAGE_SIZE = page_size p.
Proof.
  intros H. destruct (page_size_orders p H) as [Hb Hm]. unfold entry_pages.
  rewrite length_fmap, length_seqZ. rewrite Z.shiftr_div_pow2 by done.
  change (2 ^ PAGE_SHIFT) with PAGE_SIZE. rewrite Z2Nat.id by (apply Z.div_pos; [lia | done]).
  pose proof (Z.div_mod (page_size p) PAGE_SIZE ltac:(done)). lia.
Qed.

Lemma vmap_pages_length (ps : list page) : Forall page_ok ps ->
  Z.of_nat (length (mjoin (entry_pages <$> ps))) * PAGE_SIZE = total_size ps.
Proof.
  induction 1 as [|p ps Hp _ IH]; [done|].
  change (mjoin (entry_pages <$> p :: ps)) with (entry_pages p ++ mjoin (entry_pages <$> ps)).
  rewrite length_app, Nat2Z.inj_add, Z.mul_add_distr_r, IH, entry_pages_length by apply Hp. done.
Qed.

(** The calls map the user addresses from [from] to [to] without gap, each to
    the start of the next entry. *)
Fixpoint maps (from : Z) (calls : list remap) (ps : list page) (to : Z) : Prop :=
  match calls, ps with
  | [], _ => from = to
  | c :: calls, p :: ps => r_addr c = from /\ r_phys c = page_to_phys p /\ 0 <= r_len c <= page_size p /\
      maps (from + r_len c) calls ps to
  | _ :: _, [] => False
  end.

Lemma mmap_loop_maps (vm_end : Z) (ps : list page) : forall rets i addr,
  (forall i, rets i = 0) -> Forall page_ok ps -> 0 <= addr < vm_end -> vm_end < 2 ^ 64 ->
  exists calls, mmap_loop rets i vm_end addr ps = (0, calls) /\
    maps addr calls ps (Z.min vm_end (addr + total_size ps)).
Proof.
  induction ps as [|p ps IH]; intros rets i addr Hr Hp Ha Hv.
  { exists []. split; [done|]. change (total_size []) with 0. cbn [maps]. lia. }
  inversion Hp as [|? ? Hp0 Hps]; subst.
  destruct (page_size_orders p (pk_order _ Hp0)) as [Hb _].
  assert (0 <= total_size ps) as Hnn.
  { rewrite <- vmap_pages_length by done. unfold PAGE_SIZE. lia. }
  change (total_size (p :: ps)) with (page_size p + total_size ps).
  cbn [mmap_loop]. rewrite (u64_small (vm_end - addr)) by lia.
  set (n := if vm_end - addr <? page_size p then vm_end - addr else page_size p).
  assert (Hn : n = Z.min (vm_end - addr) (page_size p))
    by (subst n; destruct (Z.ltb_spec (vm_end - addr) (page_size p)); lia).
  rewrite Hr. cbn [Z.eqb negb]. rewrite (u64_small (addr + n)) by lia.
  destruct (Z.leb_spec vm_end (addr + n)) as [Hle|Hgt].
  - eexists. split; [reflexivity|]. cbn [maps r_addr r_phys r_len].
    do 2 (split; [done|]). split; [lia|]. lia.
  - destruct (IH rets (i + 1) (addr + n) Hr Hps) as (calls & -> & Hm); [lia|done|].
    eexists. split; [reflexivity|]. cbn [maps r_addr r_phys r_len].
    do 2 (split; [done|]). split; [lia|]. replace (addr + (page_size p + total_size ps))
      with (addr + n + total_size ps) by lia. exact Hm.
Qed.

(** C37: on a buffer as the heap allocates it (of less than 16 TiB), the page
    pointers dma32_heap_vmap stores fill its array exactly, never past its end;
    and when no remap_pfn_range fails, dma32_heap_mmap maps the user range to the
    buffer's entries in order, without gap, up to its end or the end of the
    buffer. *)
Theorem dma32_mappings_cover_buffer (b : dma32_heap_buffer) (rets : Z -> Z) (vm_start vm_end : Z) :
  Forall page_ok (sg_table b) -> total_size (sg_table b) = len b -> len b < 2 ^ 44 ->
  0 <= vm_start < vm_end -> vm_end < 2 ^ 64 -> (forall i, rets i = 0) ->
  Z.of_nat (length (vmap_pages b)) = vmap_npages b /\
  exists calls, dma32_heap_mmap rets vm_start vm_end b = (0, calls) /\
    maps vm_start calls (sg_table b) (Z.min vm_end (vm_start + len b)).
Proof.
  intros Hp Ht Hl Hs He Hr. split.
  - unfold vmap_pages, vmap_npages. pose proof (vmap_pages_length _ Hp) as H.
    set (n := Z.of_nat (length _)) in *. rewrite Ht in H. change PAGE_SIZE with 4096 in *.
    assert (0 <= n) as Hn by (subst n; lia).
    rewrite u64_small by lia. unfold round_down. rewrite <- H.
    replace (n * 4096 + 4096 - 1) with (4095 + n * 4096) by lia. rewrite Z.div_add by lia.
    change (4095 / 4096) with 0. rewrite Z.shiftr_div_pow2 by done. change (2 ^ PAGE_SHIFT) with 4096.
    rewrite Z.add_0_l, Z.div_mul by done. rewrite u32_small; lia.
  - destruct (mmap_loop_maps vm_end (sg_table b) rets 0 vm_start Hr Hp) as (calls & H & Hm); [done..|].
    exists calls. rewrite <- Ht. done.
Qed.

Definition example_buffer : dma32_heap_buffer :=
  {| attachments := ∅; len := 0x12000;
     sg_table := [{| page_to_phys := 0x100000; compound_order := 4 |};
                  {| page_to_phys := 0x50000; compound_order := 0 |};
                  {| page_to_phys := 0x60000; compound_order := 0 |}]; vmap_cnt := 0; vaddr := None |}.

Lemma dma32_mappings_cover_buffer_witness :
  Z.of_nat (length (vmap_pages example_buffer)) = 18 /\
  exists calls, dma32_heap_mmap (fun _ => 0) 0x7f0000 0x801000 example_buffer = (0, calls) /\
    maps 0x7f0000 calls (sg_table example_buffer) 0x801000.
Proof.
  apply (dma32_mappings_cover_buffer example_buffer (fun _ => 0) 0x7f0000 0x801000);
    try (split; (reflexivity || discriminate)); try reflexivity.
  unfold example_buffer. cbn [sg_table]. repeat constructor; vm_compute; (reflexivity || constructor).
Defined.
