(* ===== verification/Sg.v ===== *)
(** * Scatter-gather mapping with IOVA limits (the first half of rknpu_iommu.c)

    rknpu_iommu_dma_map_sg lays the entries of a scatterlist out in one IOVA
    range, stashing what it changes in the DMA fields; __finalise_sg turns the
    result into DMA segments, __invalidate_sg undoes it, and
    rknpu_iommu_dma_unmap_sg recovers the range from the segments. *)

From S2P Require Import Prelude.

(** ** Data *)

(** A scatterlist, by field: entry [i] of the list has offset [sg_offset s i]
    and so on.  [sg_bus] is the mark of a PCI bus address. *)
Record scatterlist := {
  sg_offset : Z -> Z;
  sg_length : Z -> Z;
  sg_dma_address : Z -> Z;
  sg_dma_len : Z -> Z;
  sg_bus : Z -> bool }.
#[export] Instance scatterlist_settable : Settable scatterlist := {| settable := fun s =>
  Build_scatterlist (sg_offset s) (sg_length s) (sg_dma_address s) (sg_dma_len s) (sg_bus s) |}.

Definition DMA_MAPPING_ERROR : Z := 2 ^ 64 - 1.

Inductive dma_data_direction := DMA_BIDIRECTIONAL | DMA_TO_DEVICE | DMA_FROM_DEVICE | DMA_NONE.

Definition IOMMU_READ : Z := 1.
Definition IOMMU_WRITE : Z := 2.
Definition IOMMU_CACHE : Z := 4.

Definition rknpu_dma_info_to_prot (dir : dma_data_direction) (coherent : bool) : Z :=
  let prot := if coherent then IOMMU_CACHE else 0 in
  match dir with
  | DMA_BIDIRECTIONAL => Z.lor (Z.lor prot IOMMU_READ) IOMMU_WRITE
  | DMA_TO_DEVICE => Z.lor prot IOMMU_READ
  | DMA_FROM_DEVICE => Z.lor prot IOMMU_WRITE
  | DMA_NONE => 0
  end.

(** The device and its domain: the IOVA granule is [2 ^ iova_shift], the other
    fields are what the kernel's accessors return. *)
Record dma_device := {
  iova_shift : Z;
  dma_get_seg_boundary : Z;
  dma_get_max_seg_size : Z;
  dma_get_mask : Z;
  bus_dma_limit : Z;
  force_aperture : bool;
  aperture_end : Z }.

(** What the kernel answers: the pfn of [alloc_iova] (NULL: [None]) and of
    [alloc_iova_fast] (0 on failure), and the bytes [iommu_map_sg] mapped. *)
Record iova_answer := {
  alloc_iova : Z -> Z -> option Z;
  alloc_iova_fast : Z -> Z -> Z;
  iommu_map_sg : Z -> Z }.

Section Sg.
Context (dev : dma_device) (ans : iova_answer).

Definition granule : Z := 2 ^ iova_shift dev.
(** [iova_offset] and [iova_align] of <linux/iova.h>. *)
Definition iova_offset (x : Z) : Z := Z.land x (granule - 1).
Definition iova_align (x : Z) : Z := round_down (u64 (x + granule - 1)) granule.

Definition min_not_zero (x y : Z) : Z :=
  if x =? 0 then y else if y =? 0 then x else Z.min x y.

Definition rknpu_iommu_dma_alloc_iova (size dma_limit : Z) (size_aligned : bool) : Z :=
  let iova_len := Z.shiftr size (iova_shift dev) in
  let dma_limit := min_not_zero dma_limit (bus_dma_limit dev) in
  let dma_limit := if force_aperture dev then Z.min dma_limit (aperture_end dev) else dma_limit in
  let limit_pfn := Z.shiftr dma_limit (iova_shift dev) in
  if size_aligned then u64 (Z.shiftl (alloc_iova_fast ans iova_len limit_pfn) (iova_shift dev))
  else
    match alloc_iova ans iova_len limit_pfn with
    | None => 0
    | Some pfn => u64 (Z.shiftl pfn (iova_shift dev))
    end.

(** The call rknpu_iommu_dma_free_iova makes: free_iova of a pfn, or
    free_iova_fast of a pfn and a length. *)
Inductive iova_free := FreeIova (pfn : Z) | FreeIovaFast (pfn pages : Z).
Definition rknpu_iommu_dma_free_iova (iova size : Z) (size_aligned : bool) : iova_free :=
  let pfn := Z.shiftr iova (iova_shift dev) in
  if size_aligned then FreeIovaFast pfn (Z.shiftr size (iova_shift dev)) else FreeIova pfn.

(** ** Finalise and invalidate *)

(** The loop of __finalise_sg from entry [i] on, [n] entries left. *)
Fixpoint finalise_loop (n : nat) (i cur cur_len count dma_addr : Z) (s : scatterlist)
  : Z * scatterlist :=
  match n with
  | O => (count, s)
  | S n =>
      let s_dma_addr := sg_dma_address s i in
      let s_iova_off := u32 (sg_dma_address s i) in
      let s_length := sg_dma_len s i in
      let s_iova_len := sg_length s i in
      let s := s <| sg_dma_address ::= <[i := DMA_MAPPING_ERROR]> |> <| sg_dma_len ::= <[i := 0]> |> in
      if sg_bus s i then
        let cur := if 0 <? i then cur + 1 else cur in
        let s := s <| sg_bus ::= <[i := false]> |> <| sg_dma_address ::= <[cur := s_dma_addr]> |>
                   <| sg_dma_len ::= <[cur := s_length]> |> <| sg_bus ::= <[cur := true]> |> in
        finalise_loop n (i + 1) cur 0 (count + 1) dma_addr s
      else
        let s := s <| sg_offset ::= alter (fun x => u32 (x + s_iova_off)) i |>
                   <| sg_length ::= <[i := s_length]> |> in
        let append := negb (cur_len =? 0) && (s_iova_off =? 0) &&
          negb (Z.land dma_addr (dma_get_seg_boundary dev) =? 0) &&
          (s_length <=? u32 (dma_get_max_seg_size dev - cur_len)) in
        let cur' := if negb append && (0 <? i) then cur + 1 else cur in
        let cur_len := if append then u32 (cur_len + s_length) else s_length in
        let s := if append then s
                 else s <| sg_dma_address ::= <[cur' := u64 (dma_addr + s_iova_off)]> |> in
        let s := s <| sg_dma_len ::= <[cur' := cur_len]> |> in
        finalise_loop n (i + 1) cur' (if u32 (s_length + s_iova_off) <? s_iova_len then 0 else cur_len)
          (if append then count else count + 1) (u64 (dma_addr + s_iova_len)) s
  end.

Definition finalise_sg (nents : nat) (dma_addr : Z) (s : scatterlist) : Z * scatterlist :=
  finalise_loop nents 0 0 0 0 dma_addr s.

Fixpoint invalidate_loop (n : nat) (i : Z) (s : scatterlist) : scatterlist :=
  match n with
  | O => s
  | S n =>
      let s :=
        if sg_bus s i then s <| sg_bus ::= <[i := false]> |>
        else
          let s := if sg_dma_address s i =? DMA_MAPPING_ERROR then s
                   else s <| sg_offset ::= alter (fun x => u32 (x + sg_dma_address s i)) i |> in
          if sg_dma_len s i =? 0 then s else s <| sg_length ::= <[i := sg_dma_len s i]> |> in
      invalidate_loop n (i + 1)
        (s <| sg_dma_address ::= <[i := DMA_MAPPING_ERROR]> |> <| sg_dma_len ::= <[i := 0]> |>)
  end.

Definition invalidate_sg (nents : nat) (s : scatterlist) : scatterlist := invalidate_loop nents 0 s.

(** ** Map *)

(** The layout loop of rknpu_iommu_dma_map_sg; [prev] is the entry before. *)
Fixpoint layout_loop (n : nat) (i prev iova_len : Z) (s : scatterlist) : Z * scatterlist :=
  match n with
  | O => (iova_len, s)
  | S n =>
      let mask := dma_get_seg_boundary dev in
      let s_iova_off := iova_offset (sg_offset s i) in
      let s_length := sg_length s i in
      let pad_len := Z.land (u64 (mask - iova_len + 1)) mask in
      let s := s <| sg_dma_address ::= <[i := s_iova_off]> |> <| sg_dma_len ::= <[i := s_length]> |>
                 <| sg_offset ::= alter (fun x => u32 (x - s_iova_off)) i |> in
      let s_length := iova_align (s_length + s_iova_off) in
      let s := s <| sg_length ::= <[i := u32 s_length]> |> in
      let pad := negb (pad_len =? 0) && (pad_len <? u64 (s_length - 1)) in
      let s := if pad then s <| sg_length ::= alter (fun x => u32 (x + pad_len)) prev |> else s in
      let iova_len := if pad then u64 (iova_len + pad_len) else iova_len in
      layout_loop n (i + 1) i (u64 (iova_len + s_length)) s
  end.

(** The result of a map: the return value, the list, the IOVA range mapped
    (address and length), and the IOVA freed on the error path. *)
Record map_result := {
  mr_ret : Z;
  mr_sg : scatterlist;
  mr_mapped : option (Z * Z);
  mr_freed : option iova_free }.

(** The path of an IOVA that is not aligned; with [iova_aligned] the function is
    the kernel's dma_map_sg. *)
Definition rknpu_iommu_dma_map_sg (nents : nat) (s : scatterlist) : map_result :=
  let '(iova_len, s) := layout_loop nents 0 0 0 s in
  if iova_len =? 0 then
    let '(ret, s) := finalise_sg nents 0 s in
    {| mr_ret := if ret <? 0 then 0 else ret; mr_sg := s; mr_mapped := None; mr_freed := None |}
  else
    let iova := rknpu_iommu_dma_alloc_iova iova_len (dma_get_mask dev) false in
    if iova =? 0 then
      {| mr_ret := 0; mr_sg := invalidate_sg nents s; mr_mapped := None; mr_freed := None |}
    else
      let ret := iommu_map_sg ans iova in
      if (ret <? 0) || (ret <? iova_len) then
        {| mr_ret := if ret <? 0 then 0 else ret; mr_sg := invalidate_sg nents s; mr_mapped := None;
           mr_freed := Some (rknpu_iommu_dma_free_iova iova iova_len false) |}
      else
        let '(count, s) := finalise_sg nents iova s in
        {| mr_ret := count; mr_sg := s; mr_mapped := Some (iova, iova_len); mr_freed := None |}.

(** ** Unmap *)

(** The first loop: the start address and the index it stops at. *)
Fixpoint find_start (n : nat) (i : Z) (s : scatterlist) : Z * Z * scatterlist :=
  match n with
  | O => (0, i, s)
  | S n =>
      if sg_bus s i then find_start n (i + 1) (s <| sg_bus ::= <[i := false]> |>)
      else if sg_dma_len s i =? 0 then (0, i, s)
      else (sg_dma_address s i, i, s)
  end.

(** The second loop: the end address. *)
Fixpoint find_end (n : nat) (i end_ : Z) (s : scatterlist) : Z * scatterlist :=
  match n with
  | O => (end_, s)
  | S n =>
      if sg_bus s i then find_end n (i + 1) end_ (s <| sg_bus ::= <[i := false]> |>)
      else if sg_dma_len s i =? 0 then (end_, s)
      else find_end n (i + 1) (u64 (sg_dma_address s i + sg_dma_len s i)) s
  end.

(** The range handed to iommu_unmap and the IOVA freed, if any. *)
Definition rknpu_iommu_dma_unmap_sg (nents : nat) (s : scatterlist)
  : option (Z * Z * iova_free) * scatterlist :=
  let '(start, i, s) := find_start nents 0 s in
  let '(end_, s) := find_end (nents - Z.to_nat i) i 0 s in
  let size := u64 (end_ - start) in
  let iova_off := iova_offset start in
  if end_ =? 0 then (None, s)
  else
    let dma_addr := u64 (start - iova_off) in
    let size := iova_align (u64 (size + iova_off)) in
    (Some (dma_addr, size, rknpu_iommu_dma_free_iova dma_addr size false), s).
End Sg.

(** Resolve updates of the goal at indices that lia can compare. *)
Ltac updates :=
  cbn [set_field sg_offset sg_length sg_dma_address sg_dma_len sg_bus];
  rewrite ?fn_insert_eqb, ?fn_alter_eqb;
  repeat match goal with |- context [Z.eqb ?a ?b] => destruct (Z.eqb_spec a b); try lia end.

(** ** Segments as the bytes they name *)

(** The addresses of the first [n] segments of address [addr] and length [len]. *)
Definition bytes_of (addr len : Z -> Z) (n : Z) : list Z :=
  mjoin ((fun j => seqZ (addr j) (len j)) <$> seqZ 0 n).

Lemma flat_succ (addr len : Z -> Z) (n : Z) :
  0 <= n -> bytes_of addr len (n + 1) = bytes_of addr len n ++ seqZ (addr n) (len n).
Proof.
  intros Hn. unfold bytes_of. rewrite seqZ_app by lia. rewrite fmap_app, join_app. f_equal.
  rewrite (seqZ_cons (0 + n)) by lia. cbn. by rewrite app_nil_r.
Qed.

Lemma flat_ext (addr addr' len len' : Z -> Z) (n : Z) :
  (forall j, 0 <= j < n -> addr j = addr' j /\ len j = len' j) -> bytes_of addr len n = bytes_of addr' len' n.
Proof.
  intros H. unfold bytes_of. f_equal. apply list_fmap_ext. intros i j Hj.
  apply lookup_seqZ in Hj as [-> Hj]. destruct (H (0 + Z.of_nat i)) as [-> ->]; [lia|done].
Qed.

(** ** Finalise *)

Section Finalise.
Context (dev : dma_device) (N A : Z) (o l pl : Z -> Z) (off P : Z -> Z).

(** A list of [N] entries laid out from [A] on: entry [k] has [off k] bytes in
    front, [l k] bytes of data, and takes [pl k] bytes of the range. *)
Record laid_out : Prop := {
  lo_off : forall k, 0 <= k < N -> 0 <= off k < 2 ^ 32 /\ off k <= o k < 2 ^ 32;
  lo_len : forall k, 0 <= k < N -> 0 < l k <= dma_get_max_seg_size dev;
  lo_pl : forall k, 0 <= k < N -> off k + l k <= pl k < 2 ^ 32;
  lo_P0 : P 0 = 0;
  lo_PS : forall k, 0 <= k < N -> P (k + 1) = P k + pl k;
  lo_max : dma_get_max_seg_size dev < 2 ^ 32;
  lo_A : 0 <= A;
  lo_end : A + P N < 2 ^ 64;
}.

Definition in_addr (k : Z) : Z := A + P k + off k.

Record fin_inv (i c cur cur_len dma_addr : Z) (s : scatterlist) : Prop := {
  fi_range : 0 <= i <= N;
  fi_addr : dma_addr = A + P i;
  fi_todo : forall k, i <= k < N -> sg_dma_address s k = off k /\ sg_dma_len s k = l k /\
    sg_length s k = pl k /\ sg_offset s k = o k - off k;
  fi_bus : forall k, 0 <= k < N -> sg_bus s k = false;
  fi_done : forall k, 0 <= k < i -> sg_offset s k = o k /\ sg_length s k = l k;
  fi_first : i = 0 -> c = 0 /\ cur = 0 /\ cur_len = 0;
  fi_cur : 0 < i -> cur = c - 1 /\ 1 <= c <= i;
  fi_flat : bytes_of (sg_dma_address s) (sg_dma_len s) c = bytes_of in_addr l i;
  fi_seg : forall j, 0 <= j < c -> 0 < sg_dma_len s j <= dma_get_max_seg_size dev;
  fi_clear : forall j, c <= j < i -> sg_dma_len s j = 0;
  fi_open : cur_len <> 0 -> cur_len = sg_dma_len s cur /\ sg_dma_address s cur + cur_len = A + P i;
  fi_curlen : 0 <= cur_len <= dma_get_max_seg_size dev;
  fi_start : 0 < i -> sg_dma_address s 0 = in_addr 0;
  fi_last : 0 < i -> sg_dma_address s cur + sg_dma_len s cur = in_addr (i - 1) + l (i - 1);
}.

Lemma P_mono (HL : laid_out) (k : Z) : 0 <= k <= N -> 0 <= P k <= P N.
Proof.
  intros Hk. assert (forall n, 0 <= n -> n <= N -> 0 <= P n) as H0.
  { intros n Hn. apply (Zlt_0_ind (fun n => n <= N -> 0 <= P n)); [|done].
    intros x IH Hx Hle. destruct (decide (x = 0)) as [->|Hne]; [by rewrite (lo_P0 HL)|].
    replace x with (x - 1 + 1) by lia. rewrite (lo_PS HL) by lia.
    pose proof (lo_pl HL (x - 1) ltac:(lia)). pose proof (lo_len HL (x - 1) ltac:(lia)).
    pose proof (lo_off HL (x - 1) ltac:(lia)). specialize (IH (x - 1) ltac:(lia) ltac:(lia)). lia. }
  split; [by apply H0; lia|].
  assert (forall n, 0 <= n -> k + n <= N -> P k <= P (k + n)) as H1.
  { intros n Hn. apply (Zlt_0_ind (fun n => k + n <= N -> P k <= P (k + n))); [|done].
    intros x IH Hx Hle. destruct (decide (x = 0)) as [->|Hne]; [by rewrite Z.add_0_r|].
    replace (k + x) with (k + (x - 1) + 1) by lia. rewrite (lo_PS HL) by lia.
    pose proof (lo_pl HL (k + (x - 1)) ltac:(lia)). pose proof (lo_len HL (k + (x - 1)) ltac:(lia)).
    pose proof (lo_off HL (k + (x - 1)) ltac:(lia)). specialize (IH (x - 1) ltac:(lia) ltac:(lia)). lia. }
  replace N with (k + (N - k)) by lia. apply H1; lia.
Qed.

(** One turn of the loop appends to the open segment... *)
Lemma finalise_append (i c cur cur_len : Z) (s s' : scatterlist) :
  laid_out -> fin_inv i c cur cur_len (A + P i) s -> i < N ->
  cur_len <> 0 -> off i = 0 -> l i <= dma_get_max_seg_size dev - cur_len ->
  s' = s <| sg_dma_address ::= <[i := DMA_MAPPING_ERROR]> |> <| sg_dma_len ::= <[i := 0]> |>
         <| sg_offset ::= alter (fun x => u32 (x + off i)) i |> <| sg_length ::= <[i := l i]> |>
         <| sg_dma_len ::= <[cur := cur_len + l i]> |> ->
  fin_inv (i + 1) c cur (if l i + off i <? pl i then 0 else cur_len + l i) (A + P (i + 1)) s'.
Proof.
  intros HL [H1 H2 H3 H4 H5 H6 H7 H8 H9 H10 H11 H12 H13 H14] Hi Hcl Hoff Hmax ->.
  assert (0 < i) as Hi0 by (destruct (decide (i = 0)) as [E|]; [by destruct (H6 E) as (_ & _ & ->)|lia]).
  destruct (H7 Hi0) as [Hcur Hc]. destruct (H11 Hcl) as [Hlen Hend].
  destruct (H3 i ltac:(lia)) as (_ & _ & _ & Ho).
  pose proof (lo_off HL i ltac:(lia)) as [Hof1 Hof2]. pose proof (lo_len HL i ltac:(lia)) as Hl.
  pose proof (lo_pl HL i ltac:(lia)) as Hpl. pose proof (lo_PS HL i ltac:(lia)) as HP.
  split.
  - lia.
  - lia.
  - intros k Hk. destruct (H3 k ltac:(lia)) as (E1 & E2 & E3 & E4).
    split; [|split; [|split]]; updates; done.
  - intros k Hk. by apply H4.
  - intros k Hk. destruct (decide (k = i)) as [->|Hne].
    + split; updates; rewrite Ho, u32_small; lia.
    + destruct (H5 k ltac:(lia)). split; updates; done.
  - lia.
  - lia.
  - rewrite (flat_succ in_addr) by lia. rewrite <- H8.
    assert (c = cur + 1) as -> by lia. rewrite !flat_succ by lia. rewrite <- app_assoc. f_equal.
    + apply flat_ext. intros j Hj. split; updates; done.
    + replace (in_addr i) with (sg_dma_address s cur + sg_dma_len s cur) by (unfold in_addr; lia).
      rewrite <- seqZ_app by lia. f_equal; updates.
  - intros j Hj. updates. apply H9. lia.
  - intros j Hj. updates. apply H10. lia.
  - intros Hne. destruct (Z.ltb_spec (l i + off i) (pl i)); [done|]. split; updates.
  - destruct (Z.ltb_spec (l i + off i) (pl i)); lia.
  - intros _. specialize (H13 Hi0). updates.
  - intros _. replace (i + 1 - 1) with i by lia. unfold in_addr. updates.
Qed.

(** ... or starts the next one. *)
Lemma finalise_start (i c cur cur_len : Z) (s s' : scatterlist) :
  laid_out -> fin_inv i c cur cur_len (A + P i) s -> i < N ->
  s' = s <| sg_dma_address ::= <[i := DMA_MAPPING_ERROR]> |> <| sg_dma_len ::= <[i := 0]> |>
         <| sg_offset ::= alter (fun x => u32 (x + off i)) i |> <| sg_length ::= <[i := l i]> |>
         <| sg_dma_address ::= <[c := A + P i + off i]> |> <| sg_dma_len ::= <[c := l i]> |> ->
  fin_inv (i + 1) (c + 1) c (if l i + off i <? pl i then 0 else l i) (A + P (i + 1)) s'.
Proof.
  intros HL [H1 H2 H3 H4 H5 H6 H7 H8 H9 H10 H11 H12 H13 H14] Hi ->.
  assert (0 <= c <= i) as Hc by (destruct (decide (i = 0)) as [E|]; [destruct (H6 E) as (-> & _); lia|specialize (H7 ltac:(lia)); lia]).
  destruct (H3 i ltac:(lia)) as (_ & _ & _ & Ho).
  pose proof (lo_off HL i ltac:(lia)) as [Hof1 Hof2]. pose proof (lo_len HL i ltac:(lia)) as Hl.
  pose proof (lo_pl HL i ltac:(lia)) as Hpl. pose proof (lo_PS HL i ltac:(lia)) as HP.
  split.
  - lia.
  - lia.
  - intros k Hk. destruct (H3 k ltac:(lia)) as (E1 & E2 & E3 & E4).
    split; [|split; [|split]]; updates; done.
  - intros k Hk. by apply H4.
  - intros k Hk. destruct (decide (k = i)) as [->|Hne].
    + split; updates; rewrite Ho, u32_small; lia.
    + destruct (H5 k ltac:(lia)). split; updates; done.
  - lia.
  - lia.
  - rewrite !flat_succ by lia. rewrite <- H8. f_equal.
    + apply flat_ext. intros j Hj. split; updates; done.
    + f_equal; updates; done.
  - intros j Hj. updates. apply H9. lia.
  - intros j Hj. updates. apply H10. lia.
  - intros Hne. destruct (Z.ltb_spec (l i + off i) (pl i)); [done|]. split; updates.
  - destruct (Z.ltb_spec (l i + off i) (pl i)); lia.
  - intros _. destruct (decide (i = 0)) as [->|Hne].
    + destruct (H6 eq_refl) as [-> _]. updates. unfold in_addr. by rewrite (lo_P0 HL).
    + specialize (H7 ltac:(lia)). updates.
  - intros _. replace (i + 1 - 1) with i by lia. unfold in_addr. updates.
Qed.

Lemma finalise_loop_ok (n : nat) : forall i c cur cur_len dma_addr s,
  laid_out -> fin_inv i c cur cur_len dma_addr s -> i + Z.of_nat n = N ->
  exists c' cur' cur_len' s', finalise_loop dev n i cur cur_len c dma_addr s = (c', s') /\
    fin_inv N c' cur' cur_len' (A + P N) s'.
Proof.
  induction n as [|n IH]; intros i c cur cl da s HL Hinv Hn.
  { replace N with i in * by lia. exists c, cur, cl, s. split; [done|]. by destruct (fi_addr _ _ _ _ _ _ Hinv). }
  pose proof Hinv as [H1 -> H3 H4 H5 H6 H7 H8 H9 H10 H11 H12 H13 H14].
  destruct (H3 i ltac:(lia)) as (E1 & E2 & E3 & E4).
  pose proof (lo_off HL i ltac:(lia)) as [Hof1 Hof2]. pose proof (lo_len HL i ltac:(lia)) as Hl.
  pose proof (lo_pl HL i ltac:(lia)) as Hpl. pose proof (lo_PS HL i ltac:(lia)) as HP.
  pose proof (lo_max HL) as Hmax. pose proof (lo_A HL). pose proof (lo_end HL).
  pose proof (P_mono HL i ltac:(lia)). pose proof (P_mono HL (i + 1) ltac:(lia)).
  cbn [finalise_loop]. rewrite E1, E2, E3.
  rewrite (u32_small (off i)), (u32_small (l i + off i)), (u32_small (dma_get_max_seg_size dev - cl)),
    (u64_small (A + P i + off i)), (u64_small (A + P i + pl i)) by lia.
  change (sg_bus (s <| sg_dma_address ::= <[i := DMA_MAPPING_ERROR]> |> <| sg_dma_len ::= <[i := 0]> |>) i)
    with (sg_bus s i).
  rewrite (H4 i) by lia.
  replace (A + P i + pl i) with (A + P (i + 1)) by lia.
  destruct (_ && _ && _ && _) eqn:Happ; cbn [negb andb].
  - rewrite !andb_true_iff, negb_true_iff, Z.eqb_neq, Z.eqb_eq, Z.leb_le in Happ.
    destruct Happ as [[[Hcl Hoff] _] Hle]. rewrite (u32_small (cl + l i)) by lia.
    eapply IH; [done| |lia]. apply (finalise_append i c cur cl s); try done. lia.
  - assert (Hc : (if 0 <? i then cur + 1 else cur) = c).
    { destruct (Z.ltb_spec 0 i) as [Hi0|Hi0]; [specialize (H7 Hi0); lia|].
      destruct (H6 ltac:(lia)) as (-> & -> & _). done. }
    rewrite Hc. eapply IH; [done| |lia]. apply (finalise_start i c cur cl s); try done. lia.
Qed.
End Finalise.

(** ** Layout *)

(** A device as the kernel configures it: a granule and a segment boundary that
    are powers of two, the boundary no finer than the granule. *)
Record dma_device_ok (dev : dma_device) : Prop := {
  dv_shift : 0 <= iova_shift dev <= 32;
  dv_mask : exists m, dma_get_seg_boundary dev = 2 ^ m - 1 /\ iova_shift dev <= m <= 64;
  dv_max : dma_get_max_seg_size dev < 2 ^ 32;
}.

Lemma granule_pos (dev : dma_device) : dma_device_ok dev -> 0 < granule dev <= 2 ^ 32.
Proof.
  intros [H _ _]. unfold granule. split; [apply Z.pow_pos_nonneg; lia|].
  apply Z.pow_le_mono_r; lia.
Qed.

Lemma iova_offset_mod (dev : dma_device) (x : Z) : dma_device_ok dev -> iova_offset dev x = x mod granule dev.
Proof.
  intros [H _ _]. unfold iova_offset, granule. rewrite <- Z.land_ones by lia. by rewrite Z.ones_equiv.
Qed.

Lemma iova_align_spec (dev : dma_device) (x : Z) :
  dma_device_ok dev -> 0 <= x -> x + granule dev < 2 ^ 64 ->
  x <= iova_align dev x < x + granule dev /\ (granule dev | iova_align dev x).
Proof.
  intros Hd Hx Hb. pose proof (granule_pos dev Hd) as Hg. unfold iova_align, round_down.
  rewrite u64_small by lia. split; [|by exists ((x + granule dev - 1) / granule dev)].
  pose proof (Z.div_mod (x + granule dev - 1) (granule dev) ltac:(lia)).
  pose proof (Z.mod_pos_bound (x + granule dev - 1) (granule dev) ltac:(lia)). lia.
Qed.

Section Layout.
Context (dev : dma_device) (N : Z) (s0 : scatterlist).

Definition lay_off (k : Z) : Z := iova_offset dev (sg_offset s0 k).
Definition lay_al (k : Z) : Z := iova_align dev (sg_length s0 k + lay_off k).
(** The padding in front of an entry, from the bytes laid out before. *)
Definition lay_pad (k before : Z) : Z :=
  let mask := dma_get_seg_boundary dev in
  let p := Z.land (u64 (mask - before + 1)) mask in
  if negb (p =? 0) && (p <? u64 (lay_al k - 1)) then p else 0.
Fixpoint lay_before (k : nat) : Z :=
  match k with
  | O => 0
  | S k' => lay_before k' + lay_pad (Z.of_nat k') (lay_before k') + lay_al (Z.of_nat k')
  end.
(** Where entry [k] starts in the range, and where the range ends. *)
Definition lay_pos (k : Z) : Z :=
  let b := lay_before (Z.to_nat k) in if k <? N then b + lay_pad k b else b.

(** The entries: not empty, in 32 bits, and together less than 2 GiB with the
    granules they may need. *)
Record entries_ok : Prop := {
  en_N : 0 < N;
  en_len : forall k, 0 <= k < N -> 0 < sg_length s0 k <= dma_get_max_seg_size dev;
  en_off : forall k, 0 <= k < N -> 0 <= sg_offset s0 k < 2 ^ 32;
  en_bus : forall k, 0 <= k < N -> sg_bus s0 k = false;
  en_total : N * (2 * granule dev) + foldr Z.add 0 (sg_length s0 <$> seqZ 0 N) < 2 ^ 31;
}.

Hypothesis Hdev : dma_device_ok dev.
Hypothesis Hen : entries_ok.

Lemma lay_off_range (k : Z) : 0 <= k < N -> 0 <= lay_off k < granule dev /\ lay_off k <= sg_offset s0 k.
Proof.
  intros Hk. unfold lay_off. rewrite iova_offset_mod by done.
  pose proof (granule_pos dev Hdev). pose proof (en_off Hen k Hk).
  split; [apply Z.mod_pos_bound; lia | apply Z.mod_le; lia].
Qed.

Lemma sum_prefix (f : Z -> Z) (n : Z) :
  0 <= n -> foldr Z.add 0 (f <$> seqZ 0 (n + 1)) = foldr Z.add 0 (f <$> seqZ 0 n) + f n.
Proof.
  intros Hn. rewrite seqZ_app by lia. rewrite fmap_app, foldr_app.
  assert (forall l a, foldr Z.add a l = foldr Z.add 0 l + a) as Hf.
  { induction l as [|x l IH]; intros a; cbn; [lia|]. rewrite IH. lia. }
  rewrite Hf. rewrite (seqZ_cons (0 + n)) by lia. cbn. rewrite !Z.add_0_l, Z.add_0_r. done.
Qed.

Lemma sum_mono (f : Z -> Z) (n m : Z) : (forall k, 0 <= k < m -> 0 <= f k) -> 0 <= n <= m ->
  0 <= foldr Z.add 0 (f <$> seqZ 0 n) <= foldr Z.add 0 (f <$> seqZ 0 m).
Proof.
  intros Hf Hn. assert (forall d, 0 <= d -> n + d <= m ->
    foldr Z.add 0 (f <$> seqZ 0 n) <= foldr Z.add 0 (f <$> seqZ 0 (n + d))) as H1.
  { apply (natlike_ind (fun d => n + d <= m -> _ <= _)); [by rewrite Z.add_0_r|].
    intros d Hd IH Hle. replace (n + Z.succ d) with (n + d + 1) by lia.
    rewrite sum_prefix by lia. specialize (Hf (n + d) ltac:(lia)). lia. }
  split; [|replace m with (n + (m - n)) by lia; apply H1; lia].
  clear H1. destruct Hn as [Hn Hm]. revert Hm. revert n Hn.
  apply (natlike_ind (fun n => n <= m -> 0 <= _)); [done|].
  intros d Hd IH Hle. rewrite <- Z.add_1_r, sum_prefix by lia. specialize (Hf d ltac:(lia)). lia.
Qed.

Lemma one_length (k : Z) : 0 <= k < N -> sg_length s0 k < 2 ^ 31 /\ 2 * granule dev < 2 ^ 31.
Proof.
  intros Hk. pose proof (granule_pos dev Hdev). pose proof (en_total Hen).
  assert (forall j, 0 <= j < N -> 0 <= sg_length s0 j) as Hpos
    by (intros j Hj; pose proof (en_len Hen j Hj); lia).
  pose proof (sum_mono (sg_length s0) (k + 1) N Hpos ltac:(lia)) as H1. rewrite sum_prefix in H1 by lia.
  pose proof (sum_mono (sg_length s0) k k (fun j Hj => Hpos j ltac:(lia)) ltac:(lia)). nia.
Qed.

Lemma lay_al_spec (k : Z) : 0 <= k < N ->
  sg_length s0 k + lay_off k <= lay_al k < sg_length s0 k + 2 * granule dev /\
  (granule dev | lay_al k) /\ lay_al k < 2 ^ 32.
Proof.
  intros Hk. pose proof (lay_off_range k Hk) as [Ho _]. pose proof (en_len Hen k Hk).
  pose proof (granule_pos dev Hdev). pose proof (one_length k Hk).
  destruct (iova_align_spec dev (sg_length s0 k + lay_off k) Hdev) as [Hs1 Hs2]; [lia..|].
  unfold lay_al. split; [lia|]. split; [done|lia].
Qed.

(** The padding is a multiple of the granule and shorter than the entry. *)
Lemma lay_pad_spec (k before : Z) : 0 <= k < N -> 0 <= before < 2 ^ 32 -> (granule dev | before) ->
  0 <= lay_pad k before < lay_al k /\ (granule dev | lay_pad k before) /\
  (before = 0 -> lay_pad k before = 0).
Proof.
  intros Hk Hb Hg. pose proof (lay_al_spec k Hk) as (Ha & _ & Ha').
  pose proof (en_len Hen k Hk). pose proof (lay_off_range k Hk).
  destruct (dv_mask dev Hdev) as (m & Hm & Hm').
  unfold lay_pad. rewrite Hm.
  set (x := u64 (2 ^ m - 1 - before + 1)). replace (2 ^ m - 1) with (Z.ones m) by (rewrite Z.ones_equiv; lia).
  rewrite Z.land_ones by (pose proof (dv_shift dev Hdev); lia). subst x. cbv zeta.
  replace (2 ^ m - 1 - before + 1) with (2 ^ m - before) by lia.
  assert (Hpow : 0 < 2 ^ m) by (apply Z.pow_pos_nonneg; [|pose proof (dv_shift dev Hdev)]; lia).
  assert (Hmod : u64 (2 ^ m - before) mod 2 ^ m = (- before) mod 2 ^ m).
  { unfold u64. replace (2 ^ 64) with (2 ^ m * 2 ^ (64 - m)).
    2: { rewrite <- Z.pow_add_r by (pose proof (dv_shift dev Hdev); lia). f_equal. lia. }
    rewrite Z.rem_mul_r; [|lia|apply Z.pow_pos_nonneg; lia].
    rewrite Z.mul_comm, Z.mod_add, Z.mod_mod by lia.
    replace (2 ^ m - before) with (- before + 1 * 2 ^ m) by lia. by rewrite Z.mod_add by lia. }
  rewrite Hmod. set (q := (- before) mod 2 ^ m).
  pose proof (Z.mod_pos_bound (- before) (2 ^ m) Hpow) as Hq. fold q in Hq.
  rewrite (u64_small (lay_al k - 1)) by lia.
  assert (Hdiv : (granule dev | q)).
  { subst q. rewrite Z.mod_eq by lia. apply Z.divide_sub_r; [by apply Z.divide_opp_r|].
    apply Z.divide_mul_l. unfold granule. exists (2 ^ (m - iova_shift dev)).
    rewrite <- Z.pow_add_r by (pose proof (dv_shift dev Hdev); lia). f_equal. lia. }
  destruct (Z.eqb_spec q 0) as [Hq0|Hq0], (Z.ltb_spec q (lay_al k - 1)); cbn [negb andb];
    (split; [lia|]); (split; [try apply Z.divide_0_r; done|]); intros ->; try done.
Qed.

Lemma lay_before_spec (n : nat) : Z.of_nat n <= N ->
  0 <= lay_before n < 2 ^ 32 /\ (granule dev | lay_before n).
Proof.
  intros Hn. pose proof (granule_pos dev Hdev) as Hg.
  assert (forall j, 0 <= j < N -> 0 <= sg_length s0 j) as Hpos
    by (intros j Hj; pose proof (en_len Hen j Hj); lia).
  assert (0 <= lay_before n <=
    2 * (Z.of_nat n * (2 * granule dev) + foldr Z.add 0 (sg_length s0 <$> seqZ 0 (Z.of_nat n))) /\
    (granule dev | lay_before n)) as [H1 H2].
  2: { pose proof (sum_mono (sg_length s0) (Z.of_nat n) N Hpos ltac:(lia)).
       pose proof (en_total Hen). split; [nia|done]. }
  induction n as [|n IH]; [split; [done | apply Z.divide_0_r]|].
  destruct (IH ltac:(lia)) as [[B1 B2] B3].
  pose proof (sum_mono (sg_length s0) (Z.of_nat n) N Hpos ltac:(lia)) as [_ Hs].
  pose proof (en_total Hen) as Ht.
  destruct (lay_al_spec (Z.of_nat n) ltac:(lia)) as (A1 & A2 & _).
  destruct (lay_pad_spec (Z.of_nat n) (lay_before n) ltac:(lia) ltac:(nia) B3) as (P1 & P2 & _).
  pose proof (lay_off_range (Z.of_nat n) ltac:(lia)) as [[O1 _] _].
  pose proof (Hpos (Z.of_nat n) ltac:(lia)).
  cbn [lay_before]. rewrite Nat2Z.inj_succ, <- Z.add_1_r, sum_prefix by lia.
  split; [lia|]. apply Z.divide_add_r; [by apply Z.divide_add_r | done].
Qed.

Lemma lay_pos_0 : lay_pos 0 = 0.
Proof.
  unfold lay_pos. rewrite (proj2 (Z.ltb_lt _ _)) by apply (en_N Hen). change (lay_pad 0 0 = 0).
  pose proof (en_N Hen). destruct (lay_pad_spec 0 0) as (_ & _ & H'); [lia|lia|apply Z.divide_0_r|].
  by rewrite H'.
Qed.

Lemma lay_before_succ (k : Z) : 0 <= k < N ->
  lay_before (Z.to_nat (k + 1)) = lay_pos k + lay_al k.
Proof.
  intros Hk. rewrite Z2Nat.inj_add by lia. rewrite Nat.add_1_r. cbn [lay_before].
  unfold lay_pos. rewrite (proj2 (Z.ltb_lt _ _)), Z2Nat.id by lia. lia.
Qed.

Lemma lay_pos_bounds (k : Z) : 0 <= k < N ->
  0 <= lay_pos k /\ (granule dev | lay_pos k) /\ lay_pos k + lay_al k < 2 ^ 32 /\
  lay_pos k + lay_al k <= lay_pos (k + 1).
Proof.
  intros Hk. destruct (lay_before_spec (Z.to_nat k) ltac:(lia)) as [B1 B2].
  destruct (lay_before_spec (Z.to_nat (k + 1)) ltac:(lia)) as [B3 B4].
  destruct (lay_pad_spec k (lay_before (Z.to_nat k)) Hk B1 B2) as (P1 & P2 & _).
  rewrite lay_before_succ in B3, B4 by done.
  unfold lay_pos at 1 2. rewrite (proj2 (Z.ltb_lt k N)) by lia.
  split; [lia|]. split; [by apply Z.divide_add_r|]. split; [lia|].
  unfold lay_pos at 2. rewrite lay_before_succ by done. destruct (Z.ltb_spec (k + 1) N); [|lia].
  pose proof (lay_pad_spec (k + 1) (lay_pos k + lay_al k) ltac:(lia) ltac:(lia) B4). lia.
Qed.

(** The loop before entry [i]: the padding after entry [i - 1] is still open. *)
Record lay_inv (i : Z) (s : scatterlist) : Prop := {
  ly_todo : forall k, i <= k < N -> sg_offset s k = sg_offset s0 k /\ sg_length s k = sg_length s0 k;
  ly_done : forall k, 0 <= k < i -> sg_dma_address s k = lay_off k /\
    sg_dma_len s k = sg_length s0 k /\ sg_offset s k = sg_offset s0 k - lay_off k /\
    sg_length s k = if k =? i - 1 then lay_al k else lay_pos (k + 1) - lay_pos k;
  ly_bus : forall k, sg_bus s k = sg_bus s0 k;
}.

(** What one turn makes of the list; [pl] is the padding, if any, that goes to
    the entry before. *)
Definition lay_step (i : Z) (pad : bool) (pl : Z) (s : scatterlist) : scatterlist :=
  let s1 := s <| sg_dma_address ::= <[i := lay_off i]> |> <| sg_dma_len ::= <[i := sg_length s0 i]> |>
              <| sg_offset ::= alter (fun x => u32 (x - lay_off i)) i |>
              <| sg_length ::= <[i := lay_al i]> |> in
  if pad then s1 <| sg_length ::= alter (fun x => u32 (x + pl)) (i - 1) |> else s1.

Lemma lay_step_frame (i : Z) (pad : bool) (pl : Z) (s : scatterlist) :
  let s2 := lay_step i pad pl s in
  sg_dma_address s2 = <[i := lay_off i]> (sg_dma_address s) /\ sg_dma_len s2 = <[i := sg_length s0 i]> (sg_dma_len s) /\ sg_offset s2 = (alter (fun x => u32 (x - lay_off i)) i (sg_offset s)) /\ sg_bus s2 = sg_bus s.
Proof. unfold lay_step. by destruct pad. Qed.

Lemma lay_step_length (i : Z) (pad : bool) (pl k : Z) (s : scatterlist) :
  sg_length (lay_step i pad pl s) k =
    if k =? i then lay_al i
    else if pad && (k =? i - 1) then u32 (sg_length s k + pl) else sg_length s k.
Proof.
  unfold lay_step. destruct pad; cbn [andb].
  - updates; updates; done.
  - updates; updates; done.
Qed.

(** The entry before [i] reaches up to entry [i] once the padding is added. *)
Lemma lay_pad_closes (i : Z) : 0 < i < N ->
  lay_al (i - 1) + lay_pad i (lay_before (Z.to_nat i)) = lay_pos i - lay_pos (i - 1) /\ lay_pos i - lay_pos (i - 1) < 2 ^ 32 /\ 0 <= lay_al (i - 1) + lay_pad i (lay_before (Z.to_nat i)).
Proof.
  intros Hi. pose proof (lay_before_succ (i - 1) ltac:(lia)) as Hb.
  destruct (lay_pos_bounds (i - 1) ltac:(lia)) as (R1 & _ & R3 & R4).
  destruct (lay_pos_bounds i ltac:(lia)) as (Q1 & _ & Q3 & _).
  replace (i - 1 + 1) with i in * by lia.
  assert (lay_pos i = lay_before (Z.to_nat i) + lay_pad i (lay_before (Z.to_nat i))) as E.
  { unfold lay_pos. by rewrite (proj2 (Z.ltb_lt i N)) by lia. }
  pose proof (lay_al_spec i ltac:(lia)). pose proof (en_len Hen i ltac:(lia)).
  pose proof (lay_off_range i ltac:(lia)).
  pose proof (lay_al_spec (i - 1) ltac:(lia)). pose proof (en_len Hen (i - 1) ltac:(lia)).
  pose proof (lay_off_range (i - 1) ltac:(lia)). lia.
Qed.

Lemma lay_inv_step (i : Z) (pad : bool) (pl : Z) (s : scatterlist) :
  0 <= i < N -> lay_inv i s -> lay_pad i (lay_before (Z.to_nat i)) = (if pad then pl else 0) ->
  lay_inv (i + 1) (lay_step i pad pl s).
Proof.
  intros Hi [H1 H2 H3] Hpad. destruct (lay_step_frame i pad pl s) as (F1 & F2 & F3 & F4).
  destruct (H1 i ltac:(lia)) as [E1 E2]. destruct (lay_off_range i ltac:(lia)) as [O1 O2].
  pose proof (en_off Hen i ltac:(lia)) as Hoff. split.
  - intros k Hk. destruct (H1 k ltac:(lia)) as [G1 G2]. rewrite F3, lay_step_length.
    rewrite (proj2 (Z.eqb_neq k i)), (proj2 (Z.eqb_neq k (i - 1))), andb_false_r by lia.
    split; [updates; done | done].
  - intros k Hk. rewrite F1, F2, F3, lay_step_length. replace (i + 1 - 1) with i by lia.
    destruct (Z.eqb_spec k i) as [->|Hne].
    + split; [updates; done|]. split; [updates; done|]. split; [|done]. updates. rewrite E1, u32_small; lia.
    + destruct (H2 k ltac:(lia)) as (G1 & G2 & G3 & G4).
      split; [updates; done|]. split; [updates; done|]. split; [updates; done|]. rewrite G4.
      destruct (Z.eqb_spec k (i - 1)) as [->|Hk1]; [|by rewrite andb_false_r].
      destruct (lay_pad_closes i ltac:(lia)) as (C1 & C2 & C3). replace (i - 1 + 1) with i by lia.
      rewrite andb_true_r, Hpad in *. destruct pad; [rewrite u32_small; lia | lia].
  - intros k. rewrite F4. by rewrite <- H3.
Qed.

Lemma layout_loop_ok (n : nat) : forall i prev s,
  i + Z.of_nat n = N -> 0 <= i -> (0 < i -> prev = i - 1) -> lay_inv i s ->
  exists s', layout_loop dev n i prev (lay_before (Z.to_nat i)) s = (lay_before (Z.to_nat N), s') /\
    lay_inv N s'.
Proof.
  induction n as [|n IH]; intros i prev s Hn Hi Hprev Hinv.
  { replace N with i by lia. by exists s. }
  destruct (ly_todo _ _ Hinv i ltac:(lia)) as [E1 E2].
  destruct (lay_al_spec i ltac:(lia)) as (A1 & A2 & A3).
  destruct (lay_before_spec (Z.to_nat i) ltac:(lia)) as [B1 B2].
  destruct (lay_pad_spec i (lay_before (Z.to_nat i)) ltac:(lia) B1 B2) as (P1 & P2 & P3).
  destruct (lay_pos_bounds i ltac:(lia)) as (Q1 & Q2 & Q3 & Q4).
  cbn [layout_loop]. rewrite E1, E2. fold (lay_off i). fold (lay_al i).
  set (before := lay_before (Z.to_nat i)) in *.
  set (pl := Z.land _ _). set (pad := negb _ && _).
  assert (Hlp : lay_pad i before = if pad then pl else 0) by done.
  assert (Hpos : lay_pos i = before + lay_pad i before).
  { unfold lay_pos. by rewrite (proj2 (Z.ltb_lt i N)) by lia. }
  assert (Hpad : (if pad then u64 (before + pl) else before) = lay_pos i).
  { rewrite Hpos, Hlp. rewrite Hlp in P1, Hpos. destruct pad; [rewrite u64_small; lia | lia]. }
  assert (Hip : pad = true -> prev = i - 1).
  { intros Hp. apply Hprev. destruct (decide (i = 0)) as [->|]; [|lia]. rewrite Hp in Hlp.
    specialize (P3 eq_refl). subst pad. rewrite andb_true_iff, negb_true_iff, Z.eqb_neq in Hp. lia. }
  rewrite Hpad, (u64_small (lay_pos i + lay_al i)) by lia. rewrite <- lay_before_succ by lia.
  apply IH; [lia|lia|lia|]. rewrite (u32_small (lay_al i)) by lia.
  pose proof (lay_inv_step i pad pl s ltac:(lia) Hinv Hlp) as Hst. unfold lay_step in Hst.
  destruct pad; [by rewrite (Hip eq_refl) | done].
Qed.

Definition lay_size (k : Z) : Z := lay_pos (k + 1) - lay_pos k.

Lemma layout_ok :
  exists s1, layout_loop dev (Z.to_nat N) 0 0 0 s0 = (lay_pos N, s1) /\
    (forall k, 0 <= k < N -> sg_dma_address s1 k = lay_off k /\ sg_dma_len s1 k = sg_length s0 k /\
       sg_length s1 k = lay_size k /\ sg_offset s1 k = sg_offset s0 k - lay_off k) /\
    (forall k, sg_bus s1 k = sg_bus s0 k).
Proof.
  pose proof (en_N Hen).
  destruct (layout_loop_ok (Z.to_nat N) 0 0 s0) as (s1 & E & [H1 H2 H3]); [lia|lia|lia| |].
  { split; [done | lia | done]. }
  change (lay_before (Z.to_nat 0)) with 0 in E.
  assert (HN : lay_pos N = lay_before (Z.to_nat N)) by (unfold lay_pos; by rewrite Z.ltb_irrefl).
  exists s1. rewrite HN. split; [done|]. split; [|done]. intros k Hk.
  destruct (H2 k Hk) as (G1 & G2 & G3 & G4). do 2 (split; [done|]). split; [|done].
  rewrite G4. unfold lay_size. destruct (Z.eqb_spec k (N - 1)) as [->|]; [|done].
  pose proof (lay_before_succ (N - 1) ltac:(lia)) as Hb. replace (N - 1 + 1) with N in * by lia. lia.
Qed.

Lemma lay_laid_out (A : Z) : 0 <= A -> A + lay_pos N < 2 ^ 64 ->
  laid_out dev N A (sg_offset s0) (sg_length s0) lay_size lay_off lay_pos.
Proof.
  intros HA Hend. pose proof (granule_pos dev Hdev). split.
  - intros k Hk. pose proof (lay_off_range k Hk). pose proof (en_off Hen k Hk). lia.
  - apply (en_len Hen).
  - intros k Hk. destruct (lay_pos_bounds k Hk) as (B1 & _ & _ & B4).
    pose proof (lay_al_spec k Hk). unfold lay_size.
    assert (lay_pos (k + 1) < 2 ^ 32).
    { destruct (decide (k + 1 = N)) as [E|].
      - rewrite E. unfold lay_pos. rewrite Z.ltb_irrefl. apply lay_before_spec. pose proof (en_N Hen). lia.
      - destruct (lay_pos_bounds (k + 1) ltac:(lia)) as (? & _ & ? & _).
        pose proof (lay_al_spec (k + 1) ltac:(lia)). pose proof (en_len Hen (k + 1) ltac:(lia)).
        pose proof (lay_off_range (k + 1) ltac:(lia)). lia. }
    lia.
  - apply lay_pos_0.
  - intros k Hk. unfold lay_size. lia.
  - apply (dv_max dev Hdev).
  - done.
  - done.
Qed.

(** The loop of __invalidate_sg on laid-out entries. *)
Lemma invalidate_loop_ok (n : nat) : forall i s,
  i + Z.of_nat n = N -> 0 <= i ->
  (forall k, i <= k < N -> sg_dma_address s k = lay_off k /\ sg_dma_len s k = sg_length s0 k /\
     sg_offset s k = sg_offset s0 k - lay_off k /\ sg_bus s k = false) ->
  (forall k, 0 <= k < i -> sg_offset s k = sg_offset s0 k /\ sg_length s k = sg_length s0 k /\
     sg_dma_address s k = DMA_MAPPING_ERROR /\ sg_dma_len s k = 0) ->
  forall k, 0 <= k < N -> let s' := invalidate_loop n i s in
    sg_offset s' k = sg_offset s0 k /\ sg_length s' k = sg_length s0 k /\
    sg_dma_address s' k = DMA_MAPPING_ERROR /\ sg_dma_len s' k = 0.
Proof.
  induction n as [|n IH]; intros i s Hn Hi H1 H2; [intros k Hk; apply H2; lia|].
  destruct (H1 i ltac:(lia)) as (E1 & E2 & E3 & E4). cbn [invalidate_loop]. rewrite E4, E1.
  pose proof (lay_off_range i ltac:(lia)) as Ho. pose proof (granule_pos dev Hdev) as Hg.
  pose proof (en_len Hen i ltac:(lia)) as Hl. pose proof (en_off Hen i ltac:(lia)) as Hoff.
  rewrite (proj2 (Z.eqb_neq (lay_off i) DMA_MAPPING_ERROR)) by (unfold DMA_MAPPING_ERROR; lia).
  set (s1 := s <| sg_offset ::= _ |>).
  change (sg_dma_len s1 i) with (sg_dma_len s i). rewrite E2, (proj2 (Z.eqb_neq _ _)) by lia.
  subst s1. apply IH; [lia|lia| |].
  - intros k Hk. destruct (H1 k ltac:(lia)) as (G1 & G2 & G3 & G4).
    split; [|split; [|split]]; updates; done.
  - intros k Hk. destruct (decide (k = i)) as [->|Hne].
    + split; [|split; [|split]]; updates; try done. rewrite E3, u32_small; lia.
    + destruct (H2 k ltac:(lia)) as (G1 & G2 & G3 & G4). split; [|split; [|split]]; updates; done.
Qed.
End Layout.

(** The two ways a map of such entries ends. *)
Lemma map_sg_cases (dev : dma_device) (ans : iova_answer) (N : Z) (s0 : scatterlist) :
  dma_device_ok dev -> entries_ok dev N s0 ->
  let iova := rknpu_iommu_dma_alloc_iova dev ans (lay_pos dev N s0 N) (dma_get_mask dev) false in
  iova + lay_pos dev N s0 N < 2 ^ 64 ->
  let r := rknpu_iommu_dma_map_sg dev ans (Z.to_nat N) s0 in
  (mr_mapped r = None /\
    (forall k, 0 <= k < N -> sg_offset (mr_sg r) k = sg_offset s0 k /\
      sg_length (mr_sg r) k = sg_length s0 k /\ sg_dma_address (mr_sg r) k = DMA_MAPPING_ERROR /\
      sg_dma_len (mr_sg r) k = 0) /\
    mr_freed r = if iova =? 0 then None else Some (FreeIova (Z.shiftr iova (iova_shift dev)))) \/
  (iova <> 0 /\ mr_mapped r = Some (iova, lay_pos dev N s0 N) /\
    laid_out dev N iova (sg_offset s0) (sg_length s0) (lay_size dev N s0) (lay_off dev s0) (lay_pos dev N s0) /\
    exists cur cl, fin_inv dev N iova (sg_offset s0) (sg_length s0) (lay_size dev N s0) (lay_off dev s0)
      (lay_pos dev N s0) N (mr_ret r) cur cl (iova + lay_pos dev N s0 N) (mr_sg r)).
Proof.
  intros Hd He iova Hend r. subst r. unfold rknpu_iommu_dma_map_sg. pose proof (en_N dev N s0 He) as HN.
  destruct (layout_ok dev N s0 Hd He) as (s1 & E & Hs1 & Hb1). rewrite E.
  assert (Hpos : 0 < lay_pos dev N s0 N).
  { pose proof (lay_pos_bounds dev N s0 Hd He (N - 1) ltac:(lia)) as (? & _ & _ & B).
    pose proof (lay_al_spec dev N s0 Hd He (N - 1) ltac:(lia)).
    pose proof (en_len dev N s0 He (N - 1) ltac:(lia)).
    pose proof (lay_off_range dev N s0 Hd He (N - 1) ltac:(lia)).
    replace (N - 1 + 1) with N in B by lia. lia. }
  rewrite (proj2 (Z.eqb_neq _ _)) by lia. fold iova.
  assert (Hinval : forall k, 0 <= k < N -> let s' := invalidate_sg (Z.to_nat N) s1 in
    sg_offset s' k = sg_offset s0 k /\ sg_length s' k = sg_length s0 k /\
    sg_dma_address s' k = DMA_MAPPING_ERROR /\ sg_dma_len s' k = 0).
  { apply (invalidate_loop_ok dev N s0 Hd He); [lia|lia| |lia]. intros k Hk.
    destruct (Hs1 k Hk) as (G1 & G2 & G3 & G4). rewrite Hb1, (en_bus dev N s0 He k Hk). done. }
  destruct (Z.eqb_spec iova 0) as [Hz|Hz]; cbn [mr_sg mr_mapped mr_freed mr_ret].
  { left. done. }
  destruct (_ || _); cbn [mr_sg mr_mapped mr_freed mr_ret]; [left; done|].
  assert (HA : 0 <= iova).
  { subst iova. unfold rknpu_iommu_dma_alloc_iova. destruct (alloc_iova _ _ _); [apply u64_range|done]. }
  pose proof (lay_laid_out dev N s0 Hd He iova HA Hend) as HL.
  destruct (finalise_loop_ok dev N iova _ _ _ _ _ (Z.to_nat N) 0 0 0 0 iova s1 HL)
    as (c & cur & cl & s2 & Ef & Hfin); [|lia|].
  { split; try done; try lia.
    - rewrite (lay_pos_0 dev N s0 Hd He). lia.
    - intros k Hk. rewrite Hb1. by apply (en_bus dev N s0 He).
    - pose proof (en_len dev N s0 He 0 ltac:(lia)). lia. }
  unfold finalise_sg. rewrite Ef. cbn [mr_sg mr_mapped mr_freed mr_ret].
  right. split; [done|]. split; [done|]. split; [done|]. by exists cur, cl.
Qed.

(** C27: rknpu_iommu_dma_map_sg (the path that limits the IOVA alignment), on
    entries that fit, leaves the offset and length of every entry as they
    were, whether it succeeds or fails.  When it succeeds it has mapped one
    range, the layout of the entries from [iova] on, and the segments it returns
    name exactly the bytes of the entries, in order, each segment not empty and
    no longer than the device allows; when it fails every DMA field is invalid
    and the range is freed. *)
Theorem map_sg_segments_name_entries (dev : dma_device) (ans : iova_answer) (N : Z) (s0 : scatterlist) :
  dma_device_ok dev -> entries_ok dev N s0 ->
  let iova := rknpu_iommu_dma_alloc_iova dev ans (lay_pos dev N s0 N) (dma_get_mask dev) false in
  iova + lay_pos dev N s0 N < 2 ^ 64 ->
  let r := rknpu_iommu_dma_map_sg dev ans (Z.to_nat N) s0 in
  (forall k, 0 <= k < N -> sg_offset (mr_sg r) k = sg_offset s0 k /\
     sg_length (mr_sg r) k = sg_length s0 k) /\
  match mr_mapped r with
  | Some range =>
      range = (iova, lay_pos dev N s0 N) /\ 1 <= mr_ret r <= N /\
      bytes_of (sg_dma_address (mr_sg r)) (sg_dma_len (mr_sg r)) (mr_ret r) =
        bytes_of (fun k => iova + lay_pos dev N s0 k + lay_off dev s0 k) (sg_length s0) N /\
      (forall j, 0 <= j < mr_ret r -> 0 < sg_dma_len (mr_sg r) j <= dma_get_max_seg_size dev) /\
      (forall j, mr_ret r <= j < N -> sg_dma_len (mr_sg r) j = 0)
  | None =>
      (forall k, 0 <= k < N -> sg_dma_address (mr_sg r) k = DMA_MAPPING_ERROR /\
         sg_dma_len (mr_sg r) k = 0) /\
      (mr_freed r = if iova =? 0 then None else Some (FreeIova (Z.shiftr iova (iova_shift dev))))
  end.
Proof.
  intros Hd He iova Hend r. pose proof (en_N dev N s0 He) as HN.
  destruct (map_sg_cases dev ans N s0 Hd He Hend)
    as [(Hm & Hk & Hf)|(_ & Hm & _ & cur & cl & [F1 F2 F3 F4 F5 F6 F7 F8 F9 F10 F11 F12 F13 F14])];
    subst r; rewrite Hm.
  - split; [|split; [|done]]; intros k Hk'; by destruct (Hk k Hk') as (? & ? & ? & ?).
  - split; [intros k Hk; by apply F5|]. split; [done|]. destruct (F7 HN) as [_ Hc].
    split; [done|]. split; [exact F8|]. split; [exact F9|exact F10].
Qed.

Lemma find_end_ok (n : nat) (c : Z) (s : scatterlist) : forall i e,
  0 <= i -> i <= c <= i + Z.of_nat n ->
  (forall k, 0 <= k < i + Z.of_nat n -> sg_bus s k = false) ->
  (forall j, 0 <= j < c -> 0 < sg_dma_len s j) ->
  (forall j, c <= j < i + Z.of_nat n -> sg_dma_len s j = 0) ->
  find_end n i e s =
    ((if i <? c then u64 (sg_dma_address s (c - 1) + sg_dma_len s (c - 1)) else e), s).
Proof.
  induction n as [|n IH]; intros i e Hi Hc Hb Hp Hz; cbn [find_end].
  { by rewrite (proj2 (Z.ltb_ge i c)) by lia. }
  rewrite Hb by lia. destruct (Z.ltb_spec i c) as [Hlt|Hge].
  - rewrite (proj2 (Z.eqb_neq _ _)) by (specialize (Hp i ltac:(lia)); lia).
    rewrite IH; [|lia|lia|intros k Hk; apply Hb; lia|done|intros j Hj; apply Hz; lia].
    destruct (Z.ltb_spec (i + 1) c) as [|Hlast]; [done|]. by replace (c - 1) with i by lia.
  - rewrite Hz by lia. done.
Qed.

(** Aligning past a multiple of the granule. *)
Lemma iova_align_add (dev : dma_device) (x y : Z) :
  dma_device_ok dev -> (granule dev | x) -> 0 <= x -> 0 <= y -> x + y + granule dev < 2 ^ 64 ->
  iova_align dev (x + y) = x + iova_align dev y.
Proof.
  intros Hd [q ->] Hx Hy Hb. pose proof (granule_pos dev Hd) as Hg. unfold iova_align, round_down.
  rewrite !u64_small by lia. replace (q * granule dev + y + granule dev - 1)
    with (q * granule dev + (y + granule dev - 1)) by lia. rewrite Z.div_add_l by lia. lia.
Qed.

(** Unmapping a list of [c] segments that starts [off] bytes into the granule at
    [iova] and ends at [iova + top]. *)
Lemma unmap_segments (dev : dma_device) (n : nat) (c iova off top : Z) (s : scatterlist) :
  dma_device_ok dev -> (granule dev | iova) -> 0 <= iova -> 0 <= off < granule dev ->
  0 < c <= Z.of_nat n -> (forall k, 0 <= k < Z.of_nat n -> sg_bus s k = false) ->
  (forall j, 0 <= j < c -> 0 < sg_dma_len s j) ->
  (forall j, c <= j < Z.of_nat n -> sg_dma_len s j = 0) ->
  sg_dma_address s 0 = iova + off ->
  sg_dma_address s (c - 1) + sg_dma_len s (c - 1) = iova + top ->
  0 < top -> iova + top + granule dev < 2 ^ 64 ->
  (rknpu_iommu_dma_unmap_sg dev n s).1 =
    Some (iova, iova_align dev top, FreeIova (Z.shiftr iova (iova_shift dev))).
Proof.
  intros Hd Hdiv Hi Hoff Hc Hb Hp Hz Hstart Hend Htop Hmax. pose proof (granule_pos dev Hd) as Hg.
  unfold rknpu_iommu_dma_unmap_sg.
  assert (find_start n 0 s = (iova + off, 0, s)) as ->.
  { destruct n; [lia|]. cbn [find_start]. rewrite Hb by lia.
    rewrite (proj2 (Z.eqb_neq _ _)) by (specialize (Hp 0 ltac:(lia)); lia). by rewrite Hstart. }
  change (Z.to_nat 0) with 0%nat. rewrite Nat.sub_0_r.
  rewrite (find_end_ok n c s 0 0);
    [|lia|lia|intros k Hk; apply Hb; lia|intros j Hj; apply Hp; lia|intros j Hj; apply Hz; lia].
  rewrite (proj2 (Z.ltb_lt 0 c)), Hend by lia.
  rewrite (u64_small (iova + top)) by lia. rewrite (proj2 (Z.eqb_neq _ _)) by lia. cbn [fst].
  assert (iova_offset dev (iova + off) = off) as ->.
  { rewrite iova_offset_mod by done. destruct Hdiv as [q ->].
    rewrite Z.add_comm, Z.mod_add by lia. apply Z.mod_small. lia. }
  assert (u64 (u64 (iova + top - (iova + off)) + off) = top) as ->.
  { unfold u64. rewrite Z.add_mod_idemp_l by done. rewrite Z.mod_small; lia. }
  replace (iova + off - off) with iova by lia. by rewrite u64_small by lia.
Qed.

(** A list without segments unmaps nothing. *)
Lemma unmap_nothing (dev : dma_device) (n : nat) (s : scatterlist) :
  (forall k, 0 <= k < Z.of_nat n -> sg_dma_len s k = 0) -> (rknpu_iommu_dma_unmap_sg dev n s).1 = None.
Proof.
  intros Hz. unfold rknpu_iommu_dma_unmap_sg.
  assert (Hend : forall m i e s1, 0 <= i -> i + Z.of_nat m <= Z.of_nat n ->
    sg_dma_len s1 = sg_dma_len s -> (find_end m i e s1).1 = e).
  { induction m as [|m IH]; intros i e s1 Hi Hm Hs; [done|]. cbn [find_end].
    destruct (sg_bus s1 i); [apply IH; [lia|lia|done]|]. by rewrite Hs, Hz by lia. }
  assert (Hstart : forall m i s1, 0 <= i -> i + Z.of_nat m <= Z.of_nat n ->
    sg_dma_len s1 = sg_dma_len s -> i <= (find_start m i s1).1.2 <= i + Z.of_nat m /\
      sg_dma_len (find_start m i s1).2 = sg_dma_len s).
  { induction m as [|m IH]; intros i s1 Hi Hm Hs; [split; [cbn; lia | done]|]. cbn [find_start].
    destruct (sg_bus s1 i); [|split; [destruct (_ =? 0); cbn; lia | by destruct (_ =? 0)]].
    destruct (IH (i + 1) (s1 <| sg_bus ::= <[i := false]> |>)) as [I1 I2]; [lia|lia|done|]. split; [lia|done]. }
  destruct (Hstart n 0 s) as [I1 I2]; [lia|lia|done|].
  destruct (find_start n 0 s) as [[start i] s1]. cbn [fst snd] in *.
  pose proof (Hend (n - Z.to_nat i)%nat i 0 s1 ltac:(lia) ltac:(lia) I2) as He.
  destruct (find_end _ _ _ _) as [e s2]. cbn in He. by subst e.
Qed.

(** Unmapping the list that a map returned takes back the range it mapped,
    if any. *)
Lemma unmap_after_map (dev : dma_device) (ans : iova_answer) (N : Z) (s0 : scatterlist) :
  dma_device_ok dev -> entries_ok dev N s0 ->
  let iova := rknpu_iommu_dma_alloc_iova dev ans (lay_pos dev N s0 N) (dma_get_mask dev) false in
  iova + 2 ^ 33 < 2 ^ 64 -> (granule dev | iova) ->
  let r := rknpu_iommu_dma_map_sg dev ans (Z.to_nat N) s0 in
  (rknpu_iommu_dma_unmap_sg dev (Z.to_nat N) (mr_sg r)).1 =
    option_map (fun range => (range, FreeIova (Z.shiftr range.1 (iova_shift dev)))) (mr_mapped r) /\
  forall range, mr_mapped r = Some range -> range.1 = iova.
Proof.
  intros Hd He iova Hend Hdiv r. subst r. pose proof (en_N dev N s0 He) as HN.
  pose proof (granule_pos dev Hd) as Hg.
  assert (Hlen : 0 <= lay_pos dev N s0 N < 2 ^ 32).
  { unfold lay_pos. rewrite Z.ltb_irrefl. apply (lay_before_spec dev N s0 Hd He). lia. }
  destruct (map_sg_cases dev ans N s0 Hd He ltac:(fold iova; lia))
    as [(Hm & Hk & _)|(_ & Hm & HL & cur & cl & [F1 F2 F3 F4 F5 F6 F7 F8 F9 F10 F11 F12 F13 F14])]; rewrite Hm.
  { split; [|done]. apply unmap_nothing. intros k Hk'. by apply (Hk k); lia. }
  fold iova in HL, F13, F14 |- *. split; [|by intros range [= <-]]. cbn [option_map fst].
  pose proof (lay_pos_bounds dev N s0 Hd He (N - 1) ltac:(lia)) as (Q1 & Q2 & Q3 & _).
  pose proof (lay_before_succ dev N s0 (N - 1) ltac:(lia)) as Hlast.
  replace (N - 1 + 1) with N in Hlast by lia.
  assert (HposN : lay_pos dev N s0 N = lay_pos dev N s0 (N - 1) + lay_al dev s0 (N - 1))
    by (rewrite <- Hlast; unfold lay_pos; by rewrite Z.ltb_irrefl).
  pose proof (lay_al_spec dev N s0 Hd He (N - 1) ltac:(lia)) as (A1 & _ & _).
  pose proof (lay_off_range dev N s0 Hd He (N - 1) ltac:(lia)) as [O1 _].
  pose proof (lay_off_range dev N s0 Hd He 0 ltac:(lia)) as [O2 _].
  pose proof (en_len dev N s0 He (N - 1) ltac:(lia)) as Hl.
  pose proof (lo_A _ _ _ _ _ _ _ _ HL) as HA.
  destruct (F7 HN) as [Hcur Hc]. specialize (F13 HN). specialize (F14 HN). subst cur.
  rewrite (unmap_segments dev (Z.to_nat N) (mr_ret (rknpu_iommu_dma_map_sg dev ans (Z.to_nat N) s0)) iova
    (lay_off dev s0 0) (lay_pos dev N s0 (N - 1) + (sg_length s0 (N - 1) + lay_off dev s0 (N - 1))));
    try done; try lia.
  - rewrite iova_align_add by (done || lia).
    change (iova_align dev (sg_length s0 (N - 1) + lay_off dev s0 (N - 1))) with (lay_al dev s0 (N - 1)).
    by rewrite <- HposN.
  - intros k Hk. apply F4. lia.
  - intros j Hj. apply F9. lia.
  - intros j Hj. apply F10. lia.
  - rewrite F13. unfold in_addr. rewrite (lay_pos_0 dev N s0 Hd He). lia.
  - rewrite F14. unfold in_addr. lia.
Qed.

(** C28: unmapping what a successful map returned unmaps exactly the range that
    was mapped and frees its IOVA. *)
Theorem unmap_recovers_range (dev : dma_device) (ans : iova_answer) (N : Z) (s0 : scatterlist)
    (iova len : Z) :
  dma_device_ok dev -> entries_ok dev N s0 ->
  iova = rknpu_iommu_dma_alloc_iova dev ans (lay_pos dev N s0 N) (dma_get_mask dev) false ->
  iova + 2 ^ 33 < 2 ^ 64 -> (granule dev | iova) ->
  let r := rknpu_iommu_dma_map_sg dev ans (Z.to_nat N) s0 in
  mr_mapped r = Some (iova, len) ->
  (rknpu_iommu_dma_unmap_sg dev (Z.to_nat N) (mr_sg r)).1 =
    Some (iova, len, FreeIova (Z.shiftr iova (iova_shift dev))).
Proof.
  intros Hd He -> Hend Hdiv r Hm. subst r. by rewrite (proj1 (unmap_after_map dev ans N s0 Hd He Hend Hdiv)), Hm.
Qed.

(** A 4 KiB granule, and one of 16 bytes with three entries that end up in one
    segment. *)
Definition example_device : dma_device :=
  {| iova_shift := 12; dma_get_seg_boundary := 2 ^ 32 - 1; dma_get_max_seg_size := 65536;
     dma_get_mask := 2 ^ 40 - 1; bus_dma_limit := 0; force_aperture := true; aperture_end := 2 ^ 32 - 1 |}.
Definition example_small_device : dma_device :=
  {| iova_shift := 4; dma_get_seg_boundary := 2 ^ 32 - 1; dma_get_max_seg_size := 65536;
     dma_get_mask := 2 ^ 40 - 1; bus_dma_limit := 0; force_aperture := true; aperture_end := 2 ^ 32 - 1 |}.
Definition example_iova : iova_answer :=
  {| alloc_iova := fun _ limit => if limit =? 0xfffffff then Some 0x10000 else None;
     alloc_iova_fast := fun _ _ => 0; iommu_map_sg := fun _ => 0x40 |}.
Definition example_list : scatterlist :=
  {| sg_offset := fun k => if k =? 0 then 5 else 0;
     sg_length := fun k => if k =? 0 then 11 else if k =? 1 then 16 else 20;
     sg_dma_address := fun _ => 0; sg_dma_len := fun _ => 0; sg_bus := fun _ => false |}.

Lemma example_device_ok : dma_device_ok example_device.
Proof.
  split; [split; discriminate | | reflexivity].
  exists 32. split; [reflexivity|split; discriminate].
Qed.

Lemma example_small_device_ok : dma_device_ok example_small_device.
Proof.
  split; [split; discriminate | | reflexivity].
  exists 32. split; [reflexivity|split; discriminate].
Qed.

Lemma example_entries_ok : entries_ok example_small_device 3 example_list.
Proof.
  assert (Hk : forall k, 0 <= k < 3 -> k = 0 \/ k = 1 \/ k = 2) by lia.
  split.
  - lia.
  - intros k [->|[->| ->]]%Hk; cbn; lia.
  - intros k [->|[->| ->]]%Hk; cbn; lia.
  - intros k _. reflexivity.
  - vm_compute. reflexivity.
Qed.

Lemma map_sg_segments_name_entries_witness :
  let r := rknpu_iommu_dma_map_sg example_small_device example_iova 3 example_list in
  bytes_of (sg_dma_address (mr_sg r)) (sg_dma_len (mr_sg r)) 1 = seqZ 0x100005 47 /\
  sg_length (mr_sg r) 2 = 20.
Proof.
  intros r.
  destruct (map_sg_segments_name_entries example_small_device example_iova 3 example_list
    example_small_device_ok example_entries_ok) as [H1 H2]; [vm_compute; reflexivity|].
  assert (Hm : exists range, mr_mapped r = Some range) by (eexists; vm_compute; reflexivity).
  assert (Hr : mr_ret r = 1) by (vm_compute; reflexivity).
  change (Z.to_nat 3) with 3%nat in *. fold r in H1, H2.
  split; [|apply (H1 2); split; [discriminate | reflexivity]].
  destruct Hm as [range Hm]. rewrite Hm, Hr in H2. destruct H2 as (_ & _ & H2 & _). rewrite H2.
  vm_compute. reflexivity.
Defined.

Lemma unmap_recovers_range_witness :
  let r := rknpu_iommu_dma_map_sg example_small_device example_iova 3 example_list in
  (rknpu_iommu_dma_unmap_sg example_small_device 3 (mr_sg r)).1 = Some (0x100000, 0x40, FreeIova 0x10000).
Proof.
  intros r. apply (unmap_recovers_range example_small_device example_iova 3 example_list 0x100000 0x40
    example_small_device_ok example_entries_ok).
  - vm_compute. reflexivity.
  - vm_compute. reflexivity.
  - exists 0x10000. vm_compute. reflexivity.
  - vm_compute. reflexivity.
Defined.
