(* ===== verification/Gem.v ===== *)
(** * GEM buffer objects (rknpu_gem.c): allocation and release

    The objects behind the DRM device's memory ioctls: a buffer from the DMA
    API, or a cache part (SRAM or NBUF) followed by DDR pages at an IOVA range
    of its own.  The model counts what an object holds of the kernel in a
    ledger, and keeps the SRAM allocator, the IOMMU translation and the domain
    state that the operations change.  The build is the DKMS one for kernels
    from 6.18 on; CONFIG_NO_GKI and the module parameter
    dkms_force_contig_alloc are parameters. *)

From S2P Require Import Prelude Ledger Mapping Config Domain Mm Sg.

(** ** Data *)

(** enum rknpu_cache_type. *)
Inductive rknpu_cache_type := RKNPU_CACHE_SRAM | RKNPU_CACHE_NBUF.

(** What an object can hold of the kernel, by the object's address, the pfn of
    the IOVA range, or the arguments of dma_alloc_attrs and dma_free_attrs. *)
Inductive gem_resource :=
  | HeldObject (p : Z)                       (* kzalloc *)
  | HeldGem (p : Z)                          (* drm_gem_object_init *)
  | HeldIova (pfn : Z)
  | HeldDma (size cookie addr attrs : Z)
  | HeldPageArray (p : Z)                    (* rknpu_gem_alloc_page *)
  | HeldGemPages (p : Z)                     (* drm_gem_get_pages *)
  | HeldSgStruct (p : Z)                     (* the struct sg_table *)
  | HeldSgTable (p : Z).                     (* its entries *)
#[export] Instance gem_resource_eq : EqDecision gem_resource.
Proof. solve_decision. Defined.

(** struct rknpu_gem_object; [go_pages] is what the page array shows, NULL is
    [None].  [go_import] is import_attach, [go_refcount] base.refcount. *)
Record rknpu_gem_object := {
  go_refcount : Z;
  go_import : bool;
  go_flags : Z;
  go_size : Z;
  go_sram_size : Z;
  go_nbuf_size : Z;
  go_sram_obj : option rknpu_mm_obj;
  go_iova_start : Z;
  go_iova_size : Z;
  go_cookie : Z;
  go_kv_addr : Z;
  go_dma_addr : Z;
  go_dma_attrs : Z;
  go_num_pages : Z;
  go_pages : option (list Z);
  go_sgt : option (list sg_entry);
  go_iommu_domain_id : Z;
  go_core_mask : Z;
  go_cache_with_sgt : bool }.
#[export] Instance rknpu_gem_object_settable : Settable rknpu_gem_object := {| settable := fun o =>
  Build_rknpu_gem_object (go_refcount o) (go_import o) (go_flags o) (go_size o) (go_sram_size o)
    (go_nbuf_size o) (go_sram_obj o) (go_iova_start o) (go_iova_size o) (go_cookie o) (go_kv_addr o)
    (go_dma_addr o) (go_dma_attrs o) (go_num_pages o) (go_pages o) (go_sgt o) (go_iommu_domain_id o)
    (go_core_mask o) (go_cache_with_sgt o) |}.

(** An object fresh from kzalloc, initialised with its size. *)
Definition new_gem_object (size : Z) : rknpu_gem_object :=
  {| go_refcount := 1; go_import := false; go_flags := 0; go_size := size; go_sram_size := 0;
     go_nbuf_size := 0; go_sram_obj := None; go_iova_start := 0; go_iova_size := 0; go_cookie := 0;
     go_kv_addr := 0; go_dma_addr := 0; go_dma_attrs := 0; go_num_pages := 0; go_pages := None;
     go_sgt := None; go_iommu_domain_id := 0; go_core_mask := 0; go_cache_with_sgt := false |}.

(** struct rknpu_dkms_gem_range. *)
Record rknpu_dkms_gem_range := { gr_obj : Z; gr_base : Z; gr_size : Z }.

(** The part of struct rknpu_device that probe fills in for good; an entry of
    [gd_cache_sgt] has its offset from the start of the NBUF as [s_phys]. *)
Record gem_device := {
  gd_dma : dma_device;
  gd_dma_mask : Z;                           (* config->dma_mask *)
  gd_num_irqs : Z;                           (* config->num_irqs *)
  gd_sram_start : Z;
  gd_sram_size : Z;
  gd_nbuf_start : Z;
  gd_nbuf_size : Z;
  gd_sram_base_io : Z;                       (* the ioremapped addresses *)
  gd_nbuf_base_io : Z;
  gd_cache_sgt : Z -> option (list sg_entry) }.

(** [gem_handles] maps a file and a handle to the object; probe made [sram_mm]
    when [gd_sram_size] is not 0.  [page_table] is that of the IOMMU's domain: the
    driver never leaves its first one. *)
Record gem_world := {
  gem_objs : gmap Z rknpu_gem_object;
  gem_ranges : list rknpu_dkms_gem_range;
  gem_handles : gmap (Z * Z) Z;
  sram_mm : rknpu_mm;
  page_table : translation;
  held : ledger gem_resource;
  domains : iommu_state }.
#[export] Instance gem_world_settable : Settable gem_world := {| settable := fun w =>
  Build_gem_world (gem_objs w) (gem_ranges w) (gem_handles w) (sram_mm w) (page_table w) (held w)
    (domains w) |}.

(** The bits of a gfp mask the driver touches. *)
Record gem_gfp := { gfp_zero : bool; gfp_dma : bool }.

(** What the kernel answers to one operation: the object's address (NULL:
    [None]), drm_gem_object_init, the descriptor of rknpu_mm_alloc, the IOVA
    allocator, iommu_map, drm_gem_get_pages, drm_prime_pages_to_sg, the page
    array, dma_alloc_attrs (cookie and address), the table's kzalloc,
    dma_get_sgtable_attrs, drm_prime_sg_to_page_array (the page array it fills
    in), drm_gem_handle_create and the kzalloc of a tracked range. *)
Record gem_answer := {
  ga_kzalloc : option Z;
  ga_init : Z;
  ga_mm_kzalloc : bool;
  ga_iova : iova_answer;
  ga_iommu_map : Z -> Z -> Z -> Z;
  ga_get_pages : Z + list Z;
  ga_pages_to_sg : Z + list sg_entry;
  ga_page_array : bool;
  ga_dma_alloc : gem_gfp -> Z -> Z -> option (Z * Z);
  ga_sgt_kzalloc : bool;
  ga_get_sgtable : Z + list sg_entry;
  ga_sg_to_pages : Z + list Z;
  ga_handle : Z + Z;
  ga_track : bool }.

Definition DMA_ATTR_WRITE_COMBINE : Z := 4.
Definition DMA_ATTR_NO_KERNEL_MAPPING : Z := 16.
Definition DMA_ATTR_FORCE_CONTIGUOUS : Z := 64.

Definition hold (r : gem_resource) (w : gem_world) : gem_world := w <| held ::= acquire r |>.
Definition drop (r : gem_resource) (w : gem_world) : gem_world := w <| held ::= release r |>.

Section Gem.
Context {BO : BitmapOps} {iommu : IommuDomain}.
Context (no_gki force_contig : bool) (gd : gem_device).

(** ** Buffers from the DMA API *)

(** The attributes rknpu_gem_alloc_buf computes from the flags. *)
Definition dma_attrs_of (flags : Z) : Z :=
  let a := if has_flag flags RKNPU_MEM_NON_CONTIGUOUS then 0 else DMA_ATTR_FORCE_CONTIGUOUS in
  let a := if has_flag flags RKNPU_MEM_CACHEABLE then a
           else if has_flag flags RKNPU_MEM_WRITE_COMBINE then Z.lor a DMA_ATTR_WRITE_COMBINE else a in
  if has_flag flags RKNPU_MEM_KERNEL_MAPPING then a else Z.lor a DMA_ATTR_NO_KERNEL_MAPPING.

(** [!iommu_en || dma_mask <= DMA_BIT_MASK(32) || (flags & RKNPU_MEM_DMA32)]. *)
Definition needs_dma32 (flags : Z) (w : gem_world) : bool :=
  negb (iommu_en (domains w)) || (gd_dma_mask gd <=? DMA_BIT_MASK 32) || has_flag flags RKNPU_MEM_DMA32.

(** After dma_alloc_attrs: the scatter table and the page array, or the error
    paths err_free_sg_table, err_free_sgt, err_free_dma and err_free. *)
Definition alloc_buf_table (ans : gem_answer) (p : Z) (o : rknpu_gem_object) (w : gem_world)
  : Z * rknpu_gem_object * gem_world :=
  let err_free w := drop (HeldPageArray p) w in
  let err_free_dma w :=
    err_free (drop (HeldDma (go_size o) (go_cookie o) (go_dma_addr o) (go_dma_attrs o)) w) in
  if negb (ga_sgt_kzalloc ans) then (-ENOMEM, o, err_free_dma w)
  else
    let w := hold (HeldSgStruct p) w in
    match ga_get_sgtable ans with
    | inl e => (e, o, err_free_dma (drop (HeldSgStruct p) w))
    | inr sgt =>
        let w := hold (HeldSgTable p) w in
        match ga_sg_to_pages ans with
        | inl e => (e, o, err_free_dma (drop (HeldSgStruct p) (drop (HeldSgTable p) w)))
        | inr pages => (0, o <| go_pages := Some pages |> <| go_sgt := Some sgt |>, w)
        end
    end.

Definition rknpu_gem_alloc_buf (ans : gem_answer) (p : Z) (o : rknpu_gem_object) (w : gem_world)
  : Z * rknpu_gem_object * gem_world :=
  if negb (go_dma_addr o =? 0) then (0, o, w)
  else
    let flags := if force_contig then Z.ldiff (go_flags o) RKNPU_MEM_NON_CONTIGUOUS else go_flags o in
    let attrs := dma_attrs_of flags in
    let o := o <| go_flags := flags |> <| go_dma_attrs := attrs |> in
    let gfp := {| gfp_zero := has_flag flags RKNPU_MEM_ZEROING; gfp_dma := needs_dma32 flags w |} in
    if negb (ga_page_array ans) then (-ENOMEM, o <| go_pages := None |>, w)
    else
      let w := hold (HeldPageArray p) w in
      let o := o <| go_pages := Some [] |> in
      let allocated (o : rknpu_gem_object) (buf : Z * Z) :=
        let w := hold (HeldDma (go_size o) buf.1 buf.2 (go_dma_attrs o)) w in
        let o := o <| go_cookie := buf.1 |> <| go_dma_addr := buf.2 |> in
        let o := if has_flag (go_flags o) RKNPU_MEM_KERNEL_MAPPING then o <| go_kv_addr := buf.1 |> else o in
        alloc_buf_table ans p o w in
      match ga_dma_alloc ans gfp (go_size o) attrs with
      | Some buf => allocated o buf
      | None =>
          if negb (has_flag flags RKNPU_MEM_NON_CONTIGUOUS) && iommu_en (domains w) then
            let attrs := Z.ldiff attrs DMA_ATTR_FORCE_CONTIGUOUS in
            let o := o <| go_dma_attrs := attrs |>
                       <| go_flags := Z.lor flags RKNPU_MEM_NON_CONTIGUOUS |> in
            match ga_dma_alloc ans gfp (go_size o) attrs with
            | Some buf => allocated o buf
            | None => (-EINVAL, o, drop (HeldPageArray p) w)
            end
          else (-EINVAL, o, drop (HeldPageArray p) w)
      end.

Definition rknpu_gem_free_buf (p : Z) (o : rknpu_gem_object) (w : gem_world)
  : rknpu_gem_object * gem_world :=
  if go_dma_addr o =? 0 then (o, w)
  else
    let w := drop (HeldSgStruct p) (drop (HeldSgTable p) w) in
    let w := drop (HeldDma (go_size o) (go_cookie o) (go_dma_addr o) (go_dma_attrs o)) w in
    (o <| go_dma_addr := 0 |>, drop (HeldPageArray p) w).

(** ** Buffers with a cache part *)

(** The address and the size of the cache part. *)
Definition cache_region (t : rknpu_cache_type) (o : rknpu_gem_object) (w : gem_world) : Z * Z :=
  match t with
  | RKNPU_CACHE_SRAM =>
      let start := match go_sram_obj o with Some m => range_start m | None => 0 end in
      (gd_sram_start gd + u32 (start * chunk_size (sram_mm w)), go_sram_size o)
  | RKNPU_CACHE_NBUF => (gd_nbuf_start gd, go_nbuf_size o)
  end.

(** [rknpu_dev->cache_sgt[index]], the entries at their physical addresses. *)
Definition cache_sgt_index (core_mask : Z) : Z :=
  if core_mask =? RKNPU_CORE0_MASK then 0 else if core_mask =? RKNPU_CORE1_MASK then 1 else 0.
Definition cache_entries (o : rknpu_gem_object) : list sg_entry :=
  (fun s => {| s_phys := gd_nbuf_start gd + s_phys s; s_length := s_length s |})
    <$> default [] (gd_cache_sgt gd (cache_sgt_index (go_core_mask o))).

Definition rknpu_iommu_map_with_cache_sgt (ans : gem_answer) (o : rknpu_gem_object) (cache_size : Z)
    (t : translation) : Z * translation :=
  let '(ret, _, t) := map_entries (ga_iommu_map ans) (go_iova_start o) cache_size (cache_entries o) 0 t in
  (ret, t).

Definition iova_aligned (o : rknpu_gem_object) : bool :=
  negb (has_flag (go_flags o) RKNPU_MEM_IOMMU_LIMIT_IOVA_ALIGNMENT).

(** iommu_unmap. *)
Definition iommu_unmap (addr size : Z) (w : gem_world) : gem_world :=
  w <| page_table ::= unmap_range addr size |>.

(** rknpu_iommu_dma_free_iova: the pfn it gives back. *)
Definition drop_iova (o : rknpu_gem_object) (w : gem_world) : gem_world :=
  match rknpu_iommu_dma_free_iova (gd_dma gd) (go_iova_start o) (go_iova_size o) (iova_aligned o) with
  | FreeIova pfn | FreeIovaFast pfn _ => drop (HeldIova pfn) w
  end.

(** The mapping of the cache part. *)
Definition map_cache (ans : gem_answer) (phys cache_size : Z) (o : rknpu_gem_object) (w : gem_world)
  : Z * gem_world :=
  if go_cache_with_sgt o then
    let '(ret, t) := rknpu_iommu_map_with_cache_sgt ans o cache_size (page_table w) in
    (ret, w <| page_table := t |>)
  else
    let ret := ga_iommu_map ans (go_iova_start o) phys cache_size in
    (ret, if ret =? 0 then w <| page_table ::= map_range (go_iova_start o) phys cache_size |> else w).

(** From drm_gem_get_pages on: the DDR pages behind the cache part, or the error
    paths sgl_unmap, put_pages, cache_unmap and free_iova. *)
Definition alloc_ddr_part (ans : gem_answer) (p cache_size : Z) (o : rknpu_gem_object) (w : gem_world)
  : Z * rknpu_gem_object * gem_world :=
  let cache_unmap w := drop_iova o (iommu_unmap (go_iova_start o) cache_size w) in
  let put_pages w := cache_unmap (drop (HeldGemPages p) w) in
  match ga_get_pages ans with
  | inl e => (e, o, cache_unmap w)
  | inr pages =>
      let w := hold (HeldGemPages p) w in
      let o := o <| go_pages := Some pages |> <| go_num_pages := Z.shiftr (go_size o) PAGE_SHIFT |> in
      match ga_pages_to_sg ans with
      | inl e => (e, o, put_pages w)
      | inr sgt =>
          let w := hold (HeldSgTable p) (hold (HeldSgStruct p) w) in
          let o := o <| go_sgt := Some sgt |> in
          let ddr := u64 (go_iova_start o + cache_size) in
          let '(ret, rest, t) := map_entries (ga_iommu_map ans) ddr (go_size o) sgt 0 (page_table w) in
          let w := w <| page_table := t |> in
          if negb (ret =? 0) then
            (ret, o, put_pages (drop (HeldSgStruct p) (drop (HeldSgTable p)
                       (iommu_unmap ddr (u64 (go_size o - rest)) w))))
          else (0, o, w)
      end
  end.

Definition rknpu_gem_alloc_buf_with_cache (ans : gem_answer) (p : Z) (o : rknpu_gem_object)
    (t : rknpu_cache_type) (w : gem_world) : Z * rknpu_gem_object * gem_world :=
  let '(phys, cache_size) := cache_region t o w in
  match attached (domains w) with
  | None => (-EINVAL, o, w)
  | Some _ =>
      let size := iova_align (gd_dma gd) (u64 (cache_size + go_size o)) in
      let iova := rknpu_iommu_dma_alloc_iova (gd_dma gd) (ga_iova ans) size
                    (dma_get_mask (gd_dma gd)) (iova_aligned o) in
      let o := o <| go_iova_size := size |> <| go_iova_start := iova |> in
      if iova =? 0 then (-ENOMEM, o, w)
      else
        let w := hold (HeldIova (Z.shiftr iova (iova_shift (gd_dma gd)))) w in
        let '(ret, w) := map_cache ans phys cache_size o w in
        if negb (ret =? 0) then (ret, o, drop_iova o w)
        else
          let o := o <| go_dma_addr := iova |> in
          if go_size o =? 0 then (0, o, w) else alloc_ddr_part ans p cache_size o w
  end.

Definition rknpu_gem_free_buf_with_cache (p : Z) (o : rknpu_gem_object) (t : rknpu_cache_type)
    (w : gem_world) : gem_world :=
  let cache_size := match t with RKNPU_CACHE_SRAM => go_sram_size o | RKNPU_CACHE_NBUF => go_nbuf_size o end in
  let w :=
    match attached (domains w) with
    | None => w
    | Some _ =>
        let w := iommu_unmap (go_iova_start o) cache_size w in
        let w := if 0 <? go_size o
                 then iommu_unmap (u64 (go_iova_start o + cache_size)) (go_size o) w else w in
        drop_iova o w
    end in
  let w := match go_pages o with Some _ => drop (HeldGemPages p) w | None => w end in
  match go_sgt o with
  | Some _ => drop (HeldSgStruct p) (drop (HeldSgTable p) w)
  | None => w
  end.

(** ** Objects *)

(** rknpu_gem_init: the object's address and content, or an error.  The mask it
    sets on the shmem mapping is not part of the state. *)
Definition rknpu_gem_init (ans : gem_answer) (size : Z) (w : gem_world)
  : (Z + Z * rknpu_gem_object) * gem_world :=
  match ga_kzalloc ans with
  | None => (inl (-ENOMEM), w)
  | Some p =>
      let w := hold (HeldObject p) w in
      if ga_init ans <? 0 then (inl (ga_init ans), drop (HeldObject p) w)
      else (inr (p, new_gem_object size), hold (HeldGem p) w)
  end.

Definition rknpu_gem_release (p : Z) (w : gem_world) : gem_world :=
  drop (HeldObject p) (drop (HeldGem p) w).

Definition domain_get_switch (id : Z) (w : gem_world) : option (Z * gem_world) :=
  option_map (fun r => (r.1, w <| domains := r.2 |>)) (domain_get id (domains w)).
Definition domain_release (w : gem_world) : gem_world := w <| domains ::= domain_put |>.

(** The SRAM branch of rknpu_gem_object_create up to the allocation of chunks:
    the bytes of SRAM to use, 0 for none; [None] when the search does not end.
    A descriptor that a failed allocation left dangling is never read, as
    sram_size stays 0; it is [None] here. *)
Definition sram_take (ans : gem_answer) (ddr_size sram_size : Z) (o : rknpu_gem_object) (w : gem_world)
  : option (Z * rknpu_gem_object * gem_world) :=
  let sram_size := if negb (sram_size =? 0) then u64 (round_up sram_size PAGE_SIZE) else sram_size in
  let o := o <| go_cache_with_sgt := false |> in
  let free := u32 (free_chunks (sram_mm w) * chunk_size (sram_mm w)) in
  if 0 <? free then
    let real := if negb (sram_size =? 0) && (sram_size <? ddr_size) then sram_size else ddr_size in
    let real := if free <? real then free else real in
    match rknpu_mm_alloc (ga_mm_kzalloc ans) (sram_mm w) (u32 real) with
    | None => None
    | Some (ret, mm, slot) =>
        let w := w <| sram_mm := mm |> in
        let o := match slot with
                 | ObjPtr m => o <| go_sram_obj := Some m |>
                 | _ => o <| go_sram_obj := None |>
                 end in
        Some (if negb (ret =? 0) then 0 else real, o, w)
    end
  else Some (0, o, w).

(** The NBUF branch: the bytes of NBUF to use. *)
Definition nbuf_take (ddr_size core_mask : Z) (o : rknpu_gem_object) : Z * rknpu_gem_object :=
  let one_core := (core_mask =? RKNPU_CORE_AUTO_MASK) || (core_mask =? RKNPU_CORE0_MASK) ||
    (core_mask =? RKNPU_CORE1_MASK) in
  let with_sgt := one_core && bool_decide (is_Some (gd_cache_sgt gd 0)) in
  let nbuf_size := if one_core then gd_nbuf_size gd / gd_num_irqs gd else gd_nbuf_size gd in
  (if ddr_size <=? nbuf_size then ddr_size else nbuf_size,
   o <| go_cache_with_sgt := with_sgt |> <| go_core_mask := core_mask |>).

(** [None]: the domain switch waits for ever, or the SRAM search does not end. *)
Definition rknpu_gem_object_create (ans : gem_answer) (flags size sram_size domain_id core_mask : Z)
    (w : gem_world) : option ((Z + Z) * gem_world) :=
  if size =? 0 then Some (inl (-EINVAL), w)
  else
    let ddr_size := u64 (round_up size PAGE_SIZE) in
    match rknpu_gem_init ans ddr_size w with
    | (inl e, w) => Some (inl e, w)
    | (inr (p, o), w) =>
        match domain_get_switch domain_id w with
        | None => None
        | Some (ret, w) =>
            if negb (ret =? 0) then Some (inl (-EINVAL), rknpu_gem_release p w)
            else
              let flags := if negb (iommu_en (domains w)) && has_flag flags RKNPU_MEM_NON_CONTIGUOUS
                           then Z.ldiff flags RKNPU_MEM_NON_CONTIGUOUS else flags in
              let o := o <| go_iommu_domain_id := domain_id |> <| go_flags := flags |> in
              let gem_release (e : Z) w := Some (inl e, domain_release (rknpu_gem_release p w)) in
              let created o w := Some (inr p, domain_release (w <| gem_objs ::= <[p := o]> |>)) in
              let from_ddr o w :=
                if 0 <? ddr_size then
                  let '(ret, o, w) := rknpu_gem_alloc_buf ans p o w in
                  if ret <? 0 then gem_release ret w else created o w
                else created o w in
              if has_flag flags RKNPU_MEM_TRY_ALLOC_SRAM && (0 <? gd_sram_size gd) then
                match sram_take ans ddr_size sram_size o w with
                | None => None
                | Some (real, o, w) =>
                    if 0 <? real then
                      let o := o <| go_sram_size := real |> in
                      let '(ret, o, w) := rknpu_gem_alloc_buf_with_cache ans p o RKNPU_CACHE_SRAM w in
                      if ret <? 0
                      then gem_release ret (w <| sram_mm ::= (fun mm => (rknpu_mm_free mm (go_sram_obj o)).2) |>)
                      else created o w
                    else from_ddr o w
                end
              else if no_gki && has_flag flags RKNPU_MEM_TRY_ALLOC_NBUF && (0 <? gd_nbuf_size gd) then
                let '(nbuf_size, o) := nbuf_take ddr_size core_mask (o <| go_cache_with_sgt := false |>) in
                if 0 <? nbuf_size then
                  let o := o <| go_nbuf_size := nbuf_size |> in
                  let '(ret, o, w) := rknpu_gem_alloc_buf_with_cache ans p o RKNPU_CACHE_NBUF w in
                  if ret <? 0 then gem_release ret w else created o w
                else from_ddr o w
              else from_ddr o w
        end
    end.

(** The [do ... while] of rknpu_gem_object_destroy and rknpu_gem_destroy_ioctl:
    at most three attempts at the domain; [fuel] is the attempts left. *)
Fixpoint domain_get_retry (fuel : nat) (id : Z) (w : gem_world) : option (Z * gem_world) :=
  match domain_get_switch id w with
  | None => None
  | Some (ret, w) =>
      if ret =? 0 then Some (0, w)
      else match fuel with
           | S ((S _) as fuel) => domain_get_retry fuel id w
           | _ => Some (ret, w)
           end
  end.

(** What an object [o] at [p] gives back; drm_prime_gem_destroy returns the
    table of an imported one to its exporter. *)
Definition gem_free_parts (p : Z) (o : rknpu_gem_object) (w : gem_world) : gem_world :=
  if go_import o then drop (HeldPageArray p) w
  else if 0 <? go_sram_size o then
    let w := match go_sram_obj o with
             | Some m => w <| sram_mm ::= (fun mm => (rknpu_mm_free mm (Some m)).2) |>
             | None => w
             end in
    rknpu_gem_free_buf_with_cache p o RKNPU_CACHE_SRAM w
  else if no_gki && (0 <? go_nbuf_size o) then
    rknpu_gem_free_buf_with_cache p o RKNPU_CACHE_NBUF w
  else (rknpu_gem_free_buf p o w).2.

(** Without its domain the object, whose content is [o], stays. *)
Definition rknpu_gem_object_destroy (p : Z) (o : rknpu_gem_object) (w : gem_world) : option gem_world :=
  match domain_get_retry 3 (go_iommu_domain_id o) w with
  | None => None
  | Some (ret, w) =>
      if negb (ret =? 0) then Some (w <| gem_objs ::= <[p := o]> |>)
      else Some (domain_release ((rknpu_gem_release p (gem_free_parts p o w)) <| gem_objs ::= delete p |>))
  end.

(** drm_gem_object_put, which calls rknpu_gem_free_object for the last one. *)
Definition rknpu_gem_object_put (p : Z) (w : gem_world) : option gem_world :=
  match gem_objs w !! p with
  | None => None
  | Some o =>
      if go_refcount o =? 1 then rknpu_gem_object_destroy p (o <| go_refcount := 0 |>) w
      else Some (w <| gem_objs ::= <[p := o <| go_refcount ::= Z.pred |>]> |>)
  end.
Definition rknpu_gem_object_get (p : Z) (w : gem_world) : option gem_world :=
  match gem_objs w !! p with
  | None => None
  | Some o => Some (w <| gem_objs ::= <[p := o <| go_refcount ::= Z.succ |>]> |>)
  end.

(** ** Tracked ranges *)

Fixpoint find_range (addr : Z) (l : list rknpu_dkms_gem_range) : option rknpu_dkms_gem_range :=
  match l with
  | [] => None
  | r :: l => if (gr_base r <=? addr) && (addr <? u64 (gr_base r + gr_size r)) then Some r
              else find_range addr l
  end.

Definition rknpu_dkms_find_gem_base_by_addr (addr : Z) (w : gem_world) : Z :=
  match find_range addr (gem_ranges w) with Some r => gr_base r | None => 0 end.

(** The object (NULL: [None]), the base and the state with the reference taken;
    the outer [None] is an access to a freed object. *)
Definition rknpu_dkms_find_gem_obj_by_addr (addr : Z) (w : gem_world)
  : option (option Z * Z * gem_world) :=
  match find_range addr (gem_ranges w) with
  | None => Some (None, 0, w)
  | Some r => option_map (fun w => (Some (gr_obj r), gr_base r, w)) (rknpu_gem_object_get (gr_obj r) w)
  end.

Definition rknpu_dkms_track_gem_obj (kzalloc_ok : bool) (p : Z) (w : gem_world) : option gem_world :=
  match gem_objs w !! p with
  | None => None
  | Some o =>
      if (go_dma_addr o =? 0) || (go_size o =? 0) then Some w
      else if negb kzalloc_ok then Some w
      else
        match rknpu_gem_object_get p w with
        | None => None
        | Some w =>
            if existsb (fun r => gr_obj r =? p) (gem_ranges w) then rknpu_gem_object_put p w
            else Some (w <| gem_ranges ::= (fun l => l ++
                   [{| gr_obj := p; gr_base := go_dma_addr o; gr_size := go_size o |}]) |>)
        end
  end.

(** [list_del] of the first range of the object. *)
Fixpoint remove_range (p : Z) (l : list rknpu_dkms_gem_range) : list rknpu_dkms_gem_range :=
  match l with
  | [] => []
  | r :: l => if gr_obj r =? p then l else r :: remove_range p l
  end.

Definition rknpu_dkms_untrack_gem_obj (p : Z) (w : gem_world) : option gem_world :=
  if existsb (fun r => gr_obj r =? p) (gem_ranges w)
  then rknpu_gem_object_put p (w <| gem_ranges ::= remove_range p |>)
  else Some w.

(** ** Handles and ioctls

    A handle holds a reference of its own (drm_gem_handle_create takes it,
    drm_gem_handle_delete drops it). *)

Definition rknpu_gem_object_find (file handle : Z) (w : gem_world) : option Z :=
  gem_handles w !! (file, handle).

(** The error or the new handle; the reference of the allocation is dropped. *)
Definition rknpu_gem_handle_create (ans : gem_answer) (file p : Z) (w : gem_world)
  : option ((Z + Z) * gem_world) :=
  match ga_handle ans with
  | inl e => Some (inl e, w)
  | inr h =>
      match rknpu_gem_object_get p w with
      | None => None
      | Some w => option_map (fun w => (inr h, w))
                    (rknpu_gem_object_put p (w <| gem_handles ::= <[(file, h) := p]> |>))
      end
  end.

(** drm_gem_handle_delete. *)
Definition rknpu_gem_handle_destroy (file handle : Z) (w : gem_world) : option (Z * gem_world) :=
  match gem_handles w !! (file, handle) with
  | None => Some (-EINVAL, w)
  | Some p => option_map (fun w => (0, w))
                (rknpu_gem_object_put p (w <| gem_handles ::= delete (file, handle) |>))
  end.

(** The arguments of the create ioctl, and what it writes back. *)
Record gem_create_args := {
  gc_handle : Z; gc_flags : Z; gc_size : Z; gc_obj_addr : Z; gc_dma_addr : Z; gc_sram_size : Z;
  gc_domain_id : Z; gc_core_mask : Z }.
#[export] Instance gem_create_args_settable : Settable gem_create_args := {| settable := fun a =>
  Build_gem_create_args (gc_handle a) (gc_flags a) (gc_size a) (gc_obj_addr a) (gc_dma_addr a)
    (gc_sram_size a) (gc_domain_id a) (gc_core_mask a) |}.

(** The last part of rknpu_gem_create_ioctl, on the object [p]. *)
Definition create_reply (ans : gem_answer) (p : Z) (a : gem_create_args) (w : gem_world)
  : option (Z * gem_create_args * gem_world) :=
  match gem_objs w !! p with
  | None => None
  | Some o =>
      let a := a <| gc_size := go_size o |> <| gc_sram_size := go_sram_size o |>
                 <| gc_obj_addr := p |> <| gc_dma_addr := go_dma_addr o |> in
      option_map (fun w => (0, a, w)) (rknpu_dkms_track_gem_obj (ga_track ans) p w)
  end.

Definition rknpu_gem_create_ioctl (ans : gem_answer) (file : Z) (a : gem_create_args) (w : gem_world)
  : option (Z * gem_create_args * gem_world) :=
  match rknpu_gem_object_find file (gc_handle a) w with
  | Some p => create_reply ans p a w
  | None =>
      match rknpu_gem_object_create ans (gc_flags a) (gc_size a) (gc_sram_size a) (gc_domain_id a)
              (gc_core_mask a) w with
      | None => None
      | Some (inl e, w) => Some (e, a, w)
      | Some (inr p, w) =>
          match rknpu_gem_handle_create ans file p w with
          | None => None
          | Some (inl e, w) =>
              match gem_objs w !! p with
              | None => None
              | Some o => option_map (fun w => (e, a, w)) (rknpu_gem_object_destroy p o w)
              end
          | Some (inr h, w) => create_reply ans p (a <| gc_handle := h |>) w
          end
      end
  end.

Definition rknpu_gem_destroy_ioctl (file handle : Z) (w : gem_world) : option (Z * gem_world) :=
  match rknpu_gem_object_find file handle w with
  | None => Some (-EINVAL, w)
  | Some p =>
      match gem_objs w !! p with
      | None => None
      | Some o =>
          match domain_get_retry 3 (go_iommu_domain_id o) w with
          | None => None
          | Some (ret, w) =>
              if negb (ret =? 0) then Some (ret, w)
              else
                match rknpu_dkms_untrack_gem_obj p w with
                | None => None
                | Some w => option_map (fun r => (r.1, domain_release r.2))
                              (rknpu_gem_handle_destroy file handle w)
                end
          end
      end
  end.
End Gem.
