(* ===== verification/GemLife.v ===== *)
(** * The life of a GEM object

    What rknpu_gem_object_create takes, on every path, and what the destruction
    gives back: the ledger, the SRAM chunks, the IOMMU translation and the
    domain references. *)

From S2P Require Import Prelude Ledger Mapping Config Domain Mm Sg Gem.

Section GemLife.
Context {BO : BitmapOps} {iommu : IommuDomain}.
Context (no_gki force_contig : bool) (gd : gem_device).

(** Only the ledger differs. *)
Definition ledger_step (w w' : gem_world) : Prop := w' = w <| held := held w' |>.

Lemma ledger_step_refl (w : gem_world) : ledger_step w w.
Proof. by destruct w. Qed.
Lemma ledger_step_trans (w1 w2 w3 : gem_world) :
  ledger_step w1 w2 -> ledger_step w2 w3 -> ledger_step w1 w3.
Proof. unfold ledger_step. intros H1 H2. rewrite H2, H1. done. Qed.
Lemma hold_step (r : gem_resource) (w : gem_world) : ledger_step w (hold r w).
Proof. done. Qed.
Lemma drop_step (r : gem_resource) (w : gem_world) : ledger_step w (drop r w).
Proof. done. Qed.

(** *** Buffers from the DMA API *)

Definition dma_holding (p : Z) (o : rknpu_gem_object) : list gem_resource :=
  [HeldSgTable p; HeldSgStruct p; HeldDma (go_size o) (go_cookie o) (go_dma_addr o) (go_dma_attrs o);
   HeldPageArray p].

(** The kernel reports errors as negative numbers, and buffers at an address. *)
Record gem_answer_ok (ans : gem_answer) : Prop := {
  gk_sgtable : forall e, ga_get_sgtable ans = inl e -> e < 0;
  gk_to_pages : forall e, ga_sg_to_pages ans = inl e -> e < 0;
  gk_pages : forall e, ga_get_pages ans = inl e -> e < 0;
  gk_to_sg : forall e, ga_pages_to_sg ans = inl e -> e < 0;
  gk_entries : forall sgt, ga_pages_to_sg ans = inr sgt -> sg_ok sgt;
  gk_map : forall a p n, ga_iommu_map ans a p n <= 0;
  gk_dma : forall gfp n attrs buf, ga_dma_alloc ans gfp n attrs = Some buf -> buf.2 <> 0;
  gk_handle : forall e, ga_handle ans = inl e -> e < 0;
}.

(** What the fields of an object that allocation leaves alone are. *)
Definition same_shape (o o' : rknpu_gem_object) : Prop :=
  go_refcount o' = go_refcount o /\ go_import o' = go_import o /\ go_size o' = go_size o /\
  go_sram_size o' = go_sram_size o /\ go_nbuf_size o' = go_nbuf_size o /\
  go_sram_obj o' = go_sram_obj o /\ go_iommu_domain_id o' = go_iommu_domain_id o /\
  go_cache_with_sgt o' = go_cache_with_sgt o /\ go_core_mask o' = go_core_mask o.

Lemma alloc_buf_table_ok (ans : gem_answer) (p : Z) (o o' : rknpu_gem_object) (ret : Z)
    (w w' : gem_world) (l : ledger gem_resource) :
  gem_answer_ok ans ->
  held w ≡ acquire (HeldDma (go_size o) (go_cookie o) (go_dma_addr o) (go_dma_attrs o))
             (acquire (HeldPageArray p) l) ->
  alloc_buf_table ans p o w = (ret, o', w') ->
  ledger_step w w' /\ same_shape o o' /\
  (ret < 0 /\ held w' ≡ l \/
   ret = 0 /\ held w' ≡ acquire_all (dma_holding p o') l /\ go_dma_addr o' = go_dma_addr o).
Proof.
  intros Hok Hl H. unfold alloc_buf_table in H.
  destruct (ga_sgt_kzalloc ans); cbn [negb] in H.
  2:{ injection H as <- <- <-. split; [done|]. split; [done|]. left. split; [done|]. cbn. rewrite Hl.
      by rewrite !release_acquire. }
  destruct (ga_get_sgtable ans) as [e|sgt] eqn:E1.
  { injection H as <- <- <-. split; [done|]. split; [done|]. left. split; [by apply (gk_sgtable _ Hok)|].
    cbn. rewrite Hl. by rewrite !release_acquire. }
  destruct (ga_sg_to_pages ans) as [e|pages] eqn:E2.
  { injection H as <- <- <-. split; [done|]. split; [done|]. left. split; [by apply (gk_to_pages _ Hok)|].
    cbn. rewrite Hl. by rewrite !release_acquire. }
  injection H as <- <- <-. split; [done|]. split; [done|]. right. split; [done|]. split; [|done].
  cbn. by rewrite Hl.
Qed.

(** The two outcomes of dma_alloc_attrs in [H]. *)
Ltac buffer_case H Hgo :=
  match type of H with context [ga_dma_alloc ?a ?g ?n ?attrs] =>
    let E := fresh "E" in destruct (ga_dma_alloc a g n attrs) as [buf|] eqn:E;
    [eapply Hgo; [| exact E | | exact H]; done|] end.
Ltac no_buffer H :=
  injection H as <- <- <-; split; [done|]; split; [done|]; left; split; [done|]; cbn;
  by rewrite release_acquire.

Lemma alloc_buf_ok (ans : gem_answer) (p : Z) (o o' : rknpu_gem_object) (ret : Z) (w w' : gem_world) :
  gem_answer_ok ans -> go_dma_addr o = 0 ->
  rknpu_gem_alloc_buf force_contig gd ans p o w = (ret, o', w') ->
  ledger_step w w' /\ same_shape o o' /\
  (ret < 0 /\ held w' ≡ held w \/
   ret = 0 /\ held w' ≡ acquire_all (dma_holding p o') (held w) /\ go_dma_addr o' <> 0).
Proof.
  intros Hok Ha H. unfold rknpu_gem_alloc_buf in H. rewrite Ha in H. cbn [negb Z.eqb] in H.
  set (flags := if force_contig then _ else _) in H. set (gfp := Build_gem_gfp _ _) in H.
  destruct (ga_page_array ans); cbn [negb] in H.
  2:{ injection H as <- <- <-. split; [apply ledger_step_refl|]. split; [done|]. by left. }
  cbn zeta beta in H.
  assert (Hgo : forall o1 attrs (buf : Z * Z),
    same_shape o o1 -> ga_dma_alloc ans gfp (go_size o1) attrs = Some buf -> go_dma_attrs o1 = attrs ->
    alloc_buf_table ans p
      (if has_flag (go_flags (o1 <| go_cookie := buf.1 |> <| go_dma_addr := buf.2 |>)) RKNPU_MEM_KERNEL_MAPPING
       then o1 <| go_cookie := buf.1 |> <| go_dma_addr := buf.2 |> <| go_kv_addr := buf.1 |>
       else o1 <| go_cookie := buf.1 |> <| go_dma_addr := buf.2 |>)
      (hold (HeldDma (go_size o1) buf.1 buf.2 (go_dma_attrs o1)) (hold (HeldPageArray p) w)) = (ret, o', w') ->
    ledger_step w w' /\ same_shape o o' /\
    (ret < 0 /\ held w' ≡ held w \/
     ret = 0 /\ held w' ≡ acquire_all (dma_holding p o') (held w) /\ go_dma_addr o' <> 0)).
  { intros o1 attrs buf Hs Hd Hat Ht.
    set (o2 := if has_flag _ _ then _ else _) in Ht.
    assert (F : go_size o2 = go_size o1 /\ go_cookie o2 = buf.1 /\ go_dma_addr o2 = buf.2 /\
      go_dma_attrs o2 = go_dma_attrs o1 /\ same_shape o1 o2) by (subst o2; by case_match).
    destruct F as (F1 & F2 & F3 & F4 & F5).
    apply (alloc_buf_table_ok ans p o2 o' ret _ w' (held w)) in Ht as (T1 & T2 & T3); [|done|].
    2:{ rewrite F1, F2, F3, F4. done. }
    split; [exact T1|]. split.
    { unfold same_shape in *. intuition congruence. }
    destruct T3 as [T3|(T3 & T4 & T5)]; [by left|]. right. split; [done|]. split; [done|].
    rewrite T5, F3. by apply (gk_dma _ Hok _ _ _ _ Hd). }
  buffer_case H Hgo. destruct (negb _ && _); [buffer_case H Hgo|]; no_buffer H.
Qed.

Lemma free_buf_ok (p : Z) (o : rknpu_gem_object) (w : gem_world) :
  go_dma_addr o <> 0 ->
  ledger_step w (rknpu_gem_free_buf p o w).2 /\
  held (rknpu_gem_free_buf p o w).2 ≡ release_all (dma_holding p o) (held w).
Proof.
  intros Ha. unfold rknpu_gem_free_buf. rewrite (proj2 (Z.eqb_neq _ _)) by done.
  split; [done|]. cbn. ledger.
Qed.

(** *** Buffers with a cache part *)

Definition held_pfn (o : rknpu_gem_object) : gem_resource :=
  HeldIova (Z.shiftr (go_iova_start o) (iova_shift (gd_dma gd))).
Definition cache_holding (p : Z) (o : rknpu_gem_object) : list gem_resource :=
  held_pfn o :: if go_size o =? 0 then [] else [HeldSgTable p; HeldSgStruct p; HeldGemPages p].

(** Only the ledger and the translation of [n] addresses from [a] on differ. *)
Definition range_step (a n : Z) (w w' : gem_world) : Prop :=
  w' = w <| held := held w' |> <| page_table := page_table w' |> /\
  forall x, ~ (a <= x < a + n) -> page_table w' x = page_table w x.
Definition same_table (w w' : gem_world) : Prop :=
  w' = w <| held := held w' |> <| page_table := page_table w' |> /\
  forall x, page_table w' x = page_table w x.

(** The IOVA allocator hands out addresses that nothing is mapped at. *)
Definition iova_fresh (ans : gem_answer) (w : gem_world) : Prop :=
  forall size aligned,
    let a := rknpu_iommu_dma_alloc_iova (gd_dma gd) (ga_iova ans) size (dma_get_mask (gd_dma gd)) aligned in
    a <> 0 -> 0 <= a /\ a + size < 2 ^ 64 /\ forall x, a <= x < a + size -> page_table w x = None.

Lemma drop_iova_eq (o : rknpu_gem_object) (w : gem_world) : drop_iova gd o w = drop (held_pfn o) w.
Proof. unfold drop_iova, rknpu_iommu_dma_free_iova. by destruct (iova_aligned o). Qed.

(** What a success leaves behind the [cache_size] bytes of cache: the bytes of
    the scatter table, and the pages. *)
Definition ddr_mapped (ans : gem_answer) (cache_size : Z) (o : rknpu_gem_object) (w : gem_world) : Prop :=
  exists pages sgt, ga_get_pages ans = inr pages /\ ga_pages_to_sg ans = inr sgt /\
    go_pages o = Some pages /\ go_sgt o = Some sgt /\
    (go_size o <= sg_total sgt -> forall y, 0 <= y < go_size o ->
       page_table w (go_iova_start o + cache_size + y) = sg_byte sgt y).

Lemma alloc_ddr_part_ok (ans : gem_answer) (p cache_size ret : Z) (o o' : rknpu_gem_object)
    (w0 w w' : gem_world) :
  gem_answer_ok ans -> 0 <= go_iova_start o -> 0 <= cache_size -> 0 < go_size o ->
  go_iova_start o + cache_size + go_size o < 2 ^ 64 ->
  (forall x, go_iova_start o <= x < go_iova_start o + cache_size + go_size o -> page_table w0 x = None) ->
  range_step (go_iova_start o) cache_size w0 w -> held w ≡ acquire (held_pfn o) (held w0) ->
  alloc_ddr_part gd ans p cache_size o w = (ret, o', w') ->
  same_shape o o' /\
  (ret < 0 /\ same_table w0 w' /\ held w' ≡ held w0 \/
   ret = 0 /\ range_step (go_iova_start o) (cache_size + go_size o) w0 w' /\
     held w' ≡ acquire_all (cache_holding p o') (held w0) /\
     go_iova_start o' = go_iova_start o /\ ddr_mapped ans cache_size o' w' /\
     forall x, go_iova_start o <= x < go_iova_start o + cache_size -> page_table w' x = page_table w x).
Proof.
  intros Hok Ha Hc Hs Hb Hfree [Hw Hout] Hh H. unfold alloc_ddr_part in H.
  assert (Hun : forall x, unmap_range (go_iova_start o) cache_size (page_table w) x = page_table w0 x).
  { intros x. destruct (decide (go_iova_start o <= x < go_iova_start o + cache_size)) as [Hx|Hx].
    - rewrite unmap_in by done. symmetry. apply Hfree. lia.
    - rewrite unmap_out by done. by apply Hout. }
  destruct (ga_get_pages ans) as [e|pages] eqn:E1.
  { injection H as <- <- <-. split; [done|]. left. split; [by apply (gk_pages _ Hok)|].
    rewrite drop_iova_eq. split; [split; [by rewrite Hw|exact Hun]|]. cbn. rewrite Hh. by rewrite release_acquire. }
  destruct (ga_pages_to_sg ans) as [e|sgt] eqn:E2.
  { injection H as <- <- <-. split; [done|]. left. split; [by apply (gk_to_sg _ Hok)|].
    rewrite drop_iova_eq. split; [split; [by rewrite Hw|exact Hun]|]. cbn. rewrite Hh.
    by rewrite !release_acquire. }
  set (o1 := o <| go_pages := Some pages |> <| go_num_pages := _ |>) in H.
  set (w1 := hold (HeldSgTable p) _) in H.
  change (go_size (o1 <| go_sgt := Some sgt |>)) with (go_size o) in H.
  change (go_iova_start (o1 <| go_sgt := Some sgt |>)) with (go_iova_start o) in H.
  change (page_table w1) with (page_table w) in H. rewrite u64_small in H by lia.
  destruct (map_entries _ _ _ _ _ _) as [[r rest] t] eqn:Em.
  pose proof (gk_entries _ Hok _ E2) as Hsg.
  pose proof Em as Em0. apply map_entries_outside in Em0 as [M1 M2]; [|done|lia..].
  assert (Hbelow : forall x, go_iova_start o <= x < go_iova_start o + cache_size -> t x = page_table w x).
  { intros x Hx. rewrite M2 by lia. done. }
  destruct (Z.eqb_spec r 0) as [->|Hr]; cbn [negb] in H; injection H as <- <- <-.
  - split; [done|]. right. split; [done|]. split.
    { split; [by rewrite Hw|]. intros x Hx. cbn. rewrite M2 by lia. cbn. apply Hout. lia. }
    split.
    { unfold cache_holding. case_bool as E; [cbn in E; lia|]. cbn. rewrite Hh. unfold held_pfn. cbn. ledger. }
    split; [done|]. split; [|exact Hbelow].
    exists pages, sgt. do 4 (split; [done|]). intros Ht y Hy.
    apply map_entries_bytes in Em as [_ Hbytes]; [|done|cbn; lia..|done].
    rewrite <- Hbytes by done. done.
  - split; [done|]. left. split.
    { apply map_entries_ret in Em; [lia | apply (gk_map _ Hok) | lia]. }
    rewrite drop_iova_eq. cbn. split.
    + split; [by rewrite Hw|]. intros x. cbn. apply unmap_both.
      * intros y Hy1 Hy2. rewrite u64_small in Hy2 by lia. rewrite M2 by lia. by apply Hout.
      * intros y Hy. apply Hfree. rewrite u64_small in Hy by lia. lia.
    + rewrite Hh. by rewrite !release_acquire.
Qed.

(** The byte [y] of the cache part: of the one region at [phys], or of the
    entries of the table of the object's core. *)
Definition cache_byte (o : rknpu_gem_object) (phys y : Z) : option Z :=
  if go_cache_with_sgt o then sg_byte (cache_entries gd o) y else Some (phys + y).
Definition cache_covers (o : rknpu_gem_object) (n : Z) : Prop :=
  go_cache_with_sgt o = true -> n <= sg_total (cache_entries gd o).

(** A cache part made of entries is mapped by several calls, and what the first
    ones mapped is not undone when a later one fails. *)
Definition cache_table_ok (ans : gem_answer) (o : rknpu_gem_object) : Prop :=
  go_cache_with_sgt o = true ->
    sg_ok (cache_entries gd o) /\ forall a p n, ga_iommu_map ans a p n = 0.

Lemma cache_entries_ok (o : rknpu_gem_object) :
  (forall i sgt, gd_cache_sgt gd i = Some sgt -> sg_ok sgt) -> sg_ok (cache_entries gd o).
Proof.
  intros H. unfold cache_entries. destruct (gd_cache_sgt gd _) as [sgt|] eqn:E; [|by apply Forall_nil].
  apply Forall_fmap. exact (H _ _ E).
Qed.

Lemma map_entries_granted (call : Z -> Z -> Z -> Z) (sgs : list sg_entry) :
  (forall a p n, call a p n = 0) -> forall addr length t ret left t',
  map_entries call addr length sgs 0 t = (ret, left, t') -> ret = 0.
Proof.
  intros Hc. induction sgs as [|s sgs IH]; intros addr length t ret left t' H; cbn in H; [congruence|].
  rewrite Hc in H. cbn [negb Z.eqb] in H. destruct (_ =? 0) in H; [congruence | by eapply IH].
Qed.

Lemma map_cache_ok (ans : gem_answer) (phys n ret : Z) (o : rknpu_gem_object) (w w' : gem_world) :
  gem_answer_ok ans -> cache_table_ok ans o -> 0 <= go_iova_start o -> 0 <= n ->
  go_iova_start o + n < 2 ^ 64 -> map_cache gd ans phys n o w = (ret, w') ->
  ret < 0 /\ w' = w \/
  ret = 0 /\ range_step (go_iova_start o) n w w' /\ held w' = held w /\
    (cache_covers o n -> forall y, 0 <= y < n ->
       page_table w' (go_iova_start o + y) = cache_byte o phys y).
Proof.
  intros Hok Hsg Ha Hn Hb H. unfold map_cache, rknpu_iommu_map_with_cache_sgt in H.
  unfold cache_table_ok, cache_covers, cache_byte in *. destruct (go_cache_with_sgt o).
  - destruct (Hsg eq_refl) as [S1 S2]. destruct (map_entries _ _ _ _ _ _) as [[r left] t] eqn:E.
    injection H as <- <-. pose proof (map_entries_granted _ _ S2 _ _ _ _ _ _ E) as ->.
    pose proof E as E2. apply map_entries_outside in E2 as [M1 M2]; [|done|lia..].
    right. split; [done|]. split; [split; [done|] | split; [done|]].
    + intros x Hx. cbn. apply M2. lia.
    + intros Hc y Hy. cbn. apply map_entries_bytes in E as [_ E]; [by apply E | done | lia.. | by apply Hc].
  - destruct (Z.eqb_spec (ga_iommu_map ans (go_iova_start o) phys n) 0) as [E|E]; injection H as <- <-.
    + right. split; [done|]. split; [split; [done|] | split; [done|]].
      * intros x Hx. cbn. by rewrite map_out.
      * intros _ y Hy. cbn. rewrite map_in by lia. f_equal. lia.
    + left. split; [|done]. pose proof (gk_map _ Hok (go_iova_start o) phys n). lia.
Qed.

(** A finished allocation with [n] bytes of cache at [phys]. *)
Record cache_built (ans : gem_answer) (p n phys : Z) (o : rknpu_gem_object) (w w' : gem_world) : Prop := {
  cb_range : range_step (go_iova_start o) (n + go_size o) w w';
  cb_held : held w' ≡ acquire_all (cache_holding p o) (held w);
  cb_fresh : forall x, go_iova_start o <= x < go_iova_start o + n + go_size o -> page_table w x = None;
  cb_start : 0 < go_iova_start o /\ 0 <= n /\ 0 <= go_size o /\ go_iova_start o + n + go_size o < 2 ^ 64;
  cb_cache : cache_covers o n -> forall y, 0 <= y < n ->
    page_table w' (go_iova_start o + y) = cache_byte o phys y;
  cb_ddr : if go_size o =? 0 then go_pages o = None /\ go_sgt o = None else ddr_mapped ans n o w';
  cb_attached : is_Some (attached (domains w));
}.

Lemma alloc_with_cache_ok (ans : gem_answer) (p ret : Z) (t : rknpu_cache_type)
    (o o' : rknpu_gem_object) (w w' : gem_world) :
  let '(phys, n) := cache_region gd t o w in
  gem_answer_ok ans -> dma_device_ok (gd_dma gd) -> iova_fresh ans w ->
  0 <= n -> 0 <= go_size o -> n + go_size o < 2 ^ 62 ->
  cache_table_ok ans o -> go_pages o = None -> go_sgt o = None ->
  rknpu_gem_alloc_buf_with_cache gd ans p o t w = (ret, o', w') ->
  same_shape o o' /\
  (ret < 0 /\ same_table w w' /\ held w' ≡ held w \/ ret = 0 /\ cache_built ans p n phys o' w w').
Proof.
  destruct (cache_region gd t o w) as [phys n] eqn:Er.
  intros Hok Hd Hf Hn Hs Hb Hsgt Hp Hst H. unfold rknpu_gem_alloc_buf_with_cache in H. rewrite Er in H.
  destruct (attached (domains w)) as [d|] eqn:Hat.
  2:{ injection H as <- <- <-. split; [done|]. left. split; [done|]. split; [by destruct w | done]. }
  pose proof (granule_pos _ Hd) as Hg.
  destruct (iova_align_spec _ (n + go_size o) Hd ltac:(lia) ltac:(lia)) as [[A1 A2] _].
  rewrite u64_small in H by lia.
  set (size := iova_align (gd_dma gd) (n + go_size o)) in *.
  specialize (Hf size (iova_aligned o)). cbn zeta in Hf.
  set (iova := rknpu_iommu_dma_alloc_iova _ _ size _ _) in *.
  change (iova_aligned (o <| go_iova_size := size |>)) with (iova_aligned o) in H. fold iova in H.
  destruct (Z.eqb_spec iova 0) as [|Hnz].
  { injection H as <- <- <-. split; [done|]. left. split; [done|]. split; [by destruct w | done]. }
  destruct (Hf Hnz) as (F1 & F2 & F3). clear Hf.
  set (o1 := o <| go_iova_size := size |> <| go_iova_start := iova |>) in H.
  set (w1 := hold _ w) in H. destruct (map_cache gd ans phys n o1 w1) as [r w2] eqn:Em.
  apply map_cache_ok in Em as [[Hr ->]|(-> & Hw2 & Hh2 & Hbytes)]; [| |done|done|cbn; lia..].
  { rewrite (proj2 (Z.eqb_neq _ _)) in H by lia. cbn [negb] in H. injection H as <- <- <-.
    split; [done|]. left. split; [done|].
    rewrite drop_iova_eq. split; [split; done|]. cbn. by rewrite release_acquire. }
  cbn [negb Z.eqb] in H. set (o2 := o1 <| go_dma_addr := iova |>) in H.
  change (go_iova_start o1) with iova in Hw2, Hbytes. change (cache_covers o1 n) with (cache_covers o n) in Hbytes.
  change (forall y, 0 <= y < n -> page_table w2 (iova + y) = cache_byte o1 phys y)
    with (forall y, 0 <= y < n -> page_table w2 (iova + y) = cache_byte o phys y) in Hbytes.
  change (go_size o2) with (go_size o) in H. destruct (Z.eqb_spec (go_size o) 0) as [Hz|Hz].
  - injection H as <- <- <-. split; [done|]. right. split; [done|]. split.
    + change (go_size o2) with (go_size o). rewrite Hz, Z.add_0_r. exact Hw2.
    + unfold cache_holding. change (go_size o2) with (go_size o). by rewrite Hz, Hh2.
    + intros x Hx. apply F3. cbn in Hx. lia.
    + cbn. lia.
    + exact Hbytes.
    + change (go_size o2) with (go_size o). by rewrite Hz.
    + by eexists.
  - pose proof H as Hd2.
    apply (alloc_ddr_part_ok ans p n ret o2 o' w w2 w') in Hd2 as (S & Hcase);
      [|done|cbn; lia|done|cbn; lia|cbn; lia| |exact Hw2|by rewrite Hh2].
    2:{ intros x Hx. apply F3. cbn in Hx. lia. }
    split; [done|]. destruct Hcase as [Hcase|(-> & C1 & C2 & C3 & C4 & C5)]; [by left|]. right.
    split; [done|]. destruct S as (_ & _ & S & _ & _ & _ & _ & S1 & S2). change (go_size o2) with (go_size o) in S.
    change (go_iova_start o2) with iova in *. change (go_size o2) with (go_size o) in C1.
    split; rewrite ?C3, ?S; try done; try lia.
    + intros x Hx. apply F3. lia.
    + unfold cache_covers, cache_byte, cache_entries in *. rewrite S1, S2. intros Hc y Hy.
      rewrite C5 by lia. by apply Hbytes.
    + by rewrite (proj2 (Z.eqb_neq _ _) Hz).
Qed.

Lemma free_with_cache_ok (ans : gem_answer) (p n phys : Z) (t : rknpu_cache_type)
    (o : rknpu_gem_object) (w w1 w2 : gem_world) :
  cache_built ans p n phys o w w1 ->
  n = match t with RKNPU_CACHE_SRAM => go_sram_size o | RKNPU_CACHE_NBUF => go_nbuf_size o end ->
  page_table w2 = page_table w1 -> held w2 ≡ held w1 -> is_Some (attached (domains w2)) ->
  let w3 := rknpu_gem_free_buf_with_cache gd p o t w2 in
  w3 = w2 <| held := held w3 |> <| page_table := page_table w3 |> /\
  (forall x, page_table w3 x = page_table w x) /\ held w3 ≡ held w.
Proof.
  intros [[_ B1] B2 B3 (B4 & B5 & B6 & B7) _ B8 _] -> Ht Hh [d Hd]. unfold rknpu_gem_free_buf_with_cache.
  set (n := match t with RKNPU_CACHE_SRAM => _ | _ => _ end) in *. rewrite Hd, drop_iova_eq.
  rewrite u64_small by lia. unfold cache_holding in B2. rewrite B2 in Hh.
  destruct (Z.eqb_spec (go_size o) 0) as [Hz|Hz].
  - rewrite Hz in *. destruct B8 as [-> ->]. cbn [Z.ltb Z.compare]. split; [done|]. split.
    + intros x. cbn. rewrite Ht. destruct (decide (go_iova_start o <= x < go_iova_start o + n)) as [Hx|Hx].
      * rewrite unmap_in by done. symmetry. apply B3. lia.
      * rewrite unmap_out by done. apply B1. lia.
    + cbn. rewrite Hh. ledger.
  - destruct B8 as (pages & sgt & _ & _ & -> & -> & _). rewrite (proj2 (Z.ltb_lt _ _)) by lia.
    split; [done|]. split.
    + intros x. cbn. rewrite Ht. rewrite (unmap_both _ _ _ _ _ _ (page_table w)); [done|..].
      * intros y Hy1 Hy2. apply B1. lia.
      * intros y Hy. apply B3. lia.
    + cbn. rewrite Hh. ledger.
Qed.

(** *** Objects *)

(** [w'] differs from [w] by what the object [o] at [p] owns: freeing its parts
    gives exactly that back. *)
Record owned (p : Z) (o : rknpu_gem_object) (w w' : gem_world) : Prop := {
  ow_frame : gem_objs w' = gem_objs w /\ gem_ranges w' = gem_ranges w /\
    gem_handles w' = gem_handles w /\ domains w' = domains w;
  ow_new : go_refcount o = 1;
  ow_free : forall w2, page_table w2 = page_table w' -> held w2 ≡ held w' -> sram_mm w2 = sram_mm w' ->
    is_Some (attached (domains w2)) ->
    let w3 := gem_free_parts no_gki gd p o w2 in
    w3 = w2 <| held := held w3 |> <| page_table := page_table w3 |> <| sram_mm := sram_mm w3 |> /\
    (forall x, page_table w3 x = page_table w x) /\ held w3 ≡ held w /\ sram_mm w3 = sram_mm w;
}.

(** Everything is as it was. *)
Record restored (w w' : gem_world) : Prop := {
  re_objs : gem_objs w' = gem_objs w;
  re_ranges : gem_ranges w' = gem_ranges w;
  re_handles : gem_handles w' = gem_handles w;
  re_sram : sram_mm w' = sram_mm w;
  re_table : forall x, page_table w' x = page_table w x;
  re_held : held w' ≡ held w;
  re_domain : iommu_domain_refcount (domains w') = iommu_domain_refcount (domains w);
}.

(** The fields that decide how an object is freed, right after rknpu_gem_init. *)
Definition plain (o : rknpu_gem_object) : Prop :=
  go_refcount o = 1 /\ go_import o = false /\ go_dma_addr o = 0 /\ go_sram_size o = 0 /\
  go_nbuf_size o = 0 /\ go_pages o = None /\ go_sgt o = None /\ go_sram_obj o = None.

Lemma gem_free_parts_dma (p : Z) (o : rknpu_gem_object) (w : gem_world) :
  go_import o = false -> go_sram_size o = 0 -> go_nbuf_size o = 0 ->
  gem_free_parts no_gki gd p o w = (rknpu_gem_free_buf p o w).2.
Proof. intros H1 H2 H3. unfold gem_free_parts. rewrite H1, H2, H3. cbn. by rewrite andb_false_r. Qed.

(** The reference count does not matter to what is freed. *)
Lemma gem_free_parts_refcount (p n : Z) (o : rknpu_gem_object) (w : gem_world) :
  gem_free_parts no_gki gd p (o <| go_refcount := n |>) w = gem_free_parts no_gki gd p o w.
Proof.
  unfold gem_free_parts. destruct o; cbn. repeat (case_match; try done).
  all: unfold rknpu_gem_free_buf; cbn; by case_match.
Qed.

Lemma owned_nothing (p : Z) (o : rknpu_gem_object) (w : gem_world) :
  go_refcount o = 1 -> go_import o = false -> go_dma_addr o = 0 -> go_sram_size o = 0 ->
  go_nbuf_size o = 0 -> owned p o w w.
Proof.
  intros H1 H2 H3 H4 H5. split; [done | done |]. intros w2 T1 T2 T3 _. rewrite gem_free_parts_dma by done.
  unfold rknpu_gem_free_buf. rewrite H3. cbn. split; [by destruct w2|]. by rewrite T1.
Qed.

Lemma owned_dma (ans : gem_answer) (p : Z) (o o' : rknpu_gem_object) (w w' : gem_world) :
  gem_answer_ok ans -> go_refcount o = 1 -> go_import o = false -> go_dma_addr o = 0 ->
  go_sram_size o = 0 -> go_nbuf_size o = 0 ->
  rknpu_gem_alloc_buf force_contig gd ans p o w = (0, o', w') -> owned p o' w w'.
Proof.
  intros Hok H1 H2 H3 H4 H5 H.
  apply alloc_buf_ok in H as (Hw & (S1 & S2 & _ & S3 & S4 & _) & [[? _]|(_ & Hh & Ha)]); [lia | | done..].
  split; [by rewrite Hw | by rewrite S1 |]. intros w2 T1 T2 T3 _.
  rewrite gem_free_parts_dma by congruence. destruct (free_buf_ok p o' w2 Ha) as [F1 F2].
  split; [rewrite F1; by destruct w2|]. split; [intros x; rewrite F1; cbn; rewrite T1; by rewrite Hw|].
  split; [|rewrite F1; cbn; rewrite T3; by rewrite Hw].
  rewrite F2, T2, Hh. by apply release_all_acquire_all.
Qed.

Lemma owned_cache (ans : gem_answer) (p n phys : Z) (t : rknpu_cache_type) (o : rknpu_gem_object)
    (w0 w w' : gem_world) :
  cache_built ans p n phys o w w' -> go_refcount o = 1 -> go_import o = false ->
  w = w0 <| sram_mm := sram_mm w |> ->
  match t with
  | RKNPU_CACHE_SRAM => go_sram_size o = n /\ 0 < n /\
      exists m, go_sram_obj o = Some m /\ (rknpu_mm_free (sram_mm w) (Some m)).2 = sram_mm w0
  | RKNPU_CACHE_NBUF => go_sram_size o = 0 /\ go_nbuf_size o = n /\ 0 < n /\ no_gki = true /\
      sram_mm w = sram_mm w0
  end -> owned p o w0 w'.
Proof.
  intros Hb H1 H2 Hw Ht. pose proof (cb_range _ _ _ _ _ _ _ Hb) as [Hr _].
  split; [by rewrite Hr, Hw | done |]. intros w2 T1 T2 T3 Hat.
  assert (Hmm : sram_mm w' = sram_mm w) by (rewrite Hr; done).
  assert (Hbase : forall x, page_table w x = page_table w0 x) by (by rewrite Hw).
  assert (Hheld : held w ≡ held w0) by (by rewrite Hw).
  unfold gem_free_parts. rewrite H2. destruct t.
  - destruct Ht as (E1 & E2 & m & E3 & E4). rewrite E1, (proj2 (Z.ltb_lt _ _) E2), E3.
    set (w3 := w2 <| sram_mm ::= _ |>).
    destruct (free_with_cache_ok ans p n phys RKNPU_CACHE_SRAM o w w' w3 Hb (eq_sym E1) T1 T2 Hat) as (F1 & F2 & F3).
    split; [rewrite F1; by destruct w2|]. split; [intros x; by rewrite F2|]. split; [by rewrite F3|].
    rewrite F1. unfold w3. cbn [sram_mm set_field]. by rewrite T3, Hmm.
  - destruct Ht as (E0 & E1 & E2 & -> & E4). rewrite E0, E1, (proj2 (Z.ltb_lt _ _) E2). cbn [Z.ltb Z.compare andb].
    destruct (free_with_cache_ok ans p n phys RKNPU_CACHE_NBUF o w w' w2 Hb (eq_sym E1) T1 T2 Hat) as (F1 & F2 & F3).
    split; [rewrite F1; by destruct w2|]. split; [intros x; by rewrite F2|]. split; [by rewrite F3|].
    rewrite F1. cbn [sram_mm set_field]. by rewrite T3, Hmm.
Qed.

Lemma sram_take_ok (ans : gem_answer) (ddr sram real : Z) (o o' : rknpu_gem_object) (w w' : gem_world) :
  mm_wf (sram_mm w) -> 0 <= ddr -> sram_take ans ddr sram o w = Some (real, o', w') ->
  w' = w <| sram_mm := sram_mm w' |> /\ 0 <= real <= ddr /\
  o' = o <| go_cache_with_sgt := false |> <| go_sram_obj := go_sram_obj o' |> /\
  if 0 <? real then exists m, go_sram_obj o' = Some m /\ (rknpu_mm_free (sram_mm w') (Some m)).2 = sram_mm w
  else sram_mm w' = sram_mm w.
Proof.
  intros Hwf Hddr H. unfold sram_take in H.
  set (sr := if negb (sram =? 0) then _ else _) in H. set (free := u32 _) in H.
  pose proof (u32_range (free_chunks (sram_mm w) * chunk_size (sram_mm w))) as Hfr. fold free in Hfr.
  destruct (Z.ltb_spec 0 free) as [Hf|Hf].
  2:{ injection H as <- <- <-. split; [by destruct w|]. split; [lia|]. split; [by destruct o | done]. }
  set (r0 := if negb (sr =? 0) && _ then sr else ddr) in H.
  set (r1 := if free <? r0 then free else r0) in H.
  assert (Hsr : negb (sr =? 0) && (sr <? ddr) = true -> 0 <= sr <= ddr).
  { intros [Hs1 Hs2]%andb_true_iff. split; [|lia]. subst sr.
    destruct (Z.eqb_spec sram 0); cbn [negb] in *; [subst; done|]. apply u64_range. }
  assert (H0 : 0 <= r0 <= ddr) by (subst r0; destruct (_ && _); [by apply Hsr | lia]).
  assert (H1 : 0 <= r1 <= ddr /\ r1 < 2 ^ 32) by (subst r1; case_bool; lia).
  rewrite (u32_small r1) in H by lia.
  destruct (rknpu_mm_alloc _ _ r1) as [[[ret mm] slot]|] eqn:Ea; [|done].
  injection H as <- <- <-. split; [by destruct slot|]. split; [case_match; lia|].
  split; [by destruct slot|]. cbn [sram_mm set_field].
  destruct (Z.eqb_spec ret 0) as [->|Hret]; cbn [negb].
  - assert (exists m, slot = ObjPtr m) as [m ->].
    { unfold rknpu_mm_alloc in Ea. repeat case_match; simplify_eq; by eexists. }
    assert (0 < r1).
    { apply mm_alloc_success in Ea as (_ & ? & _); [lia | done | lia]. }
    rewrite (proj2 (Z.ltb_lt _ _)) by done. exists m. split; [done|].
    by rewrite (mm_free_alloc _ _ _ _ _ _ Hwf (proj1 (proj1 H1)) Ea).
  - cbn. apply mm_alloc_failure in Ea as [-> _]; [done | done | lia |].
    intros m ->. apply mm_alloc_success in Ea as [? _]; [done | done | lia].
Qed.

Record unchanged (w w' : gem_world) : Prop := {
  un_frame : w' = w <| held := held w' |> <| page_table := page_table w' |>;
  un_table : forall x, page_table w' x = page_table w x;
  un_held : held w' ≡ held w;
}.

(** After rknpu_gem_init and the domain switch. *)
Record opened (p : Z) (w w1 : gem_world) : Prop := {
  op_frame : w1 = w <| held := held w1 |> <| domains := domains w1 |>;
  op_held : held w1 ≡ acquire (HeldGem p) (acquire (HeldObject p) (held w));
  op_domain : iommu_domain_refcount (domains w1) = iommu_domain_refcount (domains w) + domain_weight;
}.

Lemma opened_fail (p : Z) (w w1 w2 : gem_world) :
  opened p w w1 -> unchanged w1 w2 -> restored w (domain_release (rknpu_gem_release p w2)).
Proof.
  intros [O1 O2 O3] [U1 U2 U3]. rewrite U1, O1. split; try done.
  - intros x. cbn. rewrite U2, O1. done.
  - cbn. rewrite U3, O2. ledger.
  - cbn. rewrite domain_put_spec, O3. lia.
Qed.

Lemma get_retry_ok (fuel : nat) : forall (id ret : Z) (w w' : gem_world),
  domain_get_retry fuel id w = Some (ret, w') ->
  w' = w <| domains := domains w' |> /\
  iommu_domain_refcount (domains w') =
    iommu_domain_refcount (domains w) + (if ret =? 0 then domain_weight else 0).
Proof.
  assert (Hstep : forall id ret w w', domain_get_switch id w = Some (ret, w') ->
    w' = w <| domains := domains w' |> /\
    iommu_domain_refcount (domains w') =
      iommu_domain_refcount (domains w) + (if ret =? 0 then domain_weight else 0)).
  { intros id ret w w' H. unfold domain_get_switch in H.
    destruct (domain_get id (domains w)) as [[r st]|] eqn:E; [|done]. injection H as <- <-.
    split; [done|]. cbn. destruct (Z.eqb_spec r 0) as [->|Hr].
    - by apply domain_get_ok in E.
    - apply domain_get_fail in E; [lia | done]. }
  induction fuel as [|fuel IH]; intros id ret w w' H; cbn [domain_get_retry] in H;
    destruct (domain_get_switch id w) as [[r w1]|] eqn:E; try done;
    pose proof (Hstep _ _ _ _ E) as [S1 S2]; destruct (Z.eqb_spec r 0) as [->|Hr].
  - by injection H as <- <-.
  - injection H as <- <-. by rewrite (proj2 (Z.eqb_neq _ _) Hr).
  - by injection H as <- <-.
  - destruct fuel as [|fuel].
    + injection H as <- <-. by rewrite (proj2 (Z.eqb_neq _ _) Hr).
    + apply IH in H as [H1 H2]. split; [rewrite H1, S1; done | lia].
Qed.

(** The object is in place: its last put restores the state before its creation. *)
Lemma owned_put (p : Z) (o : rknpu_gem_object) (w w1 w2 w3 w' w'' : gem_world) :
  opened p w w1 -> owned p o w1 w2 -> gem_objs w !! p = None ->
  w' = domain_release (w2 <| gem_objs ::= <[p := o]> |>) ->
  domain_get_retry 3 (go_iommu_domain_id o) w' = Some (0, w3) -> is_Some (attached (domains w3)) ->
  rknpu_gem_object_put no_gki gd p w' = Some w'' -> restored w w''.
Proof.
  intros [O1 O2 O3] [(F1 & F2 & F3 & F4) Hnew Hfree] Hp Hw' Hget Hat H.
  assert (Ho : gem_objs w' !! p = Some o) by (rewrite Hw'; apply lookup_insert_eq).
  unfold rknpu_gem_object_put in H. rewrite Ho, Hnew in H.
  pose proof (fun v => gem_free_parts_refcount p 0 o v) as Hrc.
  set (o0 := o <| go_refcount := 0 |>) in *. cbn [Z.eqb Pos.eqb] in H.
  unfold rknpu_gem_object_destroy in H.
  change (go_iommu_domain_id o0) with (go_iommu_domain_id o) in H.
  rewrite Hget in H. cbn [negb Z.eqb] in H. injection H as <-.
  apply get_retry_ok in Hget as [G1 G2]. cbn [Z.eqb] in G2. rewrite Hw' in G1, G2. clear Ho Hw' w'.
  destruct (Hfree w3) as (E1 & E2 & E3 & E4); [by rewrite G1 | by rewrite G1 | by rewrite G1 | done |].
  rewrite Hrc.
  remember (gem_free_parts no_gki gd p o w3) as w4 eqn:Hw4. clear Hw4.
  split.
  - cbn. rewrite E1, G1. cbn. rewrite F1, O1. cbn. by rewrite delete_insert_id.
  - cbn. rewrite E1, G1. cbn. by rewrite F2, O1.
  - cbn. rewrite E1, G1. cbn. by rewrite F3, O1.
  - cbn. by rewrite E4, O1.
  - intros x. cbn. rewrite E2, O1. done.
  - cbn. rewrite E3, O2. ledger.
  - cbn. rewrite domain_put_spec, E1. cbn. rewrite G2. cbn. rewrite domain_put_spec, F4, O3. lia.
Qed.

(** The outcomes of rknpu_gem_object_create. *)
Definition create_post (ans : gem_answer) (w : gem_world) (r : Z + Z) (w' : gem_world) : Prop :=
  match r with
  | inl _ => restored w w'
  | inr p => ga_kzalloc ans = Some p /\ exists o w1 w2,
      opened p w w1 /\ owned p o w1 w2 /\ w' = domain_release (w2 <| gem_objs ::= <[p := o]> |>)
  end.

(** A request the driver can answer: sizes and regions that fit, and no mapping
    of a cache entry by entry that fails half-way. *)
Record gem_request_ok (ans : gem_answer) (size : Z) (w : gem_world) : Prop := {
  gq_answer : gem_answer_ok ans;
  gq_dma : dma_device_ok (gd_dma gd);
  gq_iova : iova_fresh ans w;
  gq_sram : mm_wf (sram_mm w);
  gq_size : 0 <= size < 2 ^ 60;
  gq_nbuf : 0 <= gd_nbuf_size gd < 2 ^ 32 /\ 0 < gd_num_irqs gd;
  gq_sgt : no_gki = false \/ gd_cache_sgt gd 0 = None \/
    (forall i sgt, gd_cache_sgt gd i = Some sgt -> sg_ok sgt) /\ forall a p n, ga_iommu_map ans a p n = 0;
}.

Lemma round_up_page (size : Z) : 0 <= size < 2 ^ 60 -> 0 <= u64 (round_up size PAGE_SIZE) < 2 ^ 61.
Proof.
  intros H. assert (0 <= round_up size PAGE_SIZE < 2 ^ 61).
  { unfold round_up, PAGE_SIZE. pose proof (Z.div_mod (size + 4096 - 1) 4096 ltac:(lia)).
    pose proof (Z.mod_pos_bound (size + 4096 - 1) 4096 ltac:(lia)). lia. }
  by rewrite u64_small by lia.
Qed.

Lemma create_from_ddr (ans : gem_answer) (p ddr : Z) (o : rknpu_gem_object) (w w1 w' : gem_world)
    (r : Z + Z) :
  gem_answer_ok ans -> ga_kzalloc ans = Some p -> opened p w w1 ->
  go_refcount o = 1 -> go_import o = false -> go_dma_addr o = 0 -> go_sram_size o = 0 ->
  go_nbuf_size o = 0 ->
  (if 0 <? ddr then
     let '(ret, o, w) := rknpu_gem_alloc_buf force_contig gd ans p o w1 in
     if ret <? 0 then Some (inl ret, domain_release (rknpu_gem_release p w))
     else Some (inr p, domain_release (w <| gem_objs ::= <[p := o]> |>))
   else Some (inr p, domain_release (w1 <| gem_objs ::= <[p := o]> |>))) = Some (r, w') ->
  create_post ans w r w'.
Proof.
  intros Hok Hp Hop H1 H2 H3 H4 H5 H.
  destruct (0 <? ddr).
  2:{ injection H as <- <-. split; [done|]. exists o, w1, w1. split; [done|]. split; [|done].
      by apply owned_nothing. }
  destruct (rknpu_gem_alloc_buf _ _ _ _ _ _) as [[ret o'] w3] eqn:Ea.
  pose proof (alloc_buf_ok ans p o o' ret w1 w3 Hok H3 Ea) as (L1 & _ & L2).
  destruct (Z.ltb_spec ret 0) as [Hr|Hr]; injection H as <- <-.
  - destruct L2 as [[_ L2]|[? _]]; [|lia]. apply (opened_fail p w w1); [done|].
    split; [rewrite L1; by destruct w1 | by rewrite L1 | done].
  - destruct L2 as [[? _]|[-> L2]]; [lia|]. split; [done|]. exists o', w1, w3.
    split; [done|]. split; [|done]. by apply (owned_dma ans p o).
Qed.

(** The cache branch, once its size is known. *)
Lemma create_from_cache (ans : gem_answer) (p ret : Z) (t : rknpu_cache_type) (o o' : rknpu_gem_object)
    (w w1 w2 w3 : gem_world) :
  gem_answer_ok ans -> dma_device_ok (gd_dma gd) -> iova_fresh ans w -> opened p w w1 ->
  w2 = w1 <| sram_mm := sram_mm w2 |> ->
  go_refcount o = 1 -> go_import o = false -> go_pages o = None -> go_sgt o = None ->
  cache_table_ok ans o -> 0 <= go_size o < 2 ^ 61 -> 0 < (cache_region gd t o w2).2 < 2 ^ 61 ->
  match t with
  | RKNPU_CACHE_SRAM =>
      exists m, go_sram_obj o = Some m /\ (rknpu_mm_free (sram_mm w2) (Some m)).2 = sram_mm w1
  | RKNPU_CACHE_NBUF => go_sram_size o = 0 /\ no_gki = true /\ sram_mm w2 = sram_mm w1
  end ->
  rknpu_gem_alloc_buf_with_cache gd ans p o t w2 = (ret, o', w3) ->
  go_sram_obj o' = go_sram_obj o /\
  if ret <? 0 then unchanged w2 w3 else owned p o' w1 w3.
Proof.
  intros Hok Hd Hf [O1 _ _] Hw2 H1 H2 H3 H4 H5 Hs Hn Ht H.
  pose proof (alloc_with_cache_ok ans p ret t o o' w2 w3) as Hc.
  assert (Hfresh : iova_fresh ans w2).
  { intros sz al a Ha. rewrite Hw2, O1. by apply Hf. }
  assert (Hsz : (cache_region gd t o w2).2 =
    match t with RKNPU_CACHE_SRAM => go_sram_size o | _ => go_nbuf_size o end) by by destruct t.
  destruct (cache_region gd t o w2) as [phys n] eqn:Er. cbn [snd] in Hn, Hsz.
  destruct Hc as [(S1 & S2 & S3 & S4 & S5 & S6 & _) Hc]; [done|done|done|lia|lia|lia|done..|].
  split; [done|]. destruct (Z.ltb_spec ret 0) as [Hr|Hr].
  - destruct Hc as [(_ & [U1 U2] & U3)|[? _]]; [by split | lia].
  - destruct Hc as [[? _]|[_ Hb]]; [lia|].
    apply (owned_cache ans p n phys t o' w1 w2 w3 Hb); [congruence | congruence | done |].
    rewrite S4, S5, S6. destruct t.
    + split; [by symmetry|]. split; [lia | exact Ht].
    + destruct Ht as (E1 & E2 & E3). split; [done|]. split; [by symmetry|]. split; [lia | done].
Qed.

Lemma object_create_ok (ans : gem_answer) (flags size sram_size domain_id core_mask : Z)
    (w w' : gem_world) (r : Z + Z) :
  gem_request_ok ans size w ->
  rknpu_gem_object_create no_gki force_contig gd ans flags size sram_size domain_id core_mask w =
    Some (r, w') -> create_post ans w r w'.
Proof.
  intros [Hok Hd Hf Hmm Hsz Hnb Hsgt] H. unfold rknpu_gem_object_create in H.
  destruct (size =? 0); [by injection H as <- <-|].
  pose proof (round_up_page size Hsz) as Hddr. set (ddr := u64 (round_up size PAGE_SIZE)) in *.
  unfold rknpu_gem_init in H. destruct (ga_kzalloc ans) as [p|] eqn:Hp; [|by injection H as <- <-].
  destruct (ga_init ans <? 0).
  { injection H as <- <-. split; try done. cbn. by rewrite release_acquire. }
  set (wi := hold (HeldGem p) _) in H. unfold domain_get_switch in H.
  change (domains wi) with (domains w) in H.
  destruct (domain_get domain_id (domains w)) as [[ret st]|] eqn:Eg; [|done]. cbn [option_map] in H.
  change ((ret, st).1) with ret in H. change ((ret, st).2) with st in H.
  set (w1 := wi <| domains := st |>) in H.
  destruct (Z.eqb_spec ret 0) as [->|Hret]; cbn [negb] in H.
  2:{ injection H as <- <-. split; try done; [cbn; ledger|]. cbn. by apply domain_get_fail in Eg. }
  assert (Hop : opened p w w1).
  { split; [by destruct w | done | by apply domain_get_ok in Eg]. }
  set (fl := if _ && _ then Z.ldiff flags _ else flags) in H.
  set (o := (new_gem_object ddr) <| go_iommu_domain_id := domain_id |> <| go_flags := fl |>) in H.
  destruct (has_flag fl RKNPU_MEM_TRY_ALLOC_SRAM && _); [|destruct (no_gki && _ && _) eqn:En].
  - destruct (sram_take ans ddr sram_size o w1) as [[[real o1] w2]|] eqn:Es; [|done].
    apply sram_take_ok in Es as (Hw2 & Hreal & Ho1 & Hs); [|done|lia].
    destruct (Z.ltb_spec 0 real) as [Hpos|Hzero].
    + destruct Hs as (m & Hm & Hfree).
      destruct (rknpu_gem_alloc_buf_with_cache _ _ _ _ _ _) as [[ret' o2] w3] eqn:Ea.
      pose proof Ea as Eb.
      apply (create_from_cache ans p ret' RKNPU_CACHE_SRAM _ o2 w w1 w2 w3) in Ea as [Hso Hcase];
        try done; try (rewrite Ho1; cbn; lia); try (by rewrite Ho1); [|by exists m].
      destruct (ret' <? 0); injection H as <- <-.
      * destruct Hcase as [U1 U2 U3]. rewrite Hso. cbn [go_sram_obj set_field]. rewrite Hm.
        apply (opened_fail p w w1); [done|]. rewrite Hw2 in U1, U2, U3. cbn in U2, U3.
        split; [|by intros x; cbn; rewrite U2 | done].
        rewrite U1. cbn. cbn in Hfree; rewrite Hfree. by destruct w1.
      * split; [done|]. by exists o2, w1, w3.
    + assert (w2 = w1) as -> by (rewrite Hw2, Hs; by destruct w1).
      eapply create_from_ddr; [done|done|done| | | | | |exact H]; by rewrite Ho1.
  - apply andb_true_iff in En as [[Eno _]%andb_true_iff _].
    destruct Hsgt as [|Hsgt]; [congruence|]. unfold nbuf_take in H.
    set (one := (core_mask =? RKNPU_CORE_AUTO_MASK) || _ || _) in H.
    set (nb := if ddr <=? _ then ddr else _) in H. cbn zeta in H.
    set (o1 := o <| go_cache_with_sgt := false |> <| go_cache_with_sgt := _ |> <| go_core_mask := core_mask |>) in H.
    assert (Htab : cache_table_ok ans (o1 <| go_nbuf_size := nb |>)).
    { intros Hw. change (one && bool_decide (is_Some (gd_cache_sgt gd 0)) = true) in Hw.
      apply andb_true_iff in Hw as [_ [t0 Ht0]%bool_decide_eq_true].
      destruct Hsgt as [Hno|[Hg Hm]]; [congruence|]. split; [|done].
      apply cache_entries_ok. exact Hg. }
    assert (Hnbuf : nb < 2 ^ 61).
    { pose proof (Z.div_le_upper_bound (gd_nbuf_size gd) (gd_num_irqs gd) (gd_nbuf_size gd)
        ltac:(lia) ltac:(nia)). subst nb. repeat case_match; lia. }
    destruct (Z.ltb_spec 0 nb) as [Hpos|Hzero].
    + destruct (rknpu_gem_alloc_buf_with_cache _ _ _ _ _ _) as [[ret' o2] w3] eqn:Ea.
      apply (create_from_cache ans p ret' RKNPU_CACHE_NBUF _ o2 w w1 w1 w3) in Ea as [_ Hcase];
        try done.
      destruct (ret' <? 0); injection H as <- <-.
      * by apply (opened_fail p w w1).
      * split; [done|]. by exists o2, w1, w3.
    + eapply create_from_ddr; [done|done|done| | | | | |exact H]; done.
  - eapply create_from_ddr; [done|done|done| | | | | |exact H]; done.
Qed.
End GemLife.


(** A device with four SRAM chunks, one in use; the kernel grants everything. *)
Definition example_gem_device : gem_device :=
  {| gd_dma := example_device; gd_dma_mask := DMA_BIT_MASK 40; gd_num_irqs := 1;
     gd_sram_start := 0xfdcc0000; gd_sram_size := 16384; gd_nbuf_start := 0; gd_nbuf_size := 0;
     gd_sram_base_io := 0xffff0000; gd_nbuf_base_io := 0;
     gd_cache_sgt := fun _ => None |}.
Definition example_gem_answer : gem_answer :=
  {| ga_kzalloc := Some 10; ga_init := 0; ga_mm_kzalloc := true;
     ga_iova := {| alloc_iova := fun _ _ => None;
                   alloc_iova_fast := fun len _ => if len <? 2 ^ 40 then 0x100 else 0;
                   iommu_map_sg := fun _ => 0 |};
     ga_iommu_map := fun _ _ _ => 0;
     ga_get_pages := inr [0x5000; 0x6000; 0x9000];
     ga_pages_to_sg := inr [{| s_phys := 0x5000; s_length := 8192 |}; {| s_phys := 0x9000; s_length := 4096 |}];
     ga_page_array := true; ga_dma_alloc := fun _ _ _ => Some (0x7000, 0x7000);
     ga_sgt_kzalloc := true; ga_get_sgtable := inr [{| s_phys := 0x7000; s_length := 12288 |}];
     ga_sg_to_pages := inr [0x7000; 0x8000; 0x9000]; ga_handle := inr 1; ga_track := true |}.
Definition example_gem_world : gem_world :=
  {| gem_objs := ∅; gem_ranges := []; gem_handles := ∅; sram_mm := example_mm [false; true; false; false] 3;
     page_table := fun _ => None; held := fun _ => 0; domains := example_iommu |}.

Lemma example_request_ok (size : Z) :
  0 <= size < 2 ^ 60 -> gem_request_ok false example_gem_device example_gem_answer size example_gem_world.
Proof.
  intros Hs. split; try done.
  - split; try (intros; discriminate).
    + intros sgt [= <-]. repeat apply Forall_cons_2; [cbn; lia.. | by apply Forall_nil].
    + intros gfp n attrs buf [= <-]. cbn. lia.
  - exact example_device_ok.
  - intros sz [|] a; subst a; [|done].
    unfold rknpu_iommu_dma_alloc_iova. cbn [alloc_iova_fast example_gem_answer ga_iova].
    change (iova_shift (gd_dma example_gem_device)) with 12.
    destruct (Z.ltb_spec (sz ≫ 12) (2 ^ 40)) as [Hlt|]; [|done]. intros _.
    change (u64 (0x100 ≪ 12)) with 0x100000. rewrite Z.shiftr_div_pow2 in Hlt by lia.
    pose proof (Z.div_mod sz (2 ^ 12) ltac:(lia)). pose proof (Z.mod_pos_bound sz (2 ^ 12) ltac:(lia)).
    split; [lia|]. split; [lia | done].
  - by left.
Qed.

