(* ===== verification/GemSync.v ===== *)
(** * Cache maintenance of GEM buffers (rknpu_gem.c)

    rknpu_gem_sync_ioctl and its helpers: the list of cache maintenance calls an
    ioctl makes, and the bytes of the buffer that they cover. *)

From S2P Require Import Prelude Ledger Mapping Config Domain Mm Sg Gem GemLife.

Inductive sync_dir := ToDevice | FromDevice.
#[export] Instance sync_dir_eq : EqDecision sync_dir.
Proof. solve_decision. Defined.

(** The calls: dma_sync_single_range_for_device or _for_cpu on the DRM device or
    on the device without IOMMU ([fake]), dma_sync_sg_for_device or _for_cpu,
    and dcache_clean_poc or dcache_inval_poc. *)
Inductive sync_op :=
  | SyncRange (fake : bool) (dir : sync_dir) (addr offset size : Z)
  | SyncSg (dir : sync_dir) (sgt : list sg_entry)
  | CachePoc (dir : sync_dir) (start stop : Z).

(** struct rknpu_mem_sync. *)
Record gem_sync_args := { gy_flags : Z; gy_obj_addr : Z; gy_offset : Z; gy_size : Z }.

Definition dir_flag (d : sync_dir) : Z :=
  match d with ToDevice => RKNPU_MEM_SYNC_TO_DEVICE | FromDevice => RKNPU_MEM_SYNC_FROM_DEVICE end.

(** The two [if (flags & RKNPU_MEM_SYNC_...)] of every place. *)
Definition sync_both (flags : Z) (op : sync_dir -> sync_op) : list sync_op :=
  (if has_flag flags RKNPU_MEM_SYNC_TO_DEVICE then [op ToDevice] else []) ++
  (if has_flag flags RKNPU_MEM_SYNC_FROM_DEVICE then [op FromDevice] else []).

(** The loop of rknpu_cache_sync_with_sg: the calls, then length and offset. *)
Fixpoint cache_sync_entries (base flags : Z) (sgs : list sg_entry) (length offset : Z)
  : list sync_op * Z * Z :=
  match sgs with
  | [] => ([], length, offset)
  | s :: sgs =>
      let start := u64 (base + s_phys s) in
      let fits := u64 (offset + length) <=? s_length s in
      let cache_length := if fits then length else u64 (s_length s - offset) in
      let ops := sync_both flags (fun d => CachePoc d start (u64 (start + cache_length))) in
      let length := if fits then 0 else u64 (length - cache_length) in
      if length =? 0 then (ops, length, 0)
      else let '(ops', length, offset) := cache_sync_entries base flags sgs length 0 in
           (ops ++ ops', length, offset)
  end.

(** The loop over the DDR part; [len] is the length of the entries passed. *)
Fixpoint sync_sg_loop (flags : Z) (sgs : list sg_entry) (len offset length : Z) : list sync_op :=
  match sgs with
  | [] => []
  | s :: sgs =>
      if length =? 0 then []
      else
        let len := u64 (len + s_length s) in
        if len <=? offset then sync_sg_loop flags sgs len offset length
        else
          let sg_left := u64 (len - offset) in
          let sg_offset := u64 (s_length s - sg_left) in
          let size := if length <? sg_left then length else sg_left in
          sync_both flags (fun d => SyncRange true d (s_phys s) sg_offset size) ++
          sync_sg_loop flags sgs len (u64 (offset + size)) (u64 (length - size))
  end.

Section Sync.
Context {BO : BitmapOps} {iommu : IommuDomain} (no_gki : bool) (gd : gem_device).

Definition rknpu_cache_sync_with_sg (o : rknpu_gem_object) (flags length offset : Z)
  : list sync_op * Z * Z :=
  cache_sync_entries (gd_nbuf_base_io gd) flags
    (default [] (gd_cache_sgt gd (cache_sgt_index (go_core_mask o)))) length offset.

(** The cache part of an object: where the CPU sees it, and its size. *)
Definition cache_view (t : rknpu_cache_type) (mm : rknpu_mm) (o : rknpu_gem_object) : Z * Z :=
  match t with
  | RKNPU_CACHE_SRAM =>
      let start := match go_sram_obj o with Some m => range_start m | None => 0 end in
      (u64 (gd_sram_base_io gd + u32 (start * chunk_size mm)), go_sram_size o)
  | RKNPU_CACHE_NBUF => (u64 (gd_nbuf_base_io gd), go_nbuf_size o)
  end.

(** The calls, and what is left of length and offset. *)
Definition rknpu_cache_sync (t : rknpu_cache_type) (mm : rknpu_mm) (o : rknpu_gem_object)
    (flags length offset : Z) : list sync_op * Z * Z :=
  let '(start, cache_size) := cache_view t mm o in
  if cache_size <=? offset then ([], length, u64 (offset - cache_size))
  else if negb (go_cache_with_sgt o) then
    let fits := u64 (offset + length) <=? cache_size in
    let cache_length := if fits then length else u64 (cache_size - offset) in
    (sync_both flags (fun d => CachePoc d start (u64 (start + cache_length))),
     if fits then 0 else u64 (length - cache_length), 0)
  else rknpu_cache_sync_with_sg o flags length offset.

(** The branch for buffers whose pages need not be contiguous; [None]: the
    object has no scatter table. *)
Definition sync_noncontiguous (mm : rknpu_mm) (o : rknpu_gem_object) (a : gem_sync_args)
  : option (list sync_op) :=
  let flags := gy_flags a in
  let whole := match go_sgt o with
               | Some sgt => sync_both flags (fun d => SyncSg d sgt)
               | None => []
               end in
  let '(ops, length, offset) :=
    if no_gki && (0 <? go_sram_size o)
    then rknpu_cache_sync RKNPU_CACHE_SRAM mm o flags (gy_size a) (gy_offset a)
    else if no_gki && (0 <? go_nbuf_size o)
    then rknpu_cache_sync RKNPU_CACHE_NBUF mm o flags (gy_size a) (gy_offset a)
    else ([], gy_size a, gy_offset a) in
  match go_sgt o with
  | None => None
  | Some sgt => Some (whole ++ ops ++ sync_sg_loop flags sgt 0 offset length)
  end.

(** [None]: the domain switch waits for ever, or a bad pointer is read. *)
Definition rknpu_gem_sync_ioctl (a : gem_sync_args) (w : gem_world)
  : option (Z * list sync_op * gem_world) :=
  if gy_obj_addr a =? 0 then Some (-EINVAL, [], w)
  else
    match gem_objs w !! gy_obj_addr a with
    | None => None
    | Some o =>
        if negb (has_flag (go_flags o) RKNPU_MEM_CACHEABLE) then Some (-EINVAL, [], w)
        else
          match domain_get_switch (go_iommu_domain_id o) w with
          | None => None
          | Some (ret, w) =>
              if negb (ret =? 0) then Some (-EINVAL, [], w)
              else
                let ops :=
                  if negb (has_flag (go_flags o) RKNPU_MEM_NON_CONTIGUOUS)
                  then Some (sync_both (gy_flags a)
                         (fun d => SyncRange false d (go_dma_addr o) (gy_offset a) (gy_size a)))
                  else sync_noncontiguous (sram_mm w) o a in
                option_map (fun ops => (0, ops, domain_release w)) ops
          end
    end.
End Sync.

(** ** The bytes covered *)

(** A byte of a buffer as the CPU reaches it: of the cache part, or of DDR. *)
Inductive buffer_byte := CacheByte (virt : Z) | RamByte (phys : Z).

(** The bytes of a part that one call maintains; the calls on the whole table
    and on the DMA address are not counted. *)
Definition op_bytes (d : sync_dir) (op : sync_op) : list buffer_byte :=
  match op with
  | SyncRange true d' addr offset size =>
      if decide (d = d') then RamByte <$> seqZ (addr + offset) size else []
  | CachePoc d' start stop => if decide (d = d') then CacheByte <$> seqZ start (stop - start) else []
  | _ => []
  end.
Definition bytes_synced (d : sync_dir) (ops : list sync_op) : list buffer_byte := ops ≫= op_bytes d.

(** The byte [y] of a buffer with [n] bytes of cache at [start]. *)
Definition byte_of (start n : Z) (sgt : list sg_entry) (y : Z) : option buffer_byte :=
  if y <? n then Some (CacheByte (start + y)) else RamByte <$> sg_byte sgt (y - n).

Lemma bytes_synced_app (d : sync_dir) (l1 l2 : list sync_op) :
  bytes_synced d (l1 ++ l2) = bytes_synced d l1 ++ bytes_synced d l2.
Proof. apply bind_app. Qed.

Lemma bytes_synced_both (d : sync_dir) (flags : Z) (op : sync_dir -> sync_op) :
  (forall d', d <> d' -> op_bytes d (op d') = []) ->
  bytes_synced d (sync_both flags op) = if has_flag flags (dir_flag d) then op_bytes d (op d) else [].
Proof.
  intros Hop. unfold sync_both. rewrite bytes_synced_app.
  destruct d; cbn [dir_flag]; destruct (has_flag flags RKNPU_MEM_SYNC_TO_DEVICE),
    (has_flag flags RKNPU_MEM_SYNC_FROM_DEVICE); cbn; rewrite ?(Hop FromDevice), ?(Hop ToDevice), ?app_nil_r by done; done.
Qed.

Lemma bytes_synced_range (d : sync_dir) (flags addr offset size : Z) :
  bytes_synced d (sync_both flags (fun d => SyncRange true d addr offset size)) =
    if has_flag flags (dir_flag d) then RamByte <$> seqZ (addr + offset) size else [].
Proof. rewrite bytes_synced_both; cbn; [by rewrite decide_True | intros d' H; by rewrite decide_False]. Qed.

Lemma bytes_synced_poc (d : sync_dir) (flags start stop : Z) :
  bytes_synced d (sync_both flags (fun d => CachePoc d start stop)) =
    if has_flag flags (dir_flag d) then CacheByte <$> seqZ start (stop - start) else [].
Proof. rewrite bytes_synced_both; cbn; [by rewrite decide_True | intros d' H; by rewrite decide_False]. Qed.

Lemma bytes_synced_sg (d : sync_dir) (flags : Z) (sgt : list sg_entry) :
  bytes_synced d (sync_both flags (fun d => SyncSg d sgt)) = [].
Proof. rewrite bytes_synced_both by done. by case_match. Qed.

Lemma omap_sg_byte_nil (l : list Z) : omap (sg_byte []) l = [].
Proof. by induction l. Qed.

(** The loop covers [length] bytes of the entries from [offset - len] on. *)
Lemma sync_sg_loop_bytes (d : sync_dir) (flags : Z) (sgs : list sg_entry) :
  forall len offset length, sg_ok sgs -> 0 <= len <= offset -> offset < 2 ^ 64 -> 0 <= length < 2 ^ 64 ->
  len + sg_total sgs < 2 ^ 64 ->
  bytes_synced d (sync_sg_loop flags sgs len offset length) =
    if has_flag flags (dir_flag d)
    then RamByte <$> omap (sg_byte sgs) (seqZ (offset - len) length) else [].
Proof.
  induction sgs as [|s sgs IH]; intros len offset length Hok Hlen Hoff Hl Hb.
  { cbn [sync_sg_loop]. rewrite omap_sg_byte_nil. by case_match. }
  cbn [sync_sg_loop sg_total] in *. apply Forall_cons in Hok as [Hs Hok].
  pose proof (sg_total_nonneg _ Hok) as Ht.
  destruct (Z.eqb_spec length 0) as [->|Hnz]; [by case_match|].
  rewrite (u64_small (len + _)) by lia.
  destruct (Z.leb_spec (len + s_length s) offset) as [Hpast|Hin].
  { rewrite IH, omap_sg_byte_past by (done || lia).
    by replace (offset - len - s_length s) with (offset - (len + s_length s)) by lia. }
  rewrite (u64_small (len + s_length s - offset)) by lia.
  rewrite (u64_small (s_length s - _)) by lia.
  set (left := len + s_length s - offset). set (size := if length <? left then length else left).
  assert (0 < size <= length /\ size <= left /\ (size = length \/ size = left)) by (subst size left; case_bool; lia).
  rewrite !u64_small by lia. rewrite bytes_synced_app, bytes_synced_range.
  replace length with (size + (length - size)) at 2 by lia.
  rewrite seqZ_app by lia. rewrite omap_app, omap_sg_byte_in by lia. rewrite fmap_app.
  replace (s_length s - left) with (offset - len) by lia.
  destruct (Z.eq_dec size length) as [->|].
  - rewrite Z.sub_diag. replace (seqZ (offset - len + length) 0) with (@nil Z) by done.
    destruct sgs; cbn [sync_sg_loop]; destruct (has_flag _ _); by rewrite ?app_nil_r.
  - rewrite IH, omap_sg_byte_past by (done || lia).
    replace (offset - len + size - s_length s) with (offset + size - (len + s_length s)) by lia.
    by destruct (has_flag _ _).
Qed.

Section SyncBytes.
Context {BO : BitmapOps} {iommu : IommuDomain}.

(** How a buffer is laid out: the cache part, then the bytes of its table. *)
Definition cache_layout (gd : gem_device) (mm : rknpu_mm) (o : rknpu_gem_object) : Z * Z :=
  if 0 <? go_sram_size o then cache_view gd RKNPU_CACHE_SRAM mm o
  else if 0 <? go_nbuf_size o then cache_view gd RKNPU_CACHE_NBUF mm o
  else (0, 0).

(** A buffer a sync request is about, and the bounds of the request. *)
Record sync_request (gd : gem_device) (a : gem_sync_args) (o : rknpu_gem_object) (sgt : list sg_entry)
    (start n : Z) (w : gem_world) : Prop := {
  sr_addr : gy_obj_addr a <> 0;
  sr_obj : gem_objs w !! gy_obj_addr a = Some o;
  sr_cached : has_flag (go_flags o) RKNPU_MEM_CACHEABLE = true;
  sr_pages : has_flag (go_flags o) RKNPU_MEM_NON_CONTIGUOUS = true;
  sr_sgt : go_sgt o = Some sgt;
  sr_entries : sg_ok sgt;
  sr_total : sg_total sgt < 2 ^ 64;
  sr_layout : cache_layout gd (sram_mm w) o = (start, n);
  sr_plain : go_cache_with_sgt o = false;
  sr_fits : 0 <= start /\ 0 <= n /\ start + n < 2 ^ 64;
  sr_range : 0 <= gy_offset a /\ 0 <= gy_size a /\ gy_offset a + gy_size a < 2 ^ 64;
}.

(** Bytes from [from] on in the cache part, or in the DDR part. *)
Lemma byte_of_cache (start n : Z) (sgt : list sg_entry) (a k : Z) :
  a + k <= n -> omap (byte_of start n sgt) (seqZ a k) = CacheByte <$> seqZ (start + a) k.
Proof.
  intros H. rewrite seqZ_shift, <- list_fmap_compose.
  assert (Hin : Forall (fun y => y < n) (seqZ a k)) by (apply Forall_forall; intros y Hy%elem_of_seqZ; lia).
  induction Hin as [|y l Hy _ IH]; [done|]. cbn. unfold byte_of at 1.
  rewrite (proj2 (Z.ltb_lt _ _) Hy). by f_equal.
Qed.

Lemma byte_of_ram (start n : Z) (sgt : list sg_entry) (a k : Z) :
  n <= a -> omap (byte_of start n sgt) (seqZ a k) = RamByte <$> omap (sg_byte sgt) (seqZ (a - n) k).
Proof.
  intros H. replace a with (n + (a - n)) at 1 by lia. rewrite seqZ_shift.
  assert (Hin : Forall (fun y => 0 <= y) (seqZ (a - n) k)) by (apply Forall_forall; intros y Hy%elem_of_seqZ; lia).
  induction Hin as [|y l Hy _ IH]; [done|]. cbn. unfold byte_of at 1.
  rewrite (proj2 (Z.ltb_ge _ _)) by lia. replace (n + y - n) with y by lia.
  destruct (sg_byte sgt y); cbn; [by f_equal | done].
Qed.

(** rknpu_cache_sync from the start of the cache part, or past it. *)
Lemma cache_sync_bytes (gd : gem_device) (t : rknpu_cache_type) (mm : rknpu_mm) (o : rknpu_gem_object)
    (d : sync_dir) (flags length offset start n : Z) (sgt : list sg_entry) :
  cache_view gd t mm o = (start, n) -> go_cache_with_sgt o = false -> sg_ok sgt -> sg_total sgt < 2 ^ 64 ->
  0 <= start /\ 0 <= n /\ start + n < 2 ^ 64 ->
  0 <= offset /\ 0 <= length /\ offset + length < 2 ^ 64 -> offset = 0 \/ n <= offset ->
  let '(ops, length', offset') := rknpu_cache_sync gd t mm o flags length offset in
  bytes_synced d (ops ++ sync_sg_loop flags sgt 0 offset' length') =
    if has_flag flags (dir_flag d) then omap (byte_of start n sgt) (seqZ offset length) else [].
Proof.
  intros Hv Hplain Hok Ht Hst Hr Hoff. unfold rknpu_cache_sync. rewrite Hv.
  destruct (Z.leb_spec n offset) as [Hpast|Hin].
  { rewrite u64_small by lia. cbn [app]. rewrite sync_sg_loop_bytes by (done || lia).
    by rewrite byte_of_ram, Z.sub_0_r by done. }
  destruct Hoff as [->|]; [|lia]. rewrite Hplain. cbn [negb]. rewrite (u64_small (0 + length)) by lia.
  rewrite (u64_small (n - 0)), Z.sub_0_r, Z.add_0_l by lia.
  destruct (Z.leb_spec length n) as [Hfit|Hmore]; rewrite bytes_synced_app, bytes_synced_poc, sync_sg_loop_bytes
    by (done || lia || rewrite ?u64_small; lia).
  - rewrite u64_small by lia. rewrite byte_of_cache, Z.add_0_r by lia.
    replace (start + length - start) with length by lia. cbn [seqZ]. by destruct (has_flag _ _); rewrite ?app_nil_r.
  - rewrite !u64_small by lia. replace length with (n + (length - n)) at 2 by lia.
    rewrite seqZ_app by lia. rewrite omap_app, byte_of_cache, byte_of_ram by lia.
    replace (start + n - start) with n by lia. rewrite !Z.add_0_r, !Z.sub_diag.
    by destruct (has_flag _ _).
Qed.

(** The ioctl reaches the branch for separate pages. *)
Lemma gem_sync_run (no_gki : bool) (gd : gem_device) (a : gem_sync_args) (o : rknpu_gem_object)
    (sgt : list sg_entry) (start n : Z) (w w1 : gem_world) :
  sync_request gd a o sgt start n w -> domain_get_switch (go_iommu_domain_id o) w = Some (0, w1) ->
  rknpu_gem_sync_ioctl no_gki gd a w =
    option_map (fun ops => (0, ops, domain_release w1)) (sync_noncontiguous no_gki gd (sram_mm w) o a).
Proof.
  intros Hs H1. unfold rknpu_gem_sync_ioctl. rewrite (proj2 (Z.eqb_neq _ _) (sr_addr _ _ _ _ _ _ _ Hs)).
  rewrite (sr_obj _ _ _ _ _ _ _ Hs), (sr_cached _ _ _ _ _ _ _ Hs), H1, (sr_pages _ _ _ _ _ _ _ Hs).
  unfold domain_get_switch in H1. destruct (domain_get _ _) as [[r st]|]; [|done]. by injection H1 as -> <-.
Qed.

Lemma release_after_get (id : Z) (w w1 : gem_world) :
  domain_get_switch id w = Some (0, w1) ->
  iommu_domain_refcount (domains (domain_release w1)) = iommu_domain_refcount (domains w).
Proof.
  unfold domain_get_switch. intros H. destruct (domain_get _ _) as [[r st]|] eqn:E; [|done].
  injection H as -> <-. apply domain_get_ok in E. cbn. rewrite domain_put_spec, E. lia.
Qed.
End SyncBytes.


(** Where the synchronisation misses the range.  Without CONFIG_NO_GKI the
    offset of a buffer with a cache part is taken into its DDR part, so the
    bytes covered are those [n] further on than the bytes asked; with it, a
    range inside the cache part is synchronised from the start of that part. *)
Theorem gem_sync_misses_range {BO : BitmapOps} {iommu : IommuDomain} (no_gki : bool)
    (gd : gem_device) (a : gem_sync_args) (o : rknpu_gem_object) (sgt : list sg_entry) (start n : Z)
    (w w1 : gem_world) :
  sync_request gd a o sgt start n w -> domain_get_switch (go_iommu_domain_id o) w = Some (0, w1) ->
  no_gki = false \/ gy_offset a < n /\ gy_offset a + gy_size a <= n ->
  exists ops w', rknpu_gem_sync_ioctl no_gki gd a w = Some (0, ops, w') /\
    forall d, has_flag (gy_flags a) (dir_flag d) = true ->
      bytes_synced d ops =
        omap (byte_of start n sgt) (seqZ (if no_gki then 0 else gy_offset a + n) (gy_size a)).
Proof.
  intros Hs Hget Hn. rewrite (gem_sync_run no_gki gd a o sgt start n w w1 Hs Hget).
  destruct Hs as [_ _ _ _ Hsgt Hok Ht Hlay Hplain Hfit Hr]. unfold sync_noncontiguous. rewrite Hsgt.
  destruct no_gki; cbn [andb].
  - destruct Hn as [|[H1 H2]]; [done|]. unfold cache_layout in Hlay.
    assert (Hpart : forall t, cache_view gd t (sram_mm w) o = (start, n) ->
      rknpu_cache_sync gd t (sram_mm w) o (gy_flags a) (gy_size a) (gy_offset a) =
        (sync_both (gy_flags a) (fun d => CachePoc d start (start + gy_size a)), 0, 0)).
    { intros t Hv. unfold rknpu_cache_sync. rewrite Hv, Hplain, (proj2 (Z.leb_gt _ _) H1). cbn [negb].
      rewrite (u64_small (gy_offset a + gy_size a)), (proj2 (Z.leb_le _ _) H2) by lia. by rewrite u64_small by lia. }
    destruct (0 <? go_sram_size o); [|destruct (0 <? go_nbuf_size o); [|injection Hlay; lia]].
    all: rewrite (Hpart _ Hlay); eexists _, _; split; [done|]; intros d Hd.
    all: rewrite !bytes_synced_app, bytes_synced_sg, bytes_synced_poc, Hd, byte_of_cache by lia.
    all: replace (start + gy_size a - start) with (gy_size a) by lia; rewrite Z.add_0_r.
    all: destruct sgt; cbn; by rewrite app_nil_r.
  - eexists _, _. split; [done|]. intros d Hd. cbn [app].
    rewrite bytes_synced_app, bytes_synced_sg, sync_sg_loop_bytes, Hd, byte_of_ram by (done || lia).
    by replace (gy_offset a + n - n) with (gy_offset a - 0) by lia.
Qed.

(** A buffer of two chunks of SRAM and two entries of DDR. *)
Definition example_sync_world (sram : Z) : gem_world :=
  example_gem_world <| gem_objs := {[ 10 :=
    (new_gem_object 16384) <| go_flags := Z.lor RKNPU_MEM_CACHEABLE RKNPU_MEM_NON_CONTIGUOUS |>
      <| go_sram_size := sram |> <| go_sram_obj := Some {| range_start := 2; range_end := 3 |} |>
      <| go_sgt := Some [{| s_phys := 0x5000; s_length := 8192 |}; {| s_phys := 0x9000; s_length := 8192 |}] |> ]} |>.
Definition example_sync_args : gem_sync_args :=
  {| gy_flags := RKNPU_MEM_SYNC_TO_DEVICE; gy_obj_addr := 10; gy_offset := 8190; gy_size := 6 |}.


Lemma gem_sync_misses_range_witness :
  exists ops w', rknpu_gem_sync_ioctl (iommu := iommu_domain_stub) false example_gem_device
      example_sync_args (example_sync_world 8192) = Some (0, ops, w') /\
    bytes_synced ToDevice ops = RamByte <$> (seqZ (0x5000 + 8190) 2 ++ seqZ 0x9000 4).
Proof.
  destruct (domain_get_switch (iommu := iommu_domain_stub) 0 (example_sync_world 8192)) as [[ret w1]|] eqn:Eg;
    [|done].
  assert (ret = 0) as -> by (vm_compute in Eg; congruence).
  destruct (gem_sync_misses_range (iommu := iommu_domain_stub) false example_gem_device example_sync_args
    ((new_gem_object 16384) <| go_flags := Z.lor RKNPU_MEM_CACHEABLE RKNPU_MEM_NON_CONTIGUOUS |>
      <| go_sram_size := 8192 |> <| go_sram_obj := Some {| range_start := 2; range_end := 3 |} |>
      <| go_sgt := Some [{| s_phys := 0x5000; s_length := 8192 |}; {| s_phys := 0x9000; s_length := 8192 |}] |>)
    [{| s_phys := 0x5000; s_length := 8192 |}; {| s_phys := 0x9000; s_length := 8192 |}] 0xffff2000 8192
    (example_sync_world 8192) w1) as (ops & w' & H1 & H2).
  - split; try done. repeat apply Forall_cons_2; [done.. | by apply Forall_nil].
  - exact Eg.
  - by left.
  - exists ops, w'. split; [exact H1|]. rewrite (H2 ToDevice) by done. vm_compute. reflexivity.
Defined.
