(* ===== verification/GemMap.v ===== *)
(** * Mapping GEM objects (rknpu_gem.c)

    The user mapping of an object (rknpu_gem_mmap_obj and what it calls), page
    faults, the kernel mapping and the import of other drivers' buffers, and
    dumb buffers.  A user mapping is a translation, as the page table of the
    device is, so that the two views of a buffer can be compared. *)

From S2P Require Import Prelude Ledger Mapping Config Domain Mm Sg Gem GemLife.

Definition RKNPU_MEM_CONTIGUOUS : Z := 0.
Definition VM_PFNMAP : Z := 0x400.
Definition VM_IO : Z := 0x4000.
Definition VM_DONTCOPY : Z := 0x20000.
Definition VM_DONTEXPAND : Z := 0x40000.
Definition VM_DONTDUMP : Z := 0x4000000.
Definition VM_MIXEDMAP : Z := 0x10000000.

(** vm_page_prot: how vm_get_page_prot(vm_flags) is modified. *)
Inductive page_prot := ProtDefault (flags : Z) | ProtWriteCombine (flags : Z) | ProtNonCached (flags : Z).

(** struct vm_area_struct. *)
Record vm_area := { vm_start : Z; vm_end : Z; vm_pgoff : Z; vm_flags : Z; vm_page_prot : page_prot }.
#[export] Instance vm_area_settable : Settable vm_area := {| settable := fun v =>
  Build_vm_area (vm_start v) (vm_end v) (vm_pgoff v) (vm_flags v) (vm_page_prot v) |}.

(** What the memory manager returns: remap_pfn_range (address, pfn, size),
    vm_insert_page (address, page), and dma_mmap_attrs (area, cookie, DMA
    address, size, attributes) with the mapping it makes. *)
Record vm_answer := {
  va_remap : Z -> Z -> Z -> Z;
  va_insert : Z -> Z -> Z;
  va_dma_mmap : vm_area -> Z -> Z -> Z -> Z -> translation -> Z * translation }.

Section GemMap.
Context {BO : BitmapOps} {iommu : IommuDomain}.
Context (no_gki force_contig : bool) (gd : gem_device).

(** remap_pfn_range, with the vm_pgoff that the driver sets before it. *)
Definition remap (va : vm_answer) (v : vm_area) (addr phys size : Z) (t : translation)
  : Z * vm_area * translation :=
  let pfn := Z.shiftr phys PAGE_SHIFT in
  let ret := va_remap va addr pfn size in
  (ret, v <| vm_pgoff := pfn |>,
   if ret =? 0 then map_range addr (Z.shiftl pfn PAGE_SHIFT) size t else t).

Fixpoint remap_entries (va : vm_answer) (v : vm_area) (addr length : Z) (sgs : list sg_entry) (ret : Z)
    (t : translation) : Z * vm_area * translation :=
  match sgs with
  | [] => (ret, v, t)
  | s :: sgs =>
      let size := if length <? s_length s then length else s_length s in
      let '(ret, v, t) := remap va v addr (s_phys s) size t in
      if negb (ret =? 0) then (ret, v, t)
      else
        let length := u64 (length - size) in
        if length =? 0 then (ret, v, t)
        else remap_entries va v (u64 (addr + size)) length sgs ret t
  end.

Definition rknpu_remap_pfn_with_cache_sgt (va : vm_answer) (o : rknpu_gem_object) (cache_size : Z)
    (v : vm_area) (t : translation) : Z * vm_area * translation :=
  remap_entries va v (vm_start v) cache_size (cache_entries gd o) 0 t.

(** The loop over [num_pages] pages; [None] is a read past the end of the page
    array. *)
Fixpoint insert_pages (va : vm_answer) (addr num_pages : Z) (pages : list Z) (t : translation)
  : option (Z * translation) :=
  if num_pages <=? 0 then Some (0, t)
  else
    match pages with
    | [] => None
    | page :: pages =>
        let ret := va_insert va addr page in
        if ret <? 0 then Some (ret, t)
        else insert_pages va (u64 (addr + PAGE_SIZE)) (num_pages - 1) pages
               (map_range addr page PAGE_SIZE t)
    end.

(** The area's size is an unsigned long, and so is what is left behind the
    cache part. *)
Definition vm_size (v : vm_area) : Z := u64 (vm_end v - vm_start v).

Definition rknpu_gem_mmap_cache (va : vm_answer) (o : rknpu_gem_object) (c : rknpu_cache_type)
    (w : gem_world) (v : vm_area) (t : translation) : option (Z * vm_area * translation) :=
  let '(phys, cache_size) := cache_region gd c o w in
  let v := v <| vm_flags ::= fun f => Z.lor f VM_MIXEDMAP |> in
  let '(ret, v, t) :=
    if negb (go_cache_with_sgt o) then remap va v (vm_start v) phys cache_size t
    else rknpu_remap_pfn_with_cache_sgt va o cache_size v t in
  if negb (ret =? 0) then Some (-EAGAIN, v, t)
  else if go_size o =? 0 then Some (0, v, t)
  else
    let num_pages := u64 (vm_size v - cache_size) / PAGE_SIZE in
    option_map (fun r => (r.1, v, r.2))
      (insert_pages va (u64 (vm_start v + cache_size)) num_pages (default [] (go_pages o)) t).

Definition rknpu_gem_mmap_buffer (va : vm_answer) (o : rknpu_gem_object) (w : gem_world) (v : vm_area)
    (t : translation) : option (Z * vm_area * translation) :=
  let set f := Z.ldiff (Z.lor f (Z.lor (Z.lor VM_DONTCOPY VM_DONTEXPAND) (Z.lor VM_DONTDUMP VM_IO)))
                 VM_PFNMAP in
  let v := v <| vm_flags ::= set |> <| vm_pgoff := 0 |> in
  if go_size o <? vm_size v then Some (-EINVAL, v, t)
  else if 0 <? go_sram_size o then rknpu_gem_mmap_cache va o RKNPU_CACHE_SRAM w v t
  else if 0 <? go_nbuf_size o then rknpu_gem_mmap_cache va o RKNPU_CACHE_NBUF w v t
  else
    let '(ret, t) := va_dma_mmap va v (go_cookie o) (go_dma_addr o) (go_size o) (go_dma_attrs o) t in
    Some (if ret <? 0 then ret else 0, v, t).

(** The result, the area, the user's mapping and the state: a failure closes the
    area, which drops a reference (drm_gem_vm_close). *)
Definition rknpu_gem_mmap_obj (va : vm_answer) (p : Z) (w : gem_world) (v : vm_area) (t : translation)
  : option (Z * vm_area * translation * gem_world) :=
  match gem_objs w !! p with
  | None => None
  | Some o =>
      let prot := if has_flag (go_flags o) RKNPU_MEM_CACHEABLE then ProtDefault (vm_flags v)
                  else if has_flag (go_flags o) RKNPU_MEM_WRITE_COMBINE then ProtWriteCombine (vm_flags v)
                  else ProtNonCached (vm_flags v) in
      match rknpu_gem_mmap_buffer va o w (v <| vm_page_prot := prot |>) t with
      | None => None
      | Some (ret, v, t) =>
          if negb (ret =? 0)
          then option_map (fun w => (ret, v, t, w)) (rknpu_gem_object_put no_gki gd p w)
          else Some (0, v, t, w)
      end
  end.

(** rknpu_gem_fault: SIGBUS, or the pfn handed to vmf_insert_mixed; [None] is a
    read past the end of the page array. *)
Inductive fault_answer := VmFaultSigbus | InsertMixed (address pfn : Z).
Definition rknpu_gem_fault (o : rknpu_gem_object) (v : vm_area) (address : Z) : option fault_answer :=
  let page_offset := Z.shiftr (u64 (address - vm_start v)) PAGE_SHIFT in
  if Z.shiftr (go_size o) PAGE_SHIFT <=? page_offset then Some VmFaultSigbus
  else
    match go_pages o with
    | None => None
    | Some pages => option_map (fun page => InsertMixed address (Z.shiftr page PAGE_SHIFT))
                      (pages !! Z.to_nat page_offset)
    end.

(** ** Dumb buffers and buffers of other drivers *)

(** struct drm_mode_create_dumb; 32-bit fields but for the size. *)
Record dumb_args := { du_width : Z; du_height : Z; du_bpp : Z; du_pitch : Z; du_size : Z; du_handle : Z }.
#[export] Instance dumb_args_settable : Settable dumb_args := {| settable := fun a =>
  Build_dumb_args (du_width a) (du_height a) (du_bpp a) (du_pitch a) (du_size a) (du_handle a) |}.

Definition rknpu_gem_dumb_create (ans : gem_answer) (file : Z) (a : dumb_args) (w : gem_world)
  : option (Z * dumb_args * gem_world) :=
  let a := a <| du_pitch := u32 (du_width a * (u32 (du_bpp a + 7) / 8)) |> in
  let a := a <| du_size := u32 (du_pitch a * du_height a) |> in
  let flags := Z.lor (if iommu_en (domains w) then RKNPU_MEM_NON_CONTIGUOUS else RKNPU_MEM_CONTIGUOUS)
                 RKNPU_MEM_WRITE_COMBINE in
  match rknpu_gem_object_create no_gki force_contig gd ans flags (du_size a) 0 0 0 w with
  | None => None
  | Some (inl e, w) => Some (e, a, w)
  | Some (inr p, w) =>
      match rknpu_gem_handle_create no_gki gd ans file p w with
      | None => None
      | Some (inl e, w) =>
          match gem_objs w !! p with
          | None => None
          | Some o => option_map (fun w => (e, a, w)) (rknpu_gem_object_destroy no_gki gd p o w)
          end
      | Some (inr h, w) => Some (0, a <| du_handle := h |>, w)
      end
  end.

(** The pages and their number handed to drm_prime_pages_to_sg. *)
Definition rknpu_gem_prime_get_sg_table (o : rknpu_gem_object) : option (list Z) * Z :=
  (go_pages o, s32 (Z.shiftr (go_size o) PAGE_SHIFT)).

(** The table [sgt] of a buffer of [size] bytes at [dma]; import_attach is set
    by drm_gem_prime_import_dev, when this succeeds. *)
Definition rknpu_gem_prime_import_sg_table (ans : gem_answer) (size dma : Z) (sgt : list sg_entry)
    (w : gem_world) : (Z + Z) * gem_world :=
  match rknpu_gem_init ans size w with
  | (inl e, w) => (inl e, w)
  | (inr (p, o), w) =>
      let o := o <| go_dma_addr := dma |> in
      if negb (ga_page_array ans) then (inl (-ENOMEM), rknpu_gem_release p w)
      else
        let w := hold (HeldPageArray p) w in
        match ga_sg_to_pages ans with
        | inl e => (inl e, rknpu_gem_release p (drop (HeldPageArray p) w))
        | inr pages =>
            let o := o <| go_pages := Some pages |> <| go_sgt := Some sgt |>
                       <| go_flags ::= fun f => Z.lor f (if Nat.eqb (length sgt) 1
                            then RKNPU_MEM_CONTIGUOUS else RKNPU_MEM_NON_CONTIGUOUS) |> in
            (inr p, w <| gem_objs ::= <[p := o]> |>)
        end
  end.

(** [vmap pages count] is the address or NULL (0).  The result and the address
    put into the iosys_map. *)
Definition rknpu_gem_prime_vmap (vmap : list Z -> Z -> Z) (o : rknpu_gem_object) : Z * option Z :=
  match go_pages o with
  | None => (-EINVAL, None)
  | Some pages =>
      let vaddr := vmap pages (go_num_pages o) in
      if vaddr =? 0 then (-ENOMEM, None) else (0, Some vaddr)
  end.

(** The address passed to vunmap, and what the iosys_map holds after it. *)
Definition rknpu_gem_prime_vunmap (o : rknpu_gem_object) (vaddr : Z) : option Z * Z :=
  match go_pages o with Some _ => (Some vaddr, 0) | None => (None, vaddr) end.
End GemMap.

(** ** What a mapping shows *)

(** The byte [y] of a buffer made of [pages]. *)
Definition page_byte (pages : list Z) (y : Z) : option Z :=
  (fun page => page + y mod PAGE_SIZE) <$> pages !! Z.to_nat (y / PAGE_SIZE).

Lemma page_byte_here (page : Z) (pages : list Z) (y : Z) :
  0 <= y < PAGE_SIZE -> page_byte (page :: pages) y = Some (page + y).
Proof. intros H. unfold page_byte. by rewrite Z.div_small, Z.mod_small by done. Qed.
Lemma page_byte_next (page : Z) (pages : list Z) (y : Z) :
  0 <= y -> page_byte (page :: pages) (PAGE_SIZE + y) = page_byte pages y.
Proof.
  intros H. unfold page_byte, PAGE_SIZE. replace (4096 + y) with (y + 1 * 4096) by lia.
  rewrite Z.div_add, Z.mod_add by lia. pose proof (Z.div_pos y 4096 H ltac:(lia)).
  by replace (Z.to_nat (y / 4096 + 1)) with (S (Z.to_nat (y / 4096))) by lia.
Qed.

(** A memory manager that has the memory for the page tables. *)
Record vm_accepts (va : vm_answer) : Prop := {
  vk_remap : forall addr pfn size, va_remap va addr pfn size = 0;
  vk_insert : forall addr page, va_insert va addr page = 0;
}.

Lemma insert_pages_bytes (va : vm_answer) (pages : list Z) : vm_accepts va ->
  forall addr n t, 0 <= addr -> 0 <= n <= Z.of_nat (length pages) -> addr + n * PAGE_SIZE < 2 ^ 64 ->
  exists t', insert_pages va addr n pages t = Some (0, t') /\
    (forall y, 0 <= y < n * PAGE_SIZE -> t' (addr + y) = page_byte pages y) /\
    forall x, ~ (addr <= x < addr + n * PAGE_SIZE) -> t' x = t x.
Proof.
  intros Hva. unfold PAGE_SIZE. induction pages as [|page pages IH]; intros addr n t Ha Hn Hb.
  { cbn in Hn. replace n with 0 by lia. exists t. split; [done|]. split; [intros; lia|done]. }
  cbn [insert_pages]. destruct (Z.leb_spec n 0).
  { exists t. split; [done|]. split; [intros; lia | done]. }
  rewrite (vk_insert _ Hva). cbn [Z.ltb Z.compare]. cbn [length] in Hn. unfold PAGE_SIZE.
  rewrite u64_small by lia.
  destruct (IH (addr + 4096) (n - 1) (map_range addr page 4096 t)) as (t' & E1 & E2 & E3); [lia..|].
  exists t'. split; [done|]. split.
  - intros y Hy. destruct (Z.lt_ge_cases y 4096).
    + rewrite E3, map_in by lia. rewrite page_byte_here by (unfold PAGE_SIZE; lia). f_equal. lia.
    + replace (addr + y) with (addr + 4096 + (y - 4096)) by lia. rewrite E2 by lia.
      rewrite <- (page_byte_next page) by lia. f_equal. unfold PAGE_SIZE. lia.
  - intros x Hx. rewrite E3, map_out by lia. done.
Qed.

Lemma insert_pages_overrun (va : vm_answer) (pages : list Z) : vm_accepts va ->
  forall addr n t, Z.of_nat (length pages) < n -> insert_pages va addr n pages t = None.
Proof.
  intros Hva. induction pages as [|page pages IH]; intros addr n t Hn; cbn [insert_pages length] in *.
  - by rewrite (proj2 (Z.leb_gt _ _)) by lia.
  - rewrite (proj2 (Z.leb_gt _ _)), (vk_insert _ Hva) by lia. cbn [Z.ltb Z.compare]. apply IH. lia.
Qed.

Section MapView.
Context {BO : BitmapOps} {iommu : IommuDomain}.

(** drm_prime_pages_to_sg describes the pages of the object it is given. *)
Definition table_of_pages (ans : gem_answer) (size : Z) : Prop :=
  forall pages sgt, ga_get_pages ans = inr pages -> ga_pages_to_sg ans = inr sgt ->
    Z.of_nat (length pages) = size / PAGE_SIZE /\ sg_total sgt = size /\
    forall y, 0 <= y < size -> sg_byte sgt y = page_byte pages y.

(** An allocation with a cache part of [n] bytes at [phys], or in the entries of
    the table of the object's core, all of them whole pages. *)
Record cached_object (gd : gem_device) (ans : gem_answer) (p : Z) (c : rknpu_cache_type)
    (o0 : rknpu_gem_object) (phys n : Z) (w w' : gem_world) (o : rknpu_gem_object) : Prop := {
  co_answer : gem_answer_ok ans;
  co_table : table_of_pages ans (go_size o0);
  co_dma : dma_device_ok (gd_dma gd);
  co_fresh : iova_fresh gd ans w;
  co_fields : go_pages o0 = None /\ go_sgt o0 = None;
  co_entries : cache_table_ok gd ans o0 /\ cache_covers gd o0 n;
  co_region : cache_region gd c o0 w = (phys, n);
  co_kind : match c with RKNPU_CACHE_SRAM => True | RKNPU_CACHE_NBUF => go_sram_size o0 = 0 end;
  co_bounds : 0 < n /\ 0 < go_size o0 /\ n + go_size o0 < 2 ^ 62;
  co_pages : n mod PAGE_SIZE = 0 /\
    if go_cache_with_sgt o0 then Forall (fun s => s_phys s mod PAGE_SIZE = 0) (cache_entries gd o0)
    else phys mod PAGE_SIZE = 0;
  co_alloc : rknpu_gem_alloc_buf_with_cache gd ans p o0 c w = (0, o, w');
}.

(** What is known of the object afterwards. *)
Lemma cached_object_built (gd : gem_device) (ans : gem_answer) (p : Z) (c : rknpu_cache_type)
    (o0 : rknpu_gem_object) (phys n : Z) (w w' : gem_world) (o : rknpu_gem_object) :
  cached_object gd ans p c o0 phys n w w' o ->
  cache_built gd ans p n phys o w w' /\ same_shape o0 o /\ cache_region gd c o w' = (phys, n) /\
  n = match c with RKNPU_CACHE_SRAM => go_sram_size o | RKNPU_CACHE_NBUF => go_nbuf_size o end.
Proof.
  intros [Hok _ Hd Hf (F2 & F3) [F1 _] Hr _ (B1 & B2 & B3) _ Ha].
  pose proof (alloc_with_cache_ok gd ans p 0 c o0 o w w') as H. rewrite Hr in H.
  destruct H as [Hs [[? _]|[_ Hb]]]; try done; try lia.
  split; [done|]. split; [done|]. destruct (cb_range _ _ _ _ _ _ _ _ Hb) as [Hw _].
  destruct Hs as (_ & _ & _ & S1 & S2 & S3 & _).
  destruct c; cbn in *; injection Hr as <- <-; [rewrite Hw; cbn|]; by rewrite ?S1, ?S2, ?S3.
Qed.

(** The area, with whole pages. *)
Definition area_ok (v : vm_area) : Prop :=
  0 <= vm_start v /\ vm_start v < vm_end v < 2 ^ 64 /\ (vm_end v - vm_start v) mod PAGE_SIZE = 0.

Lemma shift_page (phys : Z) : phys mod PAGE_SIZE = 0 -> Z.shiftl (Z.shiftr phys PAGE_SHIFT) PAGE_SHIFT = phys.
Proof.
  intros H. unfold PAGE_SHIFT. rewrite Z.shiftl_mul_pow2, Z.shiftr_div_pow2 by lia.
  change (2 ^ 12) with PAGE_SIZE. pose proof (Z.div_mod phys PAGE_SIZE). unfold PAGE_SIZE in *. lia.
Qed.

(** Remapping the entries is the IOMMU's loop with another call. *)
Lemma remap_entries_maps (va : vm_answer) (sgs : list sg_entry) : vm_accepts va ->
  Forall (fun s => s_phys s mod PAGE_SIZE = 0) sgs -> forall (v : vm_area) (addr length : Z) (t : translation),
  exists v', remap_entries va v addr length sgs 0 t =
      (0, v', (map_entries (fun _ _ _ => 0) addr length sgs 0 t).2) /\
    vm_start v' = vm_start v /\ vm_end v' = vm_end v.
Proof.
  intros Hva Hp. induction Hp as [|s sgs Hs _ IH]; intros v addr length t; cbn; [by exists v|].
  rewrite (vk_remap _ Hva), (shift_page _ Hs). cbn [negb Z.eqb].
  destruct (_ =? 0); [by eexists|].
  destruct (IH (v <| vm_pgoff := Z.shiftr (s_phys s) PAGE_SHIFT |>)
    (u64 (addr + (if length <? s_length s then length else s_length s)))
    (u64 (length - (if length <? s_length s then length else s_length s)))
    (map_range addr (s_phys s) (if length <? s_length s then length else s_length s) t)) as (v' & E & E1 & E2).
  by exists v'.
Qed.

(** The cache part of the user's mapping shows the cache part of the object. *)
Lemma mmap_cache_part (gd : gem_device) (ans : gem_answer) (o : rknpu_gem_object) (phys n : Z)
    (va : vm_answer) (v : vm_area) (t : translation) :
  vm_accepts va -> cache_table_ok gd ans o -> cache_covers gd o n ->
  (if go_cache_with_sgt o then Forall (fun s => s_phys s mod PAGE_SIZE = 0) (cache_entries gd o)
   else phys mod PAGE_SIZE = 0) ->
  0 <= vm_start v -> 0 <= n -> vm_start v + n < 2 ^ 64 ->
  exists v' t', (if negb (go_cache_with_sgt o) then remap va v (vm_start v) phys n t
     else rknpu_remap_pfn_with_cache_sgt gd va o n v t) = (0, v', t') /\
    vm_start v' = vm_start v /\ vm_end v' = vm_end v /\
    (forall y, 0 <= y < n -> t' (vm_start v + y) = cache_byte gd o phys y) /\
    forall x, ~ (vm_start v <= x < vm_start v + n) -> t' x = t x.
Proof.
  intros Hva Hok Hcov Hp H0 Hn Hb. unfold cache_byte, cache_table_ok, cache_covers in *.
  destruct (go_cache_with_sgt o); cbn [negb].
  - destruct (Hok eq_refl) as [S1 _]. unfold rknpu_remap_pfn_with_cache_sgt.
    destruct (remap_entries_maps va _ Hva Hp v (vm_start v) n t) as (v' & E & E1 & E2).
    destruct (map_entries (fun _ _ _ => 0) (vm_start v) n (cache_entries gd o) 0 t) as [[r left] t'] eqn:Em.
    assert (r = 0) as -> by by eapply map_entries_granted in Em.
    exists v', t'. split; [exact E|]. split; [done|]. split; [done|].
    pose proof Em as Eo. apply map_entries_outside in Eo as [L1 L2]; [|done|lia..].
    apply map_entries_bytes in Em as [-> Em]; [|done|lia..|by apply Hcov].
    split; [exact Em|]. intros x Hx. apply L2. lia.
  - unfold remap. rewrite (vk_remap _ Hva), (shift_page _ Hp). cbn [Z.eqb]. eexists _, _.
    split; [done|]. split; [done|]. split; [done|]. split.
    + intros y Hy. rewrite map_in by lia. f_equal. lia.
    + intros x Hx. by rewrite map_out.
Qed.

(** The mapping: the cache part, then as many pages as the area's size says. *)
Lemma mmap_buffer_inserts (gd : gem_device) (ans : gem_answer) (p : Z) (c : rknpu_cache_type)
    (o0 o : rknpu_gem_object) (phys n : Z) (w w' : gem_world) (va : vm_answer) (v : vm_area)
    (t : translation) :
  cached_object gd ans p c o0 phys n w w' o -> vm_accepts va -> area_ok v ->
  vm_end v - vm_start v <= go_size o -> vm_start v + n < 2 ^ 64 ->
  exists pages v' tc, Z.of_nat (length pages) = go_size o / PAGE_SIZE /\
    (forall y, 0 <= y < go_size o ->
       page_table w' (go_iova_start o + n + y) = page_byte pages y) /\
    (forall y, 0 <= y < n -> tc (vm_start v + y) = page_table w' (go_iova_start o + y)) /\
    (forall x, ~ (vm_start v <= x < vm_start v + n) -> tc x = t x) /\
    rknpu_gem_mmap_buffer gd va o w' v t =
      option_map (fun r => (r.1, v', r.2))
        (insert_pages va (u64 (vm_start v + n)) (u64 (vm_end v - vm_start v - n) / PAGE_SIZE) pages tc).
Proof.
  intros Hco Hva (V1 & V2 & V3) Hn Hvn. pose proof (cached_object_built _ _ _ _ _ _ _ _ _ _ Hco) as (Hb & Hs & Hr & En).
  destruct Hs as (_ & _ & S0 & S1 & S2 & _ & _ & S3 & S4). destruct (co_entries _ _ _ _ _ _ _ _ _ _ Hco) as [F1 F2].
  pose proof (co_bounds _ _ _ _ _ _ _ _ _ _ Hco) as (B1 & B2 & B3).
  destruct (co_pages _ _ _ _ _ _ _ _ _ _ Hco) as [P1 P2].
  pose proof (cb_ddr _ _ _ _ _ _ _ _ Hb) as Hd. rewrite (proj2 (Z.eqb_neq _ _)) in Hd by lia.
  destruct Hd as (pages & sgt & E1 & E2 & E3 & E4 & Hd).
  destruct (co_table _ _ _ _ _ _ _ _ _ _ Hco _ _ E1 E2) as (T1 & T2 & T3). rewrite <- S0 in *.
  assert (Hentries : cache_entries gd o = cache_entries gd o0) by (unfold cache_entries; by rewrite S4).
  unfold cache_table_ok, cache_covers in F1, F2. rewrite <- Hentries, <- S3 in F1, F2, P2.
  set (v0 := v <| vm_flags ::= (fun f => Z.ldiff (Z.lor f (Z.lor (Z.lor VM_DONTCOPY VM_DONTEXPAND)
    (Z.lor VM_DONTDUMP VM_IO))) VM_PFNMAP) |> <| vm_pgoff := 0 |>).
  set (v1 := v0 <| vm_flags ::= fun f => Z.lor f VM_MIXEDMAP |>).
  assert (Hst : vm_start v1 = vm_start v) by done.
  destruct (mmap_cache_part gd ans o phys n va v1 t Hva F1 F2 P2) as (v' & tc & Ec & Cs & Ce & C3 & C4); [lia..|].
  rewrite Hst in C3, C4, Cs. change (vm_end v1) with (vm_end v) in Ce.
  exists pages, v', tc. split; [done|]. split; [intros y Hy; by rewrite Hd, T3 by lia|].
  split; [intros y Hy; rewrite C3 by done; symmetry; by apply (cb_cache _ _ _ _ _ _ _ _ Hb)|].
  split; [exact C4|].
  assert (Hmap : rknpu_gem_mmap_cache gd va o c w' v0 t = option_map (fun r => (r.1, v', r.2))
    (insert_pages va (u64 (vm_start v + n)) (u64 (vm_end v - vm_start v - n) / PAGE_SIZE) pages tc)).
  { unfold rknpu_gem_mmap_cache. rewrite Hr. fold v1. rewrite Ec. cbn [negb Z.eqb]. rewrite (proj2 (Z.eqb_neq _ _)) by lia.
    unfold vm_size. rewrite Cs, Ce, E3, (u64_small (vm_end v - vm_start v)) by lia. done. }
  rewrite <- Hmap. unfold rknpu_gem_mmap_buffer. fold v0.
  change (vm_size v0) with (u64 (vm_end v - vm_start v)). rewrite u64_small, (proj2 (Z.ltb_ge _ _)) by lia.
  pose proof (co_kind _ _ _ _ _ _ _ _ _ _ Hco) as Hk. destruct c.
  - by rewrite <- En, (proj2 (Z.ltb_lt _ _) B1).
  - rewrite S1, Hk. cbn [Z.ltb Z.compare]. by rewrite <- En, (proj2 (Z.ltb_lt _ _) B1).
Qed.
End MapView.
(** C13: the CPU and the NPU see the same buffer.  When an object with a cache
    part has been allocated, in one piece or in the entries of a core's table, a
    mapping of it that reaches past the cache part succeeds if there is memory
    for the page tables, and every address of the area shows the byte that the
    device sees at the same distance from the start of the IOVA range. *)
Theorem gem_mmap_shows_device_view {BO : BitmapOps} (gd : gem_device) (ans : gem_answer) (p : Z)
    (c : rknpu_cache_type) (o0 o : rknpu_gem_object) (phys n : Z) (w w' : gem_world)
    (va : vm_answer) (v : vm_area) (t : translation) :
  cached_object gd ans p c o0 phys n w w' o -> vm_accepts va -> area_ok v ->
  n <= vm_end v - vm_start v <= go_size o ->
  exists v' t', rknpu_gem_mmap_buffer gd va o w' v t = Some (0, v', t') /\
    forall x, 0 <= x < vm_end v - vm_start v ->
      t' (vm_start v + x) = page_table w' (go_iova_start o + x).
Proof.
  intros Hco Hva Hv Hn. pose proof Hv as (V1 & V2 & V3).
  pose proof (co_bounds _ _ _ _ _ _ _ _ _ _ Hco) as (B1 & B2 & B3).
  destruct (co_pages _ _ _ _ _ _ _ _ _ _ Hco) as [P2 _].
  destruct (mmap_buffer_inserts _ _ _ _ _ _ _ _ _ _ va v t Hco Hva Hv (proj2 Hn) ltac:(lia))
    as (pages & v' & tc & L & D & C1 & C2 & ->).
  set (len := vm_end v - vm_start v) in *. rewrite !u64_small by lia. set (k := (len - n) / PAGE_SIZE).
  assert (Hk : k * PAGE_SIZE = len - n).
  { subst k. pose proof (Z.div_mod (len - n) PAGE_SIZE ltac:(done)).
    assert ((len - n) mod PAGE_SIZE = 0) by (rewrite Zminus_mod, V3, P2; done). lia. }
  assert (k <= Z.of_nat (length pages)) by (rewrite L; subst k; apply Z.div_le_mono; [done|lia]).
  destruct (insert_pages_bytes va pages Hva (vm_start v + n) k tc)
    as (t' & -> & I2 & I3); [lia | unfold PAGE_SIZE in *; lia | lia |].
  exists v', t'. split; [done|]. intros x Hx. destruct (Z.lt_ge_cases x n).
  - by rewrite I3, C1 by lia.
  - replace (vm_start v + x) with (vm_start v + n + (x - n)) by lia. rewrite I2 by lia.
    replace (go_iova_start o + x) with (go_iova_start o + n + (x - n)) by lia.
    by rewrite D by lia.
Qed.

(** A mapping shorter than the cache part is not refused.  The number of
    pages behind the cache part is computed without a sign, so the loop runs off
    the end of the object's page array. *)
Theorem gem_mmap_short_area_overruns {BO : BitmapOps} (gd : gem_device) (ans : gem_answer) (p : Z)
    (c : rknpu_cache_type) (o0 o : rknpu_gem_object) (phys n : Z) (w w' : gem_world)
    (va : vm_answer) (v : vm_area) (t : translation) :
  cached_object gd ans p c o0 phys n w w' o -> vm_accepts va -> area_ok v ->
  vm_end v - vm_start v < n -> vm_end v - vm_start v <= go_size o < 2 ^ 60 -> vm_start v + n < 2 ^ 64 ->
  rknpu_gem_mmap_buffer gd va o w' v t = None.
Proof.
  intros Hco Hva Hv Hshort Hn Hvn.
  destruct (mmap_buffer_inserts _ _ _ _ _ _ _ _ _ _ va v t Hco Hva Hv (proj1 Hn) Hvn)
    as (pages & v' & tc & L & _ & _ & _ & ->).
  pose proof (co_bounds _ _ _ _ _ _ _ _ _ _ Hco) as (B1 & B2 & B3). destruct Hv as (V1 & V2 & V3).
  rewrite insert_pages_overrun; [done | done |]. rewrite L. unfold u64.
  rewrite <- (Z.mod_add _ 1 (2 ^ 64)), Z.mod_small by lia.
  apply Z.div_lt_upper_bound; [done|]. unfold PAGE_SIZE.
  pose proof (Z.div_mod (vm_end v - vm_start v - n + 1 * 2 ^ 64) 4096 ltac:(lia)).
  pose proof (Z.mod_pos_bound (vm_end v - vm_start v - n + 1 * 2 ^ 64) 4096 ltac:(lia)). lia.
Qed.

Section Prime.
Context {BO : BitmapOps} {iommu : IommuDomain} (no_gki force_contig : bool) (gd : gem_device).

Lemma alloc_buf_pages (ans : gem_answer) (p : Z) (o o' : rknpu_gem_object) (w w' : gem_world) :
  go_dma_addr o = 0 -> gem_answer_ok ans ->
  rknpu_gem_alloc_buf force_contig gd ans p o w = (0, o', w') ->
  is_Some (go_pages o') /\ go_num_pages o' = go_num_pages o.
Proof.
  intros Hd Hok H. unfold rknpu_gem_alloc_buf in H. rewrite Hd in H. cbn [negb Z.eqb] in H.
  assert (Htable : forall o w, alloc_buf_table ans p o w = (0, o', w') ->
    is_Some (go_pages o') /\ go_num_pages o' = go_num_pages o).
  { intros o1 w1 H1. unfold alloc_buf_table in H1. case_match; [done|].
    destruct (ga_get_sgtable ans) eqn:E1; [injection H1 as -> _ _; by apply (gk_sgtable _ Hok) in E1|].
    destruct (ga_sg_to_pages ans) eqn:E2; [injection H1 as -> _ _; by apply (gk_to_pages _ Hok) in E2|].
    injection H1 as <- _. by split. }
  repeat (case_match; try done); apply Htable in H; cbn in H; done.
Qed.

Lemma prime_import_ok (ans : gem_answer) (size dma : Z) (sgt : list sg_entry) (w w' : gem_world) (r : Z + Z) :
  rknpu_gem_prime_import_sg_table ans size dma sgt w = (r, w') ->
  match r with
  | inl _ => restored w w'
  | inr p => exists o, w' = w <| held := held w' |> <| gem_objs := <[p := o]> (gem_objs w) |> /\
      held w' ≡ acquire_all [HeldPageArray p; HeldGem p; HeldObject p] (held w) /\
      go_refcount o = 1 /\ is_Some (go_pages o) /\ go_num_pages o = 0
  end.
Proof.
  intros H. unfold rknpu_gem_prime_import_sg_table, rknpu_gem_init in H.
  destruct (ga_kzalloc ans) as [p|]; [|by injection H as <- <-].
  destruct (ga_init ans <? 0); [injection H as <- <-; split; try done; cbn; ledger|].
  destruct (negb _); [injection H as <- <-; split; try done; cbn; ledger|].
  destruct (ga_sg_to_pages ans); injection H as <- <-; [split; try done; cbn; ledger|].
  eexists. split; [done|]. split; [done|]. split; [done|]. split; [by eexists | done].
Qed.
End Prime.

(** Importing a buffer balances: a failure leaves everything as it was, and
    the put that drops the only reference to an imported object gives back what
    the import took, and nothing of the exporter's buffer. *)
Theorem prime_import_balances {BO : BitmapOps} {iommu : IommuDomain} (no_gki : bool) (gd : gem_device)
    (ans : gem_answer) (size dma : Z) (sgt : list sg_entry) (w w' : gem_world) (r : Z + Z) :
  rknpu_gem_prime_import_sg_table ans size dma sgt w = (r, w') ->
  match r with
  | inl _ => restored w w'
  | inr p => gem_objs w !! p = None -> forall w1 w'',
      let wi := w' <| gem_objs ::= alter (fun o => o <| go_import := true |>) p |> in
      (forall o, gem_objs w' !! p = Some o -> domain_get_retry 3 (go_iommu_domain_id o) wi = Some (0, w1)) ->
      rknpu_gem_object_put no_gki gd p wi = Some w'' -> restored w w''
  end.
Proof.
  intros H. apply prime_import_ok in H. destruct r as [e|p]; [done|].
  destruct H as (o & Hw & Hh & Hrc & _). intros Hp w1 w'' wi Hget Hput.
  assert (Ho : gem_objs w' !! p = Some o) by (rewrite Hw; apply lookup_insert_eq).
  specialize (Hget o Ho). unfold rknpu_gem_object_put in Hput.
  assert (Hi : gem_objs wi !! p = Some (o <| go_import := true |>)).
  { change (gem_objs wi) with (alter (fun o => o <| go_import := true |>) p (gem_objs w')).
    by rewrite lookup_alter_eq, Ho. }
  rewrite Hi in Hput. change (go_refcount (o <| go_import := true |>)) with (go_refcount o) in Hput.
  rewrite Hrc in Hput. cbn [Z.eqb Pos.eqb] in Hput. unfold rknpu_gem_object_destroy in Hput.
  set (oi := _ <| go_refcount := 0 |>) in Hput.
  change (go_iommu_domain_id oi) with (go_iommu_domain_id o) in Hput.
  rewrite Hget in Hput. cbn [negb Z.eqb] in Hput.
  change (gem_free_parts no_gki gd p oi w1) with (drop (HeldPageArray p) w1) in Hput.
  injection Hput as <-. apply get_retry_ok in Hget as [G1 G2]. cbn [Z.eqb] in G2.
  assert (W : gem_objs w' = <[p := o]> (gem_objs w) /\ gem_ranges w' = gem_ranges w /\
    gem_handles w' = gem_handles w /\ sram_mm w' = sram_mm w /\ page_table w' = page_table w /\
    domains w' = domains w) by (rewrite Hw; done).
  clear Hw. destruct W as (W1 & W2 & W3 & W4 & W5 & W6).
  remember (domains w1) as d1 eqn:Ed. clear Ed. subst wi. rewrite G1. cbn in G2. split; cbn.
  - rewrite W1. apply map_eq. intros q. destruct (decide (q = p)) as [->|].
    + by rewrite lookup_delete_eq.
    + by rewrite lookup_delete_ne, lookup_alter_ne, lookup_insert_ne.
  - done.
  - done.
  - done.
  - by rewrite W5.
  - rewrite Hh. ledger.
  - rewrite domain_put_spec, G2, W6. lia.
Qed.

(** A buffer that is not from the cache path cannot be mapped into the
    kernel for another driver.  Neither the allocation from the DMA API nor the
    import stores the number of pages, so rknpu_gem_prime_vmap asks for none and
    reports that memory ran out. *)
Theorem prime_vmap_maps_no_pages {BO : BitmapOps} {iommu : IommuDomain} (force_contig : bool)
    (gd : gem_device) (ans : gem_answer) (vmap : list Z -> Z -> Z) (size dma : Z)
    (sgt : list sg_entry) (w : gem_world) :
  gem_answer_ok ans -> (forall pages, vmap pages 0 = 0) ->
  (forall p o' w', rknpu_gem_alloc_buf force_contig gd ans p (new_gem_object size) w = (0, o', w') ->
     rknpu_gem_prime_vmap vmap o' = (-ENOMEM, None)) /\
  (forall p o w', rknpu_gem_prime_import_sg_table ans size dma sgt w = (inr p, w') ->
     gem_objs w' !! p = Some o -> rknpu_gem_prime_vmap vmap o = (-ENOMEM, None)).
Proof.
  intros Hok Hv.
  assert (Hno : forall o, is_Some (go_pages o) -> go_num_pages o = 0 ->
    rknpu_gem_prime_vmap vmap o = (-ENOMEM, None)).
  { intros o [pages Hp] Hn. unfold rknpu_gem_prime_vmap. by rewrite Hp, Hn, Hv. }
  split.
  - intros p o' w' H. apply alloc_buf_pages in H as [H1 H2]; [by apply Hno | done | done].
  - intros p o w' H Ho. apply prime_import_ok in H as (o1 & Hw & _ & _ & H1 & H2).
    rewrite Hw in Ho. cbn in Ho. rewrite lookup_insert_eq in Ho. injection Ho as <-. by apply Hno.
Qed.

(** *** An object of two chunks of SRAM and three pages *)

Definition example_cached_request : rknpu_gem_object :=
  (new_gem_object 12288) <| go_sram_size := 8192 |>
    <| go_sram_obj := Some {| range_start := 2; range_end := 3 |} |>.
Definition example_vm_answer : vm_answer :=
  {| va_remap := fun _ _ _ => 0; va_insert := fun _ _ => 0; va_dma_mmap := fun _ _ _ _ _ t => (0, t) |}.
Definition example_area (size : Z) : vm_area :=
  {| vm_start := 0x10000; vm_end := 0x10000 + size; vm_pgoff := 0; vm_flags := 0; vm_page_prot := ProtDefault 0 |}.

Lemma example_table : table_of_pages example_gem_answer 12288.
Proof.
  intros pages sgt [= <-] [= <-]. split; [done|]. split; [done|]. intros y Hy. cbn [sg_byte s_length s_phys].
  destruct (Z.lt_ge_cases y 4096); [|destruct (Z.lt_ge_cases y 8192)].
  - rewrite (proj2 (Z.ltb_lt _ _)) by lia. by rewrite page_byte_here by (unfold PAGE_SIZE; lia).
  - rewrite (proj2 (Z.ltb_lt _ _)) by lia. replace y with (PAGE_SIZE + (y - 4096)) by (unfold PAGE_SIZE; lia).
    rewrite page_byte_next, page_byte_here by (unfold PAGE_SIZE; lia). f_equal. unfold PAGE_SIZE. lia.
  - rewrite (proj2 (Z.ltb_ge _ _)), (proj2 (Z.ltb_lt _ _)) by lia.
    replace y with (PAGE_SIZE + (PAGE_SIZE + (y - 8192))) by (unfold PAGE_SIZE; lia).
    rewrite !page_byte_next, page_byte_here by (unfold PAGE_SIZE; lia). f_equal. unfold PAGE_SIZE. lia.
Qed.

(** A run that returned 0. *)
Lemma run_ok {A B} (r : Z * A * B) : r.1.1 = 0 -> r = (0, r.1.2, r.2).
Proof. destruct r as [[z a] b]. cbn. by intros ->. Qed.

Definition example_cached_run : Z * rknpu_gem_object * gem_world :=
  rknpu_gem_alloc_buf_with_cache example_gem_device example_gem_answer 10 example_cached_request
    RKNPU_CACHE_SRAM example_gem_world.

Lemma example_cached_run_eq : example_cached_run =
  rknpu_gem_alloc_buf_with_cache example_gem_device example_gem_answer 10 example_cached_request
    RKNPU_CACHE_SRAM example_gem_world.
Proof. done. Qed.

Lemma example_cached :
  cached_object example_gem_device example_gem_answer 10 RKNPU_CACHE_SRAM example_cached_request
    (0xfdcc0000 + 8192) 8192 example_gem_world example_cached_run.2 example_cached_run.1.2.
Proof.
  pose proof (example_request_ok 12288 ltac:(lia)) as [Q1 Q2 Q3 _ _ _ _].
  split; [exact Q1 | exact example_table | exact Q2 | exact Q3 | by split | by split | reflexivity | done | | by split |].
  { cbn. lia. }
  rewrite <- example_cached_run_eq. apply run_ok. vm_compute. reflexivity.
Qed.

(** *** An object whose cache part is two entries of the NBUF *)

Definition example_nbuf_device : gem_device :=
  {| gd_dma := example_device; gd_dma_mask := DMA_BIT_MASK 40; gd_num_irqs := 2;
     gd_sram_start := 0; gd_sram_size := 0; gd_nbuf_start := 0x3fe80000; gd_nbuf_size := 16384;
     gd_sram_base_io := 0; gd_nbuf_base_io := 0xffff0000;
     gd_cache_sgt := fun i => if i =? 0 then Some [{| s_phys := 0; s_length := 4096 |};
                                {| s_phys := 12288; s_length := 4096 |}] else None |}.
Definition example_nbuf_request : rknpu_gem_object :=
  (new_gem_object 12288) <| go_nbuf_size := 8192 |> <| go_cache_with_sgt := true |>
    <| go_core_mask := RKNPU_CORE0_MASK |>.
Definition example_nbuf_run : Z * rknpu_gem_object * gem_world :=
  rknpu_gem_alloc_buf_with_cache example_nbuf_device example_gem_answer 10 example_nbuf_request
    RKNPU_CACHE_NBUF example_gem_world.

Lemma example_nbuf_run_eq : example_nbuf_run =
  rknpu_gem_alloc_buf_with_cache example_nbuf_device example_gem_answer 10 example_nbuf_request
    RKNPU_CACHE_NBUF example_gem_world.
Proof. done. Qed.

Lemma example_nbuf :
  cached_object example_nbuf_device example_gem_answer 10 RKNPU_CACHE_NBUF example_nbuf_request
    0x3fe80000 8192 example_gem_world example_nbuf_run.2 example_nbuf_run.1.2.
Proof.
  pose proof (example_request_ok 12288 ltac:(lia)) as [Q1 Q2 Q3 _ _ _ _].
  split; [exact Q1 | exact example_table | exact Q2 | exact Q3 | by split | | reflexivity | done | | |].
  - split; [|intros _; cbn; lia]. intros _. split; [|done].
    repeat apply Forall_cons_2; [done.. | by apply Forall_nil].
  - cbn. lia.
  - split; [done|]. repeat apply Forall_cons_2; [done.. | by apply Forall_nil].
  - rewrite <- example_nbuf_run_eq. apply run_ok. vm_compute. reflexivity.
Qed.

Lemma gem_mmap_shows_device_view_witness :
  (exists v' t', rknpu_gem_mmap_buffer example_gem_device example_vm_answer example_cached_run.1.2
      example_cached_run.2 (example_area 12288) (fun _ => None) = Some (0, v', t') /\
    t' (0x10000 + 100) = Some (0xfdcc0000 + 8292) /\ t' (0x10000 + 8200) = Some (0x5000 + 8)) /\
  exists v' t', rknpu_gem_mmap_buffer example_nbuf_device example_vm_answer example_nbuf_run.1.2
      example_nbuf_run.2 (example_area 12288) (fun _ => None) = Some (0, v', t') /\
    t' (0x10000 + 100) = Some (0x3fe80000 + 100) /\ t' (0x10000 + 5000) = Some (0x3fe80000 + 12288 + 904).
Proof.
  split.
  - destruct (gem_mmap_shows_device_view example_gem_device example_gem_answer 10 RKNPU_CACHE_SRAM
      example_cached_request example_cached_run.1.2 (0xfdcc0000 + 8192) 8192 example_gem_world
      example_cached_run.2 example_vm_answer (example_area 12288) (fun _ => None) example_cached)
      as (v' & t' & H1 & H2); [done | done | done |].
    exists v', t'. split; [exact H1|]. cbn [vm_start vm_end example_area] in H2.
    split; rewrite H2 by lia; vm_compute; reflexivity.
  - destruct (gem_mmap_shows_device_view example_nbuf_device example_gem_answer 10 RKNPU_CACHE_NBUF
      example_nbuf_request example_nbuf_run.1.2 0x3fe80000 8192 example_gem_world
      example_nbuf_run.2 example_vm_answer (example_area 12288) (fun _ => None) example_nbuf)
      as (v' & t' & H1 & H2); [done | done | done |].
    exists v', t'. split; [exact H1|]. cbn [vm_start vm_end example_area] in H2.
    split; rewrite H2 by lia; vm_compute; reflexivity.
Defined.

Lemma gem_mmap_short_area_overruns_witness :
  go_sram_size example_cached_run.1.2 = 8192 /\
  rknpu_gem_mmap_buffer example_gem_device example_vm_answer example_cached_run.1.2
    example_cached_run.2 (example_area 4096) (fun _ => None) = None.
Proof.
  split; [vm_compute; reflexivity|].
  apply (gem_mmap_short_area_overruns example_gem_device example_gem_answer 10 RKNPU_CACHE_SRAM
    example_cached_request _ (0xfdcc0000 + 8192) 8192 example_gem_world _ _ _ _ example_cached); done.
Defined.

Lemma prime_import_balances_witness :
  exists w' w'', rknpu_gem_prime_import_sg_table example_gem_answer 12288 0x5000 [] example_gem_world = (inr 10, w') /\
    rknpu_gem_object_put (iommu := iommu_domain_stub) false example_gem_device 10
      (w' <| gem_objs ::= alter (fun o => o <| go_import := true |>) 10 |>) = Some w'' /\
    restored example_gem_world w''.
Proof.
  set (w' := (rknpu_gem_prime_import_sg_table example_gem_answer 12288 0x5000 [] example_gem_world).2).
  assert (rknpu_gem_prime_import_sg_table example_gem_answer 12288 0x5000 [] example_gem_world = (inr 10, w'))
    as H by done.
  pose proof (prime_import_balances (iommu := iommu_domain_stub) false example_gem_device example_gem_answer
    12288 0x5000 [] example_gem_world w' (inr 10) H eq_refl) as Hthm. cbn zeta in Hthm.
  set (wi := w' <| gem_objs ::= alter (fun o => o <| go_import := true |>) 10 |>) in *.
  assert (match domain_get_retry (iommu := iommu_domain_stub) 3 0 wi with Some (0, _) => true | _ => false end &&
    bool_decide (is_Some (rknpu_gem_object_put (iommu := iommu_domain_stub) false example_gem_device 10 wi)) &&
    match gem_objs w' !! 10 with Some o => go_iommu_domain_id o =? 0 | None => false end = true) as Hrun
    by (vm_compute; reflexivity).
  rewrite !andb_true_iff in Hrun. destruct Hrun as [[Hg [w'' Hp]%bool_decide_eq_true] Ho].
  destruct (domain_get_retry 3 0 wi) as [[[| |] w1]|] eqn:Eg; try done.
  exists w', w''. split; [done|]. split; [done|]. apply (Hthm w1 w''); [|done].
  intros o Hlook. rewrite Hlook in Ho. apply Z.eqb_eq in Ho. by rewrite Ho.
Defined.

Lemma prime_vmap_maps_no_pages_witness :
  let vmap (pages : list Z) count := if count =? 0 then 0 else 0xffff000 in
  exists o w', rknpu_gem_alloc_buf true example_gem_device example_gem_answer 10 (new_gem_object 12288)
      example_gem_world = (0, o, w') /\
    go_pages o = Some [0x7000; 0x8000; 0x9000] /\ rknpu_gem_prime_vmap vmap o = (-ENOMEM, None).
Proof.
  intros vmap. pose proof (example_request_ok 12288 ltac:(lia)) as [Q1 _ _ _ _ _ _].
  destruct (prime_vmap_maps_no_pages (iommu := iommu_domain_stub) true example_gem_device example_gem_answer
    vmap 12288 0 [] example_gem_world Q1 (fun _ => eq_refl)) as [H _].
  set (run := rknpu_gem_alloc_buf true example_gem_device example_gem_answer 10 (new_gem_object 12288)
    example_gem_world).
  assert (run = (0, run.1.2, run.2)) as Hrun by done.
  exists run.1.2, run.2. split; [exact Hrun|]. split; [vm_compute; reflexivity|]. by apply (H 10 _ run.2).
Defined.
