(* ===== verification/Nbuf.v ===== *)
(** * The NBUF, from probe to the objects (rknpu_drv.c, rknpu_gem.c)

    Probe finds the NBUF in the configuration of the SoC and cuts it into the
    scatter tables of the cores (Config.v); an object that asks for NBUF gets the
    part of its core (Gem.v).  Here the two meet: on the RK3576, which part of
    the NBUF an object of a core shows to the device. *)

From S2P Require Import Prelude Ledger Mapping Config Domain Mm Sg Gem GemLife GemMap.

(** ** What probe finds *)

(** The fields nbuf_start, nbuf_size, nbuf_end and nbuf_base_io (NULL: 0). *)
Record nbuf_region := { nb_start : Z; nb_size : Z; nb_end : Z; nb_base_io : Z }.

(** [ioremap] is devm_ioremap: an address, or an error pointer. *)
Definition rknpu_find_nbuf_resource (c : rknpu_config) (ioremap : Z -> Z -> Z + Z) : Z * option nbuf_region :=
  if cfg_nbuf_size c =? 0 then (-EINVAL, None)
  else
    let start := nbuf_phyaddr c in
    let size := cfg_nbuf_size c in
    let base := match ioremap start size with inl _ => 0 | inr a => a end in
    (0, Some {| nb_start := start; nb_size := size; nb_end := start + size; nb_base_io := base |}).

(** An entry of rknpu_dev->cache_sgt as the objects read it, offset and length. *)
Definition block_entry (b : sg_block) : sg_entry := {| s_phys := blk_offset b; s_length := blk_length b |}.

(** The device after probe: [gd] is the rest of it. *)
Definition nbuf_device (gd : gem_device) (c : rknpu_config) (nb : nbuf_region)
    (tables : list (option (list sg_block))) : gem_device :=
  {| gd_dma := gd_dma gd; gd_dma_mask := gd_dma_mask gd; gd_num_irqs := num_irqs c;
     gd_sram_start := gd_sram_start gd; gd_sram_size := gd_sram_size gd;
     gd_nbuf_start := nb_start nb; gd_nbuf_size := nb_size nb;
     gd_sram_base_io := gd_sram_base_io gd; gd_nbuf_base_io := nb_base_io nb;
     gd_cache_sgt := fun i => option_map (map block_entry) (default None (tables !! Z.to_nat i)) |}.

(** ** The halves of the cores *)

(** Where byte [y] of the part of [core] lies in the NBUF of the RK3576: 448 KiB
    in the front and 64 KiB at the end for each core. *)
Definition core_offset (core y : Z) : Z :=
  if y <? 448 * 1024 then core * (448 * 1024) + y
  else 896 * 1024 + core * (64 * 1024) + (y - 448 * 1024).

Lemma core_offset_spec (core core' y y' : Z) :
  (core = 0 \/ core = 1) -> (core' = 0 \/ core' = 1) -> 0 <= y < 512 * 1024 -> 0 <= y' < 512 * 1024 ->
  0 <= core_offset core y < cfg_nbuf_size rk3576_rknpu_config /\
  (core_offset core y = core_offset core' y' -> core = core' /\ y = y').
Proof.
  intros Hc Hc' Hy Hy'. unfold core_offset. change (cfg_nbuf_size _) with (1024 * 1024).
  destruct (Z.ltb_spec y (448 * 1024)), (Z.ltb_spec y' (448 * 1024)); lia.
Qed.

Section Nbuf.
Context (gd : gem_device) (ioremap : Z -> Z -> Z + Z).

(** The RK3576 after a probe whose allocations succeeded. *)
Definition rk3576_region : nbuf_region :=
  {| nb_start := 0x3fe80000; nb_size := 1024 * 1024; nb_end := 0x3ff80000;
     nb_base_io := match ioremap 0x3fe80000 (1024 * 1024) with inl _ => 0 | inr a => a end |}.
Definition rk3576_device : gem_device :=
  nbuf_device gd rk3576_rknpu_config rk3576_region [Some (cache_sgt_of 2 0); Some (cache_sgt_of 2 1)].

Lemma rk3576_probed (kzalloc_ok : Z -> bool) (sg_alloc_ret : Z -> Z) :
  (forall i, kzalloc_ok i = true) -> (forall i, sg_alloc_ret i = 0) ->
  rknpu_find_nbuf_resource rk3576_rknpu_config ioremap = (0, Some rk3576_region) /\
  rk3576_cache_sgt_init kzalloc_ok sg_alloc_ret (num_irqs rk3576_rknpu_config) [None; None] =
    (0, [Some (cache_sgt_of 2 0); Some (cache_sgt_of 2 1)]).
Proof.
  intros Hk Hs. split; [reflexivity|]. unfold rk3576_cache_sgt_init. simpl num_irqs. simpl.
  by rewrite !Hk, !Hs.
Qed.

(** What an object of one core takes, and its entries. *)
Lemma nbuf_take_core (ddr_size core : Z) (o : rknpu_gem_object) :
  (core = 0 \/ core = 1) ->
  let '(n, o1) := nbuf_take rk3576_device ddr_size (Z.shiftl 1 core) o in
  n = Z.min ddr_size (512 * 1024) /\
  o1 = o <| go_cache_with_sgt := true |> <| go_core_mask := Z.shiftl 1 core |> /\
  cache_entries rk3576_device o1 =
    [{| s_phys := 0x3fe80000 + core * (448 * 1024); s_length := 448 * 1024 |};
     {| s_phys := 0x3fe80000 + (896 * 1024 + core * (64 * 1024)); s_length := 64 * 1024 |}].
Proof.
  intros Hc. unfold nbuf_take. change (gd_nbuf_size rk3576_device / gd_num_irqs rk3576_device) with (512 * 1024).
  assert (Hn : (if ddr_size <=? 512 * 1024 then ddr_size else 512 * 1024) = Z.min ddr_size (512 * 1024))
    by (destruct (Z.leb_spec ddr_size (512 * 1024)); lia).
  destruct Hc as [-> | ->]; (split; [exact Hn | by split]).
Qed.

(** C14: An object of one core shows the device its core's half of the NBUF,
    byte by byte, and nothing of the other core's: the tables that probe built
    suit the mapping that the object makes, whose first [n] bytes, the part in
    the NBUF, are those of the two blocks of the core. *)
Theorem nbuf_object_shows_its_half (ans : gem_answer) (p core ddr_size : Z) (o o' : rknpu_gem_object)
    (w w' : gem_world) :
  (core = 0 \/ core = 1) -> 0 <= ddr_size -> 0 <= go_size o < 2 ^ 60 ->
  gem_answer_ok ans -> (forall a ph n, ga_iommu_map ans a ph n = 0) ->
  dma_device_ok (gd_dma gd) -> iova_fresh rk3576_device ans w -> go_pages o = None -> go_sgt o = None ->
  let '(n, o1) := nbuf_take rk3576_device ddr_size (Z.shiftl 1 core) o in
  rknpu_gem_alloc_buf_with_cache rk3576_device ans p (o1 <| go_nbuf_size := n |>) RKNPU_CACHE_NBUF w =
    (0, o', w') ->
  n = Z.min ddr_size (512 * 1024) /\
  forall y, 0 <= y < n ->
    page_table w' (go_iova_start o' + y) = Some (nb_start rk3576_region + core_offset core y) /\
    forall y', 0 <= y' < 512 * 1024 -> core_offset core y <> core_offset (1 - core) y'.
Proof.
  intros Hc Hd Ho Hok Hmap Hdma Hf Hp Hs. pose proof (nbuf_take_core ddr_size core o Hc) as Ht.
  destruct (nbuf_take rk3576_device ddr_size (Z.shiftl 1 core) o) as [n o1]. destruct Ht as (Hn & -> & He).
  set (o1 := o <| go_cache_with_sgt := true |> <| go_core_mask := Z.shiftl 1 core |>) in *.
  set (o2 := o1 <| go_nbuf_size := n |>). intros H. split; [done|].
  change (cache_entries rk3576_device o1) with (cache_entries rk3576_device o2) in He.
  pose proof (alloc_with_cache_ok rk3576_device ans p 0 RKNPU_CACHE_NBUF o2 o' w w') as Ha.
  change (cache_region rk3576_device RKNPU_CACHE_NBUF o2 w) with (0x3fe80000, n) in Ha. cbv beta iota in Ha.
  destruct Ha as (Hshape & [(Hlt & _)|(_ & Hb)]); try done; try (cbn; lia).
  { intros _. split; [|done]. rewrite He. repeat apply Forall_cons_2; [cbn; lia.. | by apply Forall_nil]. }
  destruct Hb as [_ _ _ _ Hcache _ _].
  assert (Hent : cache_entries rk3576_device o' = cache_entries rk3576_device o2 /\ go_cache_with_sgt o' = true).
  { destruct Hshape as (_ & _ & _ & _ & _ & _ & _ & S1 & S2). unfold cache_entries. rewrite S1, S2. done. }
  destruct Hent as [Hent Hsgt].
  intros y Hy. rewrite Hcache; [|intros _; rewrite Hent, He; cbn; lia|done].
  unfold cache_byte. rewrite Hsgt, Hent, He. split.
  - unfold core_offset. cbn [sg_byte s_phys s_length nb_start rk3576_region].
    destruct (Z.ltb_spec y (448 * 1024)); [f_equal; lia|].
    rewrite (proj2 (Z.ltb_lt _ _)) by lia. f_equal. lia.
  - intros y' Hy' E. destruct (core_offset_spec core (1 - core) y y') as [_ Hinj]; [done | lia | lia | done|].
    apply Hinj in E. lia.
Qed.
End Nbuf.

(** *** An object of 600 KiB for core 1: its part ends with the last 64 KiB *)

Definition example_remap (start size : Z) : Z + Z := inr 0xffff0000.
Definition example_half_part : Z * rknpu_gem_object :=
  nbuf_take (rk3576_device example_gem_device example_remap) (600 * 1024) (Z.shiftl 1 1) (new_gem_object 12288).
Definition example_half_run : Z * rknpu_gem_object * gem_world :=
  rknpu_gem_alloc_buf_with_cache (rk3576_device example_gem_device example_remap) example_gem_answer 10
    (example_half_part.2 <| go_nbuf_size := example_half_part.1 |>) RKNPU_CACHE_NBUF example_gem_world.
Lemma example_half_run_eq : example_half_run =
  rknpu_gem_alloc_buf_with_cache (rk3576_device example_gem_device example_remap) example_gem_answer 10
    (example_half_part.2 <| go_nbuf_size := example_half_part.1 |>) RKNPU_CACHE_NBUF example_gem_world.
Proof. done. Qed.
Lemma example_half_part_eq : example_half_part =
  nbuf_take (rk3576_device example_gem_device example_remap) (600 * 1024) (Z.shiftl 1 1) (new_gem_object 12288).
Proof. done. Qed.
Lemma example_half_run_ok : example_half_run = (0, example_half_run.1.2, example_half_run.2).
Proof. apply run_ok. vm_compute. reflexivity. Qed.

Lemma nbuf_object_shows_its_half_witness :
  rknpu_find_nbuf_resource rk3576_rknpu_config example_remap = (0, Some (rk3576_region example_remap)) /\
  page_table example_half_run.2 (go_iova_start example_half_run.1.2 + 500 * 1024) =
    Some (nb_start (rk3576_region example_remap) + core_offset 1 (500 * 1024)) /\
  core_offset 1 (500 * 1024) = (960 + 52) * 1024.
Proof.
  split; [reflexivity|]. split; [|reflexivity].
  pose proof (nbuf_object_shows_its_half example_gem_device example_remap example_gem_answer 10 1
    (600 * 1024) (new_gem_object 12288) example_half_run.1.2 example_gem_world example_half_run.2) as H.
  pose proof (example_request_ok 12288 ltac:(lia)) as [Q1 Q2 Q3 _ _ _ _].
  rewrite <- example_half_part_eq in H. rewrite (surjective_pairing example_half_part) in H.
  rewrite <- example_half_run_eq in H.
  destruct (H (or_intror eq_refl) ltac:(lia) ltac:(cbn; lia) Q1 (fun _ _ _ => eq_refl) Q2 Q3 eq_refl eq_refl
    example_half_run_ok) as [Hn Hy].
  exact (proj1 (Hy (500 * 1024) ltac:(rewrite Hn; lia))).
Defined.
