(* ===== verification/GemPages.v ===== *)
(** * GEM buffers made of pages (rknpu_gem.c with RKNPU_GEM_ALLOC_FROM_PAGES)

    The build in which a buffer that need not be contiguous is made of shmem
    pages behind the IOMMU: rknpu_gem_get_pages maps their scatter table with
    the functions of Sg.v, rknpu_gem_put_pages undoes it, and
    rknpu_gem_mmap_pages inserts the pages into a user mapping. *)

From S2P Require Import Prelude Ledger Mapping Config Domain Mm Sg Gem GemMap.

(** ** Data *)

(** A pointer field: NULL, an error pointer, an object that was freed, or an
    object. *)
Inductive kptr (A : Type) := PNull | PErr (e : Z) | PFreed | PAt (a : A).
Arguments PNull {A}. Arguments PErr {A}. Arguments PFreed {A}. Arguments PAt {A}.

(** The fields of struct rknpu_gem_object that this build uses; [po_sgt] is
    nents and the list. *)
Record pages_object := {
  po_flags : Z;
  po_size : Z;
  po_pages : kptr (list Z);
  po_num_pages : Z;
  po_sgt : kptr (nat * scatterlist);
  po_cookie : Z;
  po_kv_addr : Z;
  po_dma_addr : Z }.
#[export] Instance pages_object_settable : Settable pages_object := {| settable := fun o =>
  Build_pages_object (po_flags o) (po_size o) (po_pages o) (po_num_pages o) (po_sgt o) (po_cookie o)
    (po_kv_addr o) (po_dma_addr o) |}.

(** What a buffer holds: the pages, the struct sg_table and its entries, the
    IOVA range by its pfn, the range mapped in the IOMMU, the mapping of the
    kernel's dma_map_sg, and the vmap at an address. *)
Inductive page_resource :=
  | HeldPages
  | HeldTableStruct
  | HeldTableEntries
  | HeldIovaPfn (pfn : Z)
  | HeldIommuRange (addr size : Z)
  | HeldDmaMap
  | HeldVmap (addr : Z).
#[export] Instance page_resource_eq : EqDecision page_resource.
Proof. solve_decision. Defined.

(** The kernel's answers: drm_gem_get_pages, drm_prime_pages_to_sg, the IOVA
    allocator and iommu_map_sg, dma_map_sg, and vmap (NULL: 0). *)
Record pages_answer := {
  pa_get_pages : Z + list Z;
  pa_pages_to_sg : Z + (nat * scatterlist);
  pa_iova : iova_answer;
  pa_dma_map_sg : scatterlist -> Z * scatterlist;
  pa_vmap : Z }.

Section GemPages.
Context (dev : dma_device).

Definition pages_iova_aligned (o : pages_object) : bool :=
  negb (has_flag (po_flags o) RKNPU_MEM_IOMMU_LIMIT_IOVA_ALIGNMENT).

(** rknpu_iommu_dma_map_sg and rknpu_iommu_dma_unmap_sg with their first test. *)
Definition pages_map_sg (ans : pages_answer) (aligned : bool) (nents : nat) (s : scatterlist)
    (l : ledger page_resource) : Z * scatterlist * ledger page_resource :=
  if aligned then
    let '(ret, s) := pa_dma_map_sg ans s in
    (ret, s, if ret =? 0 then l else acquire HeldDmaMap l)
  else
    let r := rknpu_iommu_dma_map_sg dev (pa_iova ans) nents s in
    (mr_ret r, mr_sg r,
     match mr_mapped r with
     | Some (addr, size) =>
         acquire (HeldIommuRange addr size) (acquire (HeldIovaPfn (Z.shiftr addr (iova_shift dev))) l)
     | None => l
     end).

Definition pages_unmap_sg (aligned : bool) (nents : nat) (s : scatterlist) (l : ledger page_resource)
  : scatterlist * ledger page_resource :=
  if aligned then (s, release HeldDmaMap l)
  else
    let '(freed, s) := rknpu_iommu_dma_unmap_sg dev nents s in
    (s, match freed with
        | Some (addr, size, (FreeIova pfn | FreeIovaFast pfn _)) =>
            release (HeldIovaPfn pfn) (release (HeldIommuRange addr size) l)
        | None => l
        end).

(** ** Allocation and release *)

Definition rknpu_gem_get_pages (ans : pages_answer) (o : pages_object) (l : ledger page_resource)
  : Z * pages_object * ledger page_resource :=
  let iova_aligned := pages_iova_aligned o in
  match pa_get_pages ans with
  | inl e => (e, o <| po_pages := PErr e |>, l)
  | inr pages =>
      let l := acquire HeldPages l in
      let o := o <| po_pages := PAt pages |> <| po_num_pages := Z.shiftr (po_size o) PAGE_SHIFT |> in
      let put_pages ret o l := (ret, o <| po_pages := PFreed |>, release HeldPages l) in
      match pa_pages_to_sg ans with
      | inl e => put_pages e (o <| po_sgt := PErr e |>) l
      | inr (nents, s) =>
          let l := acquire HeldTableEntries (acquire HeldTableStruct l) in
          let free_sgt ret o l :=
            put_pages ret (o <| po_sgt := PFreed |>) (release HeldTableStruct (release HeldTableEntries l)) in
          let '(ret, s, l) := pages_map_sg ans iova_aligned nents s l in
          let o := o <| po_sgt := PAt (nents, s) |> in
          if ret =? 0 then free_sgt (-EFAULT) o l
          else
            let mapped o l := (0, o <| po_dma_addr := sg_dma_address s 0 |>, l) in
            if has_flag (po_flags o) RKNPU_MEM_KERNEL_MAPPING then
              let o := o <| po_cookie := pa_vmap ans |> in
              if pa_vmap ans =? 0 then free_sgt (-ENOMEM) o (pages_unmap_sg iova_aligned nents s l).2
              else mapped (o <| po_kv_addr := pa_vmap ans |>) (acquire (HeldVmap (pa_vmap ans)) l)
            else mapped o l
      end
  end.

(** [None]: the function follows a pointer that is not one. *)
Definition rknpu_gem_put_pages (o : pages_object) (l : ledger page_resource)
  : option (pages_object * ledger page_resource) :=
  let iova_aligned := pages_iova_aligned o in
  let '(o, l) := if has_flag (po_flags o) RKNPU_MEM_KERNEL_MAPPING
                 then (o <| po_kv_addr := 0 |>, release (HeldVmap (po_kv_addr o)) l) else (o, l) in
  let put_pages (o : pages_object) (l : ledger page_resource) :=
    match po_pages o with
    | PAt _ => Some (o <| po_pages := PFreed |>, release HeldPages l)
    | _ => None
    end in
  match po_sgt o with
  | PNull => put_pages o l
  | PAt (nents, s) =>
      let '(s, l) := pages_unmap_sg iova_aligned nents s l in
      put_pages (o <| po_sgt := PFreed |>) (release HeldTableStruct (release HeldTableEntries l))
  | _ => None
  end.

(** The branch of rknpu_gem_free_buf for such a buffer. *)
Definition free_pages_buf (o : pages_object) (l : ledger page_resource)
  : option (pages_object * ledger page_resource) :=
  if po_dma_addr o =? 0 then Some (o, l) else rknpu_gem_put_pages o l.

(** ** User mappings *)

(** [i] and [count] are unsigned long. *)
Definition vma_pages (v : vm_area) : Z := Z.shiftr (u64 (vm_end v - vm_start v)) PAGE_SHIFT.

Fixpoint map_pages_loop (va : vm_answer) (n : nat) (uaddr : Z) (pages : list Z) (t : translation)
  : option (Z * translation) :=
  match n with
  | O => Some (0, t)
  | S n =>
      match pages with
      | [] => None
      | page :: pages =>
          let ret := va_insert va uaddr page in
          if ret <? 0 then Some (ret, t)
          else map_pages_loop va n (u64 (uaddr + PAGE_SIZE)) pages (map_range uaddr page PAGE_SIZE t)
      end
  end.

Definition vm_map_pages (va : vm_answer) (v : vm_area) (pages : list Z) (num offset : Z)
    (t : translation) : option (Z * translation) :=
  let count := vma_pages v in
  if num <=? offset then Some (-ENXIO, t)
  else if u64 (num - offset) <? count then Some (-ENXIO, t)
  else map_pages_loop va (Z.to_nat count) (vm_start v) (skipn (Z.to_nat offset) pages) t.

Definition rknpu_gem_mmap_pages (va : vm_answer) (o : pages_object) (v : vm_area) (t : translation)
  : option (Z * vm_area * translation) :=
  let v := v <| vm_flags ::= (fun f => Z.lor f VM_MIXEDMAP) |> in
  match po_pages o with
  | PAt pages => option_map (fun r => (r.1, v, r.2))
                   (vm_map_pages va v pages (po_num_pages o) (vm_pgoff v) t)
  | _ => None
  end.
End GemPages.

(** ** Allocation and release balance *)

(** An IOVA allocator that stays below the end of the address space. *)
Definition iova_in_range (dev : dma_device) (ans : iova_answer) : Prop :=
  forall len limit pfn, alloc_iova ans len limit = Some pfn ->
    0 <= pfn /\ pfn * granule dev + 2 ^ 33 < 2 ^ 64.

Lemma iova_is_granule (dev : dma_device) (ans : iova_answer) (size limit : Z) :
  dma_device_ok dev -> iova_in_range dev ans ->
  let iova := rknpu_iommu_dma_alloc_iova dev ans size limit false in
  0 <= iova /\ iova + 2 ^ 33 < 2 ^ 64 /\ (granule dev | iova).
Proof.
  intros Hd Hr. pose proof (granule_pos dev Hd) as Hg. unfold rknpu_iommu_dma_alloc_iova. cbn zeta.
  destruct (alloc_iova _ _ _) as [pfn|] eqn:E; [|split; [lia | split; [lia | by exists 0]]].
  apply Hr in E as [E1 E2]. rewrite Z.shiftl_mul_pow2 by apply (dv_shift dev Hd). fold (granule dev).
  rewrite u64_small by nia. split; [nia|]. split; [lia | by exists pfn].
Qed.

(** A kernel that answers as documented: errors are negative, the table
    describes entries that fit, and dma_map_sg does not map at address 0. *)
Record pages_answer_ok (dev : dma_device) (ans : pages_answer) : Prop := {
  pk_dev : dma_device_ok dev;
  pk_pages : forall e, pa_get_pages ans = inl e -> e < 0;
  pk_table : forall e, pa_pages_to_sg ans = inl e -> e < 0;
  pk_entries : forall n s, pa_pages_to_sg ans = inr (n, s) -> entries_ok dev (Z.of_nat n) s;
  pk_iova : iova_in_range dev (pa_iova ans);
  pk_dma : forall s r s', pa_dma_map_sg ans s = (r, s') -> r <> 0 -> sg_dma_address s' 0 <> 0;
}.

(** What is known of the range of the layout. *)
Lemma pages_layout (dev : dma_device) (ans : pages_answer) (nents : nat) (s : scatterlist) :
  pages_answer_ok dev ans -> entries_ok dev (Z.of_nat nents) s ->
  let len := lay_pos dev (Z.of_nat nents) s (Z.of_nat nents) in
  let iova := rknpu_iommu_dma_alloc_iova dev (pa_iova ans) len (dma_get_mask dev) false in
  0 <= len < 2 ^ 32 /\ 0 <= iova /\ iova + 2 ^ 33 < 2 ^ 64 /\ (granule dev | iova).
Proof.
  intros Hok He len. split.
  - subst len. unfold lay_pos. rewrite Z.ltb_irrefl.
    apply (lay_before_spec dev _ s (pk_dev _ _ Hok) He). lia.
  - apply iova_is_granule; [apply (pk_dev _ _ Hok) | apply (pk_iova _ _ Hok)].
Qed.

Lemma pages_map_unmap (dev : dma_device) (ans : pages_answer) (aligned : bool) (nents : nat)
    (s s' : scatterlist) (l l' : ledger page_resource) (ret : Z) :
  pages_answer_ok dev ans -> entries_ok dev (Z.of_nat nents) s ->
  pages_map_sg dev ans aligned nents s l = (ret, s', l') ->
  if ret =? 0 then l' = l
  else (pages_unmap_sg dev aligned nents s' l').2 ≡ l /\ sg_dma_address s' 0 <> 0.
Proof.
  intros Hok He H. unfold pages_map_sg, pages_unmap_sg in *. destruct aligned.
  { destruct (pa_dma_map_sg ans s) as [r s1] eqn:Ed. injection H as <- <- <-.
    destruct (Z.eqb_spec r 0) as [|Hr]; [done|]. cbn. rewrite release_acquire.
    split; [done | by apply (pk_dma _ _ Hok s r s1)]. }
  destruct (pages_layout dev ans nents s Hok He) as (Hlen & I1 & I2 & I3).
  pose proof (unmap_after_map dev (pa_iova ans) (Z.of_nat nents) s (pk_dev _ _ Hok) He I2 I3) as [U _].
  pose proof (map_sg_cases dev (pa_iova ans) (Z.of_nat nents) s (pk_dev _ _ Hok) He ltac:(lia)) as Hc.
  pose proof (en_N dev _ _ He) as HN.
  rewrite Nat2Z.id in U, Hc. set (r := rknpu_iommu_dma_map_sg dev (pa_iova ans) nents s) in *.
  injection H as <- <- <-. destruct (rknpu_iommu_dma_unmap_sg dev nents (mr_sg r)) as [freed s2].
  cbn [fst snd] in *. subst freed. destruct (mr_mapped r) as [[a n]|] eqn:Em; cbn [option_map fst].
  - destruct Hc as [[? _]|(Hz & _ & HL & cur & cl & F)]; [done|].
    destruct (fi_cur _ _ _ _ _ _ _ _ _ _ _ _ _ _ F HN) as [_ Hret].
    rewrite (proj2 (Z.eqb_neq _ _)) by lia. split; [ledger|].
    rewrite (fi_start _ _ _ _ _ _ _ _ _ _ _ _ _ _ F HN). unfold in_addr.
    rewrite (lo_P0 _ _ _ _ _ _ _ _ HL). pose proof (lo_off _ _ _ _ _ _ _ _ HL 0 ltac:(lia)). lia.
  - destruct Hc as [(_ & Hk & _)|(_ & ? & _)]; [|done]. destruct (Hk 0 ltac:(lia)) as (_ & _ & -> & _).
    match goal with |- context [if ?b then _ else _] => by destruct b end.
Qed.

Lemma pages_unmap_sg_equiv (dev : dma_device) (aligned : bool) (nents : nat) (s : scatterlist)
    (l1 l2 : ledger page_resource) :
  l1 ≡ l2 -> (pages_unmap_sg dev aligned nents s l1).2 ≡ (pages_unmap_sg dev aligned nents s l2).2.
Proof.
  intros H. unfold pages_unmap_sg. destruct aligned; [cbn; by rewrite H|].
  destruct (rknpu_iommu_dma_unmap_sg dev nents s) as [[[[a n] [pfn|pfn k]]|] s']; cbn; by rewrite H.
Qed.

(** What rknpu_gem_put_pages leaves of a buffer with a table. *)
Lemma put_pages_table (dev : dma_device) (o : pages_object) (pages : list Z) (nents : nat)
    (s : scatterlist) (l : ledger page_resource) :
  po_pages o = PAt pages -> po_sgt o = PAt (nents, s) ->
  exists o2 l2, rknpu_gem_put_pages dev o l = Some (o2, l2) /\
    l2 ≡ release_all [HeldPages; HeldTableStruct; HeldTableEntries]
           (pages_unmap_sg dev (pages_iova_aligned o) nents s
              (if has_flag (po_flags o) RKNPU_MEM_KERNEL_MAPPING
               then release (HeldVmap (po_kv_addr o)) l else l)).2.
Proof.
  intros Hp Hs. unfold rknpu_gem_put_pages.
  destruct (has_flag (po_flags o) RKNPU_MEM_KERNEL_MAPPING); cbn [po_sgt set_field]; rewrite Hs.
  all: destruct (pages_unmap_sg _ _ _ _ _) as [s' l']; cbn [po_pages set_field]; rewrite Hp.
  all: eexists _, _; split; [done|]; cbn; ledger.
Qed.

(** What rknpu_gem_get_pages did can be taken back. *)
Definition pages_outcome (dev : dma_device) (o : pages_object) (l : ledger page_resource)
    (r : Z * pages_object * ledger page_resource) : Prop :=
  let '(ret, o', l') := r in
  ret < 0 /\ l' ≡ l /\ po_dma_addr o' = po_dma_addr o \/
  ret = 0 /\ po_dma_addr o' <> 0 /\ exists o2 l2, rknpu_gem_put_pages dev o' l' = Some (o2, l2) /\ l2 ≡ l.

Lemma get_pages_outcome (dev : dma_device) (ans : pages_answer) (o : pages_object)
    (l : ledger page_resource) :
  pages_answer_ok dev ans -> pages_outcome dev o l (rknpu_gem_get_pages dev ans o l).
Proof.
  intros Hok. unfold rknpu_gem_get_pages.
  destruct (pa_get_pages ans) as [e|pages] eqn:E1; [left; split; [by apply (pk_pages _ _ Hok)|done]|].
  destruct (pa_pages_to_sg ans) as [e|[nents s]] eqn:E2.
  { left. split; [by apply (pk_table _ _ Hok)|]. split; [ledger|done]. }
  destruct (pages_map_sg _ _ _ _ _ _) as [[ret s'] l'] eqn:Em.
  pose proof (pages_map_unmap dev ans _ nents s s' _ l' ret Hok (pk_entries _ _ Hok _ _ E2) Em) as Hu.
  destruct (ret =? 0).
  { left. split; [done|]. subst l'. split; [ledger|done]. }
  cbn [po_flags set_field]. destruct (has_flag (po_flags o) RKNPU_MEM_KERNEL_MAPPING) eqn:Ek;
    [destruct (pa_vmap ans =? 0)|].
  - left. destruct Hu as [Hu _]. split; [done|]. split; [rewrite Hu; ledger | done].
  - right. destruct Hu as [Hu Ha]. split; [done|]. split; [done|]. match goal with |- context [rknpu_gem_put_pages dev ?x] => set (o1 := x) end.
    destruct (put_pages_table dev o1 pages nents s' (acquire (HeldVmap (pa_vmap ans)) l')) as (o2 & l2 & E & Hl);
      [done | done|]. exists o2, l2. split; [exact E|]. rewrite Hl.
    change (has_flag (po_flags o1) RKNPU_MEM_KERNEL_MAPPING)
      with (has_flag (po_flags o) RKNPU_MEM_KERNEL_MAPPING).
    rewrite Ek. change (pages_iova_aligned o1) with (pages_iova_aligned o).
    pose proof (pages_unmap_sg_equiv dev (pages_iova_aligned o) nents s' _ _
      (release_acquire (HeldVmap (pa_vmap ans)) l')) as Hv.
    change (po_kv_addr o1) with (pa_vmap ans). rewrite Hv, Hu. ledger.
  - right. destruct Hu as [Hu Ha]. split; [done|]. split; [done|]. match goal with |- context [rknpu_gem_put_pages dev ?x] => set (o1 := x) end.
    destruct (put_pages_table dev o1 pages nents s' l') as (o2 & l2 & E & Hl); [done | done|].
    exists o2, l2. split; [exact E|]. rewrite Hl.
    change (has_flag (po_flags o1) RKNPU_MEM_KERNEL_MAPPING)
      with (has_flag (po_flags o) RKNPU_MEM_KERNEL_MAPPING).
    rewrite Ek. change (pages_iova_aligned o1) with (pages_iova_aligned o). rewrite Hu. ledger.
Qed.

(** C19: A buffer made of pages balances.  When rknpu_gem_get_pages fails, nothing is
    held that was not held before, and freeing the object does nothing; when it
    succeeds, freeing the object gives back exactly what it took, whatever
    layout of the IOVA range the scatter table led to: the range that
    rknpu_iommu_dma_unmap_sg reads off the segments is the one that was mapped. *)
Theorem pages_buffer_balances (dev : dma_device) (ans : pages_answer) (o o' : pages_object)
    (l l' : ledger page_resource) (ret : Z) :
  pages_answer_ok dev ans -> po_dma_addr o = 0 ->
  rknpu_gem_get_pages dev ans o l = (ret, o', l') ->
  ret < 0 /\ l' ≡ l /\ free_pages_buf dev o' l' = Some (o', l') \/
  ret = 0 /\ exists o2 l2, free_pages_buf dev o' l' = Some (o2, l2) /\ l2 ≡ l.
Proof.
  intros Hok Ha H. pose proof (get_pages_outcome dev ans o l Hok) as Ho. rewrite H in Ho. unfold free_pages_buf.
  destruct Ho as [(Hr & Hl & Hd)|(Hr & Hd & Hp)].
  - left. by rewrite Hd, Ha.
  - right. by rewrite (proj2 (Z.eqb_neq _ _) Hd).
Qed.

(** A mapping of fewer bytes than the range counts as a success: the buffer has
    no IOVA range, its DMA address is DMA_MAPPING_ERROR, and rknpu_gem_get_pages
    returns 0. *)
Theorem partial_map_counts_as_success (dev : dma_device) (ans : pages_answer) (o : pages_object)
    (l : ledger page_resource) (pages : list Z) (nents : nat) (s : scatterlist) :
  pages_answer_ok dev ans -> pa_get_pages ans = inr pages -> pa_pages_to_sg ans = inr (nents, s) ->
  pages_iova_aligned o = false -> has_flag (po_flags o) RKNPU_MEM_KERNEL_MAPPING = false ->
  let len := lay_pos dev (Z.of_nat nents) s (Z.of_nat nents) in
  let iova := rknpu_iommu_dma_alloc_iova dev (pa_iova ans) len (dma_get_mask dev) false in
  iova <> 0 -> 0 < iommu_map_sg (pa_iova ans) iova < len ->
  exists o' l', rknpu_gem_get_pages dev ans o l = (0, o', l') /\
    po_dma_addr o' = DMA_MAPPING_ERROR /\
    l' ≡ acquire_all [HeldTableEntries; HeldTableStruct; HeldPages] l.
Proof.
  intros Hok E1 E2 Hal Hk len iova Hz Hpart. pose proof (pk_entries _ _ Hok _ _ E2) as He.
  destruct (pages_layout dev ans nents s Hok He) as (Hlen & _ & I2 & _). fold len in Hlen, I2. fold iova in I2.
  pose proof (map_sg_cases dev (pa_iova ans) (Z.of_nat nents) s (pk_dev _ _ Hok) He) as Hc.
  cbn zeta in Hc. fold len in Hc. fold iova in Hc. specialize (Hc ltac:(lia)). rewrite Nat2Z.id in Hc.
  set (r := rknpu_iommu_dma_map_sg dev (pa_iova ans) nents s) in *.
  assert (Hr : mr_ret r = iommu_map_sg (pa_iova ans) iova /\ mr_mapped r = None).
  { subst r. unfold rknpu_iommu_dma_map_sg.
    destruct (layout_ok dev (Z.of_nat nents) s (pk_dev _ _ Hok) He) as (s1 & E & _).
    rewrite Nat2Z.id in E. rewrite E. fold len. rewrite (proj2 (Z.eqb_neq len 0)) by lia. fold iova.
    rewrite (proj2 (Z.eqb_neq iova 0) Hz), (proj2 (Z.ltb_lt _ _) (proj2 Hpart)), orb_true_r. cbn [mr_ret mr_mapped].
    by rewrite (proj2 (Z.ltb_ge _ _)) by lia. }
  destruct Hr as [Hr Hm]. destruct Hc as [(_ & Hn & _)|(_ & Hm' & _)]; [|congruence].
  unfold rknpu_gem_get_pages, pages_map_sg. rewrite E1, E2, Hal. fold r. rewrite Hm, Hr.
  rewrite (proj2 (Z.eqb_neq _ _)) by lia. cbn [po_flags set_field]. rewrite Hk.
  eexists _, _. split; [done|]. split; [|done]. cbn [po_dma_addr set_field].
  by destruct (Hn 0) as (_ & _ & -> & _); [pose proof (en_N dev _ _ He); lia|].
Qed.

(** ** User mappings *)

Lemma map_pages_insert (va : vm_answer) (n : nat) : forall uaddr pages t,
  map_pages_loop va n uaddr pages t = insert_pages va uaddr (Z.of_nat n) pages t.
Proof.
  induction n as [|n IH]; intros uaddr pages t; [by destruct pages|].
  destruct pages as [|page pages]; [done|]. cbn [map_pages_loop insert_pages].
  rewrite (proj2 (Z.leb_gt _ _)) by lia. destruct (_ <? 0); [done|]. rewrite IH. do 2 f_equal. lia.
Qed.

Lemma page_byte_skipn (pages : list Z) (k y : Z) :
  0 <= k -> 0 <= y -> page_byte (skipn (Z.to_nat k) pages) y = page_byte pages (k * PAGE_SIZE + y).
Proof.
  intros Hk Hy. unfold page_byte. pose proof (Z.div_pos y PAGE_SIZE Hy ltac:(done)).
  rewrite (Z.add_comm (k * PAGE_SIZE)), Z.div_add, Z.mod_add by done. rewrite lookup_drop.
  by replace (Z.to_nat k + Z.to_nat (y / PAGE_SIZE))%nat with (Z.to_nat (y / PAGE_SIZE + k)) by lia.
Qed.

(** A mapping of such a buffer shows its pages from vm_pgoff on when the area
    fits behind it, and is refused without a change otherwise. *)
Theorem gem_mmap_pages_shows_pages (va : vm_answer) (o : pages_object) (v : vm_area) (t : translation)
    (pages : list Z) :
  vm_accepts va -> area_ok v -> po_pages o = PAt pages -> po_num_pages o = Z.of_nat (length pages) ->
  po_num_pages o < 2 ^ 63 -> 0 <= vm_pgoff v ->
  exists v' t', let fits := vm_pgoff v * PAGE_SIZE + (vm_end v - vm_start v) <= po_num_pages o * PAGE_SIZE in
    (fits -> rknpu_gem_mmap_pages va o v t = Some (0, v', t') /\
      (forall x, 0 <= x < vm_end v - vm_start v ->
         t' (vm_start v + x) = page_byte pages (vm_pgoff v * PAGE_SIZE + x)) /\
      forall x, ~ (vm_start v <= x < vm_end v) -> t' x = t x) /\
    (~ fits -> rknpu_gem_mmap_pages va o v t = Some (-ENXIO, v', t)).
Proof.
  intros Hva (V1 & V2 & V3) Hp Hnum Hbig Hoff. unfold rknpu_gem_mmap_pages. rewrite Hp.
  set (v1 := v <| vm_flags ::= _ |>). set (len := vm_end v - vm_start v) in *.
  assert (Hcount : vma_pages v1 = len / PAGE_SIZE).
  { unfold vma_pages. change (vm_end v1 - vm_start v1) with len. rewrite u64_small by lia.
    unfold PAGE_SHIFT. by rewrite Z.shiftr_div_pow2. }
  assert (Hlen : len = len / PAGE_SIZE * PAGE_SIZE).
  { pose proof (Z.div_mod len PAGE_SIZE ltac:(done)). lia. }
  assert (Hpos : 0 < len / PAGE_SIZE) by (unfold PAGE_SIZE in *; lia).
  unfold vm_map_pages. rewrite Hcount. change (vm_pgoff v1) with (vm_pgoff v). change (vm_start v1) with (vm_start v).
  set (n := len / PAGE_SIZE) in *. exists v1.
  destruct (decide (vm_pgoff v + n <= po_num_pages o)) as [Hfit|Hno].
  - rewrite (proj2 (Z.leb_gt _ _)), u64_small, (proj2 (Z.ltb_ge _ _)) by lia. rewrite map_pages_insert.
    destruct (insert_pages_bytes va (skipn (Z.to_nat (vm_pgoff v)) pages) Hva (vm_start v) n t)
      as (t' & E & E1 & E2); [done | rewrite length_skipn; lia | lia |].
    exists t'. cbn zeta. split; [|unfold PAGE_SIZE in *; lia]. intros _. rewrite Z2Nat.id by lia. rewrite E.
    split; [done|]. split.
    + intros x Hx. rewrite E1 by lia. by rewrite page_byte_skipn by lia.
    + intros x Hx. apply E2. lia.
  - exists t. cbn zeta. split; [unfold PAGE_SIZE in *; lia|]. intros _.
    destruct (Z.leb_spec (po_num_pages o) (vm_pgoff v)); [done|].
    by rewrite u64_small, (proj2 (Z.ltb_lt _ _)) by lia.
Qed.

(** *** Two pages, in three entries of a small table *)

Definition example_pages_answer (mapped : Z) : pages_answer :=
  {| pa_get_pages := inr [0x5000; 0x9000]; pa_pages_to_sg := inr (3%nat, example_list);
     pa_iova := {| alloc_iova := alloc_iova example_iova; alloc_iova_fast := alloc_iova_fast example_iova;
                   iommu_map_sg := fun _ => mapped |};
     pa_dma_map_sg := fun s => (0, s); pa_vmap := 0xffff8000 |}.
Definition example_pages_object (flags : Z) : pages_object :=
  {| po_flags := Z.lor RKNPU_MEM_IOMMU_LIMIT_IOVA_ALIGNMENT flags; po_size := 8192; po_pages := PNull;
     po_num_pages := 0; po_sgt := PNull; po_cookie := 0; po_kv_addr := 0; po_dma_addr := 0 |}.

Lemma example_pages_ok (mapped : Z) : pages_answer_ok example_small_device (example_pages_answer mapped).
Proof.
  split; try done.
  - exact example_small_device_ok.
  - intros n s [= <- <-]. exact example_entries_ok.
  - intros len limit pfn H. cbn in H. destruct (_ =? _); [|done]. injection H as <-. by vm_compute.
  - intros s r s' [= <- <-] H. done.
Qed.

Lemma pages_buffer_balances_witness :
  let run := rknpu_gem_get_pages example_small_device (example_pages_answer 0x40)
    (example_pages_object RKNPU_MEM_KERNEL_MAPPING) (fun _ => 0) in
  run.1.1 = 0 /\ run.2 (HeldIommuRange 0x100000 0x40) = 1 /\ run.2 (HeldVmap 0xffff8000) = 1 /\
  exists o2 l2, free_pages_buf example_small_device run.1.2 run.2 = Some (o2, l2) /\ l2 ≡ (fun _ => 0).
Proof.
  intros run. assert (run.1.1 = 0) as H0 by (vm_compute; reflexivity).
  split; [exact H0|]. split; [vm_compute; reflexivity|]. split; [vm_compute; reflexivity|].
  destruct (pages_buffer_balances example_small_device (example_pages_answer 0x40)
    (example_pages_object RKNPU_MEM_KERNEL_MAPPING) run.1.2 (fun _ => 0) run.2 run.1.1) as [(H & _)|(_ & H)].
  - apply example_pages_ok.
  - reflexivity.
  - subst run. by destruct (rknpu_gem_get_pages _ _ _ _) as [[r o] l].
  - lia.
  - exact H.
Defined.

Lemma partial_map_counts_as_success_witness :
  exists o' l', rknpu_gem_get_pages example_small_device (example_pages_answer 0x10)
      (example_pages_object 0) (fun _ => 0) = (0, o', l') /\ po_dma_addr o' = DMA_MAPPING_ERROR.
Proof.
  destruct (partial_map_counts_as_success example_small_device (example_pages_answer 0x10)
    (example_pages_object 0) (fun _ => 0) [0x5000; 0x9000] 3 example_list (example_pages_ok 0x10))
    as (o' & l' & H1 & H2 & _); try reflexivity.
  - vm_compute. discriminate.
  - vm_compute. split; reflexivity.
  - exists o', l'. split; [exact H1 | exact H2].
Defined.

Lemma gem_mmap_pages_shows_pages_witness :
  let o := (example_pages_object 0) <| po_pages := PAt [0x5000; 0x9000] |> <| po_num_pages := 2 |> in
  exists v' t', rknpu_gem_mmap_pages example_vm_answer o (example_area 8192) (fun _ => None) = Some (0, v', t') /\
    t' (0x10000 + 4100) = Some (0x9000 + 4).
Proof.
  intros o. destruct (gem_mmap_pages_shows_pages example_vm_answer o (example_area 8192) (fun _ => None)
    [0x5000; 0x9000]) as (v' & t' & H & _); try done.
  destruct H as (H1 & H2 & _); [done|]. exists v', t'. split; [exact H1|].
  specialize (H2 4100 ltac:(cbn; lia)). exact H2.
Defined.
