(* ===== verification/GemRefs.v ===== *)
(** * References to GEM objects

    Handles, tracked ranges and the users that found an object by its DMA
    address all hold references.  The ioctls are steps of a transition system;
    no reference outlives its object, and a tracked object whose handles were
    closed by the DRM core is never freed. *)

From S2P Require Import Prelude Ledger Mapping Config Domain Mm Sg Gem GemLife GemMap.

(** What the references depend on. *)
Record same_refs (w w' : gem_world) : Prop := {
  sf_objs : gem_objs w' = gem_objs w;
  sf_ranges : gem_ranges w' = gem_ranges w;
  sf_handles : gem_handles w' = gem_handles w;
}.
#[export] Instance same_refs_preorder : PreOrder same_refs.
Proof.
  split; [by split|]. intros w1 w2 w3 [H1 H2 H3] [H4 H5 H6]. split; congruence.
Qed.

Section Frames.
Context {BO : BitmapOps} {iommu : IommuDomain} (no_gki force_contig : bool) (gd : gem_device).

Lemma alloc_buf_table_frame (ans : gem_answer) (p ret : Z) (o o' : rknpu_gem_object) (w w' : gem_world) :
  alloc_buf_table ans p o w = (ret, o', w') -> same_refs w w' /\ go_refcount o' = go_refcount o.
Proof. unfold alloc_buf_table. intros H. repeat case_match; by simplify_eq. Qed.

Lemma alloc_buf_frame (ans : gem_answer) (p ret : Z) (o o' : rknpu_gem_object) (w w' : gem_world) :
  rknpu_gem_alloc_buf force_contig gd ans p o w = (ret, o', w') ->
  same_refs w w' /\ go_refcount o' = go_refcount o.
Proof.
  unfold rknpu_gem_alloc_buf. intros H. repeat case_match;
    first [by simplify_eq | apply alloc_buf_table_frame in H as [[] ?]; by simplify_eq].
Qed.

Lemma drop_iova_frame (o : rknpu_gem_object) (w : gem_world) : same_refs w (drop_iova gd o w).
Proof. unfold drop_iova. by case_match. Qed.

Lemma alloc_ddr_part_frame (ans : gem_answer) (p n ret : Z) (o o' : rknpu_gem_object) (w w' : gem_world) :
  alloc_ddr_part gd ans p n o w = (ret, o', w') -> same_refs w w' /\ go_refcount o' = go_refcount o.
Proof.
  unfold alloc_ddr_part. intros H. repeat case_match; simplify_eq; split; try done;
    (etrans; [|apply drop_iova_frame]); done.
Qed.

Lemma map_cache_frame (ans : gem_answer) (phys n ret : Z) (o : rknpu_gem_object) (w w' : gem_world) :
  map_cache gd ans phys n o w = (ret, w') -> same_refs w w'.
Proof. unfold map_cache. intros H. repeat case_match; by simplify_eq. Qed.

Lemma alloc_with_cache_frame (ans : gem_answer) (p ret : Z) (t : rknpu_cache_type)
    (o o' : rknpu_gem_object) (w w' : gem_world) :
  rknpu_gem_alloc_buf_with_cache gd ans p o t w = (ret, o', w') ->
  same_refs w w' /\ go_refcount o' = go_refcount o.
Proof.
  unfold rknpu_gem_alloc_buf_with_cache. destruct (cache_region gd t o w) as [phys n]. intros H.
  destruct (attached _); [|by simplify_eq]. case_match; [by simplify_eq|].
  destruct (map_cache _ _ _ _ _ _) as [r w1] eqn:Em. apply map_cache_frame in Em.
  assert (Hw1 : same_refs w w1) by (etrans; [|exact Em]; done).
  case_match; [simplify_eq; split; [|done]; etrans; [exact Hw1|apply drop_iova_frame]|].
  case_match; [by simplify_eq|]. apply alloc_ddr_part_frame in H as [F1 F2].
  split; [by etrans | done].
Qed.

Lemma sram_take_frame (ans : gem_answer) (ddr sram real : Z) (o o' : rknpu_gem_object) (w w' : gem_world) :
  sram_take ans ddr sram o w = Some (real, o', w') -> same_refs w w' /\ go_refcount o' = go_refcount o.
Proof. unfold sram_take. intros H. repeat case_match; by simplify_eq. Qed.

Lemma domain_switch_frame (id ret : Z) (w w' : gem_world) :
  domain_get_switch id w = Some (ret, w') -> same_refs w w'.
Proof. unfold domain_get_switch. intros H. destruct (domain_get _ _); by simplify_eq/=. Qed.

Lemma domain_retry_frame (fuel : nat) : forall id ret w w',
  domain_get_retry fuel id w = Some (ret, w') -> same_refs w w'.
Proof.
  induction fuel as [|fuel IH]; intros id ret w w' H; cbn [domain_get_retry] in H;
    destruct (domain_get_switch id w) as [[r w1]|] eqn:E; try done; apply domain_switch_frame in E;
    repeat case_match; simplify_eq; try done.
  etrans; [exact E | by eapply IH].
Qed.

(** Creating an object adds it, with one reference, or changes nothing. *)
Definition created (ans : gem_answer) (w : gem_world) (r : Z + Z) (w' : gem_world) : Prop :=
  gem_ranges w' = gem_ranges w /\ gem_handles w' = gem_handles w /\
  match r with
  | inl _ => gem_objs w' = gem_objs w
  | inr p => ga_kzalloc ans = Some p /\
      exists o, go_refcount o = 1 /\ gem_objs w' = <[p := o]> (gem_objs w)
  end.

Lemma created_fail (ans : gem_answer) (p e : Z) (w w1 : gem_world) :
  same_refs w w1 -> created ans w (inl e) (domain_release (rknpu_gem_release p w1)).
Proof. intros []. by repeat split. Qed.
Lemma created_ok (ans : gem_answer) (p : Z) (o : rknpu_gem_object) (w w1 : gem_world) :
  ga_kzalloc ans = Some p -> same_refs w w1 -> go_refcount o = 1 ->
  created ans w (inr p) (domain_release (w1 <| gem_objs ::= <[p := o]> |>)).
Proof. intros Hp [F1 F2 F3] Ho. repeat split; try done. exists o. split; [done|]. cbn. by rewrite F1. Qed.

Lemma created_from_ddr (ans : gem_answer) (p ddr : Z) (o : rknpu_gem_object) (w w1 w' : gem_world) (r : Z + Z) :
  ga_kzalloc ans = Some p -> same_refs w w1 -> go_refcount o = 1 ->
  (if 0 <? ddr then
     let '(ret, o, w) := rknpu_gem_alloc_buf force_contig gd ans p o w1 in
     if ret <? 0 then Some (inl ret, domain_release (rknpu_gem_release p w))
     else Some (inr p, domain_release (w <| gem_objs ::= <[p := o]> |>))
   else Some (inr p, domain_release (w1 <| gem_objs ::= <[p := o]> |>))) = Some (r, w') ->
  created ans w r w'.
Proof.
  intros Hp Hw Ho H. case_match; [|injection H as <- <-; by apply created_ok].
  destruct (rknpu_gem_alloc_buf _ _ _ _ _ _) as [[ret o1] w2] eqn:Ea.
  apply alloc_buf_frame in Ea as [A1 A2]. assert (same_refs w w2) by (by etrans).
  case_match; injection H as <- <-; [by apply created_fail | apply created_ok; congruence || done].
Qed.

Lemma object_create_frame (ans : gem_answer) (flags size sram id mask : Z) (w w' : gem_world) (r : Z + Z) :
  rknpu_gem_object_create no_gki force_contig gd ans flags size sram id mask w = Some (r, w') ->
  created ans w r w'.
Proof.
  intros H. unfold rknpu_gem_object_create in H. case_match; [by simplify_eq|].
  unfold rknpu_gem_init in H. destruct (ga_kzalloc ans) as [p|] eqn:Hp; [|by simplify_eq].
  destruct (ga_init ans <? 0); [by simplify_eq|].
  destruct (domain_get_switch id _) as [[ret w1]|] eqn:Es; [|done].
  apply domain_switch_frame in Es. assert (Hw1 : same_refs w w1) by (etrans; [|exact Es]; done). clear Es.
  destruct (negb (ret =? 0)); [injection H as <- <-; destruct Hw1; by repeat split|].
  set (o := _ <| go_flags := _ |>) in H. assert (Ho : go_refcount o = 1) by done. clearbody o. cbn zeta in H.
  destruct (has_flag _ RKNPU_MEM_TRY_ALLOC_SRAM && _); [|destruct (no_gki && _ && _)].
  - destruct (sram_take _ _ _ _ _) as [[[real o1] w2]|] eqn:Et; [|done].
    apply sram_take_frame in Et as [Hw2 Ho2]. rewrite Ho in Ho2. assert (Hw : same_refs w w2) by (by etrans).
    destruct (0 <? real); [|by apply (created_from_ddr _ _ _ _ _ _ _ _ Hp Hw Ho2 H)].
    destruct (rknpu_gem_alloc_buf_with_cache _ _ _ _ _ _) as [[ret' o3] w3] eqn:Ea.
    apply alloc_with_cache_frame in Ea as [A1 A2]. assert (same_refs w w3) by (by etrans).
    destruct (ret' <? 0); injection H as <- <-; [apply created_fail; by etrans | apply created_ok; [done..|]].
    by rewrite A2.
  - destruct (nbuf_take _ _ _ _) as [nbuf o1] eqn:Et.
    assert (Ho1 : go_refcount o1 = 1) by (unfold nbuf_take in Et; injection Et as _ <-; exact Ho).
    destruct (0 <? nbuf); [|by apply (created_from_ddr _ _ _ _ _ _ _ _ Hp Hw1 Ho1 H)].
    destruct (rknpu_gem_alloc_buf_with_cache _ _ _ _ _ _) as [[ret' o3] w3] eqn:Ea.
    apply alloc_with_cache_frame in Ea as [A1 A2]. assert (same_refs w w3) by (by etrans).
    destruct (ret' <? 0); injection H as <- <-; [by apply created_fail | apply created_ok; [done..|]].
    by rewrite A2.
  - by apply (created_from_ddr _ _ _ _ _ _ _ _ Hp Hw1 Ho H).
Qed.
End Frames.

(** ** Counting references *)

Definition count_obj (p : Z) (l : list Z) : Z := Z.of_nat (length (filter (fun q => q = p) l)).
Definition hit (p q : Z) : Z := if decide (p = q) then 1 else 0.

Lemma count_cons (p q : Z) (l : list Z) : count_obj p (q :: l) = hit q p + count_obj p l.
Proof. unfold count_obj, hit. rewrite filter_cons. case_decide; cbn [length]; lia. Qed.
Lemma count_app (p : Z) (l1 l2 : list Z) : count_obj p (l1 ++ l2) = count_obj p l1 + count_obj p l2.
Proof. unfold count_obj. rewrite filter_app, length_app. lia. Qed.
Lemma count_obj_nonneg (p : Z) (l : list Z) : 0 <= count_obj p l.
Proof. unfold count_obj. lia. Qed.
Lemma count_elem (p : Z) (l : list Z) : p ∈ l -> 0 < count_obj p l.
Proof.
  intros H. apply list_elem_of_split in H as (l1 & l2 & ->). rewrite count_app, count_cons.
  pose proof (count_obj_nonneg p l1). pose proof (count_obj_nonneg p l2). unfold hit. rewrite decide_True by done. lia.
Qed.

Definition handles_of (p : Z) (m : gmap (Z * Z) Z) : Z := count_obj p (map_to_list m).*2.
Definition ranges_of (p : Z) (l : list rknpu_dkms_gem_range) : Z := count_obj p (gr_obj <$> l).
Definition refcount_of (p : Z) (m : gmap Z rknpu_gem_object) : Z :=
  default 0 (go_refcount <$> m !! p).

#[export] Instance count_obj_proper (p : Z) : Proper (Permutation ==> eq) (count_obj p).
Proof. intros l1 l2 H. unfold count_obj. by rewrite H. Qed.

Lemma handles_insert (p q : Z) (k : Z * Z) (m : gmap (Z * Z) Z) :
  m !! k = None -> handles_of p (<[k := q]> m) = hit q p + handles_of p m.
Proof. intros H. unfold handles_of. by rewrite map_to_list_insert, fmap_cons, count_cons. Qed.
Lemma handles_delete (p q : Z) (k : Z * Z) (m : gmap (Z * Z) Z) :
  m !! k = Some q -> handles_of p (delete k m) = handles_of p m - hit q p.
Proof.
  intros H. rewrite <- (insert_delete_id m k q) at 2 by done.
  rewrite handles_insert by apply lookup_delete_eq. lia.
Qed.
Lemma handles_lookup (p : Z) (k : Z * Z) (m : gmap (Z * Z) Z) : m !! k = Some p -> 0 < handles_of p m.
Proof.
  intros H. apply count_elem, list_elem_of_fmap. exists (k, p). split; [done|].
  by apply elem_of_map_to_list.
Qed.
Lemma ranges_remove (p q : Z) (l : list rknpu_dkms_gem_range) :
  existsb (fun r => gr_obj r =? q) l = true -> ranges_of p (remove_range q l) = ranges_of p l - hit q p.
Proof.
  unfold ranges_of. induction l as [|r l IH]; [done|]. cbn. intros H. rewrite count_cons.
  destruct (Z.eqb_spec (gr_obj r) q) as [->|Hne]; [lia|]. cbn. rewrite count_cons. cbn in H. rewrite IH by done. lia.
Qed.
Lemma ranges_append (p : Z) (l : list rknpu_dkms_gem_range) (r : rknpu_dkms_gem_range) :
  ranges_of p (l ++ [r]) = ranges_of p l + hit (gr_obj r) p.
Proof. unfold ranges_of. rewrite fmap_app, count_app, fmap_cons, count_cons. change (count_obj p _) with 0 at 2. lia. Qed.

Lemma refcount_insert (p q : Z) (o : rknpu_gem_object) (m : gmap Z rknpu_gem_object) :
  refcount_of p (<[q := o]> m) = if decide (q = p) then go_refcount o else refcount_of p m.
Proof.
  unfold refcount_of. case_decide as H; [by rewrite H, lookup_insert_eq | by rewrite lookup_insert_ne].
Qed.
Lemma refcount_delete (p q : Z) (m : gmap Z rknpu_gem_object) :
  refcount_of p (delete q m) = if decide (q = p) then 0 else refcount_of p m.
Proof.
  unfold refcount_of. case_decide as H; [by rewrite H, lookup_delete_eq | by rewrite lookup_delete_ne].
Qed.
Lemma refcount_lookup (p : Z) (o : rknpu_gem_object) (m : gmap Z rknpu_gem_object) :
  m !! p = Some o -> refcount_of p m = go_refcount o.
Proof. unfold refcount_of. by intros ->. Qed.

(** The references of [p] that neither a handle nor a tracked range holds. *)
Definition spare (w : gem_world) (p : Z) : Z :=
  refcount_of p (gem_objs w) - handles_of p (gem_handles w) - ranges_of p (gem_ranges w).

Lemma spare_same (w w' : gem_world) : same_refs w w' -> forall p, spare w' p = spare w p.
Proof. intros [H1 H2 H3] p. unfold spare. by rewrite H1, H2, H3. Qed.

(** ** What each operation does to the references *)

Section Refs.
Context {BO : BitmapOps} {iommu : IommuDomain} (no_gki force_contig : bool) (gd : gem_device).

Lemma free_parts_frame (p : Z) (o : rknpu_gem_object) (w : gem_world) :
  same_refs w (gem_free_parts no_gki gd p o w).
Proof.
  assert (Hcache : forall t w, same_refs w (rknpu_gem_free_buf_with_cache gd p o t w)).
  { intros t w1. unfold rknpu_gem_free_buf_with_cache, drop_iova. repeat case_match; done. }
  unfold gem_free_parts. destruct (go_import o); [done|]. destruct (0 <? go_sram_size o).
  { etrans; [|apply Hcache]. by case_match. }
  destruct (no_gki && _); [apply Hcache|]. unfold rknpu_gem_free_buf. by case_match.
Qed.

Lemma object_destroy_refs (p : Z) (o : rknpu_gem_object) (w w' : gem_world) :
  rknpu_gem_object_destroy no_gki gd p o w = Some w' ->
  gem_ranges w' = gem_ranges w /\ gem_handles w' = gem_handles w /\
  (gem_objs w' = <[p := o]> (gem_objs w) \/ gem_objs w' = delete p (gem_objs w)).
Proof.
  unfold rknpu_gem_object_destroy. intros H.
  destruct (domain_get_retry 3 _ w) as [[ret w1]|] eqn:E; [|done]. apply domain_retry_frame in E as [E1 E2 E3].
  destruct (negb _); injection H as <-; cbn.
  - rewrite E1, E2, E3. split; [done|]. split; [done|]. by left.
  - destruct (free_parts_frame p o w1) as [F1 F2 F3]. rewrite F1, F2, F3, E1, E2, E3.
    split; [done|]. split; [done|]. by right.
Qed.

Lemma put_refs (p : Z) (w w' : gem_world) :
  rknpu_gem_object_put no_gki gd p w = Some w' ->
  gem_ranges w' = gem_ranges w /\ gem_handles w' = gem_handles w /\
  forall q, refcount_of q (gem_objs w') = refcount_of q (gem_objs w) - hit p q.
Proof.
  unfold rknpu_gem_object_put. destruct (gem_objs w !! p) as [o|] eqn:Ho; [|done]. intros H.
  destruct (Z.eqb_spec (go_refcount o) 1) as [Hrc|Hrc].
  - apply object_destroy_refs in H as (H1 & H2 & H3). split; [done|]. split; [done|]. intros q. unfold hit.
    destruct H3 as [-> | ->]; rewrite ?refcount_insert, ?refcount_delete; case_decide as Hq; try lia;
      rewrite <- Hq, (refcount_lookup p o) by done; cbn; lia.
  - injection H as <-. split; [done|]. split; [done|]. intros q. cbn. rewrite refcount_insert. unfold hit.
    case_decide as Hq; [rewrite <- Hq, (refcount_lookup p o) by done; cbn; lia | lia].
Qed.

Lemma get_refs (p : Z) (w w' : gem_world) :
  rknpu_gem_object_get p w = Some w' ->
  gem_ranges w' = gem_ranges w /\ gem_handles w' = gem_handles w /\ is_Some (gem_objs w !! p) /\
  forall q, refcount_of q (gem_objs w') = refcount_of q (gem_objs w) + hit p q.
Proof.
  unfold rknpu_gem_object_get. destruct (gem_objs w !! p) as [o|] eqn:Ho; [|done]. intros [= <-].
  split; [done|]. split; [done|]. split; [by eexists|]. intros q. cbn. rewrite refcount_insert. unfold hit.
  case_decide as Hq; [rewrite <- Hq, (refcount_lookup p o) by done; cbn; lia | lia].
Qed.

Lemma put_spare (p : Z) (w w' : gem_world) :
  rknpu_gem_object_put no_gki gd p w = Some w' -> forall q, spare w' q = spare w q - hit p q.
Proof. intros H q. apply put_refs in H as (H1 & H2 & H3). unfold spare. rewrite H1, H2, H3. lia. Qed.

Lemma track_spare (ok : bool) (p : Z) (w w' : gem_world) :
  rknpu_dkms_track_gem_obj no_gki gd ok p w = Some w' ->
  gem_handles w' = gem_handles w /\ (forall q, ranges_of q (gem_ranges w) <= ranges_of q (gem_ranges w')) /\
  forall q, spare w' q = spare w q.
Proof.
  unfold rknpu_dkms_track_gem_obj. intros H. destruct (gem_objs w !! p) as [o|]; [|done].
  destruct (_ || _); [by injection H as <-|]. destruct (negb ok); [by injection H as <-|].
  destruct (rknpu_gem_object_get p w) as [w1|] eqn:E; [|done]. apply get_refs in E as (E1 & E2 & _ & E3).
  destruct (existsb _ _).
  - pose proof H as Hp. apply put_refs in H as (H1 & H2 & H3). rewrite H2, H1, E1.
    split; [done|]. split; [done|]. intros q. unfold spare. rewrite H1, H2, H3, E1, E2, E3. lia.
  - injection H as <-. split; [done|]. split.
    + intros q. cbn. rewrite E1, ranges_append. unfold hit. case_decide; lia.
    + intros q. unfold spare. cbn. rewrite ranges_append, E1, E2, E3. cbn. lia.
Qed.

Lemma untrack_spare (p : Z) (w w' : gem_world) :
  rknpu_dkms_untrack_gem_obj no_gki gd p w = Some w' ->
  gem_handles w' = gem_handles w /\
  (forall q, q <> p -> ranges_of q (gem_ranges w') = ranges_of q (gem_ranges w)) /\
  forall q, spare w' q = spare w q.
Proof.
  unfold rknpu_dkms_untrack_gem_obj. intros H. destruct (existsb _ _) eqn:Ex; [|by injection H as <-].
  apply put_refs in H as (H1 & H2 & H3). cbn in *. split; [done|]. split; intros q.
  - intros Hq. rewrite H1, ranges_remove by done. unfold hit. rewrite decide_False by done. lia.
  - unfold spare. rewrite H1, H2, H3, ranges_remove by done. lia.
Qed.

Lemma handle_destroy_spare (file h ret : Z) (w w' : gem_world) :
  rknpu_gem_handle_destroy no_gki gd file h w = Some (ret, w') ->
  gem_ranges w' = gem_ranges w /\ (forall q, handles_of q (gem_handles w') <= handles_of q (gem_handles w)) /\
  forall q, spare w' q = spare w q.
Proof.
  unfold rknpu_gem_handle_destroy. intros H. destruct (gem_handles w !! _) as [p|] eqn:Eh; [|by injection H as <- <-].
  destruct (rknpu_gem_object_put _ _ _ _) as [w1|] eqn:Ep; [|done]. injection H as <- <-.
  apply put_refs in Ep as (H1 & H2 & H3). cbn in *. split; [done|]. split; intros q.
  - rewrite H2, (handles_delete q p) by done. unfold hit. case_decide; lia.
  - unfold spare. rewrite H1, H2, H3, (handles_delete q p) by done. lia.
Qed.

Lemma handle_create_spare (ans : gem_answer) (file p : Z) (w w' : gem_world) (r : Z + Z) :
  (forall h, ga_handle ans = inr h -> gem_handles w !! (file, h) = None) ->
  rknpu_gem_handle_create no_gki gd ans file p w = Some (r, w') ->
  match r with
  | inl _ => w' = w
  | inr h => gem_ranges w' = gem_ranges w /\
      (forall q, handles_of q (gem_handles w') = handles_of q (gem_handles w) + hit p q) /\
      forall q, spare w' q = spare w q - hit p q
  end.
Proof.
  intros Hf. unfold rknpu_gem_handle_create. destruct (ga_handle ans) as [e|h]; [by intros [= <- <-]|].
  intros H. destruct (rknpu_gem_object_get p w) as [w1|] eqn:Eg; [|done].
  destruct (rknpu_gem_object_put _ _ _ _) as [w2|] eqn:Ep; [|done]. injection H as <- <-.
  apply get_refs in Eg as (G1 & G2 & _ & G3). apply put_refs in Ep as (H1 & H2 & H3). cbn in *.
  specialize (Hf h eq_refl). split; [congruence|]. split; intros q.
  - rewrite H2, G2, handles_insert by done. lia.
  - unfold spare. rewrite H1, H2, H3, G1, G2, G3, handles_insert by done. lia.
Qed.
End Refs.

(** ** The transition system *)

(** The driver's state and the objects that users found by address and have not
    put yet. *)
Record gem_sys := { gs_world : gem_world; gs_users : list Z }.

(** The kernel hands out an address that no object has, and a free handle. *)
Definition answer_fresh (ans : gem_answer) (file : Z) (w : gem_world) : Prop :=
  (forall p, ga_kzalloc ans = Some p -> gem_objs w !! p = None) /\
  forall h, ga_handle ans = inr h -> gem_handles w !! (file, h) = None.

Section System.
Context {BO : BitmapOps} {iommu : IommuDomain} (no_gki force_contig : bool) (gd : gem_device).

(** The ioctls, dumb buffers, users, and a handle that the DRM core deletes when
    its file is closed. *)
Inductive gem_step : gem_sys -> gem_sys -> Prop :=
  | StepCreate ans file a w w' ret a' l :
      answer_fresh ans file w ->
      rknpu_gem_create_ioctl no_gki force_contig gd ans file a w = Some (ret, a', w') ->
      gem_step {| gs_world := w; gs_users := l |} {| gs_world := w'; gs_users := l |}
  | StepDumb ans file a w w' ret a' l :
      answer_fresh ans file w ->
      rknpu_gem_dumb_create no_gki force_contig gd ans file a w = Some (ret, a', w') ->
      gem_step {| gs_world := w; gs_users := l |} {| gs_world := w'; gs_users := l |}
  | StepDestroy file h w w' ret l :
      rknpu_gem_destroy_ioctl no_gki gd file h w = Some (ret, w') ->
      gem_step {| gs_world := w; gs_users := l |} {| gs_world := w'; gs_users := l |}
  | StepFind addr p base w w' l :
      rknpu_dkms_find_gem_obj_by_addr addr w = Some (Some p, base, w') ->
      gem_step {| gs_world := w; gs_users := l |} {| gs_world := w'; gs_users := p :: l |}
  | StepPut p w w' l1 l2 :
      rknpu_gem_object_put no_gki gd p w = Some w' ->
      gem_step {| gs_world := w; gs_users := l1 ++ p :: l2 |} {| gs_world := w'; gs_users := l1 ++ l2 |}
  | StepClose file h w w' ret l :
      rknpu_gem_handle_destroy no_gki gd file h w = Some (ret, w') ->
      gem_step {| gs_world := w; gs_users := l |} {| gs_world := w'; gs_users := l |}.

Definition gem_start (s : gem_sys) : Prop :=
  gem_objs (gs_world s) = ∅ /\ gem_handles (gs_world s) = ∅ /\ gem_ranges (gs_world s) = [] /\ gs_users s = [].
Definition gem_reach (s : gem_sys) : Prop := exists s0, gem_start s0 /\ rtc gem_step s0 s.

(** Every holder has a reference of its own. *)
Definition refs_inv (s : gem_sys) : Prop := forall p, count_obj p (gs_users s) <= spare (gs_world s) p.

Lemma handles_nonneg (p : Z) (m : gmap (Z * Z) Z) : 0 <= handles_of p m.
Proof. apply count_obj_nonneg. Qed.
Lemma ranges_nonneg (p : Z) (l : list rknpu_dkms_gem_range) : 0 <= ranges_of p l.
Proof. apply count_obj_nonneg. Qed.

(** An address without an object has no holders. *)
Lemma refs_fresh (w : gem_world) (l : list Z) (p : Z) :
  (forall q, count_obj q l <= spare w q) -> gem_objs w !! p = None ->
  handles_of p (gem_handles w) = 0 /\ ranges_of p (gem_ranges w) = 0 /\ count_obj p l = 0.
Proof.
  intros H Hp. specialize (H p). unfold spare in H.
  assert (refcount_of p (gem_objs w) = 0) by (unfold refcount_of; by rewrite Hp).
  pose proof (count_obj_nonneg p l). pose proof (handles_nonneg p (gem_handles w)).
  pose proof (ranges_nonneg p (gem_ranges w)). lia.
Qed.

(** What a creation with its handle does: [spare] never shrinks, ranges stay,
    and only an address without an object gets a handle. *)
Definition grows (w w' : gem_world) : Prop :=
  (forall q, spare w q <= spare w' q) /\
  (forall q, ranges_of q (gem_ranges w) <= ranges_of q (gem_ranges w')) /\
  forall q, is_Some (gem_objs w !! q) -> handles_of q (gem_handles w') <= handles_of q (gem_handles w).

Lemma created_refs (ans : gem_answer) (file p : Z) (w w1 : gem_world) (l : list Z) :
  answer_fresh ans file w -> (forall q, count_obj q l <= spare w q) -> created ans w (inr p) w1 ->
  gem_objs w !! p = None /\ gem_handles w1 = gem_handles w /\ gem_ranges w1 = gem_ranges w /\
  (exists o, gem_objs w1 !! p = Some o /\ go_refcount o = 1) /\
  forall q, spare w1 q = spare w q + hit p q.
Proof.
  intros [Hf _] Hinv (H1 & H2 & Hp & o & Ho & Hobjs). specialize (Hf p Hp).
  split; [done|]. split; [done|]. split; [done|]. split.
  - exists o. split; [by rewrite Hobjs, lookup_insert_eq | done].
  - intros q. unfold spare. rewrite H1, H2, Hobjs, refcount_insert. unfold hit. case_decide as Hq; [|lia].
    rewrite Ho, <- Hq. unfold refcount_of. rewrite Hf. cbn. lia.
Qed.

(** Destroying the object whose handle could not be made. *)
Lemma destroy_created (p : Z) (o : rknpu_gem_object) (w w' : gem_world) :
  gem_objs w !! p = Some o -> go_refcount o = 1 -> rknpu_gem_object_destroy no_gki gd p o w = Some w' ->
  gem_handles w' = gem_handles w /\ gem_ranges w' = gem_ranges w /\
  forall q, spare w q - hit p q <= spare w' q.
Proof.
  intros Ho Hrc H. apply object_destroy_refs in H as (H1 & H2 & H3). split; [done|]. split; [done|].
  intros q. unfold spare, hit. rewrite H1, H2.
  destruct H3 as [-> | ->]; rewrite ?refcount_insert, ?refcount_delete; case_decide as Hq; try lia;
    rewrite <- Hq, (refcount_lookup p o) by done; lia.
Qed.

Lemma create_handle_grows (ans : gem_answer) (file p : Z) (w w1 w2 : gem_world) (l : list Z) (r : Z + Z) :
  answer_fresh ans file w -> (forall q, count_obj q l <= spare w q) -> created ans w (inr p) w1 ->
  rknpu_gem_handle_create no_gki gd ans file p w1 = Some (r, w2) ->
  match r with
  | inl _ => forall o w', gem_objs w2 !! p = Some o ->
      rknpu_gem_object_destroy no_gki gd p o w2 = Some w' -> grows w w'
  | inr _ => grows w w2
  end.
Proof.
  intros Hans Hinv Hc H. pose proof Hc as Hr.
  apply (created_refs ans file p w w1 l Hans Hinv) in Hr as (Hp & E1 & E2 & (o & Ho & Hrc) & E3).
  apply handle_create_spare in H; [|intros h Hh; rewrite E1; by apply Hans]. destruct r as [e|h].
  - subst w2. intros o' w' Ho' Hd. rewrite Ho in Ho'. injection Ho' as <-.
    apply (destroy_created p o) in Hd as (D1 & D2 & D3); [|done..]. split; [|split].
    + intros q. specialize (D3 q). specialize (E3 q). lia.
    + intros q. by rewrite D2, E2.
    + intros q _. by rewrite D1, E1.
  - destruct H as (H1 & H2 & H3). split; [|split].
    + intros q. rewrite H3, E3. lia.
    + intros q. by rewrite H1, E2.
    + intros q [oq Hq]. rewrite H2, E1. unfold hit. case_decide as Heq; [|lia]. rewrite Heq, Hq in Hp. done.
Qed.

Lemma reply_grows (ans : gem_answer) (p : Z) (a a' : gem_create_args) (w w' : gem_world) (ret : Z) :
  create_reply no_gki gd ans p a w = Some (ret, a', w') ->
  (forall q, spare w' q = spare w q) /\
  (forall q, ranges_of q (gem_ranges w) <= ranges_of q (gem_ranges w')) /\
  gem_handles w' = gem_handles w.
Proof.
  unfold create_reply. intros H. destruct (gem_objs w !! p); [|done].
  destruct (rknpu_dkms_track_gem_obj _ _ _ _ _) as [w1|] eqn:E; [|done]. injection H as _ _ <-.
  apply track_spare in E as (E1 & E2 & E3). done.
Qed.

Lemma create_ioctl_grows (ans : gem_answer) (file : Z) (a a' : gem_create_args) (w w' : gem_world)
    (l : list Z) (ret : Z) :
  answer_fresh ans file w -> (forall q, count_obj q l <= spare w q) ->
  rknpu_gem_create_ioctl no_gki force_contig gd ans file a w = Some (ret, a', w') -> grows w w'.
Proof.
  intros Hans Hinv H. unfold rknpu_gem_create_ioctl in H.
  destruct (rknpu_gem_object_find _ _ _) as [p|].
  { apply reply_grows in H as (H1 & H2 & H3). split; [|split]; [intros q; by rewrite H1 | done|].
    intros q _. by rewrite H3. }
  destruct (rknpu_gem_object_create _ _ _ _ _ _ _ _ _ _) as [[[e|p] w1]|] eqn:Ec; [| |done];
    apply object_create_frame in Ec.
  { injection H as _ _ <-. destruct Ec as (E1 & E2 & E3). unfold grows, spare. rewrite E1, E2, E3. done. }
  destruct (rknpu_gem_handle_create _ _ _ _ _ _) as [[[e|h] w2]|] eqn:Eh; [| |done];
    apply (create_handle_grows ans file p w w1 w2 l) in Eh; try done.
  - destruct (gem_objs w2 !! p) as [o|] eqn:Ho; [|done].
    destruct (rknpu_gem_object_destroy _ _ _ _ _) as [w3|] eqn:Ed; [|done]. injection H as _ _ <-.
    by apply (Eh o).
  - apply reply_grows in H as (H1 & H2 & H3). destruct Eh as (G1 & G2 & G3). split; [|split].
    + intros q. by rewrite H1.
    + intros q. etrans; [apply G2 | apply H2].
    + intros q Hq. rewrite H3. by apply G3.
Qed.

Lemma dumb_create_grows (ans : gem_answer) (file : Z) (a a' : dumb_args) (w w' : gem_world)
    (l : list Z) (ret : Z) :
  answer_fresh ans file w -> (forall q, count_obj q l <= spare w q) ->
  rknpu_gem_dumb_create no_gki force_contig gd ans file a w = Some (ret, a', w') -> grows w w'.
Proof.
  intros Hans Hinv H. unfold rknpu_gem_dumb_create in H.
  destruct (rknpu_gem_object_create _ _ _ _ _ _ _ _ _ _) as [[[e|p] w1]|] eqn:Ec; [| |done];
    apply object_create_frame in Ec.
  { injection H as _ _ <-. destruct Ec as (E1 & E2 & E3). unfold grows, spare. rewrite E1, E2, E3. done. }
  destruct (rknpu_gem_handle_create _ _ _ _ _ _) as [[[e|h] w2]|] eqn:Eh; [| |done];
    apply (create_handle_grows ans file p w w1 w2 l) in Eh; try done.
  - destruct (gem_objs w2 !! p) as [o|] eqn:Ho; [|done].
    destruct (rknpu_gem_object_destroy _ _ _ _ _) as [w3|] eqn:Ed; [|done]. injection H as _ _ <-.
    by apply (Eh o).
  - by injection H as _ _ <-.
Qed.

Lemma destroy_ioctl_refs (file h ret : Z) (w w' : gem_world) :
  rknpu_gem_destroy_ioctl no_gki gd file h w = Some (ret, w') ->
  (forall q, spare w' q = spare w q) /\
  (forall q, handles_of q (gem_handles w') <= handles_of q (gem_handles w)) /\
  forall q, handles_of q (gem_handles w) = 0 -> ranges_of q (gem_ranges w') = ranges_of q (gem_ranges w).
Proof.
  intros H. unfold rknpu_gem_destroy_ioctl, rknpu_gem_object_find in H.
  destruct (gem_handles w !! (file, h)) as [p|] eqn:Eh; [|by injection H as <- <-].
  apply handles_lookup in Eh. destruct (gem_objs w !! p) as [o|]; [|done].
  destruct (domain_get_retry 3 _ w) as [[r w1]|] eqn:Eg; [|done]. apply domain_retry_frame in Eg.
  pose proof (spare_same _ _ Eg) as Hs. destruct Eg as [_ F2 F3].
  destruct (negb _); [injection H as _ <-; by rewrite F2, F3|].
  destruct (rknpu_dkms_untrack_gem_obj _ _ _ _) as [w2|] eqn:Eu; [|done].
  apply untrack_spare in Eu as (U1 & U2 & U3).
  destruct (rknpu_gem_handle_destroy _ _ _ _ _) as [[r2 w3]|] eqn:Ed; [|done]. injection H as _ <-.
  apply handle_destroy_spare in Ed as (D1 & D2 & D3). cbn [domain_release set_field]. split; [|split].
  - intros q. transitivity (spare w3 q); [done|]. by rewrite D3, U3, Hs.
  - intros q. cbn. etrans; [apply D2|]. by rewrite U1, F3.
  - intros q Hq. cbn. rewrite D1, U2, F2; [done|]. intros ->. lia.
Qed.

Lemma find_spare (addr p base : Z) (w w' : gem_world) :
  rknpu_dkms_find_gem_obj_by_addr addr w = Some (Some p, base, w') ->
  gem_ranges w' = gem_ranges w /\ gem_handles w' = gem_handles w /\
  forall q, spare w' q = spare w q + hit p q.
Proof.
  unfold rknpu_dkms_find_gem_obj_by_addr. destruct (find_range _ _) as [r|]; [|done]. intros H.
  destruct (rknpu_gem_object_get _ _) as [w1|] eqn:E; [|done]. injection H as <- _ <-.
  apply get_refs in E as (E1 & E2 & _ & E3). split; [done|]. split; [done|].
  intros q. unfold spare. rewrite E1, E2, E3. lia.
Qed.

Lemma gem_step_inv (s s' : gem_sys) : refs_inv s -> gem_step s s' -> refs_inv s'.
Proof.
  intros Hinv H. unfold refs_inv in *. destruct H; cbn [gs_world gs_users] in *; intros q; specialize (Hinv q) as Hq.
  - etrans; [exact Hq|]. by apply (create_ioctl_grows ans file a a' w w' l ret).
  - etrans; [exact Hq|]. by apply (dumb_create_grows ans file a a' w w' l ret).
  - apply destroy_ioctl_refs in H as (H & _). by rewrite H.
  - apply find_spare in H as (_ & _ & H). rewrite H, count_cons. lia.
  - apply put_spare with (q := q) in H. rewrite H. rewrite count_app, count_cons in Hq. rewrite count_app. lia.
  - apply handle_destroy_spare in H as (_ & _ & H). by rewrite H.
Qed.

Lemma gem_reach_inv (s : gem_sys) : gem_reach s -> refs_inv s.
Proof.
  intros (s0 & (H1 & H2 & H3 & H4) & Hr). assert (H0 : refs_inv s0).
  { intros p. unfold spare, handles_of. rewrite H1, H2, H3, H4, map_to_list_empty. done. }
  clear H1 H2 H3 H4. induction Hr as [|s1 s2 s3 Hs _ IH]; [done|]. by eapply IH, gem_step_inv.
Qed.

(** Tracked, and no handle left. *)
Definition orphan (p : Z) (w : gem_world) : Prop :=
  handles_of p (gem_handles w) = 0 /\ 0 < ranges_of p (gem_ranges w).

Lemma refs_alive (s : gem_sys) (p : Z) : refs_inv s ->
  0 < handles_of p (gem_handles (gs_world s)) + ranges_of p (gem_ranges (gs_world s)) + count_obj p (gs_users s) ->
  exists o, gem_objs (gs_world s) !! p = Some o /\
    handles_of p (gem_handles (gs_world s)) + ranges_of p (gem_ranges (gs_world s)) +
      count_obj p (gs_users s) <= go_refcount o.
Proof.
  intros H Hp. specialize (H p). unfold spare, refcount_of in H.
  destruct (gem_objs (gs_world s) !! p) as [o|]; cbn in H; [|lia]. exists o. split; [done | lia].
Qed.

Lemma gem_step_orphan (s s' : gem_sys) (p : Z) :
  refs_inv s -> orphan p (gs_world s) -> gem_step s s' -> orphan p (gs_world s').
Proof.
  intros Hinv [O1 O2] H. unfold orphan.
  destruct (refs_alive s p Hinv) as (o & Ho & _).
  { pose proof (count_obj_nonneg p (gs_users s)). lia. }
  destruct H; cbn [gs_world gs_users] in *; pose proof (handles_nonneg p (gem_handles w')).
  - destruct (create_ioctl_grows ans file a a' w w' l ret H Hinv H0) as (_ & G2 & G3).
    specialize (G2 p). specialize (G3 p ltac:(by eexists)). lia.
  - destruct (dumb_create_grows ans file a a' w w' l ret H Hinv H0) as (_ & G2 & G3).
    specialize (G2 p). specialize (G3 p ltac:(by eexists)). lia.
  - apply destroy_ioctl_refs in H as (_ & H1 & H2). specialize (H1 p). rewrite (H2 p O1). lia.
  - apply find_spare in H as (H1 & H2 & _). by rewrite H1, H2.
  - apply put_refs in H as (H1 & H2 & _). by rewrite H1, H2.
  - apply handle_destroy_spare in H as (H1 & H2 & _). specialize (H2 p). rewrite H1. lia.
Qed.
End System.


(** Closing a file does not free what the DKMS build tracks.  The DRM core
    deletes the handles of the file, but only rknpu_gem_destroy_ioctl drops the
    reference of the tracked range, and it needs a handle; so an object whose
    last handle goes this way stays allocated whatever happens afterwards. *)
Theorem file_close_leaks_tracked_object {BO : BitmapOps} {iommu : IommuDomain}
    (no_gki force_contig : bool) (gd : gem_device) (s s' : gem_sys) (file h p : Z) (w' : gem_world) :
  gem_reach no_gki force_contig gd s ->
  gem_handles (gs_world s) !! (file, h) = Some p -> handles_of p (gem_handles (gs_world s)) = 1 ->
  p ∈ (gr_obj <$> gem_ranges (gs_world s)) ->
  rknpu_gem_handle_destroy no_gki gd file h (gs_world s) = Some (0, w') ->
  rtc (gem_step no_gki force_contig gd) {| gs_world := w'; gs_users := gs_users s |} s' ->
  is_Some (gem_objs (gs_world s') !! p).
Proof.
  intros Hr Hh H1 Ht Hd Hs. pose proof (gem_reach_inv _ _ _ _ Hr) as Hinv.
  assert (Hstep : gem_step no_gki force_contig gd s {| gs_world := w'; gs_users := gs_users s |})
    by (destruct s; by eapply StepClose).
  apply gem_step_inv in Hstep; [|done].
  assert (Ho : orphan p w').
  { apply count_elem in Ht. fold (ranges_of p (gem_ranges (gs_world s))) in Ht.
    pose proof Hd as Hd2. apply handle_destroy_spare in Hd as (D1 & _ & _). split; [|by rewrite D1].
    unfold rknpu_gem_handle_destroy in Hd2. rewrite Hh in Hd2.
    destruct (rknpu_gem_object_put _ _ _ _) as [w1|] eqn:E; [|done]. injection Hd2 as <-.
    apply put_refs in E as (_ & E & _). rewrite E. cbn. rewrite (handles_delete p p) by done.
    unfold hit. rewrite decide_True by done. lia. }
  clear Hd Hh H1 Ht Hinv Hr.
  assert (Hboth : refs_inv s' /\ orphan p (gs_world s')).
  { remember ({| gs_world := w'; gs_users := gs_users s |}) as s1 eqn:E.
    replace w' with (gs_world s1) in Ho by (by rewrite E). clear E.
    induction Hs as [|s1 s2 s3 Hst _ IH]; [done|]. apply IH; [by eapply gem_step_inv | by eapply gem_step_orphan]. }
  destruct Hboth as [Hinv [O1 O2]]. destruct (refs_alive s' p Hinv) as (o & Hlive & _); [|by eexists].
  pose proof (count_obj_nonneg p (gs_users s')). lia.
Qed.

(** *** A file creates a buffer and is closed *)

Definition example_create_args : gem_create_args :=
  {| gc_handle := 0; gc_flags := RKNPU_MEM_CACHEABLE; gc_size := 12288; gc_obj_addr := 0; gc_dma_addr := 0;
     gc_sram_size := 0; gc_domain_id := 0; gc_core_mask := 1 |}.
Definition example_created : gem_sys :=
  {| gs_world := match rknpu_gem_create_ioctl (iommu := iommu_domain_stub) false true example_gem_device
                   example_gem_answer 7 example_create_args example_gem_world with
                 | Some (_, _, w) => w
                 | None => example_gem_world
                 end;
     gs_users := [] |}.

Lemma example_gem_step : gem_step (iommu := iommu_domain_stub) false true example_gem_device
  {| gs_world := example_gem_world; gs_users := [] |} example_created.
Proof.
  unfold example_created.
  destruct (rknpu_gem_create_ioctl (iommu := iommu_domain_stub) false true example_gem_device
    example_gem_answer 7 example_create_args example_gem_world) as [[[ret a] w]|] eqn:E.
  - eapply StepCreate; [|exact E]. split; intros ? [= <-]; done.
  - assert (match rknpu_gem_create_ioctl (iommu := iommu_domain_stub) false true example_gem_device
      example_gem_answer 7 example_create_args example_gem_world with Some _ => true | None => false end = true)
      as H by (vm_compute; reflexivity). by rewrite E in H.
Qed.

Lemma example_gem_reach :
  gem_reach (iommu := iommu_domain_stub) false true example_gem_device example_created.
Proof.
  exists {| gs_world := example_gem_world; gs_users := [] |}. split; [done|]. apply rtc_once, example_gem_step.
Qed.


Lemma file_close_leaks_tracked_object_witness :
  exists w', rknpu_gem_handle_destroy (iommu := iommu_domain_stub) false example_gem_device 7 1
      (gs_world example_created) = Some (0, w') /\
    gem_handles w' !! (7, 1) = None /\ is_Some (gem_objs w' !! 10).
Proof.
  assert (match rknpu_gem_handle_destroy (iommu := iommu_domain_stub) false example_gem_device 7 1
      (gs_world example_created) with
    | Some (r, w) => (r =? 0) && bool_decide (gem_handles w !! (7, 1) = None)
    | None => false
    end = true) as Hrun by (vm_compute; reflexivity).
  destruct (rknpu_gem_handle_destroy _ _ _ _ _) as [[r w']|] eqn:E; [|done].
  apply andb_true_iff in Hrun as [->%Z.eqb_eq Hh%bool_decide_eq_true]. exists w'.
  split; [done|]. split; [exact Hh|].
  apply (file_close_leaks_tracked_object (iommu := iommu_domain_stub) false true example_gem_device
    example_created {| gs_world := w'; gs_users := [] |} 7 1 10 w' example_gem_reach).
  - vm_compute. reflexivity.
  - vm_compute. reflexivity.
  - apply list_elem_of_lookup. exists 0%nat. vm_compute. reflexivity.
  - exact E.
  - apply rtc_refl.
Defined.
