(* ===== verification/GemFile.v ===== *)
(** * Entry points of GEM objects (rknpu_gem.c): mmap, mmap offsets and faults

    How the DRM core reaches the mapping of an object: the mmap of the device
    file and of an exported buffer before 6.1, rknpu_gem_mmap_obj itself from
    6.1 on, the fake offsets of the map ioctl, and the page faults and the kernel
    mappings of the older kernels.  The theorems follow the reference that a
    mapping holds on its object. *)

From S2P Require Import Prelude Ledger Mapping Config Domain Mm Sg Gem GemLife GemMap GemRefs.

Section GemFile.
Context {BO : BitmapOps} {iommu : IommuDomain}.
Context (no_gki : bool) (gd : gem_device).

(** ** Mappings *)

(** The file's mmap before 6.1.  drm_gem_mmap looks the object up by the fake
    offset, takes a reference for the mapping and sets the flags of the area;
    [dma_buf_mmap] is the answer of the exporter of an imported object. *)
Definition rknpu_gem_mmap (va : vm_answer) (drm_gem_mmap : vm_area -> Z + Z * vm_area)
    (dma_buf_mmap : Z -> vm_area -> Z) (w : gem_world) (v : vm_area) (t : translation)
  : option (Z * vm_area * translation * gem_world) :=
  match drm_gem_mmap v with
  | inl e => Some (e, v, t, w)
  | inr (p, v) =>
      match rknpu_gem_object_get p w with
      | None => None
      | Some w =>
          match gem_objs w !! p with
          | None => None
          | Some o =>
              if go_import o then Some (dma_buf_mmap p v, v, t, w)
              else rknpu_gem_mmap_obj no_gki gd va p w v t
          end
      end
  end.

(** The mmap of the exported buffer before 6.1; drm_gem_mmap_obj takes the
    reference when it succeeds. *)
Definition rknpu_gem_prime_mmap (va : vm_answer) (drm_gem_mmap_obj : vm_area -> Z * vm_area)
    (p : Z) (w : gem_world) (v : vm_area) (t : translation)
  : option (Z * vm_area * translation * gem_world) :=
  let '(ret, v) := drm_gem_mmap_obj v in
  if ret <? 0 then Some (ret, v, t, w)
  else
    match rknpu_gem_object_get p w with
    | None => None
    | Some w => rknpu_gem_mmap_obj no_gki gd va p w v t
    end.

(** ** Fake offsets *)

(** Before 4.19.  The offset written, if any; [create_offset] and [node_offset]
    are drm_gem_create_mmap_offset and drm_vma_node_offset_addr. *)
Definition rknpu_gem_dumb_map_offset (create_offset node_offset : Z -> Z) (file handle : Z)
    (w : gem_world) : option (Z * option Z) :=
  match rknpu_gem_object_find file handle w with
  | None => Some (0, None)
  | Some p =>
      match gem_objs w !! p with
      | None => None
      | Some o =>
          if go_import o then Some (-EINVAL, None)
          else
            let ret := create_offset p in
            if negb (ret =? 0) then Some (ret, None) else Some (0, Some (node_offset p))
      end
  end.

(** [drm_map_offset] is drm_gem_dumb_map_offset, which the later kernels use. *)
Definition rknpu_gem_map_ioctl (old : bool) (create_offset node_offset : Z -> Z)
    (drm_map_offset : Z -> Z -> gem_world -> Z * option Z) (file handle : Z) (w : gem_world)
  : option (Z * option Z) :=
  if old then rknpu_gem_dumb_map_offset create_offset node_offset file handle w
  else Some (drm_map_offset file handle w).
End GemFile.

(** ** Page faults before 4.15 *)

Inductive vm_fault := VM_FAULT_NOPAGE | VM_FAULT_OOM | VM_FAULT_SIGBUS.
Definition fault_result (ret : Z) : vm_fault :=
  if (ret =? 0) || (ret =? -ERESTARTSYS) || (ret =? -EINTR) then VM_FAULT_NOPAGE
  else if ret =? -ENOMEM then VM_FAULT_OOM
  else VM_FAULT_SIGBUS.

(** The result and the address and pfn handed to vm_insert_mixed, whose answer is
    [insert]; the outer [None] is a read past the end of the page array. *)
Definition rknpu_gem_fault_old (insert : Z -> Z -> Z) (o : rknpu_gem_object) (v : vm_area) (address : Z)
  : option (vm_fault * option (Z * Z)) :=
  let page_offset := Z.shiftr (u64 (address - vm_start v)) PAGE_SHIFT in
  if Z.shiftr (go_size o) PAGE_SHIFT <=? page_offset then Some (fault_result (-EINVAL), None)
  else
    match go_pages o with
    | None => None
    | Some pages =>
        option_map (fun page => let pfn := Z.shiftr page PAGE_SHIFT in
                                (fault_result (insert address pfn), Some (address, pfn)))
          (pages !! Z.to_nat page_offset)
    end.

(** ** Kernel mappings before 6.1: the address or NULL (0) *)

Definition rknpu_gem_prime_vmap_old (vmap : list Z -> Z -> Z) (o : rknpu_gem_object) : Z :=
  match go_pages o with None => 0 | Some pages => vmap pages (go_num_pages o) end.

(** ** What a mapping does to the references *)

Section MmapRefs.
Context {BO : BitmapOps} {iommu : IommuDomain} (no_gki : bool) (gd : gem_device).

Lemma get_put_same (p : Z) (o : rknpu_gem_object) (w w1 : gem_world) :
  gem_objs w !! p = Some o -> 0 < go_refcount o -> rknpu_gem_object_get p w = Some w1 ->
  rknpu_gem_object_put no_gki gd p w1 = Some w.
Proof.
  intros Ho Hr H. unfold rknpu_gem_object_get in H. rewrite Ho in H. injection H as <-.
  unfold rknpu_gem_object_put. cbn [gem_objs set_field]. rewrite lookup_insert_eq. cbn [go_refcount set_field].
  rewrite (proj2 (Z.eqb_neq _ _)) by lia. f_equal. destruct w as [objs ? ? ? ? ? ?]. cbn in *. f_equal.
  rewrite insert_insert_eq. apply insert_id. rewrite Ho. f_equal. destruct o; cbn. by rewrite Z.pred_succ.
Qed.

(** rknpu_gem_mmap_obj on an object whose mapping holds a reference. *)
Lemma mmap_obj_refs (va : vm_answer) (p ret : Z) (o : rknpu_gem_object) (w w1 w2 : gem_world)
    (v v' : vm_area) (t t' : translation) :
  gem_objs w !! p = Some o -> 0 < go_refcount o -> rknpu_gem_object_get p w = Some w1 ->
  rknpu_gem_mmap_obj no_gki gd va p w1 v t = Some (ret, v', t', w2) ->
  w2 = if ret =? 0 then w1 else w.
Proof.
  intros Ho Hr Hg H. pose proof (get_put_same p o w w1 Ho Hr Hg) as Hput.
  unfold rknpu_gem_mmap_obj in H. destruct (gem_objs w1 !! p) as [o1|]; [|done].
  destruct (rknpu_gem_mmap_buffer _ _ _ _ _ _) as [[[r v1] t1]|]; [|done].
  destruct (Z.eqb_spec r 0) as [->|Hne]; cbn [negb] in H; [by injection H as <- _ _ <-|].
  rewrite Hput in H. injection H as <- _ _ <-. by rewrite (proj2 (Z.eqb_neq _ _) Hne).
Qed.
End MmapRefs.

(** C21: Before 6.1 a mapping through the device file holds exactly one reference on
    its object: a success takes it, a failure leaves the state as it was.  Only
    an imported object keeps it whatever its exporter answers. *)
Theorem gem_mmap_holds_one_reference {BO : BitmapOps} {iommu : IommuDomain} (no_gki : bool)
    (gd : gem_device) (va : vm_answer) (drm_gem_mmap : vm_area -> Z + Z * vm_area)
    (dma_buf_mmap : Z -> vm_area -> Z) (p ret : Z) (o : rknpu_gem_object) (w w' : gem_world)
    (v v1 v' : vm_area) (t t' : translation) :
  drm_gem_mmap v = inr (p, v1) -> gem_objs w !! p = Some o -> 0 < go_refcount o ->
  rknpu_gem_mmap no_gki gd va drm_gem_mmap dma_buf_mmap w v t = Some (ret, v', t', w') ->
  w' = if (ret =? 0) || go_import o
       then w <| gem_objs ::= <[p := o <| go_refcount ::= Z.succ |>]> |> else w.
Proof.
  intros Hv Ho Hr H. unfold rknpu_gem_mmap in H. rewrite Hv in H.
  destruct (rknpu_gem_object_get p w) as [w1|] eqn:Hg; [|done].
  assert (Hw1 : w1 = w <| gem_objs ::= <[p := o <| go_refcount ::= Z.succ |>]> |>)
    by (unfold rknpu_gem_object_get in Hg; rewrite Ho in Hg; congruence).
  assert (Ho1 : gem_objs w1 !! p = Some (o <| go_refcount ::= Z.succ |>))
    by (rewrite Hw1; apply lookup_insert_eq).
  rewrite Ho1 in H. change (go_import (o <| go_refcount ::= Z.succ |>)) with (go_import o) in H.
  destruct (go_import o); [by rewrite orb_true_r; injection H as _ _ _ <-|]. rewrite orb_false_r, <- Hw1.
  by apply (mmap_obj_refs no_gki gd va p ret o w w1 w' v1 v' t t').
Qed.

(** From 6.1 on the DRM core calls rknpu_gem_mmap_obj as the mmap of the object
    and drops its own reference when that fails; but rknpu_gem_mmap_obj has
    dropped it already.  The second drop takes a reference of somebody else: an
    object that only a handle refers to is freed under the handle. *)
Theorem gem_mmap_failure_frees_object {BO : BitmapOps} {iommu : IommuDomain} (no_gki : bool)
    (gd : gem_device) (va : vm_answer) (p ret : Z) (o : rknpu_gem_object) (k : Z * Z)
    (w w1 w2 wd w3 : gem_world) (v v' : vm_area) (t t' : translation) :
  gem_objs w !! p = Some o -> go_refcount o = 1 -> gem_handles w !! k = Some p ->
  rknpu_gem_object_get p w = Some w1 ->
  rknpu_gem_mmap_obj no_gki gd va p w1 v t = Some (ret, v', t', w2) -> ret <> 0 ->
  domain_get_retry 3 (go_iommu_domain_id o) w2 = Some (0, wd) ->
  rknpu_gem_object_put no_gki gd p w2 = Some w3 ->
  gem_objs w3 !! p = None /\ gem_handles w3 !! k = Some p.
Proof.
  intros Ho Hr Hk Hg Hm Hne Hd Hp.
  pose proof (mmap_obj_refs no_gki gd va p ret o w w1 w2 v v' t t' Ho ltac:(lia) Hg Hm) as ->.
  rewrite (proj2 (Z.eqb_neq _ _) Hne) in Hd, Hp. unfold rknpu_gem_object_put in Hp. rewrite Ho, Hr in Hp.
  cbn [Z.eqb Pos.eqb] in Hp. unfold rknpu_gem_object_destroy in Hp.
  change (go_iommu_domain_id (o <| go_refcount := 0 |>)) with (go_iommu_domain_id o) in Hp. rewrite Hd in Hp.
  cbn [negb Z.eqb] in Hp. apply domain_retry_frame in Hd as [F1 F2 F3].
  pose proof (free_parts_frame no_gki gd p (o <| go_refcount := 0 |>) wd) as [G1 G2 G3].
  set (w4 := gem_free_parts no_gki gd p (o <| go_refcount := 0 |>) wd) in *. clearbody w4. injection Hp as <-.
  split; [apply lookup_delete_eq|]. change (gem_handles w4 !! k = Some p). by rewrite G3, F3.
Qed.

(** The object of a file, mapped without memory for the page tables. *)
Definition example_file_world : gem_world :=
  example_gem_world <| gem_objs := {[ 10 := (new_gem_object 8192) <| go_dma_addr := 0x7000 |> ]} |>
    <| gem_handles := {[ (7, 1) := 10 ]} |>.
Definition example_no_memory : vm_answer :=
  {| va_remap := fun _ _ _ => -ENOMEM; va_insert := fun _ _ => -ENOMEM;
     va_dma_mmap := fun _ _ _ _ _ t => (-ENOMEM, t) |}.

Lemma gem_mmap_holds_one_reference_witness :
  let mmap va := rknpu_gem_mmap (iommu := iommu_domain_stub) false example_gem_device va
    (fun v => inr (10, v)) (fun _ _ => 0) example_file_world (example_area 8192) (fun _ => None) in
  (exists v t w, mmap example_vm_answer = Some (0, v, t, w) /\
     (go_refcount <$> gem_objs w !! 10) = Some 2) /\
  exists v t, mmap example_no_memory = Some (-ENOMEM, v, t, example_file_world).
Proof.
  intros mmap.
  assert (H : forall va ret v' t' w', mmap va = Some (ret, v', t', w') -> w' =
    if (ret =? 0) || false then example_file_world <| gem_objs ::= <[10 :=
      (new_gem_object 8192) <| go_dma_addr := 0x7000 |> <| go_refcount ::= Z.succ |>]> |> else example_file_world).
  { intros va ret v' t' w' H. exact (gem_mmap_holds_one_reference (iommu := iommu_domain_stub) false
      example_gem_device va (fun v => inr (10, v)) (fun _ _ => 0) 10 ret
      ((new_gem_object 8192) <| go_dma_addr := 0x7000 |>) example_file_world w' (example_area 8192)
      (example_area 8192) v' (fun _ => None) t' eq_refl eq_refl eq_refl H). }
  split.
  - destruct (mmap example_vm_answer) as [[[[ret v] t] w]|] eqn:E.
    2:{ exfalso. assert (match mmap example_vm_answer with Some _ => true | None => false end = true) as Hs
          by (vm_compute; reflexivity). by rewrite E in Hs. }
    assert (ret = 0) as ->.
    { assert (match mmap example_vm_answer with Some (r, _, _, _) => r | None => 1 end = 0) as Hs
        by (vm_compute; reflexivity). by rewrite E in Hs. }
    exists v, t, w. split; [done|]. rewrite (H _ _ _ _ _ E). vm_compute. reflexivity.
  - destruct (mmap example_no_memory) as [[[[ret v] t] w]|] eqn:E.
    2:{ exfalso. assert (match mmap example_no_memory with Some _ => true | None => false end = true) as Hs
          by (vm_compute; reflexivity). by rewrite E in Hs. }
    assert (ret = -ENOMEM) as ->.
    { assert (match mmap example_no_memory with Some (r, _, _, _) => r | None => 1 end = -ENOMEM) as Hs
        by (vm_compute; reflexivity). by rewrite E in Hs. }
    exists v, t. by rewrite (H _ _ _ _ _ E).
Defined.

Lemma gem_mmap_failure_frees_object_witness :
  exists w1 w2 w3 v t, rknpu_gem_object_get 10 example_file_world = Some w1 /\
    rknpu_gem_mmap_obj (iommu := iommu_domain_stub) false example_gem_device example_no_memory 10 w1
      (example_area 8192) (fun _ => None) = Some (-ENOMEM, v, t, w2) /\
    rknpu_gem_object_put (iommu := iommu_domain_stub) false example_gem_device 10 w2 = Some w3 /\
    gem_objs w3 !! 10 = None /\ gem_handles w3 !! (7, 1) = Some 10.
Proof.
  assert (match rknpu_gem_object_get 10 example_file_world with
    | Some w1 =>
        match rknpu_gem_mmap_obj (iommu := iommu_domain_stub) false example_gem_device example_no_memory 10 w1
                (example_area 8192) (fun _ => None) with
        | Some (r, _, _, w2) => (r =? -ENOMEM) &&
            match domain_get_retry (iommu := iommu_domain_stub) 3 0 w2 with Some (0, _) => true | _ => false end &&
            bool_decide (is_Some (rknpu_gem_object_put (iommu := iommu_domain_stub) false example_gem_device 10 w2))
        | None => false
        end
    | None => false
    end = true) as Hrun by (vm_compute; reflexivity).
  destruct (rknpu_gem_object_get 10 example_file_world) as [w1|] eqn:E1; [|done].
  destruct (rknpu_gem_mmap_obj _ _ _ _ _ _ _) as [[[[r v] t] w2]|] eqn:E2; [|done].
  apply andb_true_iff in Hrun as [[Hr%Z.eqb_eq Hd]%andb_true_iff [w3 E3]%bool_decide_eq_true].
  subst r. destruct (domain_get_retry 3 0 w2) as [[[| |] wd]|] eqn:Ed; try done.
  exists w1, w2, w3, v, t. do 3 (split; [done|]).
  apply (gem_mmap_failure_frees_object (iommu := iommu_domain_stub) false example_gem_device example_no_memory 10
    (-ENOMEM) ((new_gem_object 8192) <| go_dma_addr := 0x7000 |>) (7, 1) example_file_world w1 w2 wd w3
    (example_area 8192) v (fun _ => None) t); try done.
Defined.
