(* ===== verification/Drm.v ===== *)
(** * The DRM device: GEM objects and jobs together (rknpu_gem.c, rknpu_job.c)

    A job of the DRM device finds its tasks in a GEM object and holds a reference
    on it.  The scheduler's files see of the objects only their tasks and their
    counts (Device.v), the files of the GEM objects see everything (Gem.v): the
    two views move together, and because of its reference a job finds its
    object, whatever user space destroys in the meantime.  (On the misc device
    it does not: Misc.v.) *)

From S2P Require Import Prelude Ledger Mapping Config Domain Device Reset Job Batch Commit Mm Sg Gem GemLife GemMap GemRefs.

(** ** The scheduler's view of the objects *)

(** The tasks, which are in the object's memory, are visible through its kernel
    mapping. *)
Definition job_object (tasks : list rknpu_task) (o : rknpu_gem_object) : npu_object :=
  {| o_kv_addr := if go_kv_addr o =? 0 then None else Some tasks; o_refcount := go_refcount o |}.

(** An object whose last reference is gone is no object to the scheduler, also
    when rknpu_gem_object_destroy gave up on its domain. *)
Definition live_view (tasks : Z -> list rknpu_task) (m : gmap Z rknpu_gem_object) : gmap Z npu_object :=
  map_imap (fun p o => if go_refcount o =? 0 then None else Some (job_object (tasks p) o)) m.

Lemma live_view_lookup (tasks : Z -> list rknpu_task) (m : gmap Z rknpu_gem_object) (p : Z) :
  live_view tasks m !! p = m !! p ≫= fun o => if go_refcount o =? 0 then None else Some (job_object (tasks p) o).
Proof. unfold live_view. by rewrite map_lookup_imap. Qed.

Lemma live_view_insert (tasks : Z -> list rknpu_task) (m : gmap Z rknpu_gem_object) (p : Z) (o : rknpu_gem_object) :
  go_refcount o <> 0 -> live_view tasks (<[p := o]> m) = <[p := job_object (tasks p) o]> (live_view tasks m).
Proof.
  intros H. apply map_eq. intros q. rewrite live_view_lookup. destruct (decide (p = q)) as [->|Hne].
  - rewrite !lookup_insert_eq. cbn. by rewrite (proj2 (Z.eqb_neq _ _) H).
  - by rewrite !lookup_insert_ne, live_view_lookup by done.
Qed.

Lemma live_view_dead (tasks : Z -> list rknpu_task) (m m' : gmap Z rknpu_gem_object) (p : Z) (o : rknpu_gem_object) :
  go_refcount o = 0 -> m' = <[p := o]> m \/ m' = delete p m ->
  live_view tasks m' = delete p (live_view tasks m).
Proof.
  intros H Hm. apply map_eq. intros q. rewrite live_view_lookup. destruct (decide (p = q)) as [->|Hne].
  - rewrite lookup_delete_eq. destruct Hm as [-> | ->]; [|by rewrite lookup_delete_eq].
    rewrite lookup_insert_eq. cbn. by rewrite H.
  - rewrite lookup_delete_ne, live_view_lookup by done.
    destruct Hm as [-> | ->]; by rewrite ?lookup_insert_ne, ?lookup_delete_ne by done.
Qed.

(** ** References move together *)

Section Drm.
Context {BO : BitmapOps} {iommu : IommuDomain} (no_gki force_contig : bool) (gd : gem_device).

(** The device and the objects agree, whatever tasks user space has put there. *)
Definition agree (d : rknpu_device) (w : gem_world) : Prop :=
  exists tasks, gem_objects d = live_view tasks (gem_objs w).

Lemma agree_get (p : Z) (d : rknpu_device) (w w' : gem_world) :
  agree d w -> (forall o, gem_objs w !! p = Some o -> 0 < go_refcount o) ->
  Gem.rknpu_gem_object_get p w = Some w' ->
  exists d', Job.rknpu_gem_object_get p d = Ret tt d' /\ agree d' w' /\ d' = d <| gem_objects := gem_objects d' |>.
Proof.
  intros [tasks Ha] Hlive H. unfold Gem.rknpu_gem_object_get in H.
  destruct (gem_objs w !! p) as [o|] eqn:Ho; [|done]. specialize (Hlive o eq_refl). injection H as <-.
  assert (Hv : gem_objects d !! p = Some (job_object (tasks p) o)).
  { rewrite Ha, live_view_lookup, Ho. cbn. by rewrite (proj2 (Z.eqb_neq _ _)) by lia. }
  unfold Job.rknpu_gem_object_get, get_object, set_object, bind, gets, modify, lookup_or, ret. rewrite Hv.
  eexists. split; [done|]. split; [|done]. exists tasks. cbn. by rewrite live_view_insert, Ha by (cbn; lia).
Qed.

Lemma agree_put (p : Z) (d : rknpu_device) (w w' : gem_world) :
  agree d w -> (forall o, gem_objs w !! p = Some o -> 0 < go_refcount o) ->
  Gem.rknpu_gem_object_put no_gki gd p w = Some w' ->
  exists d', Job.rknpu_gem_object_put p d = Ret tt d' /\ agree d' w' /\ d' = d <| gem_objects := gem_objects d' |>.
Proof.
  intros [tasks Ha] Hlive H. unfold Gem.rknpu_gem_object_put in H.
  destruct (gem_objs w !! p) as [o|] eqn:Ho; [|done]. specialize (Hlive o eq_refl).
  assert (Hv : gem_objects d !! p = Some (job_object (tasks p) o)).
  { rewrite Ha, live_view_lookup, Ho. cbn. by rewrite (proj2 (Z.eqb_neq _ _)) by lia. }
  unfold Job.rknpu_gem_object_put, get_object, set_object, bind, gets, modify, lookup_or, ret. rewrite Hv.
  cbn [o_refcount job_object]. destruct (Z.eqb_spec (go_refcount o) 1) as [H1|H1].
  - apply object_destroy_refs in H as (_ & _ & Hw). eexists. split; [done|]. split; [|done].
    exists tasks. cbn. rewrite (live_view_dead tasks (gem_objs w) (gem_objs w') p (o <| go_refcount := 0 |>)) by done.
    by rewrite Ha.
  - injection H as <-. eexists. split; [done|]. split; [|done]. exists tasks. cbn.
    by rewrite live_view_insert, Ha by (cbn; lia).
Qed.

Lemma agree_lookup (p : Z) (o : rknpu_gem_object) (d : rknpu_device) (w : gem_world) :
  agree d w -> gem_objs w !! p = Some o -> 0 < go_refcount o ->
  exists n, gem_objects d !! p = Some n /\ o_refcount n = go_refcount o.
Proof.
  intros [tasks Ha] Ho Hr. exists (job_object (tasks p) o). split; [|done].
  rewrite Ha, live_view_lookup, Ho. cbn. by rewrite (proj2 (Z.eqb_neq _ _)) by lia.
Qed.
Lemma agree_live (p : Z) (o : rknpu_gem_object) (n : npu_object) (d : rknpu_device) (w : gem_world) :
  agree d w -> gem_objs w !! p = Some o -> gem_objects d !! p = Some n -> go_refcount o <> 0.
Proof.
  intros [tasks Ha] Ho Hn. rewrite Ha, live_view_lookup, Ho in Hn. cbn in Hn.
  by destruct (Z.eqb_spec (go_refcount o) 0).
Qed.

(** ** The system

    The objects with their handles, ranges and other users; the references that
    jobs hold; and the device. *)
Record drm_sys := { dm_objs : gem_sys; dm_jobs : list Z; dm_dev : rknpu_device }.

Inductive drm_step : drm_sys -> drm_sys -> Prop :=
  (** The GEM ioctls, closes and other users; the scheduler sees the result. *)
  | DrmObjects s s' l d d' :
      gem_step no_gki force_contig gd s s' -> agree d' (gs_world s') ->
      d' = d <| gem_objects := gem_objects d' |> ->
      drm_step {| dm_objs := s; dm_jobs := l; dm_dev := d |} {| dm_objs := s'; dm_jobs := l; dm_dev := d' |}
  (** A submission takes its reference, on an address that is an object. *)
  | DrmJobGet p w w' u l d d' :
      Gem.rknpu_gem_object_get p w = Some w' -> Job.rknpu_gem_object_get p d = Ret tt d' ->
      drm_step {| dm_objs := {| gs_world := w; gs_users := u |}; dm_jobs := l; dm_dev := d |}
               {| dm_objs := {| gs_world := w'; gs_users := u |}; dm_jobs := p :: l; dm_dev := d' |}
  (** The free of a job gives it back. *)
  | DrmJobPut p w w' u l1 l2 d d' :
      Gem.rknpu_gem_object_put no_gki gd p w = Some w' -> Job.rknpu_gem_object_put p d = Ret tt d' ->
      drm_step {| dm_objs := {| gs_world := w; gs_users := u |}; dm_jobs := l1 ++ p :: l2; dm_dev := d |}
               {| dm_objs := {| gs_world := w'; gs_users := u |}; dm_jobs := l1 ++ l2; dm_dev := d' |}
  (** Everything else on the device, which may write to the tasks. *)
  | DrmDevice s l d d' :
      agree d' (gs_world s) ->
      drm_step {| dm_objs := s; dm_jobs := l; dm_dev := d |} {| dm_objs := s; dm_jobs := l; dm_dev := d' |}.

Definition drm_start (s : drm_sys) : Prop :=
  gem_start (dm_objs s) /\ dm_jobs s = [] /\ agree (dm_dev s) (gs_world (dm_objs s)).
Definition drm_reach (s : drm_sys) : Prop := exists s0, drm_start s0 /\ rtc drm_step s0 s.

(** Jobs count as users of the objects. *)
Definition with_jobs (s : gem_sys) (l : list Z) : gem_sys :=
  {| gs_world := gs_world s; gs_users := gs_users s ++ l |}.

Lemma gem_step_frame (s s' : gem_sys) (l : list Z) :
  gem_step no_gki force_contig gd s s' -> gem_step no_gki force_contig gd (with_jobs s l) (with_jobs s' l).
Proof.
  intros H. destruct H; unfold with_jobs; cbn [gs_world gs_users app].
  - by eapply StepCreate.
  - by eapply StepDumb.
  - by eapply StepDestroy.
  - by eapply StepFind.
  - rewrite <- !app_assoc. cbn [app]. by eapply StepPut.
  - by eapply StepClose.
Qed.

Record drm_inv (s : drm_sys) : Prop := {
  di_refs : refs_inv (with_jobs (dm_objs s) (dm_jobs s));
  di_agree : agree (dm_dev s) (gs_world (dm_objs s));
}.

(** A user of an object that is counted keeps it alive. *)
Lemma job_object_alive (s : drm_sys) (p : Z) :
  refs_inv (with_jobs (dm_objs s) (dm_jobs s)) -> p ∈ dm_jobs s ->
  exists o, gem_objs (gs_world (dm_objs s)) !! p = Some o /\ count_obj p (dm_jobs s) <= go_refcount o /\
    0 < count_obj p (dm_jobs s).
Proof.
  intros Hr Hp. apply count_elem in Hp.
  pose proof (handles_nonneg p (gem_handles (gs_world (dm_objs s)))).
  pose proof (ranges_nonneg p (gem_ranges (gs_world (dm_objs s)))).
  pose proof (count_obj_nonneg p (gs_users (dm_objs s))).
  destruct (refs_alive _ p Hr) as (o & Ho & Hc); cbn [with_jobs gs_world gs_users] in *;
    rewrite count_app in *; [lia|]. exists o. split; [done | lia].
Qed.

Lemma drm_step_inv (s s' : drm_sys) : drm_inv s -> drm_step s s' -> drm_inv s'.
Proof.
  intros [Hr Ha] H. destruct H as [s s' l d d' Hs Ha' _|p w w' u l d d' Hg Hj|p w w' u l1 l2 d d' Hg Hj|s l d d' Ha'];
    cbn [dm_objs dm_jobs dm_dev gs_world] in *.
  - split; [|done]. by eapply gem_step_inv, gem_step_frame.
  - pose proof Hg as Hg'. apply get_refs in Hg' as (G1 & G2 & [o Ho] & G4). split.
    + intros q. specialize (Hr q). unfold spare in *. cbn [with_jobs gs_world gs_users dm_objs dm_jobs] in *.
      rewrite G1, G2, G4. rewrite count_app, count_cons in *. lia.
    + cbn. unfold Job.rknpu_gem_object_get, get_object, bind, gets, lookup_or, set_object, modify in Hj.
      destruct (agree_get p d w w') as (d2 & E & Ha2 & _); [done | | done |].
      { intros o' Ho'. destruct (gem_objects d !! p) as [n|] eqn:En; [|done].
        pose proof (agree_live p o' n d w Ha Ho' En). specialize (Hr p). unfold spare, refcount_of in Hr.
        cbn [with_jobs gs_world gs_users dm_objs dm_jobs] in Hr. rewrite Ho' in Hr. cbn in Hr.
        pose proof (handles_nonneg p (gem_handles w)). pose proof (ranges_nonneg p (gem_ranges w)).
        pose proof (count_obj_nonneg p (u ++ l)). lia. }
      unfold Job.rknpu_gem_object_get, get_object, bind, gets, lookup_or, set_object, modify in E.
      congruence.
  - destruct (job_object_alive {| dm_objs := {| gs_world := w; gs_users := u |}; dm_jobs := l1 ++ p :: l2;
      dm_dev := d |} p Hr ltac:(set_solver)) as (o & Ho & Hc1 & Hc2). cbn in Ho. split.
    + intros q. specialize (Hr q). apply put_refs in Hg as (G1 & G2 & G4). unfold spare in *.
      cbn [with_jobs gs_world gs_users dm_objs dm_jobs] in *. rewrite G1, G2, G4.
      rewrite !count_app, count_cons in *. lia.
    + cbn. destruct (agree_put p d w w') as (d2 & E & Ha2 & _); [done | | done |].
      { intros o' Ho'. rewrite Ho in Ho'. injection Ho' as <-. cbn in Hc1, Hc2. lia. }
      congruence.
  - by split.
Qed.

Lemma drm_reach_inv (s : drm_sys) : drm_reach s -> drm_inv s.
Proof.
  intros (s0 & ((G1 & G2 & G3 & G4) & Hj & Ha) & Hr).
  assert (H0 : drm_inv s0).
  { split; [|done]. intros p. unfold spare, with_jobs. cbn [gs_world gs_users]. rewrite G1, G2, G3, G4, Hj. done. }
  clear G1 G2 G3 G4 Hj Ha. induction Hr as [s|s1 s2 s3 Hs _ IH]; [done|]. apply IH. by eapply drm_step_inv.
Qed.
End Drm.

(** ** A commit that finds its object *)

Definition wild (f : fault) : Prop := f = WildPointer.

Section FindsObject.
Context (addr : Z) (n : npu_object).
Abbreviation P := (fun d : rknpu_device => gem_objects d !! addr = Some n).

Lemma finds_get_object : keeps wild P (get_object true addr).
Proof.
  intros d H. unfold get_object. apply wp_bind, wp_gets. rewrite H. by apply wp_ret.
Qed.

Lemma finds_get_job_args (p q : Z) : keeps wild P (get_job p) /\ keeps wild P (get_args q).
Proof.
  split; (apply keeps_bind; [apply keeps_gets|]; intros m; apply keeps_lookup_or; by intros [=]).
Qed.

Lemma finds_load_task (i : Z) : keeps wild P (load_task {| tp_gem := true; tp_obj := addr; tp_index := i |}).
Proof.
  apply keeps_bind; [apply finds_get_object|]. intros o.
  destruct (o_kv_addr o); [|by apply keeps_throw]. case_bool; [by apply keeps_throw|].
  by apply keeps_lookup_or.
Qed.

Lemma finds_mod_job (p : Z) (f : rknpu_job -> rknpu_job) : keeps wild P (mod_job p f).
Proof. apply keeps_bind; [apply finds_get_job_args; exact 0|]. intros j. by apply keeps_modify. Qed.

Lemma finds_writel (v : Z) (b : io_base) (off : Z) : keeps wild P (writel v b off).
Proof. by apply keeps_writel. Qed.

(** One step through a commit. *)
Ltac finds_step :=
  match goal with
  | |- keeps _ _ (bind _ _) => apply keeps_bind; [|intros]
  | |- keeps _ _ (ret _) => apply keeps_ret
  | |- keeps _ _ (gets _) => apply keeps_gets
  | |- keeps _ _ (when _ _) => apply keeps_when
  | |- keeps _ _ (set_ret _ _) => unfold set_ret
  | |- keeps _ _ (mod_job _ _) => apply finds_mod_job
  | |- keeps _ _ (REG_WRITE _ _ _) => apply finds_writel
  | |- keeps _ _ (load_task _) => apply finds_load_task
  | |- keeps _ _ (get_object _ _) => apply finds_get_object
  | |- keeps _ _ (if ?b then _ else _) => destruct b
  | |- keeps _ _ (let '(_, _) := ?x in _) => destruct x
  end.

Lemma commit_finds (p core : Z) (j : rknpu_job) (a : rknpu_submit) (d : rknpu_device) :
  jobs d !! p = Some j -> args_mem d !! j_args j = Some a -> j_use_drm_gem j = true ->
  a_task_obj_addr a = addr -> P d -> wp wild (rknpu_job_subcore_commit_pc p core) (fun _ _ => True) d.
Proof.
  intros Hj Ha Hg Hobj HP. unfold rknpu_job_subcore_commit_pc.
  apply wp_bind, (wp_get_job p j); [done|]. apply wp_bind, (wp_get_args (j_args j) a); [done|]. rewrite Hg, Hobj.
  match goal with |- wp _ ?m _ _ => assert (Hk : keeps wild P m) end.
  2:{ eapply wp_mono; [by apply Hk | done]. }
  clear Hj Ha Hg Hobj HP d. repeat finds_step.
Qed.
End FindsObject.


(** *** An object that is destroyed while a job uses it

    File 7 creates an object, a job takes its reference, and the file destroys
    its handle. *)

Definition example_tasks (p : Z) : list rknpu_task := replicate 12 (example_task 0x300).
Definition example_drm_dev (m : gmap Z rknpu_gem_object) : rknpu_device :=
  (example_job_dev rk356x_rknpu_config RKNPU_JOB_PC 1 3)
    <| args_mem := {[ 20 := (example_args RKNPU_JOB_PC 1 3) <| a_task_obj_addr := 10 |> ]} |>
    <| gem_objects := live_view example_tasks m |>.
Definition example_used : gem_world :=
  default example_gem_world (Gem.rknpu_gem_object_get 10 (gs_world example_created)).
Definition example_unhandled : gem_world :=
  match rknpu_gem_destroy_ioctl (iommu := iommu_domain_stub) false example_gem_device 7 1 example_used with
  | Some (_, w) => w
  | None => example_gem_world
  end.
Definition example_drm : drm_sys :=
  {| dm_objs := {| gs_world := example_unhandled; gs_users := [] |}; dm_jobs := [10];
     dm_dev := example_drm_dev (gem_objs example_unhandled) |}.

Lemma example_agree (w : gem_world) : agree (example_drm_dev (gem_objs w)) w.
Proof. by exists example_tasks. Qed.

Lemma example_drm_reach :
  drm_reach (iommu := iommu_domain_stub) false true example_gem_device example_drm.
Proof.
  exists {| dm_objs := {| gs_world := example_gem_world; gs_users := [] |}; dm_jobs := [];
            dm_dev := example_drm_dev ∅ |}.
  split; [split; [done|]; split; [done | by exists example_tasks]|].
  eapply rtc_l; [by eapply DrmObjects; [apply example_gem_step | apply example_agree | ]|].
  assert (Hg : Gem.rknpu_gem_object_get 10 (gs_world example_created) = Some example_used).
  { unfold example_used. destruct (Gem.rknpu_gem_object_get 10 (gs_world example_created)) eqn:E; [done|].
    exfalso. assert (bool_decide (is_Some (Gem.rknpu_gem_object_get 10 (gs_world example_created))) = true) as H
      by (vm_compute; reflexivity). rewrite E in H. done. }
  destruct (agree_get 10 (example_drm_dev (gem_objs (gs_world example_created))) (gs_world example_created)
    example_used) as (d & Hj & Ha & Hd); [apply example_agree | | done |].
  { intros o Ho. assert (match gem_objs (gs_world example_created) !! 10 with Some o => 0 <? go_refcount o | None => true end
      = true) as H by (vm_compute; reflexivity). rewrite Ho in H. by apply Z.ltb_lt. }
  eapply rtc_l; [exact (DrmJobGet (iommu := iommu_domain_stub) false true example_gem_device 10
    (gs_world example_created) example_used [] [] _ d Hg Hj)|].
  apply rtc_once. unfold example_drm.
  destruct (rknpu_gem_destroy_ioctl (iommu := iommu_domain_stub) false example_gem_device 7 1 example_used)
    as [[ret w]|] eqn:E.
  - assert (example_unhandled = w) as -> by (unfold example_unhandled; by rewrite E).
    eapply DrmObjects; [by eapply StepDestroy | apply example_agree | by rewrite Hd].
  - exfalso. assert (bool_decide (is_Some (rknpu_gem_destroy_ioctl (iommu := iommu_domain_stub) false
      example_gem_device 7 1 example_used)) = true) as H by (vm_compute; reflexivity). by rewrite E in H.
Qed.

