(* ===== verification/Probe.v ===== *)
(** * Probe, remove and system sleep (rknpu_drv.c)

    The order in which rknpu_probe takes resources and in which its error paths
    and rknpu_remove give them back.  Memory, mappings, clocks and interrupts
    from the devm functions are released by the driver core and not counted; the
    reset lines and the reset at the end of probe are those of Reset, and probe
    ignores their results. *)

From S2P Require Import Prelude Ledger Config Fence Mm Power.

(** ** Data *)

Inductive probe_resource :=
  | IommuGroup | ReservedMem
  | DrmDevice | DrmRegistered | FakeDevice
  | MiscDevice
  | RuntimePm                      (* pm_runtime_enable *)
  | Genpd (core : Z)
  | DevfreqCooling
  | PowerOffWq
  | SramMm
  | CacheSgt (i : Z)
  | DebuggerNodes | DebugfsRoot    (* the directory, or its dentry, that rknpu_debugfs_ctrl_init got *)
  | LoadTimer.
#[export] Instance probe_resource_eq : EqDecision probe_resource.
Proof. solve_decision. Defined.

(** What platform_device_register_full returns. *)
Inductive device_ptr := DevicePtr | DeviceErrPtr (e : Z).

(** What the kernel and the device tree answer, in the order of the questions. *)
Record probe_answer := {
  an_of_node : bool;                       (* pdev->dev.of_node *)
  an_match : option soc;                   (* of_match_device *)
  an_kzalloc : bool;
  an_match_data : bool;                    (* of_device_get_match_data *)
  an_cores : bool;                         (* the nvmem cell "cores" *)
  an_dma_mask : Z;
  an_iommus : option bool;                 (* the node "iommus", and whether it is available *)
  an_iommu_group : bool;
  an_reserved : Z;                         (* of_reserved_mem_device_init *)
  an_num_clks : Z;
  an_vdd : Z; an_mem : Z;                  (* 0, or the error of devm_regulator_get_optional *)
  an_resource : Z -> option Z;             (* the start of a register range *)
  an_ioremap : Z -> bool;
  an_ioremap_resource : Z -> Z;            (* 0 or an error *)
  an_irq_byname : Z -> Z; an_irq : Z -> Z; an_request_irq : Z -> Z;
  an_drm_alloc : Z;                        (* 0 or an error *)
  an_drm_register : Z;
  an_fake : device_ptr;
  an_of_dma : Z;                           (* of_dma_configure *)
  an_misc : Z;
  an_fence : bool;                         (* the kzalloc of rknpu_fence_context_alloc *)
  an_context : Z;                          (* dma_fence_context_alloc *)
  an_power_domains : Z;                    (* of_count_phandle_with_args *)
  an_attach : Z -> bool;                   (* dev_pm_domain_attach_by_name *)
  an_power_on : on_answer;
  an_cooling : bool;                       (* rknpu_devfreq_init registered a cooling device *)
  an_wq : bool;
  an_sram : option (Z * Z * Z);            (* of_address_to_resource, start and size of "rockchip,sram" *)
  an_mm_kzalloc : bool; an_mm_kcalloc : bool;
  an_sgt_kzalloc : Z -> bool; an_sgt_alloc : Z -> Z;
  an_power_off : Z;                        (* the poll of rknpu_power_off *)
  an_lookup : bool; an_create_dir : bool   (* debugfs_lookup and debugfs_create_dir *)
}.

(** What probe stores in struct rknpu_device, and what it holds. *)
Record probe_state := {
  pr_held : ledger probe_resource;
  pr_iommu_en : bool;
  pr_config : rknpu_config;
  pr_fence_ctx : option rknpu_fence_context;
  pr_fake_dev : bool;
  pr_layout : power_layout;
  pr_power : power_state;
  pr_cooling : bool;
  pr_sram_start : Z; pr_sram_size : Z;
  pr_sram_mm : option rknpu_mm;
  pr_cache_sgt : list (option (list sg_block)) }.
#[export] Instance probe_state_settable : Settable probe_state := {| settable := fun s =>
  Build_probe_state (pr_held s) (pr_iommu_en s) (pr_config s) (pr_fence_ctx s) (pr_fake_dev s) (pr_layout s) (pr_power s)
    (pr_cooling s) (pr_sram_start s) (pr_sram_size s) (pr_sram_mm s) (pr_cache_sgt s) |}.

Definition take (r : probe_resource) (s : probe_state) : probe_state := s <| pr_held ::= acquire r |>.
Definition give (r : probe_resource) (s : probe_state) : probe_state := s <| pr_held ::= release r |>.

(** ** Helpers of probe *)

Definition rknpu_is_iommu_enable (ans : probe_answer) : bool :=
  match an_iommus ans with None => false | Some available => available end.

(** The checks up to dma_set_mask_and_coherent: an error, or the SoC. *)
Definition probe_start (ans : probe_answer) : Z + soc :=
  if negb (an_of_node ans) then inl (-ENODEV)
  else
    match an_match ans with
    | None => inl (-ENODEV)
    | Some m =>
        if negb (an_kzalloc ans) then inl (-ENOMEM)
        else if negb (an_match_data ans) then inl (-EINVAL)
        else
          match probe_config (Some m) (an_cores ans) with
          | inl e => inl e
          | inr c => if negb (an_dma_mask ans =? 0) then inl (an_dma_mask ans) else inr c
          end
    end.

(** devm_regulator_get_optional: -ENODEV means that there is none. *)
Definition regulator_error (ret : Z) : Z :=
  if negb (ret =? 0) && negb (ret =? -ENODEV) then ret else 0.

(** The loop over the register ranges of the cores from [i] on. *)
Fixpoint probe_registers (ans : probe_answer) (n : nat) (i : Z) : Z :=
  match n with
  | O => 0
  | S n =>
      match an_resource ans i with
      | None => -ENXIO
      | Some start =>
          let ok :=
            if start =? 0xfde40000 then an_ioremap ans i
            else if an_ioremap_resource ans i =? -EBUSY then an_ioremap ans i
            else an_ioremap_resource ans i =? 0 in
          if negb ok then -ENOMEM else probe_registers ans n (i + 1)
      end
  end.

(** The branch for the kernels from 6.1 on. *)
Fixpoint register_irq_from (ans : probe_answer) (n : nat) (i : Z) : Z :=
  match n with
  | O => 0
  | S n =>
      let irq := if an_irq_byname ans i <? 0 then an_irq ans i else an_irq_byname ans i in
      if irq <? 0 then irq
      else if an_request_irq ans i <? 0 then an_request_irq ans i
      else register_irq_from ans n (i + 1)
  end.
Definition rknpu_register_irq (ans : probe_answer) (c : rknpu_config) : Z :=
  register_irq_from ans (Z.to_nat (num_irqs c)) 0.

(** [None]: of_dma_configure is called on an error pointer. *)
Definition drm_fake_dev_register (ans : probe_answer) (s : probe_state) : option (Z * probe_state) :=
  match an_fake ans with
  | DeviceErrPtr _ => None
  | DevicePtr =>
      let s := take FakeDevice s in
      if negb (an_of_dma ans =? 0) then Some (an_of_dma ans, (give FakeDevice s) <| pr_fake_dev := false |>)
      else Some (0, s <| pr_fake_dev := true |>)
  end.

Definition drm_fake_dev_unregister (s : probe_state) : probe_state :=
  if negb (pr_fake_dev s) then s else give FakeDevice s.

Definition rknpu_drm_probe (ans : probe_answer) (s : probe_state) : option (Z * probe_state) :=
  if negb (an_drm_alloc ans =? 0) then Some (an_drm_alloc ans, s)
  else
    let s := take DrmDevice s in
    if an_drm_register ans <? 0 then Some (an_drm_register ans, give DrmDevice s)
    else option_map (fun r => (0, r.2)) (drm_fake_dev_register ans (take DrmRegistered s)).

Definition rknpu_drm_remove (s : probe_state) : probe_state :=
  give DrmDevice (give DrmRegistered (drm_fake_dev_unregister s)).

(** The result, and start and size of the usable SRAM; the size is 32 bits wide. *)
Definition rknpu_find_sram_resource (ans : probe_answer) (s : probe_state) : Z * probe_state :=
  let s := s <| pr_sram_size := 0 |> in
  match an_sram ans with
  | None => (-EINVAL, s)
  | Some (ret, start, size) =>
      if negb (ret =? 0) then (ret, s)
      else
        let sram_start := round_up start PAGE_SIZE in
        let sram_end := round_down (start + size) PAGE_SIZE in
        let s := s <| pr_sram_start := sram_start |> in
        if sram_end <=? sram_start then (-EINVAL, s)
        else (0, s <| pr_sram_size := u32 (sram_end - sram_start) |>)
  end.

(** The power domains npu0, npu1 and npu2, when there is more than one. *)
Definition attach_domains (ans : probe_answer) (s : probe_state) : probe_state :=
  if an_power_domains ans <=? 1 then s
  else
    let attached core := an_attach ans core && ((core <? 2) || (2 <? num_irqs (pr_config s))) in
    let attach core s := if attached core then take (Genpd core) s else s in
    (attach 2 (attach 1 (attach 0 s))) <| pr_layout :=
      {| multiple_domains := true;
         genpd_dev_npu := fun core => (0 <=? core) && (core <? 3) && attached core;
         has_state_init := has_state_init (pr_layout s) |} |>.

(** rknpu_devfreq_init and rknpu_devfreq_remove, for what is not devm. *)
Definition devfreq_start (ans : probe_answer) (s : probe_state) : probe_state :=
  if an_cooling ans then (take DevfreqCooling s) <| pr_cooling := true |> else s.
Definition devfreq_stop (s : probe_state) : probe_state :=
  if pr_cooling s then (give DevfreqCooling s) <| pr_cooling := false |> else s.

Definition RKNPU_CACHE_SG_TABLE_NUM : Z := 2.
Definition has_table (tables : list (option (list sg_block))) (i : Z) : bool :=
  match tables !! Z.to_nat i with Some (Some _) => true | _ => false end.
Definition each_table (f : probe_resource -> probe_state -> probe_state)
    (tables : list (option (list sg_block))) (s : probe_state) : probe_state :=
  let one i s := if has_table tables i then f (CacheSgt i) s else s in one 1 (one 0 s).

(** ** rknpu_probe *)

Section Probe.
Context (no_gki : bool).

(** The IOMMU group, or the reserved memory; [true] is the return with -EINVAL. *)
Definition probe_iommu (ans : probe_answer) (s : probe_state) : bool * probe_state :=
  let s := s <| pr_iommu_en := rknpu_is_iommu_enable ans |> in
  if pr_iommu_en s then
    if negb (an_iommu_group ans) then (true, s) else (false, take IommuGroup s)
  else (false, if an_reserved ans =? 0 then take ReservedMem s else s).

(** From the clocks to the DRM device: every failure returns directly. *)
Definition probe_devices (ans : probe_answer) (s : probe_state) : option (Z * probe_state) :=
  if an_num_clks ans <? 1 then Some (-ENODEV, s)
  else if negb (regulator_error (an_vdd ans) =? 0) then Some (an_vdd ans, s)
  else if negb (regulator_error (an_mem ans) =? 0) then Some (an_mem ans, s)
  else
    let ret := probe_registers ans (Z.to_nat (num_irqs (pr_config s))) 0 in
    if negb (ret =? 0) then Some (ret, s)
    else
      let ret := rknpu_register_irq ans (pr_config s) in
      if negb (ret =? 0) then Some (ret, s) else rknpu_drm_probe ans s.

Definition err_remove_drv (s : probe_state) : probe_state := give MiscDevice (rknpu_drm_remove s).
Definition err_devfreq_remove (s : probe_state) : probe_state := err_remove_drv (devfreq_stop s).
Definition err_remove_wq (s : probe_state) : probe_state := err_devfreq_remove (give PowerOffWq s).

(** The SRAM allocator; an error of rknpu_mm_create ends probe. *)
Definition probe_sram (ans : probe_answer) (s : probe_state) : Z * probe_state :=
  if pr_iommu_en s then
    let '(ret, s) := rknpu_find_sram_resource ans s in
    if negb (ret =? 0) then (0, s)
    else
      let '(ret, slot, _) := rknpu_mm_create (an_mm_kzalloc ans) (an_mm_kcalloc ans) (pr_sram_size s) PAGE_SIZE in
      (ret, match slot with
            | SlotMm mm => take SramMm s <| pr_sram_mm := Some mm |>
            | SlotNull => s <| pr_sram_mm := None |>
            | SlotUntouched => s
            end)
  else (0, s).

Definition probe_nbuf (ans : probe_answer) (s : probe_state) : probe_state :=
  if no_gki && pr_iommu_en s && (0 <? cfg_nbuf_size (pr_config s)) then
    match cache_sgt_init (pr_config s) with
    | Some _ =>
        let '(_, tables) := rk3576_cache_sgt_init (an_sgt_kzalloc ans) (an_sgt_alloc ans)
                              (num_irqs (pr_config s)) (pr_cache_sgt s) in
        each_table take tables (s <| pr_cache_sgt := tables |>)
    | None => s
    end
  else s.

(** rknpu_debugfs_ctrl_init, as far as the directory: no dentry is put. *)
Definition rknpu_debugfs_ctrl_init (ans : probe_answer) (s : probe_state) : probe_state :=
  if an_lookup ans || an_create_dir ans then take DebugfsRoot s else s.

(** The misc device of the DKMS build: no /dev/rknpu is no error. *)
Definition probe_misc (ans : probe_answer) (s : probe_state) : probe_state :=
  if an_misc ans =? 0 then take MiscDevice s else s.
(** The one of the build with rk-dma-heap, in which [heap] is the answer of
    rk_dma_heap_find; an error ends probe. *)
Definition probe_misc_heap (ans : probe_answer) (heap : bool) (s : probe_state) : Z * probe_state :=
  if negb (an_misc ans =? 0) then (an_misc ans, s)
  else
    let s := take MiscDevice s in
    if negb heap then (-ENOMEM, give MiscDevice s) else (0, s).

Definition probe_fence (ans : probe_answer) (s : probe_state) : Z * probe_state :=
  let '(ret, ctx) := rknpu_fence_context_alloc (an_fence ans) (an_context ans) (pr_fence_ctx s) in
  (ret, s <| pr_fence_ctx := ctx |>).

(** The load timer. *)
Definition rknpu_init_timer (s : probe_state) : probe_state := take LoadTimer s.
Definition rknpu_cancel_timer (s : probe_state) : probe_state := give LoadTimer s.

(** From pm_runtime_enable on. *)
Definition probe_power (ans : probe_answer) (s : probe_state) : Z * probe_state :=
  let s := attach_domains ans (take RuntimePm s) in
  let '(ret, pw) := rknpu_power_on (pr_layout s) (an_power_on ans) (pr_power s) in
  let s := s <| pr_power := pw |> in
  if negb (ret =? 0) then (ret, err_remove_drv s)
  else
    let s := devfreq_start ans s in
    if negb (an_wq ans) then (-ENOMEM, err_devfreq_remove s)
    else
      let '(ret, s) := probe_sram ans (take PowerOffWq s) in
      if negb (ret =? 0) then (ret, err_remove_wq s)
      else
        let s := probe_nbuf ans s in
        let s := s <| pr_power ::= fun pw => (rknpu_power_off (pr_layout s) (an_power_off ans) pw).2 |> in
        let s := s <| pr_power ::= fun pw => pw <| power_refcount := 0 |> <| cmdline_power_refcount := 0 |> |> in
        (0, rknpu_init_timer (rknpu_debugfs_ctrl_init ans (take DebuggerNodes s))).

(** [None]: a bad pointer is dereferenced. *)
Definition rknpu_probe (ans : probe_answer) (s : probe_state) : option (Z * probe_state) :=
  match probe_start ans with
  | inl e => Some (e, s)
  | inr c =>
      let config := config_of c in
      let s := s <| pr_config := config |> <| pr_layout :=
        {| multiple_domains := false; genpd_dev_npu := fun _ => false;
           has_state_init := bool_decide (is_Some (state_init config)) |} |> in
      let '(failed, s) := probe_iommu ans s in
      if failed then Some (-EINVAL, s)
      else
        match probe_devices ans s with
        | None => None
        | Some (ret, s) =>
            if negb (ret =? 0) then Some (ret, s)
            else
              let '(ret, s) := probe_fence ans (probe_misc ans s) in
              if negb (ret =? 0) then Some (ret, err_remove_drv s) else Some (probe_power ans s)
        end
  end.

(** ** rknpu_remove, suspend and resume *)

(** The loop over cache_sgt. *)
Definition free_cache_sgt (s : probe_state) : probe_state :=
  match cache_sgt_init (pr_config s) with
  | Some _ => (each_table give (pr_cache_sgt s) s) <| pr_cache_sgt := [None; None] |>
  | None => s
  end.

(** dev_pm_domain_detach of npu0, npu1 and npu2. *)
Definition detach_domains (s : probe_state) : probe_state :=
  let l := pr_layout s in
  let detach core s := if genpd_dev_npu l core then give (Genpd core) s else s in
  if multiple_domains l then detach 2 (detach 1 (detach 0 s)) else s.

(** [poll] is the answer to a power-off. *)
Definition rknpu_remove (poll : Z) (s : probe_state) : probe_state :=
  let s := s <| pr_power ::= fun pw => pw <| power_off_work := false |> |> in
  let s := free_cache_sgt (rknpu_cancel_timer (give DebuggerNodes (give PowerOffWq s))) in
  let s := match pr_sram_mm s with Some _ => give SramMm s | None => s end in
  let s := if pr_iommu_en s then give IommuGroup s else s in
  let s := devfreq_stop (err_remove_drv s) in
  let s := if 0 <? power_refcount (pr_power s)
           then s <| pr_power ::= fun pw => (rknpu_power_off (pr_layout s) poll pw).2 |> else s in
  give RuntimePm (detach_domains s).

(** [force] is what pm_runtime_force_suspend and _resume return; the result is
    that of the sleep callback, with the power state. *)
Definition rknpu_suspend (l : power_layout) (ans : on_answer) (force : Z) (pw : power_state) : Z * power_state :=
  (force, (rknpu_power_get l ans pw).2).
Definition rknpu_resume (l : power_layout) (polls : list Z) (force : Z) (pw : power_state)
  : option (Z * power_state) :=
  option_map (fun r => (force, r.2)) (rknpu_power_put_delay l polls pw).
End Probe.

(** ** What is kept *)

(** The IOMMU group, or the reserved memory. *)
Definition base_part (ans : probe_answer) : list probe_resource :=
  if rknpu_is_iommu_enable ans then [IommuGroup] else if an_reserved ans =? 0 then [ReservedMem] else [].
Definition domains_part (ans : probe_answer) (c : rknpu_config) : list probe_resource :=
  if an_power_domains ans <=? 1 then []
  else (if an_attach ans 0 then [Genpd 0] else []) ++ (if an_attach ans 1 then [Genpd 1] else []) ++
       (if an_attach ans 2 && (2 <? num_irqs c) then [Genpd 2] else []).
(** misc_deregister of a device that was not registered. *)
Definition misc_gap (ans : probe_answer) (l : ledger probe_resource) : ledger probe_resource :=
  if an_misc ans =? 0 then l else release MiscDevice l.

#[export] Instance misc_gap_proper (ans : probe_answer) : Proper ((≡) ==> (≡)) (misc_gap ans).
Proof. intros l l' H. unfold misc_gap. case_match; by rewrite H. Qed.

(** The state before probe: a device from kzalloc, with whatever is held. *)
Record fresh_probe (s : probe_state) : Prop := {
  fr_fake : pr_fake_dev s = false;
  fr_cooling : pr_cooling s = false;
  fr_mm : pr_sram_mm s = None;
  fr_sgt : pr_cache_sgt s = [None; None];
}.

(** Only the ledger and one of the fields differ. *)
Definition held_step (s s' : probe_state) : Prop := s' = s <| pr_held := pr_held s' |>.

Lemma attach_domains_held (ans : probe_answer) (s : probe_state) :
  pr_held (attach_domains ans s) ≡ acquire_all (domains_part ans (pr_config s)) (pr_held s) /\
  attach_domains ans s = s <| pr_held := pr_held (attach_domains ans s) |>
                           <| pr_layout := pr_layout (attach_domains ans s) |>.
Proof.
  unfold attach_domains, domains_part. destruct (an_power_domains ans <=? 1).
  { split; [done | by destruct s]. }
  destruct (an_attach ans 0), (an_attach ans 1), (an_attach ans 2), (2 <? num_irqs (pr_config s)) eqn:E;
    cbn; rewrite ?E; (split; [ledger | by destruct s]).
Qed.

Lemma detach_domains_held (ans : probe_answer) (s0 s : probe_state) :
  pr_layout (attach_domains ans s0) = pr_layout s -> multiple_domains (pr_layout s0) = false ->
  let l := pr_layout s in
  let detach core s := if genpd_dev_npu l core then give (Genpd core) s else s in
  let s' := if multiple_domains l then detach 2 (detach 1 (detach 0 s)) else s in
  pr_held s' ≡ release_all (domains_part ans (pr_config s0)) (pr_held s) /\ held_step s s'.
Proof.
  intros Hl Hm. cbn zeta. rewrite <- Hl. unfold attach_domains, domains_part.
  destruct (an_power_domains ans <=? 1); [rewrite Hm; split; [done | by destruct s]|].
  destruct (an_attach ans 0) eqn:E0, (an_attach ans 1) eqn:E1, (an_attach ans 2) eqn:E2,
    (2 <? num_irqs (pr_config s0)) eqn:E; cbn; rewrite ?E0, ?E1, ?E2, ?E; cbn; (split; [ledger | by destruct s]).
Qed.

Lemma drm_remove_probe (ans : probe_answer) (s s' : probe_state) :
  pr_fake_dev s = false -> rknpu_drm_probe ans s = Some (0, s') ->
  exists b, s' = s <| pr_held := pr_held s' |> <| pr_fake_dev := b |> /\
    pr_held s' ≡ acquire_all ((if b then [FakeDevice] else []) ++ [DrmRegistered; DrmDevice]) (pr_held s).
Proof.
  intros Hf H. unfold rknpu_drm_probe, drm_fake_dev_register in H.
  destruct (Z.eqb_spec (an_drm_alloc ans) 0); cbn [negb] in H; [|congruence].
  destruct (Z.ltb_spec (an_drm_register ans) 0); [injection H; lia|].
  destruct (an_fake ans); [|done]. destruct (negb _); cbn in H; injection H as <-.
  - exists false. split; [by destruct s | cbn; ledger].
  - exists true. split; [by destruct s | cbn; ledger].
Qed.

(** A failure among the devices gives back what it took. *)
Lemma devices_failed (ans : probe_answer) (s s' : probe_state) (ret : Z) :
  ret <> 0 -> probe_devices ans s = Some (ret, s') -> pr_held s' ≡ pr_held s.
Proof.
  intros Hr H. unfold probe_devices in H.
  repeat (match type of H with context [if ?b then Some _ else _] => destruct b; [by injection H as _ <-|] end).
  unfold rknpu_drm_probe in H. destruct (negb _); [by injection H as _ <-|].
  destruct (an_drm_register ans <? 0); [injection H as _ <-; cbn; by rewrite release_acquire|].
  destruct (drm_fake_dev_register _ _) as [r|]; [|done]. injection H as <- _. done.
Qed.

Lemma devices_done (ans : probe_answer) (s s' : probe_state) :
  probe_devices ans s = Some (0, s') -> rknpu_drm_probe ans s = Some (0, s').
Proof.
  intros H. unfold probe_devices in H. destruct (an_num_clks ans <? 1); [done|].
  assert (Hreg : forall v, negb (regulator_error v =? 0) = true -> v <> 0) by (intros v Hv ->; done).
  destruct (negb (regulator_error (an_vdd ans) =? 0)) eqn:E1; [injection H as H _; by apply Hreg in E1|].
  destruct (negb (regulator_error (an_mem ans) =? 0)) eqn:E2; [injection H as H _; by apply Hreg in E2|].
  destruct (Z.eqb_spec (probe_registers ans (Z.to_nat (num_irqs (pr_config s))) 0) 0); cbn [negb] in H; [|congruence].
  destruct (Z.eqb_spec (rknpu_register_irq ans (pr_config s)) 0); cbn [negb] in H; [done | congruence].
Qed.

Lemma err_remove_drv_eq (s : probe_state) :
  err_remove_drv s = s <| pr_held := release_all ([MiscDevice; DrmDevice; DrmRegistered] ++
                             if pr_fake_dev s then [FakeDevice] else []) (pr_held s) |>.
Proof.
  unfold err_remove_drv, rknpu_drm_remove, drm_fake_dev_unregister. by destruct s as [? ? ? ? []].
Qed.

Lemma devfreq_start_held (ans : probe_answer) (s : probe_state) :
  devfreq_start ans s = s <| pr_held := acquire_all (if an_cooling ans then [DevfreqCooling] else []) (pr_held s) |>
                          <| pr_cooling := an_cooling ans || pr_cooling s |>.
Proof. unfold devfreq_start. destruct (an_cooling ans); by destruct s. Qed.
Lemma devfreq_stop_held (s : probe_state) :
  devfreq_stop s = s <| pr_held := release_all (if pr_cooling s then [DevfreqCooling] else []) (pr_held s) |>
                     <| pr_cooling := false |>.
Proof. unfold devfreq_stop. destruct s as [? ? ? ? ? ? ? []]; done. Qed.

(** What every later step of probe leaves alone. *)
Record kept_fields (s s' : probe_state) : Prop := {
  kf_fake : pr_fake_dev s' = pr_fake_dev s;
  kf_iommu : pr_iommu_en s' = pr_iommu_en s;
  kf_config : pr_config s' = pr_config s;
  kf_layout : pr_layout s' = pr_layout s;
}.
#[export] Instance kept_fields_preorder : PreOrder kept_fields.
Proof. split; [by split|]. intros s1 s2 s3 [] []. split; congruence. Qed.

Definition sram_part (s : probe_state) : list probe_resource :=
  match pr_sram_mm s with Some _ => [SramMm] | None => [] end.

Lemma probe_sram_held (ans : probe_answer) (s s' : probe_state) (ret : Z) :
  pr_sram_mm s = None -> probe_sram ans s = (ret, s') ->
  pr_held s' ≡ acquire_all (sram_part s') (pr_held s) /\ kept_fields s s' /\
  pr_power s' = pr_power s /\ pr_cooling s' = pr_cooling s /\ pr_cache_sgt s' = pr_cache_sgt s.
Proof.
  intros Hmm H. unfold probe_sram in H.
  assert (Hsame : forall s1, pr_sram_mm s1 = None -> acquire_all (sram_part s1) (pr_held s1) = pr_held s1)
    by (intros s1 E; unfold sram_part; by rewrite E).
  destruct (pr_iommu_en s) eqn:Ei; [|by injection H as <- <-; rewrite Hsame].
  destruct (rknpu_find_sram_resource ans s) as [r s1] eqn:Ef.
  assert (H1 : pr_held s1 = pr_held s /\ pr_sram_mm s1 = None /\ kept_fields s s1 /\
    pr_power s1 = pr_power s /\ pr_cooling s1 = pr_cooling s /\ pr_cache_sgt s1 = pr_cache_sgt s).
  { unfold rknpu_find_sram_resource in Ef. repeat case_match; by simplify_eq/=. }
  destruct H1 as (F1 & F2 & F3 & F4 & F5 & F6).
  destruct (negb (r =? 0)); [injection H as _ <-; rewrite <- F1, Hsame by done; done|].
  destruct (rknpu_mm_create _ _ _ _) as [[r2 slot] fr]. injection H as _ <-. unfold sram_part.
  destruct F3 as [G1 G2 G3 G4]. destruct slot; cbn; rewrite ?F1, ?F2; done.
Qed.

(** The tables of the NBUF. *)
Definition tables_part (s : probe_state) : list probe_resource :=
  (if has_table (pr_cache_sgt s) 1 then [CacheSgt 1] else []) ++
  (if has_table (pr_cache_sgt s) 0 then [CacheSgt 0] else []).

Lemma take_tables (s : probe_state) :
  each_table take (pr_cache_sgt s) s = s <| pr_held := acquire_all (tables_part s) (pr_held s) |>.
Proof. unfold each_table, tables_part. destruct (has_table _ 0), (has_table _ 1); by destruct s. Qed.
Lemma give_tables (s : probe_state) :
  each_table give (pr_cache_sgt s) s = s <| pr_held := release_all (tables_part s) (pr_held s) |>.
Proof. unfold each_table, tables_part. destruct (has_table _ 0), (has_table _ 1); by destruct s. Qed.

Lemma probe_nbuf_held (no_gki : bool) (ans : probe_answer) (s : probe_state) :
  pr_cache_sgt s = [None; None] ->
  let s' := probe_nbuf no_gki ans s in
  pr_held s' ≡ acquire_all (tables_part s') (pr_held s) /\ kept_fields s s' /\ pr_power s' = pr_power s /\
  pr_cooling s' = pr_cooling s /\ pr_sram_mm s' = pr_sram_mm s /\
  (cache_sgt_init (pr_config s) = None -> tables_part s' = []).
Proof.
  intros Ht. unfold probe_nbuf, tables_part. cbn zeta. destruct (no_gki && _ && _); [|by rewrite Ht].
  destruct (cache_sgt_init (pr_config s)); [|by rewrite Ht].
  destruct (rk3576_cache_sgt_init _ _ _ _) as [r tables]. set (s1 := s <| pr_cache_sgt := tables |>).
  change tables with (pr_cache_sgt s1). rewrite take_tables. by repeat split.
Qed.

(** The DRM device and the misc device are in place; [l] is the rest. *)
Record devices_up (ans : probe_answer) (l : ledger probe_resource) (s : probe_state) : Prop := {
  du_held : pr_held s ≡
    acquire_all ((if pr_fake_dev s then [FakeDevice] else []) ++ [DrmRegistered; DrmDevice])
      (if an_misc ans =? 0 then acquire MiscDevice l else l);
  du_cooling : pr_cooling s = false;
  du_mm : pr_sram_mm s = None;
  du_sgt : pr_cache_sgt s = [None; None];
  du_domains : multiple_domains (pr_layout s) = false;
}.

Definition cooling_part (ans : probe_answer) : list probe_resource :=
  if an_cooling ans then [DevfreqCooling] else [].
Definition root_part (ans : probe_answer) : list probe_resource :=
  if an_lookup ans || an_create_dir ans then [DebugfsRoot] else [].

(** Where rknpu_probe is after rknpu_power_on, from the state [s] before it. *)
Record powered (ans : probe_answer) (l : ledger probe_resource) (s s' : probe_state) : Prop := {
  po_held : pr_held s' ≡ acquire_all (domains_part ans (pr_config s) ++ [RuntimePm]) (pr_held s);
  po_fake : pr_fake_dev s' = pr_fake_dev s;
  po_iommu : pr_iommu_en s' = pr_iommu_en s;
  po_config : pr_config s' = pr_config s;
  po_layout : pr_layout s' = pr_layout (attach_domains ans (take RuntimePm s));
  po_rest : pr_cooling s' = false /\ pr_sram_mm s' = None /\ pr_cache_sgt s' = [None; None];
  po_power : pr_power s' = (rknpu_power_on (pr_layout s') (an_power_on ans) (pr_power s)).2;
}.

Lemma probe_powered (ans : probe_answer) (l : ledger probe_resource) (s : probe_state) :
  devices_up ans l s ->
  let s1 := attach_domains ans (take RuntimePm s) in
  powered ans l s (s1 <| pr_power := (rknpu_power_on (pr_layout s1) (an_power_on ans) (pr_power s1)).2 |>).
Proof.
  intros [U1 U2 U3 U4 U5]. destruct (attach_domains_held ans (take RuntimePm s)) as [A1 A2]. cbn zeta.
  set (s1 := attach_domains ans (take RuntimePm s)) in *.
  assert (El : pr_layout s1 = pr_layout (attach_domains ans (take RuntimePm s))) by done. clearbody s1.
  assert (E : pr_fake_dev s1 = pr_fake_dev s /\ pr_iommu_en s1 = pr_iommu_en s /\ pr_config s1 = pr_config s /\
    pr_cooling s1 = false /\ pr_sram_mm s1 = None /\ pr_cache_sgt s1 = [None; None] /\ pr_power s1 = pr_power s)
    by (rewrite A2; cbn; done).
  destruct E as (E1 & E2 & E3 & E4 & E5 & E6 & E7). rewrite E7. split; cbn; try done.
  - rewrite A1, acquire_all_app. done.
Qed.

(** The labels err_remove_drv and err_devfreq_remove, from a state with [extra]
    held besides; and the fields they leave alone. *)
Lemma err_drv_held (ans : probe_answer) (l : ledger probe_resource) (extra : list probe_resource)
    (s s' : probe_state) :
  devices_up ans l s -> pr_held s' ≡ acquire_all extra (pr_held s) -> pr_fake_dev s' = pr_fake_dev s ->
  pr_held (err_remove_drv s') ≡ misc_gap ans (acquire_all extra l).
Proof.
  intros [U1 _ _ _ _] Hh Hf. rewrite err_remove_drv_eq, Hf. cbn [pr_held set_field]. rewrite Hh, U1.
  unfold misc_gap. destruct (pr_fake_dev s), (an_misc ans =? 0); cbn [app]; ledger_all.
Qed.

Lemma err_devfreq_held (ans : probe_answer) (l : ledger probe_resource) (extra : list probe_resource)
    (s s' s2 : probe_state) :
  devices_up ans l s -> pr_held s' ≡ acquire_all extra (pr_held s) -> pr_fake_dev s' = pr_fake_dev s ->
  pr_held s2 ≡ acquire_all (if an_cooling ans then [DevfreqCooling] else []) (pr_held s') ->
  pr_fake_dev s2 = pr_fake_dev s' -> pr_cooling s2 = an_cooling ans ->
  pr_held (err_devfreq_remove s2) ≡ misc_gap ans (acquire_all extra l).
Proof.
  intros Hu Hh Hf H1 H2 H3. unfold err_devfreq_remove. rewrite devfreq_stop_held, H3.
  apply (err_drv_held ans l extra s); [done | | cbn; congruence]. cbn [pr_held set_field].
  rewrite H1, Hh. destruct (an_cooling ans); ledger_all.
Qed.

Lemma err_drv_fields (s : probe_state) :
  pr_power (err_remove_drv s) = pr_power s /\ pr_layout (err_remove_drv s) = pr_layout s /\
  sram_part (err_remove_drv s) = sram_part s.
Proof. rewrite err_remove_drv_eq. done. Qed.
Lemma err_devfreq_fields (s : probe_state) :
  pr_power (err_devfreq_remove s) = pr_power s /\ pr_layout (err_devfreq_remove s) = pr_layout s /\
  sram_part (err_devfreq_remove s) = sram_part s.
Proof.
  unfold err_devfreq_remove. destruct (err_drv_fields (devfreq_stop s)) as (-> & -> & ->).
  by rewrite devfreq_stop_held.
Qed.

Lemma probe_power_failed (no_gki : bool) (ans : probe_answer) (l : ledger probe_resource)
    (s s' : probe_state) (ret : Z) :
  devices_up ans l s -> ret <> 0 -> probe_power no_gki ans s = (ret, s') ->
  pr_held s' ≡ misc_gap ans (acquire_all (sram_part s' ++ domains_part ans (pr_config s) ++ [RuntimePm]) l) /\
  pr_power s' = (rknpu_power_on (pr_layout s') (an_power_on ans) (pr_power s)).2.
Proof.
  intros Hu Hr H. pose proof (probe_powered ans l s Hu) as Hp. unfold probe_power in H. cbn zeta in Hp.
  destruct (rknpu_power_on _ _ _) as [r pw] eqn:Eon. cbn [snd] in Hp.
  set (s1 := (attach_domains ans (take RuntimePm s)) <| pr_power := pw |>) in *. clearbody s1. clear Eon.
  destruct Hp as [P1 P2 P3 P4 P5 (P6 & P7 & P8) P9].
  assert (Hsram : sram_part s1 = []) by (unfold sram_part; by rewrite P7).
  destruct (Z.eqb_spec r 0) as [->|Hr0]; cbn [negb] in H.
  2:{ injection H as <- <-. destruct (err_drv_fields s1) as (-> & -> & ->). rewrite Hsram.
      split; [by apply (err_drv_held ans l _ s) | done]. }
  rewrite (devfreq_start_held ans s1), P6, orb_false_r in H. set (s2 := s1 <| pr_held := _ |> <| pr_cooling := _ |>) in H.
  destruct (negb (an_wq ans)).
  { injection H as <- <-. destruct (err_devfreq_fields s2) as (-> & -> & ->).
    change (sram_part s2) with (sram_part s1). rewrite Hsram. split; [|done].
    by apply (err_devfreq_held ans l _ s s1). }
  destruct (probe_sram ans (take PowerOffWq s2)) as [r3 s3] eqn:Es.
  apply probe_sram_held in Es as (S1 & [S2 S3 S4 S5] & S6 & S7 & S8); [|exact P7].
  destruct (Z.eqb_spec r3 0) as [->|Hr3]; cbn [negb] in H; [by injection H as <- _|].
  injection H as <- <-. unfold err_remove_wq. set (s4 := give PowerOffWq s3).
  destruct (err_devfreq_fields s4) as (-> & -> & ->). change (sram_part s4) with (sram_part s3).
  change (pr_power s4) with (pr_power s3). change (pr_layout s4) with (pr_layout s3).
  rewrite S6, S5. split; [|done].
  apply (err_devfreq_held ans l _ s (s1 <| pr_held ::= acquire_all (sram_part s3) |>)).
  - done.
  - cbn [pr_held set_field]. rewrite P1. ledger_all.
  - done.
  - cbn [s4 give pr_held set_field]. rewrite S1. cbn [pr_held set_field take s2].
    destruct (an_cooling ans); ledger_all.
  - cbn. by rewrite S2.
  - cbn. by rewrite S7.
Qed.

(** Where a successful probe ends, from the state [s] before pm_runtime_enable. *)
Record probed (ans : probe_answer) (s s' : probe_state) : Prop := {
  pd_held : pr_held s' ≡
    acquire_all ([LoadTimer] ++ root_part ans ++ [DebuggerNodes; PowerOffWq] ++ tables_part s' ++ sram_part s' ++
                 cooling_part ans ++ domains_part ans (pr_config s) ++ [RuntimePm]) (pr_held s);
  pd_fake : pr_fake_dev s' = pr_fake_dev s;
  pd_iommu : pr_iommu_en s' = pr_iommu_en s;
  pd_config : pr_config s' = pr_config s;
  pd_layout : pr_layout s' = pr_layout (attach_domains ans (take RuntimePm s));
  pd_cooling : pr_cooling s' = an_cooling ans;
  pd_tables : cache_sgt_init (pr_config s) = None -> tables_part s' = [];
  pd_power : pr_power s' =
    (rknpu_power_off (pr_layout s') (an_power_off ans)
       (rknpu_power_on (pr_layout s') (an_power_on ans) (pr_power s)).2).2
      <| power_refcount := 0 |> <| cmdline_power_refcount := 0 |>;
}.

Lemma probe_power_done (no_gki : bool) (ans : probe_answer) (l : ledger probe_resource)
    (s s' : probe_state) :
  devices_up ans l s -> probe_power no_gki ans s = (0, s') -> probed ans s s'.
Proof.
  intros Hu H. pose proof (probe_powered ans l s Hu) as Hp. unfold probe_power in H. cbn zeta in Hp.
  destruct (rknpu_power_on _ _ _) as [r pw] eqn:Eon. cbn [snd] in Hp.
  set (s1 := (attach_domains ans (take RuntimePm s)) <| pr_power := pw |>) in *. clearbody s1. clear Eon.
  destruct Hp as [P1 P2 P3 P4 P5 (P6 & P7 & P8) P9].
  destruct (Z.eqb_spec r 0) as [->|Hr0]; cbn [negb] in H; [|injection H; congruence].
  rewrite (devfreq_start_held ans s1), P6, orb_false_r in H. set (s2 := s1 <| pr_held := _ |> <| pr_cooling := _ |>) in H.
  destruct (negb (an_wq ans)); [done|].
  destruct (probe_sram ans (take PowerOffWq s2)) as [r3 s3] eqn:Es.
  apply probe_sram_held in Es as (S1 & [S2 S3 S4 S5] & S6 & S7 & S8); [|exact P7].
  destruct (Z.eqb_spec r3 0) as [->|Hr3]; cbn [negb] in H; [|injection H; congruence].
  destruct (probe_nbuf_held no_gki ans s3) as (N1 & [N2 N3 N4 N5] & N6 & N7 & N8 & N9); [by rewrite S8|].
  set (s4 := probe_nbuf no_gki ans s3) in *. clearbody s4.
  assert (Hroot : forall x, rknpu_debugfs_ctrl_init ans x = x <| pr_held := acquire_all (root_part ans) (pr_held x) |>).
  { intros x. unfold rknpu_debugfs_ctrl_init, root_part. destruct (_ || _); by destruct x. }
  rewrite Hroot in H. injection H as <-.
  split; cbn [pr_fake_dev pr_iommu_en pr_config pr_layout pr_cooling pr_power pr_held set_field take rknpu_init_timer].
  - change (tables_part _) with (tables_part s4) at 1. change (sram_part _) with (sram_part s4) at 1.
    assert (E : sram_part s4 = sram_part s3) by (unfold sram_part; by rewrite N8).
    rewrite E, N1, S1. cbn [pr_held set_field take s2]. rewrite P1. fold (cooling_part ans). ledger_all.
  - by rewrite N2, S2.
  - by rewrite N3, S3.
  - by rewrite N4, S4.
  - by rewrite N5, S5.
  - by rewrite N7, S7.
  - intros Hc. apply N9. rewrite S4. cbn. by rewrite P4.
  - rewrite N5, N6, S5, S6. change (pr_layout (take PowerOffWq s2)) with (pr_layout s1).
    change (pr_power (take PowerOffWq s2)) with (pr_power s1). by rewrite P9.
Qed.

(** The last part of rknpu_remove. *)
Definition detached_part (l : power_layout) : list probe_resource :=
  if multiple_domains l then
    (if genpd_dev_npu l 2 then [Genpd 2] else []) ++ (if genpd_dev_npu l 1 then [Genpd 1] else []) ++
    (if genpd_dev_npu l 0 then [Genpd 0] else [])
  else [].

Lemma detach_eq (s : probe_state) :
  detach_domains s = s <| pr_held := release_all (detached_part (pr_layout s)) (pr_held s) |>.
Proof.
  unfold detach_domains, detached_part. destruct (multiple_domains (pr_layout s)); [|by destruct s].
  destruct (genpd_dev_npu _ 0), (genpd_dev_npu _ 1), (genpd_dev_npu _ 2); by destruct s.
Qed.

Lemma free_cache_sgt_eq (s : probe_state) :
  free_cache_sgt s = s <| pr_held := release_all (match cache_sgt_init (pr_config s) with
                              | Some _ => tables_part s | None => [] end) (pr_held s) |>
    <| pr_cache_sgt := match cache_sgt_init (pr_config s) with Some _ => [None; None] | None => pr_cache_sgt s end |>.
Proof.
  unfold free_cache_sgt. destruct (cache_sgt_init _); [by rewrite give_tables | by destruct s].
Qed.

Lemma detached_attached (ans : probe_answer) (s : probe_state) :
  multiple_domains (pr_layout s) = false ->
  detached_part (pr_layout (attach_domains ans s)) ≡ₚ domains_part ans (pr_config s).
Proof.
  intros Hm. unfold attach_domains, detached_part, domains_part.
  destruct (an_power_domains ans <=? 1); [by rewrite Hm|]. cbn.
  destruct (an_attach ans 0), (an_attach ans 1), (an_attach ans 2), (2 <? num_irqs (pr_config s)); cbn;
    solve_Permutation.
Qed.

Definition removed (s : probe_state) : list probe_resource :=
  [RuntimePm] ++ detached_part (pr_layout s) ++ (if pr_cooling s then [DevfreqCooling] else []) ++
  ([MiscDevice; DrmDevice; DrmRegistered] ++ if pr_fake_dev s then [FakeDevice] else []) ++
  (if pr_iommu_en s then [IommuGroup] else []) ++ sram_part s ++
  (match cache_sgt_init (pr_config s) with Some _ => tables_part s | None => [] end) ++
  [LoadTimer; DebuggerNodes; PowerOffWq].

(** A step of rknpu_remove that gives [rs] back. *)
Record gives (rs : list probe_resource) (s s' : probe_state) : Prop := {
  gv_held : pr_held s' ≡ release_all rs (pr_held s);
  gv_fields : pr_iommu_en s' = pr_iommu_en s /\ pr_config s' = pr_config s /\ pr_fake_dev s' = pr_fake_dev s /\
    pr_layout s' = pr_layout s /\ pr_sram_mm s' = pr_sram_mm s;
}.
Lemma gives_trans (rs rs' : list probe_resource) (s1 s2 s3 : probe_state) :
  gives rs s1 s2 -> gives rs' s2 s3 -> gives (rs' ++ rs) s1 s3.
Proof.
  intros [H1 (F1 & F2 & F3 & F4 & F5)] [H2 (G1 & G2 & G3 & G4 & G5)]. split.
  - rewrite H2, H1. ledger_all.
  - repeat split; congruence.
Qed.

Lemma remove_held (poll : Z) (s : probe_state) :
  pr_held (rknpu_remove poll s) ≡ release_all (removed s) (pr_held s).
Proof.
  unfold rknpu_remove, rknpu_cancel_timer. set (s0 := give LoadTimer _).
  assert (G0 : gives [LoadTimer; DebuggerNodes; PowerOffWq] s s0) by done.
  assert (E0 : tables_part s0 = tables_part s /\ pr_cooling s0 = pr_cooling s) by done.
  clearbody s0. destruct E0 as [E0 E0'].
  assert (G1 : gives (match cache_sgt_init (pr_config s0) with Some _ => tables_part s0 | None => [] end)
    s0 (free_cache_sgt s0)) by (by rewrite free_cache_sgt_eq).
  assert (C1 : pr_cooling (free_cache_sgt s0) = pr_cooling s0) by (by rewrite free_cache_sgt_eq).
  set (s1 := free_cache_sgt s0) in *. clearbody s1.
  pose proof (gives_trans _ _ _ _ _ G0 G1) as H1. clear G1.
  set (s2 := match pr_sram_mm s1 with Some _ => _ | None => _ end).
  assert (G2 : gives (sram_part s1) s1 s2 /\ pr_cooling s2 = pr_cooling s1)
    by (subst s2; unfold sram_part; destruct (pr_sram_mm s1); (split; [split|]; done)).
  clearbody s2. destruct G2 as [G2 C2]. pose proof (gives_trans _ _ _ _ _ H1 G2) as H2. clear G2.
  set (s3 := if pr_iommu_en s2 then _ else _).
  assert (G3 : gives (if pr_iommu_en s2 then [IommuGroup] else []) s2 s3 /\ pr_cooling s3 = pr_cooling s2)
    by (subst s3; destruct (pr_iommu_en s2); (split; [split|]; done)).
  clearbody s3. destruct G3 as [G3 C3]. pose proof (gives_trans _ _ _ _ _ H2 G3) as H3. clear G3.
  rewrite err_remove_drv_eq, devfreq_stop_held. set (s4 := _ <| pr_cooling := false |>).
  assert (G4 : gives ((if pr_cooling s3 then [DevfreqCooling] else []) ++
    ([MiscDevice; DrmDevice; DrmRegistered] ++ if pr_fake_dev s3 then [FakeDevice] else [])) s3 s4).
  { split; [|done]. subst s4. cbn [pr_held set_field pr_cooling]. ledger_all. }
  clearbody s4. pose proof (gives_trans _ _ _ _ _ H3 G4) as H4. clear G4.
  set (s5 := if 0 <? power_refcount (pr_power s4) then _ else s4).
  assert (G5 : gives [] s4 s5) by (subst s5; destruct (0 <? power_refcount (pr_power s4)); (split; done)).
  clearbody s5. pose proof (gives_trans _ _ _ _ _ H4 G5) as H5. clear G5.
  rewrite detach_eq. cbn [give pr_held set_field].
  destruct G0 as [_ (A1 & A2 & A3 & A4 & A5)], H1 as [_ (B1 & B2 & B3 & B4 & B5)],
    H2 as [_ (D1 & D2 & D3 & D4 & D5)], H3 as [_ (I1 & I2 & I3 & I4 & I5)],
    H5 as [Hh (J1 & J2 & J3 & J4 & J5)].
  unfold removed. rewrite Hh, J4, D1, I3, A2, E0, C3, C2, C1, E0'. cbn [app].
  replace (sram_part s1) with (sram_part s) by (unfold sram_part; by rewrite B5). ledger_all.
Qed.

(** The first half of rknpu_probe. *)
Lemma probe_iommu_held (ans : probe_answer) (s s' : probe_state) :
  probe_iommu ans s = (false, s') ->
  pr_held s' ≡ acquire_all (base_part ans) (pr_held s) /\ pr_iommu_en s' = rknpu_is_iommu_enable ans /\
  pr_config s' = pr_config s /\ pr_layout s' = pr_layout s /\ pr_power s' = pr_power s /\
  (fresh_probe s -> fresh_probe s').
Proof.
  unfold probe_iommu, base_part. cbn [pr_iommu_en set_field]. intros H.
  destruct (rknpu_is_iommu_enable ans).
  - destruct (negb _); [done|]. injection H as <-. repeat (split; [done|]). intros []. by split.
  - injection H as <-. destruct (an_reserved ans =? 0); (repeat (split; [done|]); intros []; by split).
Qed.

Lemma probe_devices_up (ans : probe_answer) (s s' : probe_state) :
  fresh_probe s -> multiple_domains (pr_layout s) = false -> probe_devices ans s = Some (0, s') ->
  let s1 := (probe_fence ans (probe_misc ans s')).2 in
  devices_up ans (pr_held s) s1 /\ pr_iommu_en s1 = pr_iommu_en s /\ pr_config s1 = pr_config s /\
  pr_layout s1 = pr_layout s /\ pr_power s1 = pr_power s.
Proof.
  intros [F1 F2 F3 F4] Hm H. apply devices_done, drm_remove_probe in H as (b & E & Hh); [|done].
  assert (Hf : pr_fake_dev s' = b) by (rewrite E; done).
  assert (K : pr_cooling s' = false /\ pr_sram_mm s' = None /\ pr_cache_sgt s' = [None; None] /\
    pr_layout s' = pr_layout s /\ pr_iommu_en s' = pr_iommu_en s /\ pr_config s' = pr_config s /\
    pr_power s' = pr_power s) by (rewrite E; done).
  destruct K as (K1 & K2 & K3 & K4 & K5 & K6 & K7). clear E.
  unfold probe_fence, rknpu_fence_context_alloc, probe_misc.
  destruct (an_fence ans), (an_misc ans =? 0) eqn:Em; cbn zeta;
    (split; [split; cbn; rewrite ?Em, ?Hf, ?K4; try done|done]);
    rewrite Hh; destruct b; cbn; ledger.
Qed.

Lemma probe_fence_ret (ans : probe_answer) (s : probe_state) :
  (probe_fence ans s).1 = if an_fence ans then 0 else -ENOMEM.
Proof. unfold probe_fence, rknpu_fence_context_alloc. by destruct (an_fence ans). Qed.

(** The build with rk-dma-heap leaves its misc device on none of its errors; but
    rknpu_probe returns from there without removing the DRM device. *)
Lemma misc_heap_failure_keeps_drm (ans : probe_answer) (heap : bool) (s s' : probe_state) (ret : Z) :
  probe_misc_heap ans heap s = (ret, s') -> ret <> 0 -> pr_held s' ≡ pr_held s.
Proof.
  unfold probe_misc_heap. destruct (negb _); [by intros [= _ <-]|].
  destruct (negb heap); intros [= <- <-] Hr; [|done]. cbn. ledger.
Qed.


(** A successful probe, as a whole. *)
Lemma probe_success (no_gki : bool) (ans : probe_answer) (s s' : probe_state) :
  fresh_probe s -> rknpu_probe no_gki ans s = Some (0, s') ->
  exists s4, devices_up ans (acquire_all (base_part ans) (pr_held s)) s4 /\ probed ans s4 s' /\
    pr_iommu_en s4 = rknpu_is_iommu_enable ans /\ pr_power s4 = pr_power s.
Proof.
  intros Hf H. unfold rknpu_probe in H. destruct (probe_start ans) as [e|c] eqn:Es.
  { injection H as -> _. unfold probe_start, probe_config in Es.
    destruct (negb (an_of_node ans)); [done|]. destruct (an_match ans); [|done].
    destruct (negb (an_kzalloc ans)); [done|]. destruct (negb (an_match_data ans)); [done|].
    destruct (Z.eqb_spec (an_dma_mask ans) 0); repeat (case_match; simplify_eq/=). }
  set (s1 := s <| pr_config := config_of c |> <| pr_layout := _ |>) in H.
  assert (Hf1 : fresh_probe s1) by (destruct Hf; by split).
  destruct (probe_iommu ans s1) as [[] s2] eqn:Ei; [done|].
  destruct (probe_iommu_held ans s1 s2 Ei) as (I1 & I2 & I3 & I4 & I5 & I6).
  destruct (probe_devices ans s2) as [[r s3]|] eqn:Ed; [|done].
  destruct (Z.eqb_spec r 0) as [->|Hr0]; cbn [negb] in H; [|congruence].
  destruct (probe_devices_up ans s2 s3) as (U & U1 & U2 & U3 & U4); [by apply I6 | by rewrite I4 | done |].
  pose proof (probe_fence_ret ans (probe_misc ans s3)) as Hr4.
  destruct (probe_fence ans (probe_misc ans s3)) as [r4 s4]. cbn [fst snd] in *. subst r4.
  destruct (an_fence ans); cbn in H; [|done]. injection H as H.
  exists s4. split; [|split; [|split]].
  - destruct U as [V1 V2 V3 V4 V5]. split; try done. rewrite V1.
    change (pr_held s1) with (pr_held s) in I1. destruct (an_misc ans =? 0); by rewrite I1.
  - by apply (probe_power_done no_gki ans (pr_held s2)).
  - by rewrite U1.
  - by rewrite U4, I5.
Qed.


(** What a successful probe leaves on.  It ignores the result of its last
    power-off and clears the count: when the IOMMU is still enabled after the
    poll, on a device with several power domains, everything stays on with no
    reference to switch it off again. *)
Theorem probe_leaves_power (no_gki : bool) (ans : probe_answer) (s s' : probe_state) :
  fresh_probe s -> holds (pr_layout s') false (pr_power s) -> on_ok (an_power_on ans) ->
  rknpu_probe no_gki ans s = Some (0, s') ->
  power_refcount (pr_power s') = 0 /\
  holds (pr_layout s')
    (multiple_domains (pr_layout s') && negb (an_power_off ans =? 0)) (pr_power s').
Proof.
  intros Hf Hh Hon H. destruct (probe_success no_gki ans s s' Hf H) as (s4 & _ & [_ _ _ _ _ _ _ D8] & _ & Hp).
  rewrite Hp in D8. rewrite D8. clear D8.
  destruct (rknpu_power_on (pr_layout s') (an_power_on ans) (pr_power s)) as [r1 p1] eqn:E1.
  apply power_on_holds in E1 as [E1 _]; [|done..]. cbn [snd].
  destruct (rknpu_power_off (pr_layout s') (an_power_off ans) p1) as [r2 p2] eqn:E2.
  pose proof E2 as E3. apply power_off_holds in E3 as [[E3 E4 E5] _]; [|done]. cbn [snd]. split; [done|].
  assert (Hr : negb (r2 =? 0) = multiple_domains (pr_layout s') && negb (an_power_off ans =? 0)).
  { unfold rknpu_power_off in E2.
    destruct (multiple_domains (pr_layout s') && negb (an_power_off ans =? 0)) eqn:Em; injection E2 as <- _; [|done].
    by apply andb_true_iff in Em as [_ ->]. }
  rewrite <- Hr. by split.
Qed.

(** *** An RK3588 with its IOMMU, and an SRAM of 24 KiB less 512 bytes *)

Definition example_probe_answer (wq : bool) (power_off : Z) : probe_answer :=
  {| an_of_node := true; an_match := Some RK3588; an_kzalloc := true; an_match_data := true; an_cores := false;
     an_dma_mask := 0; an_iommus := Some true; an_iommu_group := true; an_reserved := -19; an_num_clks := 8;
     an_vdd := 0; an_mem := -19; an_resource := fun i => Some (0xfdab0000 + i * 0x10000);
     an_ioremap := fun _ => true; an_ioremap_resource := fun _ => 0; an_irq_byname := fun i => 40 + i;
     an_irq := fun _ => -6; an_request_irq := fun _ => 0; an_drm_alloc := 0; an_drm_register := 0;
     an_fake := DevicePtr; an_of_dma := 0; an_misc := -16; an_fence := true; an_context := 1; an_power_domains := 3;
     an_attach := fun _ => true; an_power_on := {| clk_ret := 0; npu_ret := fun _ => 0; dev_ret := 0 |};
     an_cooling := true; an_wq := wq; an_sram := Some (0, 0xff001000, 24064);
     an_mm_kzalloc := true; an_mm_kcalloc := true; an_sgt_kzalloc := fun _ => true; an_sgt_alloc := fun _ => 0;
     an_power_off := power_off; an_lookup := true; an_create_dir := true |}.
Definition example_probe_state : probe_state :=
  {| pr_held := fun _ => 0; pr_iommu_en := false; pr_config := rk3588_rknpu_config; pr_fence_ctx := None; pr_fake_dev := false;
     pr_layout := {| multiple_domains := false; genpd_dev_npu := fun _ => false; has_state_init := false |};
     pr_power := dev (initial_power 500); pr_cooling := false; pr_sram_start := 0; pr_sram_size := 0;
     pr_sram_mm := None; pr_cache_sgt := [None; None] |}.
Definition example_probe_run (wq : bool) (power_off : Z) : probe_state :=
  match rknpu_probe false (example_probe_answer wq power_off) example_probe_state with
  | Some (_, s) => s
  | None => example_probe_state
  end.
Lemma example_probe_fresh : fresh_probe example_probe_state.
Proof. by split. Qed.
Lemma example_probe_run_eq (wq : bool) (power_off ret : Z) :
  match rknpu_probe false (example_probe_answer wq power_off) example_probe_state with
  | Some (r, _) => r =? ret
  | None => false
  end = true ->
  rknpu_probe false (example_probe_answer wq power_off) example_probe_state =
    Some (ret, example_probe_run wq power_off).
Proof.
  unfold example_probe_run. destruct (rknpu_probe _ _ _) as [[r s]|]; [|done]. by intros ->%Z.eqb_eq.
Qed.



Lemma probe_leaves_power_witness :
  let s' := example_probe_run true (-110) in
  rknpu_probe false (example_probe_answer true (-110)) example_probe_state = Some (0, s') /\
  power_refcount (pr_power s') = 0 /\ clk_enabled (pr_power s') = 1.
Proof.
  pose proof (example_probe_run_eq true (-110) 0 ltac:(vm_compute; reflexivity)) as Hrun.
  destruct (probe_leaves_power false (example_probe_answer true (-110)) example_probe_state
    (example_probe_run true (-110)) example_probe_fresh) as [H1 [H2 _ _]].
  - split; try done. intros core. cbn. by destruct (_ && _).
  - split; [done|]. split; [done | done].
  - exact Hrun.
  - split; [exact Hrun|]. split; [exact H1|]. rewrite H2. vm_compute. reflexivity.
Defined.
