(* ===== verification/Irq.v ===== *)
(** * Interrupt lines (rknpu_drv.c)

    The tables that give every SoC its interrupts by name, their registration by
    both versions of rknpu_register_irq, with the handlers of Job.v, and what an
    interrupt then runs.  Probe.v has the result of the registration only. *)

From S2P Require Import Prelude Config Domain Device Job JobRun Probe.

Section Irq.
Context {iommu : IommuDomain}.

(** ** Tables *)

(** Pointers to the handlers. *)
Inductive irq_handler := Core0Handler | Core1Handler | Core2Handler.
Definition call_handler (h : irq_handler) : M unit :=
  match h with
  | Core0Handler => rknpu_core0_irq_handler
  | Core1Handler => rknpu_core1_irq_handler
  | Core2Handler => rknpu_core2_irq_handler
  end.

(** struct rknpu_irqs_data. *)
Record rknpu_irqs_data := { irq_name : string; irq_hdl : irq_handler }.

Definition rknpu_irqs : list rknpu_irqs_data :=
  [{| irq_name := "npu_irq"; irq_hdl := Core0Handler |}].
Definition rk3576_npu_irqs : list rknpu_irqs_data :=
  [{| irq_name := "npu0_irq"; irq_hdl := Core0Handler |};
   {| irq_name := "npu1_irq"; irq_hdl := Core1Handler |}].
Definition rk3588_npu_irqs : list rknpu_irqs_data :=
  [{| irq_name := "npu0_irq"; irq_hdl := Core0Handler |};
   {| irq_name := "npu1_irq"; irq_hdl := Core1Handler |};
   {| irq_name := "npu2_irq"; irq_hdl := Core2Handler |}].

(** The field irqs of the configurations. *)
Definition irqs_of (s : soc) : list rknpu_irqs_data :=
  match s with
  | RK356X | RV1106 | RK3562 | RV1126B => rknpu_irqs
  | RK3576 => rk3576_npu_irqs
  | RK3588 | RK3583 => rk3588_npu_irqs
  end.

(** ** Registration

    [byname] and [by_index] are platform_get_irq_byname and platform_get_irq;
    [request] is devm_request_irq, which keeps the handlers of a shared line. *)
Section Register.
Context (byname : string -> Z) (by_index : Z -> Z) (request : Z -> Z).


(** One interrupt whose number is known. *)
Definition request_irq (irq : Z) (hdl : irq_handler) (regs : list (Z * irq_handler)) : Z * list (Z * irq_handler) :=
  if request irq <? 0 then (request irq, regs) else (0, regs ++ [(irq, hdl)]).

(** [get] finds the number of an entry: the two versions differ in it. *)
Fixpoint register_irqs (get : Z -> rknpu_irqs_data -> Z) (irqs : list rknpu_irqs_data) (i : Z)
    (regs : list (Z * irq_handler)) : Z * list (Z * irq_handler) :=
  match irqs with
  | [] => (0, regs)
  | e :: irqs =>
      let irq := get i e in
      if irq <? 0 then (irq, regs)
      else
        let '(ret, regs) := request_irq irq (irq_hdl e) regs in
        if ret <? 0 then (ret, regs) else register_irqs get irqs (i + 1) regs
  end.

Definition named_or_indexed (i : Z) (e : rknpu_irqs_data) : Z :=
  if byname (irq_name e) <? 0 then by_index i else byname (irq_name e).

(** Kernels from 6.1 on. *)
Definition rknpu_register_irq_6_1 (s : soc) : Z * list (Z * irq_handler) :=
  register_irqs named_or_indexed (firstn (Z.to_nat (num_irqs (config_of s))) (irqs_of s)) 0 [].

(** Kernels before 6.1: the names of the device tree, if the first is there
    ([res]), or the first interrupt. *)
Definition rknpu_register_irq_5_10 (res : bool) (s : soc) : Z * list (Z * irq_handler) :=
  if res then
    register_irqs (fun _ e => byname (irq_name e)) (firstn (Z.to_nat (num_irqs (config_of s))) (irqs_of s)) 0 []
  else if by_index 0 <? 0 then (by_index 0, [])
  else request_irq (by_index 0) Core0Handler [].

(** An interrupt runs the handlers of its line, in order. *)
Definition raise_irq (irq : Z) (regs : list (Z * irq_handler)) : M unit :=
  foldr (fun r k => if r.1 =? irq then call_handler r.2 ;; k else k) (ret tt) regs.

(** ** The tables fit the cores *)

Lemma irqs_fit (s : soc) (core : Z) :
  0 <= core < num_irqs (config_of s) ->
  exists e, firstn (Z.to_nat (num_irqs (config_of s))) (irqs_of s) !! Z.to_nat core = Some e /\
    call_handler (irq_hdl e) = rknpu_irq_handler core.
Proof.
  intros H.
  assert (core = 0 \/ core = 1 /\ 1 < num_irqs (config_of s) \/ core = 2 /\ 2 < num_irqs (config_of s)) as Hc
    by (assert (num_irqs (config_of s) <= 3) by (destruct s; vm_compute; discriminate); lia).
  destruct Hc as [-> | [(-> & Hn) | (-> & Hn)]]; destruct s; (discriminate Hn || by eexists) || by eexists.
Qed.

(** A registration that succeeds has every entry, at the number it was found. *)
Lemma register_irqs_success (get : Z -> rknpu_irqs_data -> Z) (irqs : list rknpu_irqs_data) (i : Z)
    (regs regs' : list (Z * irq_handler)) :
  register_irqs get irqs i regs = (0, regs') ->
  regs' = regs ++ imap (fun n e => (get (i + Z.of_nat n) e, irq_hdl e)) irqs /\
  (forall n e, irqs !! n = Some e -> 0 <= get (i + Z.of_nat n) e).
Proof.
  revert i regs. induction irqs as [|e irqs IH]; intros i regs H; cbn [register_irqs] in H.
  - injection H as <-. by rewrite app_nil_r.
  - destruct (Z.ltb_spec (get i e) 0) as [Hn|Hn]; [injection H as H _; lia|]. unfold request_irq in H.
    destruct (Z.ltb_spec (request (get i e)) 0) as [Hr|Hr].
    { rewrite (proj2 (Z.ltb_lt _ _) Hr) in H. injection H as H _. lia. }
    cbn [Z.ltb] in H. apply IH in H as [-> Hpos]. split.
    + rewrite <- app_assoc. f_equal. cbn. rewrite Z.add_0_r. f_equal. apply imap_ext.
      intros n x _. cbn. do 2 f_equal. lia.
    + intros [|n] x Hx; cbn in Hx; [injection Hx as <-; by rewrite Z.add_0_r|].
      replace (i + Z.of_nat (S n)) with (i + 1 + Z.of_nat n) by lia. by apply Hpos.
Qed.

(** The result is the one probe sees, when its answers are those of the platform. *)
Lemma register_irqs_result (ans : probe_answer) (get : Z -> rknpu_irqs_data -> Z) (irqs : list rknpu_irqs_data)
    (i : Z) (regs : list (Z * irq_handler)) :
  (forall n e, irqs !! n = Some e ->
     get (i + Z.of_nat n) e =
       (if an_irq_byname ans (i + Z.of_nat n) <? 0 then an_irq ans (i + Z.of_nat n)
        else an_irq_byname ans (i + Z.of_nat n)) /\
     an_request_irq ans (i + Z.of_nat n) = request (get (i + Z.of_nat n) e)) ->
  (register_irqs get irqs i regs).1 = register_irq_from ans (length irqs) i.
Proof.
  revert i regs. induction irqs as [|e irqs IH]; intros i regs H; [done|].
  destruct (H 0%nat e eq_refl) as [Hg Hr]. cbn in Hg, Hr. rewrite Z.add_0_r in Hg, Hr.
  cbn [register_irqs register_irq_from length]. rewrite <- Hg. destruct (get i e <? 0); [done|].
  unfold request_irq. rewrite <- Hr. destruct (an_request_irq ans i <? 0) eqn:E; cbn [fst]; [by rewrite E|].
  cbn [Z.ltb]. apply IH. intros n x Hx. replace (i + 1 + Z.of_nat n) with (i + Z.of_nat (S n)) by lia. by apply H.
Qed.

(** ** What an interrupt runs *)

Lemma raise_cons (irq q : Z) (g : irq_handler) (regs : list (Z * irq_handler)) :
  raise_irq irq ((q, g) :: regs) = if q =? irq then (call_handler g ;; raise_irq irq regs) else raise_irq irq regs.
Proof. done. Qed.
Lemma raise_other (irq : Z) (regs : list (Z * irq_handler)) :
  irq ∉ regs.*1 -> raise_irq irq regs = ret tt.
Proof.
  induction regs as [|[n h] regs IH]; intros H; [done|]. cbn in *. apply not_elem_of_cons in H as [Hne H].
  destruct (Z.eqb_spec n irq) as [Heq|_]; [congruence|]. by apply IH.
Qed.
Lemma raise_registered (irq : Z) (h : irq_handler) (regs : list (Z * irq_handler)) (n : nat) (d : rknpu_device) :
  NoDup regs.*1 -> regs !! n = Some (irq, h) -> raise_irq irq regs d = call_handler h d.
Proof.
  revert n. induction regs as [|[q g] regs IH]; intros n Hd H; [done|]. cbn in Hd.
  apply NoDup_cons in Hd as [Hq Hd]. destruct n as [|n]; cbn in H.
  - injection H as -> ->. rewrite raise_cons, Z.eqb_refl, raise_other by done. apply bind_ret_tt.
  - rewrite raise_cons. destruct (Z.eqb_spec q irq) as [->|_]; [|by eapply IH].
    destruct Hq. apply list_elem_of_fmap. exists (irq, h). split; [done|]. by eapply list_elem_of_lookup_2.
Qed.


(** Before 6.1, without names in the device tree, only core 0 has a handler: on a
    SoC with more cores the registration succeeds all the same. *)
Lemma unnamed_irqs_serve_core0 (s : soc) (irq : Z) (d : rknpu_device) :
  0 <= by_index 0 -> 0 <= request (by_index 0) ->
  exists regs, rknpu_register_irq_5_10 false s = (0, regs) /\
    raise_irq irq regs d = if by_index 0 =? irq then rknpu_core0_irq_handler d else Ret tt d.
Proof.
  intros Hi Hr. unfold rknpu_register_irq_5_10, request_irq.
  rewrite (proj2 (Z.ltb_ge _ _) Hi), (proj2 (Z.ltb_ge _ _) Hr). eexists. split; [done|].
  cbn [app]. rewrite raise_cons. destruct (by_index 0 =? irq); [apply bind_ret_tt | done].
Qed.
End Register.

End Irq.

(** The RK3588 with names for its first two interrupts only. *)
Definition example_byname (name : string) : Z :=
  if bool_decide (name = "npu0_irq") then 40 else if bool_decide (name = "npu1_irq") then 41 else -6.

