(* ===== verification/Devfreq.v ===== *)
(** * Frequency and voltage (rknpu_devfreq_dkms.c and rknpu_debugfs_ctrl.c)

    rknpu_devfreq_target with the hardware states it passes through, what
    devfreq is told, the sysfs node, and the debugfs nodes that write the clock
    and the regulator directly.  The clock, the regulator and the OPP table are
    answered by parameters. *)

From S2P Require Import Prelude.

Definition RKNPU_MAX_FREQ : Z := 1000000000.
Definition ENOENT : Z := 2.

(** ** State *)

(** What the hardware does: the rate of the NPU clock and the supply voltage. *)
Record operating_point := { op_rate : Z; op_uv : Z }.

Record dvfs := {
  hw : operating_point;
  scmi_clk : bool;                 (* the pointer is not NULL *)
  vdd : bool;
  current_freq : Z;
  current_volt : Z;
  devfreq : bool;
  devfreq_cooling : bool }.
#[export] Instance operating_point_settable : Settable operating_point := {| settable := fun h =>
  Build_operating_point (op_rate h) (op_uv h) |}.
#[export] Instance dvfs_settable : Settable dvfs := {| settable := fun s =>
  Build_dvfs (hw s) (scmi_clk s) (vdd s) (current_freq s) (current_volt s) (devfreq s) (devfreq_cooling s) |}.

(** What the frameworks answer: the OPP for a frequency (its rate and voltage),
    regulator_set_voltage and the voltage it picks between the bounds, and
    clk_set_rate and the rate the clock takes. *)
Record dvfs_answer := {
  recommended_opp : Z -> Z -> Z + (Z * Z);
  set_voltage : Z -> Z -> Z * Z;
  set_rate : Z -> Z * Z }.

(** clk_get_rate, regulator_set_voltage and clk_set_rate: an error leaves the
    hardware as it is. *)
Definition clk_get_rate (s : dvfs) : Z := op_rate (hw s).
Definition regulator_set_voltage (ans : dvfs_answer) (lo hi : Z) (s : dvfs) : Z * dvfs :=
  let '(ret, uv) := set_voltage ans lo hi in
  (ret, if ret =? 0 then s <| hw ::= fun h => h <| op_uv := uv |> |> else s).
Definition clk_set_rate (ans : dvfs_answer) (rate : Z) (s : dvfs) : Z * dvfs :=
  let '(ret, r) := set_rate ans rate in
  (ret, if ret =? 0 then s <| hw ::= fun h => h <| op_rate := r |> |> else s).

(** ** devfreq *)

(** The part from clk_set_rate on; the result, [*freq], the state, and the
    operating points passed through. *)
Definition target_set_rate (ans : dvfs_answer) (freq target_freq old_freq new_volt : Z) (s : dvfs)
  : Z * Z * dvfs * list operating_point :=
  let '(ret, s) := clk_set_rate ans target_freq s in
  if negb (ret =? 0) then (ret, freq, s, [hw s])
  else
    let at_rate := hw s in
    let new_freq := clk_get_rate s in
    let s := if (target_freq <? old_freq) && vdd s
             then (regulator_set_voltage ans new_volt (new_volt + 50000) s).2 else s in
    let s' := if negb (new_freq =? old_freq)
              then s <| current_freq := new_freq |> <| current_volt := new_volt |> else s in
    (0, target_freq, s', [at_rate; hw s]).

Definition rknpu_devfreq_target (ans : dvfs_answer) (freq flags : Z) (s : dvfs)
  : Z * Z * dvfs * list operating_point :=
  if negb (scmi_clk s) then (-ENODEV, freq, s, [])
  else
    let target_freq := if RKNPU_MAX_FREQ <? freq then RKNPU_MAX_FREQ else freq in
    let old_freq := clk_get_rate s in
    match recommended_opp ans target_freq flags with
    | inl e => (e, freq, s, [])
    | inr (target_freq, new_volt) =>
        if (old_freq <? target_freq) && vdd s then
          let '(ret, s) := regulator_set_voltage ans new_volt (new_volt + 50000) s in
          if negb (ret =? 0) then (ret, freq, s, [hw s])
          else
            let '(ret, out, s', ops) := target_set_rate ans freq target_freq old_freq new_volt s in
            (ret, out, s', hw s :: ops)
        else target_set_rate ans freq target_freq old_freq new_volt s
    end.

(** current_frequency, busy_time and total_time. *)
Definition rknpu_devfreq_get_dev_status (power_refs : Z) (s : dvfs) : Z * Z * Z :=
  (current_freq s, if 0 <? power_refs then 95 else 0, 100).
Definition rknpu_devfreq_get_cur_freq (s : dvfs) : Z := current_freq s.

(** [has_clk], [devfreq_ok] and [cooling_ok]: devm_clk_get,
    devm_devfreq_add_device and of_devfreq_cooling_register succeed.  The result
    is always 0. *)
Definition rknpu_devfreq_init (ans : dvfs_answer) (has_clk devfreq_ok cooling_ok : bool) (s : dvfs) : dvfs :=
  if negb has_clk then s <| scmi_clk := false |>
  else
    let s := (clk_set_rate ans 200000000 (s <| scmi_clk := true |>)).2 in
    let s := s <| current_freq := clk_get_rate s |> in
    if negb devfreq_ok then s <| devfreq := false |>
    else s <| devfreq := true |> <| devfreq_cooling := cooling_ok |>.
Definition rknpu_devfreq_remove (s : dvfs) : dvfs :=
  s <| devfreq_cooling := false |> <| scmi_clk := false |> <| devfreq := false |>.

(** The store of the sysfs node; [parsed] is what kstrtoul returns, [count] the
    length written. *)
Definition rknpu_freq_store (ans : dvfs_answer) (parsed : Z + Z) (count : Z) (s : dvfs) : Z * dvfs :=
  match parsed with
  | inl e => (e, s)
  | inr freq =>
      let freq := if RKNPU_MAX_FREQ <? freq then RKNPU_MAX_FREQ else freq in
      let '(ret, _, s, _) := rknpu_devfreq_target ans freq 0 s in
      (if negb (ret =? 0) then ret else count, s)
  end.

(** ** debugfs controls *)

(** The clock the nodes use: the SCMI clock, or the first clock of the device
    when there is one ([num_clks] is its number of clocks); both drive the NPU. *)
Definition ctrl_clk (num_clks : Z) (s : dvfs) : bool := scmi_clk s || (0 <? num_clks).

Definition freq_hz_get (num_clks : Z) (s : dvfs) : Z := if ctrl_clk num_clks s then clk_get_rate s else 0.
Definition freq_hz_set (ans : dvfs_answer) (num_clks val : Z) (s : dvfs) : Z * dvfs :=
  if negb (ctrl_clk num_clks s) then (-ENODEV, s) else clk_set_rate ans val s.
Definition freq_mhz_get (num_clks : Z) (s : dvfs) : Z := freq_hz_get num_clks s / 1000000.
Definition freq_mhz_set (ans : dvfs_answer) (num_clks val : Z) (s : dvfs) : Z * dvfs :=
  freq_hz_set ans num_clks (u64 (val * 1000000)) s.

(** regulator_set_voltage takes two ints. *)
Definition voltage_uv_get (s : dvfs) : Z := if vdd s then u64 (op_uv (hw s)) else 0.
Definition voltage_uv_set (ans : dvfs_answer) (val : Z) (s : dvfs) : Z * dvfs :=
  if negb (vdd s) then (-ENODEV, s)
  else regulator_set_voltage ans (s32 val) (s32 (u64 (val + 50000))) s.
Definition voltage_mv_get (s : dvfs) : Z := voltage_uv_get s / 1000.
Definition voltage_mv_set (ans : dvfs_answer) (val : Z) (s : dvfs) : Z * dvfs :=
  voltage_uv_set ans (u64 (val * 1000)) s.

(** opp_bypass_enabled, a flag of the module. *)
Definition opp_bypass_get (enabled : bool) : Z := if enabled then 1 else 0.
Definition opp_bypass_set (val : Z) : bool := negb (val =? 0).

(** ** Theorems *)

(** The documented behaviour of the frameworks; [need] is the voltage a rate
    needs: an OPP has the voltage of its rate, the regulator picks between the
    bounds, and the clock does not take a higher rate than asked. *)
Record dvfs_laws (need : Z -> Z) (ans : dvfs_answer) : Prop := {
  dl_need : forall r r', r <= r' -> need r <= need r';
  dl_opp : forall f flags r v, recommended_opp ans f flags = inr (r, v) -> need r <= v;
  dl_volt : forall lo hi uv, set_voltage ans lo hi = (0, uv) -> lo <= uv <= hi;
  dl_rate : forall r r', set_rate ans r = (0, r') -> r' <= r;
}.

(** Enough voltage for the rate. *)
Definition supplied (need : Z -> Z) (h : operating_point) : Prop := need (op_rate h) <= op_uv h.

Lemma target_set_rate_supplied (need : Z -> Z) (ans : dvfs_answer) (freq target_freq old_freq new_volt : Z)
    (s s' : dvfs) (ret out : Z) (ops : list operating_point) :
  dvfs_laws need ans -> supplied need (hw s) -> need target_freq <= new_volt ->
  need target_freq <= op_uv (hw s) ->
  target_set_rate ans freq target_freq old_freq new_volt s = (ret, out, s', ops) ->
  Forall (supplied need) ops /\ supplied need (hw s').
Proof.
  intros [Hneed Hopp Hvolt Hrate] Hs Hv Hu H. unfold target_set_rate, clk_set_rate in H.
  destruct (set_rate ans target_freq) as [r rate] eqn:Er.
  destruct (Z.eqb_spec r 0) as [->|]; cbn [negb] in H.
  2:{ injection H as <- <- <- <-. by repeat constructor. }
  apply Hrate in Er. pose proof (Hneed _ _ Er) as Hn.
  set (s1 := s <| hw ::= _ |>) in H.
  assert (H1 : supplied need (hw s1)) by (unfold supplied; cbn; lia).
  set (s2 := if (target_freq <? old_freq) && vdd s1 then _ else s1) in H.
  assert (H2 : supplied need (hw s2)).
  { subst s2. destruct (_ && _); [|done]. unfold regulator_set_voltage.
    destruct (set_voltage ans new_volt (new_volt + 50000)) as [rv uv] eqn:Ev.
    destruct (Z.eqb_spec rv 0) as [->|]; [|done]. apply Hvolt in Ev. unfold supplied. cbn. lia. }
  clearbody s1 s2. injection H as _ _ <- <-.
  split; [by repeat constructor | by destruct (negb _)].
Qed.

(** C24: devfreq never undervolts.  When the OPP table, the regulator and the
    clock keep their promises and the voltage suits the rate, it suits the rate
    at every operating point that a change of frequency passes through, up or
    down, whichever call fails. *)
Theorem devfreq_never_undervolts (need : Z -> Z) (ans : dvfs_answer) (freq flags : Z) (s s' : dvfs)
    (ret out : Z) (ops : list operating_point) :
  dvfs_laws need ans -> vdd s = true -> supplied need (hw s) ->
  rknpu_devfreq_target ans freq flags s = (ret, out, s', ops) ->
  Forall (supplied need) ops /\ supplied need (hw s').
Proof.
  intros Hl Hvdd Hs H. pose proof Hl as [Hneed Hopp Hvolt Hrate]. unfold rknpu_devfreq_target in H.
  destruct (negb (scmi_clk s)); [by injection H as _ _ <- <-|].
  set (capped := if RKNPU_MAX_FREQ <? freq then RKNPU_MAX_FREQ else freq) in H.
  destruct (recommended_opp ans capped flags) as [e|[target volt]] eqn:Eo; [by injection H as _ _ <- <-|].
  apply Hopp in Eo. rewrite Hvdd, andb_true_r in H. unfold clk_get_rate in H.
  destruct (Z.ltb_spec (op_rate (hw s)) target) as [Hup|Hdown].
  - unfold regulator_set_voltage in H. destruct (set_voltage ans volt (volt + 50000)) as [rv uv] eqn:Ev.
    destruct (Z.eqb_spec rv 0) as [->|]; cbn [negb] in H.
    2:{ injection H as _ _ <- <-. by repeat constructor. }
    apply Hvolt in Ev. set (s1 := s <| hw ::= _ |>) in H.
    pose proof (Hneed (op_rate (hw s)) target ltac:(lia)).
    assert (H1 : supplied need (hw s1)) by (unfold supplied; cbn; lia).
    destruct (target_set_rate _ _ _ _ _ s1) as [[[r1 out1] s2] ops1] eqn:Et.
    injection H as _ _ <- <-.
    apply (target_set_rate_supplied need) in Et as [E1 E2]; [|done..|cbn; lia].
    split; [by constructor | done].
  - pose proof (Hneed target (op_rate (hw s)) Hdown). unfold supplied in Hs.
    apply (target_set_rate_supplied need) in H; [done | done | done | done | lia].
Qed.

(** The frequency reported is the one the clock has.  rknpu_devfreq_init
    and every change by devfreq keep current_freq equal to the rate of the
    clock, on every error path. *)
Theorem devfreq_reports_clock_rate (ans : dvfs_answer) (freq flags : Z) (s s' : dvfs)
    (ret out : Z) (ops : list operating_point) :
  (forall devfreq_ok cooling_ok, let s1 := rknpu_devfreq_init ans true devfreq_ok cooling_ok s in
     rknpu_devfreq_get_cur_freq s1 = clk_get_rate s1) /\
  (rknpu_devfreq_get_cur_freq s = clk_get_rate s ->
   rknpu_devfreq_target ans freq flags s = (ret, out, s', ops) ->
   rknpu_devfreq_get_cur_freq s' = clk_get_rate s').
Proof.
  split; [intros [] cooling_ok; done|]. unfold rknpu_devfreq_get_cur_freq, clk_get_rate. intros Hs H.
  assert (Hset : forall target volt s0 ret out ops, current_freq s0 = op_rate (hw s0) ->
    op_rate (hw s0) = op_rate (hw s) ->
    target_set_rate ans freq target (op_rate (hw s)) volt s0 = (ret, out, s', ops) ->
    current_freq s' = op_rate (hw s')).
  { intros target volt s0 ret0 out0 ops0 H0 Hr Ht. unfold target_set_rate, clk_set_rate, clk_get_rate in Ht.
    destruct (set_rate ans target) as [r rate]. destruct (Z.eqb_spec r 0) as [->|]; cbn [negb] in Ht.
    2:{ injection Ht as _ _ <- _. done. }
    set (s1 := s0 <| hw ::= _ |>) in Ht. set (s2 := if _ && _ then _ else s1) in Ht.
    assert (E : current_freq s2 = current_freq s0 /\ op_rate (hw s2) = rate).
    { subst s2. destruct (_ && _); [|done]. unfold regulator_set_voltage.
      destruct (set_voltage ans volt (volt + 50000)) as [rv uv]. by destruct (rv =? 0). }
    destruct E as [E1 E2]. change (op_rate (hw s1)) with rate in Ht. injection Ht as _ _ <- _.
    destruct (Z.eqb_spec rate (op_rate (hw s))); cbn; congruence. }
  unfold rknpu_devfreq_target, clk_get_rate in H.
  destruct (negb (scmi_clk s)); [by injection H as _ _ <- _|].
  destruct (recommended_opp _ _ _) as [e|[target volt]]; [by injection H as _ _ <- _|].
  destruct (_ && _); [|by eapply Hset].
  destruct (regulator_set_voltage _ _ _ _) as [rv s1] eqn:Ev.
  assert (E : current_freq s1 = current_freq s /\ op_rate (hw s1) = op_rate (hw s)).
  { unfold regulator_set_voltage in Ev. destruct (set_voltage ans volt (volt + 50000)) as [r uv].
    injection Ev as _ <-. by destruct (r =? 0). }
  destruct E as [E1 E2]. destruct (negb (rv =? 0)); [injection H as _ _ <- _; congruence|].
  destruct (target_set_rate _ _ _ _ _ s1) as [[[r1 out1] s2] ops1] eqn:Et.
  injection H as _ _ <- _. eapply Hset; [|exact E2|exact Et]. congruence.
Qed.

(** A board with a linear OPP table, at 200 MHz and 0.85 V. *)
Definition example_answer : dvfs_answer := {|
  recommended_opp := fun f _ => inr (f, f / 1000);
  set_voltage := fun lo hi => if lo <=? hi then (0, lo) else (-EINVAL, 0);
  set_rate := fun r => (0, r) |}.
Definition example_dvfs : dvfs := {|
  hw := {| op_rate := 200000000; op_uv := 850000 |}; scmi_clk := true; vdd := true;
  current_freq := 200000000; current_volt := 850000; devfreq := true; devfreq_cooling := true |}.
Lemma example_answer_laws : dvfs_laws (fun r => r / 1000) example_answer.
Proof.
  split; cbn.
  - intros r r' H. by apply Z.div_le_mono.
  - intros f flags r v [= <- <-]. lia.
  - intros lo hi uv. destruct (Z.leb_spec lo hi); intros [= <-]. lia.
  - intros r r' [= <-]. lia.
Qed.

Lemma devfreq_never_undervolts_witness :
  exists ret out s' ops, rknpu_devfreq_target example_answer 600000000 0 example_dvfs = (ret, out, s', ops) /\
    length ops = 3%nat /\ Forall (supplied (fun r => r / 1000)) ops.
Proof.
  destruct (rknpu_devfreq_target example_answer 600000000 0 example_dvfs) as [[[ret out] s'] ops] eqn:E.
  exists ret, out, s', ops. split; [done|]. split.
  - vm_compute in E. by injection E as _ _ _ <-.
  - refine (proj1 (devfreq_never_undervolts (fun r => r / 1000) example_answer 600000000 0
      example_dvfs s' ret out ops example_answer_laws _ _ E)); [reflexivity|].
    vm_compute. discriminate.
Defined.

Lemma devfreq_reports_clock_rate_witness :
  exists ret out s' ops, rknpu_devfreq_target example_answer 600000000 0 example_dvfs = (ret, out, s', ops) /\
    rknpu_devfreq_get_cur_freq s' = clk_get_rate s' /\ clk_get_rate s' = 600000000.
Proof.
  destruct (rknpu_devfreq_target example_answer 600000000 0 example_dvfs) as [[[ret out] s'] ops] eqn:E.
  exists ret, out, s', ops. split; [done|]. split.
  - refine (proj2 (devfreq_reports_clock_rate example_answer 600000000 0 example_dvfs s' ret out ops) _ E).
    reflexivity.
  - vm_compute in E. by injection E as _ _ <- _.
Defined.
