(* ===== verification/DevfreqNodes.v ===== *)
(** * What devfreq shows and locks (rknpu_devfreq_dkms.c, rknpu_debugfs_ctrl.c)

    The sysfs node of the frequency, the debugfs node that lists the clocks, the
    lock of devfreq and the callbacks of runtime PM, with the stub build that
    replaces them (rknpu_devfreq_stub.c) behind one interface: what the power
    references and runtime PM of the device rely on. *)

From stdpp Require Import pretty.
From S2P Require Import Prelude Devfreq.

(** ** The DKMS build *)

(** The depth of devfreq->lock, which is taken when there is a device. *)
Definition rknpu_devfreq_lock (s : dvfs) (depth : Z) : Z := if devfreq s then depth + 1 else depth.
Definition rknpu_devfreq_unlock (s : dvfs) (depth : Z) : Z := if devfreq s then depth - 1 else depth.

Definition rknpu_devfreq_runtime_suspend (s : dvfs) : Z * dvfs := (0, s).
Definition rknpu_devfreq_runtime_resume (s : dvfs) : Z * dvfs := (0, s).

Definition rknpu_freq_show (s : dvfs) : string := pretty (current_freq s) +:+ newline.

(** The attributes of the device: device_create_file answers [ret]. *)
Definition rknpu_devfreq_create_sysfs (ret : Z) (attrs : list string) : Z * list string :=
  (ret, if ret =? 0 then "rknpu_freq" :: attrs else attrs).
Definition rknpu_devfreq_remove_sysfs (attrs : list string) : list string :=
  filter (fun a => a <> "rknpu_freq") attrs.

(** ** The stub build *)

Definition stub_devfreq_lock (depth : Z) : Z := depth.
Definition stub_devfreq_unlock (depth : Z) : Z := depth.
Definition stub_devfreq_init : Z := 0.
Definition stub_devfreq_remove (s : dvfs) : dvfs := s.
Definition stub_devfreq_runtime_suspend (s : dvfs) : Z * dvfs := (0, s).
Definition stub_devfreq_runtime_resume (s : dvfs) : Z * dvfs := (0, s).

(** ** A kernel without devfreq

    The inline functions of rknpu_devfreq.h. *)

Definition inline_devfreq_init : Z := -EOPNOTSUPP.
Definition inline_devfreq_remove (s : dvfs) : dvfs := s.
Definition inline_devfreq_lock (depth : Z) : Z := depth.
Definition inline_devfreq_unlock (depth : Z) : Z := depth.
Definition inline_devfreq_runtime_suspend (s : dvfs) : Z * dvfs := (-EOPNOTSUPP, s).
Definition inline_devfreq_runtime_resume (s : dvfs) : Z * dvfs := (-EOPNOTSUPP, s).

(** ** The interface *)

(** Power-on and power-off run between the lock and the unlock, which undo each
    other; runtime PM leaves the operating point alone. *)
Class DevfreqBuild := {
  devfreq_lock : dvfs -> Z -> Z;
  devfreq_unlock : dvfs -> Z -> Z;
  runtime_suspend : dvfs -> Z * dvfs;
  runtime_resume : dvfs -> Z * dvfs;
  lock_balanced : forall s depth, devfreq_unlock s (devfreq_lock s depth) = depth;
  runtime_pm_quiet : forall s, (runtime_suspend s).2 = s /\ (runtime_resume s).2 = s;
}.

Lemma dkms_lock_balanced (s : dvfs) (depth : Z) : rknpu_devfreq_unlock s (rknpu_devfreq_lock s depth) = depth.
Proof. unfold rknpu_devfreq_lock, rknpu_devfreq_unlock. destruct (devfreq s); lia. Qed.

#[export] Instance devfreq_dkms : DevfreqBuild := {|
  devfreq_lock := rknpu_devfreq_lock; devfreq_unlock := rknpu_devfreq_unlock;
  runtime_suspend := rknpu_devfreq_runtime_suspend; runtime_resume := rknpu_devfreq_runtime_resume;
  lock_balanced := dkms_lock_balanced; runtime_pm_quiet := fun s => conj eq_refl eq_refl |}.
#[export] Instance devfreq_stub : DevfreqBuild := {|
  devfreq_lock := fun _ => stub_devfreq_lock; devfreq_unlock := fun _ => stub_devfreq_unlock;
  runtime_suspend := stub_devfreq_runtime_suspend; runtime_resume := stub_devfreq_runtime_resume;
  lock_balanced := fun _ _ => eq_refl; runtime_pm_quiet := fun s => conj eq_refl eq_refl |}.
#[export] Instance devfreq_inline : DevfreqBuild := {|
  devfreq_lock := fun _ => inline_devfreq_lock; devfreq_unlock := fun _ => inline_devfreq_unlock;
  runtime_suspend := inline_devfreq_runtime_suspend; runtime_resume := inline_devfreq_runtime_resume;
  lock_balanced := fun _ _ => eq_refl; runtime_pm_quiet := fun s => conj eq_refl eq_refl |}.

(** rknpu_drv.c: the callbacks of the device, and the change of frequency that
    devfreq makes with its lock held. *)
Definition rknpu_runtime_suspend {b : DevfreqBuild} (s : dvfs) : Z * dvfs := runtime_suspend s.
Definition rknpu_runtime_resume {b : DevfreqBuild} (s : dvfs) : Z * dvfs := runtime_resume s.

(** Without devfreq the callback fails, so runtime PM never suspends the device;
    the other two builds let it. *)
Lemma runtime_suspend_results (s : dvfs) :
  (rknpu_runtime_suspend (b := devfreq_inline) s).1 = -EOPNOTSUPP /\
  (rknpu_runtime_suspend (b := devfreq_stub) s).1 = 0 /\ (rknpu_runtime_suspend (b := devfreq_dkms) s).1 = 0.
Proof. done. Qed.

(** ** The list of the clocks

    [clks] are the rates of the clocks of the device, for those that there are. *)
Definition clock_lines (clks : list (option Z)) : list string :=
  concat (imap (fun i c => match c with
    | Some rate => ["  clk[" +:+ pretty (Z.of_nat i) +:+ "] rate: " +:+ pretty rate +:+ " Hz" +:+ newline]
    | None => []
    end) (take 4 clks)).
Definition available (b : bool) : string := if b then "available" else "not available".
Definition clock_source_show (clks : list (option Z)) (s : dvfs) : list string :=
  ["SCMI clock: " +:+ available (scmi_clk s) +:+ newline] ++
  (if scmi_clk s then ["  clk_scmi_npu rate: " +:+ pretty (clk_get_rate s) +:+ " Hz" +:+ newline] else []) ++
  ["Device clocks: " +:+ pretty (Z.of_nat (length clks)) +:+ newline] ++
  clock_lines clks ++
  ["VDD regulator: " +:+ available (vdd s) +:+ newline] ++
  (if vdd s then ["  voltage: " +:+ pretty (op_uv (hw s)) +:+ " uV" +:+ newline] else []).

(** ** What the sysfs node shows *)

(** The sysfs node shows what the clock does.  Whatever is written to it, and
    whatever the runtime PM of either build does afterwards, it shows the rate of
    the clock if it did before. *)
Theorem sysfs_shows_clock_rate {b : DevfreqBuild} (ans : dvfs_answer) (parsed : Z + Z) (count ret : Z)
    (s s' : dvfs) :
  current_freq s = clk_get_rate s -> rknpu_freq_store ans parsed count s = (ret, s') ->
  rknpu_freq_show (rknpu_runtime_resume (rknpu_runtime_suspend s').2).2 = pretty (clk_get_rate s') +:+ newline.
Proof.
  intros Hs H. unfold rknpu_runtime_resume, rknpu_runtime_suspend.
  rewrite (proj1 (runtime_pm_quiet s')), (proj2 (runtime_pm_quiet s')).
  enough (current_freq s' = clk_get_rate s') as E by (unfold rknpu_freq_show; by rewrite E).
  unfold rknpu_freq_store in H. destruct parsed as [e|freq]; [by injection H as _ <-|].
  destruct (rknpu_devfreq_target ans _ 0 s) as [[[r out] s1] ops] eqn:E. injection H as _ <-.
  exact (proj2 (devfreq_reports_clock_rate ans (if RKNPU_MAX_FREQ <? freq then RKNPU_MAX_FREQ else freq) 0 s s1 r out ops) Hs E).
Qed.

(** A write through debugfs goes past devfreq: the clock changes, the sysfs node
    and the voltage do not. *)
Lemma debugfs_bypasses_devfreq (ans : dvfs_answer) (num_clks val rate : Z) (s : dvfs) :
  ctrl_clk num_clks s = true -> set_rate ans val = (0, rate) ->
  exists s', freq_hz_set ans num_clks val s = (0, s') /\ clk_get_rate s' = rate /\
    rknpu_freq_show s' = rknpu_freq_show s /\ op_uv (hw s') = op_uv (hw s).
Proof.
  intros Hc Hr. unfold freq_hz_set, clk_set_rate. rewrite Hc, Hr. cbn [negb Z.eqb]. by eexists.
Qed.

(** A write of 600 MHz on the DKMS build; 900 MHz through debugfs. *)
Lemma sysfs_shows_clock_rate_witness :
  exists s', rknpu_freq_store example_answer (inr 600000000) 10 example_dvfs = (10, s') /\
    rknpu_freq_show s' = "600000000" +:+ newline /\
    exists s2, freq_hz_set example_answer 0 900000000 s' = (0, s2) /\ clk_get_rate s2 = 900000000 /\
      rknpu_freq_show s2 = "600000000" +:+ newline.
Proof.
  destruct (rknpu_freq_store example_answer (inr 600000000) 10 example_dvfs) as [r s'] eqn:E.
  pose proof (sysfs_shows_clock_rate (b := devfreq_dkms) example_answer (inr 600000000) 10 r example_dvfs s'
    eq_refl E) as H. cbn in H.
  assert (r = 10 /\ clk_get_rate s' = 600000000 /\ scmi_clk s' = true) as (-> & Er & Hc)
    by (vm_compute in E; injection E as <- <-; by repeat split).
  exists s'. split; [done|]. rewrite Er in H. split; [exact H|].
  destruct (debugfs_bypasses_devfreq example_answer 0 900000000 900000000 s') as (s2 & H1 & H2 & H3 & _);
    [by unfold ctrl_clk; rewrite Hc | done |].
  exists s2. split; [exact H1|]. split; [exact H2|]. by rewrite H3.
Defined.
