(* ===== verification/Opp.v ===== *)
(** * Frequency scaling on the vendor kernel (rknpu_devfreq.c)

    The read margins of the memories, the speed bins, and the OPP helper that
    moves the clock and the two supplies of the NPU, with every operating point
    it passes through.  The regulators, the clock and the rockchip_ functions of
    the vendor kernel are answered by parameters. *)

From S2P Require Import Prelude.

Definition UINT_MAX : Z := 2 ^ 32 - 1.
Definition POWER_DOWN_FREQ : Z := 200000000.

(** ** Read margins *)

(** struct rockchip_opp_info, as far as the margins go; [grf_writes] are the
    regmap_write calls so far, offset and value. *)
Record opp_info := {
  grf : bool;
  volt_rm_tbl : bool;
  current_rm : Z;
  grf_writes : list (Z * Z) }.
#[export] Instance opp_info_settable : Settable opp_info := {| settable := fun i =>
  Build_opp_info (grf i) (volt_rm_tbl i) (current_rm i) (grf_writes i) |}.

Definition regmap_write (off val : Z) (i : opp_info) : opp_info :=
  i <| grf_writes ::= (fun l => l ++ [(off, u32 val)]) |>.

(** Nothing to do: no register block or table, or a margin that is set already
    or unknown. *)
Definition rm_skipped (rm : Z) (i : opp_info) : bool :=
  negb (grf i) || negb (volt_rm_tbl i) || (rm =? current_rm i) || (rm =? UINT_MAX).

Definition rk3576_npu_set_read_margin (rm : Z) (i : opp_info) : Z * opp_info :=
  if rm_skipped rm i then (0, i)
  else
    let i := regmap_write 0x08 (Z.lor 0x001c0000 (Z.shiftl rm 2)) i in
    let i := regmap_write 0x0c (Z.lor 0x003c0000 (Z.shiftl rm 2)) i in
    (0, regmap_write 0x10 (Z.lor 0x001c0000 (Z.shiftl rm 2)) i).

(** [val &= ~0x1c; val | (rm << 2)]. *)
Definition set_rm_field (val rm : Z) : Z := Z.lor (Z.land val (Z.lnot 0x1c)) (Z.shiftl rm 2).

(** The loop of rk3588_npu_set_read_margin; [read] answers regmap_read. *)
Fixpoint rm_loop (n : nat) (read : Z -> Z + Z) (offset rm : Z) (i : opp_info) : Z * opp_info :=
  match n with
  | O => (0, i)
  | S n =>
      match read offset with
      | inl ret => (ret, i)
      | inr val => rm_loop n read (offset + 4) rm (regmap_write offset (set_rm_field val rm) i)
      end
  end.
Definition rk3588_npu_set_read_margin (read : Z -> Z + Z) (rm : Z) (i : opp_info) : Z * opp_info :=
  if rm_skipped rm i then (0, i)
  else
    let '(ret, i) := rm_loop 3 read 0 rm i in
    if ret <? 0 then (ret, i) else (0, i <| current_rm := rm |>).

(** ** Speed bins

    [cell] is the value of a property's nvmem cell: absent, an error of
    rockchip_nvmem_cell_read_u8, or a byte. *)
Definition cell : Type := option (Z + Z).

Definition rk3588_npu_get_soc_info (serial demand : cell) (bin : Z) : Z * Z :=
  let finish (ret bin : Z) := (ret, if bin <? 0 then 0 else bin) in
  let after (bin : Z) :=
    match demand with
    | Some (inl ret) => (ret, bin)
    | Some (inr value) => finish 0 (if value =? 0x3 then 4 else bin)
    | None => finish 0 bin
    end in
  match serial with
  | Some (inl ret) => (ret, bin)
  | Some (inr value) => after (if value =? 0xd then 1 else if value =? 0xa then 2 else bin)
  | None => after bin
  end.

Definition rv1126b_npu_get_soc_info (serial : cell) (bin : Z) : Z * Z :=
  match serial with
  | Some (inl ret) => (ret, bin)
  | Some (inr value) =>
      let bin := if value =? 0xd then 1 else if value =? 0xa then 2 else if value =? 0x10 then 3 else bin in
      (0, if bin <? 0 then 0 else bin)
  | None => (0, if bin <? 0 then 0 else bin)
  end.

(** supported_hw, when the device tree asks for it. *)
Definition rk3588_npu_set_soc_info (has_supported_hw : bool) (bin volt_sel : Z) : option (Z * Z) :=
  if volt_sel <? 0 then None
  else
    let bin := if bin <? 0 then 0 else bin in
    if negb has_supported_hw then None else Some (u32 (Z.shiftl 1 bin), u32 (Z.shiftl 1 volt_sel)).

(** ** The OPP helper *)

(** An operating performance point, and what the hardware does. *)
Record opp := { rate : Z; vdd_uv : Z; mem_uv : Z }.
#[export] Instance opp_settable : Settable opp := {| settable := fun o =>
  Build_opp (rate o) (vdd_uv o) (mem_uv o) |}.

(** [trail] lists the operating points passed through, the last one last;
    [margins] the calls of rockchip_set_read_margin; [opp_clks] the references
    on the clocks of the helper. *)
Record helper_state := {
  at_opp : opp;
  trail : list opp;
  margins : list (Z * bool);
  opp_clks : Z }.
#[export] Instance helper_state_settable : Settable helper_state := {| settable := fun s =>
  Build_helper_state (at_opp s) (trail s) (margins s) (opp_clks s) |}.

(** The calls of regulator_set_voltage and of clk_set_rate. *)
Inductive volt_call := MemUp | VddUp | VddDown | MemDown | MemBack | VddBack.
Inductive rate_call := ClkUp | ClkDown | ClkBack.

(** What the calls return, and where the supply and the clock settle;
    rockchip_get_read_margin by voltage; the rate that
    rockchip_set_intermediate_rate leaves. *)
Record helper_answer := {
  enable_ret : Z;
  volt_ret : volt_call -> Z -> Z * Z;
  rate_ret : rate_call -> Z -> Z * Z;
  read_margin : Z -> Z;
  intermediate : Z -> Z -> bool -> Z }.

Section Helper.
Context (ans : helper_answer) (is_set_rm is_set_clk : bool) (old new : opp).

Definition move (f : opp -> opp) (s : helper_state) : helper_state :=
  s <| at_opp := f (at_opp s) |> <| trail := trail s ++ [f (at_opp s)] |>.

Definition supply (c : volt_call) (v : Z) (o : opp) : opp :=
  match c with MemUp | MemDown | MemBack => o <| mem_uv := v |> | _ => o <| vdd_uv := v |> end.

Definition set_volt (c : volt_call) (uv : Z) (s : helper_state) : Z * helper_state :=
  let '(ret, v) := volt_ret ans c uv in
  (ret, if negb (ret =? 0) then s
        else move (supply c v) s).

(** [is_set_clk && clk_set_rate(clk, freq)]. *)
Definition set_clk (c : rate_call) (freq : Z) (s : helper_state) : bool * helper_state :=
  if is_set_clk then
    let '(ret, r) := rate_ret ans c freq in
    if ret =? 0 then (false, move (fun o => o <| rate := r |>) s) else (true, s)
  else (false, s).

Definition set_intermediate_rate (up : bool) (s : helper_state) : helper_state :=
  if is_set_clk then move (fun o => o <| rate := intermediate ans (rate old) (rate new) up |>) s else s.
Definition set_read_margin (rm : Z) (s : helper_state) : helper_state :=
  s <| margins ::= (fun l => l ++ [(rm, is_set_rm)]) |>.

(** The labels at the end, each followed by the next; [current] is current_rm. *)
Definition restore_voltage (s : helper_state) : helper_state :=
  let s := (set_volt MemBack (mem_uv old) s).2 in
  let s := (set_volt VddBack (vdd_uv old) s).2 in
  s <| opp_clks ::= Z.pred |>.
Definition restore_rm (current : Z) (s : helper_state) : helper_state :=
  restore_voltage (set_read_margin current s).
Definition restore_freq (current : Z) (s : helper_state) : helper_state :=
  restore_rm current (set_clk ClkBack (rate old) s).2.

Definition scale_up (current target : Z) (s : helper_state) : Z * helper_state :=
  let s := set_intermediate_rate true s in
  let '(ret, s) := set_volt MemUp (mem_uv new) s in
  if negb (ret =? 0) then (ret, restore_voltage s)
  else
    let '(ret, s) := set_volt VddUp (vdd_uv new) s in
    if negb (ret =? 0) then (ret, restore_voltage s)
    else
      let s := set_read_margin target s in
      let '(failed, s) := set_clk ClkUp (rate new) s in
      if failed then (-EINVAL, restore_rm current s) else (0, s <| opp_clks ::= Z.pred |>).

Definition scale_down (current target : Z) (s : helper_state) : Z * helper_state :=
  let s := set_intermediate_rate false s in
  let s := set_read_margin target s in
  let '(failed, s) := set_clk ClkDown (rate new) s in
  if failed then (-EINVAL, restore_rm current s)
  else
    let '(ret, s) := set_volt VddDown (vdd_uv new) s in
    if negb (ret =? 0) then (ret, restore_freq current s)
    else
      let '(ret, s) := set_volt MemDown (mem_uv new) s in
      if negb (ret =? 0) then (ret, restore_freq current s) else (0, s <| opp_clks ::= Z.pred |>).

Definition opp_helper_body (current : Z) (s : helper_state) : Z * helper_state :=
  if enable_ret ans <? 0 then (enable_ret ans, s)
  else
    let s := s <| opp_clks ::= Z.succ |> in
    let target := read_margin ans (vdd_uv new) in
    if rate old <=? rate new then scale_up current target s else scale_down current target s.
End Helper.

(** [active] is pm_runtime_active, [scmi] says that opp_info has a scmi_clk. *)
Definition npu_opp_helper (ans : helper_answer) (active scmi : bool) (old new : opp) (current : Z)
    (s : helper_state) : Z * helper_state :=
  opp_helper_body ans active (active || negb scmi) old new current s.

(** The read margin of the two SoCs of the vendor's table: while it runs, the
    restore of [current_rm] is skipped, because it is the current one. *)
Lemma restored_margin_is_skipped (i : opp_info) (read : Z -> Z + Z) :
  rk3576_npu_set_read_margin (current_rm i) i = (0, i) /\
  rk3588_npu_set_read_margin read (current_rm i) i = (0, i).
Proof.
  unfold rk3576_npu_set_read_margin, rk3588_npu_set_read_margin.
  assert (rm_skipped (current_rm i) i = true) as ->; [|done].
  unfold rm_skipped. rewrite Z.eqb_refl. by rewrite !orb_true_r.
Qed.

(** ** Every operating point is supplied *)

Section Supply.
Context (need_vdd need_mem : Z -> Z).

(** The voltages of [o] suffice for the rate [r]. *)
Definition fits (r : Z) (o : opp) : Prop := need_vdd r <= vdd_uv o /\ need_mem r <= mem_uv o.
Definition at_least (o h : opp) : Prop := vdd_uv o <= vdd_uv h /\ mem_uv o <= mem_uv h.
Definition powered (h : opp) : Prop := fits (rate h) h.

(** What the helper may rely on, for the change from [old] to [new]. *)
Record helper_laws (ans : helper_answer) (old new : opp) : Prop := {
  hl_need : forall r r', r <= r' -> need_vdd r <= need_vdd r' /\ need_mem r <= need_mem r';
  hl_old : fits (rate old) old;
  hl_new : fits (rate new) new;
  hl_volt : forall c uv v, volt_ret ans c uv = (0, v) -> uv <= v;
  hl_rate : forall c r r', rate_ret ans c r = (0, r') -> r' <= r;
  hl_inter : forall up, fits (intermediate ans (rate old) (rate new) up) old /\
    fits (intermediate ans (rate old) (rate new) up) new;
}.

Section Safety.
Context (ans : helper_answer) (is_set_rm is_set_clk : bool) (old new : opp).
Hypothesis laws : helper_laws ans old new.

(** Every operating point so far was powered, the present one suits [o]. *)
Definition calm (o : opp) (s : helper_state) : Prop :=
  Forall powered (trail s) /\ powered (at_opp s) /\ fits (rate (at_opp s)) o.

Lemma calm_move (f : opp -> opp) (o : opp) (s : helper_state) :
  calm o s -> powered (f (at_opp s)) -> fits (rate (f (at_opp s))) o -> calm o (move f s).
Proof.
  intros (H1 & _ & _) H2 H3. split; [|done]. cbn. apply Forall_app. split; [done|]. by constructor.
Qed.

Lemma set_volt_cases (c : volt_call) (uv : Z) (s : helper_state) :
  ((set_volt ans c uv s).1 <> 0 /\ (set_volt ans c uv s).2 = s) \/
  exists v, uv <= v /\ set_volt ans c uv s = (0, move (supply c v) s).
Proof.
  unfold set_volt. destruct (volt_ret ans c uv) as [ret v] eqn:E.
  destruct (Z.eqb_spec ret 0) as [->|]; [right | by left].
  exists v. split; [|done]. by apply (hl_volt _ _ _ laws) in E.
Qed.

Lemma set_clk_cases (c : rate_call) (freq : Z) (s : helper_state) :
  set_clk ans is_set_clk c freq s = (true, s) \/ (is_set_clk = false /\ set_clk ans is_set_clk c freq s = (false, s)) \/
  exists r, r <= freq /\ set_clk ans is_set_clk c freq s = (false, move (fun o => o <| rate := r |>) s).
Proof.
  unfold set_clk. destruct is_set_clk; [|by right; left].
  destruct (rate_ret ans c freq) as [ret r] eqn:E.
  destruct (Z.eqb_spec ret 0) as [->|]; [right; right | by left].
  exists r. split; [|done]. by apply (hl_rate _ _ _ laws) in E.
Qed.

Lemma fits_below (r r' : Z) (o : opp) : r <= r' -> fits r' o -> fits r o.
Proof. intros [H1 H2]%(hl_need _ _ _ laws) [F1 F2]. split; lia. Qed.

(** A supply set to at least what a point that suits the rate asks for. *)
Lemma calm_supply (c : volt_call) (v : Z) (o o' : opp) (s : helper_state) :
  calm o s -> fits (rate (at_opp s)) o' ->
  match c with MemUp | MemDown | MemBack => mem_uv o' | _ => vdd_uv o' end <= v ->
  calm o (move (supply c v) s).
Proof.
  intros Hs [F1 F2] Hv. pose proof Hs as (_ & [P1 P2] & Ho).
  apply calm_move; [done | destruct c; split; cbn in *; lia | by destruct c].
Qed.

Lemma calm_restore_rm (current : Z) (s : helper_state) :
  calm old s -> calm old (restore_rm ans is_set_rm old current s) /\ calm old (restore_voltage ans old s).
Proof.
  assert (Hv : forall s, calm old s -> calm old (restore_voltage ans old s)); [clear s|intros Hs; by split; apply Hv].
  intros s Hs. unfold restore_voltage.
  assert (H1 : calm old (set_volt ans MemBack (mem_uv old) s).2).
  { destruct (set_volt_cases MemBack (mem_uv old) s) as [[_ ->]|(v & Hv & ->)]; [done|].
    apply (calm_supply MemBack v old old); [done | apply Hs | done]. }
  destruct (set_volt_cases VddBack (vdd_uv old) (set_volt ans MemBack (mem_uv old) s).2) as [[_ ->]|(v & Hv & ->)];
    [done|]. apply (calm_supply VddBack v old old); [done | apply H1 | done].
Qed.

(** The start, and after the intermediate rate. *)
Record ready (s : helper_state) : Prop := {
  rd_calm : calm old s;
  rd_new : fits (rate (at_opp s)) new;
  rd_vdd : vdd_uv old <= vdd_uv (at_opp s);
  rd_mem : mem_uv old <= mem_uv (at_opp s);
}.

Lemma ready_intermediate (up : bool) (s : helper_state) :
  calm old s -> (is_set_clk = false -> fits (rate (at_opp s)) new) ->
  vdd_uv old <= vdd_uv (at_opp s) -> mem_uv old <= mem_uv (at_opp s) ->
  ready (set_intermediate_rate ans is_set_clk old new up s).
Proof.
  intros Hs Hn Hv Hm. unfold set_intermediate_rate. destruct is_set_clk; [|by split; auto].
  destruct (hl_inter _ _ _ laws up) as [[I1 I2] In]. split; [|done..].
  apply calm_move; [done | split; cbn; lia | done].
Qed.

Lemma scale_up_calm (current target : Z) (s : helper_state) :
  ready (set_intermediate_rate ans is_set_clk old new true s) ->
  Forall powered (trail (scale_up ans is_set_rm is_set_clk old new current target s).2).
Proof.
  unfold scale_up. set (s1 := set_intermediate_rate _ _ _ _ _ s). intros [Hc Hn _ _].
  destruct (set_volt ans MemUp (mem_uv new) s1) as [rm s2] eqn:E2.
  destruct (set_volt_cases MemUp (mem_uv new) s1) as [[Hne Heq]|(m & Hm & E)];
    [rewrite E2 in *; cbn in Hne, Heq; subst s2; destruct (Z.eqb_spec rm 0); [done|];
     apply (calm_restore_rm current s1 Hc)|].
  rewrite E in E2. injection E2 as <- <-. cbn [negb Z.eqb].
  assert (H2 : calm old (move (supply MemUp m) s1)) by by apply (calm_supply MemUp m old new).
  set (s2 := move (supply MemUp m) s1) in *.
  destruct (set_volt ans VddUp (vdd_uv new) s2) as [rv s3] eqn:E3.
  destruct (set_volt_cases VddUp (vdd_uv new) s2) as [[Hne Heq]|(v & Hv & E')];
    [rewrite E3 in *; cbn in Hne, Heq; subst s3; destruct (Z.eqb_spec rv 0); [done|];
     apply (calm_restore_rm current s2 H2)|].
  rewrite E' in E3. injection E3 as <- <-. cbn [negb Z.eqb].
  assert (H3 : calm old (move (supply VddUp v) s2)) by by apply (calm_supply VddUp v old new).
  set (s3 := set_read_margin is_set_rm target (move (supply VddUp v) s2)).
  destruct (set_clk_cases ClkUp (rate new) s3) as [->|[[_ ->]|(r & Hr & ->)]]; cbn [fst snd].
  - by apply (calm_restore_rm current s3).
  - apply H3.
  - apply Forall_app. split; [apply H3|]. constructor; [|done].
    destruct (hl_need _ _ _ laws r (rate new) Hr), (hl_new _ _ _ laws). split; cbn; lia.
Qed.

Lemma scale_down_calm (current target : Z) (s : helper_state) :
  rate new < rate old -> (volt_ret ans MemDown (mem_uv new)).1 = 0 ->
  ready (set_intermediate_rate ans is_set_clk old new false s) ->
  Forall powered (trail (scale_down ans is_set_rm is_set_clk old new current target s).2).
Proof.
  intros Hlt Hmem. unfold scale_down. set (s1 := set_intermediate_rate _ _ _ _ _ s). intros [Hc Hn Hv Hm].
  set (s1' := set_read_margin is_set_rm target s1).
  assert (Hc1 : calm old s1') by exact Hc.
  assert (Hclk : (set_clk ans is_set_clk ClkDown (rate new) s1').1 = true \/
    exists s2, set_clk ans is_set_clk ClkDown (rate new) s1' = (false, s2) /\ ready s2).
  { destruct (set_clk_cases ClkDown (rate new) s1') as [->|[[_ ->]|(r & Hr & ->)]]; [by left|right..].
    - eexists. split; [done|]. by split.
    - eexists. split; [done|]. pose proof (hl_old _ _ _ laws) as Ho. pose proof (hl_new _ _ _ laws) as Hn'.
      assert (fits r old) as [R1 R2] by (apply (fits_below r (rate old)); [lia | done]).
      split; [|by apply (fits_below r (rate new)) | done | done].
      apply calm_move; [done | split; cbn in *; lia | done]. }
  destruct (set_clk ans is_set_clk ClkDown (rate new) s1') as [failed s2'] eqn:Es.
  destruct Hclk as [E|(s2 & [= -> ->] & [Hc2 Hn2 Hv2 Hm2])].
  { cbn in E. subst failed. destruct (set_clk_cases ClkDown (rate new) s1') as [E'|[[_ E']|(r & _ & E')]];
      rewrite Es in E'; [|done|done]. injection E' as ->. by apply (calm_restore_rm current s1'). }
  destruct (set_volt ans VddDown (vdd_uv new) s2) as [rv s3] eqn:E3.
  destruct (set_volt_cases VddDown (vdd_uv new) s2) as [[Hne Heq]|(v & Hv' & E')].
  - rewrite E3 in *. cbn in Hne, Heq. subst s3. destruct (Z.eqb_spec rv 0); [done|]. cbn [negb snd].
    unfold restore_freq. apply (calm_restore_rm current).
    destruct (set_clk_cases ClkBack (rate old) s2) as [->|[[_ ->]|(r & Hr & ->)]]; [done..|].
    pose proof (hl_old _ _ _ laws) as Ho.
    assert (fits r old) as [R1 R2] by by apply (fits_below r (rate old)).
    apply calm_move; [done | split; cbn; lia | done].
  - rewrite E' in E3. injection E3 as <- <-. cbn [negb Z.eqb].
    assert (H3 : calm old (move (supply VddDown v) s2)) by by apply (calm_supply VddDown v old new).
    set (s3 := move (supply VddDown v) s2) in *.
    destruct (set_volt_cases MemDown (mem_uv new) s3) as [[Hne _]|(m & Hm' & ->)].
    { unfold set_volt in Hne. destruct (volt_ret ans MemDown (mem_uv new)). cbn in *. congruence. }
    cbn [negb Z.eqb snd]. assert (H4 : calm old (move (supply MemDown m) s3)) by by apply (calm_supply MemDown m old new).
    apply H4.
Qed.
End Safety.

(** C23: When the supply of the memories can be lowered, npu_opp_helper passes
    only through operating points whose two supplies suit the rate, up or down,
    and whichever of its other calls fails.  The hardware starts at the old
    operating point, or, when the clock is left alone, at a rate that suits
    both. *)
Theorem opp_helper_never_undervolts (ans : helper_answer) (active scmi : bool) (old new : opp)
    (current : Z) (s : helper_state) :
  helper_laws ans old new ->
  at_least old (at_opp s) -> trail s = [] ->
  fits (rate (at_opp s)) old -> (active = false -> scmi = true -> fits (rate (at_opp s)) new) ->
  (rate new < rate old -> (volt_ret ans MemDown (mem_uv new)).1 = 0) ->
  Forall powered (trail (npu_opp_helper ans active scmi old new current s).2).
Proof.
  intros laws [Hv Hm] Ht Hold Hpark Hmem. unfold npu_opp_helper, opp_helper_body.
  destruct (enable_ret ans <? 0); [cbn; by rewrite Ht|].
  set (s1 := s <| opp_clks ::= Z.succ |>).
  assert (Hready : forall up, ready old new (set_intermediate_rate ans (active || negb scmi) old new up s1)).
  { intros up. apply ready_intermediate; [done | | | done | done].
    - split; [cbn; by rewrite Ht|]. destruct Hold. split; [split; cbn; lia | done].
    - cbn. destruct active, scmi; try done. intros _. by apply Hpark. }
  destruct (Z.leb_spec (rate old) (rate new)) as [Hup|Hdown].
  - by apply scale_up_calm.
  - apply scale_down_calm; auto.
Qed.
End Supply.

(** When the supply of the memories cannot be lowered, npu_opp_helper puts
    the old rate back before it raises the supply of the NPU again: it passes
    through the old rate at the new voltage, which does not suit it when the
    old rate needs more. *)
Theorem opp_helper_restore_undervolts (need_vdd need_mem : Z -> Z) (ans : helper_answer) (scmi : bool)
    (old new : opp) (current e v : Z) (s : helper_state) :
  0 <= enable_ret ans -> rate new < rate old ->
  rate_ret ans ClkDown (rate new) = (0, rate new) -> rate_ret ans ClkBack (rate old) = (0, rate old) ->
  volt_ret ans VddDown (vdd_uv new) = (0, vdd_uv new) -> volt_ret ans MemDown (mem_uv new) = (e, v) ->
  e <> 0 -> vdd_uv new < need_vdd (rate old) ->
  let '(ret, s') := npu_opp_helper ans true scmi old new current s in
  ret = e /\ {| rate := rate old; vdd_uv := vdd_uv new; mem_uv := mem_uv (at_opp s) |} ∈ trail s' /\
  ~ Forall (powered need_vdd need_mem) (trail s').
Proof.
  intros He Hlt Hc1 Hc2 Hv1 Hv2 Hne Hneed.
  destruct (npu_opp_helper ans true scmi old new current s) as [ret s'] eqn:E.
  assert (H : ret = e /\ {| rate := rate old; vdd_uv := vdd_uv new; mem_uv := mem_uv (at_opp s) |} ∈ trail s').
  { revert E. unfold npu_opp_helper, opp_helper_body, scale_down, set_clk, set_volt. cbn [orb].
    destruct (Z.ltb_spec (enable_ret ans) 0); [lia|]. destruct (Z.leb_spec (rate old) (rate new)); [lia|].
    rewrite Hc1. cbn [Z.eqb]. rewrite Hv1. cbn [Z.eqb negb]. rewrite Hv2.
    destruct (Z.eqb_spec e 0); [done|]. cbn [negb]. intros [= <- <-]. split; [done|].
    unfold restore_freq, restore_rm, restore_voltage, set_clk, set_volt. rewrite Hc2. cbn [Z.eqb].
    repeat match goal with |- context [volt_ret ans ?c ?u] => destruct (volt_ret ans c u) as [? ?] end.
    cbn [fst snd]. repeat case_match; cbn; rewrite !elem_of_app; set_solver. }
  destruct H as [-> H]. split; [done|]. split; [done|]. intros HF.
  rewrite Forall_forall in HF. destruct (HF _ H) as [Hp _]. cbn in Hp. lia.
Qed.

(** Two operating points; [mem_stuck] is the error of lowering the supply of
    the memories. *)
Definition example_old : opp := {| rate := 900; vdd_uv := 900; mem_uv := 900 |}.
Definition example_new : opp := {| rate := 600; vdd_uv := 700; mem_uv := 700 |}.
Definition example_helper (mem_stuck : Z) : helper_answer := {|
  enable_ret := 0;
  volt_ret := fun c uv => (match c with MemDown => mem_stuck | _ => 0 end, uv);
  rate_ret := fun _ r => (0, r);
  read_margin := fun uv => if uv <? 800 then 4 else 2;
  intermediate := fun old new _ => Z.min old new |}.
Definition example_helper_state : helper_state :=
  {| at_opp := example_old; trail := []; margins := []; opp_clks := 0 |}.

Lemma opp_helper_never_undervolts_witness :
  let s' := (npu_opp_helper (example_helper 0) true false example_old example_new 2 example_helper_state).2 in
  at_opp s' = example_new /\ Forall (powered id id) (trail s').
Proof.
  split; [reflexivity|].
  apply (opp_helper_never_undervolts id id (example_helper 0) true false example_old example_new 2
    example_helper_state).
  - split; cbn.
    + intros r r' H. by split.
    + by split.
    + by split; cbn.
    + intros c uv v [= _ <-]. lia.
    + intros c r r' [= <-]. lia.
    + intros _. split; split; vm_compute; discriminate.
  - split; vm_compute; discriminate.
  - reflexivity.
  - split; vm_compute; discriminate.
  - discriminate.
  - reflexivity.
Defined.

Lemma opp_helper_restore_undervolts_witness :
  let '(ret, s') := npu_opp_helper (example_helper (-EIO)) true false example_old example_new 2
    example_helper_state in
  ret = -EIO /\ {| rate := 900; vdd_uv := 700; mem_uv := 900 |} ∈ trail s' /\
  ~ Forall (powered id id) (trail s').
Proof.
  apply (opp_helper_restore_undervolts id id (example_helper (-EIO)) false example_old example_new 2 (-EIO) 700
    example_helper_state); try reflexivity; vm_compute; congruence.
Defined.
