(* ===== verification/VendorDevfreq.v ===== *)
(** * devfreq on the vendor kernel (rknpu_devfreq.c)

    The governor, the change of frequency and runtime PM, and what init takes
    and remove gives back, for kernels from 6.1 on and before.  The OPP library
    and the rockchip_ functions are answered by parameters. *)

From S2P Require Import Prelude Opp.

(** ** State *)

(** The fields of struct rknpu_device and of its struct devfreq. *)
Record vendor_dvfs := {
  v_current_freq : Z;
  v_current_volt : Z;
  ondemand_freq : Z;
  v_devfreq : bool;              (* the pointer is not NULL *)
  mdev_info : bool;
  previous_freq : Z;
  last_freq : Z;                 (* last_status.current_frequency *)
  is_runtime_active : bool;
  v_opp_info : opp_info;
  clk_rate : Z;                  (* of the clock that suspend and resume set *)
  v_opp_clks : Z }.
#[export] Instance vendor_dvfs_settable : Settable vendor_dvfs := {| settable := fun s =>
  Build_vendor_dvfs (v_current_freq s) (v_current_volt s) (ondemand_freq s) (v_devfreq s) (mdev_info s)
    (previous_freq s) (last_freq s) (is_runtime_active s) (v_opp_info s) (clk_rate s) (v_opp_clks s) |}.

(** ** Changing the frequency *)

(** The callbacks of the profile and of the governor; the status is left as it
    is, with the values that init gave it. *)
Definition npu_devfreq_get_dev_status (s : vendor_dvfs) : Z * vendor_dvfs := (0, s).
Definition npu_devfreq_get_cur_freq (s : vendor_dvfs) : Z * Z := (0, v_current_freq s).
Definition devfreq_rknpu_ondemand_handler (s : vendor_dvfs) : Z * vendor_dvfs := (0, s).
Definition devfreq_rknpu_ondemand_func (s : vendor_dvfs) : Z :=
  if negb (ondemand_freq s =? 0) then ondemand_freq s else previous_freq s.

(** The end of both versions of npu_devfreq_target, with the result of
    dev_pm_opp_set_rate. *)
Definition target_done (ret freq volt : Z) (s : vendor_dvfs) : vendor_dvfs :=
  if negb (ret =? 0) then s
  else
    let s := s <| v_current_freq := freq |> in
    let s := if v_devfreq s then s <| last_freq := freq |> else s in
    s <| v_current_volt := volt |>.

(** From 6.1 on.  [checked] is is_rate_volt_checked, [active] pm_runtime_active;
    the result, [*freq] and the state. *)
Definition npu_devfreq_target (recommended_opp : Z -> Z + (Z * Z)) (set_rate : Z -> Z)
    (checked active : bool) (freq : Z) (s : vendor_dvfs) : Z * Z * vendor_dvfs :=
  if negb checked then (-EINVAL, freq, s)
  else
    match recommended_opp freq with
    | inl e => (e, freq, s)
    | inr (freq, volt) =>
        if freq =? v_current_freq s then (0, freq, s)
        else
          let s := s <| is_runtime_active := active |> in
          let ret := set_rate freq in
          (ret, freq, target_done ret freq volt s)
    end.

(** Before 6.1; [checked] is npu_mdevp.is_checked. *)
Definition npu_devfreq_target_5_10 (recommended_opp : Z -> Z + (Z * Z)) (set_rate : Z -> Z)
    (checked : bool) (freq : Z) (s : vendor_dvfs) : Z * Z * vendor_dvfs :=
  if negb checked then (-EINVAL, freq, s)
  else
    match recommended_opp freq with
    | inl e => (e, freq, s)
    | inr (freq, volt) => let ret := set_rate freq in (ret, freq, target_done ret freq volt s)
    end.

(** ** Runtime PM

    [scales] says that suspend changes the rate: rockchip_opp_is_use_pvtpll
    from 6.1 on, and a scmi_clk before; [set_clk] answers clk_set_rate. *)
Definition rknpu_devfreq_runtime_suspend (set_clk : Z -> Z) (scales : bool) (s : vendor_dvfs) : Z * vendor_dvfs :=
  let s := if scales && (set_clk POWER_DOWN_FREQ =? 0) then s <| clk_rate := POWER_DOWN_FREQ |> else s in
  (0, s <| v_opp_info ::= (fun i => i <| current_rm := UINT_MAX |>) |>).

(** [set_rm] is set_read_margin of the SoC's data, called with target_rm. *)
Definition rknpu_devfreq_runtime_resume (enable : Z) (set_clk : Z -> Z)
    (set_rm : option (opp_info -> Z * opp_info)) (scales : bool) (s : vendor_dvfs) : Z * vendor_dvfs :=
  if (v_current_freq s =? 0) || (v_current_volt s =? 0) then (0, s)
  else if negb (enable =? 0) then (enable, s)
  else
    let s := s <| v_opp_clks ::= Z.succ |> in
    let s := match set_rm with Some f => s <| v_opp_info ::= (fun i => (f i).2) |> | None => s end in
    let s := if scales && (set_clk (v_current_freq s) =? 0) then s <| clk_rate := v_current_freq s |> else s in
    (0, s <| v_opp_clks ::= Z.pred |>).

(** The text before 6.1, which asks for a scmi_clk. *)
Definition rknpu_devfreq_runtime_suspend_5_10 (set_clk : Z -> Z) (scmi_clk : bool) (s : vendor_dvfs)
  : Z * vendor_dvfs := rknpu_devfreq_runtime_suspend set_clk scmi_clk s.
Definition rknpu_devfreq_runtime_resume_5_10 (enable : Z) (set_clk : Z -> Z)
    (set_rm : option (opp_info -> Z * opp_info)) (scmi_clk : bool) (s : vendor_dvfs) : Z * vendor_dvfs :=
  rknpu_devfreq_runtime_resume enable set_clk set_rm scmi_clk s.

(** ** Init and remove *)

(** What the driver holds: OPP tables, governors, devfreq devices (released
    with the device), monitors, sets of regulators, OPP helpers and cooling
    devices. *)
Record dvfs_holds := {
  opp_table : Z; governor : Z; devfreq_dev : Z; monitor : Z;
  opp_regulators : Z; opp_helpers : Z; cooling : Z }.
#[export] Instance dvfs_holds_settable : Settable dvfs_holds := {| settable := fun h =>
  Build_dvfs_holds (opp_table h) (governor h) (devfreq_dev h) (monitor h) (opp_regulators h)
    (opp_helpers h) (cooling h) |}.

(** The answers to one init: results (0 or an error), the rate the clock reads
    first, the frequency of the recommended OPP, and what the clock and the
    regulator read afterwards. *)
Record init_answer := {
  two_supplies : bool;
  regulators_ret : Z;
  helper_ret : Z;
  table_ret : Z;
  first_rate : Z;
  opp_ret : Z;
  opp_freq : Z;
  governor_ret : Z;
  add_ret : Z;
  monitor_ok : bool;
  has_power_coeff : bool;        (* of the device tree or of the power model *)
  cooling_ok : bool;
  init_rate : Z;
  init_uv : Z }.

(** The end of a successful init. *)
Definition init_done (ans : init_answer) (s : vendor_dvfs) : vendor_dvfs :=
  s <| mdev_info := monitor_ok ans |> <| v_current_freq := init_rate ans |>
    <| ondemand_freq := init_rate ans |> <| v_current_volt := init_uv ans |>
    <| previous_freq := init_rate ans |> <| last_freq := init_rate ans |>.

Definition err_uinit_table (ret : Z) (s : vendor_dvfs) (h : dvfs_holds) : Z * vendor_dvfs * dvfs_holds :=
  (ret, s, h <| opp_table ::= Z.pred |>).
Definition err_remove_governor (ret : Z) (s : vendor_dvfs) (h : dvfs_holds) : Z * vendor_dvfs * dvfs_holds :=
  err_uinit_table ret s (h <| governor ::= Z.pred |>).

(** From 6.1 on. *)
Definition rknpu_devfreq_init (ans : init_answer) (s : vendor_dvfs) (h : dvfs_holds)
  : Z * vendor_dvfs * dvfs_holds :=
  if negb (table_ret ans =? 0) then (-EINVAL, s, h)
  else
    let h := h <| opp_table ::= Z.succ |> in
    let s := s <| v_current_freq := first_rate ans |> in
    if negb (opp_ret ans =? 0) then err_uinit_table (opp_ret ans) s h
    else
      let s := s <| v_current_freq := opp_freq ans |> in
      if negb (governor_ret ans =? 0) then err_uinit_table (governor_ret ans) s h
      else
        let h := h <| governor ::= Z.succ |> in
        if negb (add_ret ans =? 0) then err_remove_governor (add_ret ans) (s <| v_devfreq := false |>) h
        else
          let h := h <| devfreq_dev ::= Z.succ |> in
          let h := if monitor_ok ans then h <| monitor ::= Z.succ |> else h in
          (0, init_done ans (s <| v_devfreq := true |>), h).

(** Before 6.1, from rockchip_init_opp_table on, and the whole. *)
Definition err_remove_table_5_10 (ret : Z) (s : vendor_dvfs) (h : dvfs_holds) : Z * vendor_dvfs * dvfs_holds :=
  (ret, s <| v_devfreq := false |>, h <| opp_table ::= Z.pred |>).
Definition init_table_5_10 (ans : init_answer) (s : vendor_dvfs) (h : dvfs_holds)
  : Z * vendor_dvfs * dvfs_holds :=
  if negb (table_ret ans =? 0) then (table_ret ans, s, h)
  else
    let h := h <| opp_table ::= Z.succ |> in
    let s := s <| v_current_freq := first_rate ans |> in
    if negb (opp_ret ans =? 0) then err_remove_table_5_10 (opp_ret ans) s h
    else
      let s := s <| v_current_freq := opp_freq ans |> in
      if negb (governor_ret ans =? 0) then err_remove_table_5_10 (governor_ret ans) s h
      else
        let h := h <| governor ::= Z.succ |> in
        if negb (add_ret ans =? 0) then err_remove_table_5_10 (add_ret ans) s (h <| governor ::= Z.pred |>)
        else
          let h := h <| devfreq_dev ::= Z.succ |> in
          let h := if monitor_ok ans then h <| monitor ::= Z.succ |> else h in
          let h := if has_power_coeff ans && cooling_ok ans then h <| cooling ::= Z.succ |> else h in
          (0, init_done ans (s <| v_devfreq := true |>), h).

Definition rknpu_devfreq_init_5_10 (ans : init_answer) (s : vendor_dvfs) (h : dvfs_holds)
  : Z * vendor_dvfs * dvfs_holds :=
  if negb (regulators_ret ans =? 0) then (regulators_ret ans, s, h)
  else
    let h := h <| opp_regulators ::= Z.succ |> in
    if two_supplies ans then
      if negb (helper_ret ans =? 0) then (helper_ret ans, s, h <| opp_regulators ::= Z.pred |>)
      else init_table_5_10 ans s (h <| opp_helpers ::= Z.succ |>)
    else init_table_5_10 ans s h.

Definition rknpu_devfreq_remove (s : vendor_dvfs) (h : dvfs_holds) : vendor_dvfs * dvfs_holds :=
  let h := if mdev_info s then h <| monitor ::= Z.pred |> else h in
  let s := s <| mdev_info := false |> in
  let h := if v_devfreq s then h <| governor ::= Z.pred |> else h in
  (s, h <| opp_table ::= Z.pred |>).

(** ** Theorems *)

Lemma dvfs_holds_eq (h h' : dvfs_holds) :
  opp_table h = opp_table h' -> governor h = governor h' -> devfreq_dev h = devfreq_dev h' ->
  monitor h = monitor h' -> opp_regulators h = opp_regulators h' -> opp_helpers h = opp_helpers h' ->
  cooling h = cooling h' -> h = h'.
Proof. destruct h, h'; cbn. by intros -> -> -> -> -> -> ->. Qed.

(** On kernels from 6.1 on, a failed rknpu_devfreq_init gives back all it
    took; rknpu_probe ignores the failure, and rknpu_devfreq_remove then releases
    an OPP table that is not held.  After a successful init, remove gives back
    all but the devfreq device, which goes with the device.  Before 6.1 remove
    also leaves the regulators, the OPP helper and the cooling device. *)
Theorem vendor_devfreq_init_then_remove (ans : init_answer) (s : vendor_dvfs) (h : dvfs_holds) :
  v_devfreq s = false -> mdev_info s = false ->
  (let '(ret, s', h') := rknpu_devfreq_init ans s h in
   let h'' := (rknpu_devfreq_remove s' h').2 in
   (ret <> 0 -> h' = h /\ h'' = h <| opp_table ::= Z.pred |>) /\
   (ret = 0 -> h'' = h <| devfreq_dev ::= Z.succ |>)) /\
  (let '(ret, s', h') := rknpu_devfreq_init_5_10 ans s h in
   ret = 0 -> (rknpu_devfreq_remove s' h').2 =
     h <| devfreq_dev ::= Z.succ |> <| opp_regulators ::= Z.succ |>
       <| opp_helpers ::= Z.add (Z.b2z (two_supplies ans)) |>
       <| cooling ::= Z.add (Z.b2z (has_power_coeff ans && cooling_ok ans)) |>).
Proof.
  intros Hd Hm.
  assert (Hd' : forall s, v_devfreq s = false -> mdev_info s = false ->
    forall h, (rknpu_devfreq_remove s h).2 = h <| opp_table ::= Z.pred |>)
    by (intros s0 E1 E2 h0; unfold rknpu_devfreq_remove; cbn; by rewrite E2, E1).
  split.
  - unfold rknpu_devfreq_init, err_remove_governor, err_uinit_table.
    repeat (case_bool; cbn [negb]); split; intros Hr; try done; try lia.
    all: try (split; [apply dvfs_holds_eq; cbn; lia|]; rewrite Hd' by done; apply dvfs_holds_eq; cbn; lia).
    unfold rknpu_devfreq_remove. cbn. destruct (monitor_ok ans); apply dvfs_holds_eq; cbn; lia.
  - unfold rknpu_devfreq_init_5_10, init_table_5_10, err_remove_table_5_10.
    destruct (two_supplies ans); repeat case_bool; cbn [negb]; try done; intros _;
      unfold rknpu_devfreq_remove; cbn; destruct (monitor_ok ans), (has_power_coeff ans && cooling_ok ans);
      apply dvfs_holds_eq; cbn; lia.
Qed.

Definition example_vendor : vendor_dvfs := {|
  v_current_freq := 0; v_current_volt := 0; ondemand_freq := 0; v_devfreq := false; mdev_info := false;
  previous_freq := 0; last_freq := 0; is_runtime_active := false; v_opp_info := {| grf := true; volt_rm_tbl := true; current_rm := UINT_MAX; grf_writes := [] |};
  clk_rate := POWER_DOWN_FREQ; v_opp_clks := 0 |}.
Definition no_holds : dvfs_holds := {|
  opp_table := 0; governor := 0; devfreq_dev := 0; monitor := 0; opp_regulators := 0; opp_helpers := 0;
  cooling := 0 |}.
Definition example_init (add : Z) : init_answer := {|
  two_supplies := true; regulators_ret := 0; helper_ret := 0; table_ret := 0; first_rate := 594000000;
  opp_ret := 0; opp_freq := 600000000; governor_ret := 0; add_ret := add; monitor_ok := true;
  has_power_coeff := true; cooling_ok := true; init_rate := 594000000; init_uv := 850000 |}.

Lemma vendor_devfreq_init_then_remove_witness :
  (let '(_, s, h) := rknpu_devfreq_init (example_init (-ENOMEM)) example_vendor no_holds in
   opp_table (rknpu_devfreq_remove s h).2 = -1) /\
  (let '(_, s, h) := rknpu_devfreq_init_5_10 (example_init 0) example_vendor no_holds in
   let h := (rknpu_devfreq_remove s h).2 in
   opp_table h = 0 /\ opp_regulators h = 1 /\ opp_helpers h = 1 /\ cooling h = 1).
Proof.
  destruct (vendor_devfreq_init_then_remove (example_init (-ENOMEM)) example_vendor no_holds eq_refl eq_refl)
    as [H1 _].
  destruct (vendor_devfreq_init_then_remove (example_init 0) example_vendor no_holds eq_refl eq_refl)
    as [_ H2].
  destruct (rknpu_devfreq_init (example_init (-ENOMEM)) example_vendor no_holds) as [[r1 s1] h1] eqn:E1.
  destruct (rknpu_devfreq_init_5_10 (example_init 0) example_vendor no_holds) as [[r2 s2] h2] eqn:E2.
  assert (r1 = -ENOMEM) as -> by (vm_compute in E1; by injection E1 as <- _ _).
  assert (r2 = 0) as -> by (vm_compute in E2; by injection E2 as <- _ _).
  destruct H1 as [H1 _]. destruct (H1 ltac:(discriminate)) as [_ ->]. rewrite (H2 eq_refl).
  split; [reflexivity|]. repeat split; reflexivity.
Defined.
