(* ===== verification/VendorOpp.v ===== *)
(** * The SoCs of the vendor's devfreq (rknpu_devfreq.c)

    The callbacks that each SoC of the vendor kernel gets, how the driver picks
    them, the locks, and what runtime PM does through them: a resume programs
    the read margin again that the memories lost while the NPU was off. *)

From S2P Require Import Prelude Opp VendorDevfreq.

(** ** The data of a SoC *)

(** set_soc_info: rockchip_opp_set_low_length of the vendor kernel, or
    rk3588_npu_set_soc_info. *)
Inductive set_soc_info := SetLowLength | SetSupportedHw.

(** struct rockchip_opp_data.  The read margin takes the answer of regmap_read;
    config_regulators and config_clks, the same for all, only forward to the
    vendor kernel. *)
Record rockchip_opp_data := {
  od_get_soc_info : option (cell -> cell -> Z -> Z * Z);
  od_set_soc_info : set_soc_info;
  od_set_read_margin : option ((Z -> Z + Z) -> Z -> opp_info -> Z * opp_info);
  od_is_use_pvtpll : bool }.

Definition rk3576_npu_opp_data : rockchip_opp_data := {|
  od_get_soc_info := None; od_set_soc_info := SetLowLength;
  od_set_read_margin := Some (fun _ => rk3576_npu_set_read_margin); od_is_use_pvtpll := false |}.
Definition rk3588_npu_opp_data : rockchip_opp_data := {|
  od_get_soc_info := Some rk3588_npu_get_soc_info; od_set_soc_info := SetSupportedHw;
  od_set_read_margin := Some rk3588_npu_set_read_margin; od_is_use_pvtpll := false |}.
Definition rv1126b_npu_opp_data : rockchip_opp_data := {|
  od_get_soc_info := Some (fun serial _ => rv1126b_npu_get_soc_info serial); od_set_soc_info := SetSupportedHw;
  od_set_read_margin := None; od_is_use_pvtpll := true |}.

Definition rockchip_npu_of_match : list (string * rockchip_opp_data) :=
  [("rockchip,rk3576", rk3576_npu_opp_data); ("rockchip,rk3576s", rk3576_npu_opp_data);
   ("rockchip,rk3588", rk3588_npu_opp_data); ("rockchip,rv1126b", rv1126b_npu_opp_data)].

(** rk3588_npu_set_soc_info before 6.1, which hands supported_hw to the OPP
    library; [set_hw] is its answer. *)
Definition rk3588_npu_set_soc_info_5_10 (has_supported_hw : bool) (set_hw : Z * Z -> Z) (bin volt_sel : Z) : Z :=
  match rk3588_npu_set_soc_info has_supported_hw bin volt_sel with
  | Some hw => set_hw hw
  | None => 0
  end.

(** The speed bin and the grade of the SoC, as rockchip_init_opp_table asks for
    them; the bin starts at -EINVAL. *)
Definition soc_hw (data : rockchip_opp_data) (serial demand : cell) (has_supported_hw : bool) (volt_sel : Z)
  : option (Z * Z) :=
  let bin := match od_get_soc_info data with Some f => (f serial demand (-EINVAL)).2 | None => -EINVAL end in
  match od_set_soc_info data with
  | SetLowLength => None
  | SetSupportedHw => rk3588_npu_set_soc_info has_supported_hw bin volt_sel
  end.

(** ** Locks and power *)

(** The depth of the lock: from 6.1 on the lock of the OPPs, if there is a
    devfreq device; before, the monitor's. *)
Definition rknpu_devfreq_lock (s : vendor_dvfs) (depth : Z) : Z := if v_devfreq s then depth + 1 else depth.
Definition rknpu_devfreq_unlock (s : vendor_dvfs) (depth : Z) : Z := if v_devfreq s then depth - 1 else depth.
Definition rknpu_devfreq_lock_5_10 (depth : Z) : Z := depth + 1.
Definition rknpu_devfreq_unlock_5_10 (depth : Z) : Z := depth - 1.

(** [model] is rockchip_ipa_get_static_power on model_data, if there is one. *)
Definition npu_get_static_power (model : option (Z -> Z)) (voltage : Z) : Z :=
  match model with None => 0 | Some f => f voltage end.

(** ** Suspend and resume with the callbacks *)

(** A suspend and a resume of the device: [rm] is target_rm, [enable] the answer
    of clk_bulk_prepare_enable, [scales] whether the clock is scaled. *)
Definition suspend_resume (data : rockchip_opp_data) (read : Z -> Z + Z) (rm enable : Z) (set_clk : Z -> Z)
    (scales : bool) (s : vendor_dvfs) : Z * vendor_dvfs :=
  let '(_, s) := rknpu_devfreq_runtime_suspend set_clk scales s in
  rknpu_devfreq_runtime_resume enable set_clk ((fun f => f read rm) <$> od_set_read_margin data) scales s.

(** The read margin in a register. *)
Definition margin_field (v : Z) : Z := Z.land (Z.shiftr v 2) 7.

Lemma margin_range (rm : Z) : 0 <= rm < 8 -> rm = Z.land rm 7.
Proof. intros H. change 7 with (Z.ones 3). rewrite Z.land_ones by lia. symmetry. by apply Z.mod_small. Qed.

Lemma margin_field_set (val rm : Z) : 0 <= rm < 8 -> margin_field (u32 (set_rm_field val rm)) = rm.
Proof.
  intros H. unfold margin_field, set_rm_field, u32. rewrite <- Z.land_ones by lia.
  rewrite (margin_range rm H). apply Z.bits_inj'. intros n Hn.
  change 7 with (Z.ones 3). change 0x1c with (Z.shiftl (Z.ones 3) 2).
  rewrite !Z.land_spec, Z.shiftr_spec, !Z.land_spec, Z.lor_spec, Z.land_spec, Z.lnot_spec,
    !Z.shiftl_spec, !Z.land_spec by lia. replace (n + 2 - 2) with n by lia.
  destruct (Z.lt_ge_cases n 3) as [Hlt|Hge].
  - rewrite !Z.ones_spec_low by lia. cbn [negb]. by rewrite andb_false_r, !andb_true_r.
  - rewrite !(Z.ones_spec_high 3) by lia. by rewrite !andb_false_r.
Qed.

Lemma margin_field_masked (mask rm : Z) :
  (mask = 0x001c0000 \/ mask = 0x003c0000) -> 0 <= rm < 8 -> margin_field (u32 (Z.lor mask (Z.shiftl rm 2))) = rm.
Proof.
  intros Hm H. assert (Hset : Z.land mask (Z.lnot 0x1c) = mask) by (by destruct Hm as [-> | ->]).
  rewrite <- (margin_field_set mask rm H) at 2. unfold set_rm_field. by rewrite Hset.
Qed.

(** What a callback writes: the margin, to three registers. *)
Definition margin_writes (rm : Z) (ws : list (Z * Z)) : Prop :=
  (ws.*1 = [0x08; 0x0c; 0x10] \/ ws.*1 = [0; 4; 8]) /\ Forall (fun w => margin_field w.2 = rm) ws.

Lemma rm_loop_writes (read : Z -> Z + Z) (rm : Z) (i : opp_info) :
  0 <= rm < 8 -> (forall off, exists v, read off = inr v) ->
  exists ws, rm_loop 3 read 0 rm i = (0, i <| grf_writes ::= (fun l => l ++ ws) |>) /\ margin_writes rm ws.
Proof.
  intros H Hread. destruct (Hread 0) as [v0 E0], (Hread 4) as [v1 E1], (Hread 8) as [v2 E2].
  exists [(0, u32 (set_rm_field v0 rm)); (4, u32 (set_rm_field v1 rm)); (8, u32 (set_rm_field v2 rm))].
  split; [|split; [by right | repeat constructor; by apply margin_field_set]].
  cbn [rm_loop]. change (0 + 4) with 4. change (4 + 4) with 8. rewrite E0, E1.
  rewrite E2. destruct i. unfold regmap_write. cbn. by rewrite <- !app_assoc.
Qed.

(** No callback skips a margin that is known and not the current one. *)
Lemma read_margin_writes (data : rockchip_opp_data) (f : (Z -> Z + Z) -> Z -> opp_info -> Z * opp_info)
    (read : Z -> Z + Z) (rm : Z) (i : opp_info) :
  data ∈ rockchip_npu_of_match.*2 -> od_set_read_margin data = Some f ->
  grf i = true -> volt_rm_tbl i = true -> current_rm i = UINT_MAX -> 0 <= rm < 8 ->
  (forall off, exists v, read off = inr v) ->
  exists ws, grf_writes (f read rm i).2 = grf_writes i ++ ws /\ margin_writes rm ws.
Proof.
  intros Hin Hf Hg Ht Hc Hr Hread.
  assert (Hs : rm_skipped rm i = false).
  { unfold rm_skipped. rewrite Hg, Ht, Hc. cbn. by rewrite !(proj2 (Z.eqb_neq rm UINT_MAX)) by (unfold UINT_MAX; lia). }
  assert (f = (fun _ => rk3576_npu_set_read_margin) \/ f = rk3588_npu_set_read_margin) as [-> | ->].
  { cbn in Hin. rewrite !elem_of_cons, elem_of_nil in Hin.
    destruct Hin as [-> | [-> | [-> | [-> | []]]]]; [..|discriminate Hf]; injection Hf as <-; by auto. }
  - exists [(0x08, u32 (Z.lor 0x001c0000 (Z.shiftl rm 2))); (0x0c, u32 (Z.lor 0x003c0000 (Z.shiftl rm 2)));
            (0x10, u32 (Z.lor 0x001c0000 (Z.shiftl rm 2)))].
    unfold rk3576_npu_set_read_margin. rewrite Hs. split.
    + destruct i. cbn. by rewrite <- !app_assoc.
    + split; [by left|]. repeat constructor; apply margin_field_masked; auto.
  - unfold rk3588_npu_set_read_margin. rewrite Hs.
    destruct (rm_loop_writes read rm i Hr Hread) as (ws & -> & Hw). by exists ws.
Qed.


(** ** A witness: the RK3588 with margin 2 *)

Definition example_awake : vendor_dvfs :=
  example_vendor <| v_current_freq := 900000000 |> <| v_current_volt := 800000 |>
    <| v_opp_info ::= (fun i => i <| current_rm := 2 |>) |>.

