(* ===== verification/Debugger.v ===== *)
(** * The debugger's nodes (rknpu_debugger.c)

    The files under /sys/kernel/debug/rknpu and /proc/rknpu: what a write to a
    node does, byte by byte, what the nodes print, and how the files are created
    and removed. *)

From stdpp Require Import pretty.
From S2P Require Import Prelude Config Domain Device Reset Job Batch Commit JobInv JobStep Load Power VendorDevfreq.

(** ** What a node reads

    A buffer of user space: its bytes, and whether copy_from_user can read
    them. *)
Record user_buffer := { u_bytes : list Ascii.ascii; u_readable : bool }.
Definition u_len (b : user_buffer) : Z := Z.of_nat (length (u_bytes b)).

(** The string before the first NUL. *)
Fixpoint c_string (l : list Ascii.ascii) : list Ascii.ascii :=
  match l with
  | [] => []
  | c :: l => if Ascii.eqb c Ascii.zero then [] else c :: c_string l
  end.

(** [StrayByte]: with [len = 0] the terminator goes to [buf\[-1\]]. *)
Inductive node_text := BadLength | BadCopy | StrayByte | Text (s : list Ascii.ascii).

(** The start of every writer, with [char buf\[size\]]. *)
Definition node_input (size : Z) (b : user_buffer) : node_text :=
  if size - 1 <? u_len b then BadLength
  else if negb (u_readable b) then BadCopy
  else if u_len b =? 0 then StrayByte
  else Text (c_string (take (Z.to_nat (u_len b - 1)) (u_bytes b))).

Definition str_is (s : list Ascii.ascii) (t : string) : bool :=
  bool_decide (s = String.list_ascii_of_string t).

(** [None]: the code has written outside its buffer. *)
Definition with_text {A} (size : Z) (b : user_buffer) (s : A) (k : list Ascii.ascii -> option (Z * A))
  : option (Z * A) :=
  match node_input size b with
  | BadLength => Some (-EINVAL, s)
  | BadCopy => Some (-EFAULT, s)
  | StrayByte => None
  | Text t => k t
  end.

(** ** The nodes *)

Section Nodes.
Context (l : power_layout).

(** [polls] as for rknpu_power_put; [None] also when it needs more of them. *)
Definition rknpu_power_set (ans : on_answer) (polls : list Z) (b : user_buffer) (s : power_state)
  : option (Z * power_state) :=
  with_text 8 b s (fun t =>
    if str_is t "on" then Some (u_len b, power_set_on l ans s)
    else if str_is t "off" then
      let '(put, s) := power_set_off s in
      if put then option_map (fun r => (u_len b, r.2)) (rknpu_power_put l polls s) else Some (u_len b, s)
    else Some (u_len b, s)).

(** [kstrtoul] is the kernel's, base 10. *)
Definition rknpu_power_put_delay_set (kstrtoul : list Ascii.ascii -> Z + Z) (b : user_buffer)
    (s : power_state) : option (Z * power_state) :=
  with_text 16 b s (fun t =>
    match kstrtoul t with
    | inl _ => Some (-EFAULT, s)
    | inr v => Some (u_len b, s <| power_put_delay := v |>)
    end).

(** [update_devfreq] asks the governor and changes the frequency; [rate] is what
    the clock reads.  The power references of the vendor build are in [s.1]. *)
Definition rknpu_freq_set (kstrtoul : list Ascii.ascii -> Z + Z) (ans : on_answer) (polls : list Z)
    (update_devfreq : vendor_dvfs -> vendor_dvfs) (current : Z) (b : user_buffer)
    (s : power_state * vendor_dvfs) : option (Z * (power_state * vendor_dvfs)) :=
  with_text 16 b s (fun t =>
    match kstrtoul t with
    | inl _ => Some (-EFAULT, s)
    | inr freq =>
        if negb (v_devfreq s.2) then Some (-EFAULT, s)
        else
          let p := (rknpu_power_get l ans s.1).2 in
          let v := if negb (freq =? current) then update_devfreq (s.2 <| ondemand_freq := freq |>) else s.2 in
          option_map (fun r => (u_len b, (r.2, v))) (rknpu_power_put l polls p)
    end).
End Nodes.

(** [refs] is power_refcount. *)
Definition rknpu_reset_set {iommu : iommu_kernel} (refs : Z) (b : user_buffer) : M (option Z) :=
  match node_input 8 b with
  | BadLength => ret (Some (-EINVAL))
  | BadCopy => ret (Some (-EFAULT))
  | StrayByte => ret None
  | Text t =>
      when (str_is t "1" && (0 <? refs)) (let! _ := rknpu_soft_reset iommu in ret tt) ;;
      ret (Some (u_len b))
  end.

(** What the nodes print; the show functions that read the clock or the
    regulator take the value read. *)
Definition rknpu_version_show : string :=
  "RKNPU driver: v" +:+ pretty DRIVER_MAJOR +:+ "." +:+ pretty DRIVER_MINOR +:+ "." +:+
  pretty DRIVER_PATCHLEVEL +:+ newline.
Definition rknpu_power_show (s : power_state) : string :=
  (if 0 <? power_refcount s then "on" else "off") +:+ newline.
Definition rknpu_power_put_delay_show (s : power_state) : string := pretty (power_put_delay s) +:+ newline.
Definition rknpu_freq_show (l : power_layout) (ans : on_answer) (polls : list Z) (num_clks rate : Z)
    (s : power_state) : option (string * power_state) :=
  if num_clks <? 1 then Some ("unavailable" +:+ newline, s)
  else option_map (fun r => (pretty rate +:+ newline, r.2))
         (rknpu_power_put l polls (rknpu_power_get l ans s).2).
Definition rknpu_volt_show (vdd : option Z) : string :=
  (match vdd with Some uv => pretty (u64 uv) | None => "unavailable" end) +:+ newline.
Definition rknpu_reset_show : string := "enabled" +:+ newline.

(** ** The files *)

(** The template of a node: its name, and whether it has a write callback. *)
Definition rknpu_debugger_root_list (sram : bool) : list (string * bool) :=
  [("version", false); ("load", false); ("power", true); ("freq", true); ("volt", false);
   ("delayms", true); ("reset", true)] ++ (if sram then [("mm", false)] else []).

(** One of the two halves of struct rknpu_debugger (debugfs and procfs):
    whether it has its directory, the entry list, the files in the directory,
    and the nodes allocated and not freed. *)
Record debugger := {
  d_dir : bool;
  entry_list : list string;
  d_files : list string;
  d_nodes : Z }.
#[export] Instance debugger_settable : Settable debugger := {| settable := fun d =>
  Build_debugger (d_dir d) (entry_list d) (d_files d) (d_nodes d) |}.
Definition init_list_head : debugger :=
  {| d_dir := false; entry_list := []; d_files := []; d_nodes := 0 |}.

(** What kmalloc and the file system answer, by the name of the node. *)
Record file_answer := {
  dir_ok : bool;
  kmalloc_ok : string -> bool;
  create_ok : string -> bool }.

(** The removal frees the nodes first and takes the files away afterwards.  Every
    node of the list has its file, so none is skipped. *)
Definition free_nodes (d : debugger) : debugger :=
  d <| entry_list := [] |> <| d_nodes ::= (fun n => n - Z.of_nat (length (entry_list d))) |>.
Definition remove_dir (d : debugger) : debugger := d <| d_dir := false |> <| d_files := [] |>.
Definition remove_files (d : debugger) : debugger := remove_dir (free_nodes d).

(** Opening a file shows the node behind it: there is no file, the node was
    freed, or it is the node of that name. *)
Inductive open_result := NoFile | FreedNode | ShowsNode (name : string).
Definition rknpu_debugfs_open (name : string) (d : debugger) : open_result :=
  if negb (bool_decide (name ∈ d_files d)) then NoFile
  else if bool_decide (name ∈ entry_list d) then ShowsNode name else FreedNode.
Definition rknpu_procfs_open (name : string) (d : debugger) : open_result := rknpu_debugfs_open name d.

Fixpoint create_files (ans : file_answer) (files : list (string * bool)) (d : debugger) : Z * debugger :=
  match files with
  | [] => (0, d)
  | (name, _) :: files =>
      if negb (kmalloc_ok ans name) then (-1, remove_files d)
      else
        let d := d <| d_nodes ::= Z.succ |> in
        if negb (create_ok ans name) then (-1, remove_files (d <| d_nodes ::= Z.pred |>))
        else create_files ans files
               (d <| d_files ::= (fun l => l ++ [name]) |> <| entry_list ::= (fun l => l ++ [name]) |>)
  end.

Definition rknpu_debugfs_remove (d : debugger) : Z * debugger := (0, remove_files d).

(** The procfs half is a copy. *)
Definition procfs_remove_files (d : debugger) : debugger := remove_files d.
Definition procfs_create_files (ans : file_answer) (files : list (string * bool)) (d : debugger) : Z * debugger :=
  create_files ans files d.
Definition rknpu_procfs_remove (d : debugger) : Z * debugger := (0, procfs_remove_files d).

Definition rknpu_debugfs_init (ans : file_answer) (sram : bool) (d : debugger) : Z * debugger :=
  if negb (dir_ok ans) then (-EIO, d <| d_dir := false |>)
  else
    let '(ret, d) := create_files ans (rknpu_debugger_root_list sram) (d <| d_dir := true |>) in
    if negb (ret =? 0) then (ret, (rknpu_debugfs_remove d).2) else (0, d).
(** The procfs half is optional: no directory is no error. *)
Definition rknpu_procfs_init (ans : file_answer) (sram : bool) (d : debugger) : Z * debugger :=
  if negb (dir_ok ans) then (0, d <| d_dir := false |>)
  else
    let '(ret, d) := procfs_create_files ans (rknpu_debugger_root_list sram) (d <| d_dir := true |>) in
    if negb (ret =? 0) then (ret, (rknpu_procfs_remove d).2) else (0, d).

(** The result is 0 whatever became of the halves. *)
Definition rknpu_debugger_init (ans_debugfs ans_procfs : file_answer) (sram : bool) : Z * (debugger * debugger) :=
  (0, ((rknpu_debugfs_init ans_debugfs sram init_list_head).2,
       (rknpu_procfs_init ans_procfs sram init_list_head).2)).
Definition rknpu_debugger_remove (d : debugger * debugger) : Z * (debugger * debugger) :=
  (0, ((rknpu_debugfs_remove d.1).2, (rknpu_procfs_remove d.2).2)).

(** rknpu_debugger_write: a node without a write callback takes any text. *)
Definition rknpu_debugger_write {A} (has_write : bool) (write : user_buffer -> A -> option (Z * A))
    (b : user_buffer) (s : A) : option (Z * A) :=
  if has_write then write b s else Some (u_len b, s).

(** ** Theorems *)

Lemma c_string_id (t : list Ascii.ascii) : Ascii.zero ∉ t -> c_string t = t.
Proof.
  induction t as [|c t IH]; [done|]. intros H. cbn.
  destruct (Ascii.eqb_spec c Ascii.zero) as [->|]; [set_solver|]. f_equal. apply IH. set_solver.
Qed.

(** A text and one more byte are read as the text. *)
Lemma node_input_text (size : Z) (t : list Ascii.ascii) (c : Ascii.ascii) :
  Ascii.zero ∉ t -> Z.of_nat (length t) + 1 < size ->
  node_input size {| u_bytes := t ++ [c]; u_readable := true |} = Text t.
Proof.
  intros Hz Hl. unfold node_input, u_len. cbn [u_bytes u_readable negb]. rewrite length_app. cbn [length].
  destruct (Z.ltb_spec (size - 1) (Z.of_nat (length t + 1))); [lia|].
  destruct (Z.eqb_spec (Z.of_nat (length t + 1)) 0); [lia|].
  replace (Z.to_nat (Z.of_nat (length t + 1) - 1)) with (length t) by lia.
  by rewrite take_app_length, c_string_id.
Qed.

(** The last byte written to the power node is dropped, whatever it is:
    "on" and one more byte is a command-line reference, "off" and one more byte
    gives it back, and any other text, "on" without a newline among them, is
    taken without an error and without effect.  An empty write runs past the
    buffer. *)
Theorem power_node_drops_last_byte (l : power_layout) (ans : on_answer) (polls : list Z) (s : power_state)
    (t : list Ascii.ascii) (c : Ascii.ascii) :
  let write u := rknpu_power_set l ans polls {| u_bytes := u; u_readable := true |} s in
  (Ascii.zero ∉ t -> (length t <= 6)%nat ->
   let len := Z.of_nat (length t) + 1 in
   (str_is t "on" = true -> write (t ++ [c]) = Some (len, power_set_on l ans s)) /\
   (str_is t "off" = true -> write (t ++ [c]) =
      let '(put, s) := power_set_off s in
      if put then option_map (fun r => (len, r.2)) (rknpu_power_put l polls s) else Some (len, s)) /\
   (str_is t "on" = false -> str_is t "off" = false -> write (t ++ [c]) = Some (len, s))) /\
  write (String.list_ascii_of_string "on") = Some (2, s) /\ write [] = None.
Proof.
  split; [|by split]. intros Hz Hl len. unfold rknpu_power_set, with_text.
  rewrite node_input_text by (done || lia). unfold u_len. cbn [u_bytes]. rewrite length_app.
  change (Z.of_nat (length t + length [c])) with (Z.of_nat (length t + 1)).
  replace (Z.of_nat (length t + 1)) with len by lia.
  split; [by intros ->|]. split; [|by intros -> ->]. intros Hoff. rewrite Hoff.
  destruct (str_is t "on") eqn:Hon; [|done]. unfold str_is in *.
  apply bool_decide_eq_true in Hon, Hoff. by rewrite Hon in Hoff.
Qed.

Lemma power_node_drops_last_byte_witness :
  let l := {| multiple_domains := false; genpd_dev_npu := fun _ => false; has_state_init := false |} in
  let ans := {| clk_ret := 0; npu_ret := fun _ => 0; dev_ret := 0 |} in
  let s := {| power_refcount := 0; cmdline_power_refcount := 0; power_put_delay := 0; power_off_work := false;
              clk_enabled := 0; rt_dev := 0; rt_npu := fun _ => 0; inits := 0 |} in
  rknpu_power_set l ans [] {| u_bytes := String.list_ascii_of_string ("on" +:+ newline); u_readable := true |} s =
  Some (3, power_set_on l ans s).
Proof.
  intros l ans s.
  destruct (power_node_drops_last_byte l ans [] s (String.list_ascii_of_string "on") (Ascii.ascii_of_nat 10))
    as [H _].
  apply H; [|cbn; lia | reflexivity]. apply (bool_decide_unpack _). vm_compute. exact I.
Defined.

(** Creating the files of a list after those of [done]. *)
Lemma create_files_spec (ans : file_answer) (files : list (string * bool)) (names : list string) :
  let d := {| d_dir := true; entry_list := names; d_files := names; d_nodes := Z.of_nat (length names) |} in
  if forallb (fun f => kmalloc_ok ans f.1 && create_ok ans f.1) files then
    create_files ans files d =
      (0, {| d_dir := true; entry_list := names ++ files.*1; d_files := names ++ files.*1;
             d_nodes := Z.of_nat (length (names ++ files.*1)) |})
  else create_files ans files d = (-1, init_list_head).
Proof.
  revert names. induction files as [|[name w] files IH]; intros names d; cbn [forallb create_files fst].
  - by rewrite app_nil_r.
  - destruct (kmalloc_ok ans name), (create_ok ans name); cbn [andb negb].
    + specialize (IH (names ++ [name])). cbn zeta in IH. subst d. cbn.
      rewrite length_app in IH. cbn in IH.
      replace (Z.succ (Z.of_nat (length names))) with (Z.of_nat (length names + 1)) by lia.
      rewrite <- app_assoc in IH. exact IH.
    + unfold remove_files, init_list_head. cbn. do 2 f_equal. lia.
    + unfold remove_files, init_list_head. cbn. do 2 f_equal. lia.
    + unfold remove_files, init_list_head. cbn. do 2 f_equal. lia.
Qed.

(** Every allocation and every file creation for a half succeeds. *)
Definition files_ok (ans : file_answer) (sram : bool) : bool :=
  dir_ok ans && forallb (fun f => kmalloc_ok ans f.1 && create_ok ans f.1) (rknpu_debugger_root_list sram).
Definition all_files (sram : bool) : debugger :=
  let names := (rknpu_debugger_root_list sram).*1 in
  {| d_dir := true; entry_list := names; d_files := names; d_nodes := Z.of_nat (length names) |}.

(** What an initialisation leaves of the two halves. *)
Lemma debugger_halves (ans_debugfs ans_procfs : file_answer) (sram : bool) :
  let half ans := if files_ok ans sram then all_files sram else init_list_head in
  let '(ret, halves) := rknpu_debugger_init ans_debugfs ans_procfs sram in
  ret = 0 /\ halves = (half ans_debugfs, half ans_procfs).
Proof.
  intros half. cbn. split; [done|]. f_equal.
  - pose proof (create_files_spec ans_debugfs (rknpu_debugger_root_list sram) []) as H. cbn zeta in H.
    unfold half, files_ok, rknpu_debugfs_init. destruct (dir_ok ans_debugfs); [|done].
    change (init_list_head <| d_dir := true |>) with
      {| d_dir := true; entry_list := []; d_files := []; d_nodes := Z.of_nat (length (@nil string)) |}.
    cbn [andb negb]. destruct (forallb _ _); by rewrite H.
  - pose proof (create_files_spec ans_procfs (rknpu_debugger_root_list sram) []) as H. cbn zeta in H.
    unfold half, files_ok, rknpu_procfs_init, procfs_create_files. destruct (dir_ok ans_procfs); [|done].
    change (init_list_head <| d_dir := true |>) with
      {| d_dir := true; entry_list := []; d_files := []; d_nodes := Z.of_nat (length (@nil string)) |}.
    cbn [andb negb]. destruct (forallb _ _); by rewrite H.
Qed.

(** Rknpu_debugger_init always returns 0, and each half of the debugger
    then has all its files, one node each and in the order of the table, or
    nothing at all; rknpu_debugger_remove leaves nothing, allocated or linked. *)
Theorem debugger_files_all_or_nothing (ans_debugfs ans_procfs : file_answer) (sram : bool) :
  let half ans := if files_ok ans sram then all_files sram else init_list_head in
  let '(ret, halves) := rknpu_debugger_init ans_debugfs ans_procfs sram in
  ret = 0 /\ halves = (half ans_debugfs, half ans_procfs) /\
  rknpu_debugger_remove halves = (0, (init_list_head, init_list_head)).
Proof.
  intros half. pose proof (debugger_halves ans_debugfs ans_procfs sram) as H. cbn zeta in H. fold half in H.
  destruct (rknpu_debugger_init ans_debugfs ans_procfs sram) as [r halves]. destruct H as [-> ->].
  split; [done|]. split; [done|].
  assert (E : forall ans, remove_files (half ans) = init_list_head).
  { intros ans. subst half. cbn. destruct (files_ok ans sram); [|done].
    unfold remove_files, all_files, init_list_head. cbn. f_equal. lia. }
  unfold rknpu_debugger_remove, rknpu_debugfs_remove, rknpu_procfs_remove, procfs_remove_files. cbn [fst snd].
  by rewrite !E.
Qed.

(** Opening a file while the debugger is up shows its node.  The removal frees
    the nodes before it takes the files away, so a file opened in between leads
    to a node that was freed. *)
Lemma open_during_removal (ans_debugfs ans_procfs : file_answer) (sram : bool) (name : string) :
  let '(d, p) := (rknpu_debugger_init ans_debugfs ans_procfs sram).2 in
  name ∈ (rknpu_debugger_root_list sram).*1 ->
  (files_ok ans_debugfs sram = true ->
     rknpu_debugfs_open name d = ShowsNode name /\ rknpu_debugfs_open name (free_nodes d) = FreedNode /\
     rknpu_debugfs_open name (remove_files d) = NoFile) /\
  (files_ok ans_procfs sram = true ->
     rknpu_procfs_open name p = ShowsNode name /\ rknpu_procfs_open name (free_nodes p) = FreedNode /\
     rknpu_procfs_open name (procfs_remove_files p) = NoFile).
Proof.
  pose proof (debugger_halves ans_debugfs ans_procfs sram) as H. cbn zeta in H.
  destruct (rknpu_debugger_init ans_debugfs ans_procfs sram) as [r [d p]]. destruct H as (_ & [= -> ->]).
  intros Hn. cbn [snd].
  assert (E : rknpu_debugfs_open name (all_files sram) = ShowsNode name /\
    rknpu_debugfs_open name (free_nodes (all_files sram)) = FreedNode /\
    rknpu_debugfs_open name (remove_files (all_files sram)) = NoFile).
  { unfold rknpu_debugfs_open. cbn. by rewrite !(bool_decide_eq_true_2 _ Hn). }
  by split; intros ->.
Qed.
