(* ===== verification/Ioctl.v ===== *)
(** * The ioctl dispatch and its power bracket (rknpu_drv.c)

    Which handler an ioctl of the misc device and of the DRM device runs, and
    the power reference held around it. *)

From S2P Require Import Prelude Config Domain Device Reset Power.

Definition RKNPU_ACTION : Z := 0x00.
Definition RKNPU_SUBMIT : Z := 0x01.
Definition RKNPU_MEM_CREATE : Z := 0x02.
Definition RKNPU_MEM_MAP : Z := 0x03.
Definition RKNPU_MEM_DESTROY : Z := 0x04.
Definition RKNPU_MEM_SYNC : Z := 0x05.

(** The command number is the low byte of the request. *)
Definition IOC_NR (cmd : Z) : Z := Z.land cmd 0xff.

Section Ioctl.
Context {W : Type} (l : power_layout).

(** A handler: the argument, the power state it runs in, and the rest of the
    driver's state [W].  The handlers do not touch the power references. *)
Definition handler : Type := Z -> power_state -> W -> Z * W.
Record handlers := {
  h_action : handler; h_submit : handler; h_create : handler; h_map : handler;
  h_destroy : handler; h_sync : handler }.

(** The kernel's answers to the power-on and to the power-offs. *)
Record power_answer := { pa_on : on_answer; pa_polls : list Z }.

Definition ioctl_state : Type := power_state * W.

(** RKNPU_IOCTL: the result of rknpu_power_get is ignored.  [None]: the
    power-offs need more answers. *)
Definition with_power (pa : power_answer) (func : handler) (arg : Z) (s : ioctl_state)
  : option (Z * ioctl_state) :=
  let p := (rknpu_power_get l (pa_on pa) s.1).2 in
  let '(ret, w) := func arg p s.2 in
  option_map (fun r => (ret, (r.2, w))) (rknpu_power_put_delay l (pa_polls pa) p).
(** RKNPU_IOCTL_NOPOWER. *)
Definition without_power (pa : power_answer) (func : handler) (arg : Z) (s : ioctl_state)
  : option (Z * ioctl_state) :=
  let '(ret, w) := func arg s.1 s.2 in Some (ret, (s.1, w)).

(** The misc device; [opened] says that file->private_data is set. *)
Definition rknpu_ioctl (h : handlers) (opened : bool) (pa : power_answer) (cmd arg : Z) (s : ioctl_state)
  : option (Z * ioctl_state) :=
  if negb opened then Some (-EINVAL, s)
  else
    let nr := IOC_NR cmd in
    if nr =? RKNPU_ACTION then with_power pa (h_action h) arg s
    else if nr =? RKNPU_SUBMIT then with_power pa (h_submit h) arg s
    else if nr =? RKNPU_MEM_CREATE then without_power pa (h_create h) arg s
    else if nr =? RKNPU_MEM_MAP then Some (-EINVAL, s)
    else if nr =? RKNPU_MEM_DESTROY then without_power pa (h_destroy h) arg s
    else if nr =? RKNPU_MEM_SYNC then without_power pa (h_sync h) arg s
    else Some (-EINVAL, s).

(** The DRM device: the entry of rknpu_ioctls for a driver command. *)
Definition rknpu_ioctls (h : handlers) : list (power_answer -> Z -> ioctl_state -> option (Z * ioctl_state)) :=
  [fun pa => with_power pa (h_action h); fun pa => with_power pa (h_submit h);
   fun pa => without_power pa (h_create h); fun pa => without_power pa (h_map h);
   fun pa => without_power pa (h_destroy h); fun pa => without_power pa (h_sync h)].

(** ** The bracket as steps of the power system *)

(** The system seen by a thread that has [u] references and [k] retries. *)
Definition seen (u k : Z) (p : power_state) : power_system := {| dev := p; users := u; retries := k |}.

Lemma put_section_seen (poll u k : Z) (p : power_state) :
  put_section l poll (seen u k p) =
    seen u ((if (put_locked l poll p).1 =? 0 then 0 else 1) + k) (put_locked l poll p).2.
Proof. unfold put_section. cbn [dev seen]. by destruct (put_locked l poll p). Qed.

Lemma delay_section_seen (poll u k : Z) (p : power_state) :
  delay_section l poll (seen u k p) =
    if power_put_delay p =? 0 then
      seen u ((if (put_locked l poll p).1 =? 0 then 0 else 1) + k) (put_locked l poll p).2
    else seen u k (put_delay_locked p).
Proof.
  unfold delay_section. rewrite put_section_seen. cbn [dev seen]. by destruct (power_put_delay p =? 0).
Qed.

Lemma retry_seen (poll u k : Z) (p : power_state) :
  0 <= k -> power_step l (Retry poll) (seen u (k + 1) p) = Some (delay_section l poll (seen u k p)).
Proof.
  intros Hk. cbn [power_step seen retries]. rewrite (proj2 (Z.ltb_lt _ _)) by lia. do 2 f_equal.
  unfold seen. cbn. f_equal. lia.
Qed.
Lemma put_delay_seen (poll u k : Z) (p : power_state) :
  0 <= u -> power_step l (PutDelay poll) (seen (u + 1) k p) = Some (delay_section l poll (seen u k p)).
Proof.
  intros Hu. cbn [power_step seen users]. rewrite (proj2 (Z.ltb_lt _ _)) by lia. do 2 f_equal.
  unfold seen. cbn. f_equal. lia.
Qed.

(** From [y] to [y'] in at most [n] steps that the kernel grants. *)
Definition steps_to (n : nat) (y y' : power_system) : Prop :=
  exists ops, Forall op_ok ops /\ (length ops <= n)%nat /\ power_run l ops y = Some y'.

Lemma steps_to_cons (op : power_op) (n : nat) (y y1 y2 : power_system) :
  op_ok op -> power_step l op y = Some y1 -> steps_to n y1 y2 -> steps_to (S n) y y2.
Proof.
  intros Hop Hs (ops & H1 & H2 & H3). exists (op :: ops). split; [by constructor|].
  split; [cbn; lia|]. cbn [power_run]. by rewrite Hs.
Qed.
Lemma steps_to_refl (n : nat) (y : power_system) : steps_to n y y.
Proof. exists []. split; [done|]. split; [cbn; lia | done]. Qed.

(** A failed power-off, retried until it succeeds or a delay is set. *)
Lemma power_put_steps (polls : list Z) : forall (y : power_system) (s s' : power_state) (r u k : Z) (op : Z -> power_op),
  0 <= k -> (forall poll, op_ok (op poll)) ->
  (forall poll, power_step l (op poll) y =
    Some (seen u ((if (put_locked l poll s).1 =? 0 then 0 else 1) + k) (put_locked l poll s).2)) ->
  rknpu_power_put l polls s = Some (r, s') -> steps_to (S (length polls)) y (seen u k s').
Proof.
  induction polls as [|poll polls IH]; intros y s s' r u k op Hk Hop Hstep; cbn [rknpu_power_put]; [done|].
  specialize (Hstep poll). destruct (put_locked l poll s) as [ret s1]. cbn [fst snd] in Hstep.
  destruct (Z.eqb_spec ret 0) as [->|Hne]; cbn [negb].
  - intros [= <- <-]. apply (steps_to_cons (op poll) _ _ _ _ (Hop poll) Hstep), steps_to_refl.
  - intros H. apply (steps_to_cons (op poll) _ _ _ _ (Hop poll) Hstep).
    replace (1 + k) with (k + 1) by lia. destruct (Z.eqb_spec (power_put_delay s1) 0) as [Hd1|Hd1].
    + destruct (rknpu_power_put l polls s1) as [[r1 s2]|] eqn:E; [|done]. cbn in H. injection H as <- <-.
      apply (IH _ s1 s2 r1 u k Retry); [done | done | | done].
      intros p. rewrite retry_seen by done. rewrite delay_section_seen, Hd1. done.
    + injection H as <- <-. apply (steps_to_cons (Retry 0) _ _ (seen u k (put_delay_locked s1))); [done | |apply steps_to_refl].
      rewrite retry_seen by done. rewrite delay_section_seen. by rewrite (proj2 (Z.eqb_neq _ _) Hd1).
Qed.

Lemma put_delay_steps (polls : list Z) (s s' : power_state) (r u k : Z) :
  0 <= u -> 0 <= k -> rknpu_power_put_delay l polls s = Some (r, s') ->
  steps_to (S (length polls)) (seen (u + 1) k s) (seen u k s').
Proof.
  intros Hu Hk. unfold rknpu_power_put_delay. destruct (Z.eqb_spec (power_put_delay s) 0) as [Hd|Hd].
  - apply (power_put_steps polls _ s s' r u k PutDelay Hk); [done|].
    intros poll. rewrite put_delay_seen by done. rewrite delay_section_seen, Hd. done.
  - intros [= <- <-]. apply (steps_to_cons (PutDelay 0) _ _ (seen u k (put_delay_locked s))); [done | |apply steps_to_refl].
    rewrite put_delay_seen by done. rewrite delay_section_seen. by rewrite (proj2 (Z.eqb_neq _ _) Hd).
Qed.

(** The commands that run with the device on. *)
Definition power_handler (h : handlers) (nr : Z) : option handler :=
  if nr =? RKNPU_ACTION then Some (h_action h) else if nr =? RKNPU_SUBMIT then Some (h_submit h) else None.

Lemma with_power_holds (pa : power_answer) (func : handler) (arg u k : Z) (s s' : ioctl_state) (ret : Z) :
  on_ok (pa_on pa) -> balanced l (seen u k s.1) ->
  power_refcount s.1 + Z.of_nat (length (pa_polls pa)) < 2 ^ 31 - 2 ->
  with_power pa func arg s = Some (ret, s') ->
  exists p, clk_enabled p = 1 /\ rt_dev p = 1 /\ func arg p s.2 = (ret, s'.2) /\ balanced l (seen u k s'.1).
Proof.
  intros Hon Hb Hlt. unfold with_power. destruct s as [p0 w]. cbn [fst snd] in *.
  pose proof (power_get_balanced l (pa_on pa) (seen u k p0)
    (rknpu_power_get l (pa_on pa) p0).2 0 Hon (proj2 (balanced_0 l _) Hb)) as Hget.
  cbn [dev seen] in Hget. pose proof Hb as [B1 B2 B3 B4 B5]. cbn [users retries dev seen] in *.
  assert (Hpos : 0 <= power_refcount p0) by (rewrite B4; unfold refs; cbn; destruct (power_off_work p0); cbn; lia).
  destruct (Hget ltac:(lia) eq_refl) as (Hb1 & _ & Hr). clear Hget.
  set (p := (rknpu_power_get l (pa_on pa) p0).2) in *.
  destruct (func arg p w) as [ret' w'] eqn:Ef.
  destruct (rknpu_power_put_delay l (pa_polls pa) p) as [[r p']|] eqn:Ep; [|done]. cbn. intros [= <- <-].
  assert (Hb2 : balanced l (seen (u + 1) k p)).
  { destruct Hb1 as (H1 & H2 & H3 & H4 & H5). split; cbn in *; [lia | done | done | | done].
    unfold refs in *. cbn in *. lia. }
  exists p. destruct (ba_holds _ _ Hb2) as [Hc Hd _]. cbn [dev seen] in *.
  rewrite (proj2 (Z.ltb_lt _ _)) in Hc, Hd by lia. split; [done|]. split; [done|]. split; [exact Ef|].
  destruct (put_delay_steps _ p p' r u k B1 B2 Ep) as (ops & O1 & O2 & O3).
  apply (power_run_balanced l ops _ _ O1 Hb2); [cbn; lia | exact O3].
Qed.

(** What an ioctl with the number [nr] does to the power references and for
    its handler. *)
Definition bracketed (h : handlers) (nr arg u k : Z) (s s' : ioctl_state) (ret : Z) : Prop :=
  balanced l (seen u k s'.1) /\
  match power_handler h nr with
  | Some f => exists p, clk_enabled p = 1 /\ rt_dev p = 1 /\ f arg p s.2 = (ret, s'.2)
  | None => s'.1 = s.1
  end.

Lemma with_power_bracket (pa : power_answer) (func : handler) (arg u k : Z) (s s' : ioctl_state) (ret : Z) :
  on_ok (pa_on pa) -> balanced l (seen u k s.1) ->
  power_refcount s.1 + Z.of_nat (length (pa_polls pa)) < 2 ^ 31 - 2 ->
  with_power pa func arg s = Some (ret, s') ->
  balanced l (seen u k s'.1) /\ exists p, clk_enabled p = 1 /\ rt_dev p = 1 /\ func arg p s.2 = (ret, s'.2).
Proof.
  intros Hon Hb Hlt E. destruct (with_power_holds pa func arg u k s s' ret Hon Hb Hlt E) as (p & H1 & H2 & H3 & H4).
  split; [done|]. by exists p.
Qed.

Lemma without_power_keeps (pa : power_answer) (func : handler) (arg u k : Z) (s s' : ioctl_state) (ret : Z) :
  balanced l (seen u k s.1) -> without_power pa func arg s = Some (ret, s') ->
  balanced l (seen u k s'.1) /\ s'.1 = s.1.
Proof. intros Hb. unfold without_power. destruct (func arg s.1 s.2). by intros [= <- <-]. Qed.

Lemma ioctl_bracketed (h : handlers) (opened : bool) (pa : power_answer) (cmd arg u k : Z) (s s' : ioctl_state)
    (ret : Z) :
  on_ok (pa_on pa) -> balanced l (seen u k s.1) ->
  power_refcount s.1 + Z.of_nat (length (pa_polls pa)) < 2 ^ 31 - 2 ->
  rknpu_ioctl h opened pa cmd arg s = Some (ret, s') ->
  if opened then bracketed h (IOC_NR cmd) arg u k s s' ret else ret = -EINVAL /\ s' = s.
Proof.
  intros Hon Hb Hlt. unfold rknpu_ioctl, bracketed, power_handler.
  destruct opened; cbn [negb]; [|by intros [= <- <-]].
  repeat case_bool; try (by intros [= <- <-]); first [by apply with_power_bracket | by apply without_power_keeps].
Qed.

(** C18: Of both devices, when the kernel grants the power-on: the handlers of
    RKNPU_ACTION and RKNPU_SUBMIT run once with the clocks and the device held,
    and return what the ioctl returns; the reference is given back on every
    path, however many power-offs fail first, so that the references agree with
    their holders as before.  The other commands leave the power state as it
    is. *)
Theorem ioctl_runs_powered (h : handlers) (pa : power_answer) (arg u k : Z) (s : ioctl_state) :
  on_ok (pa_on pa) -> balanced l (seen u k s.1) ->
  power_refcount s.1 + Z.of_nat (length (pa_polls pa)) < 2 ^ 31 - 2 ->
  (forall opened cmd ret s', rknpu_ioctl h opened pa cmd arg s = Some (ret, s') ->
     if opened then bracketed h (IOC_NR cmd) arg u k s s' ret else ret = -EINVAL /\ s' = s) /\
  (forall nr f ret s', rknpu_ioctls h !! nr = Some f -> f pa arg s = Some (ret, s') ->
     bracketed h (Z.of_nat nr) arg u k s s' ret).
Proof.
  intros Hon Hb Hlt. split; [intros opened cmd ret s'; by apply ioctl_bracketed|].
  intros nr f ret s' Hf. unfold bracketed, power_handler.
  do 6 (destruct nr as [|nr]; [injection Hf as <-; first [by apply with_power_bracket | by apply without_power_keeps]|]).
  done.
Qed.
End Ioctl.
Arguments handlers : clear implicits.

(** Handlers that report the clock reference they run with and count calls. *)
Definition example_handlers : handlers Z :=
  let f := fun (_ : Z) (p : power_state) (n : Z) => (clk_enabled p, n + 1) in
  {| h_action := f; h_submit := f; h_create := f; h_map := f; h_destroy := f; h_sync := f |}.

(** An RKNPU_SUBMIT on a device that is off, whose first power-off fails. *)
Lemma ioctl_runs_powered_witness :
  let pa := {| pa_on := ok_answer; pa_polls := [-110; 0] |} in
  let p := dev (initial_power 0) in
  exists ret p', rknpu_ioctl rk3588_layout example_handlers true pa 0xc0487201 0 (p, 7) = Some (ret, (p', 8)) /\
    ret = 1 /\ balanced rk3588_layout (seen 0 0 p') /\ power_refcount p' = 0.
Proof.
  intros pa p.
  destruct (rknpu_ioctl rk3588_layout example_handlers true pa 0xc0487201 0 (p, 7)) as [[ret [p' w']]|] eqn:E;
    [|vm_compute in E; discriminate].
  destruct (ioctl_runs_powered rk3588_layout example_handlers pa 0 0 0 (p, 7)) as [H _].
  - repeat split; cbn; lia.
  - split; [done..|]. split; [done..|]. intros core. cbn. by destruct (bool_decide _).
  - vm_compute. reflexivity.
  - destruct (H true 0xc0487201 ret (p', w') E) as [Hb (q & Hq & _ & Hf)].
    cbn in Hf. injection Hf as <- <-. exists (clk_enabled q), p'. split; [done|]. split; [done|].
    split; [exact Hb|].
    assert (match rknpu_ioctl rk3588_layout example_handlers true pa 0xc0487201 0 (p, 7) with
            | Some (_, (p', _)) => power_refcount p' =? 0 | None => false end = true) as Hz by (vm_compute; reflexivity).
    rewrite E in Hz. by apply Z.eqb_eq in Hz.
Defined.
