(* ===== verification/Misc.v ===== *)
(** * The misc device /dev/rknpu as a whole (rknpu_drv.c)

    The three ways into the driver through the misc device, open, ioctl and
    release, with the handlers of the other files behind the dispatch: the
    action and submit ioctls on the device, the memory ioctls on the sessions.
    The two sides share the memory objects: a job finds its tasks through an
    object of a session.  An ioctl is one step here; the interleavings of the
    power references are in Power.v, those of the jobs in JobSched.v. *)

From S2P Require Import Prelude Config Domain Device Reset Job Batch Commit Power Mm Action Mem Ioctl.

(** ** State *)

(** [mw_mem] are the sessions, [mw_dev] the device. *)
Record misc_world := { mw_mem : mem_world; mw_dev : rknpu_device }.
#[export] Instance misc_world_settable : Settable misc_world := {| settable := fun w =>
  Build_misc_world (mw_mem w) (mw_dev w) |}.

(** What the submission of a job sees of a session's object: the tasks, which
    are user memory and an input of every call, if it has a kernel mapping. *)
Definition task_object (tasks : list rknpu_task) (o : rknpu_mem_object) : npu_object :=
  {| o_kv_addr := if mo_kv o then Some tasks else None; o_refcount := 0 |}.
Definition shared_objects (tasks : Z -> list rknpu_task) (m : gmap Z rknpu_mem_object) : gmap Z npu_object :=
  map_imap (fun p o => Some (task_object (tasks p) o)) m.

(** What one call reads from user memory and from the kernel. *)
Record misc_call := {
  ml_tasks : Z -> list rknpu_task;
  ml_action : bool * bool * Z * Z;                 (* copy in, copy out, flags, value *)
  ml_submit : option rknpu_submit * bool;          (* the arguments, copy out *)
  ml_submit_env : submit_env;
  ml_create : create_answer * rknpu_mem_create;
  ml_destroy : bool * Z;                           (* copy in, obj_addr *)
  ml_sync : bool * Z * Z * Z * Z;                  (* copy in, flags, obj_addr, offset, size *)
  ml_sgt : Z -> Z * list Z }.

(** _IOC_SIZE. *)
Definition IOC_SIZE (cmd : Z) : Z := Z.land (Z.shiftr cmd 16) 0x3fff.

Section Misc.
Context {iommu : IommuDomain} (k : iommu_kernel) (env : action_env) (l : power_layout).

(** A call on the device; no world is left after a fault. *)
Definition on_device {A} (m : M (Z * A)) (w : misc_world) : Z * option misc_world :=
  match m (mw_dev w) with
  | Ret (r, _) d => (r, Some (w <| mw_dev := d |>))
  | _ => (0, None)
  end.

Definition on_sessions {A} (r : option (Z * A)) (f : A -> mem_world) (w : misc_world) : Z * option misc_world :=
  match r with
  | Some (r, a) => (r, Some (w <| mw_mem := f a |>))
  | None => (0, None)
  end.

(** The job side sees the objects of the sessions. *)
Definition share (c : misc_call) (w : misc_world) : misc_world :=
  w <| mw_dev ::= (fun d => d <| Device.mem_objects := shared_objects (ml_tasks c) (mem_objs (mw_mem w)) |>) |>.

(** The handlers behind the dispatch, on a world that has not faulted. *)
Definition after_fault (f : misc_world -> Z * option misc_world) : handler (W := option misc_world) :=
  fun _ _ w => match w with Some w => f w | None => (0, None) end.

Definition misc_handlers (c : misc_call) (file cmd : Z) : handlers (option misc_world) :=
  {| h_action := after_fault (fun w =>
       let '(copy_in, copy_out, flags, value) := ml_action c in
       on_device (rknpu_miscdev_action_ioctl k env copy_in copy_out flags value) w);
     h_submit := after_fault (fun w =>
       on_device (rknpu_miscdev_submit_ioctl k (ml_submit_env c) (ml_submit c).1 (ml_submit c).2) (share c w));
     h_create := after_fault (fun w =>
       let '(r, _, m) := rknpu_mem_create_ioctl (ml_create c).1 file (IOC_SIZE cmd) (ml_create c).2 (mw_mem w) in
       (r, Some (share c (w <| mw_mem := m |>))));
     h_map := after_fault (fun w => (-EINVAL, Some w));
     h_destroy := after_fault (fun w =>
       let '(r, w) := on_sessions (rknpu_mem_destroy_ioctl (ml_destroy c).1 file (ml_destroy c).2 (mw_mem w)) id w in
       (r, share c <$> w));
     h_sync := after_fault (fun w =>
       let '(copy_in, flags, obj_addr, offset, size) := ml_sync c in
       on_sessions (rknpu_mem_sync_ioctl copy_in file flags obj_addr offset size (ml_sgt c) (mw_mem w))
         (fun _ => mw_mem w) w) |}.

(** ** The file operations *)

(** The power system as the other threads see it, and the world. *)
Record misc_state := { mc_power : power_system; mc_world : option misc_world }.

(** private_data is set when the file has a session. *)
Definition has_session (file : Z) (s : misc_state) : bool :=
  match mc_world s with
  | Some w => bool_decide (is_Some (sessions (mw_mem w) !! file))
  | None => false
  end.

Definition misc_ioctl (c : misc_call) (pa : power_answer) (file cmd : Z) (s : misc_state)
  : option (Z * misc_state) :=
  let y := mc_power s in
  option_map (fun r => (r.1, {| mc_power := seen (users y) (retries y) r.2.1; mc_world := r.2.2 |}))
    (rknpu_ioctl l (misc_handlers c file cmd) (has_session file s) pa cmd 0 (dev y, mc_world s)).

Definition misc_open (kzalloc_ok : bool) (file : Z) (s : misc_state) : option (Z * misc_state) :=
  match mc_world s with
  | None => None
  | Some w =>
      let '(r, m) := rknpu_open kzalloc_ok file (mw_mem w) in
      Some (r, {| mc_power := mc_power s; mc_world := Some (w <| mw_mem := m |>) |})
  end.

Definition misc_release (c : misc_call) (file : Z) (s : misc_state) : option (Z * misc_state) :=
  match mc_world s with
  | None => None
  | Some w =>
      match rknpu_release file (mw_mem w) with
      | None => Some (0, {| mc_power := mc_power s; mc_world := None |})
      | Some (r, m) => Some (r, {| mc_power := mc_power s; mc_world := Some (share c (w <| mw_mem := m |>)) |})
      end
  end.

(** ** The system *)

Inductive misc_op :=
  | MiscOpen (kzalloc_ok : bool) (file : Z)
  | MiscIoctl (c : misc_call) (pa : power_answer) (file cmd : Z)
  | MiscRelease (c : misc_call) (file : Z)
  | MiscPower (op : power_op)                     (* the power references of others *)
  | MiscDevice (d : rknpu_device).                (* interrupts and work on the device *)

Definition misc_step (op : misc_op) (s : misc_state) : option misc_state :=
  match op with
  | MiscOpen ok file => option_map snd (misc_open ok file s)
  | MiscIoctl c pa file cmd => option_map snd (misc_ioctl c pa file cmd s)
  | MiscRelease c file => option_map snd (misc_release c file s)
  | MiscPower op => option_map (fun y => {| mc_power := y; mc_world := mc_world s |}) (power_step l op (mc_power s))
  | MiscDevice d => Some {| mc_power := mc_power s; mc_world := (fun w => w <| mw_dev := d |>) <$> mc_world s |}
  end.

(** The steps the kernel makes: it grants the power-on, opens a file once and
    releases an open one; a create is [clean] and its object at a new address. *)
Definition misc_allowed (op : misc_op) (s : misc_state) : Prop :=
  match op with
  | MiscOpen _ file => has_session file s = false
  | MiscIoctl c pa file cmd =>
      on_ok (pa_on pa) /\
      power_refcount (dev (mc_power s)) + Z.of_nat (length (pa_polls pa)) < 2 ^ 31 - 2 /\
      clean (ml_create c).1 (IOC_SIZE cmd) (ml_create c).2 /\
      forall w p, mc_world s = Some w -> ca_kzalloc (ml_create c).1 = Some p -> mem_objs (mw_mem w) !! p = None
  | MiscRelease _ file => has_session file s = true
  | MiscPower op => op_ok op /\ power_refcount (dev (mc_power s)) + 1 < 2 ^ 31
  | MiscDevice _ => True
  end.

Inductive misc_reach : misc_state -> Prop :=
  | MiscStart v d : misc_reach {| mc_power := initial_power v;
                                  mc_world := Some {| mw_mem := empty_world; mw_dev := d |} |}
  | MiscStep op s s' : misc_reach s -> misc_allowed op s -> misc_step op s = Some s' -> misc_reach s'.

(** The two invariants, of the power references and of the sessions. *)
Definition sessions_ok (w : option misc_world) : Prop :=
  match w with Some w => listed (mw_mem w) /\ counted (mw_mem w) | None => True end.
Record misc_inv (s : misc_state) : Prop := {
  mi_power : balanced l (mc_power s);
  mi_sessions : sessions_ok (mc_world s);
}.

(** What every handler keeps of the world, the dispatch keeps. *)
Lemma dispatch_keeps (P : option misc_world -> Prop) (h : handlers (option misc_world)) (opened : bool)
    (pa : power_answer) (cmd arg ret : Z) (s s' : ioctl_state (W := option misc_world)) :
  P s.2 -> (forall f p, opened = true -> f ∈ [h_action h; h_submit h; h_create h; h_destroy h; h_sync h] ->
              P (f arg p s.2).2) ->
  rknpu_ioctl l h opened pa cmd arg s = Some (ret, s') -> P s'.2.
Proof.
  intros H0 Hf. unfold rknpu_ioctl. destruct opened; cbn [negb]; [|by intros [= _ <-]].
  assert (Hwith : forall f, f ∈ [h_action h; h_submit h; h_create h; h_destroy h; h_sync h] ->
    with_power l pa f arg s = Some (ret, s') -> P s'.2).
  { intros f Hin H. unfold with_power in H. specialize (Hf f (rknpu_power_get l (pa_on pa) s.1).2 eq_refl Hin).
    destruct (f arg _ s.2) as [r w]. destruct (rknpu_power_put_delay _ _ _); [|done]. by injection H as _ <-. }
  assert (Hwithout : forall f, f ∈ [h_action h; h_submit h; h_create h; h_destroy h; h_sync h] ->
    without_power pa f arg s = Some (ret, s') -> P s'.2).
  { intros f Hin H. unfold without_power in H. specialize (Hf f s.1 eq_refl Hin).
    destruct (f arg _ s.2) as [r w]. by injection H as _ <-. }
  repeat case_bool; try (by intros [= _ <-]); first [apply Hwith; set_solver | apply Hwithout; set_solver].
Qed.

(** The step of one session operation. *)
Lemma session_step_ok (op : mem_op) (w : misc_world) (m : mem_world) :
  sessions_ok (Some w) -> mem_allowed op (mw_mem w) -> mem_step op (mw_mem w) = Some m -> listed m /\ counted m.
Proof.
  intros [H1 H2] Ha Hs. destruct (mem_step_ok op (mw_mem w) H1 H2 Ha) as (m' & E & H). by rewrite Hs in E; injection E as ->.
Qed.

Lemma handlers_keep_sessions (c : misc_call) (file cmd : Z) (w : option misc_world) (f : handler) (arg : Z)
    (p : power_state) :
  sessions_ok w ->
  match w with Some w => is_Some (sessions (mw_mem w) !! file) | None => False end ->
  clean (ml_create c).1 (IOC_SIZE cmd) (ml_create c).2 ->
  (forall v q, w = Some v -> ca_kzalloc (ml_create c).1 = Some q -> mem_objs (mw_mem v) !! q = None) ->
  f ∈ [h_action (misc_handlers c file cmd); h_submit (misc_handlers c file cmd);
       h_create (misc_handlers c file cmd); h_destroy (misc_handlers c file cmd);
       h_sync (misc_handlers c file cmd)] ->
  sessions_ok (f arg p w).2.
Proof.
  intros Hw Hs Hc Hfresh Hin. destruct w as [w|]; [|done]. specialize (Hfresh w).
  assert (Hdev : forall A (m : M (Z * A)) v, mw_mem v = mw_mem w -> sessions_ok (on_device m v).2).
  { intros A m v Hv. unfold on_device. destruct (m (mw_dev v)) as [[r x] d| |]; [|done|done]. cbn. by rewrite Hv. }
  repeat (apply elem_of_cons in Hin as [->|Hin]); [..|by apply elem_of_nil in Hin]; cbn.
  - destruct (ml_action c) as [[[ci co] flags] value]. by apply Hdev.
  - by apply Hdev.
  - destruct (rknpu_mem_create_ioctl _ _ _ _ _) as [[r out] m] eqn:E. cbn.
    apply (session_step_ok (MemCreate (ml_create c).1 file (IOC_SIZE cmd) (ml_create c).2) w); [done | | by cbn; rewrite E].
    split; [done|]. split; [done|]. intros q. by apply Hfresh.
  - unfold on_sessions. destruct (rknpu_mem_destroy_ioctl _ _ _ _) as [[r m]|] eqn:E; [|done]. cbn.
    apply (session_step_ok (MemDestroy (ml_destroy c).1 file (ml_destroy c).2) w); [done | done | by cbn; rewrite E].
  - destruct (ml_sync c) as [[[[ci flags] addr] off] size]. unfold on_sessions.
    by destruct (rknpu_mem_sync_ioctl _ _ _ _ _ _ _ _) as [[r ops]|].
Qed.

Lemma has_session_world (file : Z) (s : misc_state) :
  has_session file s = true -> exists w, mc_world s = Some w /\ is_Some (sessions (mw_mem w) !! file).
Proof.
  unfold has_session. destruct (mc_world s) as [w|]; [|done]. intros H%bool_decide_eq_true. by exists w.
Qed.

Lemma misc_step_inv (op : misc_op) (s s' : misc_state) :
  misc_inv s -> misc_allowed op s -> misc_step op s = Some s' -> misc_inv s'.
Proof.
  intros [Hp Hw] Ha H. destruct op as [ok file|c pa file cmd|c file|op|d]; cbn in Ha, H.
  - unfold misc_open in H. destruct (mc_world s) as [w|] eqn:Ew; [|done].
    destruct (rknpu_open ok file (mw_mem w)) as [r m] eqn:Eo. injection H as <-. split; [done|]. cbn.
    apply (session_step_ok (MemOpen ok file) w); [done | | by cbn; rewrite Eo]. cbn.
    unfold has_session in Ha. rewrite Ew in Ha. apply bool_decide_eq_false in Ha. by apply eq_None_not_Some.
  - destruct Ha as (Hon & Hlt & Hc & Hfresh). unfold misc_ioctl in H.
    destruct (rknpu_ioctl _ _ _ _ _ _ _) as [[r s1]|] eqn:E; [|done]. injection H as <-. split; cbn.
    + assert (Hb : balanced l (seen (users (mc_power s)) (retries (mc_power s)) (dev (mc_power s), mc_world s).1))
        by (destruct Hp; by split).
      pose proof (ioctl_bracketed l _ _ _ _ _ _ _ _ _ _ Hon Hb Hlt E) as Hbr.
      destruct (has_session file s); [apply Hbr|]. destruct Hbr as [_ ->]. exact Hb.
    + apply (dispatch_keeps sessions_ok) in E; [exact E | exact Hw|]. intros f p Hs Hin.
      apply has_session_world in Hs as (w & Ew & Hs). cbn [snd]. rewrite Ew in *.
      apply (handlers_keep_sessions c file cmd); done.
  - unfold misc_release in H. apply has_session_world in Ha as (w & Ew & Hs). rewrite Ew in H, Hw.
    destruct (rknpu_release file (mw_mem w)) as [[r m]|] eqn:E; injection H as <-; [|by split].
    split; [done|]. cbn. apply (session_step_ok (MemRelease file) w); [done | done | by cbn; rewrite E].
  - destruct Ha as [Hop Hlt]. destruct (power_step l op (mc_power s)) as [y|] eqn:E; [|done]. injection H as <-.
    split; [|done]. cbn. apply (power_step_balanced l op (mc_power s) y) in E as [E _]; [done|done|done|lia].
  - injection H as <-. split; [done|]. cbn. by destruct (mc_world s).
Qed.

Lemma misc_reach_inv (s : misc_state) : misc_reach s -> misc_inv s.
Proof.
  induction 1 as [v d|op s s' _ IH Ha Hs]; [|by eapply misc_step_inv].
  split; [split; [done..|]; split; [done..|]; intros core; cbn; by destruct (_ && _)|]. cbn.
  apply (mem_reach_inv empty_world MemStart).
Qed.
End Misc.


(** A commit whose task object is no object. *)
Lemma commit_without_object (job core : Z) (d : rknpu_device) (j : rknpu_job) (a : rknpu_submit) :
  jobs d !! job = Some j -> args_mem d !! j_args j = Some a -> j_use_drm_gem j = false ->
  a_task_obj_addr a <> 0 -> Device.mem_objects d !! a_task_obj_addr a = None ->
  rknpu_job_subcore_commit_pc job core d = Fault WildPointer.
Proof.
  intros Hj Ha Hgem Hne Hnone. unfold rknpu_job_subcore_commit_pc, get_job, get_args, bind, gets, lookup_or.
  rewrite Hj. cbn. rewrite Ha. cbn. rewrite (proj2 (Z.eqb_neq _ _) Hne), Hgem.
  unfold get_object, bind, gets, lookup_or. by rewrite Hnone.
Qed.

(** C40: The destroy ioctl does not look at the jobs.  After it succeeded, the commit
    of a job of the misc device that takes its tasks from the object follows a
    pointer that is no object. *)
Theorem misc_destroy_strands_job {iommu : IommuDomain} (k : iommu_kernel) (env : action_env) (l : power_layout)
    (c : misc_call) (pa : power_answer) (file cmd addr : Z) (s s' : misc_state) (w' : misc_world) :
  misc_reach k env l s -> IOC_NR cmd = RKNPU_MEM_DESTROY -> ml_destroy c = (true, addr) -> addr <> 0 ->
  misc_ioctl k env l c pa file cmd s = Some (0, s') -> mc_world s' = Some w' ->
  forall job core j a, jobs (mw_dev w') !! job = Some j -> args_mem (mw_dev w') !! j_args j = Some a ->
    j_use_drm_gem j = false -> a_task_obj_addr a = addr ->
    rknpu_job_subcore_commit_pc job core (mw_dev w') = Fault WildPointer.
Proof.
  intros Hr Hnr Hd Hne H Ew' job core j a Hj Ha Hgem Hobj. apply misc_reach_inv in Hr as [_ Hw].
  unfold misc_ioctl, rknpu_ioctl in H. destruct (has_session file s) eqn:Hs; cbn [negb] in H; [|done].
  apply has_session_world in Hs as (w & Ew & [lst Hl]). rewrite Ew, Hnr in *. destruct Hw as [Hli Hco].
  cbn in H. unfold without_power in H. cbn in H. rewrite Hd in H. cbn [fst snd] in H.
  unfold rknpu_mem_destroy_ioctl in H. cbn [negb] in H. rewrite Hl in H.
  case_bool_decide as Hin; [|done]. destruct (li_live _ Hli _ _ _ Hl Hin) as [o Ho].
  set (w1 := (mw_mem w) <| sessions ::= <[file := list_del addr lst]> |>) in H.
  destruct (free_object_ok addr o w1) as (w2 & E & _ & Eo & _); [by destruct Hco | done|].
  rewrite E in H. cbn in H. injection H as <-. injection Ew' as <-. cbn in Hj, Ha.
  assert (Hnone : Device.mem_objects (mw_dev (share c (w <| mw_mem := w2 |>))) !! addr = None).
  { cbn. unfold shared_objects. rewrite map_lookup_imap, Eo. cbn. by rewrite lookup_delete_eq. }
  apply (commit_without_object job core _ j a);
    [exact Hj | exact Ha | exact Hgem | by rewrite Hobj | rewrite Hobj; exact Hnone].
Qed.

(** *** A file allocates a buffer, and destroys it while a job waits for it *)

Section Example.
#[local] Existing Instance iommu_domain_stub.

Definition example_call : misc_call :=
  {| ml_tasks := fun _ => replicate 12 (example_task 0x300); ml_action := (true, true, RKNPU_GET_IOMMU_EN, 0);
     ml_submit := (None, true);
     ml_submit_env := {| e_job_ok := true; e_args_ok := true; e_in_fence := None; e_fence_ok := true; e_fd := 3;
       e_sync_file_ok := true; e_waits := []; e_scheduled := id; e_abort_sleep := id |};
     ml_create := (good_answer 64, example_create 0 RKNPU_MEM_KERNEL_MAPPING); ml_destroy := (true, 64);
     ml_sync := (true, 0, 64, 0, 0); ml_sgt := fun _ => (0, []) |}.

(** A device with a job of the misc device that takes its tasks from object 64. *)
Definition example_misc_device : rknpu_device :=
  (example_dev rk3588_rknpu_config []) <| args_mem := {[ 20 := example_args RKNPU_JOB_PC 1 3 ]} |>
    <| jobs := {[ 10 := new_job 20 (example_args RKNPU_JOB_PC 1 3) 500 ]} |>.

Definition example_misc_start : misc_state :=
  {| mc_power := initial_power 500; mc_world := Some {| mw_mem := empty_world; mw_dev := example_misc_device |} |}.
Definition example_misc_step (op : misc_op) (s : misc_state) : misc_state :=
  default s (misc_step (example_kernel 0) example_env rk3588_layout op s).
Definition example_misc_opened : misc_state := example_misc_step (MiscOpen true 1) example_misc_start.
Definition example_power_answer : power_answer := {| pa_on := ok_answer; pa_polls := [0] |}.
Definition example_misc_created : misc_state :=
  example_misc_step (MiscIoctl example_call example_power_answer 1 0xc0306802) example_misc_opened.

Lemma example_misc_next (op : misc_op) (s : misc_state) :
  misc_reach (example_kernel 0) example_env rk3588_layout s -> misc_allowed op s ->
  (match misc_step (example_kernel 0) example_env rk3588_layout op s with Some _ => true | None => false end = true) ->
  misc_reach (example_kernel 0) example_env rk3588_layout (example_misc_step op s).
Proof.
  intros Hr Ha H. unfold example_misc_step. destruct (misc_step _ _ _ op s) as [s'|] eqn:E; [|done].
  by apply (MiscStep _ _ _ op s s').
Qed.

Lemma example_misc_reach : misc_reach (example_kernel 0) example_env rk3588_layout example_misc_created.
Proof.
  apply example_misc_next; [apply example_misc_next| |].
  - apply MiscStart.
  - vm_compute. reflexivity.
  - vm_compute. reflexivity.
  - split; [done|]. split; [vm_compute; reflexivity|]. split; [split; vm_compute; auto|].
    intros w p Hw [= <-]. vm_compute in Hw. injection Hw as <-. vm_compute. reflexivity.
  - vm_compute. reflexivity.
Qed.


Lemma misc_destroy_strands_job_witness :
  match misc_ioctl (example_kernel 0) example_env rk3588_layout example_call example_power_answer 1 0xc0106804
          example_misc_created with
  | Some (r, s') => r = 0 /\
      match mc_world s' with
      | Some w' => rknpu_job_subcore_commit_pc 10 0 (mw_dev w') = Fault WildPointer
      | None => False
      end
  | None => False
  end.
Proof.
  assert (match misc_ioctl (example_kernel 0) example_env rk3588_layout example_call example_power_answer 1 0xc0106804
      example_misc_created with
    | Some (r, s') => (r =? 0) && match mc_world s' with
        | Some w' =>
            match jobs (mw_dev w') !! 10 with
            | Some j => (j_args j =? 20) && negb (j_use_drm_gem j)
            | None => false
            end &&
            match args_mem (mw_dev w') !! 20 with Some a => a_task_obj_addr a =? 64 | None => false end
        | None => false end
    | None => false end = true) as Hrun by (vm_compute; reflexivity).
  destruct (misc_ioctl _ _ _ _ _ _ _ _) as [[r s']|] eqn:E; [|done].
  apply andb_true_iff in Hrun as [->%Z.eqb_eq Hrun]. split; [done|].
  destruct (mc_world s') as [w'|] eqn:Ew; [|done]. apply andb_true_iff in Hrun as [Hj Ha].
  destruct (jobs (mw_dev w') !! 10) as [j|] eqn:Ej; [|done].
  apply andb_true_iff in Hj as [Hargs%Z.eqb_eq Hg%negb_true_iff].
  destruct (args_mem (mw_dev w') !! 20) as [a|] eqn:Ea; [|done]. apply Z.eqb_eq in Ha. rewrite <- Hargs in Ea.
  apply (misc_destroy_strands_job (example_kernel 0) example_env rk3588_layout example_call example_power_answer
    1 0xc0106804 64 example_misc_created s' w' example_misc_reach eq_refl eq_refl ltac:(done) E Ew 10 0 j a Ej Ea Hg Ha).
Defined.
End Example.
